(* ===== verification/_CoqProject ===== *)
-Q . S2P
Prelude.v
Utils.v
IdentifierDB.v
XdrRuntime.v
XdrRFC4506.v
Words.v
RpcTypes.v
XdrVMAccel.v
XdrVMCL.v
XdrVMXC.v
XdrAll.v
Backend.v
BackendOps.v
BackendPower.v
BackendLemmas.v
BackendFrame.v
SimCL.v
BackendTransfer.v
BackendDispatch.v
BackendInvariants.v
BackendData.v
BackendBehaviour.v
Server.v
SunRPC.v
Program.v
Protocol.v
Answers.v
Service.v
Calls.v
ServicePower.v
Allocator.v
AllocTypes.v
AllocPool.v
Ledger.v
Accounting.v
Manager.v
Placement.v
SelfTest.v
ManagerService.v
Address.v
Stream.v
StreamServer.v
StreamSim.v
StreamClient.v
StreamThreads.v
StreamRaces.v
Objects.v
Accelerator.v
Operations.v
Execute.v
Coherence.v
Lifecycle.v
Stack.v
Spirv.v
SpirvClone.v
Vmxc.v
SimSpirv.v
VmxcCalls.v
RegAnalysis.v
Daemon.v
Mains.v
Skeletons.v
Values.v
