(* ===== verification/Prelude.v ===== *)
(** * vmaccel: verification of the VMware accelerator interface

    ** The program

    vmaccel lets a client run compute work on an accelerator that may be in
    another process or on another machine.  Its parts, from the bottom up:

    - common utilities (common/src/vmaccel_utils.c): bit searches, clock
      differences, the identifier database every component allocates its ids
      from, the mutexes of the services, address conversion;
    - the wire format (common/inc/vmaccel_rpc.h, vmcl_rpc.h and the filters of
      accelerators/vmaccel/src/vmaccel_rpc_xdr.c, accelerators/vmcl/src/
      vmcl_rpc_xdr.c), over the XDR library;
    - the OpenCL backend (backends/vmwopencl/src/vmwopencl_ops.c): tables of
      contexts, queues, surfaces, samplers and kernels, and the handlers that
      drive the OpenCL runtime;
    - the vmcl program: the service (accelerators/vmcl/src/vmcl_rpc_server.c)
      that counts its users and routes requests to the backend, the dispatcher
      of network requests (vmcl_rpc_svc.c), and the client stubs (vmcl_clnt.c)
      that call the service in their own process or through Sun RPC;
    - the accelerator manager (accelerators/vmaccel/src/vmaccel_manager.cpp
      over common/inc/vmaccel_allocator.hpp and the vmaccel_types_*.hpp
      resource types) with its service and stubs (vmaccel_mgr_server.c,
      vmaccel_mgr_svc.c, vmaccel_mgr_clnt.c);
    - the data streams (common/src/vmaccel_stream.c), a side channel of TCP
      connections for surface contents;
    - the C++ object layer (common/inc/vmaccel.hpp, vmaccel_compute.hpp):
      surfaces with a copy in the client and in every context they were sent
      to, contexts, kernels and operations, all of them calls of the stubs;
    - the transcoder (frontends/vmxc): a service that validates and clones
      SPIR-V modules with SPIRV-Tools;
    - the daemons: the main functions that announce the programs to the port
      mapper, power the components on and register with the manager
      (vmcl_rpc_svc.c, vmaccel_mgr_svc.c, common/inc/vmaccel_mgr_utils.h).

    ** How it is modelled

    A C function is a state transformer of the monad [M] of this file: it
    returns a value and a new state, or it stops with a [fault] (a failed
    assertion, an access outside an object, a mutex that is not free, the end
    of the process, a library used outside its specification).  Machine
    integers are elements of [Z] with explicit wrapping ([u32], [s32], [u64]).
    Every loop of the modelled code but the connection loops of the stream
    server is bounded by data the code holds, so all loops are structural
    recursions over a counter or a list.

    Code outside the repository is a class: [XdrRuntime] with its laws
    [XdrLaws] (xdr(3)), [OpenCL] (the runtime's entry points), [SunRPC] with
    [SunRPCLaws] (rpc(3)), [POSIX] with [POSIXLaws] (sockets and threads of the
    streams), [StreamHost] with [StreamHostLaws] (memory and callbacks around
    the streams), [SPIRVTools] with [SPIRVToolsLaws] (libspirv.h), [Malloc]
    with [MallocLaws], [Portmap] with [PortmapLaws] (the port mapper).  The object
    layer is proved against the class [VMCL] of the stubs, which Stack
    discharges with the stubs of this development.  Each other class has a concrete instance (XdrRFC4506, SimCL, SunRPC,
    StreamSim, SimSpirv, Daemon) on which the witnesses of the theorems run.

    ** Files

    - Prelude: the monad, integers, tactics, lemmas on lists and bits.
    - Utils: modules [BitMask] (BitMask_FindFirstZero/One) and [Time]
      (DiffTime).
    - IdentifierDB: the identifier database, one definition per function, its
      representation invariant and the set of ids it stands for.
    - XdrRuntime, XdrRFC4506, Words: the XDR library as a class with laws, what it
      means for a filter to be lawful, and the encoding of RFC 4506 as an
      instance, and words in memory.  RpcTypes: a record per structure and
      union of the two protocols.  XdrVMAccel, XdrVMCL: a definition per
      generated filter.  XdrVMXC: types and filters of the transcoder and of
      the callbacks.  XdrAll: the list of the filters and the theorems over
      it.
    - Backend: the state of the backend (tables, mutexes, retained results, the
      OpenCL class).  BackendOps: a definition per handler vmwopencl_*_1.
      BackendPower: power management, device discovery, contexts.  SimCL: an
      OpenCL runtime for witnesses.  BackendLemmas, BackendFrame,
      BackendTransfer, BackendDispatch: how each handler runs, what it leaves
      alone.  BackendInvariants, BackendData, BackendBehaviour: the backend's
      theorems.
    - Server: vmcl_rpc_server.c.  SunRPC: the RPC library.  Program: the
      dispatcher and stubs rpcgen writes for a table of procedures, which every
      program but vmcl instantiates.  Protocol: the dispatcher vmcl_1 and the
      stubs vmcl_*_2 over one type of procedures, vmaccel_utils.c's service
      mutexes.  Answers, Service: every answer fits
      the wire format; the service runs one backend request per call.  Calls,
      ServicePower: the theorems on calls and on power management.
    - Allocator: the class template VMAccelAllocator over a class of resource
      types (AllocType); AllocTypes: modules [Desc], [Int] and [Range], the
      three instances.  AllocPool, Ledger, Accounting: the pool of free objects,
      the totals per accelerator, and how each operation runs.  Manager: the
      accelerator manager, its power-on self test, service routines, dispatcher
      and stubs.  Placement, SelfTest, ManagerService: the manager's theorems.
    - Address: address conversion, with the C library's inet_ntoa and inet_addr.
    - Stream: vmaccel_stream.c.  StreamServer, StreamClient: what a server does
      with a connection and what a client puts on it.  StreamSim: a network and
      a host for witnesses.  StreamThreads: callers and client threads as
      a step relation whose steps are the stages at which they touch the shared
      state, an operation of the database being one stage.  StreamRaces: what
      two callers inside the database do, and other interleavings that go
      wrong.
    - Objects: accelerator, surface and clcontext of the C++ object layer over
      the class [VMCL] of stubs.  The backings of surfaces are addresses in a
      memory, so that surfaces can share one.  Accelerator: its construction and destruction.
      Operations: kernels and operations.  Execute: compute::execute.
      Coherence: what a context marked consistent holds.  Lifecycle: mutexes,
      downloads, retries.  Stack: the class instantiated by the stubs of
      Protocol, down to the simulated runtime.  Values: the plain values of the
      layer (address, work_topology, binding, compute::kernel).
    - Spirv, SpirvClone, Vmxc: the transcoder service of frontends/vmxc over
      the class [SPIRVTools]: building SPIR-V, the cloner with its parser
      callbacks, the routines of vmxc_server.c.  SimSpirv: a SPIR-V reader for
      witnesses.  VmxcCalls: its theorems.  RegAnalysis: the register usage
      pass (transcoders/reg_analysis_pass.cpp).
    - Daemon: how each main announces its program to the port mapper, and the
      registration of the vmcl daemon with the manager (vmaccel_mgr_utils.h).
      Mains: main of the manager and of the vmcl daemon up to svc_run and after
      it.  Skeletons: the programs VMACCEL, VMACCEL_CALLBACK and VMCL_CALLBACK,
      whose routines are the ones rpcgen writes, with their stubs.

    ** Theorems

    - Identifiers: the database refines a set of ids under any sequence of
      activity tests, acquisitions and releases; allocation is exact for clients that only allocate and
      release; range operations are exact on aligned ranges.  The drift of the
      free count when ids are taken with AcquireId, and where it ends, are
      theorems too.
    - Wire format: every filter round-trips, whatever bytes arrive decode to a
      value within the format's bounds, and the filters with an inline fast
      path do the same whether or not they get the buffer.
    - Backend: ids and live objects agree in every reachable state; mutexes are
      balanced; generations move forward; each data handler refines its atomic
      description; what refused and failed requests leave behind.
    - Service: a remote call answers as a local one; whatever messages arrive,
      the backend stays consistent; lost and refused messages, service
      mutexes, power management and reference counts.
    - Manager: while registrations and requests are such that its accounts can
      hold them, free and allocated capacity add up to what was registered, an
      allocation has one of five outcomes and freeing restores; what becomes of
      the accounts with a request outside these; remote calls answer as the
      service; the self test passes.
    - Streams: a connection is one delivery of its uploads; an upload from the
      client's memory to the service; callers and threads hold distinct indices
      under every interleaving of their stages, and two callers inside the
      database the same; what a transmission leaves on the wire.  IPv4 addresses
      survive the conversion to text and back.
    - Objects: what the last transfer to a context marked consistent carried,
      and which marks a download, a new allocation and a shared backing leave
      wrong; the mutexes of contexts are
      balanced; a dispatch ends; an execution releases what it allocated; an
      accelerator switches off what it switched on; a dispatch has one
      dimension, whatever the topology.
    - Transcoder: a module that is accepted comes back byte for byte; what a
      refused module and another target language are answered with; which
      messages stop the service; what the register usage pass counts.
    - Daemons: which server the clients of a program reach after any sequence
      of starts; a daemon that serves has announced itself; a request for a
      registered accelerator is answered with the address of its daemon, if it
      is the only one in the pool.

    ** Not modelled

    - svc_run and the transports of the daemons, which are the RPC library's,
      and the logging of their mains.
    - Of the C++ object layer: copy constructors other than that of a surface,
      reference counts (an object is destroyed where the code drops its last
      reference, a backing is never freed) and threads that share a context.
    - The passes of frontends/vmxc/src/transcoders that only print
      (cout_*.cpp), diagnostics, test clients and examples (fixed sequences of
      the modelled calls), and vmaccel_rpc_manager.c and vmaccel_rpc_mgr.c,
      which no build target uses.
    - vmaccel_callback_rpc_svc.c does not compile as it stands (the name of a
      version is split): it is modelled with the name joined.  The templates of
      vmaccel_utils.cpp, which nothing uses, cast a bitset to an integer and
      cannot be instantiated: they are left out.
    - In the modelled parts: that pthread_mutex_lock of a service mutex fails,
      that two threads of one client share the static result of a stub, and
      that malloc fails inside a handler.
    - The backend is the build without streaming (ENABLE_DATA_STREAMING is 0),
      so the map callbacks of the streams are a class and not the backend.
    - In the streams: recv that blocks (the simulated peer has always sent or
      closed), a second process of the same module on one identifier database,
      statistics and logging.  The loops over connections and packets have no
      bound in the code: accept_loop and serve_connection take one, and
      connection_delivers shows that as many passes as uploads are enough. *)

From Stdlib Require Export ZArith Lia Bool.
From stdpp Require Export base list gmap numbers option.
#[global] Open Scope Z_scope.

(** ** Machine integers

    [unsigned int] values are integers of [Z] kept in [0, 2^32); every
    operation that can leave the range is wrapped explicitly by [u32]. *)

Definition UINT_MOD : Z := 4294967296.
Definition UINT_MAX : Z := 4294967295.
Definition u32 (z : Z) : Z := z mod UINT_MOD.
Definition is_u32 (z : Z) : Prop := 0 ≤ z < UINT_MOD.

(** [size_t] is 64 bits. *)
Definition u64 (z : Z) : Z := z mod 18446744073709551616.

(** Conversion of an [unsigned int] to [int] (two's complement). *)
Definition s32 (z : Z) : Z :=
  let w := u32 z in if w <? 2147483648 then w else w - UINT_MOD.

(** [a << n], [~a] on [unsigned int]. *)
Definition shl32 (a n : Z) : Z := u32 (Z.shiftl a n).
Definition not32 (a : Z) : Z := u32 (Z.lnot a).

(** ** The execution monad

    A C function is a state transformer that either returns a value and the
    new state, or does not return: it fails an [assert], it accesses memory
    outside an object (or through [NULL]), it waits for a mutex that another
    thread holds, it ends the process, or it uses a library outside what the
    library specifies. *)

Inductive fault : Type := AssertFailed | BadAccess | WouldBlock | Exited | Undefined.

Inductive outcome (S A : Type) : Type :=
| Done (a : A) (s : S)
| Fault (f : fault).
Arguments Done {S A} a s.
Arguments Fault {S A} f.

Definition M (S A : Type) : Type := S → outcome S A.

#[export] Instance M_ret S : MRet (M S) := λ A a s, Done a s.
#[export] Instance M_bind S : MBind (M S) := λ A B k m s,
  match m s with
  | Done a s' => k a s'
  | Fault f => Fault f
  end.

Section Monad.
Context {S : Type}.

Definition get : M S S := λ s, Done s s.
Definition put (s : S) : M S unit := λ _, Done tt s.
Definition gets {A} (f : S → A) : M S A := λ s, Done (f s) s.
Definition modify (f : S → S) : M S unit := λ s, Done tt (f s).
Definition throw {A} (f : fault) : M S A := λ _, Fault f.

(** [assert(b)] *)
Definition assert (b : bool) : M S unit :=
  if b then mret tt else throw AssertFailed.

(** An access that is defined only when the object exists. *)
Definition access {A} (o : option A) : M S A :=
  match o with Some a => mret a | None => throw BadAccess end.
End Monad.

(** Running an operation of a component that is stored in a larger state. *)
Definition zoom {S T A} (get : S → T) (set : T → S → S) (m : M T A) : M S A :=
  λ s, match m (get s) with
       | Done a t => Done a (set t s)
       | Fault f => Fault f
       end.

(** [for (i = first; i < first + n; i++) body(i)], by a structural counter. *)
Fixpoint for_from {S} (n : nat) (i : Z) (body : Z → M S unit) : M S unit :=
  match n with
  | O => mret tt
  | S n' => body i ≫= λ _, for_from n' (i + 1) body
  end.

(** Total correctness: the computation returns and the result satisfies [Q]. *)
Definition wp {S A} (m : M S A) (s : S) (Q : A → S → Prop) : Prop :=
  match m s with
  | Done a s' => Q a s'
  | Fault _ => False
  end.

Section WpLemmas.
Context {S : Type}.
Implicit Types s : S.

Lemma wp_done {A} (m : M S A) s Q :
  wp m s Q ↔ ∃ a s', m s = Done a s' ∧ Q a s'.
Proof.
  unfold wp. destruct (m s) as [a s' | f]; split; intros HQ; eauto.
  - destruct HQ as (a' & s'' & [= <- <-] & HQ). done.
  - done.
  - by destruct HQ as (? & ? & ? & ?).
Qed.

Lemma wp_mono {A} (m : M S A) s (Q R : A → S → Prop) :
  wp m s Q → (∀ a s', Q a s' → R a s') → wp m s R.
Proof. unfold wp. destruct (m s); auto. Qed.

Lemma wp_ret {A} (a : A) s (Q : A → S → Prop) : Q a s → wp (mret a) s Q.
Proof. done. Qed.

Lemma wp_bind {A B} (m : M S A) (k : A → M S B) s Q :
  wp m s (λ a s', wp (k a) s' Q) → wp (m ≫= k) s Q.
Proof. unfold wp, mbind, M_bind. destruct (m s); done. Qed.

Lemma wp_access {A} (o : option A) (a : A) s (Q : A → S → Prop) :
  o = Some a → Q a s → wp (access o) s Q.
Proof. intros ->. done. Qed.
End WpLemmas.

(** ** Runs of a sequence *)

Lemma bind_run {S A C} (m : M S A) (k : A → M S C) (s : S) a s' : m s = Done a s' → (m ≫= k) s = k a s'.
Proof. unfold mbind, M_bind. by intros ->. Qed.

Lemma bind_fault {S A C} (m : M S A) (k : A → M S C) (s : S) f : m s = Fault f → (m ≫= k) s = Fault f.
Proof. unfold mbind, M_bind. by intros ->. Qed.

Lemma bind_inv {S A C} (m : M S A) (k : A → M S C) (s : S) c s' :
  (m ≫= k) s = Done c s' → ∃ a s1, m s = Done a s1 ∧ k a s1 = Done c s'.
Proof. unfold mbind, M_bind. destruct (m s); [eauto | done]. Qed.

Lemma assert_run {S} b (s : S) : b = true → assert b s = Done tt s.
Proof. by intros ->. Qed.

(** The pieces of a run that returns. *)
Definition run_result {S A} (d : A) (m : outcome S A) : A := match m with Done a _ => a | Fault _ => d end.
Definition run_state {S A} (d : S) (m : outcome S A) : S := match m with Done _ s => s | Fault _ => d end.

Definition returned {S A} (m : outcome S A) : bool := match m with Done _ _ => true | Fault _ => false end.

Lemma run_done {S A} (d : A) (d' : S) (m : outcome S A) a :
  returned m = true → run_result d m = a → m = Done a (run_state d' m).
Proof. destruct m; [by intros _ <- | done]. Qed.

(** ** Tactics *)

(** One step of a run: the first action of the goal runs by [H]. *)
Ltac step H := rewrite (bind_run _ _ _ _ _ H); cbv beta iota.

(** [lia] understands [/] and [mod] in every file of the development. *)
Ltac Zify.zify_post_hook ::= Z.to_euclidean_division_equations.

(** Case analysis on the integer comparisons a definition branches on. *)
Ltac zcase :=
  match goal with
  | |- context [ (?a <? ?b)%Z ] => destruct (Z.ltb_spec a b)
  | |- context [ (?a <=? ?b)%Z ] => destruct (Z.leb_spec a b)
  | |- context [ (?a =? ?b)%Z ] => destruct (Z.eqb_spec a b)
  | H : context [ (?a <? ?b)%Z ] |- _ => destruct (Z.ltb_spec a b)
  | H : context [ (?a <=? ?b)%Z ] |- _ => destruct (Z.leb_spec a b)
  | H : context [ (?a =? ?b)%Z ] |- _ => destruct (Z.eqb_spec a b)
  end.

(** Exposes the state passing of a monadic definition. *)
Ltac mrun := cbv [mbind M_bind mret M_ret get gets put modify throw assert access].

(** A closed equation, by running both sides. *)
Ltac by_compute := vm_compute; reflexivity.

Ltac u32_unfold := unfold is_u32, u32, UINT_MOD, UINT_MAX in *.

(** ** Lists updated by index *)

Section Alter.
Context {A : Type}.
Implicit Types l : list A.

Lemma alter_compose (f g : A → A) i l : alter f i (alter g i l) = alter (f ∘ g) i l.
Proof. revert i. induction l as [| a l IH]; intros [| i]; simpl; try done. f_equal. apply IH. Qed.

Lemma alter_id_at (f : A → A) i l a : l !! i = Some a → f a = a → alter f i l = l.
Proof.
  revert i. induction l as [| b l IH]; intros [| i] Hi Hf; simplify_eq/=; [by rewrite Hf |].
  f_equal. by apply IH.
Qed.

Lemma insert_as_alter i a l : <[i := a]> l = alter (λ _, a) i l.
Proof. revert i. induction l as [| b l IH]; intros [| i]; simpl; try done. f_equal. apply IH. Qed.

Lemma insert_alter_at (f : A → A) i l a : l !! i = Some a → <[i := f a]> l = alter f i l.
Proof.
  intros Hi. rewrite insert_as_alter. apply list_alter_ext; [| done].
  intros b Hb. simpl. congruence.
Qed.

(** An update the view [h] does not see. *)
Lemma fmap_alter_same {B} (h : A → B) (f : A → A) i l :
  (∀ a, h (f a) = h a) → h <$> alter f i l = h <$> l.
Proof.
  intros Hf. revert i. induction l as [| a l IH]; intros [| i]; simpl; try done.
  - by rewrite Hf.
  - f_equal. apply IH.
Qed.
End Alter.

(** ** Bit-level lemmas *)

Create HintDb bits discriminated.

Lemma u32_range z : is_u32 (u32 z).
Proof. u32_unfold. apply Z.mod_pos_bound. lia. Qed.

Lemma u32_small z : is_u32 z → u32 z = z.
Proof. u32_unfold. intros. apply Z.mod_small. lia. Qed.

Lemma u32_add_idemp a b : u32 (u32 a + b) = u32 (a + b).
Proof. unfold u32. by rewrite Zplus_mod_idemp_l. Qed.

Lemma u32_testbit z j : 0 ≤ j < 32 → Z.testbit (u32 z) j = Z.testbit z j.
Proof.
  intros. unfold u32. change UINT_MOD with (2 ^ 32).
  apply Z.mod_pow2_bits_low. lia.
Qed.

Lemma u32_testbit_high z j : 32 ≤ j → Z.testbit (u32 z) j = false.
Proof.
  intros. unfold u32. change UINT_MOD with (2 ^ 32).
  apply Z.mod_pow2_bits_high. lia.
Qed.

Lemma is_u32_testbit_high w j : is_u32 w → 32 ≤ j → Z.testbit w j = false.
Proof. intros Hw Hj. rewrite <- (u32_small w Hw). by apply u32_testbit_high. Qed.

(** A word is determined by its 32 bits. *)
Lemma u32_ext a b :
  is_u32 a → is_u32 b → (∀ j, 0 ≤ j < 32 → Z.testbit a j = Z.testbit b j) → a = b.
Proof.
  intros Ha Hb Hab. apply Z.bits_inj'. intros j Hj.
  destruct (Z.lt_ge_cases j 32); [apply Hab; lia |].
  by rewrite !is_u32_testbit_high by (done || lia).
Qed.

Lemma is_u32_lor a b : is_u32 a → is_u32 b → is_u32 (Z.lor a b).
Proof.
  intros Ha Hb. rewrite <- (u32_small a Ha), <- (u32_small b Hb).
  replace (Z.lor (u32 a) (u32 b)) with (u32 (Z.lor a b)); [apply u32_range |].
  apply Z.bits_inj'. intros j Hj. rewrite Z.lor_spec.
  destruct (Z.lt_ge_cases j 32).
  - rewrite !u32_testbit by lia. by rewrite Z.lor_spec.
  - by rewrite !u32_testbit_high by lia.
Qed.

Lemma is_u32_land a b : is_u32 a → is_u32 (Z.land a b).
Proof.
  intros Ha. rewrite <- (u32_small a Ha).
  replace (Z.land (u32 a) b) with (u32 (Z.land a b)); [apply u32_range |].
  apply Z.bits_inj'. intros j Hj. rewrite Z.land_spec.
  destruct (Z.lt_ge_cases j 32).
  - rewrite !u32_testbit by lia. by rewrite Z.land_spec.
  - by rewrite !u32_testbit_high by lia.
Qed.

Lemma shl32_testbit a n j :
  0 ≤ n → 0 ≤ j < 32 → Z.testbit (shl32 a n) j = Z.testbit a (j - n).
Proof. intros. unfold shl32. rewrite u32_testbit by lia. apply Z.shiftl_spec. lia. Qed.

Lemma not32_testbit a j : 0 ≤ j < 32 → Z.testbit (not32 a) j = negb (Z.testbit a j).
Proof. intros. unfold not32. rewrite u32_testbit by lia. apply Z.lnot_spec. lia. Qed.

Lemma one_testbit j : Z.testbit 1 j = (j =? 0).
Proof.
  change 1 with (2 ^ 0). destruct (Z.eqb_spec j 0) as [-> | Hj]; [done |].
  apply Z.pow2_bits_false. lia.
Qed.

(** [(w & (1 << k)) != 0] tests bit [k]. *)
Lemma land_bit_test w k :
  0 ≤ k < 32 → negb (Z.land w (shl32 1 k) =? 0) = Z.testbit w k.
Proof.
  intros Hk. destruct (Z.testbit w k) eqn:Hw.
  - destruct (Z.eqb_spec (Z.land w (shl32 1 k)) 0) as [H0 |]; [| done].
    assert (Z.testbit (Z.land w (shl32 1 k)) k = true) as Ht.
    { rewrite Z.land_spec, Hw, shl32_testbit by lia. by rewrite Z.sub_diag. }
    rewrite H0, Z.bits_0 in Ht. done.
  - destruct (Z.eqb_spec (Z.land w (shl32 1 k)) 0) as [| Hne]; [done |].
    destruct Hne. apply Z.bits_inj'. intros j Hj. rewrite Z.bits_0, Z.land_spec.
    destruct (Z.lt_ge_cases j 32).
    + rewrite shl32_testbit, one_testbit by lia.
      destruct (Z.eqb_spec (j - k) 0); [| by rewrite andb_false_r].
      replace j with k by lia. by rewrite Hw.
    + unfold shl32. rewrite u32_testbit_high by lia. by rewrite andb_false_r.
Qed.

Lemma shl32_one_testbit k j :
  0 ≤ k → 0 ≤ j < 32 → Z.testbit (shl32 1 k) j = (j =? k).
Proof.
  intros. rewrite shl32_testbit, one_testbit by lia.
  destruct (Z.eqb_spec (j - k) 0), (Z.eqb_spec j k); lia || done.
Qed.

Lemma is_u32_shl32 a n : is_u32 (shl32 a n).
Proof. apply u32_range. Qed.

Lemma is_u32_not32 a : is_u32 (not32 a).
Proof. apply u32_range. Qed.

#[export] Hint Resolve u32_range is_u32_lor is_u32_land is_u32_shl32 is_u32_not32 : bits.

(** The low [k] bits of [w] are all ones / all zeros, as the masks test it. *)
Lemma land_ones_full w k :
  0 ≤ k →
  Z.land w (Z.ones k) = Z.ones k ↔ (∀ j, 0 ≤ j < k → Z.testbit w j = true).
Proof.
  intros Hk. split.
  - intros H j Hj. assert (Z.testbit (Z.land w (Z.ones k)) j = true) as Ht.
    { rewrite H. by apply Z.ones_spec_low. }
    rewrite Z.land_spec in Ht. by apply andb_true_iff in Ht as [].
  - intros H. apply Z.bits_inj'. intros j Hj. rewrite Z.land_spec.
    destruct (Z.lt_ge_cases j k).
    + rewrite H, Z.ones_spec_low by lia. done.
    + rewrite Z.ones_spec_high by lia. by rewrite andb_false_r.
Qed.

Lemma land_ones_zero w k :
  0 ≤ k →
  Z.land w (Z.ones k) = 0 ↔ (∀ j, 0 ≤ j < k → Z.testbit w j = false).
Proof.
  intros Hk. split.
  - intros H j Hj. assert (Z.testbit (Z.land w (Z.ones k)) j = false) as Ht.
    { rewrite H. apply Z.bits_0. }
    rewrite Z.land_spec, Z.ones_spec_low, andb_true_r in Ht by lia. done.
  - intros H. apply Z.bits_inj'. intros j Hj. rewrite Z.land_spec, Z.bits_0.
    destruct (Z.lt_ge_cases j k).
    + rewrite H by lia. done.
    + rewrite Z.ones_spec_high by lia. by rewrite andb_false_r.
Qed.
