(* ===== verification/Utils.v ===== *)
(** * Bit masks and elapsed time (common/src/vmaccel_utils.c)

    [BitMask_FindFirstZero], [BitMask_FindFirstOne] and [DiffTime], with the
    reference definitions they are compared with. *)

From S2P Require Import Prelude.

Module BitMask.

(** [BitMask_FindFirstZero]: a binary search for the lowest clear bit. The
    local variables [bitMask] and [idx] are threaded through the three
    halving steps and the final four-way test. *)
Definition FindFirstZero_step (m k : Z) (st : Z * Z) : Z * Z :=
  let '(bitMask, idx) := st in
  if Z.land bitMask m =? m then (Z.shiftr bitMask k, idx + k) else (bitMask, idx).

Definition BitMask_FindFirstZero (bitMask : Z) : Z :=
  if negb (bitMask =? 0xffffffff) then
    let '(bitMask, idx) :=
      FindFirstZero_step 0xf 4
        (FindFirstZero_step 0xff 8
           (FindFirstZero_step 0xffff 16 (bitMask, 0))) in
    if Z.land bitMask 0x1 =? 0 then idx
    else if Z.land bitMask 0x2 =? 0 then idx + 1
    else if Z.land bitMask 0x4 =? 0 then idx + 2
    else if Z.land bitMask 0x8 =? 0 then idx + 3
    else -1
  else -1.

(** [BitMask_FindFirstOne]: the same search for the lowest set bit. *)
Definition FindFirstOne_step (m k : Z) (st : Z * Z) : Z * Z :=
  let '(bitMask, idx) := st in
  if Z.land bitMask m =? 0 then (Z.shiftr bitMask k, idx + k) else (bitMask, idx).

Definition BitMask_FindFirstOne (bitMask : Z) : Z :=
  if negb (bitMask =? 0) then
    let '(bitMask, idx) :=
      FindFirstOne_step 0xf 4
        (FindFirstOne_step 0xff 8
           (FindFirstOne_step 0xffff 16 (bitMask, 0))) in
    if negb (Z.land bitMask 0x1 =? 0) then idx
    else if negb (Z.land bitMask 0x2 =? 0) then idx + 1
    else if negb (Z.land bitMask 0x4 =? 0) then idx + 2
    else if negb (Z.land bitMask 0x8 =? 0) then idx + 3
    else -1
  else -1.

(** ** Correctness

    [first_bit b w i]: [i] is the least position of [w] that holds [b]. *)
Definition first_bit (b : bool) (w i : Z) : Prop :=
  0 ≤ i < 32 ∧ Z.testbit w i = b ∧ ∀ j, 0 ≤ j < i → Z.testbit w j = negb b.

Lemma first_bit_unique b w i k : first_bit b w i → first_bit b w k → i = k.
Proof.
  intros (Hi & Hbi & Hli) (Hk & Hbk & Hlk).
  destruct (Z.lt_trichotomy i k) as [Hlt | [Heq | Hlt]]; [| done |].
  - specialize (Hlk i ltac:(lia)). destruct b; simpl in *; congruence.
  - specialize (Hli k ltac:(lia)). destruct b; simpl in *; congruence.
Qed.

(** The search invariant: the [idx] bits already skipped all differ from [b],
    the mask is the original shifted by [idx], and a [b] remains among the
    next [n] bits. *)
Definition searching (b : bool) (w n : Z) (st : Z * Z) : Prop :=
  let '(m, idx) := st in
  0 ≤ idx ∧ idx + n ≤ 32 ∧ m = Z.shiftr w idx ∧
  (∀ j, 0 ≤ j < idx → Z.testbit w j = negb b) ∧
  (∃ j, 0 ≤ j < n ∧ Z.testbit m j = b).

(** One halving step, for either polarity: [t] is the outcome of the mask
    test, true exactly when the low [k] bits all differ from [b]. *)
Lemma searching_step b w k m idx (t : bool) :
  0 ≤ k →
  (t = true ↔ ∀ j, 0 ≤ j < k → Z.testbit m j = negb b) →
  searching b w (2 * k) (m, idx) →
  searching b w k (if t then (Z.shiftr m k, idx + k) else (m, idx)).
Proof.
  intros Hk Ht (H0 & H1 & Hm & Hlow & j & Hj & Hb). destruct t; simpl.
  - assert (∀ i, 0 ≤ i < k → Z.testbit m i = negb b) as Hall by (by apply Ht).
    repeat split; try lia.
    + rewrite Hm, Z.shiftr_shiftr; f_equal; lia.
    + intros i Hi. destruct (Z.lt_ge_cases i idx); [apply Hlow; lia |].
      specialize (Hall (i - idx) ltac:(lia)).
      rewrite Hm, Z.shiftr_spec in Hall by lia. by replace (i - idx + idx) with i in Hall by lia.
    + assert (k ≤ j) as Hkj.
      { destruct (Z.lt_ge_cases j k); [| lia].
        rewrite Hall in Hb by lia. destruct b; done. }
      exists (j - k). split; [lia |]. rewrite Z.shiftr_spec by lia.
      by replace (j - k + k) with j by lia.
  - assert (∃ i, 0 ≤ i < k ∧ Z.testbit m i = b) as Hex.
    { destruct (decide (Exists (λ i, Z.testbit m i = b) (seqZ 0 k))) as [He | Hne].
      - apply Exists_exists in He as (i & Hi & Hbi).
        apply list_elem_of_In, elem_of_seqZ in Hi. exists i. split; [lia | done].
      - exfalso. assert (false = true) as Hft; [| done]. apply Ht. intros i Hi.
        destruct (decide (Z.testbit m i = b)) as [Hbi | Hbi].
        + destruct Hne. apply Exists_exists. exists i. rewrite <- list_elem_of_In, elem_of_seqZ. split; [lia | done].
        + destruct (Z.testbit m i), b; done. }
    repeat split; done || lia.
Qed.

Lemma searching_zero_step w m k st :
  m = Z.ones k → 0 ≤ k →
  searching false w (2 * k) st → searching false w k (FindFirstZero_step m k st).
Proof.
  intros -> Hk Hst. destruct st as [bm idx]. unfold FindFirstZero_step.
  apply searching_step; [done | | done].
  rewrite Z.eqb_eq, land_ones_full by lia. done.
Qed.

Lemma searching_one_step w m k st :
  m = Z.ones k → 0 ≤ k →
  searching true w (2 * k) st → searching true w k (FindFirstOne_step m k st).
Proof.
  intros -> Hk Hst. destruct st as [bm idx]. unfold FindFirstOne_step.
  apply searching_step; [done | | done].
  rewrite Z.eqb_eq, land_ones_zero by lia. done.
Qed.

(** The bits the last four tests look at. *)
Lemma nibble_bit m k : 0 ≤ k < 32 → negb (Z.land m (2 ^ k) =? 0) = Z.testbit m k.
Proof.
  intros. rewrite <- (land_bit_test m k) by lia. unfold shl32.
  rewrite Z.shiftl_mul_pow2, Z.mul_1_l by lia.
  rewrite u32_small; [done |]. u32_unfold.
  split; [lia |]. change 4294967296 with (2 ^ 32). apply Z.pow_lt_mono_r; lia.
Qed.

(** The last step: when the search is down to four bits, testing them in
    order finds the position. *)
Lemma searching_finish b w m idx (k : Z) :
  searching b w 4 (m, idx) → 0 ≤ k < 4 →
  (∀ j, 0 ≤ j < k → Z.testbit m j = negb b) → Z.testbit m k = b →
  first_bit b w (idx + k).
Proof.
  intros (H0 & H1 & -> & Hlow & _) Hk Hj Hb. split; [lia |]. split.
  - rewrite Z.shiftr_spec in Hb by lia. by rewrite Z.add_comm.
  - intros i Hi. destruct (Z.lt_ge_cases i idx); [apply Hlow; lia |].
    specialize (Hj (i - idx) ltac:(lia)). rewrite Z.shiftr_spec in Hj by lia.
    by replace (i - idx + idx) with i in Hj by lia.
Qed.

(** Positions below 4, enumerated. *)
Lemma below_four (P : Z → Prop) k :
  0 ≤ k < 4 → (0 < k → P 0) → (1 < k → P 1) → (2 < k → P 2) → ∀ j, 0 ≤ j < k → P j.
Proof.
  intros Hk P0 P1 P2 j Hj. assert (j = 0 ∨ j = 1 ∨ j = 2) as [-> | [-> | ->]] by lia;
    [apply P0 | apply P1 | apply P2]; lia.
Qed.

(** Not all 32 bits agree when the word is not the constant word. *)
Lemma some_bit (b : bool) w :
  is_u32 w → w ≠ (if b then 0 else UINT_MAX) → ∃ j, 0 ≤ j < 32 ∧ Z.testbit w j = b.
Proof.
  intros Hw Hne.
  destruct (decide (Exists (λ i, Z.testbit w i = b) (seqZ 0 32))) as [He | Hno].
  - apply Exists_exists in He as (i & Hi & Hbi). apply list_elem_of_In, elem_of_seqZ in Hi.
    exists i. split; [lia | done].
  - destruct Hne. apply u32_ext; [done | destruct b; by u32_unfold |]. intros j Hj.
    replace (Z.testbit (if b then 0 else UINT_MAX) j) with (negb b).
    + destruct (decide (Z.testbit w j = b)) as [Hb |]; [| destruct (Z.testbit w j), b; done].
      destruct Hno. apply Exists_exists. exists j. rewrite <- list_elem_of_In, elem_of_seqZ. split; [lia | done].
    + destruct b; [by rewrite Z.bits_0 |]. change UINT_MAX with (Z.ones 32).
      by rewrite Z.ones_spec_low by lia.
Qed.

Lemma searching_start (b : bool) w :
  is_u32 w → w ≠ (if b then 0 else UINT_MAX) → searching b w (2 * 16) (w, 0).
Proof.
  intros Hw Hne. destruct (some_bit b w Hw Hne) as (j & Hj & Hb).
  split; [lia |]. split; [lia |]. split; [by rewrite Z.shiftr_0_r |].
  split; [intros; lia | eauto].
Qed.

(** The common tail of both searches. *)
Lemma searching_nibble b w m idx :
  searching b w 4 (m, idx) →
  first_bit b w
    (if Bool.eqb (Z.testbit m 0) b then idx
     else if Bool.eqb (Z.testbit m 1) b then idx + 1
     else if Bool.eqb (Z.testbit m 2) b then idx + 2
     else if Bool.eqb (Z.testbit m 3) b then idx + 3
     else -1).
Proof.
  intros Hs. pose proof Hs as (_ & _ & _ & _ & j & Hj & Hb).
  assert (j = 0 ∨ j = 1 ∨ j = 2 ∨ j = 3) as Hcases by lia.
  destruct (Bool.eqb_spec (Z.testbit m 0) b) as [E0 | E0].
  { rewrite <- (Z.add_0_r idx). eapply searching_finish; [done | lia | intros; lia | done]. }
  destruct (Bool.eqb_spec (Z.testbit m 1) b) as [E1 | E1].
  { eapply searching_finish; [done | lia | | done].
    apply below_four; intros; lia || (destruct (Z.testbit m 0), b; done). }
  destruct (Bool.eqb_spec (Z.testbit m 2) b) as [E2 | E2].
  { eapply searching_finish; [done | lia | | done].
    apply below_four; intros; lia || (destruct (Z.testbit m 0), (Z.testbit m 1), b; done). }
  destruct (Bool.eqb_spec (Z.testbit m 3) b) as [E3 | E3].
  { eapply searching_finish; [done | lia | | done].
    apply below_four; intros;
      lia || (destruct (Z.testbit m 0), (Z.testbit m 1), (Z.testbit m 2), b; done). }
  by destruct Hcases as [-> | [-> | [-> | ->]]].
Qed.

Lemma nibble_zero_test m k : 0 ≤ k < 32 → (Z.land m (2 ^ k) =? 0) = Bool.eqb (Z.testbit m k) false.
Proof.
  intros. rewrite <- (nibble_bit m k) by lia. by destruct (Z.land m (2 ^ k) =? 0).
Qed.

Lemma nibble_one_test m k :
  0 ≤ k < 32 → negb (Z.land m (2 ^ k) =? 0) = Bool.eqb (Z.testbit m k) true.
Proof. intros. rewrite nibble_bit by lia. by destruct (Z.testbit m k). Qed.

Lemma FindFirstZero_first w :
  is_u32 w → w ≠ UINT_MAX → first_bit false w (BitMask_FindFirstZero w).
Proof.
  intros Hw Hne. unfold BitMask_FindFirstZero.
  destruct (Z.eqb_spec w 0xffffffff) as [| _]; [done |]. cbn [negb].
  pose proof (searching_start false w Hw Hne) as Hs.
  apply (searching_zero_step w 0xffff 16) in Hs; [| done | lia].
  apply (searching_zero_step w 0xff 8 _ eq_refl ltac:(lia)) in Hs.
  apply (searching_zero_step w 0xf 4 _ eq_refl ltac:(lia)) in Hs.
  destruct (FindFirstZero_step 0xf 4 _) as [m idx].
  change 0x1 with (2 ^ 0). change 0x2 with (2 ^ 1). change 0x4 with (2 ^ 2). change 0x8 with (2 ^ 3).
  rewrite !nibble_zero_test by lia. by apply searching_nibble.
Qed.

Lemma FindFirstOne_first w :
  is_u32 w → w ≠ 0 → first_bit true w (BitMask_FindFirstOne w).
Proof.
  intros Hw Hne. unfold BitMask_FindFirstOne.
  destruct (Z.eqb_spec w 0) as [| _]; [done |]. cbn [negb].
  pose proof (searching_start true w Hw Hne) as Hs.
  apply (searching_one_step w 0xffff 16) in Hs; [| done | lia].
  apply (searching_one_step w 0xff 8 _ eq_refl ltac:(lia)) in Hs.
  apply (searching_one_step w 0xf 4 _ eq_refl ltac:(lia)) in Hs.
  destruct (FindFirstOne_step 0xf 4 _) as [m idx].
  change 0x1 with (2 ^ 0). change 0x2 with (2 ^ 1). change 0x4 with (2 ^ 2). change 0x8 with (2 ^ 3).
  rewrite !nibble_one_test by lia. by apply searching_nibble.
Qed.

(** The bit searches agree with the definition of the first bit: on any
    32-bit word [BitMask_FindFirstZero] is the lowest clear bit and
    [BitMask_FindFirstOne] the lowest set bit, and -1 exactly when there is
    none. *)
Theorem FindFirst_correct w :
  is_u32 w →
  (if w =? UINT_MAX then BitMask_FindFirstZero w = -1 else first_bit false w (BitMask_FindFirstZero w)) ∧
  (if w =? 0 then BitMask_FindFirstOne w = -1 else first_bit true w (BitMask_FindFirstOne w)).
Proof.
  intros Hw. split.
  - destruct (Z.eqb_spec w UINT_MAX) as [-> | Hne]; [done | by apply FindFirstZero_first].
  - destruct (Z.eqb_spec w 0) as [-> | Hne]; [done | by apply FindFirstOne_first].
Qed.

Lemma FindFirst_correct_witness :
  first_bit false 0xff (BitMask_FindFirstZero 0xff) ∧ first_bit true 0xf00 (BitMask_FindFirstOne 0xf00).
Proof.
  split; [exact (proj1 (FindFirst_correct 0xff ltac:(done))) | exact (proj2 (FindFirst_correct 0xf00 ltac:(done)))].
Defined.
End BitMask.

(** ** Elapsed time *)

Module Time.

Record timespec := mkTimespec { tv_sec : Z; tv_nsec : Z }.

(** [DiffTime(start, end)]: returns the difference and the value left in
    [*start], which the second branch updates through the pointer. *)
Definition DiffTime (start end_ : timespec) : timespec * timespec :=
  let sec := tv_sec end_ - tv_sec start in
  if tv_nsec end_ <? tv_nsec start then
    (mkTimespec sec (1000000000 - tv_nsec start + tv_nsec end_), start)
  else if 1000000000 <? tv_nsec end_ - tv_nsec start then
    let numSeconds := Z.quot (tv_nsec end_ - tv_nsec start) 1000000000 in
    let start' := mkTimespec (tv_sec start) (tv_nsec start + 1000000000 * numSeconds) in
    (mkTimespec (sec + numSeconds) (tv_nsec end_ - tv_nsec start'), start')
  else (mkTimespec sec (tv_nsec end_ - tv_nsec start), start).

Definition nanoseconds (t : timespec) : Z := tv_sec t * 1000000000 + tv_nsec t.

Definition normalised (t : timespec) : Prop := 0 ≤ tv_nsec t < 1000000000.

(** On clock readings whose nanosecond fields are in range, [DiffTime]
    returns a normalised difference; it is the elapsed time when the
    nanoseconds do not decrease, and exactly one second more than the elapsed
    time when they do, because the borrow is not taken from [tv_sec]. *)
Theorem DiffTime_elapsed (start end_ : timespec) :
  normalised start → normalised end_ →
  let diff := fst (DiffTime start end_) in
  normalised diff ∧ snd (DiffTime start end_) = start ∧
  nanoseconds diff =
    nanoseconds end_ - nanoseconds start +
    (if tv_nsec end_ <? tv_nsec start then 1000000000 else 0).
Proof.
  unfold normalised, nanoseconds, DiffTime. intros Hs He.
  destruct (Z.ltb_spec (tv_nsec end_) (tv_nsec start)); cbv zeta; simpl;
    [| destruct (Z.ltb_spec 1000000000 (tv_nsec end_ - tv_nsec start)); [lia |]; simpl];
    (split; [lia | split; [done | lia]]).
Qed.

Lemma DiffTime_elapsed_witness :
  nanoseconds (fst (DiffTime (mkTimespec 10 900000000) (mkTimespec 11 100000000))) = 1200000000.
Proof.
  destruct (DiffTime_elapsed (mkTimespec 10 900000000) (mkTimespec 11 100000000))
    as (_ & _ & H); [unfold normalised; simpl; lia .. | exact H].
Defined.

End Time.
