(* ===== verification/IdentifierDB.v ===== *)
(** * Identifier database (common/src/vmaccel_utils.c)

    The bit-set of object ids every component allocates from: the record, one
    definition per operation, the representation invariant [wf], the set of
    ids the words stand for ([used]), and the behaviour of each operation in
    terms of that set. *)

From S2P Require Import Prelude Utils.
Import BitMask.

Record IdentifierDB := mkIdentifierDB {
  size : Z;
  numWords : Z;
  free : Z;
  bits : list Z;
}.

(** [IdentifierDB_Alloc]: the two flags say whether each [calloc] succeeds.
    When the second fails [db->bits] stays [NULL]: no word can be accessed. *)
Definition IdentifierDB_Alloc (calloc_db calloc_bits : bool) (sz : Z) : option IdentifierDB :=
  if calloc_db then
    let n := u32 (sz + 31) / 32 in
    Some {| size := sz; numWords := n; free := sz;
            bits := if calloc_bits then replicate (Z.to_nat n) 0 else [] |}
  else None.

Definition IdentifierDB_Count : M IdentifierDB Z :=
  gets (λ db, u32 (size db - free db)).

Definition IdentifierDB_Size : M IdentifierDB Z := gets size.

(** Reads and writes of [db->bits[i]]. *)
Definition bits_get (i : Z) : M IdentifierDB Z :=
  λ db, access (bits db !! Z.to_nat i) db.

Definition set_bits (b : list Z) (db : IdentifierDB) : IdentifierDB :=
  {| size := size db; numWords := numWords db; free := free db; bits := b |}.

Definition set_free (f : Z) (db : IdentifierDB) : IdentifierDB :=
  {| size := size db; numWords := numWords db; free := f; bits := bits db |}.

Definition bits_set (i w : Z) : M IdentifierDB unit :=
  λ db, match bits db !! Z.to_nat i with
        | Some _ => Done tt (set_bits (<[Z.to_nat i := w]> (bits db)) db)
        | None => Fault BadAccess
        end.

Definition ActiveId (id : Z) : M IdentifierDB bool :=
  db ← get;
  if size db <=? id then mret false else
  w ← bits_get (id / 32);
  mret (negb (Z.land w (shl32 1 (id mod 32)) =? 0)).

Definition IdentifierDB_ActiveId (id : Z) : M IdentifierDB bool := ActiveId id.

Definition IdentifierDB_AcquireId (id : Z) : M IdentifierDB bool :=
  db ← get;
  if size db <=? id then mret false else
  a ← ActiveId id;
  if (a : bool) then mret false else
  w ← bits_get (id / 32);
  _ ← bits_set (id / 32) (Z.lor w (shl32 1 (id mod 32)));
  mret true.

(** [numBits] and [mask] of one pass of the two range loops. *)
Definition range_mask (start end_ : Z) : Z :=
  let n := u32 (end_ - start + 1) in
  let numBits := if 32 <? n then 32 else n in
  if numBits =? 32 then 0xffffffff
  else shl32 (u32 (shl32 1 numBits - 1)) (start mod 32).

(** [start += 32 - (start % 32)] *)
Definition next_word (start : Z) : Z := u32 (start + (32 - start mod 32)).

(** The loop bodies of the range operations; [n] passes remain, the index
    [i] and [start] are the C variables. *)
Fixpoint AcquireIdRange_loop (n : nat) (i start end_ : Z) : M IdentifierDB bool :=
  match n with
  | O => mret true
  | S n' =>
      let mask := range_mask start end_ in
      w ← bits_get i;
      if negb (Z.land w mask =? 0) then mret false else
      _ ← bits_set i (Z.lor w mask);
      AcquireIdRange_loop n' (i + 1) (next_word start) end_
  end.

Definition IdentifierDB_AcquireIdRange (start end_ : Z) : M IdentifierDB bool :=
  db ← get;
  if (size db <=? start) || (size db <=? end_) then mret false else
  AcquireIdRange_loop (Z.to_nat (end_ / 32 - start / 32 + 1)) (start / 32) start end_.

Fixpoint ReleaseIdRange_loop (n : nat) (i start end_ : Z) : M IdentifierDB bool :=
  match n with
  | O => mret true
  | S n' =>
      let mask := range_mask start end_ in
      w ← bits_get i;
      _ ← bits_set i (Z.land w (not32 mask));
      ReleaseIdRange_loop n' (i + 1) (next_word start) end_
  end.

Definition IdentifierDB_ReleaseIdRange (start end_ : Z) : M IdentifierDB bool :=
  db ← get;
  if (size db <=? start) || (size db <=? end_) then mret false else
  ReleaseIdRange_loop (Z.to_nat (end_ / 32 - start / 32 + 1)) (start / 32) start end_.

(** [IdentifierDB_AllocId]: [None] is the [false] return, [Some id] is [true]
    with [*id] written; running past the last word is the [assert(0)]. *)
Fixpoint AllocId_loop (n : nat) (i : Z) : M IdentifierDB (option Z) :=
  match n with
  | O => throw AssertFailed
  | S n' =>
      w ← bits_get i;
      let ret := BitMask_FindFirstZero w in
      if ret =? -1 then AllocId_loop n' (i + 1)
      else
        _ ← modify (λ db, set_free (u32 (free db - 1)) db);
        _ ← bits_set i (Z.lor w (shl32 1 ret));
        mret (Some (u32 (i * 32 + ret)))
  end.

Definition IdentifierDB_AllocId : M IdentifierDB (option Z) :=
  db ← get;
  if free db =? 0 then mret None else
  AllocId_loop (Z.to_nat (numWords db)) 0.

Definition IdentifierDB_ReleaseId (id : Z) : M IdentifierDB unit :=
  db ← get;
  if size db <=? id then mret tt else
  w ← bits_get (id / 32);
  if negb (Z.land w (shl32 1 (id mod 32)) =? 0) then
    _ ← bits_set (id / 32) (Z.land w (not32 (shl32 1 (id mod 32))));
    modify (λ db, set_free (u32 (free db + 1)) db)
  else assert false.

(** ** Representation *)

(** Bit [k] of the database, [false] beyond the allocated words. *)
Definition bit_at (db : IdentifierDB) (k : Z) : bool :=
  match bits db !! Z.to_nat (k / 32) with
  | Some w => Z.testbit w (k mod 32)
  | None => false
  end.

(** The ids the database stands for. *)
Definition used (db : IdentifierDB) : gset Z :=
  list_to_set (filter (λ id, bit_at db id = true) (seqZ 0 (size db))).

(** The representation invariant: the word count matches the size (which
    leaves room for the rounding [size + 31]) and every word is 32 bits. *)
Record wf (db : IdentifierDB) : Prop := {
  wf_size : 0 ≤ size db ≤ 4294967264;
  wf_words : numWords db = (size db + 31) / 32;
  wf_len : Z.of_nat (length (bits db)) = numWords db;
  wf_u32 : Forall is_u32 (bits db);
  wf_free : is_u32 (free db);
}.

Definition write_word (i w : Z) (db : IdentifierDB) : IdentifierDB :=
  set_bits (<[Z.to_nat i := w]> (bits db)) db.

Lemma elem_of_used db id : id ∈ used db ↔ 0 ≤ id < size db ∧ bit_at db id = true.
Proof.
  unfold used. rewrite elem_of_list_to_set, list_elem_of_filter, elem_of_seqZ.
  rewrite Z.add_0_l. tauto.
Qed.

Lemma word_at db i :
  wf db → 0 ≤ i < numWords db → ∃ w, bits db !! Z.to_nat i = Some w ∧ is_u32 w.
Proof.
  intros Hwf Hi. destruct (lookup_lt_is_Some_2 (bits db) (Z.to_nat i)) as [w Hw].
  - pose proof (wf_len db Hwf). lia.
  - exists w. split; [done |]. by eapply Forall_lookup_1; [apply wf_u32 |].
Qed.

Lemma word_index db id : wf db → 0 ≤ id < size db → 0 ≤ id / 32 < numWords db.
Proof. intros Hwf Hid. rewrite (wf_words db Hwf). lia. Qed.

Lemma wf_write_word db i w : wf db → is_u32 w → wf (write_word i w db).
Proof.
  intros [] Hw. split; simpl; try done.
  - by rewrite length_insert.
  - by apply Forall_insert.
Qed.

Lemma bit_at_write_word db i w k :
  wf db → 0 ≤ i < numWords db → 0 ≤ k →
  bit_at (write_word i w db) k =
    if k / 32 =? i then Z.testbit w (k mod 32) else bit_at db k.
Proof.
  intros Hwf Hi Hk. unfold bit_at, write_word; simpl.
  pose proof (wf_len db Hwf).
  destruct (Z.eqb_spec (k / 32) i) as [<- | Hne].
  - by rewrite list_lookup_insert_eq by lia.
  - by rewrite list_lookup_insert_ne by lia.
Qed.

Lemma bits_get_eq db i w :
  bits db !! Z.to_nat i = Some w → bits_get i db = Done w db.
Proof. unfold bits_get. by intros ->. Qed.

Lemma bits_set_eq db i w w' :
  bits db !! Z.to_nat i = Some w → bits_set i w' db = Done tt (write_word i w' db).
Proof. unfold bits_set. by intros ->. Qed.

Lemma bit_at_word db i w k :
  bits db !! Z.to_nat i = Some w → k / 32 = i → bit_at db k = Z.testbit w (k mod 32).
Proof. intros Hw Hk. unfold bit_at. by rewrite Hk, Hw. Qed.

(** Writing bit [id mod 32] of word [id / 32] changes that one id. *)
Lemma bit_at_set_bit db id w k :
  wf db → 0 ≤ id → id / 32 < numWords db → 0 ≤ k →
  bits db !! Z.to_nat (id / 32) = Some w →
  bit_at (write_word (id / 32) (Z.lor w (shl32 1 (id mod 32))) db) k =
    (k =? id) || bit_at db k.
Proof.
  intros Hwf Hid Hi Hk Hw. rewrite bit_at_write_word by (done || lia).
  destruct (Z.eqb_spec (k / 32) (id / 32)) as [Heq | Hne].
  - rewrite (bit_at_word db (id / 32) w k Hw Heq), Z.lor_spec, shl32_one_testbit by lia.
    rewrite orb_comm. f_equal. destruct (Z.eqb_spec (k mod 32) (id mod 32)), (Z.eqb_spec k id); lia.
  - destruct (Z.eqb_spec k id) as [-> |]; done.
Qed.

Lemma bit_at_clear_bit db id w k :
  wf db → 0 ≤ id → id / 32 < numWords db → 0 ≤ k →
  bits db !! Z.to_nat (id / 32) = Some w →
  bit_at (write_word (id / 32) (Z.land w (not32 (shl32 1 (id mod 32)))) db) k =
    negb (k =? id) && bit_at db k.
Proof.
  intros Hwf Hid Hi Hk Hw. rewrite bit_at_write_word by (done || lia).
  destruct (Z.eqb_spec (k / 32) (id / 32)) as [Heq | Hne].
  - rewrite (bit_at_word db (id / 32) w k Hw Heq), Z.land_spec, not32_testbit by lia.
    rewrite shl32_one_testbit, andb_comm by lia. f_equal.
    destruct (Z.eqb_spec (k mod 32) (id mod 32)), (Z.eqb_spec k id); lia.
  - destruct (Z.eqb_spec k id) as [-> |]; done.
Qed.

(** ** Single-id operations

    Unfolding equations on a well-formed database: no access is out of range
    and the result is determined by [used]. *)

Lemma ActiveId_eq db id :
  wf db → 0 ≤ id → ActiveId id db = Done (bool_decide (id ∈ used db)) db.
Proof.
  intros Hwf Hid. unfold ActiveId. mrun.
  destruct (Z.leb_spec (size db) id) as [Hge | Hlt].
  - rewrite bool_decide_eq_false_2; [done |]. rewrite elem_of_used. lia.
  - destruct (word_at db (id / 32)) as (w & Hw & Hu); [done | by apply word_index |].
    rewrite (bits_get_eq _ _ _ Hw), land_bit_test by lia. f_equal.
    rewrite <- (bit_at_word db (id / 32) w id Hw eq_refl).
    destruct (bit_at db id) eqn:E; symmetry.
    + apply bool_decide_eq_true_2. rewrite elem_of_used. split; [lia | done].
    + apply bool_decide_eq_false_2. rewrite elem_of_used, E. by intros [_ [=]].
Qed.

(** What a single-id update leaves alone. *)
Definition same_frame (db db' : IdentifierDB) : Prop :=
  size db' = size db ∧ numWords db' = numWords db.

Lemma AcquireId_fresh db id :
  wf db → 0 ≤ id < size db → id ∉ used db →
  ∃ db', IdentifierDB_AcquireId id db = Done true db' ∧ wf db' ∧ same_frame db db' ∧
         free db' = free db ∧ used db' = {[id]} ∪ used db ∧
         (∀ k, 0 ≤ k → bit_at db' k = (k =? id) || bit_at db k).
Proof.
  intros Hwf Hid Hna. pose proof (word_index db id Hwf Hid) as Hi.
  destruct (word_at db (id / 32) Hwf Hi) as (w & Hw & Hu).
  unfold IdentifierDB_AcquireId. mrun.
  destruct (Z.leb_spec (size db) id); [lia |]. rewrite ActiveId_eq by (done || lia).
  rewrite bool_decide_eq_false_2, (bits_get_eq _ _ _ Hw), (bits_set_eq _ _ _ _ Hw) by done.
  eexists. split; [reflexivity |].
  split; [apply wf_write_word; auto with bits |]. split; [done |]. split; [done |].
  assert (∀ k, 0 ≤ k → bit_at (write_word (id / 32) (Z.lor w (shl32 1 (id mod 32))) db) k =
                        (k =? id) || bit_at db k) as Hbit
    by (intros k Hk; apply bit_at_set_bit; done || lia).
  split; [| done]. apply set_eq. intros k.
  rewrite elem_of_union, elem_of_singleton, !elem_of_used. simpl. split.
  - intros [Hk Hb]. rewrite Hbit in Hb by lia. destruct (Z.eqb_spec k id); [by left | by right].
  - intros [-> | [Hk Hb]]; (split; [done |]); rewrite Hbit by lia.
    + by rewrite Z.eqb_refl.
    + by rewrite Hb, orb_true_r.
Qed.

Lemma AcquireId_refused db id :
  wf db → 0 ≤ id → size db ≤ id ∨ id ∈ used db →
  IdentifierDB_AcquireId id db = Done false db.
Proof.
  intros Hwf Hid Hcase. unfold IdentifierDB_AcquireId. mrun.
  destruct (Z.leb_spec (size db) id); [done |]. rewrite ActiveId_eq by (done || lia).
  rewrite bool_decide_eq_true_2; [done |]. destruct Hcase; [lia | done].
Qed.

Lemma ReleaseId_active db id :
  wf db → id ∈ used db →
  ∃ db', IdentifierDB_ReleaseId id db = Done tt db' ∧ wf db' ∧ same_frame db db' ∧
         free db' = u32 (free db + 1) ∧ used db' = used db ∖ {[id]} ∧
         (∀ k, 0 ≤ k → bit_at db' k = negb (k =? id) && bit_at db k).
Proof.
  intros Hwf Hact. pose proof Hact as [Hid Hb]%elem_of_used.
  pose proof (word_index db id Hwf Hid) as Hi.
  destruct (word_at db (id / 32) Hwf Hi) as (w & Hw & Hu).
  unfold IdentifierDB_ReleaseId. mrun.
  destruct (Z.leb_spec (size db) id); [lia |].
  rewrite (bits_get_eq _ _ _ Hw), land_bit_test by lia.
  rewrite <- (bit_at_word db (id / 32) w id Hw eq_refl), Hb.
  rewrite (bits_set_eq _ _ _ _ Hw).
  eexists. split; [reflexivity |]. set (db' := write_word _ _ db).
  assert (wf db') as Hwf' by (apply wf_write_word; auto with bits).
  split; [destruct Hwf'; split; simpl; auto with bits |]. split; [done |]. split; [done |].
  assert (∀ k, 0 ≤ k → bit_at (set_free (u32 (free db + 1)) db') k =
                        negb (k =? id) && bit_at db k) as Hbit.
  { intros k Hk. change (bit_at (set_free (u32 (free db + 1)) db') k) with (bit_at db' k).
    apply bit_at_clear_bit; done || lia. }
  split; [| done]. apply set_eq. intros k.
  rewrite elem_of_difference, elem_of_singleton, !elem_of_used. simpl. split.
  - intros [Hk Hk']. rewrite Hbit in Hk' by lia.
    apply andb_true_iff in Hk' as [Hn ?]. apply negb_true_iff, Z.eqb_neq in Hn. done.
  - intros [[Hk Hk'] Hne]. split; [done |]. rewrite Hbit, Hk' by lia.
    rewrite andb_true_r. by apply negb_true_iff, Z.eqb_neq.
Qed.

(** Releasing an id that is not held is the [assert(0)] of the double free;
    an id beyond the size is ignored. *)
Lemma ReleaseId_refused db id :
  wf db → 0 ≤ id → id ∉ used db →
  IdentifierDB_ReleaseId id db =
    if size db <=? id then Done tt db else Fault AssertFailed.
Proof.
  intros Hwf Hid Hna. unfold IdentifierDB_ReleaseId. mrun.
  destruct (Z.leb_spec (size db) id); [done |].
  destruct (word_at db (id / 32)) as (w & Hw & Hu); [done | apply word_index; done || lia |].
  rewrite (bits_get_eq _ _ _ Hw), land_bit_test by lia.
  rewrite <- (bit_at_word db (id / 32) w id Hw eq_refl).
  destruct (bit_at db id) eqn:E; [| done].
  destruct Hna. rewrite elem_of_used. split; [lia | done].
Qed.

(** ** Range operations *)

Definition in_range (start end_ k : Z) : bool := (start <=? k) && (k <=? end_).

(** The ranges on which the computed masks are exact: those that start on a
    word boundary, and those shorter than a word. *)
Definition exact_range (start end_ : Z) : Prop :=
  start mod 32 = 0 ∨ start ≤ end_ ∧ end_ - start + 1 < 32.

Lemma ones_u32 n : 0 ≤ n < 32 → u32 (shl32 1 n - 1) = Z.ones n.
Proof.
  intros Hn. assert (0 < 2 ^ n < 2 ^ 32) as Hp.
  { split; [apply Z.pow_pos_nonneg; lia | apply Z.pow_lt_mono_r; lia]. }
  change (2 ^ 32) with UINT_MOD in Hp.
  unfold shl32. rewrite Z.shiftl_mul_pow2, Z.mul_1_l by lia.
  rewrite (u32_small (2 ^ n)) by (unfold is_u32; lia).
  rewrite u32_small by (unfold is_u32; lia). by rewrite Z.ones_equiv.
Qed.

Lemma range_mask_testbit start end_ j :
  0 ≤ start ≤ end_ → end_ < UINT_MOD - 1 → exact_range start end_ → 0 ≤ j < 32 →
  Z.testbit (range_mask start end_) j = in_range start end_ (32 * (start / 32) + j).
Proof.
  intros Hs He Hex Hj. unfold range_mask, in_range.
  rewrite (u32_small (end_ - start + 1)) by (unfold is_u32; lia).
  destruct (Z.ltb_spec 32 (end_ - start + 1)) as [Hlong | Hshort]; cbn [Z.eqb].
  - change (Z.testbit (Z.ones 32) j = (start <=? 32 * (start / 32) + j) && (32 * (start / 32) + j <=? end_)).
    rewrite Z.ones_spec_low by lia. destruct Hex; [| lia]. symmetry. apply andb_true_iff. lia.
  - destruct (Z.eqb_spec (end_ - start + 1) 32) as [H32 | Hlt].
    + change (Z.testbit (Z.ones 32) j = (start <=? 32 * (start / 32) + j) && (32 * (start / 32) + j <=? end_)).
      rewrite Z.ones_spec_low by lia. destruct Hex; [| lia]. symmetry. apply andb_true_iff. lia.
    + rewrite ones_u32, shl32_testbit, Z.testbit_ones by lia.
      destruct (Z.leb_spec 0 (j - start mod 32)), (Z.ltb_spec (j - start mod 32) (end_ - start + 1)),
        (Z.leb_spec start (32 * (start / 32) + j)), (Z.leb_spec (32 * (start / 32) + j) end_);
        done || lia.
Qed.

Lemma is_u32_range_mask start end_ : is_u32 (range_mask start end_).
Proof.
  unfold range_mask. destruct (_ =? 32); [by u32_unfold | apply is_u32_shl32].
Qed.
#[local] Hint Resolve is_u32_range_mask : bits.

Lemma next_word_eq start :
  0 ≤ start < UINT_MOD - 32 → next_word start = 32 * (start / 32 + 1).
Proof. intros. unfold next_word. u32_unfold. rewrite Z.mod_small; lia. Qed.

(** The mask test of one pass. *)
Lemma mask_conflict w mask :
  is_u32 mask →
  (Z.land w mask =? 0) = true ↔ ∀ j, 0 ≤ j < 32 → Z.testbit mask j = true → Z.testbit w j = false.
Proof.
  intros Hm. rewrite Z.eqb_eq. split.
  - intros H j Hj Ht. assert (Z.testbit (Z.land w mask) j = false) as Hb by (by rewrite H, Z.bits_0).
    rewrite Z.land_spec, Ht, andb_true_r in Hb. done.
  - intros H. apply Z.bits_inj'. intros j Hj. rewrite Z.land_spec, Z.bits_0.
    destruct (Z.lt_ge_cases j 32).
    + destruct (Z.testbit mask j) eqn:E; [| by rewrite andb_false_r]. by rewrite H by (done || lia).
    + rewrite (is_u32_testbit_high mask) by (done || lia). by rewrite andb_false_r.
Qed.

(** A loop pass sees a range that starts in word [i] and is not exhausted. *)
Record pass (db : IdentifierDB) (n : nat) (i start end_ : Z) : Prop := {
  pass_word : start / 32 = i;
  pass_left : Z.of_nat n = end_ / 32 - i + 1;
  pass_end : end_ < size db;
  pass_start : 0 ≤ start ≤ end_ + 32;
  pass_exact : exact_range start end_;
}.

Lemma pass_next db db' n i start end_ :
  wf db → size db' = size db → pass db (S n) i start end_ →
  start ≤ end_ ∧ 0 ≤ i < numWords db ∧ pass db' n (i + 1) (next_word start) end_ ∧
  next_word start = 32 * (i + 1).
Proof.
  intros Hwf Hsz [Hw Hl He Hs Hex]. pose proof (wf_size db Hwf). pose proof (wf_words db Hwf).
  assert (start ≤ end_) by (destruct Hex; lia).
  assert (next_word start = 32 * (i + 1)) as Hn by (rewrite next_word_eq; [lia | u32_unfold; lia]).
  split; [done |]. split; [lia |]. split; [| done]. rewrite Hn.
  split; rewrite ?Hsz; try lia. left. lia.
Qed.

Lemma pass_bit db n i start end_ w (f : Z → Z) k :
  wf db → pass db (S n) i start end_ → bits db !! Z.to_nat i = Some w → 0 ≤ k →
  bit_at (write_word i (f w) db) k =
    if k / 32 =? i then Z.testbit (f w) (k mod 32) else bit_at db k.
Proof.
  intros Hwf Hp Hw Hk. destruct (pass_next db db n i start end_ Hwf eq_refl Hp) as (_ & Hi & _).
  by apply bit_at_write_word.
Qed.

(** Bit [k] of the current word is in the mask exactly when id [k] is in the
    range; ids of later words are left to the remaining passes. *)
Lemma pass_mask db n i start end_ k :
  wf db → pass db (S n) i start end_ → k / 32 = i →
  Z.testbit (range_mask start end_) (k mod 32) = in_range start end_ k.
Proof.
  intros Hwf Hp Hk. destruct (pass_next db db n i start end_ Hwf eq_refl Hp) as (Hle & Hi & _).
  destruct Hp as [Hw _ He Hs Hex]. pose proof (wf_size db Hwf).
  rewrite range_mask_testbit; [| lia | u32_unfold; lia | done | lia].
  f_equal. lia.
Qed.

Lemma pass_split db n i start end_ k :
  wf db → pass db (S n) i start end_ → k / 32 ≠ i →
  in_range start end_ k = in_range (next_word start) end_ k.
Proof.
  intros Hwf Hp Hk. destruct (pass_next db db n i start end_ Hwf eq_refl Hp) as (Hle & Hi & _ & Hn).
  destruct Hp as [Hw _ He Hs Hex]. rewrite Hn. unfold in_range.
  destruct (Z.leb_spec start k), (Z.leb_spec (32 * (i + 1)) k), (Z.leb_spec k end_); done || lia.
Qed.

Lemma pass_word_next db n i start end_ k :
  wf db → pass db (S n) i start end_ → k / 32 = i → in_range (next_word start) end_ k = false.
Proof.
  intros Hwf Hp Hk. destruct (pass_next db db n i start end_ Hwf eq_refl Hp) as (Hle & Hi & _ & Hn).
  rewrite Hn. unfold in_range. destruct (Z.leb_spec (32 * (i + 1)) k); [lia | done].
Qed.

Lemma ReleaseIdRange_loop_spec n : ∀ db i start end_,
  wf db → pass db n i start end_ →
  ∃ db', ReleaseIdRange_loop n i start end_ db = Done true db' ∧ wf db' ∧ same_frame db db' ∧
         free db' = free db ∧
         ∀ k, 0 ≤ k → bit_at db' k = negb (in_range start end_ k) && bit_at db k.
Proof.
  induction n as [| n IH]; intros db i start end_ Hwf Hp; simpl.
  - exists db. do 4 (split; [done |]). intros k Hk. destruct Hp as [? ? ? ? Hex].
    unfold in_range. destruct (Z.leb_spec start k), (Z.leb_spec k end_); done || lia.
  - destruct (pass_next db db n i start end_ Hwf eq_refl Hp) as (_ & Hi & _).
    destruct (word_at db i Hwf Hi) as (w & Hw & Hu). mrun.
    rewrite (bits_get_eq _ _ _ Hw), (bits_set_eq _ _ _ _ Hw).
    set (db1 := write_word i _ db).
    assert (wf db1) as Hwf1 by (apply wf_write_word; auto with bits).
    destruct (pass_next db db1 n i start end_ Hwf eq_refl Hp) as (_ & _ & Hp' & _).
    destruct (IH db1 _ _ _ Hwf1 Hp') as (db' & -> & Hwf' & [Hs1 Hs2] & Hf & Hb).
    exists db'. do 4 (split; [done |]). intros k Hk. rewrite Hb by done. unfold db1.
    rewrite (pass_bit db n i start end_ w (λ w, Z.land w (not32 (range_mask start end_))) k) by done.
    destruct (Z.eqb_spec (k / 32) i) as [Hki | Hki].
    + rewrite (pass_word_next db n i start end_ k), Z.land_spec, not32_testbit by (done || lia).
      rewrite (pass_mask db n i start end_ k), (bit_at_word db i w k) by done.
      cbn. apply andb_comm.
    + by rewrite (pass_split db n i start end_ k).
Qed.

(** A refused pass exhibits an id of the range that is already taken. *)
Lemma pass_conflict db n i start end_ w :
  wf db → pass db (S n) i start end_ → bits db !! Z.to_nat i = Some w →
  (Z.land w (range_mask start end_) =? 0) = false →
  ∃ k, 0 ≤ k ∧ in_range start end_ k = true ∧ bit_at db k = true.
Proof.
  intros Hwf Hp Hw Hc. destruct (pass_next db db n i start end_ Hwf eq_refl Hp) as (_ & Hi & _).
  pose proof (mask_conflict w _ (is_u32_range_mask start end_)) as Hmask. rewrite Hc in Hmask.
  destruct (decide (Exists (λ k, in_range start end_ k = true ∧ bit_at db k = true)
                           (seqZ (32 * i) 32))) as [He | Hno].
  - apply Exists_exists in He as (k & Hk & Hr & Hb).
    apply list_elem_of_In, elem_of_seqZ in Hk. exists k. split; [lia | done].
  - exfalso. assert (false = true) as Hft; [| done]. apply Hmask. intros j Hj Ht.
    destruct (Z.testbit w j) eqn:Hwj; [| done]. destruct Hno. apply Exists_exists.
    exists (32 * i + j). rewrite <- list_elem_of_In, elem_of_seqZ. split; [lia |].
    assert ((32 * i + j) / 32 = i) as Hdiv by lia.
    assert ((32 * i + j) mod 32 = j) as Hmod by lia.
    rewrite <- (pass_mask db n i start end_ _ Hwf Hp Hdiv), (bit_at_word db i w _ Hw Hdiv).
    by rewrite Hmod.
Qed.

(** An accepted pass found no id of the range taken in its word, and takes
    exactly those. *)
Lemma pass_clear db n i start end_ w k :
  wf db → pass db (S n) i start end_ → bits db !! Z.to_nat i = Some w →
  (Z.land w (range_mask start end_) =? 0) = true →
  k / 32 = i → in_range start end_ k = true → bit_at db k = false.
Proof.
  intros Hwf Hp Hw Hc Hki Hr. rewrite (bit_at_word db i w k Hw Hki).
  apply (mask_conflict w _ (is_u32_range_mask start end_)); [done | lia |].
  by rewrite (pass_mask db n i start end_ k).
Qed.

Lemma pass_acquired db n i start end_ w k :
  wf db → pass db (S n) i start end_ → bits db !! Z.to_nat i = Some w → 0 ≤ k →
  bit_at (write_word i (Z.lor w (range_mask start end_)) db) k =
    (if k / 32 =? i then in_range start end_ k else false) || bit_at db k.
Proof.
  intros Hwf Hp Hw Hk.
  rewrite (pass_bit db n i start end_ w (λ w, Z.lor w (range_mask start end_)) k) by done.
  destruct (Z.eqb_spec (k / 32) i) as [Hki |]; [| done].
  rewrite Z.lor_spec, (pass_mask db n i start end_ k), (bit_at_word db i w k) by done.
  apply orb_comm.
Qed.

(** What the range loop reports, on [true] and on [false]. *)
Definition range_result (start end_ : Z) (db : IdentifierDB) (b : bool) (db' : IdentifierDB) : Prop :=
  if b then
    (∀ k, 0 ≤ k → in_range start end_ k = true → bit_at db k = false) ∧
    (∀ k, 0 ≤ k → bit_at db' k = in_range start end_ k || bit_at db k)
  else
    (∃ k, 0 ≤ k ∧ in_range start end_ k = true ∧ bit_at db k = true) ∧
    (∀ k, 0 ≤ k → in_range start end_ k = false → bit_at db' k = bit_at db k).

(** A result for the remaining words extends to the current one. *)
Lemma range_result_pass db n i start end_ w b db' :
  wf db → pass db (S n) i start end_ → bits db !! Z.to_nat i = Some w →
  (Z.land w (range_mask start end_) =? 0) = true →
  range_result (next_word start) end_ (write_word i (Z.lor w (range_mask start end_)) db) b db' →
  range_result start end_ db b db'.
Proof.
  intros Hwf Hp Hw Hc. pose proof (pass_acquired db n i start end_ w) as H1.
  destruct b; intros [Hb1 Hb2]; split.
  - intros k Hk Hr. destruct (decide (k / 32 = i)) as [Hki | Hki].
    + by eapply pass_clear.
    + specialize (Hb1 k Hk). rewrite <- (pass_split db n i start end_ k), H1 in Hb1 by done.
      by apply Hb1, orb_false_iff in Hr as [_ ?].
  - intros k Hk. rewrite Hb2, H1 by done. destruct (Z.eqb_spec (k / 32) i) as [Hki | Hki].
    + by rewrite (pass_word_next db n i start end_ k).
    + by rewrite (pass_split db n i start end_ k).
  - destruct Hb1 as (k & Hk & Hr & Hbit). exists k.
    assert (k / 32 ≠ i) as Hki.
    { intros Hki. by rewrite (pass_word_next db n i start end_ k) in Hr. }
    rewrite H1, (proj2 (Z.eqb_neq _ _) Hki) in Hbit by done.
    by rewrite (pass_split db n i start end_ k).
  - intros k Hk Hr. destruct (decide (k / 32 = i)) as [Hki | Hki].
    + rewrite Hb2 by (done || by rewrite (pass_word_next db n i start end_ k)).
      by rewrite H1, Hki, Z.eqb_refl, Hr.
    + rewrite Hb2 by (done || by rewrite <- (pass_split db n i start end_ k)).
      rewrite H1 by done. by rewrite (proj2 (Z.eqb_neq _ _) Hki).
Qed.

Lemma AcquireIdRange_loop_spec n : ∀ db i start end_,
  wf db → pass db n i start end_ →
  ∃ b db', AcquireIdRange_loop n i start end_ db = Done b db' ∧ wf db' ∧ same_frame db db' ∧
           free db' = free db ∧ range_result start end_ db b db'.
Proof.
  induction n as [| n IH]; intros db i start end_ Hwf Hp; simpl.
  - exists true, db. do 4 (split; [done |]). destruct Hp as [? ? ? ? Hex].
    assert (∀ k, in_range start end_ k = false) as Hno.
    { intros k. unfold in_range. destruct (Z.leb_spec start k), (Z.leb_spec k end_); done || lia. }
    split; intros k Hk; rewrite Hno; done.
  - destruct (pass_next db db n i start end_ Hwf eq_refl Hp) as (_ & Hi & _).
    destruct (word_at db i Hwf Hi) as (w & Hw & Hu). mrun. rewrite (bits_get_eq _ _ _ Hw).
    destruct (Z.land w (range_mask start end_) =? 0) eqn:Hc; simpl.
    + rewrite (bits_set_eq _ _ _ _ Hw). set (db1 := write_word i _ db).
      assert (wf db1) as Hwf1 by (apply wf_write_word; auto with bits).
      destruct (pass_next db db1 n i start end_ Hwf eq_refl Hp) as (_ & _ & Hp' & _).
      destruct (IH db1 _ _ _ Hwf1 Hp') as (b & db' & -> & Hwf' & [Hs1 Hs2] & Hf & Hb).
      exists b, db'. do 4 (split; [done |]). by eapply range_result_pass.
    + exists false, db. do 4 (split; [done |]). split; [by eapply pass_conflict | done].
Qed.

(** ** Allocation of the lowest free id *)

Lemma AllocId_loop_spec n : ∀ db i,
  wf db → 0 ≤ i → i + Z.of_nat n = numWords db →
  (∀ k, 0 ≤ k < 32 * i → bit_at db k = true) →
  (∃ id w, 0 ≤ id < 32 * numWords db ∧ bit_at db id = false ∧
           (∀ k, 0 ≤ k < id → bit_at db k = true) ∧ bits db !! Z.to_nat (id / 32) = Some w ∧
           AllocId_loop n i db =
             Done (Some id) (write_word (id / 32) (Z.lor w (shl32 1 (id mod 32)))
                               (set_free (u32 (free db - 1)) db))) ∨
  (∀ k, 0 ≤ k < 32 * numWords db → bit_at db k = true) ∧
  AllocId_loop n i db = Fault AssertFailed.
Proof.
  induction n as [| n IH]; intros db i Hwf Hi Hn Hlow; simpl.
  - right. split; [| done]. intros k Hk. apply Hlow. lia.
  - destruct (word_at db i) as (w & Hw & Hu); [done | lia |]. mrun.
    rewrite (bits_get_eq _ _ _ Hw).
    destruct (decide (w = UINT_MAX)) as [-> | Hne].
    + change (BitMask_FindFirstZero UINT_MAX =? -1) with true. cbv iota. apply IH; [done | lia | lia |].
      intros k Hk. destruct (Z.lt_ge_cases k (32 * i)); [apply Hlow; lia |].
      rewrite (bit_at_word db i UINT_MAX) by (done || lia). change UINT_MAX with (Z.ones 32).
      apply Z.ones_spec_low. lia.
    + left. destruct (FindFirstZero_first w Hu Hne) as (Hr & Hb & Hbelow).
      set (r := BitMask_FindFirstZero w) in *. destruct (Z.eqb_spec r (-1)); [lia |].
      pose proof (wf_size db Hwf). pose proof (wf_words db Hwf).
      assert ((32 * i + r) / 32 = i) as Hdiv by lia.
      assert ((32 * i + r) mod 32 = r) as Hmod by lia.
      exists (32 * i + r), w. rewrite Hdiv, Hmod. split; [lia |].
      split; [by rewrite (bit_at_word db i w), Hmod |]. split; [| split; [done |]].
      * intros k Hk. destruct (Z.lt_ge_cases k (32 * i)); [apply Hlow; lia |].
        rewrite (bit_at_word db i w) by (done || lia). apply Hbelow. lia.
      * rewrite (bits_set_eq (set_free (u32 (free db - 1)) db) i w) by done.
        rewrite u32_small by (u32_unfold; lia). do 2 f_equal. lia.
Qed.

(** The accounting invariant: [free] counts the ids not in use and the
    padding bits of the last word are clear. *)
Definition accounted (db : IdentifierDB) : Prop :=
  free db = size db - Z.of_nat (base.size (used db)) ∧
  ∀ k, size db ≤ k < 32 * numWords db → bit_at db k = false.

Lemma used_range db : used db ⊆ list_to_set (seqZ 0 (size db)).
Proof. intros k. rewrite elem_of_used, elem_of_list_to_set, elem_of_seqZ. lia. Qed.

Lemma size_range n : 0 ≤ n → Z.of_nat (base.size (list_to_set (C := gset Z) (seqZ 0 n))) = n.
Proof. intros. rewrite size_list_to_set by apply NoDup_seqZ. rewrite length_seqZ. lia. Qed.

Lemma used_le db : wf db → Z.of_nat (base.size (used db)) ≤ size db.
Proof.
  intros Hwf. pose proof (wf_size db Hwf). pose proof (subseteq_size _ _ (used_range db)).
  pose proof (size_range (size db)). lia.
Qed.

(** The database is full exactly when every id below [size] is in use. *)
Lemma used_full db :
  wf db → (∀ k, 0 ≤ k < size db → bit_at db k = true) ↔ Z.of_nat (base.size (used db)) = size db.
Proof.
  intros Hwf. pose proof (wf_size db Hwf) as Hs. pose proof (size_range (size db)) as Hr. split.
  - intros Hall. transitivity (Z.of_nat (base.size (list_to_set (C := gset Z) (seqZ 0 (size db)))));
      [| apply Hr; lia]. do 2 f_equal. apply set_eq. intros k.
    rewrite elem_of_used, elem_of_list_to_set, elem_of_seqZ. split; [lia |].
    intros Hk. split; [lia | apply Hall; lia].
  - intros Hsz. assert (used db = list_to_set (seqZ 0 (size db))) as Heq.
    { apply set_eq. intros k. apply set_subseteq_size_equiv; [apply used_range | lia]. }
    intros k Hk. apply (elem_of_used db k). rewrite Heq, elem_of_list_to_set, elem_of_seqZ. lia.
Qed.

Lemma AllocId_accounted db :
  wf db → accounted db → Z.of_nat (base.size (used db)) < size db →
  ∃ id db', IdentifierDB_AllocId db = Done (Some id) db' ∧ wf db' ∧ accounted db' ∧ same_frame db db' ∧
            0 ≤ id < size db ∧ (id ∉ used db) ∧ (∀ k, 0 ≤ k < id → k ∈ used db) ∧
            used db' = {[id]} ∪ used db.
Proof.
  intros Hwf [Hfree Hpad] Hlt. pose proof (wf_size db Hwf). pose proof (wf_words db Hwf).
  unfold IdentifierDB_AllocId. mrun. destruct (Z.eqb_spec (free db) 0); [lia |].
  destruct (AllocId_loop_spec (Z.to_nat (numWords db)) db 0)
    as [(id & w & Hid & Hb & Hlow & Hw & ->) | [Hall _]]; [done | lia | lia | lia | |].
  2: { assert (Z.of_nat (base.size (used db)) = size db); [| lia].
       apply used_full; [done |]. intros k Hk. apply Hall. lia. }
  assert (id < size db) as Hids.
  { destruct (Z.lt_ge_cases id (size db)); [done |].
    assert (Z.of_nat (base.size (used db)) = size db); [| lia].
    apply used_full; [done |]. intros k Hk. apply Hlow. lia. }
  set (db1 := set_free (u32 (free db - 1)) db).
  assert (wf db1) as Hwf1 by (destruct Hwf; split; simpl; auto with bits).
  set (db' := write_word _ _ db1).
  assert (∀ k, 0 ≤ k → bit_at db' k = (k =? id) || bit_at db k) as Hbit.
  { intros k Hk. unfold db'. rewrite bit_at_set_bit by (done || simpl; lia). done. }
  assert (id ∉ used db) as Hna by (rewrite elem_of_used, Hb; by intros [_ [=]]).
  assert (used db' = {[id]} ∪ used db) as Hused.
  { apply set_eq. intros k. rewrite elem_of_union, elem_of_singleton, !elem_of_used. simpl. split.
    - intros [Hk Hk']. rewrite Hbit in Hk' by lia. destruct (Z.eqb_spec k id); [by left | by right].
    - intros [-> | [Hk Hk']]; (split; [lia |]); rewrite Hbit by lia;
        [by rewrite Z.eqb_refl | by rewrite Hk', orb_true_r]. }
  exists id, db'. split; [done |]. split; [apply wf_write_word; auto with bits;
    eapply is_u32_lor; auto with bits; by eapply Forall_lookup_1; [apply (wf_u32 db Hwf) |] |].
  split; [| repeat split; done || lia || (intros k Hk; rewrite elem_of_used; split; [lia | apply Hlow; lia])].
  split.
  - rewrite Hused, size_union, size_singleton by set_solver. simpl.
    rewrite u32_small by (u32_unfold; lia). lia.
  - intros k Hk. simpl in Hk. rewrite Hbit, (Hpad k) by lia. destruct (Z.eqb_spec k id); [lia | done].
Qed.

Lemma AllocId_full db :
  wf db → accounted db → Z.of_nat (base.size (used db)) = size db →
  IdentifierDB_AllocId db = Done None db.
Proof.
  intros Hwf [Hfree _] Hfull. unfold IdentifierDB_AllocId. mrun.
  destruct (Z.eqb_spec (free db) 0); [done | lia].
Qed.

Lemma ReleaseId_accounted db id :
  wf db → accounted db → id ∈ used db →
  ∃ db', IdentifierDB_ReleaseId id db = Done tt db' ∧ wf db' ∧ accounted db' ∧ same_frame db db' ∧
         used db' = used db ∖ {[id]}.
Proof.
  intros Hwf [Hfree Hpad] Hid. pose proof (wf_size db Hwf). pose proof (used_le db Hwf).
  destruct (ReleaseId_active db id Hwf Hid) as (db' & -> & Hwf' & [Hs Hn] & Hf & Hu & Hb).
  exists db'. split; [done |]. split; [done |]. split; [| done].
  assert (0 < base.size (used db))%nat as Hpos.
  { destruct (base.size (used db)) eqn:E; [| lia]. apply size_empty_inv in E.
    rewrite E in Hid. by apply not_elem_of_empty in Hid. }
  split.
  - rewrite Hf, Hu, Hs, size_difference, size_singleton by (by apply singleton_subseteq_l).
    rewrite u32_small by (u32_unfold; lia). lia.
  - intros k Hk. rewrite Hs, Hn in Hk. rewrite Hb, Hpad by lia. by rewrite andb_false_r.
Qed.

(** ** Contracts *)

(** The operations the object tables use, and the abstract registry they
    implement: a set of ids below [cap]. [None] is the double release the
    code asserts against. *)
Inductive reg_op : Type := OpActive (id : Z) | OpAcquire (id : Z) | OpRelease (id : Z).

Definition reg_op_id (op : reg_op) : Z :=
  match op with OpActive id | OpAcquire id | OpRelease id => id end.

Definition exec_op (op : reg_op) : M IdentifierDB bool :=
  match op with
  | OpActive id => IdentifierDB_ActiveId id
  | OpAcquire id => IdentifierDB_AcquireId id
  | OpRelease id => IdentifierDB_ReleaseId id ≫= λ _, mret true
  end.

Definition spec_op (cap : Z) (op : reg_op) (X : gset Z) : option (bool * gset Z) :=
  match op with
  | OpActive id => Some (bool_decide (id ∈ X), X)
  | OpAcquire id =>
      if decide (id < cap ∧ (id ∉ X)) then Some (true, {[id]} ∪ X) else Some (false, X)
  | OpRelease id =>
      if decide (id ∈ X) then Some (true, X ∖ {[id]})
      else if decide (cap ≤ id) then Some (true, X) else None
  end.

Fixpoint exec_ops (ops : list reg_op) : M IdentifierDB (list bool) :=
  match ops with
  | [] => mret []
  | op :: ops => exec_op op ≫= λ b, exec_ops ops ≫= λ bs, mret (b :: bs)
  end.

Fixpoint spec_ops (cap : Z) (ops : list reg_op) (X : gset Z) : option (list bool * gset Z) :=
  match ops with
  | [] => Some ([], X)
  | op :: ops =>
      '(b, S1) ← spec_op cap op X; '(bs, S2) ← spec_ops cap ops S1; Some (b :: bs, S2)
  end.

Lemma exec_op_refines db op :
  wf db → is_u32 (reg_op_id op) →
  match spec_op (size db) op (used db) with
  | Some (b, X) => ∃ db', exec_op op db = Done b db' ∧ wf db' ∧ size db' = size db ∧ used db' = X
  | None => exec_op op db = Fault AssertFailed
  end.
Proof.
  intros Hwf [Hid _]. destruct op as [id | id | id]; simpl in *.
  - exists db. unfold IdentifierDB_ActiveId. by rewrite ActiveId_eq by (done || lia).
  - destruct (decide _) as [[Hlt Hna] | Hno].
    + destruct (AcquireId_fresh db id Hwf (conj Hid Hlt) Hna) as (db' & ? & ? & [? ?] & ? & ? & ?).
      by exists db'.
    + exists db. split; [| done]. apply AcquireId_refused; [done .. |].
      destruct (decide (id ∈ used db)); [by right | left]. destruct (Z.lt_ge_cases id (size db)); [| done].
      by destruct Hno.
  - mrun. destruct (decide (id ∈ used db)) as [Hin | Hno].
    + destruct (ReleaseId_active db id Hwf Hin) as (db' & -> & ? & [? ?] & ? & ? & ?). by exists db'.
    + rewrite ReleaseId_refused by done. destruct (Z.leb_spec (size db) id), (decide (size db ≤ id));
        [by exists db | lia | lia | done].
Qed.

(** (C1) The identifier database implements the abstract registry of ids: any
    sequence of activity tests, acquisitions and releases returns exactly
    what the registry returns and leaves the ids it leaves, without an access
    outside [bits]; it fails its [assert] exactly when the registry sees a
    release of an id that is not held.  The free count is not part of the
    registry. *)
Theorem IdentifierDB_refines (ops : list reg_op) : ∀ db : IdentifierDB,
  wf db → Forall (λ op, is_u32 (reg_op_id op)) ops →
  match spec_ops (size db) ops (used db) with
  | Some (bs, X) => ∃ db', exec_ops ops db = Done bs db' ∧ wf db' ∧ used db' = X
  | None => exec_ops ops db = Fault AssertFailed
  end.
Proof.
  induction ops as [| op ops IH]; intros db Hwf Hops; [by exists db |].
  apply Forall_cons_iff in Hops as [Hop Hops]. simpl. mrun.
  pose proof (exec_op_refines db op Hwf Hop) as H. cbv [option_bind].
  destruct (spec_op (size db) op (used db)) as [[b S1] |]; simpl; [| by rewrite H].
  destruct H as (db1 & -> & Hwf1 & Hsz & <-). rewrite <- Hsz.
  specialize (IH db1 Hwf1 Hops).
  destruct (spec_ops (size db1) ops (used db1)) as [[bs S2] |]; simpl; [| by rewrite IH].
  destruct IH as (db2 & -> & Hwf2 & Hu). by exists db2.
Qed.

(** A database of 40 ids as [IdentifierDB_Alloc] returns it. *)
Definition db40 : IdentifierDB :=
  {| size := 40; numWords := 2; free := 40; bits := [0; 0] |}.

Lemma wf_db40 : wf db40.
Proof.
  split; simpl; [lia | done | done | | by u32_unfold].
  repeat constructor; by u32_unfold.
Qed.

Lemma IdentifierDB_refines_witness :
  ∃ db', exec_ops [OpAcquire 35; OpAcquire 35; OpActive 35; OpAcquire 40; OpRelease 35] db40 =
           Done [true; false; true; false; true] db' ∧ wf db' ∧ used db' = ∅.
Proof.
  assert (spec_ops (size db40) [OpAcquire 35; OpAcquire 35; OpActive 35; OpAcquire 40; OpRelease 35]
            (used db40) = Some ([true; false; true; false; true], ∅)) as Hs by (vm_compute; reflexivity).
  pose proof (IdentifierDB_refines
    [OpAcquire 35; OpAcquire 35; OpActive 35; OpAcquire 40; OpRelease 35] db40 wf_db40) as H.
  rewrite Hs in H. apply H. repeat constructor; simpl; u32_unfold; lia.
Defined.

(** The databases a client of [AllocId] and [ReleaseId] can reach. *)
Inductive alloc_reach (sz : Z) : IdentifierDB → Prop :=
| reach_init db : IdentifierDB_Alloc true true sz = Some db → alloc_reach sz db
| reach_alloc db r db' :
    alloc_reach sz db → IdentifierDB_AllocId db = Done r db' → alloc_reach sz db'
| reach_release db id db' :
    alloc_reach sz db → id ∈ used db → IdentifierDB_ReleaseId id db = Done tt db' →
    alloc_reach sz db'.

Lemma Alloc_wf sz db :
  0 ≤ sz ≤ 4294967264 → IdentifierDB_Alloc true true sz = Some db →
  wf db ∧ size db = sz ∧ used db = ∅ ∧ ∀ k, bit_at db k = false.
Proof.
  intros Hsz [= <-]. rewrite u32_small by (u32_unfold; lia).
  set (db := mkIdentifierDB _ _ _ _). assert (∀ k, bit_at db k = false) as Hb.
  { intros k. unfold bit_at, db; simpl. destruct (replicate _ _ !! _) eqn:E; [| done].
    apply lookup_replicate in E as [-> _]. apply Z.bits_0. }
  split; [| split; [done |]; split; [| done]].
  - split; simpl; [lia | done | rewrite length_replicate; lia | apply Forall_replicate; by u32_unfold |].
    u32_unfold; lia.
  - apply set_eq. intros k. rewrite elem_of_used, Hb, elem_of_empty. split; [by intros [_ [=]] | done].
Qed.

Lemma alloc_reach_inv sz db :
  0 ≤ sz ≤ 4294967264 → alloc_reach sz db → wf db ∧ accounted db ∧ size db = sz.
Proof.
  intros Hsz. induction 1 as [db Hi | db r db' _ (Hwf & Hacc & Hs) Hr | db id db' _ (Hwf & Hacc & Hs) Hid Hr].
  - destruct (Alloc_wf sz db Hsz Hi) as (Hwf & Hs & Hu & Hb). split; [done |]. split; [| done].
    split; [| done]. rewrite Hu, size_empty. simpl. injection Hi as <-. simpl. lia.
  - destruct (decide (Z.of_nat (base.size (used db)) = size db)) as [Hfull | Hnf].
    + rewrite AllocId_full in Hr by done. by injection Hr as <- <-.
    + pose proof (used_le db Hwf).
      destruct (AllocId_accounted db Hwf Hacc) as (id & db1 & Heq & ? & ? & [? ?] & _); [lia |].
      rewrite Heq in Hr. injection Hr as <- <-. split; [done |]. split; [done | congruence].
  - destruct (ReleaseId_accounted db id Hwf Hacc Hid) as (db1 & Heq & ? & ? & [? ?] & _).
    rewrite Heq in Hr. injection Hr as <-. split; [done |]. split; [done | congruence].
Qed.

(** (C2) A client that only calls [AllocId], and [ReleaseId] on ids it holds,
    always finds the database consistent: [IdentifierDB_Count] is the number
    of ids held, and [AllocId] never reaches its assertion. It refuses
    exactly when all [size] ids are held and otherwise returns the least id
    not held, which is below the size, and adds that id alone. *)
Theorem AllocId_correct (sz : Z) (db : IdentifierDB) :
  0 ≤ sz ≤ 4294967264 → alloc_reach sz db →
  IdentifierDB_Count db = Done (Z.of_nat (base.size (used db))) db ∧
  if decide (Z.of_nat (base.size (used db)) = sz) then IdentifierDB_AllocId db = Done None db
  else ∃ id db', IdentifierDB_AllocId db = Done (Some id) db' ∧ 0 ≤ id < sz ∧ (id ∉ used db) ∧
                 (∀ k, 0 ≤ k < id → k ∈ used db) ∧ used db' = {[id]} ∪ used db.
Proof.
  intros Hsz Hreach. destruct (alloc_reach_inv sz db Hsz Hreach) as (Hwf & Hacc & <-).
  pose proof (used_le db Hwf). split.
  - unfold IdentifierDB_Count. mrun. destruct Hacc as [-> _].
    rewrite u32_small by (u32_unfold; lia). f_equal. lia.
  - destruct (decide _); [by apply AllocId_full |].
    destruct (AllocId_accounted db Hwf Hacc) as (id & db' & ? & _ & _ & _ & ? & ? & ? & ?); [lia |].
    by exists id, db'.
Qed.

Lemma AllocId_correct_witness :
  ∃ id db', IdentifierDB_AllocId db40 = Done (Some id) db' ∧ 0 ≤ id < 40 ∧ (id ∉ used db40) ∧
            (∀ k, 0 ≤ k < id → k ∈ used db40) ∧ used db' = {[id]} ∪ used db40.
Proof.
  assert (alloc_reach 40 db40) as Hr by (apply reach_init; reflexivity).
  exact (proj2 (AllocId_correct 40 db40 ltac:(lia) Hr)).
Defined.

(** [AcquireId] does not count the id it takes but [ReleaseId] gives one
    back, so every acquire/release pair returns the database to the same set
    of ids with [free] one too high: from a consistent database the pair
    leaves [IdentifierDB_Count] one below the number of ids held (and at
    [UINT_MAX] when none is held). *)
Theorem acquire_release_drift (db : IdentifierDB) (id : Z) :
  wf db → accounted db → 0 ≤ id < size db → id ∉ used db →
  ∃ db1 db2, IdentifierDB_AcquireId id db = Done true db1 ∧
             IdentifierDB_ReleaseId id db1 = Done tt db2 ∧
             used db2 = used db ∧ free db2 = free db + 1 ∧
             IdentifierDB_Count db2 = Done (u32 (Z.of_nat (base.size (used db)) - 1)) db2.
Proof.
  intros Hwf [Hfree _] Hid Hna. pose proof (used_le db Hwf). pose proof (wf_size db Hwf).
  destruct (AcquireId_fresh db id Hwf Hid Hna) as (db1 & H1 & Hwf1 & [Hs1 _] & Hf1 & Hu1 & _).
  destruct (ReleaseId_active db1 id Hwf1) as (db2 & H2 & Hwf2 & [Hs2 _] & Hf2 & Hu2 & _);
    [rewrite Hu1; set_solver |].
  assert (free db2 = free db + 1) as Hf by (rewrite Hf2, Hf1; apply u32_small; u32_unfold; lia).
  exists db1, db2. split; [done |]. split; [done |]. split; [rewrite Hu2, Hu1; set_solver |].
  split; [done |]. unfold IdentifierDB_Count. mrun. rewrite Hf, Hs2, Hs1, Hfree. do 2 f_equal. lia.
Qed.

Lemma acquire_release_drift_witness :
  ∃ db1 db2, IdentifierDB_AcquireId 7 db40 = Done true db1 ∧
             IdentifierDB_ReleaseId 7 db1 = Done tt db2 ∧
             used db2 = used db40 ∧ free db2 = free db40 + 1 ∧
             IdentifierDB_Count db2 = Done (u32 (Z.of_nat (base.size (used db40)) - 1)) db2.
Proof.
  apply (acquire_release_drift db40 7).
  - apply wf_db40.
  - apply (alloc_reach_inv 40 db40); [lia | apply reach_init; reflexivity].
  - simpl; lia.
  - vm_compute. intros H; inversion H.
Defined.

(** When every id has been taken with [AcquireId], [free] is still the
    size: if the size is not a multiple of 32, [AllocId] then hands out the
    padding bit just past the end, an id that is not below the size. *)
Theorem AllocId_overrun (db : IdentifierDB) :
  wf db → size db mod 32 ≠ 0 → free db ≠ 0 →
  Z.of_nat (base.size (used db)) = size db → bit_at db (size db) = false →
  ∃ db', IdentifierDB_AllocId db = Done (Some (size db)) db'.
Proof.
  intros Hwf Hmod Hfree Hfull Hpad. pose proof (wf_size db Hwf). pose proof (wf_words db Hwf).
  pose proof (proj2 (used_full db Hwf) Hfull) as Hall.
  unfold IdentifierDB_AllocId. mrun. destruct (Z.eqb_spec (free db) 0); [done |].
  destruct (AllocId_loop_spec (Z.to_nat (numWords db)) db 0)
    as [(id & w & Hid & Hb & Hlow & Hw & ->) | [Hset _]]; [done | lia | lia | lia | |].
  - assert (id = size db) as ->; [| by eexists].
    destruct (Z.lt_trichotomy id (size db)) as [Hlt | [? | Hgt]]; [| done |].
    + by rewrite Hall in Hb by lia.
    + by rewrite Hlow in Hpad by lia.
  - by rewrite Hset in Hpad by lia.
Qed.

(** The four stream slots of [vmaccel_stream_server], all acquired. *)
Definition db4_taken : IdentifierDB :=
  {| size := 4; numWords := 1; free := 4; bits := [0xf] |}.

Lemma AllocId_overrun_witness :
  exec_ops [OpAcquire 0; OpAcquire 1; OpAcquire 2; OpAcquire 3]
    {| size := 4; numWords := 1; free := 4; bits := [0] |} = Done [true; true; true; true] db4_taken ∧
  ∃ db', IdentifierDB_AllocId db4_taken = Done (Some 4) db'.
Proof.
  split; [vm_compute; reflexivity |]. apply (AllocId_overrun db4_taken).
  - split; simpl; [lia | done | done | | by u32_unfold]. repeat constructor; by u32_unfold.
  - vm_compute. discriminate.
  - vm_compute. discriminate.
  - vm_compute. reflexivity.
  - vm_compute. reflexivity.
Defined.

Lemma range_pass db start end_ :
  wf db → 0 ≤ start ≤ end_ → end_ < size db → exact_range start end_ →
  pass db (Z.to_nat (end_ / 32 - start / 32 + 1)) (start / 32) start end_.
Proof. intros Hwf Hs He Hex. split; done || lia. Qed.

Lemma elem_of_range start end_ k :
  k ∈ (list_to_set (seqZ start (end_ - start + 1)) : gset Z) ↔ in_range start end_ k = true.
Proof.
  rewrite elem_of_list_to_set, elem_of_seqZ. unfold in_range. rewrite andb_true_iff, !Z.leb_le. lia.
Qed.

(** On a range that starts at a word boundary or is shorter than a word,
    [AcquireIdRange] never leaves the words of the database; it returns
    [true] exactly when no id of the range is held, and then holds exactly
    the range in addition. On [false] ids outside the range are unchanged. *)
Theorem AcquireIdRange_exact (db : IdentifierDB) (start end_ : Z) :
  wf db → 0 ≤ start ≤ end_ → end_ < size db → exact_range start end_ →
  let range : gset Z := list_to_set (seqZ start (end_ - start + 1)) in
  ∃ b db', IdentifierDB_AcquireIdRange start end_ db = Done b db' ∧ wf db' ∧
           (b = true ↔ used db ## range) ∧
           (b = true → used db' = range ∪ used db) ∧
           used db' ∖ range = used db ∖ range.
Proof.
  intros Hwf Hs He Hex range. unfold IdentifierDB_AcquireIdRange. mrun.
  destruct (Z.leb_spec (size db) start), (Z.leb_spec (size db) end_); try lia. simpl.
  destruct (AcquireIdRange_loop_spec _ db _ _ _ Hwf (range_pass db start end_ Hwf Hs He Hex))
    as (b & db' & -> & Hwf' & [Hsz _] & _ & Hres).
  exists b, db'. split; [done |]. split; [done |].
  assert (∀ k, k ∈ range ↔ in_range start end_ k = true) as Hr by (intros; apply elem_of_range).
  destruct b; destruct Hres as [H1 H2].
  - assert (used db' = range ∪ used db) as Hu.
    { apply set_eq. intros k. rewrite elem_of_union, !elem_of_used, Hr, Hsz. split.
      - intros [Hk Hb]. rewrite H2 in Hb by lia. apply orb_true_iff in Hb. tauto.
      - intros Hk. assert (0 ≤ k < size db) as Hb.
        { destruct Hk as [Hk | ?]; [| lia]. unfold in_range in Hk.
          rewrite andb_true_iff, !Z.leb_le in Hk. lia. }
        split; [done |]. rewrite H2 by lia. apply orb_true_iff. tauto. }
    split; [| rewrite Hu; split; [done | set_solver]]. split; [| done]. intros _ k Hk Hin.
    apply elem_of_used in Hk as [Hk Hb]. rewrite H1 in Hb; [done | lia | by apply Hr].
  - split; [| split; [done |]].
    + split; [done |]. intros Hd. destruct H1 as (k & Hk & Hin & Hb). destruct (Hd k); [| by apply Hr].
      rewrite elem_of_used. unfold in_range in Hin. rewrite andb_true_iff, !Z.leb_le in Hin. split; [lia | done].
    + apply set_eq. intros k. rewrite !elem_of_difference, !elem_of_used, Hsz, Hr.
      split; intros [[Hk Hb] Hn]; (split; [split; [done |] | done]); destruct (in_range start end_ k) eqn:E;
        try done; [rewrite <- H2 by (done || lia) | rewrite H2 by (done || lia)]; done.
Qed.

Lemma AcquireIdRange_exact_witness :
  exact_range 30 36 ∧
  ∃ b db', IdentifierDB_AcquireIdRange 30 36 db40 = Done b db' ∧ wf db' ∧
           (b = true ↔ used db40 ## (list_to_set (seqZ 30 7) : gset Z)) ∧
           (b = true → used db' = list_to_set (seqZ 30 7) ∪ used db40) ∧
           used db' ∖ list_to_set (seqZ 30 7) = used db40 ∖ list_to_set (seqZ 30 7).
Proof.
  assert (exact_range 30 36) as Hex by (right; lia). split; [exact Hex |].
  apply (AcquireIdRange_exact db40 30 36); [apply wf_db40 | lia | simpl; lia | exact Hex].
Defined.

(** On a range of a word or more that starts inside a word the first mask
    is all ones: [ReleaseIdRange] reports success and has also released every
    id of the first word below [start]. *)
Theorem ReleaseIdRange_unaligned (db : IdentifierDB) (start end_ k : Z) :
  wf db → 0 ≤ start → start mod 32 ≠ 0 → start + 31 ≤ end_ < size db →
  32 * (start / 32) ≤ k < start →
  ∃ db', IdentifierDB_ReleaseIdRange start end_ db = Done true db' ∧ k ∉ used db'.
Proof.
  intros Hwf Hs Hmod He Hk. pose proof (wf_size db Hwf). pose proof (wf_words db Hwf).
  unfold IdentifierDB_ReleaseIdRange. mrun.
  destruct (Z.leb_spec (size db) start), (Z.leb_spec (size db) end_); try lia. simpl.
  replace (Z.to_nat (end_ / 32 - start / 32 + 1)) with (S (Z.to_nat (end_ / 32 - start / 32))) by lia.
  simpl. mrun. destruct (word_at db (start / 32)) as (w & Hw & Hu); [done | lia |].
  rewrite (bits_get_eq _ _ _ Hw), (bits_set_eq _ _ _ _ Hw). set (db1 := write_word _ _ db).
  assert (wf db1) as Hwf1 by (apply wf_write_word; auto with bits).
  assert (next_word start = 32 * (start / 32 + 1)) as Hn by (apply next_word_eq; u32_unfold; lia).
  destruct (ReleaseIdRange_loop_spec (Z.to_nat (end_ / 32 - start / 32)) db1 (start / 32 + 1)
              (next_word start) end_ Hwf1) as (db' & -> & _ & _ & _ & Hb).
  { rewrite Hn. split; simpl; try lia. left. lia. }
  exists db'. split; [done |]. rewrite elem_of_used. intros [Hk' Ht].
  rewrite Hb in Ht by lia. apply andb_true_iff in Ht as [_ Ht]. unfold db1 in Ht.
  rewrite bit_at_write_word in Ht by (done || lia).
  replace (k / 32) with (start / 32) in Ht by lia. rewrite Z.eqb_refl in Ht.
  assert (range_mask start end_ = 0xffffffff) as Hm.
  { unfold range_mask. rewrite u32_small by (u32_unfold; lia).
    destruct (Z.ltb_spec 32 (end_ - start + 1)), (Z.eqb_spec (end_ - start + 1) 32); done || lia. }
  rewrite Hm, Z.land_spec in Ht. change (not32 0xffffffff) with 0 in Ht.
  by rewrite Z.bits_0, andb_false_r in Ht.
Qed.

Lemma ReleaseIdRange_unaligned_witness :
  ∃ db db', IdentifierDB_AcquireId 3 db40 = Done true db ∧ 3 ∈ used db ∧
            IdentifierDB_ReleaseIdRange 4 37 db = Done true db' ∧ 3 ∉ used db'.
Proof.
  destruct (AcquireId_fresh db40 3 wf_db40) as (db & H1 & Hwf & [Hs _] & _ & Hu & _).
  { simpl; lia. }
  { vm_compute. intros H; inversion H. }
  destruct (ReleaseIdRange_unaligned db 4 37 3 Hwf) as (db' & H2 & H3);
    [lia | discriminate | rewrite Hs; simpl; lia | lia |].
  exists db, db'. split; [exact H1 |]. split; [rewrite Hu; set_solver |]. split; [exact H2 | exact H3].
Defined.

(** ** One id of a database *)

(** [id] was clear and is set; every other bit is as it was. *)
Definition taken_bit (db db' : IdentifierDB) (id : Z) : Prop :=
  0 ≤ id ∧ bit_at db id = false ∧ ∀ k, 0 ≤ k → bit_at db' k = (k =? id) || bit_at db k.

Lemma AllocId_bits db o db' :
  wf db → IdentifierDB_AllocId db = Done o db' →
  wf db' ∧ match o with Some id => taken_bit db db' id | None => db' = db end.
Proof.
  intros Hwf. unfold IdentifierDB_AllocId. mrun. destruct (free db =? 0); [by intros [= <- <-] |].
  pose proof (wf_size db Hwf). pose proof (wf_words db Hwf).
  destruct (AllocId_loop_spec (Z.to_nat (numWords db)) db 0)
    as [(id & w & Hid & Hclear & _ & Hw & ->) | [_ ->]]; [done | lia | lia | intros; lia | | done].
  intros [= <- <-].
  assert (wf (set_free (u32 (free db - 1)) db)) as Hwf1.
  { destruct Hwf. split; try done. apply u32_range. }
  assert (is_u32 w) as Hu.
  { eapply Forall_lookup_1; [apply (wf_u32 db Hwf) | exact Hw]. }
  split; [apply wf_write_word; [done |]; apply is_u32_lor; [done | apply is_u32_shl32] |].
  split; [lia |]. split; [done |]. intros k Hk.
  rewrite (bit_at_set_bit (set_free (u32 (free db - 1)) db) id w k); done || (simpl; lia).
Qed.

Lemma AllocId_size db a db' : wf db → IdentifierDB_AllocId db = Done a db' → size db' = size db.
Proof.
  intros Hwf. unfold IdentifierDB_AllocId. mrun. destruct (free db =? 0); [by intros [= _ <-] |].
  pose proof (wf_size db Hwf). pose proof (wf_words db Hwf).
  destruct (AllocId_loop_spec (Z.to_nat (numWords db)) db 0)
    as [(id & w & _ & _ & _ & _ & ->) | [_ ->]]; [done | lia | lia | intros; lia | by intros [= _ <-] | done].
Qed.

Lemma AcquireId_bits db id b db' :
  wf db → 0 ≤ id → IdentifierDB_AcquireId id db = Done b db' →
  wf db' ∧ if (b : bool) then taken_bit db db' id else db' = db.
Proof.
  intros Hwf Hid. destruct (decide (id < size db)) as [Hlt |].
  2: { rewrite AcquireId_refused by (done || lia). by intros [= <- <-]. }
  destruct (decide (id ∈ used db)) as [Hin | Hout].
  { rewrite AcquireId_refused by (done || auto). by intros [= <- <-]. }
  destruct (AcquireId_fresh db id) as (db1 & -> & Hwf1 & _ & _ & _ & Hbits); [done | lia | done |].
  intros [= <- <-]. split; [done |]. split; [done |]. split; [| done].
  destruct (bit_at db id) eqn:Hb; [| done]. destruct Hout. apply elem_of_used. split; [lia | done].
Qed.

Lemma ReleaseId_bits db id u db' :
  wf db → 0 ≤ id → bit_at db id = true → IdentifierDB_ReleaseId id db = Done u db' →
  wf db' ∧ ∀ k, 0 ≤ k → k ≠ id → bit_at db' k = bit_at db k.
Proof.
  intros Hwf Hid Hb. destruct (decide (id < size db)).
  - destruct (ReleaseId_active db id) as (db1 & -> & Hwf1 & _ & _ & _ & Hbits);
      [done | by apply elem_of_used; split; [lia |] |].
    intros [= _ <-]. split; [done |]. intros k Hk Hne. rewrite Hbits by done.
    by destruct (Z.eqb_spec k id).
  - rewrite ReleaseId_refused; [| done | done | rewrite elem_of_used; lia].
    destruct (Z.leb_spec (size db) id); [| lia]. by intros [= _ <-].
Qed.
