(* ===== verification/XdrRuntime.v ===== *)
(** * The XDR runtime the generated filters call

    [<rpc/xdr.h>] is not part of the repository: its primitive filters are
    the operations of the class [XdrRuntime], and what the generated code
    relies on (RFC 4506 and xdr(3)) are the laws of the class [XdrLaws].
    The file also states what a filter promises ([Format], [Lawful]) and
    proves the generic composition lemmas the struct filters use. *)

From S2P Require Import Prelude.
From Stdlib Require Export Strings.Byte.

Inductive xdr_op : Type := XDR_ENCODE | XDR_DECODE | XDR_FREE.

(** A stream handle: the operation, the bytes before the current position
    and the bytes from it on. *)
Record XDR := mkXDR {
  x_op : xdr_op;
  x_done : list byte;
  x_rest : list byte;
}.

(** [bool_t xdr_T(XDR *xdrs, T *objp)]: [None] is [FALSE]; on [TRUE] the
    object left in [*objp] and the advanced stream. *)
Definition filter (A : Type) : Type := A → XDR → option (A * XDR).

Class XdrRuntime := {
  xdr_u_int : filter Z;
  xdr_int : filter Z;
  xdr_enum : filter Z;
  xdr_bool : filter Z;
  xdr_float : filter Z;
  xdr_double : filter Z;
  (** counted byte strings and arrays of at most [max] elements; [zero] is
      the cleared element a decoded array starts from *)
  xdr_bytes (max : Z) : filter (list byte);
  xdr_array {A} (max : Z) (zero : A) (f : filter A) : filter (list A);
  (** optional object behind a pointer *)
  xdr_pointer {A} (zero : A) (f : filter A) : filter (option A);
  (** [XDR_INLINE(xdrs, n)]: a pointer (here an offset) to [n] contiguous
      bytes of the stream, which is advanced over them, or [NULL] *)
  XDR_INLINE (n : Z) (xdrs : XDR) : option (Z * XDR);
  IXDR_PUT_U_LONG (buf v : Z) (xdrs : XDR) : XDR;
  IXDR_GET_U_LONG (buf : Z) (xdrs : XDR) : Z;
}.

(** ** What a filter promises

    [wf] are the objects the wire format can carry, [enc] their encoding. *)
Class Format {A} (f : filter A) := {
  wf : A → Prop;
  enc : A → list byte;
}.
#[global] Arguments wf {A} f {_} _ : simpl never.
#[global] Arguments enc {A} f {_} _ : simpl never.

(** Encoding writes [enc f a] where there is room for it, decoding reads back
    the same object whatever [*objp] held before, freeing always succeeds. *)
Class Transmits {A} (f : filter A) `{Format A f} : Prop := {
  law_encode a d r :
    wf f a → (length (enc f a) ≤ length r)%nat →
    f a (mkXDR XDR_ENCODE d r) =
      Some (a, mkXDR XDR_ENCODE (d ++ enc f a) (drop (length (enc f a)) r));
  law_decode a a0 d r :
    wf f a →
    f a0 (mkXDR XDR_DECODE d (enc f a ++ r)) = Some (a, mkXDR XDR_DECODE (d ++ enc f a) r);
  law_free a d r : ∃ a', f a (mkXDR XDR_FREE d r) = Some (a', mkXDR XDR_FREE d r);
}.

(** Moreover, whatever bytes arrive, a decoded object is one the format can
    carry: its integers are in range and its counts within the declared
    limits. *)
Class Lawful {A} (f : filter A) `{Format A f} : Prop := {
  #[global] lawful_transmits :: Transmits f;
  law_bounds a0 d r a xdrs :
    f a0 (mkXDR XDR_DECODE d r) = Some (a, xdrs) → wf f a ∧ x_op xdrs = XDR_DECODE;
}.

(** The laws of a filter whose format is given explicitly. *)
Lemma transmits_intro {A} (f : filter A) (w : A → Prop) (e : A → list byte) :
  (∀ a d r, w a → (length (e a) ≤ length r)%nat →
     f a (mkXDR XDR_ENCODE d r) = Some (a, mkXDR XDR_ENCODE (d ++ e a) (drop (length (e a)) r))) →
  (∀ a a0 d r, w a →
     f a0 (mkXDR XDR_DECODE d (e a ++ r)) = Some (a, mkXDR XDR_DECODE (d ++ e a) r)) →
  (∀ a d r, ∃ a', f a (mkXDR XDR_FREE d r) = Some (a', mkXDR XDR_FREE d r)) →
  Transmits (H := {| wf := w; enc := e |}) f.
Proof. by split. Qed.

Lemma lawful_intro {A} (f : filter A) (w : A → Prop) (e : A → list byte) :
  (∀ a d r, w a → (length (e a) ≤ length r)%nat →
     f a (mkXDR XDR_ENCODE d r) = Some (a, mkXDR XDR_ENCODE (d ++ e a) (drop (length (e a)) r))) →
  (∀ a a0 d r, w a →
     f a0 (mkXDR XDR_DECODE d (e a ++ r)) = Some (a, mkXDR XDR_DECODE (d ++ e a) r)) →
  (∀ a0 d r a xdrs, f a0 (mkXDR XDR_DECODE d r) = Some (a, xdrs) → w a ∧ x_op xdrs = XDR_DECODE) →
  (∀ a d r, ∃ a', f a (mkXDR XDR_FREE d r) = Some (a', mkXDR XDR_FREE d r)) →
  Lawful (H := {| wf := w; enc := e |}) f.
Proof. intros. split; [by apply transmits_intro | done]. Qed.

Definition is_s32 (z : Z) : Prop := -2147483648 ≤ z < 2147483648.
Definition is_u64 (z : Z) : Prop := 0 ≤ z < 18446744073709551616.

(** ** The laws of the runtime *)

(** The encodings of the primitive types. *)
Class XdrWire := {
  enc_u_int : Z → list byte;
  enc_int : Z → list byte;
  enc_bool : Z → list byte;
  enc_float : Z → list byte;
  enc_double : Z → list byte;
  enc_bytes : list byte → list byte;
}.

Section Formats.
Context `{XdrRuntime} `{XdrWire}.

#[global] Instance format_u_int : Format xdr_u_int := {| wf := is_u32; enc := enc_u_int |}.
#[global] Instance format_int : Format xdr_int := {| wf := is_s32; enc := enc_int |}.
#[global] Instance format_enum : Format xdr_enum := {| wf := is_s32; enc := enc_int |}.
#[global] Instance format_bool : Format xdr_bool :=
  {| wf := λ z, z = 0 ∨ z = 1; enc := enc_bool |}.
#[global] Instance format_float : Format xdr_float := {| wf := is_u32; enc := enc_float |}.
#[global] Instance format_double : Format xdr_double := {| wf := is_u64; enc := enc_double |}.
#[global] Instance format_bytes max : Format (xdr_bytes max) :=
  {| wf := λ b, Z.of_nat (length b) ≤ max; enc := enc_bytes |}.
#[global] Instance format_array {A} max zero (f : filter A) `{Format A f} :
    Format (xdr_array max zero f) :=
  {| wf := λ l, Z.of_nat (length l) ≤ max ∧ Forall (wf f) l;
     enc := λ l, enc_u_int (Z.of_nat (length l)) ++ concat (map (enc f) l) |}.
#[global] Instance format_pointer {A} zero (f : filter A) `{Format A f} :
    Format (xdr_pointer zero f) :=
  {| wf := λ o, match o with Some a => wf f a | None => True end;
     enc := λ o, match o with Some a => enc_bool 1 ++ enc f a | None => enc_bool 0 end |}.
End Formats.

(** A bound on a counted object that fits the [u_int] count. *)
Class CountBound (max : Z) : Prop := count_bound : 0 ≤ max ≤ UINT_MAX.

(** What the filters of the library do.  A decoding target is a value here, and
    what it held before does not matter.  In C it matters for [xdr_bytes],
    [xdr_array] and [xdr_pointer]: a target pointer that is not [NULL] is decoded
    into without a check of its size.  The generated stubs and dispatchers clear
    their objects before they decode, so the pointers are [NULL]. *)
Class XdrLaws `{XdrRuntime} `{XdrWire} : Prop := {
  #[global] lawful_u_int :: Lawful xdr_u_int;
  #[global] lawful_int :: Lawful xdr_int;
  #[global] lawful_enum :: Lawful xdr_enum;
  #[global] lawful_bool :: Lawful xdr_bool;
  #[global] lawful_float :: Lawful xdr_float;
  #[global] lawful_double :: Lawful xdr_double;
  #[global] lawful_bytes max `{CountBound max} :: Lawful (xdr_bytes max);
  #[global] lawful_array {A} max zero (f : filter A) `{CountBound max} `{Format A f} `{!Lawful f} ::
    Lawful (xdr_array max zero f);
  #[global] lawful_pointer {A} zero (f : filter A) `{Format A f} `{!Lawful f} ::
    Lawful (xdr_pointer zero f);

  (** an [unsigned int] is four bytes, and any four bytes are one *)
  enc_u_int_length v : length (enc_u_int v) = 4%nat;
  enc_u_int_surj (b : list byte) : length b = 4%nat → ∃ v, is_u32 v ∧ enc_u_int v = b;

  (** the inline buffer is the stretch of the stream just passed over *)
  XDR_INLINE_window n xdrs buf xdrs' :
    XDR_INLINE n xdrs = Some (buf, xdrs') →
    buf = Z.of_nat (length (x_done xdrs)) ∧ 0 ≤ n ≤ Z.of_nat (length (x_rest xdrs)) ∧
    xdrs' = mkXDR (x_op xdrs) (x_done xdrs ++ take (Z.to_nat n) (x_rest xdrs))
              (drop (Z.to_nat n) (x_rest xdrs));
  IXDR_PUT_window v op d1 b d2 r :
    is_u32 v → length b = 4%nat →
    IXDR_PUT_U_LONG (Z.of_nat (length d1)) v (mkXDR op (d1 ++ b ++ d2) r) =
      mkXDR op (d1 ++ enc_u_int v ++ d2) r;
  IXDR_GET_window v op d1 d2 r :
    is_u32 v →
    IXDR_GET_U_LONG (Z.of_nat (length d1)) (mkXDR op (d1 ++ enc_u_int v ++ d2) r) = v;
}.

#[export] Instance count_bound_4 : CountBound 4.
Proof. unfold CountBound, UINT_MAX. lia. Qed.
#[export] Instance count_bound_max : CountBound UINT_MAX.
Proof. unfold CountBound, UINT_MAX. lia. Qed.

(** ** Blocks of [unsigned int] members

    Where a struct has several [u_int] members in a row, rpcgen asks for the
    whole block inline and falls back to one [xdr_u_int] per member; it writes
    the members out once for each path of each operation. *)

Definition BYTES_PER_XDR_UNIT : Z := 4.

(** A member of a struct: reading [objp->m] and assigning it. *)
Record member (A : Type) := Member {
  m_get : A → Z;
  m_set : Z → A → A;
}.
Arguments Member {A}.
Arguments m_get {A}.
Arguments m_set {A}.

Section Inline.
Context `{XdrRuntime} {A : Type}.
Implicit Types (ms : list (member A)) (objp : A).

(** [xdr_u_int(xdrs, &objp->m)] for each member. *)
Fixpoint xdr_members ms objp (xdrs : XDR) : option (A * XDR) :=
  match ms with
  | [] => Some (objp, xdrs)
  | m :: ms =>
      '(v, xdrs) ← xdr_u_int (m_get m objp) xdrs;
      xdr_members ms (m_set m v objp) xdrs
  end.

(** [IXDR_PUT_U_LONG(buf, objp->m)] and [objp->m = IXDR_GET_U_LONG(buf)] for
    each member; [buf] advances by a unit. *)
Fixpoint ixdr_put_members (buf : Z) ms objp (xdrs : XDR) : XDR :=
  match ms with
  | [] => xdrs
  | m :: ms => ixdr_put_members (buf + BYTES_PER_XDR_UNIT) ms objp (IXDR_PUT_U_LONG buf (m_get m objp) xdrs)
  end.

Fixpoint ixdr_get_members (buf : Z) ms objp (xdrs : XDR) : A :=
  match ms with
  | [] => objp
  | m :: ms => ixdr_get_members (buf + BYTES_PER_XDR_UNIT) ms (m_set m (IXDR_GET_U_LONG buf xdrs) objp) xdrs
  end.

(** [buf = XDR_INLINE(xdrs, n * BYTES_PER_XDR_UNIT)], then the members [slow]
    one by one when it is [NULL], else the members [fast] in the buffer. *)
Definition xdr_encode_block (n : Z) (slow fast : list (member A)) : filter A := λ objp xdrs,
  match XDR_INLINE (n * BYTES_PER_XDR_UNIT) xdrs with
  | None => xdr_members slow objp xdrs
  | Some (buf, xdrs) => Some (objp, ixdr_put_members buf fast objp xdrs)
  end.

Definition xdr_decode_block (n : Z) (slow fast : list (member A)) : filter A := λ objp xdrs,
  match XDR_INLINE (n * BYTES_PER_XDR_UNIT) xdrs with
  | None => xdr_members slow objp xdrs
  | Some (buf, xdrs) => Some (ixdr_get_members buf fast objp xdrs, xdrs)
  end.
End Inline.

Section InlineLaws.
Context `{XdrLaws} {A : Type}.
Implicit Types (ms : list (member A)) (o : A).

Definition enc_u_ints (vs : list Z) : list byte := concat (map enc_u_int vs).

Definition values ms o : list Z := (λ m, m_get m o) <$> ms.

Fixpoint assign ms (vs : list Z) o : A :=
  match ms, vs with
  | m :: ms, v :: vs => assign ms vs (m_set m v o)
  | _, _ => o
  end.

(** Assigning a member what it holds changes nothing. *)
Definition faithful ms : Prop := Forall (λ m, ∀ o, m_set m (m_get m o) o = o) ms.

Lemma enc_u_ints_length vs : length (enc_u_ints vs) = (4 * length vs)%nat.
Proof.
  unfold enc_u_ints. induction vs as [| v vs IH]; simpl; [done |].
  rewrite length_app, enc_u_int_length, IH. lia.
Qed.

Lemma enc_u_ints_surj n : ∀ b : list byte, length b = (4 * n)%nat →
  ∃ vs, length vs = n ∧ Forall is_u32 vs ∧ enc_u_ints vs = b.
Proof.
  induction n as [| n IH]; intros b Hb.
  - destruct b; [| done]. by exists [].
  - destruct (enc_u_int_surj (take 4 b)) as (v & Hv & Henc); [rewrite length_take; lia |].
    destruct (IH (drop 4 b)) as (vs & Hn & Hvs & Hencs); [rewrite length_drop; lia |].
    exists (v :: vs). split; [simpl; lia |]. split; [by constructor |].
    unfold enc_u_ints in *. simpl. rewrite Henc, Hencs. apply take_drop.
Qed.

Lemma enc_u_ints_cons v vs : enc_u_ints (v :: vs) = enc_u_int v ++ enc_u_ints vs.
Proof. done. Qed.

Lemma values_cons m ms o : values (m :: ms) o = m_get m o :: values ms o.
Proof. done. Qed.

Lemma members_encode ms o : faithful ms → Forall is_u32 (values ms o) → ∀ d r,
  (length (enc_u_ints (values ms o)) ≤ length r)%nat →
  xdr_members ms o (mkXDR XDR_ENCODE d r) =
    Some (o, mkXDR XDR_ENCODE (d ++ enc_u_ints (values ms o)) (drop (length (enc_u_ints (values ms o))) r)).
Proof.
  induction ms as [| m ms IH]; intros Hf Hu d r Hr; cbn [xdr_members].
  - by rewrite app_nil_r, drop_0.
  - rewrite values_cons, enc_u_ints_cons in *.
    apply Forall_cons_1 in Hf as [Hm Hf]. apply Forall_cons_1 in Hu as [Hv Hu]. rewrite length_app in Hr.
    pose proof (law_encode (f := xdr_u_int) (m_get m o) d r) as He.
    change (enc xdr_u_int ?v) with (enc_u_int v) in He.
    rewrite He by (done || lia). simpl. rewrite Hm, IH by (done || rewrite length_drop; lia).
    by rewrite app_assoc, drop_drop, length_app.
Qed.

Lemma members_decode ms : ∀ vs o d r,
  length vs = length ms → Forall is_u32 vs →
  xdr_members ms o (mkXDR XDR_DECODE d (enc_u_ints vs ++ r)) =
    Some (assign ms vs o, mkXDR XDR_DECODE (d ++ enc_u_ints vs) r).
Proof.
  unfold enc_u_ints. induction ms as [| m ms IH]; intros [| v vs] o d r Hlen Hvs; try done; simpl.
  - by rewrite app_nil_r.
  - inversion Hvs; subst. rewrite <- app_assoc.
    pose proof (law_decode (f := xdr_u_int) v (m_get m o) d) as He.
    change (enc xdr_u_int v) with (enc_u_int v) in He.
    rewrite He by done. simpl. rewrite IH by (done || (simpl in Hlen; lia)). by rewrite app_assoc.
Qed.

Lemma put_members_window ms o : Forall is_u32 (values ms o) → ∀ op d1 b r,
  length b = (4 * length ms)%nat →
  ixdr_put_members (Z.of_nat (length d1)) ms o (mkXDR op (d1 ++ b) r) =
    mkXDR op (d1 ++ enc_u_ints (values ms o)) r.
Proof.
  induction ms as [| m ms IH]; intros Hu op d1 b r Hb; cbn [ixdr_put_members].
  - by destruct b.
  - rewrite values_cons, enc_u_ints_cons in *.
    apply Forall_cons_1 in Hu as [Hv Hu]. simpl in Hb. rewrite <- (take_drop 4 b).
    rewrite IXDR_PUT_window; [| done | rewrite length_take; lia].
    replace (Z.of_nat (length d1) + BYTES_PER_XDR_UNIT) with (Z.of_nat (length (d1 ++ enc_u_int (m_get m o))))
      by (rewrite length_app, enc_u_int_length; unfold BYTES_PER_XDR_UNIT; lia).
    rewrite (app_assoc d1 (enc_u_int _)), IH; [| done | rewrite length_drop; lia].
    by rewrite (app_assoc d1).
Qed.

Lemma get_members_window ms : ∀ vs o op d1 r,
  length vs = length ms → Forall is_u32 vs →
  ixdr_get_members (Z.of_nat (length d1)) ms o (mkXDR op (d1 ++ enc_u_ints vs) r) = assign ms vs o.
Proof.
  unfold enc_u_ints. induction ms as [| m ms IH]; intros [| v vs] o op d1 r Hlen Hvs; try done; simpl.
  inversion Hvs; subst. rewrite IXDR_GET_window by done.
  replace (Z.of_nat (length d1) + BYTES_PER_XDR_UNIT) with (Z.of_nat (length (d1 ++ enc_u_int v)))
    by (rewrite length_app, enc_u_int_length; unfold BYTES_PER_XDR_UNIT; lia).
  rewrite (app_assoc d1). apply IH; [by injection Hlen | done].
Qed.

(** Where both paths name the same members and the block has their size, the
    inline path is the slow path, on any stream. *)
Lemma encode_block_slow n ms o d r :
  n = Z.of_nat (length ms) → faithful ms → Forall is_u32 (values ms o) →
  xdr_encode_block n ms ms o (mkXDR XDR_ENCODE d r) = xdr_members ms o (mkXDR XDR_ENCODE d r).
Proof.
  intros -> Hf Hu. unfold xdr_encode_block, BYTES_PER_XDR_UNIT.
  destruct (XDR_INLINE _ _) as [[buf xdrs] |] eqn:E; [| done].
  apply XDR_INLINE_window in E as (-> & Hn & ->). simpl in *.
  assert (length (enc_u_ints (values ms o)) = 4 * length ms)%nat as Hlen
    by (rewrite enc_u_ints_length; unfold values; by rewrite length_fmap).
  rewrite members_encode by (done || lia). rewrite Hlen.
  replace (Z.to_nat (Z.of_nat (length ms) * 4)) with (4 * length ms)%nat by lia.
  by rewrite put_members_window by (done || rewrite length_take; lia).
Qed.

Lemma decode_block_slow n ms o d r :
  n = Z.of_nat (length ms) →
  xdr_decode_block n ms ms o (mkXDR XDR_DECODE d r) = xdr_members ms o (mkXDR XDR_DECODE d r).
Proof.
  intros ->. unfold xdr_decode_block, BYTES_PER_XDR_UNIT.
  destruct (XDR_INLINE _ _) as [[buf xdrs] |] eqn:E; [| done].
  apply XDR_INLINE_window in E as (-> & Hn & ->). simpl in *.
  replace (Z.to_nat (Z.of_nat (length ms) * 4)) with (4 * length ms)%nat by lia.
  destruct (enc_u_ints_surj (length ms) (take (4 * length ms) r)) as (vs & Hlen & Hvs & Henc);
    [rewrite length_take; lia |].
  pose proof (members_decode ms vs o d (drop (4 * length ms) r) Hlen Hvs) as Hd.
  rewrite Henc, take_drop in Hd. rewrite Hd, <- Henc. by rewrite get_members_window.
Qed.

Lemma members_bounds ms : ∀ o0 d r o xdrs,
  xdr_members ms o0 (mkXDR XDR_DECODE d r) = Some (o, xdrs) →
  ∃ vs, length vs = length ms ∧ Forall is_u32 vs ∧ o = assign ms vs o0 ∧ x_op xdrs = XDR_DECODE.
Proof.
  induction ms as [| m ms IH]; intros o0 d r o xdrs; simpl; [by intros [= <- <-]; exists [] |].
  destruct (xdr_u_int _ _) as [[v x1] |] eqn:E1; simpl; [| done].
  apply (law_bounds (f := xdr_u_int)) in E1 as [Hv Hop]. destruct x1 as [op d1 r1]. simpl in Hop. subst op.
  intros E. apply IH in E as (vs & Hl & Hvs & -> & Hx). exists (v :: vs). simpl. split_and!; [lia | by constructor | done | done].
Qed.

Lemma members_free ms : ∀ o d r, ∃ o', xdr_members ms o (mkXDR XDR_FREE d r) = Some (o', mkXDR XDR_FREE d r).
Proof.
  induction ms as [| m ms IH]; intros o d r; simpl; [by exists o |].
  destruct (law_free (f := xdr_u_int) (m_get m o) d r) as (v' & ->). simpl. apply IH.
Qed.

Lemma encode_block_run n ms o vs d r :
  n = Z.of_nat (length ms) → faithful ms → values ms o = vs → Forall is_u32 vs →
  (length (enc_u_ints vs) ≤ length r)%nat →
  xdr_encode_block n ms ms o (mkXDR XDR_ENCODE d r) =
    Some (o, mkXDR XDR_ENCODE (d ++ enc_u_ints vs) (drop (length (enc_u_ints vs)) r)).
Proof. intros Hn Hf <- Hu Hr. rewrite encode_block_slow by done. by apply members_encode. Qed.

Lemma decode_block_run n ms o vs d r :
  n = Z.of_nat (length ms) → length vs = length ms → Forall is_u32 vs →
  xdr_decode_block n ms ms o (mkXDR XDR_DECODE d (enc_u_ints vs ++ r)) =
    Some (assign ms vs o, mkXDR XDR_DECODE (d ++ enc_u_ints vs) r).
Proof. intros Hn Hl Hvs. rewrite decode_block_slow by done. by apply members_decode. Qed.

Lemma decode_block_bounds n ms o0 d r o xdrs :
  n = Z.of_nat (length ms) → xdr_decode_block n ms ms o0 (mkXDR XDR_DECODE d r) = Some (o, xdrs) →
  ∃ vs, length vs = length ms ∧ Forall is_u32 vs ∧ o = assign ms vs o0 ∧ x_op xdrs = XDR_DECODE.
Proof. intros Hn. rewrite decode_block_slow by done. apply members_bounds. Qed.
End InlineLaws.

(** ** Automation for struct filters

    One tactic per law: each step consumes the next field filter. *)

Ltac xdr_bind := cbv [mbind option_bind].

Ltac xdr_len := rewrite ?length_drop; rewrite ?length_app in *; lia.

Ltac solve_faithful := unfold faithful; repeat constructor; intros []; reflexivity.

Ltac encode_step :=
  match goal with
  | Hvs : Forall is_u32 ?vs |- context [ xdr_encode_block ?n ?ms ?ms ?o (mkXDR XDR_ENCODE ?d ?r) ] =>
      rewrite (encode_block_run n ms o vs d r) by (assumption || reflexivity || solve_faithful || xdr_len); xdr_bind
  | |- context [ ?f ?a (mkXDR XDR_ENCODE ?d ?r) ] =>
      rewrite (law_encode (f := f) a d r) by (assumption || xdr_len); xdr_bind
  end.

Ltac decode_step :=
  match goal with
  | |- context [ xdr_decode_block ?n ?ms ?ms ?o (mkXDR XDR_DECODE ?d (enc_u_ints ?vs ++ ?r)) ] =>
      rewrite (decode_block_run n ms o vs d r) by (assumption || reflexivity); xdr_bind
  | |- context [ ?f ?a0 (mkXDR XDR_DECODE ?d (enc ?f ?a ++ ?r)) ] =>
      rewrite (law_decode (f := f) a a0 d r) by assumption; xdr_bind
  end.

Ltac free_step :=
  match goal with
  | |- context [ xdr_members ?ms ?o (mkXDR XDR_FREE ?d ?r) ] =>
      let o' := fresh "o" in destruct (members_free ms o d r) as (o' & ->); xdr_bind
  | |- context [ ?f ?a (mkXDR XDR_FREE ?d ?r) ] =>
      let a' := fresh "a" in destruct (law_free (f := f) a d r) as (a' & ->); xdr_bind
  end.

Ltac bounds_step :=
  match goal with
  | |- context [ xdr_decode_block ?n ?ms ?ms ?o (mkXDR XDR_DECODE ?d ?r) ] =>
      let E := fresh "E" in
      destruct (xdr_decode_block n ms ms o (mkXDR XDR_DECODE d r)) as [[? [? ? ?]] |] eqn:E;
      xdr_bind; [apply (decode_block_bounds n ms o d r _ _ eq_refl) in E as (? & ? & ? & -> & E); simpl in E; subst
                | discriminate 1]
  | |- context [ ?f ?a (mkXDR XDR_DECODE ?d ?r) ] =>
      let E := fresh "E" in
      destruct (f a (mkXDR XDR_DECODE d r)) as [[? [? ? ?]] |] eqn:E;
      xdr_bind; [apply (law_bounds (f := f)) in E as [? E]; simpl in E; subst | discriminate 1]
  end.

(** The block's list of values, taken apart by its length. *)
Ltac block_cases :=
  repeat match goal with
  | H : length ?vs = _ |- _ =>
      is_var vs; destruct vs; [discriminate H |]; simpl in H; injection H as H
  | H : length ?vs = 0%nat |- _ => is_var vs; destruct vs; [clear H | discriminate H]
  end.

Ltac solve_encode :=
  let o := fresh "o" in intros o d r Hwf Hr; simpl in Hwf; destruct_and? Hwf; cbn [x_op];
  repeat encode_step;
  destruct o; simpl; rewrite <- ?app_assoc, ?drop_drop, ?length_app, ?Nat.add_assoc; reflexivity.

Ltac solve_decode :=
  let o := fresh "o" in intros o o0 d r Hwf; simpl in Hwf; destruct_and? Hwf; cbn [x_op];
  rewrite <- ?app_assoc; repeat decode_step;
  destruct o; simpl; rewrite <- ?app_assoc; reflexivity.

Ltac solve_bounds :=
  intros o0 d r o xdrs; cbn [x_op]; repeat bounds_step; block_cases; intros [= <- <-]; simpl;
  split_and?; done.

Ltac solve_free :=
  intros o d r; cbn [x_op]; repeat free_step; simpl in *; eauto.

Ltac solve_struct :=
  apply lawful_intro;
  match goal with |- context [ ?f _ (mkXDR _ _ _) ] => try unfold f end;
  [solve_encode | solve_decode | solve_bounds | solve_free].

(** ** Return unions

    [switch (errno) case 0: ret; default: void]. *)
Section Returns.
Context `{XdrLaws}.

Definition wf_return {A} (p : filter (option A)) `{Format (option A) p} (errno : Z) (ret : option A) : Prop :=
  errno = 0 ∧ wf p ret.
Definition enc_return {A} (p : filter (option A)) `{Format (option A) p} (errno : Z) (ret : option A) : list byte :=
  enc xdr_int errno ++ enc p ret.
End Returns.

Ltac solve_return :=
  apply transmits_intro; unfold wf_return, enc_return;
  match goal with |- context [ ?f _ (mkXDR _ _ _) ] => try unfold f end;
  [ intros [errno ret] d r [He Hwf] Hr; simpl in He, Hwf, Hr |- *; subst errno;
    assert (wf xdr_int 0) by (unfold wf; simpl; unfold is_s32; lia);
    repeat encode_step; simpl; rewrite <- ?app_assoc, ?drop_drop, ?length_app; reflexivity
  | intros [errno ret] o0 d r [He Hwf]; simpl in He, Hwf |- *; subst errno;
    assert (wf xdr_int 0) by (unfold wf; simpl; unfold is_s32; lia);
    rewrite <- ?app_assoc; decode_step; simpl; decode_step; rewrite <- ?app_assoc; reflexivity
  | intros o d r; free_step;
    match goal with |- context [ ?e =? 0 ] => destruct (e =? 0) end; repeat free_step; eauto ].
