(* ===== verification/XdrRFC4506.v ===== *)
(** * An XDR runtime that meets the laws

    The memory stream of RFC 4506: big-endian words, counted and padded
    opaque data, counted arrays, optional data. It shows that the laws of
    [XdrLaws] are satisfiable and lets the examples of the development
    compute; no theorem about the generated filters depends on it. *)

From S2P Require Import Prelude XdrRuntime.

Definition byte_of (z : Z) : byte :=
  match Byte.of_N (Z.to_N (z mod 256)) with Some b => b | None => x00 end.
Definition byte_val (b : byte) : Z := Z.of_N (Byte.to_N b).

Lemma byte_val_of z : byte_val (byte_of z) = z mod 256.
Proof.
  unfold byte_of, byte_val. destruct (Byte.of_N (Z.to_N (z mod 256))) as [b |] eqn:E.
  - apply Byte.to_of_N in E. rewrite E. lia.
  - apply Byte.of_N_None_iff in E. lia.
Qed.

Lemma byte_of_val b : byte_of (byte_val b) = b.
Proof.
  unfold byte_of, byte_val. pose proof (Byte.to_N_bounded b).
  rewrite Z.mod_small, N2Z.id, Byte.of_to_N by lia. done.
Qed.

Lemma byte_val_range b : 0 ≤ byte_val b < 256.
Proof. unfold byte_val. pose proof (Byte.to_N_bounded b). lia. Qed.

(** Big-endian integers of [n] bytes. *)
Fixpoint be_enc (n : nat) (z : Z) : list byte :=
  match n with
  | O => []
  | S n => be_enc n (z / 256) ++ [byte_of z]
  end.

Definition be_dec (b : list byte) : Z := fold_left (λ acc x, acc * 256 + byte_val x) b 0.

Lemma be_enc_length n : ∀ z, length (be_enc n z) = n.
Proof. induction n as [| n IH]; intros z; simpl; [done |]. rewrite length_app, IH. simpl. lia. Qed.

Lemma be_dec_snoc b x : be_dec (b ++ [x]) = be_dec b * 256 + byte_val x.
Proof. unfold be_dec. by rewrite fold_left_app. Qed.

Lemma be_dec_enc n : ∀ z, 0 ≤ z < 256 ^ Z.of_nat n → be_dec (be_enc n z) = z.
Proof.
  induction n as [| n IH]; intros z Hz.
  - simpl in Hz. replace z with 0 by lia. done.
  - cbn [be_enc]. rewrite be_dec_snoc, byte_val_of, IH; [lia |].
    rewrite Nat2Z.inj_succ, Z.pow_succ_r in Hz by lia. lia.
Qed.

Lemma be_dec_range b : 0 ≤ be_dec b < 256 ^ Z.of_nat (length b).
Proof.
  induction b as [| x b IH] using rev_ind; [unfold be_dec; simpl; lia |].
  rewrite be_dec_snoc, length_app, Nat.add_1_r, Nat2Z.inj_succ, Z.pow_succ_r by lia.
  pose proof (byte_val_range x). lia.
Qed.

Lemma be_enc_dec b : be_enc (length b) (be_dec b) = b.
Proof.
  induction b as [| x b IH] using rev_ind; [done |].
  rewrite length_app, Nat.add_1_r. cbn [be_enc]. rewrite be_dec_snoc. pose proof (byte_val_range x).
  replace ((be_dec b * 256 + byte_val x) / 256) with (be_dec b) by lia. rewrite IH. do 2 f_equal.
  rewrite <- (byte_of_val x) at 2. unfold byte_of. do 2 f_equal.
  replace ((be_dec b * 256 + byte_val x) mod 256) with (byte_val x mod 256) by lia. done.
Qed.

#[local] Opaque be_enc.

(** A primitive filter of [n] bytes. *)
Definition prim (n : nat) (e : Z → list byte) (dec : list byte → option Z) : filter Z := λ a xdrs,
  let '(mkXDR op d r) := xdrs in
  match op with
  | XDR_ENCODE =>
      if decide (n ≤ length r)%nat then Some (a, mkXDR op (d ++ e a) (drop n r)) else None
  | XDR_DECODE =>
      if decide (n ≤ length r)%nat then
        v ← dec (take n r); Some (v, mkXDR op (d ++ take n r) (drop n r))
      else None
  | XDR_FREE => Some (a, xdrs)
  end.

Lemma prim_lawful n e dec (w : Z → Prop) :
  (∀ a, length (e a) = n) → (∀ a, w a → dec (e a) = Some a) → (∀ b v, dec b = Some v → length b = n → w v) →
  Lawful (H := {| wf := w; enc := e |}) (prim n e dec).
Proof.
  intros Hlen Hdec Hw. apply lawful_intro; simpl.
  - intros a d r _ Hr. rewrite Hlen in *. by rewrite decide_True.
  - intros a a0 d r Ha. rewrite decide_True by (rewrite length_app, Hlen; lia).
    rewrite take_app_length', drop_app_length' by done. by rewrite Hdec.
  - intros a0 d r a xdrs. destruct (decide _) as [Hle |]; [| done].
    destruct (dec (take n r)) as [v |] eqn:E; [| done]. intros [= <- <-]. split; [| done].
    eapply Hw; [done |]. rewrite length_take. lia.
  - eauto.
Qed.

Definition s32_of (z : Z) : Z := if z <? 2147483648 then z else z - UINT_MOD.

Definition rfc_u_int := prim 4 (be_enc 4) (λ b, Some (be_dec b)).
Definition rfc_int := prim 4 (λ z, be_enc 4 (u32 z)) (λ b, Some (s32_of (be_dec b))).
Definition rfc_bool := prim 4 (be_enc 4) (λ b, Some (if be_dec b =? 0 then 0 else 1)).
Definition rfc_double := prim 8 (be_enc 8) (λ b, Some (be_dec b)).

#[local] Arguments rfc_u_int : simpl never.
#[local] Arguments rfc_bool : simpl never.

(** Opaque data is padded to a multiple of four bytes. *)
Definition padding (n : nat) : nat := Z.to_nat ((- Z.of_nat n) mod 4).
Definition rfc_enc_bytes (b : list byte) : list byte :=
  be_enc 4 (Z.of_nat (length b)) ++ b ++ replicate (padding (length b)) x00.

Definition rfc_bytes (max : Z) : filter (list byte) := λ b xdrs,
  let '(mkXDR op d r) := xdrs in
  match op with
  | XDR_ENCODE =>
      if decide (Z.of_nat (length b) ≤ max ∧ (length (rfc_enc_bytes b) ≤ length r)%nat)
      then Some (b, mkXDR op (d ++ rfc_enc_bytes b) (drop (length (rfc_enc_bytes b)) r)) else None
  | XDR_DECODE =>
      '(n, xdrs) ← rfc_u_int 0 xdrs;
      let '(mkXDR op d r) := xdrs in
      let len := Z.to_nat n in
      if decide (n ≤ max ∧ (len + padding len ≤ length r)%nat)
      then Some (take len r, mkXDR op (d ++ take (len + padding len) r) (drop (len + padding len) r)) else None
  | XDR_FREE => Some ([], xdrs)
  end.

Fixpoint rfc_elems {A} (f : filter A) (l : list A) (xdrs : XDR) : option (list A * XDR) :=
  match l with
  | [] => Some ([], xdrs)
  | a :: l => '(a, xdrs) ← f a xdrs; '(l, xdrs) ← rfc_elems f l xdrs; Some (a :: l, xdrs)
  end.

Definition rfc_array {A} (max : Z) (zero : A) (f : filter A) : filter (list A) := λ l xdrs,
  match x_op xdrs with
  | XDR_ENCODE =>
      if decide (Z.of_nat (length l) ≤ max) then
        '(_, xdrs) ← rfc_u_int (Z.of_nat (length l)) xdrs; rfc_elems f l xdrs
      else None
  | XDR_DECODE =>
      '(n, xdrs) ← rfc_u_int 0 xdrs;
      if decide (n ≤ max) then rfc_elems f (replicate (Z.to_nat n) zero) xdrs else None
  | XDR_FREE => '(l, xdrs) ← rfc_elems f l xdrs; Some ([], xdrs)
  end.

Definition rfc_pointer {A} (zero : A) (f : filter A) : filter (option A) := λ o xdrs,
  match x_op xdrs with
  | XDR_DECODE =>
      '(more, xdrs) ← rfc_bool 0 xdrs;
      if more =? 0 then Some (None, xdrs) else '(a, xdrs) ← f zero xdrs; Some (Some a, xdrs)
  | _ =>
      match o with
      | None => '(_, xdrs) ← rfc_bool 0 xdrs; Some (None, xdrs)
      | Some a => '(_, xdrs) ← rfc_bool 1 xdrs; '(a, xdrs) ← f a xdrs; Some (Some a, xdrs)
      end
  end.

(** The inline buffer is granted whenever the bytes are there. *)
Definition rfc_inline (n : Z) (xdrs : XDR) : option (Z * XDR) :=
  let '(mkXDR op d r) := xdrs in
  if decide (0 ≤ n ≤ Z.of_nat (length r)) then
    Some (Z.of_nat (length d), mkXDR op (d ++ take (Z.to_nat n) r) (drop (Z.to_nat n) r))
  else None.

Definition rfc_put (buf v : Z) (xdrs : XDR) : XDR :=
  let '(mkXDR op d r) := xdrs in
  mkXDR op (take (Z.to_nat buf) d ++ be_enc 4 v ++ drop (Z.to_nat buf + 4) d) r.

Definition rfc_get (buf : Z) (xdrs : XDR) : Z :=
  be_dec (take 4 (drop (Z.to_nat buf) (x_done xdrs))).

#[export] Instance rfc4506 : XdrRuntime := {|
  xdr_u_int := rfc_u_int; xdr_int := rfc_int; xdr_enum := rfc_int; xdr_bool := rfc_bool;
  xdr_float := rfc_u_int; xdr_double := rfc_double; xdr_bytes := rfc_bytes;
  xdr_array := @rfc_array; xdr_pointer := @rfc_pointer;
  XDR_INLINE := rfc_inline; IXDR_PUT_U_LONG := rfc_put; IXDR_GET_U_LONG := rfc_get |}.

#[export] Instance rfc4506_wire : XdrWire := {|
  enc_u_int := be_enc 4; enc_int := λ z, be_enc 4 (u32 z); enc_bool := be_enc 4;
  enc_float := be_enc 4; enc_double := be_enc 8; enc_bytes := rfc_enc_bytes |}.

Lemma rfc_u_int_lawful : Lawful (H := {| wf := is_u32; enc := be_enc 4 |}) rfc_u_int.
Proof.
  apply prim_lawful; [apply be_enc_length | |].
  - intros a Ha. f_equal. apply be_dec_enc. u32_unfold. change (256 ^ Z.of_nat 4) with 4294967296. lia.
  - intros b v [= <-] Hb. pose proof (be_dec_range b) as Hr. rewrite Hb in Hr. exact Hr.
Qed.

Lemma rfc_int_lawful : Lawful (H := {| wf := is_s32; enc := λ z, be_enc 4 (u32 z) |}) rfc_int.
Proof.
  apply prim_lawful; [intros; apply be_enc_length | |].
  - intros a Ha. pose proof (u32_range a) as Hu. unfold is_s32, is_u32, UINT_MOD in *.
    rewrite be_dec_enc by exact Hu. f_equal. unfold s32_of, u32, UINT_MOD in *.
    destruct (Z.ltb_spec (a mod 4294967296) 2147483648); lia.
  - intros b v [= <-] Hb. pose proof (be_dec_range b) as Hr. rewrite Hb in Hr.
    change (256 ^ Z.of_nat 4) with 4294967296 in Hr. unfold is_s32, s32_of, UINT_MOD.
    destruct (Z.ltb_spec (be_dec b) 2147483648); lia.
Qed.

Lemma rfc_bool_lawful : Lawful (H := {| wf := λ z, z = 0 ∨ z = 1; enc := be_enc 4 |}) rfc_bool.
Proof.
  apply prim_lawful; [apply be_enc_length | |].
  - by intros a [-> | ->].
  - intros b v [= <-] _. destruct (be_dec b =? 0); auto.
Qed.

Lemma rfc_double_lawful : Lawful (H := {| wf := is_u64; enc := be_enc 8 |}) rfc_double.
Proof.
  apply prim_lawful; [apply be_enc_length | |].
  - intros a Ha. f_equal. apply be_dec_enc. exact Ha.
  - intros b v [= <-] Hb. pose proof (be_dec_range b) as Hr. rewrite Hb in Hr. exact Hr.
Qed.

Lemma rfc_u_int_decode n d r :
  0 ≤ n < UINT_MOD →
  rfc_u_int 0 (mkXDR XDR_DECODE d (be_enc 4 n ++ r)) = Some (n, mkXDR XDR_DECODE (d ++ be_enc 4 n) r).
Proof. intros Hn. apply (law_decode (Transmits := lawful_transmits (Lawful := rfc_u_int_lawful))). exact Hn. Qed.

Lemma rfc_u_int_encode n d r :
  (4 ≤ length r)%nat →
  rfc_u_int n (mkXDR XDR_ENCODE d r) = Some (n, mkXDR XDR_ENCODE (d ++ be_enc 4 n) (drop 4 r)).
Proof. intros Hr. unfold rfc_u_int, prim. by rewrite decide_True. Qed.

Lemma rfc_bytes_lawful max `{CountBound max} :
  Lawful (H := {| wf := λ b, Z.of_nat (length b) ≤ max; enc := rfc_enc_bytes |}) (rfc_bytes max).
Proof.
  pose proof count_bound as Hmax. unfold UINT_MAX in Hmax. apply lawful_intro; unfold rfc_bytes.
  - intros a d r Ha Hr. by rewrite decide_True.
  - intros a a0 d r Ha. unfold rfc_enc_bytes. rewrite <- !app_assoc.
    rewrite rfc_u_int_decode by (unfold UINT_MOD; lia). simpl. rewrite Nat2Z.id.
    set (p := padding (length a)).
    rewrite decide_True by (rewrite !length_app, length_replicate; lia).
    rewrite take_app_length, (app_assoc a).
    rewrite take_app_length', drop_app_length' by (by rewrite length_app, length_replicate).
    by rewrite <- !app_assoc.
  - intros a0 d r a xdrs. destruct (rfc_u_int 0 _) as [[n x1] |] eqn:E; simpl; [| done].
    apply (law_bounds (Lawful := rfc_u_int_lawful)) in E as [Hn Hop]. destruct x1 as [op d1 r1].
    simpl in Hop. subst op. destruct (decide _) as [[Hle Hlen] |]; [| done].
    intros [= <- <-]. split; [| done]. unfold wf in Hn. u32_unfold. rewrite length_take. lia.
  - eauto.
Qed.

Section Elems.
Context {A : Type} (f : filter A) `{Lawful A f}.

Lemma rfc_elems_encode l : ∀ d r,
  Forall (wf f) l → (length (concat (map (enc f) l)) ≤ length r)%nat →
  rfc_elems f l (mkXDR XDR_ENCODE d r) =
    Some (l, mkXDR XDR_ENCODE (d ++ concat (map (enc f) l)) (drop (length (concat (map (enc f) l))) r)).
Proof.
  induction l as [| a l IH]; intros d r Hl Hr; simpl.
  - by rewrite app_nil_r, drop_0.
  - inversion Hl; subst. simpl in Hr. rewrite length_app in Hr.
    rewrite law_encode by (done || lia). simpl. rewrite IH by (done || rewrite length_drop; lia).
    simpl. by rewrite app_assoc, drop_drop, length_app.
Qed.

Lemma rfc_elems_decode l : ∀ l0 d r,
  length l0 = length l → Forall (wf f) l →
  rfc_elems f l0 (mkXDR XDR_DECODE d (concat (map (enc f) l) ++ r)) =
    Some (l, mkXDR XDR_DECODE (d ++ concat (map (enc f) l)) r).
Proof.
  induction l as [| a l IH]; intros [| a0 l0] d r Hlen Hl; try done; simpl.
  - by rewrite app_nil_r.
  - inversion Hl; subst. rewrite <- app_assoc, law_decode by done. simpl.
    rewrite IH by (done || (simpl in Hlen; lia)). simpl. by rewrite app_assoc.
Qed.

Lemma rfc_elems_bounds l0 : ∀ d r l xdrs,
  rfc_elems f l0 (mkXDR XDR_DECODE d r) = Some (l, xdrs) →
  Forall (wf f) l ∧ length l = length l0 ∧ x_op xdrs = XDR_DECODE.
Proof.
  induction l0 as [| a0 l0 IH]; intros d r l xdrs; simpl; [by intros [= <- <-] |].
  destruct (f a0 _) as [[a x1] |] eqn:E1; simpl; [| done].
  apply law_bounds in E1 as [Ha Hop]. destruct x1 as [op d1 r1]. simpl in Hop. subst op.
  destruct (rfc_elems f l0 _) as [[l1 x2] |] eqn:E2; simpl; [| done].
  intros [= <- <-]. apply IH in E2 as (? & ? & ?). split; [by constructor |]. simpl. split; [lia | done].
Qed.

Lemma rfc_elems_free l : ∀ d r,
  ∃ l', rfc_elems f l (mkXDR XDR_FREE d r) = Some (l', mkXDR XDR_FREE d r).
Proof.
  induction l as [| a l IH]; intros d r; simpl; [by eexists |].
  destruct (law_free (f := f) a d r) as (a' & ->). simpl. destruct (IH d r) as (l' & ->). by eexists.
Qed.

Lemma rfc_array_lawful max zero `{CountBound max} :
  Lawful (H := {| wf := λ l, Z.of_nat (length l) ≤ max ∧ Forall (wf f) l;
                  enc := λ l, be_enc 4 (Z.of_nat (length l)) ++ concat (map (enc f) l) |})
    (rfc_array max zero f).
Proof.
  pose proof count_bound as Hmax. unfold UINT_MAX in Hmax.
  apply lawful_intro; unfold rfc_array; simpl.
  - intros l d r [Hl Hwf] Hr. rewrite length_app, be_enc_length in *.
    rewrite decide_True, rfc_u_int_encode by (done || lia). simpl.
    rewrite rfc_elems_encode by (done || rewrite length_drop; lia).
    by rewrite <- app_assoc, drop_drop.
  - intros l l0 d r [Hl Hwf]. rewrite <- app_assoc, rfc_u_int_decode by (unfold UINT_MOD; lia).
    simpl. rewrite decide_True by done.
    rewrite (rfc_elems_decode l) by (done || rewrite length_replicate; lia).
    by rewrite <- app_assoc.
  - intros l0 d r l xdrs. destruct (rfc_u_int 0 _) as [[n x1] |] eqn:E; simpl; [| done].
    apply (law_bounds (Lawful := rfc_u_int_lawful)) in E as [Hn Hop]. unfold wf in Hn.
    destruct x1 as [op d1 r1]. simpl in Hop. subst op. destruct (decide _) as [Hle |]; [| done].
    intros (Hf & Hlen & Hop)%rfc_elems_bounds. rewrite length_replicate in Hlen.
    u32_unfold. split; [split; [lia | done] | done].
  - intros l d r. destruct (rfc_elems_free l d r) as (l' & ->). by eexists.
Qed.

Lemma rfc_pointer_lawful zero :
  Lawful (H := {| wf := λ o, match o with Some a => wf f a | None => True end;
                  enc := λ o, match o with Some a => be_enc 4 1 ++ enc f a | None => be_enc 4 0 end |})
    (rfc_pointer zero f).
Proof.
  pose proof (law_encode (Transmits := lawful_transmits (Lawful := rfc_bool_lawful))) as Henc.
  pose proof (law_decode (Transmits := lawful_transmits (Lawful := rfc_bool_lawful))) as Hdec.
  unfold enc, wf in Henc, Hdec.
  apply lawful_intro; unfold rfc_pointer; simpl.
  - intros [a |] d r Ha Hr.
    + rewrite length_app, be_enc_length in *.
      rewrite Henc by (auto; rewrite be_enc_length; lia). simpl.
      rewrite be_enc_length, law_encode by (done || rewrite length_drop; lia).
      simpl. by rewrite <- app_assoc, drop_drop.
    + by rewrite Henc by auto.
  - intros [a |] o0 d r Ha.
    + rewrite <- app_assoc, Hdec by auto. simpl. rewrite law_decode by done. simpl.
      by rewrite <- app_assoc.
    + by rewrite Hdec by auto.
  - intros o0 d r o xdrs. destruct (rfc_bool 0 _) as [[m x1] |] eqn:E; simpl; [| done].
    apply (law_bounds (Lawful := rfc_bool_lawful)) in E as [_ Hop]. destruct x1 as [op d1 r1]. simpl in Hop. subst op.
    destruct (m =? 0); [by intros [= <- <-] |].
    destruct (f zero _) as [[a x2] |] eqn:E2; simpl; [| done]. intros [= <- <-].
    by apply law_bounds in E2.
  - intros [a |] d r; [| by eexists]. destruct (law_free (f := f) a d r) as (a' & Hf).
    simpl. rewrite Hf. by eexists.
Qed.
End Elems.

#[export] Instance rfc4506_laws : XdrLaws.
Proof.
  split.
  - exact rfc_u_int_lawful.
  - exact rfc_int_lawful.
  - exact rfc_int_lawful.
  - exact rfc_bool_lawful.
  - exact rfc_u_int_lawful.
  - exact rfc_double_lawful.
  - intros. by apply rfc_bytes_lawful.
  - intros. by apply rfc_array_lawful.
  - intros. by apply rfc_pointer_lawful.
  - intros v. apply be_enc_length.
  - intros b Hb. exists (be_dec b). pose proof (be_dec_range b) as Hr. rewrite Hb in Hr.
    split; [exact Hr |]. change (be_enc 4 (be_dec b) = b). rewrite <- Hb. apply be_enc_dec.
  - intros n [op d r] buf xdrs'. simpl. destruct (decide _); [| done]. by intros [= <- <-].
  - intros v op d1 b d2 r Hv Hb. simpl. rewrite Nat2Z.id, take_app_length. do 3 f_equal.
    rewrite app_assoc, drop_app_length'; [done |]. rewrite length_app. lia.
  - intros v op d1 d2 r Hv. simpl. unfold rfc_get. simpl.
    rewrite Nat2Z.id, drop_app_length, take_app_length' by done.
    change (be_dec (be_enc 4 v) = v). apply be_dec_enc. exact Hv.
Qed.
