(* ===== verification/Words.v ===== *)
(** * Words in memory

    Code of the repository reads and writes the same memory as bytes and as
    32-bit words: packets of the data streams, SPIR-V modules.  The machines it
    runs on are little-endian. *)

From S2P Require Import Prelude XdrRuntime XdrRFC4506.
Open Scope Z_scope.
Open Scope list_scope.

(** The bytes of a 32-bit word in memory. *)
Definition word_bytes (w : Z) : list byte :=
  (λ k, byte_of (Z.shiftr w (8 * k))) <$> [0; 1; 2; 3].

(** The word that starts at byte [4 * i]. *)
Definition word_of (b : list byte) (i : nat) : Z :=
  foldr (λ x acc, byte_val x + 256 * acc) 0 (take 4 (drop (4 * i) b)).

(** The whole words of a buffer. *)
Definition words_of (b : list byte) : list Z := word_of b <$> seq 0 (length b / 4).

Lemma byte_of_shift w k : 0 ≤ k → byte_val (byte_of (Z.shiftr w (8 * k))) = (w / 2 ^ (8 * k)) mod 256.
Proof. intros Hk. by rewrite byte_val_of, Z.shiftr_div_pow2 by lia. Qed.

Lemma word_of_bytes w : is_u32 w → foldr (λ x acc, byte_val x + 256 * acc) 0 (word_bytes w) = w.
Proof.
  intros Hw. unfold word_bytes. cbn [fmap list_fmap foldr].
  rewrite !byte_of_shift by lia. change (2 ^ (8 * 0)) with 1. change (2 ^ (8 * 1)) with 256.
  change (2 ^ (8 * 2)) with 65536. change (2 ^ (8 * 3)) with 16777216. u32_unfold. lia.
Qed.

Lemma length_word_bytes w : length (word_bytes w) = 4%nat.
Proof. done. Qed.

Lemma length_words_bytes ws : length (ws ≫= word_bytes) = (4 * length ws)%nat.
Proof.
  induction ws as [| w ws IH]; [done |]. cbn [mbind list_bind] in *.
  rewrite length_app, length_word_bytes, IH. simpl. lia.
Qed.

Lemma length_words_of b : length (words_of b) = (length b / 4)%nat.
Proof. unfold words_of. by rewrite length_fmap, length_seq. Qed.

Lemma word_of_concat ws i w :
  ws !! i = Some w → is_u32 w → word_of (ws ≫= word_bytes) i = w.
Proof.
  intros Hi Hw. unfold word_of. assert (take 4 (drop (4 * i) (ws ≫= word_bytes)) = word_bytes w) as ->.
  2: by apply word_of_bytes.
  revert i Hi. induction ws as [| v ws IH]; intros [| i] Hi; [done | done | |].
  - injection Hi as ->. cbn [mbind list_bind]. rewrite drop_0, take_app_length' by done. done.
  - cbn [mbind list_bind]. replace (4 * S i)%nat with (4 + 4 * i)%nat by lia.
    rewrite <- drop_drop. rewrite (drop_app_length' (word_bytes v)) by done. by apply IH.
Qed.

(** Words survive their memory image. *)
Lemma words_of_bytes ws : Forall is_u32 ws → words_of (ws ≫= word_bytes) = ws.
Proof.
  intros Hws. apply list_eq. intros i. unfold words_of. rewrite length_words_bytes.
  replace (4 * length ws / 4)%nat with (length ws) by (rewrite Nat.mul_comm, Nat.div_mul; lia).
  rewrite list_lookup_fmap. destruct (ws !! i) as [w |] eqn:Hi.
  - rewrite lookup_seq_lt by (by eapply lookup_lt_Some). simpl.
    by rewrite (word_of_concat ws i w Hi) by (by eapply Forall_lookup_1).
  - apply lookup_ge_None_1 in Hi. by rewrite lookup_ge_None_2 by (rewrite length_seq; lia).
Qed.

Lemma word_bytes_of b0 b1 b2 b3 :
  word_bytes (foldr (λ x acc, byte_val x + 256 * acc) 0 [b0; b1; b2; b3]) = [b0; b1; b2; b3].
Proof.
  unfold word_bytes. cbn [fmap list_fmap foldr].
  assert (∀ w k p b, 0 ≤ k → 2 ^ (8 * k) = p → (w / p) mod 256 = byte_val b →
          byte_of (Z.shiftr w (8 * k)) = b) as Hb.
  { intros w k p b Hk <- Hw. rewrite <- (byte_of_val (byte_of _)), byte_of_shift, Hw by done. apply byte_of_val. }
  pose proof (byte_val_range b0). pose proof (byte_val_range b1).
  pose proof (byte_val_range b2). pose proof (byte_val_range b3).
  by rewrite (Hb _ 0 1 b0), (Hb _ 1 256 b1), (Hb _ 2 65536 b2), (Hb _ 3 16777216 b3) by lia.
Qed.

Lemma word_of_range b i : is_u32 (word_of b i).
Proof.
  unfold word_of. assert (∀ l : list byte, (length l ≤ 4)%nat →
    0 ≤ foldr (λ x acc, byte_val x + 256 * acc) 0 l < 256 ^ Z.of_nat (length l)) as Hl.
  { induction l as [| x l IH]; intros Hlen; [done |]. cbn [foldr length] in *.
    destruct IH as [H0 H1]; [lia |]. pose proof (byte_val_range x).
    rewrite Nat2Z.inj_succ, Z.pow_succ_r by lia. lia. }
  destruct (Hl (take 4 (drop (4 * i) b))) as [H0 H1]; [rewrite length_take; lia |].
  split; [done |]. eapply Z.lt_le_trans; [exact H1 |].
  change UINT_MOD with (256 ^ 4). apply Z.pow_le_mono_r; [lia |]. rewrite length_take. lia.
Qed.

Lemma words_of_range b : Forall is_u32 (words_of b).
Proof. apply Forall_fmap. apply list.Forall_forall. intros i _. apply word_of_range. Qed.

(** The whole words of a buffer are its bytes, up to three at its end. *)
Lemma bytes_of_words n : ∀ b, (length b / 4)%nat = n → words_of b ≫= word_bytes = take (4 * n) b.
Proof.
  induction n as [| n IH]; intros b Hn; unfold words_of in *; rewrite Hn; [done |].
  assert (4 ≤ length b)%nat as Hlen.
  { destruct (decide (4 ≤ length b)%nat); [done |]. rewrite Nat.div_small in Hn by lia. done. }
  destruct b as [| b0 [| b1 [| b2 [| b3 b]]]]; simpl in Hlen; try lia.
  assert (length b / 4 = n)%nat as Hb.
  { simpl length in Hn. replace (S (S (S (S (length b))))) with (1 * 4 + length b)%nat in Hn by lia.
    rewrite Nat.div_add_l in Hn by lia. lia. }
  specialize (IH b Hb). rewrite Hb in IH.
  replace (4 * S n)%nat with (4 + 4 * n)%nat by lia. cbn [seq fmap list_fmap mbind list_bind].
  change (word_of _ 0) with (foldr (λ x acc, byte_val x + 256 * acc) 0 [b0; b1; b2; b3]).
  rewrite word_bytes_of. cbn [app Nat.add take]. do 4 f_equal.
  rewrite <- IH, <- fmap_S_seq, <- list_fmap_compose. f_equal.
  apply list_fmap_ext. intros ? i _. unfold compose, word_of. replace (4 * S i)%nat with (4 + 4 * i)%nat by lia. done.
Qed.

(** Words at the start of a buffer. *)
Lemma words_of_prefix ws r : Forall is_u32 ws → take (length ws) (words_of ((ws ≫= word_bytes) ++ r)) = ws.
Proof.
  intros Hws. apply list_eq. intros i. unfold words_of. rewrite length_app, length_words_bytes.
  destruct (decide (i < length ws)%nat) as [Hi | Hi].
  - rewrite lookup_take_lt, list_lookup_fmap by done.
    rewrite lookup_seq_lt by (eapply Nat.lt_le_trans; [exact Hi | apply Nat.div_le_lower_bound; lia]). simpl.
    destruct (lookup_lt_is_Some_2 ws i Hi) as [w Hw]. rewrite Hw. f_equal.
    rewrite <- (word_of_concat ws i w Hw) by (by eapply Forall_lookup_1). unfold word_of. f_equal.
    rewrite drop_app_le by (rewrite length_words_bytes; lia).
    by rewrite take_app_le by (rewrite length_drop, length_words_bytes; lia).
  - rewrite lookup_take_ge, lookup_ge_None_2 by lia. done.
Qed.
