(* ===== verification/RpcTypes.v ===== *)
(** * Wire types (common/inc/vmaccel_rpc.h, common/inc/vmcl_rpc.h)

    One record per protocol struct, with the struct's members in order.
    [u_int], [int], [bool_t], enumerations and the typedefs of [u_int] are
    integers; [float] and [double] members are their bit patterns; a counted
    [len]/[val] pair is a list; the pointer of a return union is an option.
    [zero_T] is the cleared object [memset] leaves. *)

From S2P Require Import Prelude XdrRuntime.

Definition VMACCEL_MAX_NONCE_SIZE : Z := 4.
Definition VMACCEL_MAX_LOCATION_SIZE : Z := 4.

(** ** vmaccel *)

Record VMAccelStatus := mkVMAccelStatus {
  VMAccelStatus_nonce : list byte;
  VMAccelStatus_status : Z;
}.
Definition zero_VMAccelStatus : VMAccelStatus := mkVMAccelStatus [] 0.

Record VMAccelAddress := mkVMAccelAddress {
  VMAccelAddress_addr : list byte;
  VMAccelAddress_port : Z;
  VMAccelAddress_resourceType : Z;
  VMAccelAddress_subDevice : Z;
}.
Definition zero_VMAccelAddress : VMAccelAddress := mkVMAccelAddress [] 0 0 0.

Record VMAccelCallback := mkVMAccelCallback {
  VMAccelCallback_addr : VMAccelAddress;
  VMAccelCallback_payload : list byte;
}.
Definition zero_VMAccelCallback : VMAccelCallback := mkVMAccelCallback zero_VMAccelAddress [].

Record VMAccelFormatDesc := mkVMAccelFormatDesc {
  VMAccelFormatDesc_format : Z;
  VMAccelFormatDesc_caps : Z;
}.
Definition zero_VMAccelFormatDesc : VMAccelFormatDesc := mkVMAccelFormatDesc 0 0.

Record VMAccelWorkloadDesc := mkVMAccelWorkloadDesc {
  VMAccelWorkloadDesc_megaFlops : Z;
  VMAccelWorkloadDesc_megaOps : Z;
  VMAccelWorkloadDesc_llcSizeKB : Z;
  VMAccelWorkloadDesc_llcBandwidthMBSec : Z;
  VMAccelWorkloadDesc_localMemSizeKB : Z;
  VMAccelWorkloadDesc_localMemBandwidthMBSec : Z;
  VMAccelWorkloadDesc_nonLocalMemSizeKB : Z;
  VMAccelWorkloadDesc_nonLocalMemBandwidthMBSec : Z;
  VMAccelWorkloadDesc_interconnectBandwidthMBSec : Z;
}.
Definition zero_VMAccelWorkloadDesc : VMAccelWorkloadDesc := mkVMAccelWorkloadDesc 0 0 0 0 0 0 0 0 0.

Record VMAccelDesc := mkVMAccelDesc {
  VMAccelDesc_parentId : Z;
  VMAccelDesc_parentAddr : VMAccelAddress;
  VMAccelDesc_typeMask : Z;
  VMAccelDesc_architecture : Z;
  VMAccelDesc_caps : Z;
  VMAccelDesc_formatCaps : list VMAccelFormatDesc;
  VMAccelDesc_capacity : VMAccelWorkloadDesc;
  VMAccelDesc_maxContexts : Z;
  VMAccelDesc_maxQueues : Z;
  VMAccelDesc_maxEvents : Z;
  VMAccelDesc_maxFences : Z;
  VMAccelDesc_maxSurfaces : Z;
  VMAccelDesc_maxMappings : Z;
}.
Definition zero_VMAccelDesc : VMAccelDesc := mkVMAccelDesc 0 zero_VMAccelAddress 0 0 0 []
    zero_VMAccelWorkloadDesc 0 0 0 0 0 0.

Record VMAccelResourceDesc := mkVMAccelResourceDesc {
  VMAccelResourceDesc_parentId : Z;
  VMAccelResourceDesc_parentAddr : VMAccelAddress;
  VMAccelResourceDesc_typeMask : Z;
  VMAccelResourceDesc_selectionMask : Z;
  VMAccelResourceDesc_caps : Z;
  VMAccelResourceDesc_num : Z;
  VMAccelResourceDesc_size : Z;
}.
Definition zero_VMAccelResourceDesc : VMAccelResourceDesc := mkVMAccelResourceDesc 0 zero_VMAccelAddress
    0 0 0 0 0.

Record VMAccelAllocateStatus := mkVMAccelAllocateStatus {
  VMAccelAllocateStatus_status : Z;
  VMAccelAllocateStatus_id : Z;
  VMAccelAllocateStatus_desc : VMAccelDesc;
}.
Definition zero_VMAccelAllocateStatus : VMAccelAllocateStatus := mkVMAccelAllocateStatus 0 0 zero_VMAccelDesc.

Record VMAccelRegisterDesc := mkVMAccelRegisterDesc {
  VMAccelRegisterDesc_desc : VMAccelDesc;
  VMAccelRegisterDesc_typeMask : Z;
}.
Definition zero_VMAccelRegisterDesc : VMAccelRegisterDesc := mkVMAccelRegisterDesc zero_VMAccelDesc 0.

Record VMAccelResourceAllocateStatus := mkVMAccelResourceAllocateStatus {
  VMAccelResourceAllocateStatus_status : Z;
  VMAccelResourceAllocateStatus_id : Z;
}.
Definition zero_VMAccelResourceAllocateStatus : VMAccelResourceAllocateStatus :=
    mkVMAccelResourceAllocateStatus 0 0.

Record VMAccelRegisterAllocationDesc := mkVMAccelRegisterAllocationDesc {
  VMAccelRegisterAllocationDesc_parentAddr : VMAccelAddress;
  VMAccelRegisterAllocationDesc_typeMask : Z;
  VMAccelRegisterAllocationDesc_num : Z;
  VMAccelRegisterAllocationDesc_size : Z;
}.
Definition zero_VMAccelRegisterAllocationDesc : VMAccelRegisterAllocationDesc :=
    mkVMAccelRegisterAllocationDesc zero_VMAccelAddress 0 0 0.

Record VMAccelRegisterStatus := mkVMAccelRegisterStatus {
  VMAccelRegisterStatus_status : Z;
  VMAccelRegisterStatus_id : Z;
}.
Definition zero_VMAccelRegisterStatus : VMAccelRegisterStatus := mkVMAccelRegisterStatus 0 0.

Record VMAccelElementDouble4D := mkVMAccelElementDouble4D {
  VMAccelElementDouble4D_x : Z;
  VMAccelElementDouble4D_y : Z;
  VMAccelElementDouble4D_z : Z;
  VMAccelElementDouble4D_w : Z;
}.
Definition zero_VMAccelElementDouble4D : VMAccelElementDouble4D := mkVMAccelElementDouble4D 0 0 0 0.

Record VMAccelElementFloat4D := mkVMAccelElementFloat4D {
  VMAccelElementFloat4D_x : Z;
  VMAccelElementFloat4D_y : Z;
  VMAccelElementFloat4D_z : Z;
  VMAccelElementFloat4D_w : Z;
}.
Definition zero_VMAccelElementFloat4D : VMAccelElementFloat4D := mkVMAccelElementFloat4D 0 0 0 0.

Record VMAccelElementUINT4D := mkVMAccelElementUINT4D {
  VMAccelElementUINT4D_r : Z;
  VMAccelElementUINT4D_g : Z;
  VMAccelElementUINT4D_b : Z;
  VMAccelElementUINT4D_a : Z;
}.
Definition zero_VMAccelElementUINT4D : VMAccelElementUINT4D := mkVMAccelElementUINT4D 0 0 0 0.

Record VMAccelCoordinate2DUINT := mkVMAccelCoordinate2DUINT {
  VMAccelCoordinate2DUINT_x : Z;
  VMAccelCoordinate2DUINT_y : Z;
}.
Definition zero_VMAccelCoordinate2DUINT : VMAccelCoordinate2DUINT := mkVMAccelCoordinate2DUINT 0 0.

Record VMAccelCoordinate3DUINT := mkVMAccelCoordinate3DUINT {
  VMAccelCoordinate3DUINT_x : Z;
  VMAccelCoordinate3DUINT_y : Z;
  VMAccelCoordinate3DUINT_z : Z;
}.
Definition zero_VMAccelCoordinate3DUINT : VMAccelCoordinate3DUINT := mkVMAccelCoordinate3DUINT 0 0 0.

Record VMAccelCoordinate4DUINT := mkVMAccelCoordinate4DUINT {
  VMAccelCoordinate4DUINT_x : Z;
  VMAccelCoordinate4DUINT_y : Z;
  VMAccelCoordinate4DUINT_z : Z;
  VMAccelCoordinate4DUINT_w : Z;
}.
Definition zero_VMAccelCoordinate4DUINT : VMAccelCoordinate4DUINT := mkVMAccelCoordinate4DUINT 0 0 0 0.

Record VMAccelSurfaceDesc := mkVMAccelSurfaceDesc {
  VMAccelSurfaceDesc_parentId : Z;
  VMAccelSurfaceDesc_type : Z;
  VMAccelSurfaceDesc_width : Z;
  VMAccelSurfaceDesc_height : Z;
  VMAccelSurfaceDesc_depth : Z;
  VMAccelSurfaceDesc_mipLevels : Z;
  VMAccelSurfaceDesc_arraySize : Z;
  VMAccelSurfaceDesc_samples : Z;
  VMAccelSurfaceDesc_format : Z;
  VMAccelSurfaceDesc_formatCaps : Z;
  VMAccelSurfaceDesc_pool : Z;
  VMAccelSurfaceDesc_usage : Z;
  VMAccelSurfaceDesc_bindFlags : Z;
  VMAccelSurfaceDesc_slicePitch : Z;
  VMAccelSurfaceDesc_rowPitch : Z;
}.
Definition zero_VMAccelSurfaceDesc : VMAccelSurfaceDesc := mkVMAccelSurfaceDesc 0 0 0 0 0 0 0 0 0 0 0 0 0 0 0.

Record VMAccelSurfaceId := mkVMAccelSurfaceId {
  VMAccelSurfaceId_type : Z;
  VMAccelSurfaceId_handleType : Z;
  VMAccelSurfaceId_id : Z;
  VMAccelSurfaceId_instance : Z;
  VMAccelSurfaceId_offset : Z;
  VMAccelSurfaceId_generation : Z;
}.
Definition zero_VMAccelSurfaceId : VMAccelSurfaceId := mkVMAccelSurfaceId 0 0 0 0 0 0.

Record VMAccelSurfaceAllocateStatus := mkVMAccelSurfaceAllocateStatus {
  VMAccelSurfaceAllocateStatus_status : Z;
  VMAccelSurfaceAllocateStatus_surfaceDesc : VMAccelSurfaceDesc;
}.
Definition zero_VMAccelSurfaceAllocateStatus : VMAccelSurfaceAllocateStatus :=
    mkVMAccelSurfaceAllocateStatus 0 zero_VMAccelSurfaceDesc.

Record VMAccelQueueDesc := mkVMAccelQueueDesc {
  VMAccelQueueDesc_flags : Z;
  VMAccelQueueDesc_size : Z;
}.
Definition zero_VMAccelQueueDesc : VMAccelQueueDesc := mkVMAccelQueueDesc 0 0.

Record VMAccelQueueStatus := mkVMAccelQueueStatus {
  VMAccelQueueStatus_status : Z;
}.
Definition zero_VMAccelQueueStatus : VMAccelQueueStatus := mkVMAccelQueueStatus 0.

Record VMAccelSurfaceRegion := mkVMAccelSurfaceRegion {
  VMAccelSurfaceRegion_mipLevel : Z;
  VMAccelSurfaceRegion_coord : VMAccelCoordinate3DUINT;
  VMAccelSurfaceRegion_size : VMAccelCoordinate3DUINT;
}.
Definition zero_VMAccelSurfaceRegion : VMAccelSurfaceRegion := mkVMAccelSurfaceRegion 0
    zero_VMAccelCoordinate3DUINT zero_VMAccelCoordinate3DUINT.

Record VMAccelSurfaceCopyOp := mkVMAccelSurfaceCopyOp {
  VMAccelSurfaceCopyOp_dstRegion : VMAccelSurfaceRegion;
  VMAccelSurfaceCopyOp_srcRegion : VMAccelSurfaceRegion;
}.
Definition zero_VMAccelSurfaceCopyOp : VMAccelSurfaceCopyOp := mkVMAccelSurfaceCopyOp
    zero_VMAccelSurfaceRegion zero_VMAccelSurfaceRegion.

Record VMAccelImageFillOp := mkVMAccelImageFillOp {
  VMAccelImageFillOp_dstRegion : VMAccelSurfaceRegion;
  VMAccelImageFillOp_d : VMAccelElementDouble4D;
  VMAccelImageFillOp_f : VMAccelElementFloat4D;
  VMAccelImageFillOp_u : VMAccelElementUINT4D;
}.
Definition zero_VMAccelImageFillOp : VMAccelImageFillOp := mkVMAccelImageFillOp zero_VMAccelSurfaceRegion
    zero_VMAccelElementDouble4D zero_VMAccelElementFloat4D zero_VMAccelElementUINT4D.

Record VMAccelImageTransferOp := mkVMAccelImageTransferOp {
  VMAccelImageTransferOp_imgRegion : VMAccelSurfaceRegion;
  VMAccelImageTransferOp_ptr : list byte;
  VMAccelImageTransferOp_callbacks : list VMAccelCallback;
}.
Definition zero_VMAccelImageTransferOp : VMAccelImageTransferOp := mkVMAccelImageTransferOp
    zero_VMAccelSurfaceRegion [] [].

Record VMAccelDownloadStatus := mkVMAccelDownloadStatus {
  VMAccelDownloadStatus_status : Z;
  VMAccelDownloadStatus_fence : Z;
  VMAccelDownloadStatus_ptr : list byte;
}.
Definition zero_VMAccelDownloadStatus : VMAccelDownloadStatus := mkVMAccelDownloadStatus 0 0 [].

Record VMAccelSurfaceMapOp := mkVMAccelSurfaceMapOp {
  VMAccelSurfaceMapOp_surf : VMAccelSurfaceId;
  VMAccelSurfaceMapOp_coord : VMAccelCoordinate3DUINT;
  VMAccelSurfaceMapOp_size : VMAccelCoordinate2DUINT;
  VMAccelSurfaceMapOp_mapFlags : Z;
}.
Definition zero_VMAccelSurfaceMapOp : VMAccelSurfaceMapOp := mkVMAccelSurfaceMapOp zero_VMAccelSurfaceId
    zero_VMAccelCoordinate3DUINT zero_VMAccelCoordinate2DUINT 0.

Record VMAccelSurfaceUnmapOp := mkVMAccelSurfaceUnmapOp {
  VMAccelSurfaceUnmapOp_surf : VMAccelSurfaceId;
  VMAccelSurfaceUnmapOp_mapFlags : Z;
  VMAccelSurfaceUnmapOp_ptr : list byte;
}.
Definition zero_VMAccelSurfaceUnmapOp : VMAccelSurfaceUnmapOp := mkVMAccelSurfaceUnmapOp
    zero_VMAccelSurfaceId 0 [].

Record VMAccelSurfaceMapStatus := mkVMAccelSurfaceMapStatus {
  VMAccelSurfaceMapStatus_status : Z;
  VMAccelSurfaceMapStatus_ptr : list byte;
}.
Definition zero_VMAccelSurfaceMapStatus : VMAccelSurfaceMapStatus := mkVMAccelSurfaceMapStatus 0 [].

Record VMAccelComputeArgDesc := mkVMAccelComputeArgDesc {
  VMAccelComputeArgDesc_index : Z;
  VMAccelComputeArgDesc_usage : Z;
  VMAccelComputeArgDesc_surf : VMAccelSurfaceId;
  VMAccelComputeArgDesc_data : list byte;
}.
Definition zero_VMAccelComputeArgDesc : VMAccelComputeArgDesc := mkVMAccelComputeArgDesc 0 0
    zero_VMAccelSurfaceId [].

Record VMAccelComputeOp := mkVMAccelComputeOp {
  VMAccelComputeOp_kernelType : Z;
  VMAccelComputeOp_kernelSource : list byte;
  VMAccelComputeOp_kernelBinary32 : list byte;
  VMAccelComputeOp_kernelBinary64 : list byte;
  VMAccelComputeOp_kernelName : list byte;
  VMAccelComputeOp_dimension : Z;
  VMAccelComputeOp_globalWorkOffset : list Z;
  VMAccelComputeOp_globalWorkSize : list Z;
  VMAccelComputeOp_localWorkSize : list Z;
  VMAccelComputeOp_args : list VMAccelComputeArgDesc;
}.
Definition zero_VMAccelComputeOp : VMAccelComputeOp := mkVMAccelComputeOp 0 [] [] [] [] 0 [] [] [] [].

Record VMAccelComputeStatus := mkVMAccelComputeStatus {
  VMAccelComputeStatus_status : Z;
  VMAccelComputeStatus_outputs : list VMAccelComputeArgDesc;
}.
Definition zero_VMAccelComputeStatus : VMAccelComputeStatus := mkVMAccelComputeStatus 0 [].

Record VMAccelReturnStatus := mkVMAccelReturnStatus {
  VMAccelReturnStatus_errno : Z;
  VMAccelReturnStatus_ret : option VMAccelStatus;
}.
Definition zero_VMAccelReturnStatus : VMAccelReturnStatus := mkVMAccelReturnStatus 0 None.

Record VMAccelAllocateReturnStatus := mkVMAccelAllocateReturnStatus {
  VMAccelAllocateReturnStatus_errno : Z;
  VMAccelAllocateReturnStatus_ret : option VMAccelAllocateStatus;
}.
Definition zero_VMAccelAllocateReturnStatus : VMAccelAllocateReturnStatus :=
    mkVMAccelAllocateReturnStatus 0 None.

Record VMAccelResourceAllocateReturnStatus := mkVMAccelResourceAllocateReturnStatus {
  VMAccelResourceAllocateReturnStatus_errno : Z;
  VMAccelResourceAllocateReturnStatus_ret : option VMAccelResourceAllocateStatus;
}.
Definition zero_VMAccelResourceAllocateReturnStatus : VMAccelResourceAllocateReturnStatus :=
    mkVMAccelResourceAllocateReturnStatus 0 None.

Record VMAccelRegisterReturnStatus := mkVMAccelRegisterReturnStatus {
  VMAccelRegisterReturnStatus_errno : Z;
  VMAccelRegisterReturnStatus_ret : option VMAccelRegisterStatus;
}.
Definition zero_VMAccelRegisterReturnStatus : VMAccelRegisterReturnStatus :=
    mkVMAccelRegisterReturnStatus 0 None.

Record VMAccelQueueReturnStatus := mkVMAccelQueueReturnStatus {
  VMAccelQueueReturnStatus_errno : Z;
  VMAccelQueueReturnStatus_ret : option VMAccelQueueStatus;
}.
Definition zero_VMAccelQueueReturnStatus : VMAccelQueueReturnStatus := mkVMAccelQueueReturnStatus 0 None.

Record VMAccelSurfaceAllocateReturnStatus := mkVMAccelSurfaceAllocateReturnStatus {
  VMAccelSurfaceAllocateReturnStatus_errno : Z;
  VMAccelSurfaceAllocateReturnStatus_ret : option VMAccelSurfaceAllocateStatus;
}.
Definition zero_VMAccelSurfaceAllocateReturnStatus : VMAccelSurfaceAllocateReturnStatus :=
    mkVMAccelSurfaceAllocateReturnStatus 0 None.

Record VMAccelDownloadReturnStatus := mkVMAccelDownloadReturnStatus {
  VMAccelDownloadReturnStatus_errno : Z;
  VMAccelDownloadReturnStatus_ret : option VMAccelDownloadStatus;
}.
Definition zero_VMAccelDownloadReturnStatus : VMAccelDownloadReturnStatus :=
    mkVMAccelDownloadReturnStatus 0 None.

Record VMAccelSurfaceMapReturnStatus := mkVMAccelSurfaceMapReturnStatus {
  VMAccelSurfaceMapReturnStatus_errno : Z;
  VMAccelSurfaceMapReturnStatus_ret : option VMAccelSurfaceMapStatus;
}.
Definition zero_VMAccelSurfaceMapReturnStatus : VMAccelSurfaceMapReturnStatus :=
    mkVMAccelSurfaceMapReturnStatus 0 None.

Record VMAccelComputeReturnStatus := mkVMAccelComputeReturnStatus {
  VMAccelComputeReturnStatus_errno : Z;
  VMAccelComputeReturnStatus_ret : option VMAccelComputeStatus;
}.
Definition zero_VMAccelComputeReturnStatus : VMAccelComputeReturnStatus := mkVMAccelComputeReturnStatus 0
    None.

(** ** vmcl *)

Record VMCLContextAllocateDesc := mkVMCLContextAllocateDesc {
  VMCLContextAllocateDesc_accelId : Z;
  VMCLContextAllocateDesc_clientId : Z;
  VMCLContextAllocateDesc_selectionMask : Z;
  VMCLContextAllocateDesc_numSubDevices : Z;
  VMCLContextAllocateDesc_requiredCaps : Z;
}.
Definition zero_VMCLContextAllocateDesc : VMCLContextAllocateDesc := mkVMCLContextAllocateDesc 0 0 0 0 0.

Record VMCLContextAllocateStatus := mkVMCLContextAllocateStatus {
  VMCLContextAllocateStatus_status : Z;
  VMCLContextAllocateStatus_caps : Z;
}.
Definition zero_VMCLContextAllocateStatus : VMCLContextAllocateStatus := mkVMCLContextAllocateStatus 0 0.

Record VMCLSurfaceId := mkVMCLSurfaceId {
  VMCLSurfaceId_cid : Z;
  VMCLSurfaceId_accel : VMAccelSurfaceId;
}.
Definition zero_VMCLSurfaceId : VMCLSurfaceId := mkVMCLSurfaceId 0 zero_VMAccelSurfaceId.

Record VMCLSurfaceAllocateDesc := mkVMCLSurfaceAllocateDesc {
  VMCLSurfaceAllocateDesc_client : VMCLSurfaceId;
  VMCLSurfaceAllocateDesc_desc : VMAccelSurfaceDesc;
}.
Definition zero_VMCLSurfaceAllocateDesc : VMCLSurfaceAllocateDesc := mkVMCLSurfaceAllocateDesc
    zero_VMCLSurfaceId zero_VMAccelSurfaceDesc.

Record VMCLQueueId := mkVMCLQueueId {
  VMCLQueueId_cid : Z;
  VMCLQueueId_id : Z;
}.
Definition zero_VMCLQueueId : VMCLQueueId := mkVMCLQueueId 0 0.

Record VMCLQueueAllocateDesc := mkVMCLQueueAllocateDesc {
  VMCLQueueAllocateDesc_client : VMCLQueueId;
  VMCLQueueAllocateDesc_subDevice : Z;
  VMCLQueueAllocateDesc_desc : VMAccelQueueDesc;
}.
Definition zero_VMCLQueueAllocateDesc : VMCLQueueAllocateDesc := mkVMCLQueueAllocateDesc zero_VMCLQueueId
    0 zero_VMAccelQueueDesc.

Record VMCLQueueFlushOp := mkVMCLQueueFlushOp {
  VMCLQueueFlushOp_queue : VMCLQueueId;
}.
Definition zero_VMCLQueueFlushOp : VMCLQueueFlushOp := mkVMCLQueueFlushOp zero_VMCLQueueId.

Record VMCLSurfaceCopyOp := mkVMCLSurfaceCopyOp {
  VMCLSurfaceCopyOp_queue : VMCLQueueId;
  VMCLSurfaceCopyOp_dst : VMCLSurfaceId;
  VMCLSurfaceCopyOp_src : VMCLSurfaceId;
  VMCLSurfaceCopyOp_op : VMAccelSurfaceCopyOp;
}.
Definition zero_VMCLSurfaceCopyOp : VMCLSurfaceCopyOp := mkVMCLSurfaceCopyOp zero_VMCLQueueId
    zero_VMCLSurfaceId zero_VMCLSurfaceId zero_VMAccelSurfaceCopyOp.

Record VMCLImageFillOp := mkVMCLImageFillOp {
  VMCLImageFillOp_queue : VMCLQueueId;
  VMCLImageFillOp_img : VMCLSurfaceId;
  VMCLImageFillOp_op : VMAccelImageFillOp;
}.
Definition zero_VMCLImageFillOp : VMCLImageFillOp := mkVMCLImageFillOp zero_VMCLQueueId
    zero_VMCLSurfaceId zero_VMAccelImageFillOp.

Record VMCLImageUploadOp := mkVMCLImageUploadOp {
  VMCLImageUploadOp_queue : VMCLQueueId;
  VMCLImageUploadOp_img : VMCLSurfaceId;
  VMCLImageUploadOp_op : VMAccelImageTransferOp;
  VMCLImageUploadOp_mode : Z;
}.
Definition zero_VMCLImageUploadOp : VMCLImageUploadOp := mkVMCLImageUploadOp zero_VMCLQueueId
    zero_VMCLSurfaceId zero_VMAccelImageTransferOp 0.

Record VMCLImageDownloadOp := mkVMCLImageDownloadOp {
  VMCLImageDownloadOp_queue : VMCLQueueId;
  VMCLImageDownloadOp_img : VMCLSurfaceId;
  VMCLImageDownloadOp_op : VMAccelImageTransferOp;
  VMCLImageDownloadOp_mode : Z;
}.
Definition zero_VMCLImageDownloadOp : VMCLImageDownloadOp := mkVMCLImageDownloadOp zero_VMCLQueueId
    zero_VMCLSurfaceId zero_VMAccelImageTransferOp 0.

Record VMCLSurfaceMapOp := mkVMCLSurfaceMapOp {
  VMCLSurfaceMapOp_queue : VMCLQueueId;
  VMCLSurfaceMapOp_op : VMAccelSurfaceMapOp;
}.
Definition zero_VMCLSurfaceMapOp : VMCLSurfaceMapOp := mkVMCLSurfaceMapOp zero_VMCLQueueId
    zero_VMAccelSurfaceMapOp.

Record VMCLSurfaceUnmapOp := mkVMCLSurfaceUnmapOp {
  VMCLSurfaceUnmapOp_queue : VMCLQueueId;
  VMCLSurfaceUnmapOp_op : VMAccelSurfaceUnmapOp;
}.
Definition zero_VMCLSurfaceUnmapOp : VMCLSurfaceUnmapOp := mkVMCLSurfaceUnmapOp zero_VMCLQueueId
    zero_VMAccelSurfaceUnmapOp.

Record VMCLSamplerId := mkVMCLSamplerId {
  VMCLSamplerId_cid : Z;
  VMCLSamplerId_id : Z;
}.
Definition zero_VMCLSamplerId : VMCLSamplerId := mkVMCLSamplerId 0 0.

Record VMCLSamplerDesc := mkVMCLSamplerDesc {
  VMCLSamplerDesc_normalizedCoords : Z;
  VMCLSamplerDesc_addressMode : Z;
  VMCLSamplerDesc_filterMode : Z;
}.
Definition zero_VMCLSamplerDesc : VMCLSamplerDesc := mkVMCLSamplerDesc 0 0 0.

Record VMCLSamplerAllocateDesc := mkVMCLSamplerAllocateDesc {
  VMCLSamplerAllocateDesc_client : VMCLSamplerId;
  VMCLSamplerAllocateDesc_desc : VMCLSamplerDesc;
}.
Definition zero_VMCLSamplerAllocateDesc : VMCLSamplerAllocateDesc := mkVMCLSamplerAllocateDesc
    zero_VMCLSamplerId zero_VMCLSamplerDesc.

Record VMCLSamplerAllocateStatus := mkVMCLSamplerAllocateStatus {
  VMCLSamplerAllocateStatus_status : Z;
}.
Definition zero_VMCLSamplerAllocateStatus : VMCLSamplerAllocateStatus := mkVMCLSamplerAllocateStatus 0.

Record VMCLKernelId := mkVMCLKernelId {
  VMCLKernelId_cid : Z;
  VMCLKernelId_id : Z;
}.
Definition zero_VMCLKernelId : VMCLKernelId := mkVMCLKernelId 0 0.

Record VMCLKernelAllocateDesc := mkVMCLKernelAllocateDesc {
  VMCLKernelAllocateDesc_client : VMCLKernelId;
  VMCLKernelAllocateDesc_subDevice : Z;
  VMCLKernelAllocateDesc_language : Z;
  VMCLKernelAllocateDesc_source : list byte;
  VMCLKernelAllocateDesc_kernelName : list byte;
}.
Definition zero_VMCLKernelAllocateDesc : VMCLKernelAllocateDesc := mkVMCLKernelAllocateDesc
    zero_VMCLKernelId 0 0 [] [].

Record VMCLKernelAllocateStatus := mkVMCLKernelAllocateStatus {
  VMCLKernelAllocateStatus_status : Z;
}.
Definition zero_VMCLKernelAllocateStatus : VMCLKernelAllocateStatus := mkVMCLKernelAllocateStatus 0.

Record VMCLKernelArgDesc := mkVMCLKernelArgDesc {
  VMCLKernelArgDesc_queue : VMCLQueueId;
  VMCLKernelArgDesc_index : Z;
  VMCLKernelArgDesc_type : Z;
  VMCLKernelArgDesc_usage : Z;
  VMCLKernelArgDesc_surf : VMAccelSurfaceId;
  VMCLKernelArgDesc_sampler : VMCLSamplerId;
}.
Definition zero_VMCLKernelArgDesc : VMCLKernelArgDesc := mkVMCLKernelArgDesc zero_VMCLQueueId 0 0 0
    zero_VMAccelSurfaceId zero_VMCLSamplerId.

Record VMCLDispatchOp := mkVMCLDispatchOp {
  VMCLDispatchOp_queue : VMCLQueueId;
  VMCLDispatchOp_kernel : VMCLKernelId;
  VMCLDispatchOp_dimension : Z;
  VMCLDispatchOp_globalWorkOffset : list Z;
  VMCLDispatchOp_globalWorkSize : list Z;
  VMCLDispatchOp_localWorkSize : list Z;
  VMCLDispatchOp_args : list VMCLKernelArgDesc;
  VMCLDispatchOp_refs : list VMAccelSurfaceId;
}.
Definition zero_VMCLDispatchOp : VMCLDispatchOp := mkVMCLDispatchOp zero_VMCLQueueId zero_VMCLKernelId 0
    [] [] [] [] [].

Record VMCLContextAllocateReturnStatus := mkVMCLContextAllocateReturnStatus {
  VMCLContextAllocateReturnStatus_errno : Z;
  VMCLContextAllocateReturnStatus_ret : option VMCLContextAllocateStatus;
}.
Definition zero_VMCLContextAllocateReturnStatus : VMCLContextAllocateReturnStatus :=
    mkVMCLContextAllocateReturnStatus 0 None.

Record VMCLSamplerAllocateReturnStatus := mkVMCLSamplerAllocateReturnStatus {
  VMCLSamplerAllocateReturnStatus_errno : Z;
  VMCLSamplerAllocateReturnStatus_ret : option VMCLSamplerAllocateStatus;
}.
Definition zero_VMCLSamplerAllocateReturnStatus : VMCLSamplerAllocateReturnStatus :=
    mkVMCLSamplerAllocateReturnStatus 0 None.

Record VMCLKernelAllocateReturnStatus := mkVMCLKernelAllocateReturnStatus {
  VMCLKernelAllocateReturnStatus_errno : Z;
  VMCLKernelAllocateReturnStatus_ret : option VMCLKernelAllocateStatus;
}.
Definition zero_VMCLKernelAllocateReturnStatus : VMCLKernelAllocateReturnStatus :=
    mkVMCLKernelAllocateReturnStatus 0 None.
