(* ===== verification/XdrVMAccel.v ===== *)
(** * Generated filters of the vmaccel protocol

    accelerators/vmaccel/src/vmaccel_rpc_xdr.c: one definition per [xdr_T]
    function (encode, decode and free are the one code path selected by
    [x_op], except in the five filters with inline blocks, which have a path
    for each), its wire format, and the proof that it transmits it. *)

From S2P Require Import Prelude XdrRuntime RpcTypes.

#[global] Instance count_bound_nonce : CountBound VMACCEL_MAX_NONCE_SIZE.
Proof. unfold CountBound, VMACCEL_MAX_NONCE_SIZE, UINT_MAX. lia. Qed.
#[global] Instance count_bound_location : CountBound VMACCEL_MAX_LOCATION_SIZE.
Proof. unfold CountBound, VMACCEL_MAX_LOCATION_SIZE, UINT_MAX. lia. Qed.

Section VMAccel.
Context `{XdrLaws}.

Definition xdr_VMAccelStatusCode : filter Z := xdr_u_int.
#[global] Instance format_VMAccelStatusCode : Format xdr_VMAccelStatusCode := {| wf := wf xdr_u_int; enc
    := enc xdr_u_int |}.
#[global] Instance lawful_VMAccelStatusCode : Lawful xdr_VMAccelStatusCode.
Proof. exact (_ : Lawful xdr_u_int). Qed.

Definition xdr_VMAccelResourceType : filter Z := xdr_u_int.
#[global] Instance format_VMAccelResourceType : Format xdr_VMAccelResourceType := {| wf := wf xdr_u_int;
    enc := enc xdr_u_int |}.
#[global] Instance lawful_VMAccelResourceType : Lawful xdr_VMAccelResourceType.
Proof. exact (_ : Lawful xdr_u_int). Qed.

Definition xdr_VMAccelArchitectureType : filter Z := xdr_u_int.
#[global] Instance format_VMAccelArchitectureType : Format xdr_VMAccelArchitectureType := {| wf := wf
    xdr_u_int; enc := enc xdr_u_int |}.
#[global] Instance lawful_VMAccelArchitectureType : Lawful xdr_VMAccelArchitectureType.
Proof. exact (_ : Lawful xdr_u_int). Qed.

Definition xdr_VMAccelSelectionMask : filter Z := xdr_u_int.
#[global] Instance format_VMAccelSelectionMask : Format xdr_VMAccelSelectionMask := {| wf := wf
    xdr_u_int; enc := enc xdr_u_int |}.
#[global] Instance lawful_VMAccelSelectionMask : Lawful xdr_VMAccelSelectionMask.
Proof. exact (_ : Lawful xdr_u_int). Qed.

Definition xdr_VMAccelId : filter Z := xdr_u_int.
#[global] Instance format_VMAccelId : Format xdr_VMAccelId := {| wf := wf xdr_u_int; enc := enc xdr_u_int |}.
#[global] Instance lawful_VMAccelId : Lawful xdr_VMAccelId.
Proof. exact (_ : Lawful xdr_u_int). Qed.

Definition xdr_VMAccelCaps : filter Z := xdr_u_int.
#[global] Instance format_VMAccelCaps : Format xdr_VMAccelCaps := {| wf := wf xdr_u_int; enc := enc
    xdr_u_int |}.
#[global] Instance lawful_VMAccelCaps : Lawful xdr_VMAccelCaps.
Proof. exact (_ : Lawful xdr_u_int). Qed.

Definition xdr_VMAccelSurfacePool : filter Z := xdr_u_int.
#[global] Instance format_VMAccelSurfacePool : Format xdr_VMAccelSurfacePool := {| wf := wf xdr_u_int;
    enc := enc xdr_u_int |}.
#[global] Instance lawful_VMAccelSurfacePool : Lawful xdr_VMAccelSurfacePool.
Proof. exact (_ : Lawful xdr_u_int). Qed.

Definition xdr_VMAccelSurfaceType : filter Z := xdr_u_int.
#[global] Instance format_VMAccelSurfaceType : Format xdr_VMAccelSurfaceType := {| wf := wf xdr_u_int;
    enc := enc xdr_u_int |}.
#[global] Instance lawful_VMAccelSurfaceType : Lawful xdr_VMAccelSurfaceType.
Proof. exact (_ : Lawful xdr_u_int). Qed.

Definition xdr_VMAccelSurfaceUsage : filter Z := xdr_u_int.
#[global] Instance format_VMAccelSurfaceUsage : Format xdr_VMAccelSurfaceUsage := {| wf := wf xdr_u_int;
    enc := enc xdr_u_int |}.
#[global] Instance lawful_VMAccelSurfaceUsage : Lawful xdr_VMAccelSurfaceUsage.
Proof. exact (_ : Lawful xdr_u_int). Qed.

Definition xdr_VMAccelSurfaceMapFlags : filter Z := xdr_u_int.
#[global] Instance format_VMAccelSurfaceMapFlags : Format xdr_VMAccelSurfaceMapFlags := {| wf := wf
    xdr_u_int; enc := enc xdr_u_int |}.
#[global] Instance lawful_VMAccelSurfaceMapFlags : Lawful xdr_VMAccelSurfaceMapFlags.
Proof. exact (_ : Lawful xdr_u_int). Qed.

Definition xdr_VMAccelSurfaceReadConsistency : filter Z := xdr_u_int.
#[global] Instance format_VMAccelSurfaceReadConsistency : Format xdr_VMAccelSurfaceReadConsistency := {|
    wf := wf xdr_u_int; enc := enc xdr_u_int |}.
#[global] Instance lawful_VMAccelSurfaceReadConsistency : Lawful xdr_VMAccelSurfaceReadConsistency.
Proof. exact (_ : Lawful xdr_u_int). Qed.

Definition xdr_VMAccelSurfaceWriteConsistency : filter Z := xdr_u_int.
#[global] Instance format_VMAccelSurfaceWriteConsistency : Format xdr_VMAccelSurfaceWriteConsistency :=
    {| wf := wf xdr_u_int; enc := enc xdr_u_int |}.
#[global] Instance lawful_VMAccelSurfaceWriteConsistency : Lawful xdr_VMAccelSurfaceWriteConsistency.
Proof. exact (_ : Lawful xdr_u_int). Qed.

Definition xdr_VMAccelFormatCaps : filter Z := xdr_u_int.
#[global] Instance format_VMAccelFormatCaps : Format xdr_VMAccelFormatCaps := {| wf := wf xdr_u_int; enc
    := enc xdr_u_int |}.
#[global] Instance lawful_VMAccelFormatCaps : Lawful xdr_VMAccelFormatCaps.
Proof. exact (_ : Lawful xdr_u_int). Qed.

Definition xdr_VMAccelSurfaceBindFlags : filter Z := xdr_u_int.
#[global] Instance format_VMAccelSurfaceBindFlags : Format xdr_VMAccelSurfaceBindFlags := {| wf := wf
    xdr_u_int; enc := enc xdr_u_int |}.
#[global] Instance lawful_VMAccelSurfaceBindFlags : Lawful xdr_VMAccelSurfaceBindFlags.
Proof. exact (_ : Lawful xdr_u_int). Qed.

Definition xdr_VMAccelSurfaceFormat : filter Z := xdr_u_int.
#[global] Instance format_VMAccelSurfaceFormat : Format xdr_VMAccelSurfaceFormat := {| wf := wf
    xdr_u_int; enc := enc xdr_u_int |}.
#[global] Instance lawful_VMAccelSurfaceFormat : Lawful xdr_VMAccelSurfaceFormat.
Proof. exact (_ : Lawful xdr_u_int). Qed.

Definition xdr_VMAccelSurfaceFormatCaps : filter Z := xdr_u_int.
#[global] Instance format_VMAccelSurfaceFormatCaps : Format xdr_VMAccelSurfaceFormatCaps := {| wf := wf
    xdr_u_int; enc := enc xdr_u_int |}.
#[global] Instance lawful_VMAccelSurfaceFormatCaps : Lawful xdr_VMAccelSurfaceFormatCaps.
Proof. exact (_ : Lawful xdr_u_int). Qed.

Definition xdr_VMAccelStatus : filter VMAccelStatus := λ objp xdrs,
  '(nonce_, xdrs) ← xdr_bytes VMACCEL_MAX_NONCE_SIZE (VMAccelStatus_nonce objp) xdrs;
  '(status_, xdrs) ← xdr_VMAccelStatusCode (VMAccelStatus_status objp) xdrs;
  Some (mkVMAccelStatus nonce_ status_, xdrs).
#[global] Instance format_VMAccelStatus : Format xdr_VMAccelStatus := {|
  wf := λ o, wf (xdr_bytes VMACCEL_MAX_NONCE_SIZE) (VMAccelStatus_nonce o) ∧
    wf xdr_VMAccelStatusCode (VMAccelStatus_status o);
  enc := λ o, enc (xdr_bytes VMACCEL_MAX_NONCE_SIZE) (VMAccelStatus_nonce o) ++
    enc xdr_VMAccelStatusCode (VMAccelStatus_status o) |}.
#[global] Instance lawful_VMAccelStatus : Lawful xdr_VMAccelStatus.
Proof. solve_struct. Qed.

Definition xdr_VMAccelAddress : filter VMAccelAddress := λ objp xdrs,
  '(addr_, xdrs) ← xdr_bytes VMACCEL_MAX_LOCATION_SIZE (VMAccelAddress_addr objp) xdrs;
  '(port_, xdrs) ← xdr_u_int (VMAccelAddress_port objp) xdrs;
  '(resourceType_, xdrs) ← xdr_VMAccelResourceType (VMAccelAddress_resourceType objp) xdrs;
  '(subDevice_, xdrs) ← xdr_u_int (VMAccelAddress_subDevice objp) xdrs;
  Some (mkVMAccelAddress addr_ port_ resourceType_ subDevice_, xdrs).
#[global] Instance format_VMAccelAddress : Format xdr_VMAccelAddress := {|
  wf := λ o, wf (xdr_bytes VMACCEL_MAX_LOCATION_SIZE) (VMAccelAddress_addr o) ∧
    wf xdr_u_int (VMAccelAddress_port o) ∧
    wf xdr_VMAccelResourceType (VMAccelAddress_resourceType o) ∧
    wf xdr_u_int (VMAccelAddress_subDevice o);
  enc := λ o, enc (xdr_bytes VMACCEL_MAX_LOCATION_SIZE) (VMAccelAddress_addr o) ++
    enc xdr_u_int (VMAccelAddress_port o) ++
    enc xdr_VMAccelResourceType (VMAccelAddress_resourceType o) ++
    enc xdr_u_int (VMAccelAddress_subDevice o) |}.
#[global] Instance lawful_VMAccelAddress : Lawful xdr_VMAccelAddress.
Proof. solve_struct. Qed.

Definition xdr_VMAccelCallback : filter VMAccelCallback := λ objp xdrs,
  '(addr_, xdrs) ← xdr_VMAccelAddress (VMAccelCallback_addr objp) xdrs;
  '(payload_, xdrs) ← xdr_bytes UINT_MAX (VMAccelCallback_payload objp) xdrs;
  Some (mkVMAccelCallback addr_ payload_, xdrs).
#[global] Instance format_VMAccelCallback : Format xdr_VMAccelCallback := {|
  wf := λ o, wf xdr_VMAccelAddress (VMAccelCallback_addr o) ∧
    wf (xdr_bytes UINT_MAX) (VMAccelCallback_payload o);
  enc := λ o, enc xdr_VMAccelAddress (VMAccelCallback_addr o) ++
    enc (xdr_bytes UINT_MAX) (VMAccelCallback_payload o) |}.
#[global] Instance lawful_VMAccelCallback : Lawful xdr_VMAccelCallback.
Proof. solve_struct. Qed.

Definition xdr_VMAccelFormatDesc : filter VMAccelFormatDesc := λ objp xdrs,
  '(format_, xdrs) ← xdr_u_int (VMAccelFormatDesc_format objp) xdrs;
  '(caps_, xdrs) ← xdr_VMAccelFormatCaps (VMAccelFormatDesc_caps objp) xdrs;
  Some (mkVMAccelFormatDesc format_ caps_, xdrs).
#[global] Instance format_VMAccelFormatDesc : Format xdr_VMAccelFormatDesc := {|
  wf := λ o, wf xdr_u_int (VMAccelFormatDesc_format o) ∧
    wf xdr_VMAccelFormatCaps (VMAccelFormatDesc_caps o);
  enc := λ o, enc xdr_u_int (VMAccelFormatDesc_format o) ++
    enc xdr_VMAccelFormatCaps (VMAccelFormatDesc_caps o) |}.
#[global] Instance lawful_VMAccelFormatDesc : Lawful xdr_VMAccelFormatDesc.
Proof. solve_struct. Qed.

Definition workload_megaFlops : member VMAccelWorkloadDesc := Member VMAccelWorkloadDesc_megaFlops (λ v
  o, mkVMAccelWorkloadDesc v (VMAccelWorkloadDesc_megaOps o) (VMAccelWorkloadDesc_llcSizeKB o)
  (VMAccelWorkloadDesc_llcBandwidthMBSec o) (VMAccelWorkloadDesc_localMemSizeKB o)
  (VMAccelWorkloadDesc_localMemBandwidthMBSec o) (VMAccelWorkloadDesc_nonLocalMemSizeKB o)
  (VMAccelWorkloadDesc_nonLocalMemBandwidthMBSec o) (VMAccelWorkloadDesc_interconnectBandwidthMBSec o)).
Definition workload_megaOps : member VMAccelWorkloadDesc := Member VMAccelWorkloadDesc_megaOps (λ v o,
  mkVMAccelWorkloadDesc (VMAccelWorkloadDesc_megaFlops o) v (VMAccelWorkloadDesc_llcSizeKB o)
  (VMAccelWorkloadDesc_llcBandwidthMBSec o) (VMAccelWorkloadDesc_localMemSizeKB o)
  (VMAccelWorkloadDesc_localMemBandwidthMBSec o) (VMAccelWorkloadDesc_nonLocalMemSizeKB o)
  (VMAccelWorkloadDesc_nonLocalMemBandwidthMBSec o) (VMAccelWorkloadDesc_interconnectBandwidthMBSec o)).
Definition workload_llcSizeKB : member VMAccelWorkloadDesc := Member VMAccelWorkloadDesc_llcSizeKB (λ v
  o, mkVMAccelWorkloadDesc (VMAccelWorkloadDesc_megaFlops o) (VMAccelWorkloadDesc_megaOps o) v
  (VMAccelWorkloadDesc_llcBandwidthMBSec o) (VMAccelWorkloadDesc_localMemSizeKB o)
  (VMAccelWorkloadDesc_localMemBandwidthMBSec o) (VMAccelWorkloadDesc_nonLocalMemSizeKB o)
  (VMAccelWorkloadDesc_nonLocalMemBandwidthMBSec o) (VMAccelWorkloadDesc_interconnectBandwidthMBSec o)).
Definition workload_llcBandwidthMBSec : member VMAccelWorkloadDesc := Member
  VMAccelWorkloadDesc_llcBandwidthMBSec (λ v o, mkVMAccelWorkloadDesc (VMAccelWorkloadDesc_megaFlops o)
  (VMAccelWorkloadDesc_megaOps o) (VMAccelWorkloadDesc_llcSizeKB o) v
  (VMAccelWorkloadDesc_localMemSizeKB o) (VMAccelWorkloadDesc_localMemBandwidthMBSec o)
  (VMAccelWorkloadDesc_nonLocalMemSizeKB o) (VMAccelWorkloadDesc_nonLocalMemBandwidthMBSec o)
  (VMAccelWorkloadDesc_interconnectBandwidthMBSec o)).
Definition workload_localMemSizeKB : member VMAccelWorkloadDesc := Member
  VMAccelWorkloadDesc_localMemSizeKB (λ v o, mkVMAccelWorkloadDesc (VMAccelWorkloadDesc_megaFlops o)
  (VMAccelWorkloadDesc_megaOps o) (VMAccelWorkloadDesc_llcSizeKB o)
  (VMAccelWorkloadDesc_llcBandwidthMBSec o) v (VMAccelWorkloadDesc_localMemBandwidthMBSec o)
  (VMAccelWorkloadDesc_nonLocalMemSizeKB o) (VMAccelWorkloadDesc_nonLocalMemBandwidthMBSec o)
  (VMAccelWorkloadDesc_interconnectBandwidthMBSec o)).
Definition workload_localMemBandwidthMBSec : member VMAccelWorkloadDesc := Member
  VMAccelWorkloadDesc_localMemBandwidthMBSec (λ v o, mkVMAccelWorkloadDesc
  (VMAccelWorkloadDesc_megaFlops o) (VMAccelWorkloadDesc_megaOps o) (VMAccelWorkloadDesc_llcSizeKB o)
  (VMAccelWorkloadDesc_llcBandwidthMBSec o) (VMAccelWorkloadDesc_localMemSizeKB o) v
  (VMAccelWorkloadDesc_nonLocalMemSizeKB o) (VMAccelWorkloadDesc_nonLocalMemBandwidthMBSec o)
  (VMAccelWorkloadDesc_interconnectBandwidthMBSec o)).
Definition workload_nonLocalMemSizeKB : member VMAccelWorkloadDesc := Member
  VMAccelWorkloadDesc_nonLocalMemSizeKB (λ v o, mkVMAccelWorkloadDesc (VMAccelWorkloadDesc_megaFlops o)
  (VMAccelWorkloadDesc_megaOps o) (VMAccelWorkloadDesc_llcSizeKB o)
  (VMAccelWorkloadDesc_llcBandwidthMBSec o) (VMAccelWorkloadDesc_localMemSizeKB o)
  (VMAccelWorkloadDesc_localMemBandwidthMBSec o) v (VMAccelWorkloadDesc_nonLocalMemBandwidthMBSec o)
  (VMAccelWorkloadDesc_interconnectBandwidthMBSec o)).
Definition workload_nonLocalMemBandwidthMBSec : member VMAccelWorkloadDesc := Member
  VMAccelWorkloadDesc_nonLocalMemBandwidthMBSec (λ v o, mkVMAccelWorkloadDesc
  (VMAccelWorkloadDesc_megaFlops o) (VMAccelWorkloadDesc_megaOps o) (VMAccelWorkloadDesc_llcSizeKB o)
  (VMAccelWorkloadDesc_llcBandwidthMBSec o) (VMAccelWorkloadDesc_localMemSizeKB o)
  (VMAccelWorkloadDesc_localMemBandwidthMBSec o) (VMAccelWorkloadDesc_nonLocalMemSizeKB o) v
  (VMAccelWorkloadDesc_interconnectBandwidthMBSec o)).
Definition workload_interconnectBandwidthMBSec : member VMAccelWorkloadDesc := Member
  VMAccelWorkloadDesc_interconnectBandwidthMBSec (λ v o, mkVMAccelWorkloadDesc
  (VMAccelWorkloadDesc_megaFlops o) (VMAccelWorkloadDesc_megaOps o) (VMAccelWorkloadDesc_llcSizeKB o)
  (VMAccelWorkloadDesc_llcBandwidthMBSec o) (VMAccelWorkloadDesc_localMemSizeKB o)
  (VMAccelWorkloadDesc_localMemBandwidthMBSec o) (VMAccelWorkloadDesc_nonLocalMemSizeKB o)
  (VMAccelWorkloadDesc_nonLocalMemBandwidthMBSec o) v).

Definition xdr_VMAccelWorkloadDesc : filter VMAccelWorkloadDesc := λ objp xdrs,
  match x_op xdrs with
  | XDR_ENCODE =>
      xdr_encode_block 9
        [workload_megaFlops; workload_megaOps; workload_llcSizeKB; workload_llcBandwidthMBSec;
         workload_localMemSizeKB; workload_localMemBandwidthMBSec; workload_nonLocalMemSizeKB;
         workload_nonLocalMemBandwidthMBSec; workload_interconnectBandwidthMBSec]
        [workload_megaFlops; workload_megaOps; workload_llcSizeKB; workload_llcBandwidthMBSec;
         workload_localMemSizeKB; workload_localMemBandwidthMBSec; workload_nonLocalMemSizeKB;
         workload_nonLocalMemBandwidthMBSec; workload_interconnectBandwidthMBSec]
        objp xdrs
  | XDR_DECODE =>
      xdr_decode_block 9
        [workload_megaFlops; workload_megaOps; workload_llcSizeKB; workload_llcBandwidthMBSec;
         workload_localMemSizeKB; workload_localMemBandwidthMBSec; workload_nonLocalMemSizeKB;
         workload_nonLocalMemBandwidthMBSec; workload_interconnectBandwidthMBSec]
        [workload_megaFlops; workload_megaOps; workload_llcSizeKB; workload_llcBandwidthMBSec;
         workload_localMemSizeKB; workload_localMemBandwidthMBSec; workload_nonLocalMemSizeKB;
         workload_nonLocalMemBandwidthMBSec; workload_interconnectBandwidthMBSec]
        objp xdrs
  | XDR_FREE =>
      xdr_members
        [workload_megaFlops; workload_megaOps; workload_llcSizeKB; workload_llcBandwidthMBSec;
         workload_localMemSizeKB; workload_localMemBandwidthMBSec; workload_nonLocalMemSizeKB;
         workload_nonLocalMemBandwidthMBSec; workload_interconnectBandwidthMBSec]
        objp xdrs
  end.
#[global] Instance format_VMAccelWorkloadDesc : Format xdr_VMAccelWorkloadDesc := {|
  wf := λ o, Forall is_u32 [VMAccelWorkloadDesc_megaFlops o; VMAccelWorkloadDesc_megaOps o;
      VMAccelWorkloadDesc_llcSizeKB o; VMAccelWorkloadDesc_llcBandwidthMBSec o;
      VMAccelWorkloadDesc_localMemSizeKB o; VMAccelWorkloadDesc_localMemBandwidthMBSec o;
      VMAccelWorkloadDesc_nonLocalMemSizeKB o; VMAccelWorkloadDesc_nonLocalMemBandwidthMBSec o;
      VMAccelWorkloadDesc_interconnectBandwidthMBSec o];
  enc := λ o, enc_u_ints [VMAccelWorkloadDesc_megaFlops o; VMAccelWorkloadDesc_megaOps o;
      VMAccelWorkloadDesc_llcSizeKB o; VMAccelWorkloadDesc_llcBandwidthMBSec o;
      VMAccelWorkloadDesc_localMemSizeKB o; VMAccelWorkloadDesc_localMemBandwidthMBSec o;
      VMAccelWorkloadDesc_nonLocalMemSizeKB o; VMAccelWorkloadDesc_nonLocalMemBandwidthMBSec o;
      VMAccelWorkloadDesc_interconnectBandwidthMBSec o] |}.
#[global] Instance lawful_VMAccelWorkloadDesc : Lawful xdr_VMAccelWorkloadDesc.
Proof. solve_struct. Qed.

Definition desc_maxContexts : member VMAccelDesc := Member VMAccelDesc_maxContexts (λ v o, mkVMAccelDesc
  (VMAccelDesc_parentId o) (VMAccelDesc_parentAddr o) (VMAccelDesc_typeMask o) (VMAccelDesc_architecture
  o) (VMAccelDesc_caps o) (VMAccelDesc_formatCaps o) (VMAccelDesc_capacity o) v (VMAccelDesc_maxQueues
  o) (VMAccelDesc_maxEvents o) (VMAccelDesc_maxFences o) (VMAccelDesc_maxSurfaces o)
  (VMAccelDesc_maxMappings o)).
Definition desc_maxQueues : member VMAccelDesc := Member VMAccelDesc_maxQueues (λ v o, mkVMAccelDesc
  (VMAccelDesc_parentId o) (VMAccelDesc_parentAddr o) (VMAccelDesc_typeMask o) (VMAccelDesc_architecture
  o) (VMAccelDesc_caps o) (VMAccelDesc_formatCaps o) (VMAccelDesc_capacity o) (VMAccelDesc_maxContexts
  o) v (VMAccelDesc_maxEvents o) (VMAccelDesc_maxFences o) (VMAccelDesc_maxSurfaces o)
  (VMAccelDesc_maxMappings o)).
Definition desc_maxEvents : member VMAccelDesc := Member VMAccelDesc_maxEvents (λ v o, mkVMAccelDesc
  (VMAccelDesc_parentId o) (VMAccelDesc_parentAddr o) (VMAccelDesc_typeMask o) (VMAccelDesc_architecture
  o) (VMAccelDesc_caps o) (VMAccelDesc_formatCaps o) (VMAccelDesc_capacity o) (VMAccelDesc_maxContexts
  o) (VMAccelDesc_maxQueues o) v (VMAccelDesc_maxFences o) (VMAccelDesc_maxSurfaces o)
  (VMAccelDesc_maxMappings o)).
Definition desc_maxFences : member VMAccelDesc := Member VMAccelDesc_maxFences (λ v o, mkVMAccelDesc
  (VMAccelDesc_parentId o) (VMAccelDesc_parentAddr o) (VMAccelDesc_typeMask o) (VMAccelDesc_architecture
  o) (VMAccelDesc_caps o) (VMAccelDesc_formatCaps o) (VMAccelDesc_capacity o) (VMAccelDesc_maxContexts
  o) (VMAccelDesc_maxQueues o) (VMAccelDesc_maxEvents o) v (VMAccelDesc_maxSurfaces o)
  (VMAccelDesc_maxMappings o)).
Definition desc_maxSurfaces : member VMAccelDesc := Member VMAccelDesc_maxSurfaces (λ v o, mkVMAccelDesc
  (VMAccelDesc_parentId o) (VMAccelDesc_parentAddr o) (VMAccelDesc_typeMask o) (VMAccelDesc_architecture
  o) (VMAccelDesc_caps o) (VMAccelDesc_formatCaps o) (VMAccelDesc_capacity o) (VMAccelDesc_maxContexts
  o) (VMAccelDesc_maxQueues o) (VMAccelDesc_maxEvents o) (VMAccelDesc_maxFences o) v
  (VMAccelDesc_maxMappings o)).
Definition desc_maxMappings : member VMAccelDesc := Member VMAccelDesc_maxMappings (λ v o, mkVMAccelDesc
  (VMAccelDesc_parentId o) (VMAccelDesc_parentAddr o) (VMAccelDesc_typeMask o) (VMAccelDesc_architecture
  o) (VMAccelDesc_caps o) (VMAccelDesc_formatCaps o) (VMAccelDesc_capacity o) (VMAccelDesc_maxContexts
  o) (VMAccelDesc_maxQueues o) (VMAccelDesc_maxEvents o) (VMAccelDesc_maxFences o)
  (VMAccelDesc_maxSurfaces o) v).

Definition xdr_VMAccelDesc : filter VMAccelDesc := λ objp xdrs,
  match x_op xdrs with
  | XDR_ENCODE =>
      '(parentId_, xdrs) ← xdr_VMAccelId (VMAccelDesc_parentId objp) xdrs;
      '(parentAddr_, xdrs) ← xdr_VMAccelAddress (VMAccelDesc_parentAddr objp) xdrs;
      '(typeMask_, xdrs) ← xdr_VMAccelResourceType (VMAccelDesc_typeMask objp) xdrs;
      '(architecture_, xdrs) ← xdr_VMAccelArchitectureType (VMAccelDesc_architecture objp) xdrs;
      '(caps_, xdrs) ← xdr_VMAccelCaps (VMAccelDesc_caps objp) xdrs;
      '(formatCaps_, xdrs) ← xdr_array UINT_MAX zero_VMAccelFormatDesc xdr_VMAccelFormatDesc
        (VMAccelDesc_formatCaps objp) xdrs;
      '(capacity_, xdrs) ← xdr_VMAccelWorkloadDesc (VMAccelDesc_capacity objp) xdrs;
      xdr_encode_block 6
        [desc_maxContexts; desc_maxQueues; desc_maxEvents; desc_maxFences; desc_maxSurfaces;
         desc_maxMappings]
        [desc_maxContexts; desc_maxQueues; desc_maxEvents; desc_maxFences; desc_maxSurfaces;
         desc_maxMappings]
        (mkVMAccelDesc parentId_ parentAddr_ typeMask_ architecture_ caps_ formatCaps_ capacity_
          (VMAccelDesc_maxContexts objp) (VMAccelDesc_maxQueues objp) (VMAccelDesc_maxEvents objp)
          (VMAccelDesc_maxFences objp) (VMAccelDesc_maxSurfaces objp) (VMAccelDesc_maxMappings
          objp)) xdrs
  | XDR_DECODE =>
      '(parentId_, xdrs) ← xdr_VMAccelId (VMAccelDesc_parentId objp) xdrs;
      '(parentAddr_, xdrs) ← xdr_VMAccelAddress (VMAccelDesc_parentAddr objp) xdrs;
      '(typeMask_, xdrs) ← xdr_VMAccelResourceType (VMAccelDesc_typeMask objp) xdrs;
      '(architecture_, xdrs) ← xdr_VMAccelArchitectureType (VMAccelDesc_architecture objp) xdrs;
      '(caps_, xdrs) ← xdr_VMAccelCaps (VMAccelDesc_caps objp) xdrs;
      '(formatCaps_, xdrs) ← xdr_array UINT_MAX zero_VMAccelFormatDesc xdr_VMAccelFormatDesc
        (VMAccelDesc_formatCaps objp) xdrs;
      '(capacity_, xdrs) ← xdr_VMAccelWorkloadDesc (VMAccelDesc_capacity objp) xdrs;
      xdr_decode_block 6
        [desc_maxContexts; desc_maxQueues; desc_maxEvents; desc_maxFences; desc_maxSurfaces;
         desc_maxMappings]
        [desc_maxContexts; desc_maxQueues; desc_maxEvents; desc_maxFences; desc_maxSurfaces;
         desc_maxMappings]
        (mkVMAccelDesc parentId_ parentAddr_ typeMask_ architecture_ caps_ formatCaps_ capacity_
          (VMAccelDesc_maxContexts objp) (VMAccelDesc_maxQueues objp) (VMAccelDesc_maxEvents objp)
          (VMAccelDesc_maxFences objp) (VMAccelDesc_maxSurfaces objp) (VMAccelDesc_maxMappings
          objp)) xdrs
  | XDR_FREE =>
      '(parentId_, xdrs) ← xdr_VMAccelId (VMAccelDesc_parentId objp) xdrs;
      '(parentAddr_, xdrs) ← xdr_VMAccelAddress (VMAccelDesc_parentAddr objp) xdrs;
      '(typeMask_, xdrs) ← xdr_VMAccelResourceType (VMAccelDesc_typeMask objp) xdrs;
      '(architecture_, xdrs) ← xdr_VMAccelArchitectureType (VMAccelDesc_architecture objp) xdrs;
      '(caps_, xdrs) ← xdr_VMAccelCaps (VMAccelDesc_caps objp) xdrs;
      '(formatCaps_, xdrs) ← xdr_array UINT_MAX zero_VMAccelFormatDesc xdr_VMAccelFormatDesc
        (VMAccelDesc_formatCaps objp) xdrs;
      '(capacity_, xdrs) ← xdr_VMAccelWorkloadDesc (VMAccelDesc_capacity objp) xdrs;
      xdr_members
        [desc_maxContexts; desc_maxQueues; desc_maxEvents; desc_maxFences; desc_maxSurfaces;
         desc_maxMappings]
        (mkVMAccelDesc parentId_ parentAddr_ typeMask_ architecture_ caps_ formatCaps_ capacity_
          (VMAccelDesc_maxContexts objp) (VMAccelDesc_maxQueues objp) (VMAccelDesc_maxEvents objp)
          (VMAccelDesc_maxFences objp) (VMAccelDesc_maxSurfaces objp) (VMAccelDesc_maxMappings
          objp)) xdrs
  end.
#[global] Instance format_VMAccelDesc : Format xdr_VMAccelDesc := {|
  wf := λ o, wf xdr_VMAccelId (VMAccelDesc_parentId o) ∧
    wf xdr_VMAccelAddress (VMAccelDesc_parentAddr o) ∧
    wf xdr_VMAccelResourceType (VMAccelDesc_typeMask o) ∧
    wf xdr_VMAccelArchitectureType (VMAccelDesc_architecture o) ∧
    wf xdr_VMAccelCaps (VMAccelDesc_caps o) ∧
    wf (xdr_array UINT_MAX zero_VMAccelFormatDesc xdr_VMAccelFormatDesc) (VMAccelDesc_formatCaps o) ∧
    wf xdr_VMAccelWorkloadDesc (VMAccelDesc_capacity o) ∧
    Forall is_u32 [VMAccelDesc_maxContexts o; VMAccelDesc_maxQueues o; VMAccelDesc_maxEvents o;
        VMAccelDesc_maxFences o; VMAccelDesc_maxSurfaces o; VMAccelDesc_maxMappings o];
  enc := λ o, enc xdr_VMAccelId (VMAccelDesc_parentId o) ++
    enc xdr_VMAccelAddress (VMAccelDesc_parentAddr o) ++
    enc xdr_VMAccelResourceType (VMAccelDesc_typeMask o) ++
    enc xdr_VMAccelArchitectureType (VMAccelDesc_architecture o) ++
    enc xdr_VMAccelCaps (VMAccelDesc_caps o) ++
    enc (xdr_array UINT_MAX zero_VMAccelFormatDesc xdr_VMAccelFormatDesc) (VMAccelDesc_formatCaps o) ++
    enc xdr_VMAccelWorkloadDesc (VMAccelDesc_capacity o) ++
    enc_u_ints [VMAccelDesc_maxContexts o; VMAccelDesc_maxQueues o; VMAccelDesc_maxEvents o;
        VMAccelDesc_maxFences o; VMAccelDesc_maxSurfaces o; VMAccelDesc_maxMappings o] |}.
#[global] Instance lawful_VMAccelDesc : Lawful xdr_VMAccelDesc.
Proof. solve_struct. Qed.

Definition xdr_VMAccelResourceDesc : filter VMAccelResourceDesc := λ objp xdrs,
  '(parentId_, xdrs) ← xdr_VMAccelId (VMAccelResourceDesc_parentId objp) xdrs;
  '(parentAddr_, xdrs) ← xdr_VMAccelAddress (VMAccelResourceDesc_parentAddr objp) xdrs;
  '(typeMask_, xdrs) ← xdr_VMAccelResourceType (VMAccelResourceDesc_typeMask objp) xdrs;
  '(selectionMask_, xdrs) ← xdr_VMAccelSelectionMask (VMAccelResourceDesc_selectionMask objp) xdrs;
  '(caps_, xdrs) ← xdr_VMAccelCaps (VMAccelResourceDesc_caps objp) xdrs;
  '(num_, xdrs) ← xdr_u_int (VMAccelResourceDesc_num objp) xdrs;
  '(size_, xdrs) ← xdr_u_int (VMAccelResourceDesc_size objp) xdrs;
  Some (mkVMAccelResourceDesc parentId_ parentAddr_ typeMask_ selectionMask_ caps_ num_ size_, xdrs).
#[global] Instance format_VMAccelResourceDesc : Format xdr_VMAccelResourceDesc := {|
  wf := λ o, wf xdr_VMAccelId (VMAccelResourceDesc_parentId o) ∧
    wf xdr_VMAccelAddress (VMAccelResourceDesc_parentAddr o) ∧
    wf xdr_VMAccelResourceType (VMAccelResourceDesc_typeMask o) ∧
    wf xdr_VMAccelSelectionMask (VMAccelResourceDesc_selectionMask o) ∧
    wf xdr_VMAccelCaps (VMAccelResourceDesc_caps o) ∧
    wf xdr_u_int (VMAccelResourceDesc_num o) ∧
    wf xdr_u_int (VMAccelResourceDesc_size o);
  enc := λ o, enc xdr_VMAccelId (VMAccelResourceDesc_parentId o) ++
    enc xdr_VMAccelAddress (VMAccelResourceDesc_parentAddr o) ++
    enc xdr_VMAccelResourceType (VMAccelResourceDesc_typeMask o) ++
    enc xdr_VMAccelSelectionMask (VMAccelResourceDesc_selectionMask o) ++
    enc xdr_VMAccelCaps (VMAccelResourceDesc_caps o) ++
    enc xdr_u_int (VMAccelResourceDesc_num o) ++
    enc xdr_u_int (VMAccelResourceDesc_size o) |}.
#[global] Instance lawful_VMAccelResourceDesc : Lawful xdr_VMAccelResourceDesc.
Proof. solve_struct. Qed.

Definition xdr_VMAccelAllocateStatus : filter VMAccelAllocateStatus := λ objp xdrs,
  '(status_, xdrs) ← xdr_VMAccelStatusCode (VMAccelAllocateStatus_status objp) xdrs;
  '(id_, xdrs) ← xdr_VMAccelId (VMAccelAllocateStatus_id objp) xdrs;
  '(desc_, xdrs) ← xdr_VMAccelDesc (VMAccelAllocateStatus_desc objp) xdrs;
  Some (mkVMAccelAllocateStatus status_ id_ desc_, xdrs).
#[global] Instance format_VMAccelAllocateStatus : Format xdr_VMAccelAllocateStatus := {|
  wf := λ o, wf xdr_VMAccelStatusCode (VMAccelAllocateStatus_status o) ∧
    wf xdr_VMAccelId (VMAccelAllocateStatus_id o) ∧
    wf xdr_VMAccelDesc (VMAccelAllocateStatus_desc o);
  enc := λ o, enc xdr_VMAccelStatusCode (VMAccelAllocateStatus_status o) ++
    enc xdr_VMAccelId (VMAccelAllocateStatus_id o) ++
    enc xdr_VMAccelDesc (VMAccelAllocateStatus_desc o) |}.
#[global] Instance lawful_VMAccelAllocateStatus : Lawful xdr_VMAccelAllocateStatus.
Proof. solve_struct. Qed.

Definition xdr_VMAccelRegisterDesc : filter VMAccelRegisterDesc := λ objp xdrs,
  '(desc_, xdrs) ← xdr_VMAccelDesc (VMAccelRegisterDesc_desc objp) xdrs;
  '(typeMask_, xdrs) ← xdr_VMAccelResourceType (VMAccelRegisterDesc_typeMask objp) xdrs;
  Some (mkVMAccelRegisterDesc desc_ typeMask_, xdrs).
#[global] Instance format_VMAccelRegisterDesc : Format xdr_VMAccelRegisterDesc := {|
  wf := λ o, wf xdr_VMAccelDesc (VMAccelRegisterDesc_desc o) ∧
    wf xdr_VMAccelResourceType (VMAccelRegisterDesc_typeMask o);
  enc := λ o, enc xdr_VMAccelDesc (VMAccelRegisterDesc_desc o) ++
    enc xdr_VMAccelResourceType (VMAccelRegisterDesc_typeMask o) |}.
#[global] Instance lawful_VMAccelRegisterDesc : Lawful xdr_VMAccelRegisterDesc.
Proof. solve_struct. Qed.

Definition xdr_VMAccelResourceAllocateStatus : filter VMAccelResourceAllocateStatus := λ objp xdrs,
  '(status_, xdrs) ← xdr_VMAccelStatusCode (VMAccelResourceAllocateStatus_status objp) xdrs;
  '(id_, xdrs) ← xdr_VMAccelId (VMAccelResourceAllocateStatus_id objp) xdrs;
  Some (mkVMAccelResourceAllocateStatus status_ id_, xdrs).
#[global] Instance format_VMAccelResourceAllocateStatus : Format xdr_VMAccelResourceAllocateStatus := {|
  wf := λ o, wf xdr_VMAccelStatusCode (VMAccelResourceAllocateStatus_status o) ∧
    wf xdr_VMAccelId (VMAccelResourceAllocateStatus_id o);
  enc := λ o, enc xdr_VMAccelStatusCode (VMAccelResourceAllocateStatus_status o) ++
    enc xdr_VMAccelId (VMAccelResourceAllocateStatus_id o) |}.
#[global] Instance lawful_VMAccelResourceAllocateStatus : Lawful xdr_VMAccelResourceAllocateStatus.
Proof. solve_struct. Qed.

Definition xdr_VMAccelRegisterAllocationDesc : filter VMAccelRegisterAllocationDesc := λ objp xdrs,
  '(parentAddr_, xdrs) ← xdr_VMAccelAddress (VMAccelRegisterAllocationDesc_parentAddr objp) xdrs;
  '(typeMask_, xdrs) ← xdr_VMAccelResourceType (VMAccelRegisterAllocationDesc_typeMask objp) xdrs;
  '(num_, xdrs) ← xdr_u_int (VMAccelRegisterAllocationDesc_num objp) xdrs;
  '(size_, xdrs) ← xdr_u_int (VMAccelRegisterAllocationDesc_size objp) xdrs;
  Some (mkVMAccelRegisterAllocationDesc parentAddr_ typeMask_ num_ size_, xdrs).
#[global] Instance format_VMAccelRegisterAllocationDesc : Format xdr_VMAccelRegisterAllocationDesc := {|
  wf := λ o, wf xdr_VMAccelAddress (VMAccelRegisterAllocationDesc_parentAddr o) ∧
    wf xdr_VMAccelResourceType (VMAccelRegisterAllocationDesc_typeMask o) ∧
    wf xdr_u_int (VMAccelRegisterAllocationDesc_num o) ∧
    wf xdr_u_int (VMAccelRegisterAllocationDesc_size o);
  enc := λ o, enc xdr_VMAccelAddress (VMAccelRegisterAllocationDesc_parentAddr o) ++
    enc xdr_VMAccelResourceType (VMAccelRegisterAllocationDesc_typeMask o) ++
    enc xdr_u_int (VMAccelRegisterAllocationDesc_num o) ++
    enc xdr_u_int (VMAccelRegisterAllocationDesc_size o) |}.
#[global] Instance lawful_VMAccelRegisterAllocationDesc : Lawful xdr_VMAccelRegisterAllocationDesc.
Proof. solve_struct. Qed.

Definition xdr_VMAccelRegisterStatus : filter VMAccelRegisterStatus := λ objp xdrs,
  '(status_, xdrs) ← xdr_VMAccelStatusCode (VMAccelRegisterStatus_status objp) xdrs;
  '(id_, xdrs) ← xdr_VMAccelId (VMAccelRegisterStatus_id objp) xdrs;
  Some (mkVMAccelRegisterStatus status_ id_, xdrs).
#[global] Instance format_VMAccelRegisterStatus : Format xdr_VMAccelRegisterStatus := {|
  wf := λ o, wf xdr_VMAccelStatusCode (VMAccelRegisterStatus_status o) ∧
    wf xdr_VMAccelId (VMAccelRegisterStatus_id o);
  enc := λ o, enc xdr_VMAccelStatusCode (VMAccelRegisterStatus_status o) ++
    enc xdr_VMAccelId (VMAccelRegisterStatus_id o) |}.
#[global] Instance lawful_VMAccelRegisterStatus : Lawful xdr_VMAccelRegisterStatus.
Proof. solve_struct. Qed.

Definition xdr_VMAccelElementDouble4D : filter VMAccelElementDouble4D := λ objp xdrs,
  '(x_, xdrs) ← xdr_double (VMAccelElementDouble4D_x objp) xdrs;
  '(y_, xdrs) ← xdr_double (VMAccelElementDouble4D_y objp) xdrs;
  '(z_, xdrs) ← xdr_double (VMAccelElementDouble4D_z objp) xdrs;
  '(w_, xdrs) ← xdr_double (VMAccelElementDouble4D_w objp) xdrs;
  Some (mkVMAccelElementDouble4D x_ y_ z_ w_, xdrs).
#[global] Instance format_VMAccelElementDouble4D : Format xdr_VMAccelElementDouble4D := {|
  wf := λ o, wf xdr_double (VMAccelElementDouble4D_x o) ∧
    wf xdr_double (VMAccelElementDouble4D_y o) ∧
    wf xdr_double (VMAccelElementDouble4D_z o) ∧
    wf xdr_double (VMAccelElementDouble4D_w o);
  enc := λ o, enc xdr_double (VMAccelElementDouble4D_x o) ++
    enc xdr_double (VMAccelElementDouble4D_y o) ++
    enc xdr_double (VMAccelElementDouble4D_z o) ++
    enc xdr_double (VMAccelElementDouble4D_w o) |}.
#[global] Instance lawful_VMAccelElementDouble4D : Lawful xdr_VMAccelElementDouble4D.
Proof. solve_struct. Qed.

Definition xdr_VMAccelElementFloat4D : filter VMAccelElementFloat4D := λ objp xdrs,
  '(x_, xdrs) ← xdr_float (VMAccelElementFloat4D_x objp) xdrs;
  '(y_, xdrs) ← xdr_float (VMAccelElementFloat4D_y objp) xdrs;
  '(z_, xdrs) ← xdr_float (VMAccelElementFloat4D_z objp) xdrs;
  '(w_, xdrs) ← xdr_float (VMAccelElementFloat4D_w objp) xdrs;
  Some (mkVMAccelElementFloat4D x_ y_ z_ w_, xdrs).
#[global] Instance format_VMAccelElementFloat4D : Format xdr_VMAccelElementFloat4D := {|
  wf := λ o, wf xdr_float (VMAccelElementFloat4D_x o) ∧
    wf xdr_float (VMAccelElementFloat4D_y o) ∧
    wf xdr_float (VMAccelElementFloat4D_z o) ∧
    wf xdr_float (VMAccelElementFloat4D_w o);
  enc := λ o, enc xdr_float (VMAccelElementFloat4D_x o) ++
    enc xdr_float (VMAccelElementFloat4D_y o) ++
    enc xdr_float (VMAccelElementFloat4D_z o) ++
    enc xdr_float (VMAccelElementFloat4D_w o) |}.
#[global] Instance lawful_VMAccelElementFloat4D : Lawful xdr_VMAccelElementFloat4D.
Proof. solve_struct. Qed.

Definition element_r : member VMAccelElementUINT4D := Member VMAccelElementUINT4D_r (λ v o,
  mkVMAccelElementUINT4D v (VMAccelElementUINT4D_g o) (VMAccelElementUINT4D_b o) (VMAccelElementUINT4D_a
  o)).
Definition element_g : member VMAccelElementUINT4D := Member VMAccelElementUINT4D_g (λ v o,
  mkVMAccelElementUINT4D (VMAccelElementUINT4D_r o) v (VMAccelElementUINT4D_b o) (VMAccelElementUINT4D_a
  o)).
Definition element_b : member VMAccelElementUINT4D := Member VMAccelElementUINT4D_b (λ v o,
  mkVMAccelElementUINT4D (VMAccelElementUINT4D_r o) (VMAccelElementUINT4D_g o) v (VMAccelElementUINT4D_a
  o)).
Definition element_a : member VMAccelElementUINT4D := Member VMAccelElementUINT4D_a (λ v o,
  mkVMAccelElementUINT4D (VMAccelElementUINT4D_r o) (VMAccelElementUINT4D_g o) (VMAccelElementUINT4D_b
  o) v).

Definition xdr_VMAccelElementUINT4D : filter VMAccelElementUINT4D := λ objp xdrs,
  match x_op xdrs with
  | XDR_ENCODE =>
      xdr_encode_block 4
        [element_r; element_g; element_b; element_a]
        [element_r; element_g; element_b; element_a]
        objp xdrs
  | XDR_DECODE =>
      xdr_decode_block 4
        [element_r; element_g; element_b; element_a]
        [element_r; element_g; element_b; element_a]
        objp xdrs
  | XDR_FREE =>
      xdr_members
        [element_r; element_g; element_b; element_a]
        objp xdrs
  end.
#[global] Instance format_VMAccelElementUINT4D : Format xdr_VMAccelElementUINT4D := {|
  wf := λ o, Forall is_u32 [VMAccelElementUINT4D_r o; VMAccelElementUINT4D_g o; VMAccelElementUINT4D_b o;
      VMAccelElementUINT4D_a o];
  enc := λ o, enc_u_ints [VMAccelElementUINT4D_r o; VMAccelElementUINT4D_g o; VMAccelElementUINT4D_b o;
      VMAccelElementUINT4D_a o] |}.
#[global] Instance lawful_VMAccelElementUINT4D : Lawful xdr_VMAccelElementUINT4D.
Proof. solve_struct. Qed.

Definition xdr_VMAccelCoordinate2DUINT : filter VMAccelCoordinate2DUINT := λ objp xdrs,
  '(x_, xdrs) ← xdr_u_int (VMAccelCoordinate2DUINT_x objp) xdrs;
  '(y_, xdrs) ← xdr_u_int (VMAccelCoordinate2DUINT_y objp) xdrs;
  Some (mkVMAccelCoordinate2DUINT x_ y_, xdrs).
#[global] Instance format_VMAccelCoordinate2DUINT : Format xdr_VMAccelCoordinate2DUINT := {|
  wf := λ o, wf xdr_u_int (VMAccelCoordinate2DUINT_x o) ∧
    wf xdr_u_int (VMAccelCoordinate2DUINT_y o);
  enc := λ o, enc xdr_u_int (VMAccelCoordinate2DUINT_x o) ++
    enc xdr_u_int (VMAccelCoordinate2DUINT_y o) |}.
#[global] Instance lawful_VMAccelCoordinate2DUINT : Lawful xdr_VMAccelCoordinate2DUINT.
Proof. solve_struct. Qed.

Definition xdr_VMAccelCoordinate3DUINT : filter VMAccelCoordinate3DUINT := λ objp xdrs,
  '(x_, xdrs) ← xdr_u_int (VMAccelCoordinate3DUINT_x objp) xdrs;
  '(y_, xdrs) ← xdr_u_int (VMAccelCoordinate3DUINT_y objp) xdrs;
  '(z_, xdrs) ← xdr_u_int (VMAccelCoordinate3DUINT_z objp) xdrs;
  Some (mkVMAccelCoordinate3DUINT x_ y_ z_, xdrs).
#[global] Instance format_VMAccelCoordinate3DUINT : Format xdr_VMAccelCoordinate3DUINT := {|
  wf := λ o, wf xdr_u_int (VMAccelCoordinate3DUINT_x o) ∧
    wf xdr_u_int (VMAccelCoordinate3DUINT_y o) ∧
    wf xdr_u_int (VMAccelCoordinate3DUINT_z o);
  enc := λ o, enc xdr_u_int (VMAccelCoordinate3DUINT_x o) ++
    enc xdr_u_int (VMAccelCoordinate3DUINT_y o) ++
    enc xdr_u_int (VMAccelCoordinate3DUINT_z o) |}.
#[global] Instance lawful_VMAccelCoordinate3DUINT : Lawful xdr_VMAccelCoordinate3DUINT.
Proof. solve_struct. Qed.

Definition coordinate_x : member VMAccelCoordinate4DUINT := Member VMAccelCoordinate4DUINT_x (λ v o,
  mkVMAccelCoordinate4DUINT v (VMAccelCoordinate4DUINT_y o) (VMAccelCoordinate4DUINT_z o)
  (VMAccelCoordinate4DUINT_w o)).
Definition coordinate_y : member VMAccelCoordinate4DUINT := Member VMAccelCoordinate4DUINT_y (λ v o,
  mkVMAccelCoordinate4DUINT (VMAccelCoordinate4DUINT_x o) v (VMAccelCoordinate4DUINT_z o)
  (VMAccelCoordinate4DUINT_w o)).
Definition coordinate_z : member VMAccelCoordinate4DUINT := Member VMAccelCoordinate4DUINT_z (λ v o,
  mkVMAccelCoordinate4DUINT (VMAccelCoordinate4DUINT_x o) (VMAccelCoordinate4DUINT_y o) v
  (VMAccelCoordinate4DUINT_w o)).
Definition coordinate_w : member VMAccelCoordinate4DUINT := Member VMAccelCoordinate4DUINT_w (λ v o,
  mkVMAccelCoordinate4DUINT (VMAccelCoordinate4DUINT_x o) (VMAccelCoordinate4DUINT_y o)
  (VMAccelCoordinate4DUINT_z o) v).

Definition xdr_VMAccelCoordinate4DUINT : filter VMAccelCoordinate4DUINT := λ objp xdrs,
  match x_op xdrs with
  | XDR_ENCODE =>
      xdr_encode_block 4
        [coordinate_x; coordinate_y; coordinate_z; coordinate_w]
        [coordinate_x; coordinate_y; coordinate_z; coordinate_w]
        objp xdrs
  | XDR_DECODE =>
      xdr_decode_block 4
        [coordinate_x; coordinate_y; coordinate_z; coordinate_w]
        [coordinate_x; coordinate_y; coordinate_z; coordinate_w]
        objp xdrs
  | XDR_FREE =>
      xdr_members
        [coordinate_x; coordinate_y; coordinate_z; coordinate_w]
        objp xdrs
  end.
#[global] Instance format_VMAccelCoordinate4DUINT : Format xdr_VMAccelCoordinate4DUINT := {|
  wf := λ o, Forall is_u32 [VMAccelCoordinate4DUINT_x o; VMAccelCoordinate4DUINT_y o;
      VMAccelCoordinate4DUINT_z o; VMAccelCoordinate4DUINT_w o];
  enc := λ o, enc_u_ints [VMAccelCoordinate4DUINT_x o; VMAccelCoordinate4DUINT_y o;
      VMAccelCoordinate4DUINT_z o; VMAccelCoordinate4DUINT_w o] |}.
#[global] Instance lawful_VMAccelCoordinate4DUINT : Lawful xdr_VMAccelCoordinate4DUINT.
Proof. solve_struct. Qed.

Definition surface_width : member VMAccelSurfaceDesc := Member VMAccelSurfaceDesc_width (λ v o,
  mkVMAccelSurfaceDesc (VMAccelSurfaceDesc_parentId o) (VMAccelSurfaceDesc_type o) v
  (VMAccelSurfaceDesc_height o) (VMAccelSurfaceDesc_depth o) (VMAccelSurfaceDesc_mipLevels o)
  (VMAccelSurfaceDesc_arraySize o) (VMAccelSurfaceDesc_samples o) (VMAccelSurfaceDesc_format o)
  (VMAccelSurfaceDesc_formatCaps o) (VMAccelSurfaceDesc_pool o) (VMAccelSurfaceDesc_usage o)
  (VMAccelSurfaceDesc_bindFlags o) (VMAccelSurfaceDesc_slicePitch o) (VMAccelSurfaceDesc_rowPitch o)).
Definition surface_height : member VMAccelSurfaceDesc := Member VMAccelSurfaceDesc_height (λ v o,
  mkVMAccelSurfaceDesc (VMAccelSurfaceDesc_parentId o) (VMAccelSurfaceDesc_type o)
  (VMAccelSurfaceDesc_width o) v (VMAccelSurfaceDesc_depth o) (VMAccelSurfaceDesc_mipLevels o)
  (VMAccelSurfaceDesc_arraySize o) (VMAccelSurfaceDesc_samples o) (VMAccelSurfaceDesc_format o)
  (VMAccelSurfaceDesc_formatCaps o) (VMAccelSurfaceDesc_pool o) (VMAccelSurfaceDesc_usage o)
  (VMAccelSurfaceDesc_bindFlags o) (VMAccelSurfaceDesc_slicePitch o) (VMAccelSurfaceDesc_rowPitch o)).
Definition surface_depth : member VMAccelSurfaceDesc := Member VMAccelSurfaceDesc_depth (λ v o,
  mkVMAccelSurfaceDesc (VMAccelSurfaceDesc_parentId o) (VMAccelSurfaceDesc_type o)
  (VMAccelSurfaceDesc_width o) (VMAccelSurfaceDesc_height o) v (VMAccelSurfaceDesc_mipLevels o)
  (VMAccelSurfaceDesc_arraySize o) (VMAccelSurfaceDesc_samples o) (VMAccelSurfaceDesc_format o)
  (VMAccelSurfaceDesc_formatCaps o) (VMAccelSurfaceDesc_pool o) (VMAccelSurfaceDesc_usage o)
  (VMAccelSurfaceDesc_bindFlags o) (VMAccelSurfaceDesc_slicePitch o) (VMAccelSurfaceDesc_rowPitch o)).
Definition surface_mipLevels : member VMAccelSurfaceDesc := Member VMAccelSurfaceDesc_mipLevels (λ v o,
  mkVMAccelSurfaceDesc (VMAccelSurfaceDesc_parentId o) (VMAccelSurfaceDesc_type o)
  (VMAccelSurfaceDesc_width o) (VMAccelSurfaceDesc_height o) (VMAccelSurfaceDesc_depth o) v
  (VMAccelSurfaceDesc_arraySize o) (VMAccelSurfaceDesc_samples o) (VMAccelSurfaceDesc_format o)
  (VMAccelSurfaceDesc_formatCaps o) (VMAccelSurfaceDesc_pool o) (VMAccelSurfaceDesc_usage o)
  (VMAccelSurfaceDesc_bindFlags o) (VMAccelSurfaceDesc_slicePitch o) (VMAccelSurfaceDesc_rowPitch o)).
Definition surface_arraySize : member VMAccelSurfaceDesc := Member VMAccelSurfaceDesc_arraySize (λ v o,
  mkVMAccelSurfaceDesc (VMAccelSurfaceDesc_parentId o) (VMAccelSurfaceDesc_type o)
  (VMAccelSurfaceDesc_width o) (VMAccelSurfaceDesc_height o) (VMAccelSurfaceDesc_depth o)
  (VMAccelSurfaceDesc_mipLevels o) v (VMAccelSurfaceDesc_samples o) (VMAccelSurfaceDesc_format o)
  (VMAccelSurfaceDesc_formatCaps o) (VMAccelSurfaceDesc_pool o) (VMAccelSurfaceDesc_usage o)
  (VMAccelSurfaceDesc_bindFlags o) (VMAccelSurfaceDesc_slicePitch o) (VMAccelSurfaceDesc_rowPitch o)).
Definition surface_samples : member VMAccelSurfaceDesc := Member VMAccelSurfaceDesc_samples (λ v o,
  mkVMAccelSurfaceDesc (VMAccelSurfaceDesc_parentId o) (VMAccelSurfaceDesc_type o)
  (VMAccelSurfaceDesc_width o) (VMAccelSurfaceDesc_height o) (VMAccelSurfaceDesc_depth o)
  (VMAccelSurfaceDesc_mipLevels o) (VMAccelSurfaceDesc_arraySize o) v (VMAccelSurfaceDesc_format o)
  (VMAccelSurfaceDesc_formatCaps o) (VMAccelSurfaceDesc_pool o) (VMAccelSurfaceDesc_usage o)
  (VMAccelSurfaceDesc_bindFlags o) (VMAccelSurfaceDesc_slicePitch o) (VMAccelSurfaceDesc_rowPitch o)).

Definition xdr_VMAccelSurfaceDesc : filter VMAccelSurfaceDesc := λ objp xdrs,
  match x_op xdrs with
  | XDR_ENCODE =>
      '(parentId_, xdrs) ← xdr_VMAccelId (VMAccelSurfaceDesc_parentId objp) xdrs;
      '(type_, xdrs) ← xdr_VMAccelSurfaceType (VMAccelSurfaceDesc_type objp) xdrs;
      '(block, xdrs) ← xdr_encode_block 6
        [surface_width; surface_height; surface_depth; surface_mipLevels; surface_arraySize;
         surface_samples]
        [surface_width; surface_height; surface_depth; surface_mipLevels; surface_arraySize;
         surface_samples]
        (mkVMAccelSurfaceDesc parentId_ type_ (VMAccelSurfaceDesc_width objp)
          (VMAccelSurfaceDesc_height objp) (VMAccelSurfaceDesc_depth objp)
          (VMAccelSurfaceDesc_mipLevels objp) (VMAccelSurfaceDesc_arraySize objp)
          (VMAccelSurfaceDesc_samples objp) (VMAccelSurfaceDesc_format objp)
          (VMAccelSurfaceDesc_formatCaps objp) (VMAccelSurfaceDesc_pool objp)
          (VMAccelSurfaceDesc_usage objp) (VMAccelSurfaceDesc_bindFlags objp)
          (VMAccelSurfaceDesc_slicePitch objp) (VMAccelSurfaceDesc_rowPitch objp)) xdrs;
      '(format_, xdrs) ← xdr_VMAccelSurfaceFormat (VMAccelSurfaceDesc_format objp) xdrs;
      '(formatCaps_, xdrs) ← xdr_VMAccelSurfaceFormatCaps (VMAccelSurfaceDesc_formatCaps objp) xdrs;
      '(pool_, xdrs) ← xdr_VMAccelSurfacePool (VMAccelSurfaceDesc_pool objp) xdrs;
      '(usage_, xdrs) ← xdr_VMAccelSurfaceUsage (VMAccelSurfaceDesc_usage objp) xdrs;
      '(bindFlags_, xdrs) ← xdr_VMAccelSurfaceBindFlags (VMAccelSurfaceDesc_bindFlags objp) xdrs;
      '(slicePitch_, xdrs) ← xdr_u_int (VMAccelSurfaceDesc_slicePitch objp) xdrs;
      '(rowPitch_, xdrs) ← xdr_u_int (VMAccelSurfaceDesc_rowPitch objp) xdrs;
      Some (mkVMAccelSurfaceDesc parentId_ type_
        (VMAccelSurfaceDesc_width block) (VMAccelSurfaceDesc_height block) (VMAccelSurfaceDesc_depth block)
        (VMAccelSurfaceDesc_mipLevels block) (VMAccelSurfaceDesc_arraySize block)
        (VMAccelSurfaceDesc_samples block) format_ formatCaps_ pool_ usage_ bindFlags_ slicePitch_
        rowPitch_, xdrs)
  | XDR_DECODE =>
      '(parentId_, xdrs) ← xdr_VMAccelId (VMAccelSurfaceDesc_parentId objp) xdrs;
      '(type_, xdrs) ← xdr_VMAccelSurfaceType (VMAccelSurfaceDesc_type objp) xdrs;
      '(block, xdrs) ← xdr_decode_block 6
        [surface_width; surface_height; surface_depth; surface_mipLevels; surface_arraySize;
         surface_samples]
        [surface_width; surface_height; surface_depth; surface_mipLevels; surface_arraySize;
         surface_samples]
        (mkVMAccelSurfaceDesc parentId_ type_ (VMAccelSurfaceDesc_width objp)
          (VMAccelSurfaceDesc_height objp) (VMAccelSurfaceDesc_depth objp)
          (VMAccelSurfaceDesc_mipLevels objp) (VMAccelSurfaceDesc_arraySize objp)
          (VMAccelSurfaceDesc_samples objp) (VMAccelSurfaceDesc_format objp)
          (VMAccelSurfaceDesc_formatCaps objp) (VMAccelSurfaceDesc_pool objp)
          (VMAccelSurfaceDesc_usage objp) (VMAccelSurfaceDesc_bindFlags objp)
          (VMAccelSurfaceDesc_slicePitch objp) (VMAccelSurfaceDesc_rowPitch objp)) xdrs;
      '(format_, xdrs) ← xdr_VMAccelSurfaceFormat (VMAccelSurfaceDesc_format objp) xdrs;
      '(formatCaps_, xdrs) ← xdr_VMAccelSurfaceFormatCaps (VMAccelSurfaceDesc_formatCaps objp) xdrs;
      '(pool_, xdrs) ← xdr_VMAccelSurfacePool (VMAccelSurfaceDesc_pool objp) xdrs;
      '(usage_, xdrs) ← xdr_VMAccelSurfaceUsage (VMAccelSurfaceDesc_usage objp) xdrs;
      '(bindFlags_, xdrs) ← xdr_VMAccelSurfaceBindFlags (VMAccelSurfaceDesc_bindFlags objp) xdrs;
      '(slicePitch_, xdrs) ← xdr_u_int (VMAccelSurfaceDesc_slicePitch objp) xdrs;
      '(rowPitch_, xdrs) ← xdr_u_int (VMAccelSurfaceDesc_rowPitch objp) xdrs;
      Some (mkVMAccelSurfaceDesc parentId_ type_
        (VMAccelSurfaceDesc_width block) (VMAccelSurfaceDesc_height block) (VMAccelSurfaceDesc_depth block)
        (VMAccelSurfaceDesc_mipLevels block) (VMAccelSurfaceDesc_arraySize block)
        (VMAccelSurfaceDesc_samples block) format_ formatCaps_ pool_ usage_ bindFlags_ slicePitch_
        rowPitch_, xdrs)
  | XDR_FREE =>
      '(parentId_, xdrs) ← xdr_VMAccelId (VMAccelSurfaceDesc_parentId objp) xdrs;
      '(type_, xdrs) ← xdr_VMAccelSurfaceType (VMAccelSurfaceDesc_type objp) xdrs;
      '(block, xdrs) ← xdr_members
        [surface_width; surface_height; surface_depth; surface_mipLevels; surface_arraySize;
         surface_samples]
        (mkVMAccelSurfaceDesc parentId_ type_ (VMAccelSurfaceDesc_width objp)
          (VMAccelSurfaceDesc_height objp) (VMAccelSurfaceDesc_depth objp)
          (VMAccelSurfaceDesc_mipLevels objp) (VMAccelSurfaceDesc_arraySize objp)
          (VMAccelSurfaceDesc_samples objp) (VMAccelSurfaceDesc_format objp)
          (VMAccelSurfaceDesc_formatCaps objp) (VMAccelSurfaceDesc_pool objp)
          (VMAccelSurfaceDesc_usage objp) (VMAccelSurfaceDesc_bindFlags objp)
          (VMAccelSurfaceDesc_slicePitch objp) (VMAccelSurfaceDesc_rowPitch objp)) xdrs;
      '(format_, xdrs) ← xdr_VMAccelSurfaceFormat (VMAccelSurfaceDesc_format objp) xdrs;
      '(formatCaps_, xdrs) ← xdr_VMAccelSurfaceFormatCaps (VMAccelSurfaceDesc_formatCaps objp) xdrs;
      '(pool_, xdrs) ← xdr_VMAccelSurfacePool (VMAccelSurfaceDesc_pool objp) xdrs;
      '(usage_, xdrs) ← xdr_VMAccelSurfaceUsage (VMAccelSurfaceDesc_usage objp) xdrs;
      '(bindFlags_, xdrs) ← xdr_VMAccelSurfaceBindFlags (VMAccelSurfaceDesc_bindFlags objp) xdrs;
      '(slicePitch_, xdrs) ← xdr_u_int (VMAccelSurfaceDesc_slicePitch objp) xdrs;
      '(rowPitch_, xdrs) ← xdr_u_int (VMAccelSurfaceDesc_rowPitch objp) xdrs;
      Some (mkVMAccelSurfaceDesc parentId_ type_
        (VMAccelSurfaceDesc_width block) (VMAccelSurfaceDesc_height block) (VMAccelSurfaceDesc_depth block)
        (VMAccelSurfaceDesc_mipLevels block) (VMAccelSurfaceDesc_arraySize block)
        (VMAccelSurfaceDesc_samples block) format_ formatCaps_ pool_ usage_ bindFlags_ slicePitch_
        rowPitch_, xdrs)
  end.
#[global] Instance format_VMAccelSurfaceDesc : Format xdr_VMAccelSurfaceDesc := {|
  wf := λ o, wf xdr_VMAccelId (VMAccelSurfaceDesc_parentId o) ∧
    wf xdr_VMAccelSurfaceType (VMAccelSurfaceDesc_type o) ∧
    Forall is_u32 [VMAccelSurfaceDesc_width o; VMAccelSurfaceDesc_height o; VMAccelSurfaceDesc_depth o;
        VMAccelSurfaceDesc_mipLevels o; VMAccelSurfaceDesc_arraySize o; VMAccelSurfaceDesc_samples o] ∧
    wf xdr_VMAccelSurfaceFormat (VMAccelSurfaceDesc_format o) ∧
    wf xdr_VMAccelSurfaceFormatCaps (VMAccelSurfaceDesc_formatCaps o) ∧
    wf xdr_VMAccelSurfacePool (VMAccelSurfaceDesc_pool o) ∧
    wf xdr_VMAccelSurfaceUsage (VMAccelSurfaceDesc_usage o) ∧
    wf xdr_VMAccelSurfaceBindFlags (VMAccelSurfaceDesc_bindFlags o) ∧
    wf xdr_u_int (VMAccelSurfaceDesc_slicePitch o) ∧
    wf xdr_u_int (VMAccelSurfaceDesc_rowPitch o);
  enc := λ o, enc xdr_VMAccelId (VMAccelSurfaceDesc_parentId o) ++
    enc xdr_VMAccelSurfaceType (VMAccelSurfaceDesc_type o) ++
    enc_u_ints [VMAccelSurfaceDesc_width o; VMAccelSurfaceDesc_height o; VMAccelSurfaceDesc_depth o;
        VMAccelSurfaceDesc_mipLevels o; VMAccelSurfaceDesc_arraySize o; VMAccelSurfaceDesc_samples o] ++
    enc xdr_VMAccelSurfaceFormat (VMAccelSurfaceDesc_format o) ++
    enc xdr_VMAccelSurfaceFormatCaps (VMAccelSurfaceDesc_formatCaps o) ++
    enc xdr_VMAccelSurfacePool (VMAccelSurfaceDesc_pool o) ++
    enc xdr_VMAccelSurfaceUsage (VMAccelSurfaceDesc_usage o) ++
    enc xdr_VMAccelSurfaceBindFlags (VMAccelSurfaceDesc_bindFlags o) ++
    enc xdr_u_int (VMAccelSurfaceDesc_slicePitch o) ++
    enc xdr_u_int (VMAccelSurfaceDesc_rowPitch o) |}.
#[global] Instance lawful_VMAccelSurfaceDesc : Lawful xdr_VMAccelSurfaceDesc.
Proof. solve_struct. Qed.

Definition xdr_VMAccelHandleType : filter Z := xdr_u_int.
#[global] Instance format_VMAccelHandleType : Format xdr_VMAccelHandleType := {| wf := wf xdr_u_int; enc
    := enc xdr_u_int |}.
#[global] Instance lawful_VMAccelHandleType : Lawful xdr_VMAccelHandleType.
Proof. exact (_ : Lawful xdr_u_int). Qed.

Definition xdr_VMAccelSurfaceId : filter VMAccelSurfaceId := λ objp xdrs,
  '(type_, xdrs) ← xdr_VMAccelSurfaceType (VMAccelSurfaceId_type objp) xdrs;
  '(handleType_, xdrs) ← xdr_VMAccelHandleType (VMAccelSurfaceId_handleType objp) xdrs;
  '(id_, xdrs) ← xdr_VMAccelId (VMAccelSurfaceId_id objp) xdrs;
  '(instance_, xdrs) ← xdr_u_int (VMAccelSurfaceId_instance objp) xdrs;
  '(offset_, xdrs) ← xdr_u_int (VMAccelSurfaceId_offset objp) xdrs;
  '(generation_, xdrs) ← xdr_u_int (VMAccelSurfaceId_generation objp) xdrs;
  Some (mkVMAccelSurfaceId type_ handleType_ id_ instance_ offset_ generation_, xdrs).
#[global] Instance format_VMAccelSurfaceId : Format xdr_VMAccelSurfaceId := {|
  wf := λ o, wf xdr_VMAccelSurfaceType (VMAccelSurfaceId_type o) ∧
    wf xdr_VMAccelHandleType (VMAccelSurfaceId_handleType o) ∧
    wf xdr_VMAccelId (VMAccelSurfaceId_id o) ∧
    wf xdr_u_int (VMAccelSurfaceId_instance o) ∧
    wf xdr_u_int (VMAccelSurfaceId_offset o) ∧
    wf xdr_u_int (VMAccelSurfaceId_generation o);
  enc := λ o, enc xdr_VMAccelSurfaceType (VMAccelSurfaceId_type o) ++
    enc xdr_VMAccelHandleType (VMAccelSurfaceId_handleType o) ++
    enc xdr_VMAccelId (VMAccelSurfaceId_id o) ++
    enc xdr_u_int (VMAccelSurfaceId_instance o) ++
    enc xdr_u_int (VMAccelSurfaceId_offset o) ++
    enc xdr_u_int (VMAccelSurfaceId_generation o) |}.
#[global] Instance lawful_VMAccelSurfaceId : Lawful xdr_VMAccelSurfaceId.
Proof. solve_struct. Qed.

Definition xdr_VMAccelSurfaceAllocateStatus : filter VMAccelSurfaceAllocateStatus := λ objp xdrs,
  '(status_, xdrs) ← xdr_VMAccelStatusCode (VMAccelSurfaceAllocateStatus_status objp) xdrs;
  '(surfaceDesc_, xdrs) ← xdr_VMAccelSurfaceDesc (VMAccelSurfaceAllocateStatus_surfaceDesc objp) xdrs;
  Some (mkVMAccelSurfaceAllocateStatus status_ surfaceDesc_, xdrs).
#[global] Instance format_VMAccelSurfaceAllocateStatus : Format xdr_VMAccelSurfaceAllocateStatus := {|
  wf := λ o, wf xdr_VMAccelStatusCode (VMAccelSurfaceAllocateStatus_status o) ∧
    wf xdr_VMAccelSurfaceDesc (VMAccelSurfaceAllocateStatus_surfaceDesc o);
  enc := λ o, enc xdr_VMAccelStatusCode (VMAccelSurfaceAllocateStatus_status o) ++
    enc xdr_VMAccelSurfaceDesc (VMAccelSurfaceAllocateStatus_surfaceDesc o) |}.
#[global] Instance lawful_VMAccelSurfaceAllocateStatus : Lawful xdr_VMAccelSurfaceAllocateStatus.
Proof. solve_struct. Qed.

Definition xdr_VMAccelQueueFlags : filter Z := xdr_u_int.
#[global] Instance format_VMAccelQueueFlags : Format xdr_VMAccelQueueFlags := {| wf := wf xdr_u_int; enc
    := enc xdr_u_int |}.
#[global] Instance lawful_VMAccelQueueFlags : Lawful xdr_VMAccelQueueFlags.
Proof. exact (_ : Lawful xdr_u_int). Qed.

Definition xdr_VMAccelQueueDesc : filter VMAccelQueueDesc := λ objp xdrs,
  '(flags_, xdrs) ← xdr_VMAccelQueueFlags (VMAccelQueueDesc_flags objp) xdrs;
  '(size_, xdrs) ← xdr_u_int (VMAccelQueueDesc_size objp) xdrs;
  Some (mkVMAccelQueueDesc flags_ size_, xdrs).
#[global] Instance format_VMAccelQueueDesc : Format xdr_VMAccelQueueDesc := {|
  wf := λ o, wf xdr_VMAccelQueueFlags (VMAccelQueueDesc_flags o) ∧
    wf xdr_u_int (VMAccelQueueDesc_size o);
  enc := λ o, enc xdr_VMAccelQueueFlags (VMAccelQueueDesc_flags o) ++
    enc xdr_u_int (VMAccelQueueDesc_size o) |}.
#[global] Instance lawful_VMAccelQueueDesc : Lawful xdr_VMAccelQueueDesc.
Proof. solve_struct. Qed.

Definition xdr_VMAccelQueueStatus : filter VMAccelQueueStatus := λ objp xdrs,
  '(status_, xdrs) ← xdr_VMAccelStatusCode (VMAccelQueueStatus_status objp) xdrs;
  Some (mkVMAccelQueueStatus status_, xdrs).
#[global] Instance format_VMAccelQueueStatus : Format xdr_VMAccelQueueStatus := {|
  wf := λ o, wf xdr_VMAccelStatusCode (VMAccelQueueStatus_status o);
  enc := λ o, enc xdr_VMAccelStatusCode (VMAccelQueueStatus_status o) |}.
#[global] Instance lawful_VMAccelQueueStatus : Lawful xdr_VMAccelQueueStatus.
Proof. solve_struct. Qed.

Definition xdr_VMAccelSurfaceRegion : filter VMAccelSurfaceRegion := λ objp xdrs,
  '(mipLevel_, xdrs) ← xdr_u_int (VMAccelSurfaceRegion_mipLevel objp) xdrs;
  '(coord_, xdrs) ← xdr_VMAccelCoordinate3DUINT (VMAccelSurfaceRegion_coord objp) xdrs;
  '(size_, xdrs) ← xdr_VMAccelCoordinate3DUINT (VMAccelSurfaceRegion_size objp) xdrs;
  Some (mkVMAccelSurfaceRegion mipLevel_ coord_ size_, xdrs).
#[global] Instance format_VMAccelSurfaceRegion : Format xdr_VMAccelSurfaceRegion := {|
  wf := λ o, wf xdr_u_int (VMAccelSurfaceRegion_mipLevel o) ∧
    wf xdr_VMAccelCoordinate3DUINT (VMAccelSurfaceRegion_coord o) ∧
    wf xdr_VMAccelCoordinate3DUINT (VMAccelSurfaceRegion_size o);
  enc := λ o, enc xdr_u_int (VMAccelSurfaceRegion_mipLevel o) ++
    enc xdr_VMAccelCoordinate3DUINT (VMAccelSurfaceRegion_coord o) ++
    enc xdr_VMAccelCoordinate3DUINT (VMAccelSurfaceRegion_size o) |}.
#[global] Instance lawful_VMAccelSurfaceRegion : Lawful xdr_VMAccelSurfaceRegion.
Proof. solve_struct. Qed.

Definition xdr_VMAccelSurfaceCopyOp : filter VMAccelSurfaceCopyOp := λ objp xdrs,
  '(dstRegion_, xdrs) ← xdr_VMAccelSurfaceRegion (VMAccelSurfaceCopyOp_dstRegion objp) xdrs;
  '(srcRegion_, xdrs) ← xdr_VMAccelSurfaceRegion (VMAccelSurfaceCopyOp_srcRegion objp) xdrs;
  Some (mkVMAccelSurfaceCopyOp dstRegion_ srcRegion_, xdrs).
#[global] Instance format_VMAccelSurfaceCopyOp : Format xdr_VMAccelSurfaceCopyOp := {|
  wf := λ o, wf xdr_VMAccelSurfaceRegion (VMAccelSurfaceCopyOp_dstRegion o) ∧
    wf xdr_VMAccelSurfaceRegion (VMAccelSurfaceCopyOp_srcRegion o);
  enc := λ o, enc xdr_VMAccelSurfaceRegion (VMAccelSurfaceCopyOp_dstRegion o) ++
    enc xdr_VMAccelSurfaceRegion (VMAccelSurfaceCopyOp_srcRegion o) |}.
#[global] Instance lawful_VMAccelSurfaceCopyOp : Lawful xdr_VMAccelSurfaceCopyOp.
Proof. solve_struct. Qed.

Definition xdr_VMAccelImageFillOp : filter VMAccelImageFillOp := λ objp xdrs,
  '(dstRegion_, xdrs) ← xdr_VMAccelSurfaceRegion (VMAccelImageFillOp_dstRegion objp) xdrs;
  '(d_, xdrs) ← xdr_VMAccelElementDouble4D (VMAccelImageFillOp_d objp) xdrs;
  '(f_, xdrs) ← xdr_VMAccelElementFloat4D (VMAccelImageFillOp_f objp) xdrs;
  '(u_, xdrs) ← xdr_VMAccelElementUINT4D (VMAccelImageFillOp_u objp) xdrs;
  Some (mkVMAccelImageFillOp dstRegion_ d_ f_ u_, xdrs).
#[global] Instance format_VMAccelImageFillOp : Format xdr_VMAccelImageFillOp := {|
  wf := λ o, wf xdr_VMAccelSurfaceRegion (VMAccelImageFillOp_dstRegion o) ∧
    wf xdr_VMAccelElementDouble4D (VMAccelImageFillOp_d o) ∧
    wf xdr_VMAccelElementFloat4D (VMAccelImageFillOp_f o) ∧
    wf xdr_VMAccelElementUINT4D (VMAccelImageFillOp_u o);
  enc := λ o, enc xdr_VMAccelSurfaceRegion (VMAccelImageFillOp_dstRegion o) ++
    enc xdr_VMAccelElementDouble4D (VMAccelImageFillOp_d o) ++
    enc xdr_VMAccelElementFloat4D (VMAccelImageFillOp_f o) ++
    enc xdr_VMAccelElementUINT4D (VMAccelImageFillOp_u o) |}.
#[global] Instance lawful_VMAccelImageFillOp : Lawful xdr_VMAccelImageFillOp.
Proof. solve_struct. Qed.

Definition xdr_VMAccelImageTransferOp : filter VMAccelImageTransferOp := λ objp xdrs,
  '(imgRegion_, xdrs) ← xdr_VMAccelSurfaceRegion (VMAccelImageTransferOp_imgRegion objp) xdrs;
  '(ptr_, xdrs) ← xdr_bytes UINT_MAX (VMAccelImageTransferOp_ptr objp) xdrs;
  '(callbacks_, xdrs) ← xdr_array UINT_MAX zero_VMAccelCallback xdr_VMAccelCallback
      (VMAccelImageTransferOp_callbacks objp) xdrs;
  Some (mkVMAccelImageTransferOp imgRegion_ ptr_ callbacks_, xdrs).
#[global] Instance format_VMAccelImageTransferOp : Format xdr_VMAccelImageTransferOp := {|
  wf := λ o, wf xdr_VMAccelSurfaceRegion (VMAccelImageTransferOp_imgRegion o) ∧
    wf (xdr_bytes UINT_MAX) (VMAccelImageTransferOp_ptr o) ∧
    wf (xdr_array UINT_MAX zero_VMAccelCallback xdr_VMAccelCallback) (VMAccelImageTransferOp_callbacks o);
  enc := λ o, enc xdr_VMAccelSurfaceRegion (VMAccelImageTransferOp_imgRegion o) ++
    enc (xdr_bytes UINT_MAX) (VMAccelImageTransferOp_ptr o) ++
    enc (xdr_array UINT_MAX zero_VMAccelCallback xdr_VMAccelCallback) (VMAccelImageTransferOp_callbacks o) |}.
#[global] Instance lawful_VMAccelImageTransferOp : Lawful xdr_VMAccelImageTransferOp.
Proof. solve_struct. Qed.

Definition xdr_VMAccelDownloadStatus : filter VMAccelDownloadStatus := λ objp xdrs,
  '(status_, xdrs) ← xdr_VMAccelStatusCode (VMAccelDownloadStatus_status objp) xdrs;
  '(fence_, xdrs) ← xdr_VMAccelId (VMAccelDownloadStatus_fence objp) xdrs;
  '(ptr_, xdrs) ← xdr_bytes UINT_MAX (VMAccelDownloadStatus_ptr objp) xdrs;
  Some (mkVMAccelDownloadStatus status_ fence_ ptr_, xdrs).
#[global] Instance format_VMAccelDownloadStatus : Format xdr_VMAccelDownloadStatus := {|
  wf := λ o, wf xdr_VMAccelStatusCode (VMAccelDownloadStatus_status o) ∧
    wf xdr_VMAccelId (VMAccelDownloadStatus_fence o) ∧
    wf (xdr_bytes UINT_MAX) (VMAccelDownloadStatus_ptr o);
  enc := λ o, enc xdr_VMAccelStatusCode (VMAccelDownloadStatus_status o) ++
    enc xdr_VMAccelId (VMAccelDownloadStatus_fence o) ++
    enc (xdr_bytes UINT_MAX) (VMAccelDownloadStatus_ptr o) |}.
#[global] Instance lawful_VMAccelDownloadStatus : Lawful xdr_VMAccelDownloadStatus.
Proof. solve_struct. Qed.

Definition xdr_VMAccelSurfaceMapOp : filter VMAccelSurfaceMapOp := λ objp xdrs,
  '(surf_, xdrs) ← xdr_VMAccelSurfaceId (VMAccelSurfaceMapOp_surf objp) xdrs;
  '(coord_, xdrs) ← xdr_VMAccelCoordinate3DUINT (VMAccelSurfaceMapOp_coord objp) xdrs;
  '(size_, xdrs) ← xdr_VMAccelCoordinate2DUINT (VMAccelSurfaceMapOp_size objp) xdrs;
  '(mapFlags_, xdrs) ← xdr_VMAccelSurfaceMapFlags (VMAccelSurfaceMapOp_mapFlags objp) xdrs;
  Some (mkVMAccelSurfaceMapOp surf_ coord_ size_ mapFlags_, xdrs).
#[global] Instance format_VMAccelSurfaceMapOp : Format xdr_VMAccelSurfaceMapOp := {|
  wf := λ o, wf xdr_VMAccelSurfaceId (VMAccelSurfaceMapOp_surf o) ∧
    wf xdr_VMAccelCoordinate3DUINT (VMAccelSurfaceMapOp_coord o) ∧
    wf xdr_VMAccelCoordinate2DUINT (VMAccelSurfaceMapOp_size o) ∧
    wf xdr_VMAccelSurfaceMapFlags (VMAccelSurfaceMapOp_mapFlags o);
  enc := λ o, enc xdr_VMAccelSurfaceId (VMAccelSurfaceMapOp_surf o) ++
    enc xdr_VMAccelCoordinate3DUINT (VMAccelSurfaceMapOp_coord o) ++
    enc xdr_VMAccelCoordinate2DUINT (VMAccelSurfaceMapOp_size o) ++
    enc xdr_VMAccelSurfaceMapFlags (VMAccelSurfaceMapOp_mapFlags o) |}.
#[global] Instance lawful_VMAccelSurfaceMapOp : Lawful xdr_VMAccelSurfaceMapOp.
Proof. solve_struct. Qed.

Definition xdr_VMAccelSurfaceUnmapOp : filter VMAccelSurfaceUnmapOp := λ objp xdrs,
  '(surf_, xdrs) ← xdr_VMAccelSurfaceId (VMAccelSurfaceUnmapOp_surf objp) xdrs;
  '(mapFlags_, xdrs) ← xdr_VMAccelSurfaceMapFlags (VMAccelSurfaceUnmapOp_mapFlags objp) xdrs;
  '(ptr_, xdrs) ← xdr_bytes UINT_MAX (VMAccelSurfaceUnmapOp_ptr objp) xdrs;
  Some (mkVMAccelSurfaceUnmapOp surf_ mapFlags_ ptr_, xdrs).
#[global] Instance format_VMAccelSurfaceUnmapOp : Format xdr_VMAccelSurfaceUnmapOp := {|
  wf := λ o, wf xdr_VMAccelSurfaceId (VMAccelSurfaceUnmapOp_surf o) ∧
    wf xdr_VMAccelSurfaceMapFlags (VMAccelSurfaceUnmapOp_mapFlags o) ∧
    wf (xdr_bytes UINT_MAX) (VMAccelSurfaceUnmapOp_ptr o);
  enc := λ o, enc xdr_VMAccelSurfaceId (VMAccelSurfaceUnmapOp_surf o) ++
    enc xdr_VMAccelSurfaceMapFlags (VMAccelSurfaceUnmapOp_mapFlags o) ++
    enc (xdr_bytes UINT_MAX) (VMAccelSurfaceUnmapOp_ptr o) |}.
#[global] Instance lawful_VMAccelSurfaceUnmapOp : Lawful xdr_VMAccelSurfaceUnmapOp.
Proof. solve_struct. Qed.

Definition xdr_VMAccelSurfaceMapStatus : filter VMAccelSurfaceMapStatus := λ objp xdrs,
  '(status_, xdrs) ← xdr_VMAccelStatusCode (VMAccelSurfaceMapStatus_status objp) xdrs;
  '(ptr_, xdrs) ← xdr_bytes UINT_MAX (VMAccelSurfaceMapStatus_ptr objp) xdrs;
  Some (mkVMAccelSurfaceMapStatus status_ ptr_, xdrs).
#[global] Instance format_VMAccelSurfaceMapStatus : Format xdr_VMAccelSurfaceMapStatus := {|
  wf := λ o, wf xdr_VMAccelStatusCode (VMAccelSurfaceMapStatus_status o) ∧
    wf (xdr_bytes UINT_MAX) (VMAccelSurfaceMapStatus_ptr o);
  enc := λ o, enc xdr_VMAccelStatusCode (VMAccelSurfaceMapStatus_status o) ++
    enc (xdr_bytes UINT_MAX) (VMAccelSurfaceMapStatus_ptr o) |}.
#[global] Instance lawful_VMAccelSurfaceMapStatus : Lawful xdr_VMAccelSurfaceMapStatus.
Proof. solve_struct. Qed.

Definition xdr_VMAccelComputeArgDesc : filter VMAccelComputeArgDesc := λ objp xdrs,
  '(index_, xdrs) ← xdr_u_int (VMAccelComputeArgDesc_index objp) xdrs;
  '(usage_, xdrs) ← xdr_VMAccelSurfaceUsage (VMAccelComputeArgDesc_usage objp) xdrs;
  '(surf_, xdrs) ← xdr_VMAccelSurfaceId (VMAccelComputeArgDesc_surf objp) xdrs;
  '(data_, xdrs) ← xdr_bytes UINT_MAX (VMAccelComputeArgDesc_data objp) xdrs;
  Some (mkVMAccelComputeArgDesc index_ usage_ surf_ data_, xdrs).
#[global] Instance format_VMAccelComputeArgDesc : Format xdr_VMAccelComputeArgDesc := {|
  wf := λ o, wf xdr_u_int (VMAccelComputeArgDesc_index o) ∧
    wf xdr_VMAccelSurfaceUsage (VMAccelComputeArgDesc_usage o) ∧
    wf xdr_VMAccelSurfaceId (VMAccelComputeArgDesc_surf o) ∧
    wf (xdr_bytes UINT_MAX) (VMAccelComputeArgDesc_data o);
  enc := λ o, enc xdr_u_int (VMAccelComputeArgDesc_index o) ++
    enc xdr_VMAccelSurfaceUsage (VMAccelComputeArgDesc_usage o) ++
    enc xdr_VMAccelSurfaceId (VMAccelComputeArgDesc_surf o) ++
    enc (xdr_bytes UINT_MAX) (VMAccelComputeArgDesc_data o) |}.
#[global] Instance lawful_VMAccelComputeArgDesc : Lawful xdr_VMAccelComputeArgDesc.
Proof. solve_struct. Qed.

Definition xdr_VMAccelComputeOp : filter VMAccelComputeOp := λ objp xdrs,
  '(kernelType_, xdrs) ← xdr_u_int (VMAccelComputeOp_kernelType objp) xdrs;
  '(kernelSource_, xdrs) ← xdr_bytes UINT_MAX (VMAccelComputeOp_kernelSource objp) xdrs;
  '(kernelBinary32_, xdrs) ← xdr_bytes UINT_MAX (VMAccelComputeOp_kernelBinary32 objp) xdrs;
  '(kernelBinary64_, xdrs) ← xdr_bytes UINT_MAX (VMAccelComputeOp_kernelBinary64 objp) xdrs;
  '(kernelName_, xdrs) ← xdr_bytes UINT_MAX (VMAccelComputeOp_kernelName objp) xdrs;
  '(dimension_, xdrs) ← xdr_u_int (VMAccelComputeOp_dimension objp) xdrs;
  '(globalWorkOffset_, xdrs) ← xdr_array UINT_MAX 0 xdr_u_int (VMAccelComputeOp_globalWorkOffset objp) xdrs;
  '(globalWorkSize_, xdrs) ← xdr_array UINT_MAX 0 xdr_u_int (VMAccelComputeOp_globalWorkSize objp) xdrs;
  '(localWorkSize_, xdrs) ← xdr_array UINT_MAX 0 xdr_u_int (VMAccelComputeOp_localWorkSize objp) xdrs;
  '(args_, xdrs) ← xdr_array UINT_MAX zero_VMAccelComputeArgDesc xdr_VMAccelComputeArgDesc
      (VMAccelComputeOp_args objp) xdrs;
  Some (mkVMAccelComputeOp kernelType_ kernelSource_ kernelBinary32_ kernelBinary64_ kernelName_
      dimension_ globalWorkOffset_ globalWorkSize_ localWorkSize_ args_, xdrs).
#[global] Instance format_VMAccelComputeOp : Format xdr_VMAccelComputeOp := {|
  wf := λ o, wf xdr_u_int (VMAccelComputeOp_kernelType o) ∧
    wf (xdr_bytes UINT_MAX) (VMAccelComputeOp_kernelSource o) ∧
    wf (xdr_bytes UINT_MAX) (VMAccelComputeOp_kernelBinary32 o) ∧
    wf (xdr_bytes UINT_MAX) (VMAccelComputeOp_kernelBinary64 o) ∧
    wf (xdr_bytes UINT_MAX) (VMAccelComputeOp_kernelName o) ∧
    wf xdr_u_int (VMAccelComputeOp_dimension o) ∧
    wf (xdr_array UINT_MAX 0 xdr_u_int) (VMAccelComputeOp_globalWorkOffset o) ∧
    wf (xdr_array UINT_MAX 0 xdr_u_int) (VMAccelComputeOp_globalWorkSize o) ∧
    wf (xdr_array UINT_MAX 0 xdr_u_int) (VMAccelComputeOp_localWorkSize o) ∧
    wf (xdr_array UINT_MAX zero_VMAccelComputeArgDesc xdr_VMAccelComputeArgDesc) (VMAccelComputeOp_args o);
  enc := λ o, enc xdr_u_int (VMAccelComputeOp_kernelType o) ++
    enc (xdr_bytes UINT_MAX) (VMAccelComputeOp_kernelSource o) ++
    enc (xdr_bytes UINT_MAX) (VMAccelComputeOp_kernelBinary32 o) ++
    enc (xdr_bytes UINT_MAX) (VMAccelComputeOp_kernelBinary64 o) ++
    enc (xdr_bytes UINT_MAX) (VMAccelComputeOp_kernelName o) ++
    enc xdr_u_int (VMAccelComputeOp_dimension o) ++
    enc (xdr_array UINT_MAX 0 xdr_u_int) (VMAccelComputeOp_globalWorkOffset o) ++
    enc (xdr_array UINT_MAX 0 xdr_u_int) (VMAccelComputeOp_globalWorkSize o) ++
    enc (xdr_array UINT_MAX 0 xdr_u_int) (VMAccelComputeOp_localWorkSize o) ++
    enc (xdr_array UINT_MAX zero_VMAccelComputeArgDesc xdr_VMAccelComputeArgDesc) (VMAccelComputeOp_args
        o) |}.
#[global] Instance lawful_VMAccelComputeOp : Lawful xdr_VMAccelComputeOp.
Proof. solve_struct. Qed.

Definition xdr_VMAccelComputeStatus : filter VMAccelComputeStatus := λ objp xdrs,
  '(status_, xdrs) ← xdr_VMAccelStatusCode (VMAccelComputeStatus_status objp) xdrs;
  '(outputs_, xdrs) ← xdr_array UINT_MAX zero_VMAccelComputeArgDesc xdr_VMAccelComputeArgDesc
      (VMAccelComputeStatus_outputs objp) xdrs;
  Some (mkVMAccelComputeStatus status_ outputs_, xdrs).
#[global] Instance format_VMAccelComputeStatus : Format xdr_VMAccelComputeStatus := {|
  wf := λ o, wf xdr_VMAccelStatusCode (VMAccelComputeStatus_status o) ∧
    wf (xdr_array UINT_MAX zero_VMAccelComputeArgDesc xdr_VMAccelComputeArgDesc)
        (VMAccelComputeStatus_outputs o);
  enc := λ o, enc xdr_VMAccelStatusCode (VMAccelComputeStatus_status o) ++
    enc (xdr_array UINT_MAX zero_VMAccelComputeArgDesc xdr_VMAccelComputeArgDesc)
        (VMAccelComputeStatus_outputs o) |}.
#[global] Instance lawful_VMAccelComputeStatus : Lawful xdr_VMAccelComputeStatus.
Proof. solve_struct. Qed.

Definition xdr_VMAccelReturnStatus : filter VMAccelReturnStatus := λ objp xdrs,
  '(errno, xdrs) ← xdr_int (VMAccelReturnStatus_errno objp) xdrs;
  if errno =? 0 then
    '(ret, xdrs) ← xdr_pointer zero_VMAccelStatus xdr_VMAccelStatus (VMAccelReturnStatus_ret objp) xdrs;
    Some (mkVMAccelReturnStatus errno ret, xdrs)
  else Some (mkVMAccelReturnStatus errno (VMAccelReturnStatus_ret objp), xdrs).
#[global] Instance format_VMAccelReturnStatus : Format xdr_VMAccelReturnStatus := {|
  wf := λ o, wf_return (xdr_pointer zero_VMAccelStatus xdr_VMAccelStatus) (VMAccelReturnStatus_errno o)
      (VMAccelReturnStatus_ret o);
  enc := λ o, enc_return (xdr_pointer zero_VMAccelStatus xdr_VMAccelStatus) (VMAccelReturnStatus_errno o)
      (VMAccelReturnStatus_ret o) |}.
#[global] Instance transmits_VMAccelReturnStatus : Transmits xdr_VMAccelReturnStatus.
Proof. solve_return. Qed.

Definition xdr_VMAccelAllocateReturnStatus : filter VMAccelAllocateReturnStatus := λ objp xdrs,
  '(errno, xdrs) ← xdr_int (VMAccelAllocateReturnStatus_errno objp) xdrs;
  if errno =? 0 then
    '(ret, xdrs) ← xdr_pointer zero_VMAccelAllocateStatus xdr_VMAccelAllocateStatus
        (VMAccelAllocateReturnStatus_ret objp) xdrs;
    Some (mkVMAccelAllocateReturnStatus errno ret, xdrs)
  else Some (mkVMAccelAllocateReturnStatus errno (VMAccelAllocateReturnStatus_ret objp), xdrs).
#[global] Instance format_VMAccelAllocateReturnStatus : Format xdr_VMAccelAllocateReturnStatus := {|
  wf := λ o, wf_return (xdr_pointer zero_VMAccelAllocateStatus xdr_VMAccelAllocateStatus)
      (VMAccelAllocateReturnStatus_errno o) (VMAccelAllocateReturnStatus_ret o);
  enc := λ o, enc_return (xdr_pointer zero_VMAccelAllocateStatus xdr_VMAccelAllocateStatus)
      (VMAccelAllocateReturnStatus_errno o) (VMAccelAllocateReturnStatus_ret o) |}.
#[global] Instance transmits_VMAccelAllocateReturnStatus : Transmits xdr_VMAccelAllocateReturnStatus.
Proof. solve_return. Qed.

Definition xdr_VMAccelResourceAllocateReturnStatus : filter VMAccelResourceAllocateReturnStatus := λ objp
    xdrs,
  '(errno, xdrs) ← xdr_int (VMAccelResourceAllocateReturnStatus_errno objp) xdrs;
  if errno =? 0 then
    '(ret, xdrs) ← xdr_pointer zero_VMAccelResourceAllocateStatus xdr_VMAccelResourceAllocateStatus
        (VMAccelResourceAllocateReturnStatus_ret objp) xdrs;
    Some (mkVMAccelResourceAllocateReturnStatus errno ret, xdrs)
  else Some (mkVMAccelResourceAllocateReturnStatus errno (VMAccelResourceAllocateReturnStatus_ret objp),
      xdrs).
#[global] Instance format_VMAccelResourceAllocateReturnStatus : Format
    xdr_VMAccelResourceAllocateReturnStatus := {|
  wf := λ o, wf_return (xdr_pointer zero_VMAccelResourceAllocateStatus xdr_VMAccelResourceAllocateStatus)
      (VMAccelResourceAllocateReturnStatus_errno o) (VMAccelResourceAllocateReturnStatus_ret o);
  enc := λ o, enc_return (xdr_pointer zero_VMAccelResourceAllocateStatus
      xdr_VMAccelResourceAllocateStatus) (VMAccelResourceAllocateReturnStatus_errno o)
      (VMAccelResourceAllocateReturnStatus_ret o) |}.
#[global] Instance transmits_VMAccelResourceAllocateReturnStatus : Transmits
    xdr_VMAccelResourceAllocateReturnStatus.
Proof. solve_return. Qed.

Definition xdr_VMAccelRegisterReturnStatus : filter VMAccelRegisterReturnStatus := λ objp xdrs,
  '(errno, xdrs) ← xdr_int (VMAccelRegisterReturnStatus_errno objp) xdrs;
  if errno =? 0 then
    '(ret, xdrs) ← xdr_pointer zero_VMAccelRegisterStatus xdr_VMAccelRegisterStatus
        (VMAccelRegisterReturnStatus_ret objp) xdrs;
    Some (mkVMAccelRegisterReturnStatus errno ret, xdrs)
  else Some (mkVMAccelRegisterReturnStatus errno (VMAccelRegisterReturnStatus_ret objp), xdrs).
#[global] Instance format_VMAccelRegisterReturnStatus : Format xdr_VMAccelRegisterReturnStatus := {|
  wf := λ o, wf_return (xdr_pointer zero_VMAccelRegisterStatus xdr_VMAccelRegisterStatus)
      (VMAccelRegisterReturnStatus_errno o) (VMAccelRegisterReturnStatus_ret o);
  enc := λ o, enc_return (xdr_pointer zero_VMAccelRegisterStatus xdr_VMAccelRegisterStatus)
      (VMAccelRegisterReturnStatus_errno o) (VMAccelRegisterReturnStatus_ret o) |}.
#[global] Instance transmits_VMAccelRegisterReturnStatus : Transmits xdr_VMAccelRegisterReturnStatus.
Proof. solve_return. Qed.

Definition xdr_VMAccelQueueReturnStatus : filter VMAccelQueueReturnStatus := λ objp xdrs,
  '(errno, xdrs) ← xdr_int (VMAccelQueueReturnStatus_errno objp) xdrs;
  if errno =? 0 then
    '(ret, xdrs) ← xdr_pointer zero_VMAccelQueueStatus xdr_VMAccelQueueStatus
        (VMAccelQueueReturnStatus_ret objp) xdrs;
    Some (mkVMAccelQueueReturnStatus errno ret, xdrs)
  else Some (mkVMAccelQueueReturnStatus errno (VMAccelQueueReturnStatus_ret objp), xdrs).
#[global] Instance format_VMAccelQueueReturnStatus : Format xdr_VMAccelQueueReturnStatus := {|
  wf := λ o, wf_return (xdr_pointer zero_VMAccelQueueStatus xdr_VMAccelQueueStatus)
      (VMAccelQueueReturnStatus_errno o) (VMAccelQueueReturnStatus_ret o);
  enc := λ o, enc_return (xdr_pointer zero_VMAccelQueueStatus xdr_VMAccelQueueStatus)
      (VMAccelQueueReturnStatus_errno o) (VMAccelQueueReturnStatus_ret o) |}.
#[global] Instance transmits_VMAccelQueueReturnStatus : Transmits xdr_VMAccelQueueReturnStatus.
Proof. solve_return. Qed.

Definition xdr_VMAccelSurfaceAllocateReturnStatus : filter VMAccelSurfaceAllocateReturnStatus := λ objp xdrs,
  '(errno, xdrs) ← xdr_int (VMAccelSurfaceAllocateReturnStatus_errno objp) xdrs;
  if errno =? 0 then
    '(ret, xdrs) ← xdr_pointer zero_VMAccelSurfaceAllocateStatus xdr_VMAccelSurfaceAllocateStatus
        (VMAccelSurfaceAllocateReturnStatus_ret objp) xdrs;
    Some (mkVMAccelSurfaceAllocateReturnStatus errno ret, xdrs)
  else Some (mkVMAccelSurfaceAllocateReturnStatus errno (VMAccelSurfaceAllocateReturnStatus_ret objp), xdrs).
#[global] Instance format_VMAccelSurfaceAllocateReturnStatus : Format
    xdr_VMAccelSurfaceAllocateReturnStatus := {|
  wf := λ o, wf_return (xdr_pointer zero_VMAccelSurfaceAllocateStatus xdr_VMAccelSurfaceAllocateStatus)
      (VMAccelSurfaceAllocateReturnStatus_errno o) (VMAccelSurfaceAllocateReturnStatus_ret o);
  enc := λ o, enc_return (xdr_pointer zero_VMAccelSurfaceAllocateStatus xdr_VMAccelSurfaceAllocateStatus)
      (VMAccelSurfaceAllocateReturnStatus_errno o) (VMAccelSurfaceAllocateReturnStatus_ret o) |}.
#[global] Instance transmits_VMAccelSurfaceAllocateReturnStatus : Transmits
    xdr_VMAccelSurfaceAllocateReturnStatus.
Proof. solve_return. Qed.

Definition xdr_VMAccelDownloadReturnStatus : filter VMAccelDownloadReturnStatus := λ objp xdrs,
  '(errno, xdrs) ← xdr_int (VMAccelDownloadReturnStatus_errno objp) xdrs;
  if errno =? 0 then
    '(ret, xdrs) ← xdr_pointer zero_VMAccelDownloadStatus xdr_VMAccelDownloadStatus
        (VMAccelDownloadReturnStatus_ret objp) xdrs;
    Some (mkVMAccelDownloadReturnStatus errno ret, xdrs)
  else Some (mkVMAccelDownloadReturnStatus errno (VMAccelDownloadReturnStatus_ret objp), xdrs).
#[global] Instance format_VMAccelDownloadReturnStatus : Format xdr_VMAccelDownloadReturnStatus := {|
  wf := λ o, wf_return (xdr_pointer zero_VMAccelDownloadStatus xdr_VMAccelDownloadStatus)
      (VMAccelDownloadReturnStatus_errno o) (VMAccelDownloadReturnStatus_ret o);
  enc := λ o, enc_return (xdr_pointer zero_VMAccelDownloadStatus xdr_VMAccelDownloadStatus)
      (VMAccelDownloadReturnStatus_errno o) (VMAccelDownloadReturnStatus_ret o) |}.
#[global] Instance transmits_VMAccelDownloadReturnStatus : Transmits xdr_VMAccelDownloadReturnStatus.
Proof. solve_return. Qed.

Definition xdr_VMAccelSurfaceMapReturnStatus : filter VMAccelSurfaceMapReturnStatus := λ objp xdrs,
  '(errno, xdrs) ← xdr_int (VMAccelSurfaceMapReturnStatus_errno objp) xdrs;
  if errno =? 0 then
    '(ret, xdrs) ← xdr_pointer zero_VMAccelSurfaceMapStatus xdr_VMAccelSurfaceMapStatus
        (VMAccelSurfaceMapReturnStatus_ret objp) xdrs;
    Some (mkVMAccelSurfaceMapReturnStatus errno ret, xdrs)
  else Some (mkVMAccelSurfaceMapReturnStatus errno (VMAccelSurfaceMapReturnStatus_ret objp), xdrs).
#[global] Instance format_VMAccelSurfaceMapReturnStatus : Format xdr_VMAccelSurfaceMapReturnStatus := {|
  wf := λ o, wf_return (xdr_pointer zero_VMAccelSurfaceMapStatus xdr_VMAccelSurfaceMapStatus)
      (VMAccelSurfaceMapReturnStatus_errno o) (VMAccelSurfaceMapReturnStatus_ret o);
  enc := λ o, enc_return (xdr_pointer zero_VMAccelSurfaceMapStatus xdr_VMAccelSurfaceMapStatus)
      (VMAccelSurfaceMapReturnStatus_errno o) (VMAccelSurfaceMapReturnStatus_ret o) |}.
#[global] Instance transmits_VMAccelSurfaceMapReturnStatus : Transmits xdr_VMAccelSurfaceMapReturnStatus.
Proof. solve_return. Qed.

Definition xdr_VMAccelComputeReturnStatus : filter VMAccelComputeReturnStatus := λ objp xdrs,
  '(errno, xdrs) ← xdr_int (VMAccelComputeReturnStatus_errno objp) xdrs;
  if errno =? 0 then
    '(ret, xdrs) ← xdr_pointer zero_VMAccelComputeStatus xdr_VMAccelComputeStatus
        (VMAccelComputeReturnStatus_ret objp) xdrs;
    Some (mkVMAccelComputeReturnStatus errno ret, xdrs)
  else Some (mkVMAccelComputeReturnStatus errno (VMAccelComputeReturnStatus_ret objp), xdrs).
#[global] Instance format_VMAccelComputeReturnStatus : Format xdr_VMAccelComputeReturnStatus := {|
  wf := λ o, wf_return (xdr_pointer zero_VMAccelComputeStatus xdr_VMAccelComputeStatus)
      (VMAccelComputeReturnStatus_errno o) (VMAccelComputeReturnStatus_ret o);
  enc := λ o, enc_return (xdr_pointer zero_VMAccelComputeStatus xdr_VMAccelComputeStatus)
      (VMAccelComputeReturnStatus_errno o) (VMAccelComputeReturnStatus_ret o) |}.
#[global] Instance transmits_VMAccelComputeReturnStatus : Transmits xdr_VMAccelComputeReturnStatus.
Proof. solve_return. Qed.

End VMAccel.
