(* ===== verification/XdrVMCL.v ===== *)
(** * Generated filters of the vmcl protocol

    accelerators/vmcl/src/vmcl_rpc_xdr.c, as in [XdrVMAccel]. *)

From S2P Require Import Prelude XdrRuntime RpcTypes XdrVMAccel.

Section VMCL.
Context `{XdrLaws}.

Definition xdr_VMCLCaps : filter Z := xdr_u_int.
#[global] Instance format_VMCLCaps : Format xdr_VMCLCaps := {| wf := wf xdr_u_int; enc := enc xdr_u_int |}.
#[global] Instance lawful_VMCLCaps : Lawful xdr_VMCLCaps.
Proof. exact (_ : Lawful xdr_u_int). Qed.

Definition xdr_VMCLKernelLanguage : filter Z := xdr_u_int.
#[global] Instance format_VMCLKernelLanguage : Format xdr_VMCLKernelLanguage := {| wf := wf xdr_u_int;
    enc := enc xdr_u_int |}.
#[global] Instance lawful_VMCLKernelLanguage : Lawful xdr_VMCLKernelLanguage.
Proof. exact (_ : Lawful xdr_u_int). Qed.

Definition xdr_VMCLContextId : filter Z := xdr_VMAccelId.
#[global] Instance format_VMCLContextId : Format xdr_VMCLContextId := {| wf := wf xdr_VMAccelId; enc :=
    enc xdr_VMAccelId |}.
#[global] Instance lawful_VMCLContextId : Lawful xdr_VMCLContextId.
Proof. exact (_ : Lawful xdr_VMAccelId). Qed.

Definition xdr_VMCLContextAllocateDesc : filter VMCLContextAllocateDesc := λ objp xdrs,
  '(accelId_, xdrs) ← xdr_VMAccelId (VMCLContextAllocateDesc_accelId objp) xdrs;
  '(clientId_, xdrs) ← xdr_VMCLContextId (VMCLContextAllocateDesc_clientId objp) xdrs;
  '(selectionMask_, xdrs) ← xdr_VMAccelSelectionMask (VMCLContextAllocateDesc_selectionMask objp) xdrs;
  '(numSubDevices_, xdrs) ← xdr_u_int (VMCLContextAllocateDesc_numSubDevices objp) xdrs;
  '(requiredCaps_, xdrs) ← xdr_VMCLCaps (VMCLContextAllocateDesc_requiredCaps objp) xdrs;
  Some (mkVMCLContextAllocateDesc accelId_ clientId_ selectionMask_ numSubDevices_ requiredCaps_, xdrs).
#[global] Instance format_VMCLContextAllocateDesc : Format xdr_VMCLContextAllocateDesc := {|
  wf := λ o, wf xdr_VMAccelId (VMCLContextAllocateDesc_accelId o) ∧
    wf xdr_VMCLContextId (VMCLContextAllocateDesc_clientId o) ∧
    wf xdr_VMAccelSelectionMask (VMCLContextAllocateDesc_selectionMask o) ∧
    wf xdr_u_int (VMCLContextAllocateDesc_numSubDevices o) ∧
    wf xdr_VMCLCaps (VMCLContextAllocateDesc_requiredCaps o);
  enc := λ o, enc xdr_VMAccelId (VMCLContextAllocateDesc_accelId o) ++
    enc xdr_VMCLContextId (VMCLContextAllocateDesc_clientId o) ++
    enc xdr_VMAccelSelectionMask (VMCLContextAllocateDesc_selectionMask o) ++
    enc xdr_u_int (VMCLContextAllocateDesc_numSubDevices o) ++
    enc xdr_VMCLCaps (VMCLContextAllocateDesc_requiredCaps o) |}.
#[global] Instance lawful_VMCLContextAllocateDesc : Lawful xdr_VMCLContextAllocateDesc.
Proof. solve_struct. Qed.

Definition xdr_VMCLContextAllocateStatus : filter VMCLContextAllocateStatus := λ objp xdrs,
  '(status_, xdrs) ← xdr_VMAccelStatusCode (VMCLContextAllocateStatus_status objp) xdrs;
  '(caps_, xdrs) ← xdr_VMCLCaps (VMCLContextAllocateStatus_caps objp) xdrs;
  Some (mkVMCLContextAllocateStatus status_ caps_, xdrs).
#[global] Instance format_VMCLContextAllocateStatus : Format xdr_VMCLContextAllocateStatus := {|
  wf := λ o, wf xdr_VMAccelStatusCode (VMCLContextAllocateStatus_status o) ∧
    wf xdr_VMCLCaps (VMCLContextAllocateStatus_caps o);
  enc := λ o, enc xdr_VMAccelStatusCode (VMCLContextAllocateStatus_status o) ++
    enc xdr_VMCLCaps (VMCLContextAllocateStatus_caps o) |}.
#[global] Instance lawful_VMCLContextAllocateStatus : Lawful xdr_VMCLContextAllocateStatus.
Proof. solve_struct. Qed.

Definition xdr_VMCLSurfaceId : filter VMCLSurfaceId := λ objp xdrs,
  '(cid_, xdrs) ← xdr_VMCLContextId (VMCLSurfaceId_cid objp) xdrs;
  '(accel_, xdrs) ← xdr_VMAccelSurfaceId (VMCLSurfaceId_accel objp) xdrs;
  Some (mkVMCLSurfaceId cid_ accel_, xdrs).
#[global] Instance format_VMCLSurfaceId : Format xdr_VMCLSurfaceId := {|
  wf := λ o, wf xdr_VMCLContextId (VMCLSurfaceId_cid o) ∧
    wf xdr_VMAccelSurfaceId (VMCLSurfaceId_accel o);
  enc := λ o, enc xdr_VMCLContextId (VMCLSurfaceId_cid o) ++
    enc xdr_VMAccelSurfaceId (VMCLSurfaceId_accel o) |}.
#[global] Instance lawful_VMCLSurfaceId : Lawful xdr_VMCLSurfaceId.
Proof. solve_struct. Qed.

Definition xdr_VMCLSurfaceAllocateDesc : filter VMCLSurfaceAllocateDesc := λ objp xdrs,
  '(client_, xdrs) ← xdr_VMCLSurfaceId (VMCLSurfaceAllocateDesc_client objp) xdrs;
  '(desc_, xdrs) ← xdr_VMAccelSurfaceDesc (VMCLSurfaceAllocateDesc_desc objp) xdrs;
  Some (mkVMCLSurfaceAllocateDesc client_ desc_, xdrs).
#[global] Instance format_VMCLSurfaceAllocateDesc : Format xdr_VMCLSurfaceAllocateDesc := {|
  wf := λ o, wf xdr_VMCLSurfaceId (VMCLSurfaceAllocateDesc_client o) ∧
    wf xdr_VMAccelSurfaceDesc (VMCLSurfaceAllocateDesc_desc o);
  enc := λ o, enc xdr_VMCLSurfaceId (VMCLSurfaceAllocateDesc_client o) ++
    enc xdr_VMAccelSurfaceDesc (VMCLSurfaceAllocateDesc_desc o) |}.
#[global] Instance lawful_VMCLSurfaceAllocateDesc : Lawful xdr_VMCLSurfaceAllocateDesc.
Proof. solve_struct. Qed.

Definition xdr_VMCLQueueId : filter VMCLQueueId := λ objp xdrs,
  '(cid_, xdrs) ← xdr_VMCLContextId (VMCLQueueId_cid objp) xdrs;
  '(id_, xdrs) ← xdr_VMAccelId (VMCLQueueId_id objp) xdrs;
  Some (mkVMCLQueueId cid_ id_, xdrs).
#[global] Instance format_VMCLQueueId : Format xdr_VMCLQueueId := {|
  wf := λ o, wf xdr_VMCLContextId (VMCLQueueId_cid o) ∧
    wf xdr_VMAccelId (VMCLQueueId_id o);
  enc := λ o, enc xdr_VMCLContextId (VMCLQueueId_cid o) ++
    enc xdr_VMAccelId (VMCLQueueId_id o) |}.
#[global] Instance lawful_VMCLQueueId : Lawful xdr_VMCLQueueId.
Proof. solve_struct. Qed.

Definition xdr_VMCLQueueAllocateDesc : filter VMCLQueueAllocateDesc := λ objp xdrs,
  '(client_, xdrs) ← xdr_VMCLQueueId (VMCLQueueAllocateDesc_client objp) xdrs;
  '(subDevice_, xdrs) ← xdr_u_int (VMCLQueueAllocateDesc_subDevice objp) xdrs;
  '(desc_, xdrs) ← xdr_VMAccelQueueDesc (VMCLQueueAllocateDesc_desc objp) xdrs;
  Some (mkVMCLQueueAllocateDesc client_ subDevice_ desc_, xdrs).
#[global] Instance format_VMCLQueueAllocateDesc : Format xdr_VMCLQueueAllocateDesc := {|
  wf := λ o, wf xdr_VMCLQueueId (VMCLQueueAllocateDesc_client o) ∧
    wf xdr_u_int (VMCLQueueAllocateDesc_subDevice o) ∧
    wf xdr_VMAccelQueueDesc (VMCLQueueAllocateDesc_desc o);
  enc := λ o, enc xdr_VMCLQueueId (VMCLQueueAllocateDesc_client o) ++
    enc xdr_u_int (VMCLQueueAllocateDesc_subDevice o) ++
    enc xdr_VMAccelQueueDesc (VMCLQueueAllocateDesc_desc o) |}.
#[global] Instance lawful_VMCLQueueAllocateDesc : Lawful xdr_VMCLQueueAllocateDesc.
Proof. solve_struct. Qed.

Definition xdr_VMCLQueueFlushOp : filter VMCLQueueFlushOp := λ objp xdrs,
  '(queue_, xdrs) ← xdr_VMCLQueueId (VMCLQueueFlushOp_queue objp) xdrs;
  Some (mkVMCLQueueFlushOp queue_, xdrs).
#[global] Instance format_VMCLQueueFlushOp : Format xdr_VMCLQueueFlushOp := {|
  wf := λ o, wf xdr_VMCLQueueId (VMCLQueueFlushOp_queue o);
  enc := λ o, enc xdr_VMCLQueueId (VMCLQueueFlushOp_queue o) |}.
#[global] Instance lawful_VMCLQueueFlushOp : Lawful xdr_VMCLQueueFlushOp.
Proof. solve_struct. Qed.

Definition xdr_VMCLSurfaceCopyOp : filter VMCLSurfaceCopyOp := λ objp xdrs,
  '(queue_, xdrs) ← xdr_VMCLQueueId (VMCLSurfaceCopyOp_queue objp) xdrs;
  '(dst_, xdrs) ← xdr_VMCLSurfaceId (VMCLSurfaceCopyOp_dst objp) xdrs;
  '(src_, xdrs) ← xdr_VMCLSurfaceId (VMCLSurfaceCopyOp_src objp) xdrs;
  '(op_, xdrs) ← xdr_VMAccelSurfaceCopyOp (VMCLSurfaceCopyOp_op objp) xdrs;
  Some (mkVMCLSurfaceCopyOp queue_ dst_ src_ op_, xdrs).
#[global] Instance format_VMCLSurfaceCopyOp : Format xdr_VMCLSurfaceCopyOp := {|
  wf := λ o, wf xdr_VMCLQueueId (VMCLSurfaceCopyOp_queue o) ∧
    wf xdr_VMCLSurfaceId (VMCLSurfaceCopyOp_dst o) ∧
    wf xdr_VMCLSurfaceId (VMCLSurfaceCopyOp_src o) ∧
    wf xdr_VMAccelSurfaceCopyOp (VMCLSurfaceCopyOp_op o);
  enc := λ o, enc xdr_VMCLQueueId (VMCLSurfaceCopyOp_queue o) ++
    enc xdr_VMCLSurfaceId (VMCLSurfaceCopyOp_dst o) ++
    enc xdr_VMCLSurfaceId (VMCLSurfaceCopyOp_src o) ++
    enc xdr_VMAccelSurfaceCopyOp (VMCLSurfaceCopyOp_op o) |}.
#[global] Instance lawful_VMCLSurfaceCopyOp : Lawful xdr_VMCLSurfaceCopyOp.
Proof. solve_struct. Qed.

Definition xdr_VMCLImageFillOp : filter VMCLImageFillOp := λ objp xdrs,
  '(queue_, xdrs) ← xdr_VMCLQueueId (VMCLImageFillOp_queue objp) xdrs;
  '(img_, xdrs) ← xdr_VMCLSurfaceId (VMCLImageFillOp_img objp) xdrs;
  '(op_, xdrs) ← xdr_VMAccelImageFillOp (VMCLImageFillOp_op objp) xdrs;
  Some (mkVMCLImageFillOp queue_ img_ op_, xdrs).
#[global] Instance format_VMCLImageFillOp : Format xdr_VMCLImageFillOp := {|
  wf := λ o, wf xdr_VMCLQueueId (VMCLImageFillOp_queue o) ∧
    wf xdr_VMCLSurfaceId (VMCLImageFillOp_img o) ∧
    wf xdr_VMAccelImageFillOp (VMCLImageFillOp_op o);
  enc := λ o, enc xdr_VMCLQueueId (VMCLImageFillOp_queue o) ++
    enc xdr_VMCLSurfaceId (VMCLImageFillOp_img o) ++
    enc xdr_VMAccelImageFillOp (VMCLImageFillOp_op o) |}.
#[global] Instance lawful_VMCLImageFillOp : Lawful xdr_VMCLImageFillOp.
Proof. solve_struct. Qed.

Definition xdr_VMCLImageUploadOp : filter VMCLImageUploadOp := λ objp xdrs,
  '(queue_, xdrs) ← xdr_VMCLQueueId (VMCLImageUploadOp_queue objp) xdrs;
  '(img_, xdrs) ← xdr_VMCLSurfaceId (VMCLImageUploadOp_img objp) xdrs;
  '(op_, xdrs) ← xdr_VMAccelImageTransferOp (VMCLImageUploadOp_op objp) xdrs;
  '(mode_, xdrs) ← xdr_VMAccelSurfaceWriteConsistency (VMCLImageUploadOp_mode objp) xdrs;
  Some (mkVMCLImageUploadOp queue_ img_ op_ mode_, xdrs).
#[global] Instance format_VMCLImageUploadOp : Format xdr_VMCLImageUploadOp := {|
  wf := λ o, wf xdr_VMCLQueueId (VMCLImageUploadOp_queue o) ∧
    wf xdr_VMCLSurfaceId (VMCLImageUploadOp_img o) ∧
    wf xdr_VMAccelImageTransferOp (VMCLImageUploadOp_op o) ∧
    wf xdr_VMAccelSurfaceWriteConsistency (VMCLImageUploadOp_mode o);
  enc := λ o, enc xdr_VMCLQueueId (VMCLImageUploadOp_queue o) ++
    enc xdr_VMCLSurfaceId (VMCLImageUploadOp_img o) ++
    enc xdr_VMAccelImageTransferOp (VMCLImageUploadOp_op o) ++
    enc xdr_VMAccelSurfaceWriteConsistency (VMCLImageUploadOp_mode o) |}.
#[global] Instance lawful_VMCLImageUploadOp : Lawful xdr_VMCLImageUploadOp.
Proof. solve_struct. Qed.

Definition xdr_VMCLImageDownloadOp : filter VMCLImageDownloadOp := λ objp xdrs,
  '(queue_, xdrs) ← xdr_VMCLQueueId (VMCLImageDownloadOp_queue objp) xdrs;
  '(img_, xdrs) ← xdr_VMCLSurfaceId (VMCLImageDownloadOp_img objp) xdrs;
  '(op_, xdrs) ← xdr_VMAccelImageTransferOp (VMCLImageDownloadOp_op objp) xdrs;
  '(mode_, xdrs) ← xdr_VMAccelSurfaceReadConsistency (VMCLImageDownloadOp_mode objp) xdrs;
  Some (mkVMCLImageDownloadOp queue_ img_ op_ mode_, xdrs).
#[global] Instance format_VMCLImageDownloadOp : Format xdr_VMCLImageDownloadOp := {|
  wf := λ o, wf xdr_VMCLQueueId (VMCLImageDownloadOp_queue o) ∧
    wf xdr_VMCLSurfaceId (VMCLImageDownloadOp_img o) ∧
    wf xdr_VMAccelImageTransferOp (VMCLImageDownloadOp_op o) ∧
    wf xdr_VMAccelSurfaceReadConsistency (VMCLImageDownloadOp_mode o);
  enc := λ o, enc xdr_VMCLQueueId (VMCLImageDownloadOp_queue o) ++
    enc xdr_VMCLSurfaceId (VMCLImageDownloadOp_img o) ++
    enc xdr_VMAccelImageTransferOp (VMCLImageDownloadOp_op o) ++
    enc xdr_VMAccelSurfaceReadConsistency (VMCLImageDownloadOp_mode o) |}.
#[global] Instance lawful_VMCLImageDownloadOp : Lawful xdr_VMCLImageDownloadOp.
Proof. solve_struct. Qed.

Definition xdr_VMCLSurfaceMapOp : filter VMCLSurfaceMapOp := λ objp xdrs,
  '(queue_, xdrs) ← xdr_VMCLQueueId (VMCLSurfaceMapOp_queue objp) xdrs;
  '(op_, xdrs) ← xdr_VMAccelSurfaceMapOp (VMCLSurfaceMapOp_op objp) xdrs;
  Some (mkVMCLSurfaceMapOp queue_ op_, xdrs).
#[global] Instance format_VMCLSurfaceMapOp : Format xdr_VMCLSurfaceMapOp := {|
  wf := λ o, wf xdr_VMCLQueueId (VMCLSurfaceMapOp_queue o) ∧
    wf xdr_VMAccelSurfaceMapOp (VMCLSurfaceMapOp_op o);
  enc := λ o, enc xdr_VMCLQueueId (VMCLSurfaceMapOp_queue o) ++
    enc xdr_VMAccelSurfaceMapOp (VMCLSurfaceMapOp_op o) |}.
#[global] Instance lawful_VMCLSurfaceMapOp : Lawful xdr_VMCLSurfaceMapOp.
Proof. solve_struct. Qed.

Definition xdr_VMCLSurfaceUnmapOp : filter VMCLSurfaceUnmapOp := λ objp xdrs,
  '(queue_, xdrs) ← xdr_VMCLQueueId (VMCLSurfaceUnmapOp_queue objp) xdrs;
  '(op_, xdrs) ← xdr_VMAccelSurfaceUnmapOp (VMCLSurfaceUnmapOp_op objp) xdrs;
  Some (mkVMCLSurfaceUnmapOp queue_ op_, xdrs).
#[global] Instance format_VMCLSurfaceUnmapOp : Format xdr_VMCLSurfaceUnmapOp := {|
  wf := λ o, wf xdr_VMCLQueueId (VMCLSurfaceUnmapOp_queue o) ∧
    wf xdr_VMAccelSurfaceUnmapOp (VMCLSurfaceUnmapOp_op o);
  enc := λ o, enc xdr_VMCLQueueId (VMCLSurfaceUnmapOp_queue o) ++
    enc xdr_VMAccelSurfaceUnmapOp (VMCLSurfaceUnmapOp_op o) |}.
#[global] Instance lawful_VMCLSurfaceUnmapOp : Lawful xdr_VMCLSurfaceUnmapOp.
Proof. solve_struct. Qed.

Definition xdr_VMCLSamplerId : filter VMCLSamplerId := λ objp xdrs,
  '(cid_, xdrs) ← xdr_VMCLContextId (VMCLSamplerId_cid objp) xdrs;
  '(id_, xdrs) ← xdr_VMAccelId (VMCLSamplerId_id objp) xdrs;
  Some (mkVMCLSamplerId cid_ id_, xdrs).
#[global] Instance format_VMCLSamplerId : Format xdr_VMCLSamplerId := {|
  wf := λ o, wf xdr_VMCLContextId (VMCLSamplerId_cid o) ∧
    wf xdr_VMAccelId (VMCLSamplerId_id o);
  enc := λ o, enc xdr_VMCLContextId (VMCLSamplerId_cid o) ++
    enc xdr_VMAccelId (VMCLSamplerId_id o) |}.
#[global] Instance lawful_VMCLSamplerId : Lawful xdr_VMCLSamplerId.
Proof. solve_struct. Qed.

Definition xdr_VMCLSamplerAddressingMode : filter Z := xdr_enum.
#[global] Instance format_VMCLSamplerAddressingMode : Format xdr_VMCLSamplerAddressingMode := {| wf := wf
    xdr_enum; enc := enc xdr_enum |}.
#[global] Instance lawful_VMCLSamplerAddressingMode : Lawful xdr_VMCLSamplerAddressingMode.
Proof. exact (_ : Lawful xdr_enum). Qed.

Definition xdr_VMCLSamplerFilterMode : filter Z := xdr_enum.
#[global] Instance format_VMCLSamplerFilterMode : Format xdr_VMCLSamplerFilterMode := {| wf := wf
    xdr_enum; enc := enc xdr_enum |}.
#[global] Instance lawful_VMCLSamplerFilterMode : Lawful xdr_VMCLSamplerFilterMode.
Proof. exact (_ : Lawful xdr_enum). Qed.

Definition xdr_VMCLSamplerDesc : filter VMCLSamplerDesc := λ objp xdrs,
  '(normalizedCoords_, xdrs) ← xdr_bool (VMCLSamplerDesc_normalizedCoords objp) xdrs;
  '(addressMode_, xdrs) ← xdr_VMCLSamplerAddressingMode (VMCLSamplerDesc_addressMode objp) xdrs;
  '(filterMode_, xdrs) ← xdr_VMCLSamplerFilterMode (VMCLSamplerDesc_filterMode objp) xdrs;
  Some (mkVMCLSamplerDesc normalizedCoords_ addressMode_ filterMode_, xdrs).
#[global] Instance format_VMCLSamplerDesc : Format xdr_VMCLSamplerDesc := {|
  wf := λ o, wf xdr_bool (VMCLSamplerDesc_normalizedCoords o) ∧
    wf xdr_VMCLSamplerAddressingMode (VMCLSamplerDesc_addressMode o) ∧
    wf xdr_VMCLSamplerFilterMode (VMCLSamplerDesc_filterMode o);
  enc := λ o, enc xdr_bool (VMCLSamplerDesc_normalizedCoords o) ++
    enc xdr_VMCLSamplerAddressingMode (VMCLSamplerDesc_addressMode o) ++
    enc xdr_VMCLSamplerFilterMode (VMCLSamplerDesc_filterMode o) |}.
#[global] Instance lawful_VMCLSamplerDesc : Lawful xdr_VMCLSamplerDesc.
Proof. solve_struct. Qed.

Definition xdr_VMCLSamplerAllocateDesc : filter VMCLSamplerAllocateDesc := λ objp xdrs,
  '(client_, xdrs) ← xdr_VMCLSamplerId (VMCLSamplerAllocateDesc_client objp) xdrs;
  '(desc_, xdrs) ← xdr_VMCLSamplerDesc (VMCLSamplerAllocateDesc_desc objp) xdrs;
  Some (mkVMCLSamplerAllocateDesc client_ desc_, xdrs).
#[global] Instance format_VMCLSamplerAllocateDesc : Format xdr_VMCLSamplerAllocateDesc := {|
  wf := λ o, wf xdr_VMCLSamplerId (VMCLSamplerAllocateDesc_client o) ∧
    wf xdr_VMCLSamplerDesc (VMCLSamplerAllocateDesc_desc o);
  enc := λ o, enc xdr_VMCLSamplerId (VMCLSamplerAllocateDesc_client o) ++
    enc xdr_VMCLSamplerDesc (VMCLSamplerAllocateDesc_desc o) |}.
#[global] Instance lawful_VMCLSamplerAllocateDesc : Lawful xdr_VMCLSamplerAllocateDesc.
Proof. solve_struct. Qed.

Definition xdr_VMCLSamplerAllocateStatus : filter VMCLSamplerAllocateStatus := λ objp xdrs,
  '(status_, xdrs) ← xdr_VMAccelStatusCode (VMCLSamplerAllocateStatus_status objp) xdrs;
  Some (mkVMCLSamplerAllocateStatus status_, xdrs).
#[global] Instance format_VMCLSamplerAllocateStatus : Format xdr_VMCLSamplerAllocateStatus := {|
  wf := λ o, wf xdr_VMAccelStatusCode (VMCLSamplerAllocateStatus_status o);
  enc := λ o, enc xdr_VMAccelStatusCode (VMCLSamplerAllocateStatus_status o) |}.
#[global] Instance lawful_VMCLSamplerAllocateStatus : Lawful xdr_VMCLSamplerAllocateStatus.
Proof. solve_struct. Qed.

Definition xdr_VMCLKernelId : filter VMCLKernelId := λ objp xdrs,
  '(cid_, xdrs) ← xdr_VMCLContextId (VMCLKernelId_cid objp) xdrs;
  '(id_, xdrs) ← xdr_VMAccelId (VMCLKernelId_id objp) xdrs;
  Some (mkVMCLKernelId cid_ id_, xdrs).
#[global] Instance format_VMCLKernelId : Format xdr_VMCLKernelId := {|
  wf := λ o, wf xdr_VMCLContextId (VMCLKernelId_cid o) ∧
    wf xdr_VMAccelId (VMCLKernelId_id o);
  enc := λ o, enc xdr_VMCLContextId (VMCLKernelId_cid o) ++
    enc xdr_VMAccelId (VMCLKernelId_id o) |}.
#[global] Instance lawful_VMCLKernelId : Lawful xdr_VMCLKernelId.
Proof. solve_struct. Qed.

Definition xdr_VMCLKernelAllocateDesc : filter VMCLKernelAllocateDesc := λ objp xdrs,
  '(client_, xdrs) ← xdr_VMCLKernelId (VMCLKernelAllocateDesc_client objp) xdrs;
  '(subDevice_, xdrs) ← xdr_u_int (VMCLKernelAllocateDesc_subDevice objp) xdrs;
  '(language_, xdrs) ← xdr_VMCLKernelLanguage (VMCLKernelAllocateDesc_language objp) xdrs;
  '(source_, xdrs) ← xdr_bytes UINT_MAX (VMCLKernelAllocateDesc_source objp) xdrs;
  '(kernelName_, xdrs) ← xdr_bytes UINT_MAX (VMCLKernelAllocateDesc_kernelName objp) xdrs;
  Some (mkVMCLKernelAllocateDesc client_ subDevice_ language_ source_ kernelName_, xdrs).
#[global] Instance format_VMCLKernelAllocateDesc : Format xdr_VMCLKernelAllocateDesc := {|
  wf := λ o, wf xdr_VMCLKernelId (VMCLKernelAllocateDesc_client o) ∧
    wf xdr_u_int (VMCLKernelAllocateDesc_subDevice o) ∧
    wf xdr_VMCLKernelLanguage (VMCLKernelAllocateDesc_language o) ∧
    wf (xdr_bytes UINT_MAX) (VMCLKernelAllocateDesc_source o) ∧
    wf (xdr_bytes UINT_MAX) (VMCLKernelAllocateDesc_kernelName o);
  enc := λ o, enc xdr_VMCLKernelId (VMCLKernelAllocateDesc_client o) ++
    enc xdr_u_int (VMCLKernelAllocateDesc_subDevice o) ++
    enc xdr_VMCLKernelLanguage (VMCLKernelAllocateDesc_language o) ++
    enc (xdr_bytes UINT_MAX) (VMCLKernelAllocateDesc_source o) ++
    enc (xdr_bytes UINT_MAX) (VMCLKernelAllocateDesc_kernelName o) |}.
#[global] Instance lawful_VMCLKernelAllocateDesc : Lawful xdr_VMCLKernelAllocateDesc.
Proof. solve_struct. Qed.

Definition xdr_VMCLKernelAllocateStatus : filter VMCLKernelAllocateStatus := λ objp xdrs,
  '(status_, xdrs) ← xdr_VMAccelStatusCode (VMCLKernelAllocateStatus_status objp) xdrs;
  Some (mkVMCLKernelAllocateStatus status_, xdrs).
#[global] Instance format_VMCLKernelAllocateStatus : Format xdr_VMCLKernelAllocateStatus := {|
  wf := λ o, wf xdr_VMAccelStatusCode (VMCLKernelAllocateStatus_status o);
  enc := λ o, enc xdr_VMAccelStatusCode (VMCLKernelAllocateStatus_status o) |}.
#[global] Instance lawful_VMCLKernelAllocateStatus : Lawful xdr_VMCLKernelAllocateStatus.
Proof. solve_struct. Qed.

Definition xdr_VMCLKernelSemanticType : filter Z := xdr_enum.
#[global] Instance format_VMCLKernelSemanticType : Format xdr_VMCLKernelSemanticType := {| wf := wf
    xdr_enum; enc := enc xdr_enum |}.
#[global] Instance lawful_VMCLKernelSemanticType : Lawful xdr_VMCLKernelSemanticType.
Proof. exact (_ : Lawful xdr_enum). Qed.

Definition xdr_VMCLKernelArgType : filter Z := xdr_enum.
#[global] Instance format_VMCLKernelArgType : Format xdr_VMCLKernelArgType := {| wf := wf xdr_enum; enc
    := enc xdr_enum |}.
#[global] Instance lawful_VMCLKernelArgType : Lawful xdr_VMCLKernelArgType.
Proof. exact (_ : Lawful xdr_enum). Qed.

Definition xdr_VMCLKernelArgDesc : filter VMCLKernelArgDesc := λ objp xdrs,
  '(queue_, xdrs) ← xdr_VMCLQueueId (VMCLKernelArgDesc_queue objp) xdrs;
  '(index_, xdrs) ← xdr_u_int (VMCLKernelArgDesc_index objp) xdrs;
  '(type_, xdrs) ← xdr_VMCLKernelArgType (VMCLKernelArgDesc_type objp) xdrs;
  '(usage_, xdrs) ← xdr_VMAccelSurfaceUsage (VMCLKernelArgDesc_usage objp) xdrs;
  '(surf_, xdrs) ← xdr_VMAccelSurfaceId (VMCLKernelArgDesc_surf objp) xdrs;
  '(sampler_, xdrs) ← xdr_VMCLSamplerId (VMCLKernelArgDesc_sampler objp) xdrs;
  Some (mkVMCLKernelArgDesc queue_ index_ type_ usage_ surf_ sampler_, xdrs).
#[global] Instance format_VMCLKernelArgDesc : Format xdr_VMCLKernelArgDesc := {|
  wf := λ o, wf xdr_VMCLQueueId (VMCLKernelArgDesc_queue o) ∧
    wf xdr_u_int (VMCLKernelArgDesc_index o) ∧
    wf xdr_VMCLKernelArgType (VMCLKernelArgDesc_type o) ∧
    wf xdr_VMAccelSurfaceUsage (VMCLKernelArgDesc_usage o) ∧
    wf xdr_VMAccelSurfaceId (VMCLKernelArgDesc_surf o) ∧
    wf xdr_VMCLSamplerId (VMCLKernelArgDesc_sampler o);
  enc := λ o, enc xdr_VMCLQueueId (VMCLKernelArgDesc_queue o) ++
    enc xdr_u_int (VMCLKernelArgDesc_index o) ++
    enc xdr_VMCLKernelArgType (VMCLKernelArgDesc_type o) ++
    enc xdr_VMAccelSurfaceUsage (VMCLKernelArgDesc_usage o) ++
    enc xdr_VMAccelSurfaceId (VMCLKernelArgDesc_surf o) ++
    enc xdr_VMCLSamplerId (VMCLKernelArgDesc_sampler o) |}.
#[global] Instance lawful_VMCLKernelArgDesc : Lawful xdr_VMCLKernelArgDesc.
Proof. solve_struct. Qed.

Definition xdr_VMCLDispatchOp : filter VMCLDispatchOp := λ objp xdrs,
  '(queue_, xdrs) ← xdr_VMCLQueueId (VMCLDispatchOp_queue objp) xdrs;
  '(kernel_, xdrs) ← xdr_VMCLKernelId (VMCLDispatchOp_kernel objp) xdrs;
  '(dimension_, xdrs) ← xdr_u_int (VMCLDispatchOp_dimension objp) xdrs;
  '(globalWorkOffset_, xdrs) ← xdr_array UINT_MAX 0 xdr_u_int (VMCLDispatchOp_globalWorkOffset objp) xdrs;
  '(globalWorkSize_, xdrs) ← xdr_array UINT_MAX 0 xdr_u_int (VMCLDispatchOp_globalWorkSize objp) xdrs;
  '(localWorkSize_, xdrs) ← xdr_array UINT_MAX 0 xdr_u_int (VMCLDispatchOp_localWorkSize objp) xdrs;
  '(args_, xdrs) ← xdr_array UINT_MAX zero_VMCLKernelArgDesc xdr_VMCLKernelArgDesc (VMCLDispatchOp_args
      objp) xdrs;
  '(refs_, xdrs) ← xdr_array UINT_MAX zero_VMAccelSurfaceId xdr_VMAccelSurfaceId (VMCLDispatchOp_refs
      objp) xdrs;
  Some (mkVMCLDispatchOp queue_ kernel_ dimension_ globalWorkOffset_ globalWorkSize_ localWorkSize_ args_
      refs_, xdrs).
#[global] Instance format_VMCLDispatchOp : Format xdr_VMCLDispatchOp := {|
  wf := λ o, wf xdr_VMCLQueueId (VMCLDispatchOp_queue o) ∧
    wf xdr_VMCLKernelId (VMCLDispatchOp_kernel o) ∧
    wf xdr_u_int (VMCLDispatchOp_dimension o) ∧
    wf (xdr_array UINT_MAX 0 xdr_u_int) (VMCLDispatchOp_globalWorkOffset o) ∧
    wf (xdr_array UINT_MAX 0 xdr_u_int) (VMCLDispatchOp_globalWorkSize o) ∧
    wf (xdr_array UINT_MAX 0 xdr_u_int) (VMCLDispatchOp_localWorkSize o) ∧
    wf (xdr_array UINT_MAX zero_VMCLKernelArgDesc xdr_VMCLKernelArgDesc) (VMCLDispatchOp_args o) ∧
    wf (xdr_array UINT_MAX zero_VMAccelSurfaceId xdr_VMAccelSurfaceId) (VMCLDispatchOp_refs o);
  enc := λ o, enc xdr_VMCLQueueId (VMCLDispatchOp_queue o) ++
    enc xdr_VMCLKernelId (VMCLDispatchOp_kernel o) ++
    enc xdr_u_int (VMCLDispatchOp_dimension o) ++
    enc (xdr_array UINT_MAX 0 xdr_u_int) (VMCLDispatchOp_globalWorkOffset o) ++
    enc (xdr_array UINT_MAX 0 xdr_u_int) (VMCLDispatchOp_globalWorkSize o) ++
    enc (xdr_array UINT_MAX 0 xdr_u_int) (VMCLDispatchOp_localWorkSize o) ++
    enc (xdr_array UINT_MAX zero_VMCLKernelArgDesc xdr_VMCLKernelArgDesc) (VMCLDispatchOp_args o) ++
    enc (xdr_array UINT_MAX zero_VMAccelSurfaceId xdr_VMAccelSurfaceId) (VMCLDispatchOp_refs o) |}.
#[global] Instance lawful_VMCLDispatchOp : Lawful xdr_VMCLDispatchOp.
Proof. solve_struct. Qed.

Definition xdr_VMCLContextAllocateReturnStatus : filter VMCLContextAllocateReturnStatus := λ objp xdrs,
  '(errno, xdrs) ← xdr_int (VMCLContextAllocateReturnStatus_errno objp) xdrs;
  if errno =? 0 then
    '(ret, xdrs) ← xdr_pointer zero_VMCLContextAllocateStatus xdr_VMCLContextAllocateStatus
        (VMCLContextAllocateReturnStatus_ret objp) xdrs;
    Some (mkVMCLContextAllocateReturnStatus errno ret, xdrs)
  else Some (mkVMCLContextAllocateReturnStatus errno (VMCLContextAllocateReturnStatus_ret objp), xdrs).
#[global] Instance format_VMCLContextAllocateReturnStatus : Format xdr_VMCLContextAllocateReturnStatus := {|
  wf := λ o, wf_return (xdr_pointer zero_VMCLContextAllocateStatus xdr_VMCLContextAllocateStatus)
      (VMCLContextAllocateReturnStatus_errno o) (VMCLContextAllocateReturnStatus_ret o);
  enc := λ o, enc_return (xdr_pointer zero_VMCLContextAllocateStatus xdr_VMCLContextAllocateStatus)
      (VMCLContextAllocateReturnStatus_errno o) (VMCLContextAllocateReturnStatus_ret o) |}.
#[global] Instance transmits_VMCLContextAllocateReturnStatus : Transmits xdr_VMCLContextAllocateReturnStatus.
Proof. solve_return. Qed.

Definition xdr_VMCLSamplerAllocateReturnStatus : filter VMCLSamplerAllocateReturnStatus := λ objp xdrs,
  '(errno, xdrs) ← xdr_int (VMCLSamplerAllocateReturnStatus_errno objp) xdrs;
  if errno =? 0 then
    '(ret, xdrs) ← xdr_pointer zero_VMCLSamplerAllocateStatus xdr_VMCLSamplerAllocateStatus
        (VMCLSamplerAllocateReturnStatus_ret objp) xdrs;
    Some (mkVMCLSamplerAllocateReturnStatus errno ret, xdrs)
  else Some (mkVMCLSamplerAllocateReturnStatus errno (VMCLSamplerAllocateReturnStatus_ret objp), xdrs).
#[global] Instance format_VMCLSamplerAllocateReturnStatus : Format xdr_VMCLSamplerAllocateReturnStatus := {|
  wf := λ o, wf_return (xdr_pointer zero_VMCLSamplerAllocateStatus xdr_VMCLSamplerAllocateStatus)
      (VMCLSamplerAllocateReturnStatus_errno o) (VMCLSamplerAllocateReturnStatus_ret o);
  enc := λ o, enc_return (xdr_pointer zero_VMCLSamplerAllocateStatus xdr_VMCLSamplerAllocateStatus)
      (VMCLSamplerAllocateReturnStatus_errno o) (VMCLSamplerAllocateReturnStatus_ret o) |}.
#[global] Instance transmits_VMCLSamplerAllocateReturnStatus : Transmits xdr_VMCLSamplerAllocateReturnStatus.
Proof. solve_return. Qed.

Definition xdr_VMCLKernelAllocateReturnStatus : filter VMCLKernelAllocateReturnStatus := λ objp xdrs,
  '(errno, xdrs) ← xdr_int (VMCLKernelAllocateReturnStatus_errno objp) xdrs;
  if errno =? 0 then
    '(ret, xdrs) ← xdr_pointer zero_VMCLKernelAllocateStatus xdr_VMCLKernelAllocateStatus
        (VMCLKernelAllocateReturnStatus_ret objp) xdrs;
    Some (mkVMCLKernelAllocateReturnStatus errno ret, xdrs)
  else Some (mkVMCLKernelAllocateReturnStatus errno (VMCLKernelAllocateReturnStatus_ret objp), xdrs).
#[global] Instance format_VMCLKernelAllocateReturnStatus : Format xdr_VMCLKernelAllocateReturnStatus := {|
  wf := λ o, wf_return (xdr_pointer zero_VMCLKernelAllocateStatus xdr_VMCLKernelAllocateStatus)
      (VMCLKernelAllocateReturnStatus_errno o) (VMCLKernelAllocateReturnStatus_ret o);
  enc := λ o, enc_return (xdr_pointer zero_VMCLKernelAllocateStatus xdr_VMCLKernelAllocateStatus)
      (VMCLKernelAllocateReturnStatus_errno o) (VMCLKernelAllocateReturnStatus_ret o) |}.
#[global] Instance transmits_VMCLKernelAllocateReturnStatus : Transmits xdr_VMCLKernelAllocateReturnStatus.
Proof. solve_return. Qed.

End VMCL.
