(* ===== verification/XdrVMXC.v ===== *)
(** * Generated filters of the transcoder and callback protocols

    The types of common/inc/vmxc.h, vmaccel_callback_rpc.h and
    vmcl_callback_rpc.h, and the filters of frontends/vmxc/src/vmxc_xdr.c,
    vmaccel_callback_rpc_xdr.c and vmcl_callback_rpc_xdr.c, as in
    [XdrVMAccel]. *)

From S2P Require Import Prelude XdrRuntime RpcTypes XdrVMAccel XdrVMCL.

Definition VMXC_SUCCESS : Z := 0.
Definition VMXC_FAIL : Z := 1.
Definition VMXC_SEMANTIC_ERROR : Z := 2.
Definition VMXC_LINK_ERROR : Z := 3.
Definition VMXC_STATUS_CODE_MAX : Z := 4.

Record VMXCKernelArgDesc := mkVMXCKernelArgDesc {
  VMXCKernelArgDesc_index : Z;
  VMXCKernelArgDesc_semantic : Z;
  VMXCKernelArgDesc_semanticDecl : list byte;
  VMXCKernelArgDesc_type : Z;
  VMXCKernelArgDesc_surfDesc : VMAccelSurfaceDesc;
  VMXCKernelArgDesc_samplerDesc : VMCLSamplerDesc;
}.
Definition zero_VMXCKernelArgDesc : VMXCKernelArgDesc := mkVMXCKernelArgDesc 0 0 [] 0 zero_VMAccelSurfaceDesc zero_VMCLSamplerDesc.

Record VMXCKernelDesc := mkVMXCKernelDesc {
  VMXCKernelDesc_language : Z;
  VMXCKernelDesc_source : list byte;
  VMXCKernelDesc_kernelName : list byte;
  VMXCKernelDesc_inputLayout : list VMXCKernelArgDesc;
  VMXCKernelDesc_outputLayout : list VMXCKernelArgDesc;
}.
Definition zero_VMXCKernelDesc : VMXCKernelDesc := mkVMXCKernelDesc 0 [] [] [] [].

Record VMXCodeOp := mkVMXCodeOp {
  VMXCodeOp_targetLanguage : Z;
  VMXCodeOp_kernel : VMXCKernelDesc;
}.
Definition zero_VMXCodeOp : VMXCodeOp := mkVMXCodeOp 0 zero_VMXCKernelDesc.

Record VMXCStatus := mkVMXCStatus {
  VMXCStatus_status : Z;
  VMXCStatus_kernel : VMXCKernelDesc;
}.
Definition zero_VMXCStatus : VMXCStatus := mkVMXCStatus 0 zero_VMXCKernelDesc.

Record VMAccelCallbackOp := mkVMAccelCallbackOp {
  VMAccelCallbackOp_queueId : Z;
  VMAccelCallbackOp_eventId : Z;
  VMAccelCallbackOp_fence : VMAccelAddress;
  VMAccelCallbackOp_payload : list byte;
}.
Definition zero_VMAccelCallbackOp : VMAccelCallbackOp := mkVMAccelCallbackOp 0 0 zero_VMAccelAddress [].

Record VMCLCallbackOp := mkVMCLCallbackOp {
  VMCLCallbackOp_cid : Z;
  VMCLCallbackOp_queueId : Z;
  VMCLCallbackOp_eventId : Z;
  VMCLCallbackOp_fenceId : Z;
  VMCLCallbackOp_payload : list byte;
}.
Definition zero_VMCLCallbackOp : VMCLCallbackOp := mkVMCLCallbackOp 0 0 0 0 [].

Record VMXCReturnStatus := mkVMXCReturnStatus {
  VMXCReturnStatus_errno : Z;
  VMXCReturnStatus_ret : option VMXCStatus;
}.
Definition zero_VMXCReturnStatus : VMXCReturnStatus := mkVMXCReturnStatus 0 None.

Section VMXC.
Context `{XdrLaws}.

Definition xdr_VMXCKernelArgDesc : filter VMXCKernelArgDesc := λ objp xdrs,
  '(index_, xdrs) ← xdr_u_int (VMXCKernelArgDesc_index objp) xdrs;
  '(semantic_, xdrs) ← xdr_VMCLKernelSemanticType (VMXCKernelArgDesc_semantic objp) xdrs;
  '(semanticDecl_, xdrs) ← xdr_bytes UINT_MAX (VMXCKernelArgDesc_semanticDecl objp) xdrs;
  '(type_, xdrs) ← xdr_VMCLKernelArgType (VMXCKernelArgDesc_type objp) xdrs;
  '(surfDesc_, xdrs) ← xdr_VMAccelSurfaceDesc (VMXCKernelArgDesc_surfDesc objp) xdrs;
  '(samplerDesc_, xdrs) ← xdr_VMCLSamplerDesc (VMXCKernelArgDesc_samplerDesc objp) xdrs;
  Some (mkVMXCKernelArgDesc index_ semantic_ semanticDecl_ type_ surfDesc_ samplerDesc_, xdrs).
#[global] Instance format_VMXCKernelArgDesc : Format xdr_VMXCKernelArgDesc := {|
  wf := λ o, wf xdr_u_int (VMXCKernelArgDesc_index o) ∧
    wf xdr_VMCLKernelSemanticType (VMXCKernelArgDesc_semantic o) ∧
    wf (xdr_bytes UINT_MAX) (VMXCKernelArgDesc_semanticDecl o) ∧
    wf xdr_VMCLKernelArgType (VMXCKernelArgDesc_type o) ∧
    wf xdr_VMAccelSurfaceDesc (VMXCKernelArgDesc_surfDesc o) ∧
    wf xdr_VMCLSamplerDesc (VMXCKernelArgDesc_samplerDesc o);
  enc := λ o, enc xdr_u_int (VMXCKernelArgDesc_index o) ++
    enc xdr_VMCLKernelSemanticType (VMXCKernelArgDesc_semantic o) ++
    enc (xdr_bytes UINT_MAX) (VMXCKernelArgDesc_semanticDecl o) ++
    enc xdr_VMCLKernelArgType (VMXCKernelArgDesc_type o) ++
    enc xdr_VMAccelSurfaceDesc (VMXCKernelArgDesc_surfDesc o) ++
    enc xdr_VMCLSamplerDesc (VMXCKernelArgDesc_samplerDesc o) |}.
#[global] Instance lawful_VMXCKernelArgDesc : Lawful xdr_VMXCKernelArgDesc.
Proof. solve_struct. Qed.

Definition xdr_VMXCKernelDesc : filter VMXCKernelDesc := λ objp xdrs,
  '(language_, xdrs) ← xdr_VMCLKernelLanguage (VMXCKernelDesc_language objp) xdrs;
  '(source_, xdrs) ← xdr_bytes UINT_MAX (VMXCKernelDesc_source objp) xdrs;
  '(kernelName_, xdrs) ← xdr_bytes UINT_MAX (VMXCKernelDesc_kernelName objp) xdrs;
  '(inputLayout_, xdrs) ← xdr_array UINT_MAX zero_VMXCKernelArgDesc xdr_VMXCKernelArgDesc (VMXCKernelDesc_inputLayout objp) xdrs;
  '(outputLayout_, xdrs) ← xdr_array UINT_MAX zero_VMXCKernelArgDesc xdr_VMXCKernelArgDesc (VMXCKernelDesc_outputLayout objp) xdrs;
  Some (mkVMXCKernelDesc language_ source_ kernelName_ inputLayout_ outputLayout_, xdrs).
#[global] Instance format_VMXCKernelDesc : Format xdr_VMXCKernelDesc := {|
  wf := λ o, wf xdr_VMCLKernelLanguage (VMXCKernelDesc_language o) ∧
    wf (xdr_bytes UINT_MAX) (VMXCKernelDesc_source o) ∧
    wf (xdr_bytes UINT_MAX) (VMXCKernelDesc_kernelName o) ∧
    wf (xdr_array UINT_MAX zero_VMXCKernelArgDesc xdr_VMXCKernelArgDesc) (VMXCKernelDesc_inputLayout o) ∧
    wf (xdr_array UINT_MAX zero_VMXCKernelArgDesc xdr_VMXCKernelArgDesc) (VMXCKernelDesc_outputLayout o);
  enc := λ o, enc xdr_VMCLKernelLanguage (VMXCKernelDesc_language o) ++
    enc (xdr_bytes UINT_MAX) (VMXCKernelDesc_source o) ++
    enc (xdr_bytes UINT_MAX) (VMXCKernelDesc_kernelName o) ++
    enc (xdr_array UINT_MAX zero_VMXCKernelArgDesc xdr_VMXCKernelArgDesc) (VMXCKernelDesc_inputLayout o) ++
    enc (xdr_array UINT_MAX zero_VMXCKernelArgDesc xdr_VMXCKernelArgDesc) (VMXCKernelDesc_outputLayout o) |}.
#[global] Instance lawful_VMXCKernelDesc : Lawful xdr_VMXCKernelDesc.
Proof. solve_struct. Qed.

Definition xdr_VMXCodeOp : filter VMXCodeOp := λ objp xdrs,
  '(targetLanguage_, xdrs) ← xdr_VMCLKernelLanguage (VMXCodeOp_targetLanguage objp) xdrs;
  '(kernel_, xdrs) ← xdr_VMXCKernelDesc (VMXCodeOp_kernel objp) xdrs;
  Some (mkVMXCodeOp targetLanguage_ kernel_, xdrs).
#[global] Instance format_VMXCodeOp : Format xdr_VMXCodeOp := {|
  wf := λ o, wf xdr_VMCLKernelLanguage (VMXCodeOp_targetLanguage o) ∧
    wf xdr_VMXCKernelDesc (VMXCodeOp_kernel o);
  enc := λ o, enc xdr_VMCLKernelLanguage (VMXCodeOp_targetLanguage o) ++
    enc xdr_VMXCKernelDesc (VMXCodeOp_kernel o) |}.
#[global] Instance lawful_VMXCodeOp : Lawful xdr_VMXCodeOp.
Proof. solve_struct. Qed.

Definition xdr_VMXCStatusCodeEnum : filter Z := xdr_enum.
#[global] Instance format_VMXCStatusCodeEnum : Format xdr_VMXCStatusCodeEnum := {| wf := wf xdr_enum; enc := enc xdr_enum |}.
#[global] Instance lawful_VMXCStatusCodeEnum : Lawful xdr_VMXCStatusCodeEnum.
Proof. exact (_ : Lawful xdr_enum). Qed.

Definition xdr_VMXCStatus : filter VMXCStatus := λ objp xdrs,
  '(status_, xdrs) ← xdr_VMXCStatusCodeEnum (VMXCStatus_status objp) xdrs;
  '(kernel_, xdrs) ← xdr_VMXCKernelDesc (VMXCStatus_kernel objp) xdrs;
  Some (mkVMXCStatus status_ kernel_, xdrs).
#[global] Instance format_VMXCStatus : Format xdr_VMXCStatus := {|
  wf := λ o, wf xdr_VMXCStatusCodeEnum (VMXCStatus_status o) ∧
    wf xdr_VMXCKernelDesc (VMXCStatus_kernel o);
  enc := λ o, enc xdr_VMXCStatusCodeEnum (VMXCStatus_status o) ++
    enc xdr_VMXCKernelDesc (VMXCStatus_kernel o) |}.
#[global] Instance lawful_VMXCStatus : Lawful xdr_VMXCStatus.
Proof. solve_struct. Qed.

Definition xdr_VMXCReturnStatus : filter VMXCReturnStatus := λ objp xdrs,
  '(errno, xdrs) ← xdr_int (VMXCReturnStatus_errno objp) xdrs;
  if errno =? 0 then
    '(ret, xdrs) ← xdr_pointer zero_VMXCStatus xdr_VMXCStatus (VMXCReturnStatus_ret objp) xdrs;
    Some (mkVMXCReturnStatus errno ret, xdrs)
  else Some (mkVMXCReturnStatus errno (VMXCReturnStatus_ret objp), xdrs).
#[global] Instance format_VMXCReturnStatus : Format xdr_VMXCReturnStatus := {|
  wf := λ o, wf_return (xdr_pointer zero_VMXCStatus xdr_VMXCStatus) (VMXCReturnStatus_errno o)
      (VMXCReturnStatus_ret o);
  enc := λ o, enc_return (xdr_pointer zero_VMXCStatus xdr_VMXCStatus) (VMXCReturnStatus_errno o)
      (VMXCReturnStatus_ret o) |}.
#[global] Instance transmits_VMXCReturnStatus : Transmits xdr_VMXCReturnStatus.
Proof. solve_return. Qed.

Definition xdr_VMAccelCallbackOp : filter VMAccelCallbackOp := λ objp xdrs,
  '(queueId_, xdrs) ← xdr_VMAccelId (VMAccelCallbackOp_queueId objp) xdrs;
  '(eventId_, xdrs) ← xdr_VMAccelId (VMAccelCallbackOp_eventId objp) xdrs;
  '(fence_, xdrs) ← xdr_VMAccelAddress (VMAccelCallbackOp_fence objp) xdrs;
  '(payload_, xdrs) ← xdr_bytes UINT_MAX (VMAccelCallbackOp_payload objp) xdrs;
  Some (mkVMAccelCallbackOp queueId_ eventId_ fence_ payload_, xdrs).
#[global] Instance format_VMAccelCallbackOp : Format xdr_VMAccelCallbackOp := {|
  wf := λ o, wf xdr_VMAccelId (VMAccelCallbackOp_queueId o) ∧
    wf xdr_VMAccelId (VMAccelCallbackOp_eventId o) ∧
    wf xdr_VMAccelAddress (VMAccelCallbackOp_fence o) ∧
    wf (xdr_bytes UINT_MAX) (VMAccelCallbackOp_payload o);
  enc := λ o, enc xdr_VMAccelId (VMAccelCallbackOp_queueId o) ++
    enc xdr_VMAccelId (VMAccelCallbackOp_eventId o) ++
    enc xdr_VMAccelAddress (VMAccelCallbackOp_fence o) ++
    enc (xdr_bytes UINT_MAX) (VMAccelCallbackOp_payload o) |}.
#[global] Instance lawful_VMAccelCallbackOp : Lawful xdr_VMAccelCallbackOp.
Proof. solve_struct. Qed.

Definition xdr_VMCLCallbackOp : filter VMCLCallbackOp := λ objp xdrs,
  '(cid_, xdrs) ← xdr_VMCLContextId (VMCLCallbackOp_cid objp) xdrs;
  '(queueId_, xdrs) ← xdr_VMAccelId (VMCLCallbackOp_queueId objp) xdrs;
  '(eventId_, xdrs) ← xdr_VMAccelId (VMCLCallbackOp_eventId objp) xdrs;
  '(fenceId_, xdrs) ← xdr_VMAccelId (VMCLCallbackOp_fenceId objp) xdrs;
  '(payload_, xdrs) ← xdr_bytes UINT_MAX (VMCLCallbackOp_payload objp) xdrs;
  Some (mkVMCLCallbackOp cid_ queueId_ eventId_ fenceId_ payload_, xdrs).
#[global] Instance format_VMCLCallbackOp : Format xdr_VMCLCallbackOp := {|
  wf := λ o, wf xdr_VMCLContextId (VMCLCallbackOp_cid o) ∧
    wf xdr_VMAccelId (VMCLCallbackOp_queueId o) ∧
    wf xdr_VMAccelId (VMCLCallbackOp_eventId o) ∧
    wf xdr_VMAccelId (VMCLCallbackOp_fenceId o) ∧
    wf (xdr_bytes UINT_MAX) (VMCLCallbackOp_payload o);
  enc := λ o, enc xdr_VMCLContextId (VMCLCallbackOp_cid o) ++
    enc xdr_VMAccelId (VMCLCallbackOp_queueId o) ++
    enc xdr_VMAccelId (VMCLCallbackOp_eventId o) ++
    enc xdr_VMAccelId (VMCLCallbackOp_fenceId o) ++
    enc (xdr_bytes UINT_MAX) (VMCLCallbackOp_payload o) |}.
#[global] Instance lawful_VMCLCallbackOp : Lawful xdr_VMCLCallbackOp.
Proof. solve_struct. Qed.

End VMXC.
