(* ===== verification/XdrAll.v ===== *)
(** * Every filter of the protocols

    The generated filters of vmaccel_rpc_xdr.c, vmcl_rpc_xdr.c, vmxc_xdr.c and
    of the two callback programs as two lists, and what holds of all of
    them. *)

From S2P Require Import Prelude XdrRuntime XdrRFC4506 RpcTypes XdrVMAccel XdrVMCL XdrVMXC.

Section All.
Context `{XdrLaws}.

Inductive packed : Type :=
| Pack {A : Type} (f : filter A) {F : Format f}.

(** Types, structures and operations. *)
Definition data_filters : list packed :=
  [Pack xdr_VMAccelStatusCode; Pack xdr_VMAccelResourceType; Pack xdr_VMAccelArchitectureType;
    Pack xdr_VMAccelSelectionMask; Pack xdr_VMAccelId; Pack xdr_VMAccelCaps;
    Pack xdr_VMAccelSurfacePool; Pack xdr_VMAccelSurfaceType; Pack xdr_VMAccelSurfaceUsage;
    Pack xdr_VMAccelSurfaceMapFlags; Pack xdr_VMAccelSurfaceReadConsistency;
    Pack xdr_VMAccelSurfaceWriteConsistency; Pack xdr_VMAccelFormatCaps;
    Pack xdr_VMAccelSurfaceBindFlags; Pack xdr_VMAccelSurfaceFormat; Pack xdr_VMAccelSurfaceFormatCaps;
    Pack xdr_VMAccelStatus; Pack xdr_VMAccelAddress; Pack xdr_VMAccelCallback;
    Pack xdr_VMAccelFormatDesc; Pack xdr_VMAccelWorkloadDesc; Pack xdr_VMAccelDesc;
    Pack xdr_VMAccelResourceDesc; Pack xdr_VMAccelAllocateStatus; Pack xdr_VMAccelRegisterDesc;
    Pack xdr_VMAccelResourceAllocateStatus; Pack xdr_VMAccelRegisterAllocationDesc;
    Pack xdr_VMAccelRegisterStatus; Pack xdr_VMAccelElementDouble4D; Pack xdr_VMAccelElementFloat4D;
    Pack xdr_VMAccelElementUINT4D; Pack xdr_VMAccelCoordinate2DUINT; Pack xdr_VMAccelCoordinate3DUINT;
    Pack xdr_VMAccelCoordinate4DUINT; Pack xdr_VMAccelSurfaceDesc; Pack xdr_VMAccelHandleType;
    Pack xdr_VMAccelSurfaceId; Pack xdr_VMAccelSurfaceAllocateStatus; Pack xdr_VMAccelQueueFlags;
    Pack xdr_VMAccelQueueDesc; Pack xdr_VMAccelQueueStatus; Pack xdr_VMAccelSurfaceRegion;
    Pack xdr_VMAccelSurfaceCopyOp; Pack xdr_VMAccelImageFillOp; Pack xdr_VMAccelImageTransferOp;
    Pack xdr_VMAccelDownloadStatus; Pack xdr_VMAccelSurfaceMapOp; Pack xdr_VMAccelSurfaceUnmapOp;
    Pack xdr_VMAccelSurfaceMapStatus; Pack xdr_VMAccelComputeArgDesc; Pack xdr_VMAccelComputeOp;
    Pack xdr_VMAccelComputeStatus; Pack xdr_VMCLCaps; Pack xdr_VMCLKernelLanguage;
    Pack xdr_VMCLContextId; Pack xdr_VMCLContextAllocateDesc; Pack xdr_VMCLContextAllocateStatus;
    Pack xdr_VMCLSurfaceId; Pack xdr_VMCLSurfaceAllocateDesc; Pack xdr_VMCLQueueId;
    Pack xdr_VMCLQueueAllocateDesc; Pack xdr_VMCLQueueFlushOp; Pack xdr_VMCLSurfaceCopyOp;
    Pack xdr_VMCLImageFillOp; Pack xdr_VMCLImageUploadOp; Pack xdr_VMCLImageDownloadOp;
    Pack xdr_VMCLSurfaceMapOp; Pack xdr_VMCLSurfaceUnmapOp; Pack xdr_VMCLSamplerId;
    Pack xdr_VMCLSamplerAddressingMode; Pack xdr_VMCLSamplerFilterMode; Pack xdr_VMCLSamplerDesc;
    Pack xdr_VMCLSamplerAllocateDesc; Pack xdr_VMCLSamplerAllocateStatus; Pack xdr_VMCLKernelId;
    Pack xdr_VMCLKernelAllocateDesc; Pack xdr_VMCLKernelAllocateStatus; Pack xdr_VMCLKernelSemanticType;
    Pack xdr_VMCLKernelArgType; Pack xdr_VMCLKernelArgDesc; Pack xdr_VMCLDispatchOp;
    Pack xdr_VMXCStatusCodeEnum; Pack xdr_VMXCKernelArgDesc; Pack xdr_VMXCKernelDesc; Pack xdr_VMXCodeOp;
    Pack xdr_VMXCStatus; Pack xdr_VMAccelCallbackOp; Pack xdr_VMCLCallbackOp].

(** The unions [switch (errno)] that carry the answers. *)
Definition return_filters : list packed :=
  [Pack xdr_VMAccelReturnStatus; Pack xdr_VMAccelAllocateReturnStatus;
    Pack xdr_VMAccelResourceAllocateReturnStatus; Pack xdr_VMAccelRegisterReturnStatus;
    Pack xdr_VMAccelQueueReturnStatus; Pack xdr_VMAccelSurfaceAllocateReturnStatus;
    Pack xdr_VMAccelDownloadReturnStatus; Pack xdr_VMAccelSurfaceMapReturnStatus;
    Pack xdr_VMAccelComputeReturnStatus; Pack xdr_VMCLContextAllocateReturnStatus;
    Pack xdr_VMCLSamplerAllocateReturnStatus; Pack xdr_VMCLKernelAllocateReturnStatus;
    Pack xdr_VMXCReturnStatus].

Definition transmits (x : packed) : Prop :=
  match x with
  | Pack f =>
      ∀ a, wf f a →
        (∀ d r, (length (enc f a) ≤ length r)%nat →
           f a (mkXDR XDR_ENCODE d r) =
             Some (a, mkXDR XDR_ENCODE (d ++ enc f a) (drop (length (enc f a)) r))) ∧
        (∀ a0 d r, f a0 (mkXDR XDR_DECODE d (enc f a ++ r)) = Some (a, mkXDR XDR_DECODE (d ++ enc f a) r))
  end.

Definition frees (x : packed) : Prop :=
  match x with
  | Pack f => ∀ a d r, ∃ a', f a (mkXDR XDR_FREE d r) = Some (a', mkXDR XDR_FREE d r)
  end.

Definition bounded (x : packed) : Prop :=
  match x with
  | Pack f => ∀ a0 d r a xdrs, f a0 (mkXDR XDR_DECODE d r) = Some (a, xdrs) → wf f a
  end.

Lemma lawful_packed {A} (f : filter A) `{Lawful A f} : transmits (Pack f) ∧ frees (Pack f) ∧ bounded (Pack f).
Proof.
  split_and!.
  - intros a Ha. split; [intros; by apply law_encode | intros; by apply law_decode].
  - intros a d r. apply law_free.
  - intros a0 d r a xdrs E. by apply law_bounds in E as [E _].
Qed.

Lemma transmits_packed {A} (f : filter A) `{Transmits A f} : transmits (Pack f) ∧ frees (Pack f).
Proof.
  split.
  - intros a Ha. split; [intros; by apply law_encode | intros; by apply law_decode].
  - intros a d r. apply law_free.
Qed.

Lemma data_filters_lawful : Forall (λ x, transmits x ∧ frees x ∧ bounded x) data_filters.
Proof. repeat first [apply List.Forall_nil | apply List.Forall_cons; [apply lawful_packed; apply _ |]]. Qed.

Lemma return_filters_lawful : Forall (λ x, transmits x ∧ frees x) return_filters.
Proof. repeat first [apply List.Forall_nil | apply List.Forall_cons; [apply transmits_packed; apply _ |]]. Qed.

(** (C36) Every filter of the protocols: an object the format admits is
    encoded in its format's bytes, and those bytes decode to the same object
    whatever the target held and whatever follows; freeing never fails.  For
    the unions of the answers this is the case [errno = 0], the only one the
    services use. *)
Theorem filters_roundtrip x : x ∈ data_filters ++ return_filters → transmits x ∧ frees x.
Proof.
  intros [Hx | Hx]%elem_of_app.
  - pose proof data_filters_lawful as Hall. rewrite list.Forall_forall in Hall. by destruct (Hall x Hx) as (? & ? & _).
  - pose proof return_filters_lawful as Hall. rewrite list.Forall_forall in Hall. by apply Hall.
Qed.

(** (C37) Whatever bytes arrive, an object that one of the data filters (all but
    the return unions) decodes is within the format: its integers are in range and the counts of its strings and arrays
    within their declared limits. *)
Theorem decoded_bounded x : x ∈ data_filters → bounded x.
Proof.
  intros Hx. pose proof data_filters_lawful as Hall. rewrite list.Forall_forall in Hall.
  by destruct (Hall x Hx) as (_ & _ & ?).
Qed.

(** ** The inline blocks

    A runtime that never grants an inline buffer takes every filter through
    its member-by-member path. *)
Definition no_inline (R : XdrRuntime) : XdrRuntime := {|
  xdr_u_int := @xdr_u_int R; xdr_int := @xdr_int R; xdr_enum := @xdr_enum R; xdr_bool := @xdr_bool R;
  xdr_float := @xdr_float R; xdr_double := @xdr_double R; xdr_bytes := @xdr_bytes R; xdr_array := @xdr_array R;
  xdr_pointer := @xdr_pointer R; XDR_INLINE := λ _ _, None;
  IXDR_PUT_U_LONG := @IXDR_PUT_U_LONG R; IXDR_GET_U_LONG := @IXDR_GET_U_LONG R |}.

(** Two filters encode what the format admits alike, and decode and free
    alike whatever the stream holds. *)
Definition agree {A} (f g : filter A) `{Format A f} : Prop :=
  (∀ a d r, wf f a → (length (enc f a) ≤ length r)%nat → f a (mkXDR XDR_ENCODE d r) = g a (mkXDR XDR_ENCODE d r)) ∧
  (∀ a d r, f a (mkXDR XDR_DECODE d r) = g a (mkXDR XDR_DECODE d r)) ∧
  (∀ a d r, f a (mkXDR XDR_FREE d r) = g a (mkXDR XDR_FREE d r)).

(** A decoded member leaves a stream that decodes. *)
Ltac decoded :=
  idtac; lazymatch goal with
  | |- context [ ?f ?a (mkXDR XDR_DECODE ?d ?r) ≫= _ ] =>
      let E := fresh "E" in
      destruct (f a (mkXDR XDR_DECODE d r)) as [[? [? ? ?]] |] eqn:E; [| reflexivity];
      apply (law_bounds (f := f)) in E as [_ E]; cbn [x_op] in E; subst; cbn [mbind option_bind]
  end.

(** A freed member leaves the stream alone. *)
Ltac freed :=
  idtac; lazymatch goal with
  | |- context [ ?f ?a (mkXDR XDR_FREE ?d ?r) ≫= _ ] =>
      let E := fresh "E" in destruct (law_free (f := f) a d r) as [? E]; rewrite !E; clear E; cbn [mbind option_bind]
  end.

Lemma no_inline_laws : @XdrLaws (no_inline _) _.
Proof.
  destruct H1. split; try done.
Qed.

(** Lawful filters of the same format encode alike. *)
Lemma agree_encode {A} (f g : filter A) `{Lawful A f} `{Lawful A g} :
  (∀ a, wf f a → wf g a) → (∀ a, enc g a = enc f a) →
  ∀ a d r, wf f a → (length (enc f a) ≤ length r)%nat → f a (mkXDR XDR_ENCODE d r) = g a (mkXDR XDR_ENCODE d r).
Proof.
  intros Hwf He a d r Ha Hr. rewrite (law_encode (f := f)) by done.
  by rewrite (law_encode (f := g)), He by (rewrite ?He; auto).
Qed.

#[local] Existing Instance no_inline_laws.

(** The filters of one block: decoding goes through the block at once. *)
Ltac agree_block f :=
  split_and!; intros a d r;
  [ apply (agree_encode (f _) (f (no_inline _))); done
  | unfold f; cbn [x_op]; by rewrite decode_block_slow
  | done ].

Lemma agree_VMAccelWorkloadDesc : agree xdr_VMAccelWorkloadDesc (xdr_VMAccelWorkloadDesc (H := no_inline _)).
Proof. agree_block @xdr_VMAccelWorkloadDesc. Qed.

Lemma agree_VMAccelElementUINT4D : agree xdr_VMAccelElementUINT4D (xdr_VMAccelElementUINT4D (H := no_inline _)).
Proof. agree_block @xdr_VMAccelElementUINT4D. Qed.

Lemma agree_VMAccelCoordinate4DUINT :
  agree xdr_VMAccelCoordinate4DUINT (xdr_VMAccelCoordinate4DUINT (H := no_inline _)).
Proof. agree_block @xdr_VMAccelCoordinate4DUINT. Qed.

(** The members before the blocks do not use the buffer. *)
Tactic Notation "desc_members" tactic3(T) :=
  change (@xdr_VMAccelId (no_inline H)) with (@xdr_VMAccelId H); T;
  change (@xdr_VMAccelAddress (no_inline H)) with (@xdr_VMAccelAddress H); T;
  change (@xdr_VMAccelResourceType (no_inline H)) with (@xdr_VMAccelResourceType H); T;
  change (@xdr_VMAccelArchitectureType (no_inline H)) with (@xdr_VMAccelArchitectureType H); T;
  change (@xdr_VMAccelCaps (no_inline H)) with (@xdr_VMAccelCaps H); T;
  change (@xdr_array (no_inline H) _ UINT_MAX zero_VMAccelFormatDesc (@xdr_VMAccelFormatDesc (no_inline H)))
    with (xdr_array UINT_MAX zero_VMAccelFormatDesc xdr_VMAccelFormatDesc); T.

Lemma agree_VMAccelDesc : agree xdr_VMAccelDesc (xdr_VMAccelDesc (H := no_inline _)).
Proof.
  split_and!; intros a d r.
  - refine (agree_encode xdr_VMAccelDesc (xdr_VMAccelDesc (H := no_inline _)) _ _ a d r).
    + intros a'. cbv [wf enc format_VMAccelDesc format_VMAccelWorkloadDesc format_array format_VMAccelFormatDesc]. by intros Ha'.
    + intros a'. cbv [wf enc format_VMAccelDesc format_VMAccelWorkloadDesc format_array format_VMAccelFormatDesc]. reflexivity.
  - unfold xdr_VMAccelDesc. cbn [x_op].
    desc_members decoded.
    destruct agree_VMAccelWorkloadDesc as (_ & <- & _). decoded. by rewrite decode_block_slow.
  - unfold xdr_VMAccelDesc. cbn [x_op]. desc_members freed. by destruct agree_VMAccelWorkloadDesc as (_ & _ & <-).
Qed.

Lemma agree_VMAccelSurfaceDesc : agree xdr_VMAccelSurfaceDesc (xdr_VMAccelSurfaceDesc (H := no_inline _)).
Proof.
  split_and!; intros a d r.
  - refine (agree_encode xdr_VMAccelSurfaceDesc (xdr_VMAccelSurfaceDesc (H := no_inline _)) _ _ a d r).
    + intros a'. cbv [wf enc format_VMAccelSurfaceDesc format_VMAccelWorkloadDesc]. by intros Ha'.
    + intros a'. cbv [wf enc format_VMAccelSurfaceDesc format_VMAccelWorkloadDesc]. reflexivity.
  - unfold xdr_VMAccelSurfaceDesc. cbn [x_op].
    change (xdr_VMAccelId (H := no_inline _)) with xdr_VMAccelId. decoded.
    change (xdr_VMAccelSurfaceType (H := no_inline _)) with xdr_VMAccelSurfaceType. decoded.
    by rewrite decode_block_slow.
  - done.
Qed.

(** (C38) The inline fast path of the five generated filters that have one is
    their member-by-member path: whether or not the runtime grants the
    buffer, they write the same bytes for an object that fits its format and
    the stream, and read the same object from any bytes. *)
Theorem inline_paths_agree :
  agree xdr_VMAccelWorkloadDesc (xdr_VMAccelWorkloadDesc (H := no_inline _)) ∧
  agree xdr_VMAccelDesc (xdr_VMAccelDesc (H := no_inline _)) ∧
  agree xdr_VMAccelElementUINT4D (xdr_VMAccelElementUINT4D (H := no_inline _)) ∧
  agree xdr_VMAccelCoordinate4DUINT (xdr_VMAccelCoordinate4DUINT (H := no_inline _)) ∧
  agree xdr_VMAccelSurfaceDesc (xdr_VMAccelSurfaceDesc (H := no_inline _)).
Proof.
  split_and!; [apply agree_VMAccelWorkloadDesc | apply agree_VMAccelDesc | apply agree_VMAccelElementUINT4D
              | apply agree_VMAccelCoordinate4DUINT | apply agree_VMAccelSurfaceDesc].
Qed.
End All.

(** ** On the RFC 4506 stream *)

Lemma filters_roundtrip_witness : transmits (Pack xdr_VMCLDispatchOp) ∧ frees (Pack xdr_VMCLDispatchOp).
Proof.
  apply (filters_roundtrip (Pack xdr_VMCLDispatchOp)). apply elem_of_app. left. unfold data_filters.
  repeat first [apply list_elem_of_here | apply list_elem_of_further].
Defined.

Lemma decoded_bounded_witness : bounded (Pack xdr_VMAccelAddress).
Proof.
  apply (decoded_bounded (Pack xdr_VMAccelAddress)). unfold data_filters.
  repeat first [apply list_elem_of_here | apply list_elem_of_further].
Defined.

(** The RFC 4506 stream grants the buffer for sixteen bytes. *)
Lemma inline_paths_agree_witness :
  XDR_INLINE 16 (mkXDR XDR_DECODE [] (replicate 16 x01)) ≠ None ∧
  xdr_VMAccelElementUINT4D zero_VMAccelElementUINT4D (mkXDR XDR_DECODE [] (replicate 16 x01)) =
    xdr_VMAccelElementUINT4D (H := no_inline _) zero_VMAccelElementUINT4D (mkXDR XDR_DECODE [] (replicate 16 x01)).
Proof. split; [discriminate |]. apply inline_paths_agree. Defined.
