(* ===== verification/Backend.v ===== *)
(** * State of the OpenCL backend (backends/vmwopencl/src/vmwopencl_ops.c)

    The backend's tables, the mutexes of its surfaces, the OpenCL runtime it
    calls and the primitive accesses its handlers are written with.

    The OpenCL runtime is not part of the repository: it is the class
    [OpenCL], with its own state and one operation per entry point the backend
    uses; a call returns what the code looks at (an error code, a handle, a
    buffer).  Handles and host pointers are integers, 0 is [NULL]. *)

From stdpp Require Import strings.
From S2P Require Import Prelude IdentifierDB XdrRuntime RpcTypes.
Open Scope Z_scope.
Open Scope list_scope.

(** ** Constants (common/inc/vmaccel_defs.h, common/inc/vmcl_defs.h, CL/cl.h) *)

Definition VMACCEL_SUCCESS : Z := 0.
Definition VMACCEL_FAIL : Z := 1.
Definition VMACCEL_SEMANTIC_ERROR : Z := 2.
Definition VMACCEL_RESOURCE_UNAVAILABLE : Z := 4.
Definition VMACCEL_SURFACE_BUFFER : Z := 1.
Definition VMACCEL_SURFACE_POOL_SYSTEM_MEMORY : Z := 2.
Definition VMACCEL_SURFACE_USAGE_READONLY : Z := 0.
Definition VMACCEL_SURFACE_USAGE_WRITEONLY : Z := 1.
Definition VMACCEL_SURFACE_USAGE_READWRITE : Z := 2.
Definition VMACCEL_SURFACE_READ_SYNCHRONOUS : Z := 0.
Definition VMACCEL_FORMAT_R8_TYPELESS : Z := 5.
Definition VMACCEL_MAP_READ_FLAG : Z := 1.
Definition VMACCEL_MAP_WRITE_FLAG : Z := 2.
Definition VMACCEL_MAP_WRITE_DISCARD_FLAG : Z := 4.
Definition VMACCEL_MAP_NO_FREE_PTR_FLAG : Z := 16.
Definition VMACCEL_MAP_ASYNC_FLAG : Z := 32.
Definition VMACCEL_SELECT_MAX : nat := 4.
Definition VMACCEL_MAX_SURFACE_INSTANCE : nat := 1.
Definition VMCL_MAX_SUBDEVICES : nat := 32.
Definition VMCL_MAX_CONTEXTS : Z := 32.
Definition VMCL_MAX_SURFACES : Z := 32.
Definition VMCL_MAX_QUEUES : Z := 32.
Definition VMCL_MAX_SAMPLERS : Z := 32.
Definition VMCL_MAX_KERNELS : Z := 32.
Definition VMCL_ARG_SURFACE : Z := 1.
Definition CL_SUCCESS : Z := 0.
Definition CL_MEM_READ_WRITE : Z := 1.
Definition CL_MEM_WRITE_ONLY : Z := 2.
Definition CL_MEM_READ_ONLY : Z := 4.
Definition CL_MAP_READ : Z := 1.
Definition CL_MAP_WRITE : Z := 2.
Definition CL_MAP_WRITE_INVALIDATE_REGION : Z := 4.
Definition CL_DEVICE_MAX_WORK_ITEM_DIMENSIONS : Z := 0x1003.
Definition SIZEOF_PTR : Z := 8.

(** [flags & bit] as a condition. *)
Definition has_flag (flags bit : Z) : bool := negb (Z.land flags bit =? 0).

(** ** Mutexes

    A mutex of cleared memory is a normal mutex; the surfaces' mutexes are
    initialised as recursive ones, which count how often their owner has
    re-entered.  Locking a mutex held elsewhere (or a normal one held at all)
    does not return; using a destroyed mutex is undefined; [unlock] of a
    recursive mutex of another thread and [destroy] of a held one fail without
    effect. *)
Inductive mutex : Type :=
| Normal (holder : option Z)
| Recursive (holder : option (Z * nat))
| Destroyed.

Definition mutex_zero : mutex := Normal None.
Definition mutex_init_recursive : mutex := Recursive None.

Definition mutex_lock (tid : Z) (m : mutex) : mutex + fault :=
  match m with
  | Normal None => inl (Normal (Some tid))
  | Normal (Some _) => inr WouldBlock
  | Recursive None => inl (Recursive (Some (tid, 0%nat)))
  | Recursive (Some (t, n)) =>
      if t =? tid then inl (Recursive (Some (t, S n))) else inr WouldBlock
  | Destroyed => inr BadAccess
  end.

Definition mutex_unlock (tid : Z) (m : mutex) : mutex + fault :=
  match m with
  | Normal _ => inl (Normal None)
  | Recursive None => inl m
  | Recursive (Some (t, n)) =>
      if t =? tid then
        inl (Recursive (match n with O => None | S k => Some (t, k) end))
      else inl m
  | Destroyed => inr BadAccess
  end.

Definition mutex_destroy (m : mutex) : mutex :=
  match m with
  | Normal (Some _) | Recursive (Some _) => m
  | _ => Destroyed
  end.

(** ** Heap pointers: a static pointer is [NULL], points to a live object, or
    dangles after [free]. *)
Inductive heap (A : Type) : Type := Null | Freed | Live (a : A).
Arguments Null {A}.
Arguments Freed {A}.
Arguments Live {A} a.

Definition deref {A} (p : heap A) : option A :=
  match p with Live a => Some a | _ => None end.

Definition is_null {A} (p : heap A) : bool :=
  match p with Null => true | _ => false end.

(** ** Device capabilities (vmwopencl_caps.h) *)

Inductive cap : Type :=
| DEVICE_TYPE | DEVICE_VENDOR_ID | DEVICE_MAX_COMPUTE_UNITS
| DEVICE_MAX_WORK_ITEM_DIMENSIONS | DEVICE_MAX_WORK_GROUP_SIZE
| DEVICE_MAX_CLOCK_FREQUENCY | DEVICE_ADDRESS_BITS | DEVICE_MAX_MEM_ALLOC_SIZE
| DEVICE_IMAGE_SUPPORT | DEVICE_MAX_READ_IMAGE_ARGS | DEVICE_MAX_WRITE_IMAGE_ARGS
| DEVICE_IMAGE2D_MAX_WIDTH | DEVICE_IMAGE2D_MAX_HEIGHT | DEVICE_IMAGE3D_MAX_WIDTH
| DEVICE_IMAGE3D_MAX_HEIGHT | DEVICE_IMAGE3D_MAX_DEPTH | DEVICE_IMAGE_MAX_BUFFER_SIZE
| DEVICE_IMAGE_MAX_ARRAY_SIZE | DEVICE_IMAGE_PITCH_ALIGNMENT
| DEVICE_IMAGE_BASE_ADDRESS_ALIGNMENT | DEVICE_MAX_SAMPLERS | DEVICE_MAX_PARAMETER_SIZE
| DEVICE_MEM_BASE_ADDR_ALIGN | DEVICE_SINGLE_FP_CONFIG | DEVICE_DOUBLE_FP_CONFIG
| DEVICE_GLOBAL_MEM_CACHELINE_SIZE | DEVICE_GLOBAL_MEM_CACHE_SIZE | DEVICE_GLOBAL_MEM_SIZE
| DEVICE_MAX_CONSTANT_BUFFER_SIZE | DEVICE_MAX_CONSTANT_ARGS | DEVICE_LOCAL_MEM_TYPE
| DEVICE_LOCAL_MEM_SIZE | DEVICE_ERROR_CORRECTION_SUPPORT | DEVICE_ENDIAN_LITTLE
| DEVICE_COMPILER_AVAILABLE | DEVICE_LINKER_AVAILABLE | DEVICE_EXECUTION_CAPABILITIES
| DEVICE_PREFERRED_INTEROP_USER_SYNC | DEVICE_PARENT_DEVICE
| DEVICE_PARTITION_MAX_SUB_DEVICES | DEVICE_MAX_READ_WRITE_IMAGE_ARGS
| DEVICE_MAX_PIPE_ARGS | DEVICE_PIPE_MAX_ACTIVE_RESERVATIONS | DEVICE_PIPE_MAX_PACKET_SIZE
| DEVICE_MAX_GLOBAL_VARIABLE_SIZE | DEVICE_GLOBAL_VARIABLE_PREFERRED_TOTAL_SIZE
| DEVICE_QUEUE_ON_HOST_PROPERTIES | DEVICE_QUEUE_ON_DEVICE_PROPERTIES
| DEVICE_QUEUE_ON_DEVICE_PREFERRED_SIZE | DEVICE_QUEUE_ON_DEVICE_MAX_SIZE
| DEVICE_MAX_ON_DEVICE_QUEUES | DEVICE_MAX_ON_DEVICE_EVENTS
| DEVICE_PREFERRED_PLATFORM_ATOMIC_ALIGNMENT | DEVICE_PREFERRED_GLOBAL_ATOMIC_ALIGNMENT
| DEVICE_PREFERRED_LOCAL_ATOMIC_ALIGNMENT | DEVICE_SVM_CAPABILITIES.

#[global] Instance cap_eq_dec : EqDecision cap.
Proof. solve_decision. Defined.

(** The order in which the header lists them, which is the query order. *)
Definition all_caps : list cap :=
  [DEVICE_TYPE; DEVICE_VENDOR_ID; DEVICE_MAX_COMPUTE_UNITS; DEVICE_MAX_WORK_ITEM_DIMENSIONS;
   DEVICE_MAX_WORK_GROUP_SIZE; DEVICE_MAX_CLOCK_FREQUENCY; DEVICE_ADDRESS_BITS;
   DEVICE_MAX_MEM_ALLOC_SIZE; DEVICE_IMAGE_SUPPORT; DEVICE_MAX_READ_IMAGE_ARGS;
   DEVICE_MAX_WRITE_IMAGE_ARGS; DEVICE_IMAGE2D_MAX_WIDTH; DEVICE_IMAGE2D_MAX_HEIGHT;
   DEVICE_IMAGE3D_MAX_WIDTH; DEVICE_IMAGE3D_MAX_HEIGHT; DEVICE_IMAGE3D_MAX_DEPTH;
   DEVICE_IMAGE_MAX_BUFFER_SIZE; DEVICE_IMAGE_MAX_ARRAY_SIZE; DEVICE_IMAGE_PITCH_ALIGNMENT;
   DEVICE_IMAGE_BASE_ADDRESS_ALIGNMENT; DEVICE_MAX_SAMPLERS; DEVICE_MAX_PARAMETER_SIZE;
   DEVICE_MEM_BASE_ADDR_ALIGN; DEVICE_SINGLE_FP_CONFIG; DEVICE_DOUBLE_FP_CONFIG;
   DEVICE_GLOBAL_MEM_CACHELINE_SIZE; DEVICE_GLOBAL_MEM_CACHE_SIZE; DEVICE_GLOBAL_MEM_SIZE;
   DEVICE_MAX_CONSTANT_BUFFER_SIZE; DEVICE_MAX_CONSTANT_ARGS; DEVICE_LOCAL_MEM_TYPE;
   DEVICE_LOCAL_MEM_SIZE; DEVICE_ERROR_CORRECTION_SUPPORT; DEVICE_ENDIAN_LITTLE;
   DEVICE_COMPILER_AVAILABLE; DEVICE_LINKER_AVAILABLE; DEVICE_EXECUTION_CAPABILITIES;
   DEVICE_PREFERRED_INTEROP_USER_SYNC; DEVICE_PARENT_DEVICE; DEVICE_PARTITION_MAX_SUB_DEVICES;
   DEVICE_MAX_READ_WRITE_IMAGE_ARGS; DEVICE_MAX_PIPE_ARGS; DEVICE_PIPE_MAX_ACTIVE_RESERVATIONS;
   DEVICE_PIPE_MAX_PACKET_SIZE; DEVICE_MAX_GLOBAL_VARIABLE_SIZE;
   DEVICE_GLOBAL_VARIABLE_PREFERRED_TOTAL_SIZE; DEVICE_QUEUE_ON_HOST_PROPERTIES;
   DEVICE_QUEUE_ON_DEVICE_PROPERTIES; DEVICE_QUEUE_ON_DEVICE_PREFERRED_SIZE;
   DEVICE_QUEUE_ON_DEVICE_MAX_SIZE; DEVICE_MAX_ON_DEVICE_QUEUES; DEVICE_MAX_ON_DEVICE_EVENTS;
   DEVICE_PREFERRED_PLATFORM_ATOMIC_ALIGNMENT; DEVICE_PREFERRED_GLOBAL_ATOMIC_ALIGNMENT;
   DEVICE_PREFERRED_LOCAL_ATOMIC_ALIGNMENT; DEVICE_SVM_CAPABILITIES].

Record VMWOpenCLCaps := mkVMWOpenCLCaps {
  caps_deviceId : Z;
  caps_values : list (cap * Z);
  caps_DEVICE_MAX_WORK_ITEM_SIZES : heap (list Z);
}.

(** The member a capability names: the value last stored, zero before. *)
Definition caps_value (x : VMWOpenCLCaps) (c : cap) : Z :=
  match list_find (λ kv, kv.1 = c) (caps_values x) with Some (_, kv) => kv.2 | None => 0 end.

Definition zero_caps : VMWOpenCLCaps := mkVMWOpenCLCaps 0 [] Null.

(** ** The tables *)

Record VMWOpenCLContext := mkVMWOpenCLContext {
  ctx_context : Z;
  ctx_platformId : Z;
  ctx_deviceIds : list Z;
  ctx_majorVersion : Z;
  ctx_minorVersion : Z;
  (** index into [caps] of the device class the context was created on *)
  ctx_caps : option nat;
}.

Record VMWOpenCLSurfaceInstance := mkVMWOpenCLSurfaceInstance {
  si_mem : Z;
  si_svm_ptr : Z;
  si_generation : Z;
  si_mapping_ptr : Z;
  si_mapping_refCount : Z;
  si_mutex : mutex;
}.

Record VMWOpenCLSurface := mkVMWOpenCLSurface {
  surf_cid : Z;
  surf_desc : VMAccelSurfaceDesc;
  surf_inst : list VMWOpenCLSurfaceInstance;
  surf_mutex : mutex;
}.

Record VMWOpenCLQueue := mkVMWOpenCLQueue {
  q_desc : VMAccelQueueDesc;
  q_queue : Z;
}.

Record VMWOpenCLKernel := mkVMWOpenCLKernel {
  k_program : Z;
  k_kernel : Z;
}.

Definition zero_context : VMWOpenCLContext :=
  mkVMWOpenCLContext 0 0 (replicate VMCL_MAX_SUBDEVICES 0) 0 0 None.
Definition zero_instance : VMWOpenCLSurfaceInstance :=
  mkVMWOpenCLSurfaceInstance 0 0 0 0 0 mutex_zero.
Definition zero_surface : VMWOpenCLSurface :=
  mkVMWOpenCLSurface 0 zero_VMAccelSurfaceDesc
    (replicate VMACCEL_MAX_SURFACE_INSTANCE zero_instance) mutex_zero.
Definition zero_queue : VMWOpenCLQueue := mkVMWOpenCLQueue zero_VMAccelQueueDesc 0.
Definition zero_kernel : VMWOpenCLKernel := mkVMWOpenCLKernel 0 0.

(** ** The OpenCL runtime *)

Class OpenCL := {
  cl_state : Type;
  (** queries: error code and answer *)
  clGetPlatformIDs (entries : Z) : cl_state → Z * (list Z * Z);
  clGetPlatformInfo_VERSION (platform : Z) : cl_state → Z * string;
  clGetPlatformInfo_NAME (platform : Z) : cl_state → Z * string;
  clGetPlatformInfo_VENDOR (platform : Z) : cl_state → Z * string;
  clGetDeviceIDs (platform type entries : Z) : cl_state → Z * list Z;
  clGetDeviceInfo_NAME (device : Z) : cl_state → Z * string;
  clGetDeviceInfo (device : Z) (c : cap) : cl_state → Z * Z;
  clGetDeviceInfo_WORK_ITEM_SIZES (device bytes : Z) : cl_state → Z * list Z;
  clGetContextInfo_size (context : Z) : cl_state → Z * Z;
  clGetContextInfo_devices (context bytes : Z) : cl_state → Z * list Z;
  (** calls that change the runtime's state *)
  clCreateContext (devices : list Z) : cl_state → (Z * Z) * cl_state;
  clReleaseContext (context : Z) : cl_state → cl_state;
  clSVMAlloc (context flags size : Z) : cl_state → Z * cl_state;
  clSVMFree (context ptr : Z) : cl_state → cl_state;
  clCreateBuffer (context flags size : Z) : cl_state → Z * cl_state;
  clReleaseMemObject (mem : Z) : cl_state → cl_state;
  clCreateCommandQueueWithProperties (context device : Z) : cl_state → Z * cl_state;
  clReleaseCommandQueue (queue : Z) : cl_state → cl_state;
  clFlush (queue : Z) : cl_state → Z * cl_state;
  clFinish (queue : Z) : cl_state → Z * cl_state;
  clEnqueueWriteBuffer (queue mem offset size : Z) (data : option (list byte)) :
    cl_state → Z * cl_state;
  (** the answer is the host buffer's contents when the call returns *)
  clEnqueueReadBuffer (queue mem : Z) (blocking : bool) (offset size : Z) (dst : list byte) :
    cl_state → (Z * list byte) * cl_state;
  clEnqueueMapBuffer (queue mem : Z) (blocking : bool) (flags offset size : Z) :
    cl_state → (Z * Z) * cl_state;
  clEnqueueUnmapMemObject (queue mem ptr : Z) : cl_state → Z * cl_state;
  clEnqueueCopyBuffer (queue src dst srcOffset dstOffset size : Z) : cl_state → Z * cl_state;
  clEnqueueFillBuffer (queue mem : Z) (pattern : list Z) (offset size : Z) :
    cl_state → Z * cl_state;
  clCreateProgramWithSource (context : Z) (source : list byte) : cl_state → (Z * Z) * cl_state;
  clCreateProgramWithIL (context : Z) (il : list byte) : cl_state → (Z * Z) * cl_state;
  clBuildProgram (program device : Z) : cl_state → Z * cl_state;
  clReleaseProgram (program : Z) : cl_state → cl_state;
  clCreateKernel (program : Z) (name : list byte) : cl_state → Z * cl_state;
  clReleaseKernel (kernel : Z) : cl_state → cl_state;
  clSetKernelArg (kernel index mem : Z) : cl_state → Z * cl_state;
  clSetKernelArgSVMPointer (kernel index ptr : Z) : cl_state → Z * cl_state;
  clSetKernelExecInfo_SVM_PTRS (kernel ptr : Z) : cl_state → Z * cl_state;
  clEnqueueNDRangeKernel (queue kernel dim : Z) (offset global local : list Z) :
    cl_state → Z * cl_state;
  (** memory of the runtime the host reaches through a mapped pointer *)
  host_write (ptr : Z) (data : list byte) : cl_state → cl_state;
  host_read (ptr len : Z) : cl_state → list byte;
}.

Section State.
Context `{OpenCL}.

(** The file-scope variables, the retained [static result] of the download
    handler (the other handlers clear theirs before they answer) and the
    runtime. *)
Record backend := mkBackend {
  caps : list VMWOpenCLCaps;
  contexts : heap (list VMWOpenCLContext);
  contextIds : heap IdentifierDB;
  surfaces : heap (list VMWOpenCLSurface);
  surfaceIds : heap IdentifierDB;
  queues : heap (list VMWOpenCLQueue);
  queueIds : heap IdentifierDB;
  samplers : heap (list Z);
  samplerIds : heap IdentifierDB;
  kernels : heap (list VMWOpenCLKernel);
  kernelIds : heap IdentifierDB;
  download_result : VMAccelDownloadStatus;
  cl : cl_state;
}.

Definition set_caps x s := mkBackend x (contexts s) (contextIds s) (surfaces s) (surfaceIds s)
  (queues s) (queueIds s) (samplers s) (samplerIds s) (kernels s) (kernelIds s) (download_result s) (cl s).
Definition set_contexts x s := mkBackend (caps s) x (contextIds s) (surfaces s) (surfaceIds s)
  (queues s) (queueIds s) (samplers s) (samplerIds s) (kernels s) (kernelIds s) (download_result s) (cl s).
Definition set_contextIds x s := mkBackend (caps s) (contexts s) x (surfaces s) (surfaceIds s)
  (queues s) (queueIds s) (samplers s) (samplerIds s) (kernels s) (kernelIds s) (download_result s) (cl s).
Definition set_surfaces x s := mkBackend (caps s) (contexts s) (contextIds s) x (surfaceIds s)
  (queues s) (queueIds s) (samplers s) (samplerIds s) (kernels s) (kernelIds s) (download_result s) (cl s).
Definition set_surfaceIds x s := mkBackend (caps s) (contexts s) (contextIds s) (surfaces s) x
  (queues s) (queueIds s) (samplers s) (samplerIds s) (kernels s) (kernelIds s) (download_result s) (cl s).
Definition set_queues x s := mkBackend (caps s) (contexts s) (contextIds s) (surfaces s) (surfaceIds s)
  x (queueIds s) (samplers s) (samplerIds s) (kernels s) (kernelIds s) (download_result s) (cl s).
Definition set_queueIds x s := mkBackend (caps s) (contexts s) (contextIds s) (surfaces s) (surfaceIds s)
  (queues s) x (samplers s) (samplerIds s) (kernels s) (kernelIds s) (download_result s) (cl s).
Definition set_samplers x s := mkBackend (caps s) (contexts s) (contextIds s) (surfaces s) (surfaceIds s)
  (queues s) (queueIds s) x (samplerIds s) (kernels s) (kernelIds s) (download_result s) (cl s).
Definition set_samplerIds x s := mkBackend (caps s) (contexts s) (contextIds s) (surfaces s) (surfaceIds s)
  (queues s) (queueIds s) (samplers s) x (kernels s) (kernelIds s) (download_result s) (cl s).
Definition set_kernels x s := mkBackend (caps s) (contexts s) (contextIds s) (surfaces s) (surfaceIds s)
  (queues s) (queueIds s) (samplers s) (samplerIds s) x (kernelIds s) (download_result s) (cl s).
Definition set_kernelIds x s := mkBackend (caps s) (contexts s) (contextIds s) (surfaces s) (surfaceIds s)
  (queues s) (queueIds s) (samplers s) (samplerIds s) (kernels s) x (download_result s) (cl s).
Definition set_download_result x s := mkBackend (caps s) (contexts s) (contextIds s) (surfaces s)
  (surfaceIds s) (queues s) (queueIds s) (samplers s) (samplerIds s) (kernels s) (kernelIds s) x (cl s).
Definition set_cl x s := mkBackend (caps s) (contexts s) (contextIds s) (surfaces s) (surfaceIds s)
  (queues s) (queueIds s) (samplers s) (samplerIds s) (kernels s) (kernelIds s) (download_result s) x.

Definition B (A : Type) : Type := M backend A.

(** *** Tables: [t[i]] of a static array pointer; out of range, [NULL] or
    dangling accesses are faults. *)
Record table (A : Type) := mkTable {
  t_get : backend → heap (list A);
  t_set : heap (list A) → backend → backend;
}.
Arguments mkTable {A}.
Arguments t_get {A}.
Arguments t_set {A}.

Definition Contexts := mkTable contexts set_contexts.
Definition Surfaces := mkTable surfaces set_surfaces.
Definition Queues := mkTable queues set_queues.
Definition Kernels := mkTable kernels set_kernels.

Definition tab_lookup {A} (t : table A) (i : Z) (s : backend) : option A :=
  deref (t_get t s) ≫= λ l, l !! Z.to_nat i.

Definition tab_read {A} (t : table A) (i : Z) : B A := λ s, access (tab_lookup t i s) s.

Definition tab_insert {A} (t : table A) (i : Z) (a : A) (s : backend) : backend :=
  match t_get t s with
  | Live l => t_set t (Live (<[Z.to_nat i := a]> l)) s
  | _ => s
  end.

Definition tab_write {A} (t : table A) (i : Z) (a : A) : B unit :=
  _ ← tab_read t i; modify (tab_insert t i a).

Definition tab_modify {A} (t : table A) (i : Z) (f : A → A) : B unit :=
  a ← tab_read t i; modify (tab_insert t i (f a)).

(** *** Identifier databases *)
Record dbref := mkDbref {
  d_get : backend → heap IdentifierDB;
  d_set : heap IdentifierDB → backend → backend;
}.

Definition ContextIds := mkDbref contextIds set_contextIds.
Definition SurfaceIds := mkDbref surfaceIds set_surfaceIds.
Definition QueueIds := mkDbref queueIds set_queueIds.
Definition SamplerIds := mkDbref samplerIds set_samplerIds.
Definition KernelIds := mkDbref kernelIds set_kernelIds.

Definition with_db {A} (d : dbref) (m : M IdentifierDB A) : B A := λ s,
  match deref (d_get d s) with
  | Some db => match m db with
               | Done a db' => Done a (d_set d (Live db') s)
               | Fault f => Fault f
               end
  | None => Fault BadAccess
  end.

(** *** The runtime *)
Definition cl_query {A} (f : cl_state → A) : B A := gets (λ s, f (cl s)).
Definition cl_call {A} (f : cl_state → A * cl_state) : B A := λ s,
  let '(a, c) := f (cl s) in Done a (set_cl c s).
Definition cl_exec (f : cl_state → cl_state) : B unit := modify (λ s, set_cl (f (cl s)) s).

(** *** Surfaces, their instances and mutexes *)
Definition set_si_mutex m (x : VMWOpenCLSurfaceInstance) := mkVMWOpenCLSurfaceInstance (si_mem x)
  (si_svm_ptr x) (si_generation x) (si_mapping_ptr x) (si_mapping_refCount x) m.
Definition set_si_mem m (x : VMWOpenCLSurfaceInstance) := mkVMWOpenCLSurfaceInstance m
  (si_svm_ptr x) (si_generation x) (si_mapping_ptr x) (si_mapping_refCount x) (si_mutex x).
Definition set_si_generation g (x : VMWOpenCLSurfaceInstance) := mkVMWOpenCLSurfaceInstance (si_mem x)
  (si_svm_ptr x) g (si_mapping_ptr x) (si_mapping_refCount x) (si_mutex x).
Definition set_si_mapping_ptr p (x : VMWOpenCLSurfaceInstance) := mkVMWOpenCLSurfaceInstance (si_mem x)
  (si_svm_ptr x) (si_generation x) p (si_mapping_refCount x) (si_mutex x).
Definition set_si_refCount r (x : VMWOpenCLSurfaceInstance) := mkVMWOpenCLSurfaceInstance (si_mem x)
  (si_svm_ptr x) (si_generation x) (si_mapping_ptr x) r (si_mutex x).
Definition set_surf_mutex m (x : VMWOpenCLSurface) :=
  mkVMWOpenCLSurface (surf_cid x) (surf_desc x) (surf_inst x) m.
Definition set_surf_inst l (x : VMWOpenCLSurface) :=
  mkVMWOpenCLSurface (surf_cid x) (surf_desc x) l (surf_mutex x).

Definition surf_read (sid : Z) : B VMWOpenCLSurface := tab_read Surfaces sid.

Definition inst_read (sid i : Z) : B VMWOpenCLSurfaceInstance :=
  x ← surf_read sid; access (surf_inst x !! Z.to_nat i).

Definition inst_modify (sid i : Z) (f : VMWOpenCLSurfaceInstance → VMWOpenCLSurfaceInstance) : B unit :=
  x ← surf_read sid;
  y ← access (surf_inst x !! Z.to_nat i);
  modify (tab_insert Surfaces sid (set_surf_inst (<[Z.to_nat i := f y]> (surf_inst x)) x)).

Definition or_fault {A} (r : A + fault) : B A :=
  match r with inl a => mret a | inr f => throw f end.

Definition surf_lock (tid sid : Z) : B unit :=
  x ← surf_read sid;
  m ← or_fault (mutex_lock tid (surf_mutex x));
  modify (tab_insert Surfaces sid (set_surf_mutex m x)).

Definition surf_unlock (tid sid : Z) : B unit :=
  x ← surf_read sid;
  m ← or_fault (mutex_unlock tid (surf_mutex x));
  modify (tab_insert Surfaces sid (set_surf_mutex m x)).

Definition inst_lock (tid sid i : Z) : B unit :=
  y ← inst_read sid i;
  m ← or_fault (mutex_lock tid (si_mutex y));
  inst_modify sid i (set_si_mutex m).

Definition inst_unlock (tid sid i : Z) : B unit :=
  y ← inst_read sid i;
  m ← or_fault (mutex_unlock tid (si_mutex y));
  inst_modify sid i (set_si_mutex m).

End State.
Arguments backend {_}.
Arguments table {_}.
Arguments dbref {_}.
Arguments mkTable {_ A}.
Arguments t_get {_ A}.
Arguments t_set {_ A}.
