(* ===== verification/BackendOps.v ===== *)
(** * Handlers of the OpenCL backend (backends/vmwopencl/src/vmwopencl_ops.c)

    One definition per handler, in the order of the source; [tid] is the
    calling thread.  Diagnostics ([VMACCEL_LOG], [VMACCEL_WARNING], the debug
    copy of a SPIR-V module) are left out.  Host memory comes from a heap that
    does not run out in these handlers. *)

From S2P Require Import Prelude IdentifierDB XdrRuntime RpcTypes Backend.

Definition mkStatus (z : Z) : VMAccelStatus := mkVMAccelStatus [] z.

(** The decoded argument of a transfer: an empty buffer is a [NULL] pointer. *)
Definition host_ptr (l : list byte) : option (list byte) :=
  match l with [] => None | _ => Some l end.

(** Result of [surfacemap]: the pointer handed out and its length. *)
Record MapResult := mkMapResult {
  mr_status : Z;
  mr_ptr_val : Z;
  mr_ptr_len : Z;
}.

(** Memory flags of a surface's usage. *)
Definition usage_flags (usage : Z) : Z :=
  if usage =? VMACCEL_SURFACE_USAGE_READONLY then CL_MEM_READ_ONLY
  else if usage =? VMACCEL_SURFACE_USAGE_WRITEONLY then CL_MEM_WRITE_ONLY
  else if usage =? VMACCEL_SURFACE_USAGE_READWRITE then CL_MEM_READ_WRITE
  else 0.

Section Ops.
Context `{OpenCL}.

(** ** Contexts *)

(** The warnings about objects that outlive the last context: the databases'
    counts are read, nothing changes. *)
Definition context_warnings : B unit :=
  n ← with_db ContextIds IdentifierDB_Count;
  if n =? 0 then
    _ ← with_db SurfaceIds IdentifierDB_Count;
    _ ← with_db QueueIds IdentifierDB_Count;
    _ ← with_db SamplerIds IdentifierDB_Count;
    _ ← with_db KernelIds IdentifierDB_Count;
    mret tt
  else mret tt.

Definition vmwopencl_contextdestroy_1 (argp : Z) : B VMAccelStatus :=
  let cid := argp in
  active ← with_db ContextIds (IdentifierDB_ActiveId cid);
  live ← (if (active : bool) then x ← tab_read Contexts cid; mret (negb (ctx_context x =? 0))
          else mret false);
  _ ← (if (live : bool) then
         x ← tab_read Contexts cid;
         _ ← cl_exec (clReleaseContext (ctx_context x));
         tab_write Contexts cid (mkVMWOpenCLContext 0 (ctx_platformId x) (ctx_deviceIds x)
           (ctx_majorVersion x) (ctx_minorVersion x) (ctx_caps x))
       else mret tt);
  _ ← with_db ContextIds (IdentifierDB_ReleaseId cid);
  _ ← context_warnings;
  mret (mkStatus VMACCEL_SUCCESS).

(** ** Surfaces *)

(** The allocation loop of either kind: [n] instances remain, [acc] are the
    handles obtained, last first; a failed allocation releases them. *)
Fixpoint alloc_instances (alloc : cl_state → Z * cl_state) (release : Z → cl_state → cl_state)
    (n : nat) (acc : list Z) : B (option (list Z)) :=
  match n with
  | O => mret (Some (rev acc))
  | S n' =>
      h ← cl_call alloc;
      if h =? 0 then
        _ ← cl_exec (λ c, foldl (λ c h, release h c) c acc);
        mret None
      else alloc_instances alloc release n' (h :: acc)
  end.

(** The instances of a freshly acquired surface: the handles, the reference
    count and the mutex are set, the other members stay. *)
Fixpoint init_instances (mem svm : list Z) (old : list VMWOpenCLSurfaceInstance) :
    list VMWOpenCLSurfaceInstance :=
  match old, mem, svm with
  | y :: old, m :: mem, p :: svm =>
      mkVMWOpenCLSurfaceInstance m p (si_generation y) (si_mapping_ptr y) 0 mutex_init_recursive
        :: init_instances mem svm old
  | _, _, _ => old
  end.

(** The part of [surfacealloc] after the storage has been obtained. *)
Definition surface_install (tid cid sid : Z) (desc : VMAccelSurfaceDesc) (mem svm : list Z) :
    B VMAccelSurfaceAllocateStatus :=
  _ ← tab_modify Surfaces sid (set_surf_mutex mutex_init_recursive);
  ok ← with_db SurfaceIds (IdentifierDB_AcquireId sid);
  if (ok : bool) then
    _ ← surf_lock tid sid;
    _ ← tab_modify Surfaces sid (λ x,
          mkVMWOpenCLSurface cid desc (init_instances mem svm (surf_inst x)) (surf_mutex x));
    _ ← surf_unlock tid sid;
    mret (mkVMAccelSurfaceAllocateStatus VMACCEL_SUCCESS zero_VMAccelSurfaceDesc)
  else
    _ ← assert false;
    mret (mkVMAccelSurfaceAllocateStatus VMACCEL_RESOURCE_UNAVAILABLE zero_VMAccelSurfaceDesc).

Definition vmwopencl_surfacealloc_1 (tid : Z) (argp : VMCLSurfaceAllocateDesc) :
    B VMAccelSurfaceAllocateStatus :=
  let cid := VMCLSurfaceId_cid (VMCLSurfaceAllocateDesc_client argp) in
  let sid := VMAccelSurfaceId_id (VMCLSurfaceId_accel (VMCLSurfaceAllocateDesc_client argp)) in
  let desc := VMCLSurfaceAllocateDesc_desc argp in
  let fail st := mkVMAccelSurfaceAllocateStatus st zero_VMAccelSurfaceDesc in
  let nulls := replicate VMACCEL_MAX_SURFACE_INSTANCE 0 in
  c ← tab_read Contexts cid;
  let context := ctx_context c in
  active ← with_db SurfaceIds (IdentifierDB_ActiveId sid);
  if (active : bool) then mret (fail VMACCEL_RESOURCE_UNAVAILABLE) else
  let clMemFlags := usage_flags (VMAccelSurfaceDesc_usage desc) in
  if (VMAccelSurfaceDesc_type desc =? VMACCEL_SURFACE_BUFFER) &&
     (VMAccelSurfaceDesc_pool desc =? VMACCEL_SURFACE_POOL_SYSTEM_MEMORY) &&
     (2 <=? ctx_majorVersion c) && (0 <=? ctx_minorVersion c)
  then
    r ← alloc_instances (clSVMAlloc context clMemFlags (VMAccelSurfaceDesc_width desc))
          (clSVMFree context) VMACCEL_MAX_SURFACE_INSTANCE [];
    match r with
    | None => mret (fail VMACCEL_FAIL)
    | Some svmPtr => surface_install tid cid sid desc nulls svmPtr
    end
  else if VMAccelSurfaceDesc_type desc =? VMACCEL_SURFACE_BUFFER then
    _ ← assert (VMAccelSurfaceDesc_format desc =? VMACCEL_FORMAT_R8_TYPELESS);
    r ← alloc_instances (clCreateBuffer context clMemFlags (VMAccelSurfaceDesc_width desc))
          clReleaseMemObject VMACCEL_MAX_SURFACE_INSTANCE [];
    match r with
    | None => mret (fail VMACCEL_FAIL)
    | Some memObject => surface_install tid cid sid desc memObject nulls
    end
  else
    _ ← assert (VMAccelSurfaceDesc_usage desc =? VMACCEL_SURFACE_USAGE_READWRITE);
    mret (fail VMACCEL_FAIL).

(** One pass of the destruction loop. *)
Definition instance_destroy (tid sid i : Z) : B unit :=
  _ ← inst_lock tid sid i;
  y ← inst_read sid i;
  _ ← (if negb (si_svm_ptr y =? 0) then
         x ← surf_read sid;
         c ← tab_read Contexts (surf_cid x);
         cl_exec (clSVMFree (ctx_context c) (si_svm_ptr y))
       else cl_exec (clReleaseMemObject (si_mem y)));
  _ ← inst_modify sid i (set_si_mem 0);
  _ ← inst_unlock tid sid i;
  inst_modify sid i (λ y, set_si_mutex (mutex_destroy (si_mutex y)) y).

Definition vmwopencl_surfacedestroy_1 (tid : Z) (argp : VMCLSurfaceId) : B VMAccelStatus :=
  let sid := VMAccelSurfaceId_id (VMCLSurfaceId_accel argp) in
  _ ← surf_lock tid sid;
  active ← with_db SurfaceIds (IdentifierDB_ActiveId sid);
  _ ← assert active;
  _ ← for_from VMACCEL_MAX_SURFACE_INSTANCE 0 (instance_destroy tid sid);
  _ ← tab_write Surfaces sid zero_surface;
  _ ← surf_unlock tid sid;
  _ ← tab_modify Surfaces sid (λ x, set_surf_mutex (mutex_destroy (surf_mutex x)) x);
  _ ← with_db SurfaceIds (IdentifierDB_ReleaseId sid);
  mret (mkStatus VMACCEL_SUCCESS).

(** ** Queues *)

Definition vmwopencl_queuealloc_1 (argp : VMCLQueueAllocateDesc) : B VMAccelQueueStatus :=
  let cid := VMCLQueueId_cid (VMCLQueueAllocateDesc_client argp) in
  let qid := VMCLQueueId_id (VMCLQueueAllocateDesc_client argp) in
  let subDevice := VMCLQueueAllocateDesc_subDevice argp in
  c ← tab_read Contexts cid;
  let context := ctx_context c in
  active ← with_db QueueIds (IdentifierDB_ActiveId qid);
  if (active : bool) then mret (mkVMAccelQueueStatus VMACCEL_RESOURCE_UNAVAILABLE) else
  '(errNum, deviceBufferSize) ← cl_query (clGetContextInfo_size context);
  if negb (errNum =? CL_SUCCESS) then mret (mkVMAccelQueueStatus VMACCEL_FAIL) else
  if deviceBufferSize <=? 0 then mret (mkVMAccelQueueStatus VMACCEL_FAIL) else
  let numDevices := deviceBufferSize / SIZEOF_PTR in
  '(errNum, devices) ← cl_query (clGetContextInfo_devices context deviceBufferSize);
  if negb (errNum =? CL_SUCCESS) || (numDevices <=? subDevice)
  then mret (mkVMAccelQueueStatus VMACCEL_FAIL) else
  (* the cleared buffer, overwritten by the devices the runtime reports *)
  device ← access (take (Z.to_nat numDevices) (devices ++ replicate (Z.to_nat numDevices) 0)
                     !! Z.to_nat subDevice);
  commandQueue ← cl_call (clCreateCommandQueueWithProperties context device);
  if commandQueue =? 0 then mret (mkVMAccelQueueStatus VMACCEL_FAIL) else
  ok ← with_db QueueIds (IdentifierDB_AcquireId qid);
  if (ok : bool) then
    _ ← tab_write Queues qid (mkVMWOpenCLQueue (VMCLQueueAllocateDesc_desc argp) commandQueue);
    mret (mkVMAccelQueueStatus VMACCEL_SUCCESS)
  else
    _ ← cl_exec (clReleaseCommandQueue commandQueue);
    _ ← assert false;
    mret (mkVMAccelQueueStatus VMACCEL_RESOURCE_UNAVAILABLE).

Definition vmwopencl_queuedestroy_1 (argp : VMCLQueueId) : B VMAccelStatus :=
  let qid := VMCLQueueId_id argp in
  active ← with_db QueueIds (IdentifierDB_ActiveId qid);
  _ ← assert active;
  q ← tab_read Queues qid;
  _ ← cl_exec (clReleaseCommandQueue (q_queue q));
  _ ← tab_write Queues qid zero_queue;
  _ ← with_db QueueIds (IdentifierDB_ReleaseId qid);
  mret (mkStatus VMACCEL_SUCCESS).

Definition vmwopencl_queueflush_1 (argp : VMCLQueueId) : B VMAccelStatus :=
  let qid := VMCLQueueId_id argp in
  q ← tab_read Queues qid;
  errNum ← cl_call (clFlush (q_queue q));
  mret (mkStatus (if negb (errNum =? CL_SUCCESS) then VMACCEL_FAIL else VMACCEL_SUCCESS)).

(** ** Transfers *)

(** Leaving a critical section on one surface instance. *)
Definition unlock_surface (tid sid inst : Z) : B unit :=
  _ ← inst_unlock tid sid inst; surf_unlock tid sid.

Definition lock_surface (tid sid inst : Z) : B unit :=
  _ ← surf_lock tid sid; inst_lock tid sid inst.

(** [clEnqueueWriteBuffer] of [size] bytes from a buffer of the given
    contents: a successful write of more than the buffer has reads past it. *)
Definition enqueue_write (queue mem offset size : Z) (ptr : list byte) : B Z :=
  errNum ← cl_call (clEnqueueWriteBuffer queue mem offset size
                      (take (Z.to_nat size) <$> host_ptr ptr));
  if (errNum =? CL_SUCCESS) && (Z.of_nat (length ptr) <? size) then throw BadAccess
  else mret errNum.

Definition vmwopencl_imageupload_1 (tid : Z) (argp : VMCLImageUploadOp) : B VMAccelStatus :=
  let cid := VMCLQueueId_cid (VMCLImageUploadOp_queue argp) in
  let qid := VMCLQueueId_id (VMCLImageUploadOp_queue argp) in
  let accel := VMCLSurfaceId_accel (VMCLImageUploadOp_img argp) in
  let sid := VMAccelSurfaceId_id accel in
  let gen := VMAccelSurfaceId_generation accel in
  let inst := VMAccelSurfaceId_instance accel in
  let op := VMCLImageUploadOp_op argp in
  let region := VMAccelImageTransferOp_imgRegion op in
  q ← tab_read Queues qid;
  _ ← lock_surface tid sid inst;
  y ← inst_read sid inst;
  if gen <? si_generation y then
    _ ← unlock_surface tid sid inst;
    mret (mkStatus VMACCEL_SEMANTIC_ERROR)
  else
  _ ← assert (cid =? VMCLSurfaceId_cid (VMCLImageUploadOp_img argp));
  x ← surf_read sid;
  status ←
    (if (VMAccelSurfaceDesc_type (surf_desc x) =? VMACCEL_SURFACE_BUFFER) && (si_svm_ptr y =? 0) then
       errNum ← enqueue_write (q_queue q) (si_mem y)
                  (VMAccelCoordinate3DUINT_x (VMAccelSurfaceRegion_coord region))
                  (VMAccelCoordinate3DUINT_x (VMAccelSurfaceRegion_size region))
                  (VMAccelImageTransferOp_ptr op);
       if negb (errNum =? CL_SUCCESS) then mret VMACCEL_FAIL
       else _ ← inst_modify sid inst (set_si_generation gen); mret VMACCEL_SUCCESS
     else _ ← assert false; mret VMACCEL_FAIL);
  _ ← unlock_surface tid sid inst;
  mret (mkStatus status).

(** [clEnqueueReadBuffer] into a buffer with the given contents. *)
Definition enqueue_read (queue mem : Z) (blocking : bool) (offset size : Z) (dst : list byte) :
    B (Z * list byte) :=
  '(errNum, buf) ← cl_call (clEnqueueReadBuffer queue mem blocking offset size dst);
  if (errNum =? CL_SUCCESS) && (Z.of_nat (length dst) <? size) then throw BadAccess
  else mret (errNum, take (Z.to_nat size) buf).

(** The buffer a download reads into: a cleared one when none is given. *)
Definition download_buffer (size : Z) (ptr : list byte) : list byte :=
  match ptr with [] => replicate (Z.to_nat size) x00 | l => l end.

(** The instance's mutex is released only on the early return. *)
Definition vmwopencl_imagedownload_1 (tid : Z) (argp : VMCLImageDownloadOp) : B VMAccelDownloadStatus :=
  let cid := VMCLQueueId_cid (VMCLImageDownloadOp_queue argp) in
  let qid := VMCLQueueId_id (VMCLImageDownloadOp_queue argp) in
  let accel := VMCLSurfaceId_accel (VMCLImageDownloadOp_img argp) in
  let sid := VMAccelSurfaceId_id accel in
  let gen := VMAccelSurfaceId_generation accel in
  let inst := VMAccelSurfaceId_instance accel in
  let op := VMCLImageDownloadOp_op argp in
  let region := VMAccelImageTransferOp_imgRegion op in
  let size := VMAccelCoordinate3DUINT_x (VMAccelSurfaceRegion_size region) in
  let return_ (r : VMAccelDownloadStatus) : B VMAccelDownloadStatus :=
    _ ← modify (set_download_result r); mret r in
  q ← tab_read Queues qid;
  _ ← lock_surface tid sid inst;
  y ← inst_read sid inst;
  if negb (si_generation y =? gen) then
    old ← gets download_result;
    _ ← unlock_surface tid sid inst;
    return_ (mkVMAccelDownloadStatus
      (if gen <? si_generation y then VMACCEL_SEMANTIC_ERROR else VMACCEL_RESOURCE_UNAVAILABLE)
      (VMAccelDownloadStatus_fence old) (VMAccelDownloadStatus_ptr old))
  else
  _ ← assert (cid =? VMCLSurfaceId_cid (VMCLImageDownloadOp_img argp));
  x ← surf_read sid;
  r ←
    (if (VMAccelSurfaceDesc_type (surf_desc x) =? VMACCEL_SURFACE_BUFFER) && (si_svm_ptr y =? 0) then
       let ptr := download_buffer size (VMAccelImageTransferOp_ptr op) in
       let blocking := VMCLImageDownloadOp_mode argp =? VMACCEL_SURFACE_READ_SYNCHRONOUS in
       '(errNum, data) ← enqueue_read (q_queue q) (si_mem y) blocking
                  (VMAccelCoordinate3DUINT_x (VMAccelSurfaceRegion_coord region)) size ptr;
       mret (if negb (errNum =? CL_SUCCESS) then mkVMAccelDownloadStatus VMACCEL_FAIL 0 []
             else mkVMAccelDownloadStatus VMACCEL_SUCCESS 0 data)
     else _ ← assert false; mret (mkVMAccelDownloadStatus VMACCEL_FAIL 0 []));
  _ ← surf_unlock tid sid;
  return_ r.

(** ** Mappings *)

Definition map_flags (f : Z) : Z :=
  let flags := if has_flag f VMACCEL_MAP_READ_FLAG then CL_MAP_READ else 0 in
  let flags := if has_flag f VMACCEL_MAP_WRITE_FLAG then Z.lor flags CL_MAP_WRITE else flags in
  if has_flag f VMACCEL_MAP_WRITE_DISCARD_FLAG
  then Z.lor flags CL_MAP_WRITE_INVALIDATE_REGION else flags.

(** The pointer of a first mapping. *)
Definition map_first (queue : Z) (y : VMWOpenCLSurfaceInstance) (blocking : bool)
    (flags offset size : Z) : B (Z * Z) :=
  if negb (si_svm_ptr y =? 0) then
    errNum ← (if blocking then cl_call (clFinish queue) else mret CL_SUCCESS);
    mret (errNum, if errNum =? CL_SUCCESS then si_svm_ptr y else 0)
  else
    '(ptr, errNum) ← cl_call (clEnqueueMapBuffer queue (si_mem y) blocking flags offset size);
    mret (errNum, ptr).

Definition vmwopencl_surfacemap_1 (tid : Z) (argp : VMCLSurfaceMapOp) : B MapResult :=
  let qid := VMCLQueueId_id (VMCLSurfaceMapOp_queue argp) in
  let op := VMCLSurfaceMapOp_op argp in
  let sid := VMAccelSurfaceId_id (VMAccelSurfaceMapOp_surf op) in
  let gen := VMAccelSurfaceId_generation (VMAccelSurfaceMapOp_surf op) in
  let inst := VMAccelSurfaceId_instance (VMAccelSurfaceMapOp_surf op) in
  let mapFlags := VMAccelSurfaceMapOp_mapFlags op in
  let size := VMAccelCoordinate2DUINT_x (VMAccelSurfaceMapOp_size op) in
  q ← tab_read Queues qid;
  _ ← lock_surface tid sid inst;
  y ← inst_read sid inst;
  if gen <? si_generation y then
    _ ← unlock_surface tid sid inst;
    mret (mkMapResult VMACCEL_SEMANTIC_ERROR 0 0)
  else
  let flags := map_flags mapFlags in
  let blocking := negb (has_flag mapFlags VMACCEL_MAP_ASYNC_FLAG) in
  x ← surf_read sid;
  r ←
    (if VMAccelSurfaceDesc_type (surf_desc x) =? VMACCEL_SURFACE_BUFFER then
       let refCount := u32 (si_mapping_refCount y + 1) in
       _ ← inst_modify sid inst (set_si_refCount refCount);
       '(errNum, ptr) ←
         (if refCount =? 1
          then map_first (q_queue q) y blocking flags
                 (VMAccelCoordinate3DUINT_x (VMAccelSurfaceMapOp_coord op)) size
          else mret (CL_SUCCESS, si_mapping_ptr y));
       if negb (errNum =? CL_SUCCESS) then mret (mkMapResult VMACCEL_FAIL 0 0)
       else _ ← inst_modify sid inst (set_si_mapping_ptr ptr);
            mret (mkMapResult VMACCEL_SUCCESS ptr size)
     else _ ← assert false; mret (mkMapResult VMACCEL_FAIL 0 0));
  _ ← unlock_surface tid sid inst;
  mret r.

(** [memcpy(ptr, data, length)]: through [NULL] only when it copies nothing. *)
Definition memcpy_to (ptr : Z) (data : list byte) : B unit :=
  match data with
  | [] => mret tt
  | _ => if ptr =? 0 then throw BadAccess else cl_exec (host_write ptr data)
  end.

(** The handler also changes its argument: the transferred buffer is freed
    and cleared unless the caller keeps it. *)
Definition vmwopencl_surfaceunmap_1 (tid : Z) (argp : VMCLSurfaceUnmapOp) :
    B (VMAccelStatus * VMCLSurfaceUnmapOp) :=
  let qid := VMCLQueueId_id (VMCLSurfaceUnmapOp_queue argp) in
  let op := VMCLSurfaceUnmapOp_op argp in
  let sid := VMAccelSurfaceId_id (VMAccelSurfaceUnmapOp_surf op) in
  let gen := VMAccelSurfaceId_generation (VMAccelSurfaceUnmapOp_surf op) in
  let inst := VMAccelSurfaceId_instance (VMAccelSurfaceUnmapOp_surf op) in
  let mapFlags := VMAccelSurfaceUnmapOp_mapFlags op in
  q ← tab_read Queues qid;
  _ ← surf_lock tid sid;
  y ← inst_read sid inst;
  let ptr := si_mapping_ptr y in
  _ ← memcpy_to ptr (VMAccelSurfaceUnmapOp_ptr op);
  let argp' :=
    if negb (has_flag mapFlags VMACCEL_MAP_NO_FREE_PTR_FLAG)
    then mkVMCLSurfaceUnmapOp (VMCLSurfaceUnmapOp_queue argp)
           (mkVMAccelSurfaceUnmapOp (VMAccelSurfaceUnmapOp_surf op) mapFlags [])
    else argp in
  let refCount := u32 (si_mapping_refCount y - 1) in
  _ ← inst_modify sid inst (set_si_refCount refCount);
  errNum ←
    (if refCount =? 0 then
       x ← surf_read sid;
       errNum ←
         (if (VMAccelSurfaceDesc_type (surf_desc x) =? VMACCEL_SURFACE_BUFFER) && (si_svm_ptr y =? 0)
          then cl_call (clEnqueueUnmapMemObject (q_queue q) (si_mem y) ptr)
          else mret CL_SUCCESS);
       _ ← inst_modify sid inst (set_si_mapping_ptr 0);
       mret errNum
     else mret CL_SUCCESS);
  status ←
    (if negb (errNum =? CL_SUCCESS) then mret VMACCEL_FAIL
     else _ ← inst_modify sid inst (set_si_generation gen); mret VMACCEL_SUCCESS);
  _ ← unlock_surface tid sid inst;
  mret (mkStatus status, argp').

(** ** Copy and fill *)

(** The two surfaces' mutexes, then the two instances', released in the
    opposite order. *)
Definition lock_pair (tid srcSid srcInst dstSid dstInst : Z) : B unit :=
  _ ← surf_lock tid srcSid;
  _ ← surf_lock tid dstSid;
  _ ← inst_lock tid srcSid srcInst;
  inst_lock tid dstSid dstInst.

Definition unlock_pair (tid srcSid srcInst dstSid dstInst : Z) : B unit :=
  _ ← inst_unlock tid dstSid dstInst;
  _ ← inst_unlock tid srcSid srcInst;
  _ ← surf_unlock tid dstSid;
  surf_unlock tid srcSid.

Definition vmwopencl_surfacecopy_1 (tid : Z) (argp : VMCLSurfaceCopyOp) : B VMAccelStatus :=
  let qid := VMCLQueueId_id (VMCLSurfaceCopyOp_queue argp) in
  let dst := VMCLSurfaceId_accel (VMCLSurfaceCopyOp_dst argp) in
  let src := VMCLSurfaceId_accel (VMCLSurfaceCopyOp_src argp) in
  let dstSid := VMAccelSurfaceId_id dst in
  let dstGen := VMAccelSurfaceId_generation dst in
  let dstInst := 0 in
  let srcSid := VMAccelSurfaceId_id src in
  let srcGen := VMAccelSurfaceId_generation src in
  let srcInst := 0 in
  let dstRegion := VMAccelSurfaceCopyOp_dstRegion (VMCLSurfaceCopyOp_op argp) in
  let srcRegion := VMAccelSurfaceCopyOp_srcRegion (VMCLSurfaceCopyOp_op argp) in
  let unlock_all := unlock_pair tid srcSid srcInst dstSid dstInst in
  q ← tab_read Queues qid;
  if negb (VMCLSurfaceId_cid (VMCLSurfaceCopyOp_dst argp) =?
           VMCLSurfaceId_cid (VMCLSurfaceCopyOp_src argp)) then
    _ ← assert false; mret (mkStatus VMACCEL_FAIL)
  else
  _ ← lock_pair tid srcSid srcInst dstSid dstInst;
  ys ← inst_read srcSid srcInst;
  yd ← inst_read dstSid dstInst;
  if si_generation ys <? srcGen then
    _ ← unlock_all; mret (mkStatus VMACCEL_RESOURCE_UNAVAILABLE)
  else if (srcGen <? si_generation ys) || (dstGen <? si_generation yd) then
    _ ← unlock_all; mret (mkStatus VMACCEL_SEMANTIC_ERROR)
  else
  xs ← surf_read srcSid;
  xd ← surf_read dstSid;
  status ←
    (if negb (si_svm_ptr ys =? 0) || negb (si_svm_ptr yd =? 0) then mret VMACCEL_FAIL
     else if (VMAccelSurfaceDesc_type (surf_desc xd) =? VMACCEL_SURFACE_BUFFER) &&
             (VMAccelSurfaceDesc_type (surf_desc xs) =? VMACCEL_SURFACE_BUFFER) then
       errNum ← cl_call (clEnqueueCopyBuffer (q_queue q) (si_mem ys) (si_mem yd)
                  (VMAccelCoordinate3DUINT_x (VMAccelSurfaceRegion_coord srcRegion))
                  (VMAccelCoordinate3DUINT_x (VMAccelSurfaceRegion_coord dstRegion))
                  (VMAccelCoordinate3DUINT_x (VMAccelSurfaceRegion_size dstRegion)));
       mret (if negb (errNum =? CL_SUCCESS) then VMACCEL_FAIL else VMACCEL_SUCCESS)
     else _ ← assert false; mret VMACCEL_FAIL);
  _ ← unlock_all;
  mret (mkStatus status).

Definition vmwopencl_imagefill_1 (tid : Z) (argp : VMCLImageFillOp) : B VMAccelStatus :=
  let qid := VMCLQueueId_id (VMCLImageFillOp_queue argp) in
  let accel := VMCLSurfaceId_accel (VMCLImageFillOp_img argp) in
  let sid := VMAccelSurfaceId_id accel in
  let gen := VMAccelSurfaceId_generation accel in
  let inst := 0 in
  let op := VMCLImageFillOp_op argp in
  let region := VMAccelImageFillOp_dstRegion op in
  let u := VMAccelImageFillOp_u op in
  q ← tab_read Queues qid;
  _ ← lock_surface tid sid inst;
  y ← inst_read sid inst;
  if si_generation y <? gen then
    _ ← unlock_surface tid sid inst; mret (mkStatus VMACCEL_RESOURCE_UNAVAILABLE)
  else if gen <? si_generation y then
    _ ← unlock_surface tid sid inst; mret (mkStatus VMACCEL_SEMANTIC_ERROR)
  else
  x ← surf_read sid;
  status ←
    (if negb (si_svm_ptr y =? 0) then mret VMACCEL_FAIL
     else if VMAccelSurfaceDesc_type (surf_desc x) =? VMACCEL_SURFACE_BUFFER then
       errNum ← cl_call (clEnqueueFillBuffer (q_queue q) (si_mem y)
                  [VMAccelElementUINT4D_r u; VMAccelElementUINT4D_g u;
                   VMAccelElementUINT4D_b u; VMAccelElementUINT4D_a u]
                  (VMAccelCoordinate3DUINT_x (VMAccelSurfaceRegion_coord region))
                  (VMAccelCoordinate3DUINT_x (VMAccelSurfaceRegion_size region)));
       if negb (errNum =? CL_SUCCESS) then mret VMACCEL_FAIL
       else _ ← inst_modify sid inst (set_si_generation gen); mret VMACCEL_SUCCESS
     else _ ← assert false; mret VMACCEL_FAIL);
  _ ← unlock_surface tid sid inst;
  mret (mkStatus status).

(** ** Samplers *)

Definition vmwopencl_sampleralloc_1 (argp : VMCLSamplerAllocateDesc) : B VMCLSamplerAllocateStatus :=
  _ ← assert false; mret (mkVMCLSamplerAllocateStatus VMACCEL_FAIL).

Definition vmwopencl_samplerdestroy_1 (argp : VMCLSamplerId) : B VMAccelStatus :=
  _ ← assert false; mret (mkStatus VMACCEL_FAIL).

(** ** Kernels *)

Definition VMCL_OPENCL_C_1_0 : Z := 4.
Definition VMCL_OPENCL_C_1_1 : Z := 7.
Definition VMCL_OPENCL_C_1_2 : Z := 8.
Definition VMCL_OPENCL_C_2_0 : Z := 9.
Definition VMCL_SPIRV_1_0 : Z := 10.
Definition VMCL_OPENCL_CPP_1_0 : Z := 11.
Definition VMCL_SPIRV_1_1 : Z := 12.
Definition VMCL_SPIRV_1_2 : Z := 13.

(** How a program is made from the kernel's language on a context of the
    given version; [None] is the [assert(0)] branch. *)
Definition create_program (context major minor language : Z) (source : list byte) :
    option (cl_state → (Z * Z) * cl_state) :=
  if (language =? VMCL_OPENCL_C_1_0) || (language =? VMCL_OPENCL_C_1_1) ||
     (language =? VMCL_OPENCL_C_1_2) ||
     ((2 <=? major) && (2 <=? minor) && (language =? VMCL_OPENCL_C_2_0))
  then Some (clCreateProgramWithSource context source)
  else if (2 <=? major) && (2 <=? minor) && (language =? VMCL_OPENCL_CPP_1_0)
  then Some (clCreateProgramWithSource context source)
  else if (2 <=? major) && (2 <=? minor) &&
          ((language =? VMCL_SPIRV_1_1) || (language =? VMCL_SPIRV_1_2))
  then Some (clCreateProgramWithIL context source)
  else if (2 <=? major) && (1 <=? minor) && (language =? VMCL_SPIRV_1_0)
  then Some (clCreateProgramWithIL context source)
  else None.

(** The build log of a failed build is only printed. *)
Definition vmwopencl_kernelalloc_1 (argp : VMCLKernelAllocateDesc) : B VMCLKernelAllocateStatus :=
  let cid := VMCLKernelId_cid (VMCLKernelAllocateDesc_client argp) in
  let kid := VMCLKernelId_id (VMCLKernelAllocateDesc_client argp) in
  let subDevice := VMCLKernelAllocateDesc_subDevice argp in
  c ← tab_read Contexts cid;
  let context := ctx_context c in
  deviceId ← access (ctx_deviceIds c !! Z.to_nat subDevice);
  active ← with_db KernelIds (IdentifierDB_ActiveId kid);
  if (active : bool) then mret (mkVMCLKernelAllocateStatus VMACCEL_RESOURCE_UNAVAILABLE) else
  match create_program context (ctx_majorVersion c) (ctx_minorVersion c)
          (VMCLKernelAllocateDesc_language argp) (VMCLKernelAllocateDesc_source argp) with
  | None => _ ← assert false; mret (mkVMCLKernelAllocateStatus VMACCEL_FAIL)
  | Some create =>
      '(program, errNum) ← cl_call create;
      if (program =? 0) || negb (errNum =? CL_SUCCESS)
      then mret (mkVMCLKernelAllocateStatus VMACCEL_FAIL) else
      errNum ← cl_call (clBuildProgram program deviceId);
      if negb (errNum =? CL_SUCCESS) then
        _ ← cl_exec (clReleaseProgram program);
        mret (mkVMCLKernelAllocateStatus VMACCEL_FAIL)
      else
      kernel ← cl_call (clCreateKernel program (VMCLKernelAllocateDesc_kernelName argp));
      if kernel =? 0 then
        _ ← cl_exec (clReleaseProgram program);
        mret (mkVMCLKernelAllocateStatus VMACCEL_FAIL)
      else
      ok ← with_db KernelIds (IdentifierDB_AcquireId kid);
      _ ← (if (ok : bool) then tab_write Kernels kid (mkVMWOpenCLKernel program kernel)
           else assert false);
      mret (mkVMCLKernelAllocateStatus VMACCEL_SUCCESS)
  end.

Definition vmwopencl_kerneldestroy_1 (argp : VMCLKernelId) : B VMAccelStatus :=
  let kid := VMCLKernelId_id argp in
  active ← with_db KernelIds (IdentifierDB_ActiveId kid);
  if negb active then mret (mkStatus VMACCEL_SUCCESS) else
  k ← tab_read Kernels kid;
  _ ← cl_exec (clReleaseProgram (k_program k));
  _ ← cl_exec (clReleaseKernel (k_kernel k));
  _ ← tab_write Kernels kid zero_kernel;
  _ ← with_db KernelIds (IdentifierDB_ReleaseId kid);
  mret (mkStatus VMACCEL_SUCCESS).

(** ** Dispatch *)

(** Binding one surface to a kernel argument. *)
Definition bind_arg (kernel index : Z) (y : VMWOpenCLSurfaceInstance) : B Z :=
  if negb (si_svm_ptr y =? 0) then
    errNum ← cl_call (clSetKernelArgSVMPointer kernel index (si_svm_ptr y));
    if errNum =? CL_SUCCESS
    then cl_call (clSetKernelExecInfo_SVM_PTRS kernel (si_svm_ptr y))
    else mret errNum
  else cl_call (clSetKernelArg kernel index (si_mem y)).

(** The argument loop from [argIndex] on; the result is the index it stops
    at and the status of a [goto cleanup]. *)
Fixpoint dispatch_args (tid kernel argIndex : Z) (args : list VMCLKernelArgDesc) : B (Z * option Z) :=
  match args with
  | [] => mret (argIndex, None)
  | a :: args' =>
      if VMCLKernelArgDesc_type a =? VMCL_ARG_SURFACE then
        let sid := VMAccelSurfaceId_id (VMCLKernelArgDesc_surf a) in
        let gen := VMAccelSurfaceId_generation (VMCLKernelArgDesc_surf a) in
        let inst := VMAccelSurfaceId_instance (VMCLKernelArgDesc_surf a) in
        _ ← lock_surface tid sid inst;
        y ← inst_read sid inst;
        if negb (si_generation y =? gen) then
          mret (argIndex, Some (if gen <? si_generation y then VMACCEL_SEMANTIC_ERROR
                                else VMACCEL_RESOURCE_UNAVAILABLE))
        else
        errNum ← bind_arg kernel (VMCLKernelArgDesc_index a) y;
        if negb (errNum =? CL_SUCCESS) then mret (argIndex, Some VMACCEL_FAIL)
        else dispatch_args tid kernel (argIndex + 1) args'
      else _ ← assert false; mret (argIndex, Some VMACCEL_FAIL)
  end.

(** The cleanup loop over the indices [n - 1] down to 0. *)
Fixpoint dispatch_cleanup (tid : Z) (args : list VMCLKernelArgDesc) (n : nat) : B unit :=
  match n with
  | O => mret tt
  | S k =>
      a ← access (args !! k);
      _ ← (if VMCLKernelArgDesc_type a =? VMCL_ARG_SURFACE
           then unlock_surface tid (VMAccelSurfaceId_id (VMCLKernelArgDesc_surf a))
                  (VMAccelSurfaceId_instance (VMCLKernelArgDesc_surf a))
           else mret tt);
      dispatch_cleanup tid args k
  end.

(** [argIndex = MIN(argIndex, args_len - 1)], compared as unsigned. *)
Definition cleanup_start (argIndex args_len : Z) : Z :=
  if argIndex <? u32 (args_len - 1) then argIndex else s32 (u32 (args_len - 1)).

(** The first [n] elements of a counted array. *)
Definition read_n {A} (n : Z) (l : list A) : B (list A) :=
  if n <=? Z.of_nat (length l) then mret (take (Z.to_nat n) l) else throw BadAccess.

Definition dispatch_enqueue (queue kernel : Z) (argp : VMCLDispatchOp) : B Z :=
  let dimension := VMCLDispatchOp_dimension argp in
  _ ← assert (dimension <=? CL_DEVICE_MAX_WORK_ITEM_DIMENSIONS);
  globalWorkOffset ← read_n dimension (VMCLDispatchOp_globalWorkOffset argp);
  globalWorkSize ← read_n dimension (VMCLDispatchOp_globalWorkSize argp);
  localWorkSize ← read_n dimension (VMCLDispatchOp_localWorkSize argp);
  errNum ← cl_call (clEnqueueNDRangeKernel queue kernel dimension globalWorkOffset
                      globalWorkSize localWorkSize);
  mret (if negb (errNum =? CL_SUCCESS) then VMACCEL_FAIL else VMACCEL_SUCCESS).

Definition vmwopencl_dispatch_1 (tid : Z) (argp : VMCLDispatchOp) : B VMAccelStatus :=
  let qid := VMCLQueueId_id (VMCLDispatchOp_queue argp) in
  let kid := VMCLKernelId_id (VMCLDispatchOp_kernel argp) in
  let args := VMCLDispatchOp_args argp in
  q ← tab_read Queues qid;
  k ← tab_read Kernels kid;
  '(argIndex, stop) ← dispatch_args tid (k_kernel k) 0 args;
  status ← match stop with
           | Some status => mret status
           | None => dispatch_enqueue (q_queue q) (k_kernel k) argp
           end;
  _ ← dispatch_cleanup tid args
        (Z.to_nat (cleanup_start argIndex (Z.of_nat (length args)) + 1));
  mret (mkStatus status).

End Ops.
