(* ===== verification/BackendPower.v ===== *)
(** * Power management and contexts of the OpenCL backend

    [vmwopencl_poweron], [vmwopencl_poweroff] and [vmwopencl_contextalloc_1]
    of backends/vmwopencl/src/vmwopencl_ops.c: device discovery, the derived
    accelerator description, the life of the object tables, and the choice of
    a platform and device class for a context.  Data streaming is compiled
    out ([ENABLE_DATA_STREAMING] is 0). *)

From stdpp Require Import strings.
From S2P Require Import Prelude IdentifierDB XdrRuntime RpcTypes Backend BackendOps.

Open Scope Z_scope.
Open Scope list_scope.

Definition VMACCEL_COMPUTE_ACCELERATOR_MASK : Z := 32.
Definition VMACCEL_SURFACEMAP : Z := 4.
Definition VMCL_SPIRV_1_0_CAP : Z := 4.
Definition VMCL_SPIRV_1_1_CAP : Z := 8.
Definition VMCL_SPIRV_1_2_CAP : Z := 16.
Definition CL_DEVICE_TYPE_CPU : Z := 2.
Definition CL_DEVICE_TYPE_GPU : Z := 4.
Definition CL_DEVICE_TYPE_ACCELERATOR : Z := 8.

(** [platforms[16]] *)
Definition MAX_PLATFORMS : Z := 16.

Definition clDeviceTypes : list Z :=
  [CL_DEVICE_TYPE_GPU; CL_DEVICE_TYPE_ACCELERATOR; CL_DEVICE_TYPE_ACCELERATOR; CL_DEVICE_TYPE_CPU].

Section Power.
Context `{OpenCL}.

(** ** Device capabilities *)

Definition set_cap_value (c : cap) (v : Z) (x : VMWOpenCLCaps) : VMWOpenCLCaps :=
  mkVMWOpenCLCaps (caps_deviceId x)
    ((c, v) :: caps_values x)
    (caps_DEVICE_MAX_WORK_ITEM_SIZES x).

(** One expansion of the [CAP] macro: a failed query keeps the old value. *)
Definition query_cap (c : cl_state) (deviceId : Z) (x : VMWOpenCLCaps) (k : cap) : VMWOpenCLCaps :=
  let '(errNum, val) := clGetDeviceInfo deviceId k c in
  if negb (errNum =? CL_SUCCESS) then x else set_cap_value k val x.

Definition query_caps (deviceId : Z) (x : VMWOpenCLCaps) : B VMWOpenCLCaps :=
  cl_query (λ c, foldl (query_cap c deviceId) x all_caps).

Definition caps_modify (accelArch : nat) (f : VMWOpenCLCaps → VMWOpenCLCaps) : B unit :=
  l ← gets caps;
  x ← access (l !! accelArch);
  modify (set_caps (<[accelArch := f x]> l)).

Definition set_work_item_sizes (p : heap (list Z)) (x : VMWOpenCLCaps) : VMWOpenCLCaps :=
  mkVMWOpenCLCaps (caps_deviceId x) (caps_values x) p.

(** ** Power on *)

Inductive probe : Type :=
| ProbeContinue
| ProbeFail
| ProbeFound.

(** One pass of the platform loop. *)
Definition probe_platform (accelArch : nat) (platform : Z) : B probe :=
  type ← access (clDeviceTypes !! accelArch);
  '(errNum, ids) ← cl_query (clGetDeviceIDs platform type 1);
  if negb (errNum =? CL_SUCCESS) then mret ProbeContinue else
  deviceId ← access (ids !! 0%nat);
  '(errNum, _) ← cl_query (clGetPlatformInfo_VERSION platform);
  if negb (errNum =? CL_SUCCESS) then mret ProbeFail else
  '(errNum, _) ← cl_query (clGetPlatformInfo_NAME platform);
  if negb (errNum =? CL_SUCCESS) then mret ProbeFail else
  '(errNum, _) ← cl_query (clGetPlatformInfo_VENDOR platform);
  if negb (errNum =? CL_SUCCESS) then mret ProbeFail else
  _ ← caps_modify accelArch (λ x,
        mkVMWOpenCLCaps deviceId (caps_values x) (caps_DEVICE_MAX_WORK_ITEM_SIZES x));
  '(errNum, _) ← cl_query (clGetDeviceInfo_NAME deviceId);
  if negb (errNum =? CL_SUCCESS) then mret ProbeContinue else
  l ← gets caps;
  x ← access (l !! accelArch);
  x ← query_caps deviceId x;
  let dims := caps_value x DEVICE_MAX_WORK_ITEM_DIMENSIONS in
  let buffer := replicate (Z.to_nat dims) 0 in
  '(errNum, sizes) ← cl_query (clGetDeviceInfo_WORK_ITEM_SIZES deviceId (dims * SIZEOF_PTR));
  let filled := if errNum =? CL_SUCCESS then take (Z.to_nat dims) (sizes ++ buffer) else buffer in
  _ ← caps_modify accelArch (λ _, set_work_item_sizes (Live filled) x);
  mret (if negb (errNum =? CL_SUCCESS) then ProbeContinue else ProbeFound).

(** The platform loop: [n] platforms remain, the next is [platforms[i]]. *)
Fixpoint probe_platforms (accelArch : nat) (platforms : list Z) (n i : nat) : B probe :=
  match n with
  | O => mret ProbeContinue
  | S n' =>
      platform ← access (platforms !! i);
      r ← probe_platform accelArch platform;
      match r with
      | ProbeContinue => probe_platforms accelArch platforms n' (S i)
      | _ => mret r
      end
  end.

(** The capacity reported for a device, in 32-bit arithmetic. *)
Definition device_capacity (x : VMWOpenCLCaps) : VMAccelWorkloadDesc :=
  let v := caps_value x in
  let megaFlops := u32 (v DEVICE_MAX_COMPUTE_UNITS * v DEVICE_MAX_CLOCK_FREQUENCY) in
  let llcSizeKB := u32 (v DEVICE_GLOBAL_MEM_CACHE_SIZE / 1000) in
  mkVMAccelWorkloadDesc megaFlops megaFlops llcSizeKB
    (u32 (llcSizeKB * (v DEVICE_MAX_CLOCK_FREQUENCY / 1000)))
    (u32 (v DEVICE_LOCAL_MEM_SIZE / 1000)) 0
    (u32 (v DEVICE_GLOBAL_MEM_SIZE / 1000)) 0 0.

(** [calloc] and [IdentifierDB_Alloc] of the object tables; [ok k] says
    whether the k-th allocation succeeds. *)
Definition calloc_table {A} (ok : bool) (n : Z) (zero : A) : heap (list A) :=
  if ok then Live (replicate (Z.to_nat n) zero) else Null.

Definition alloc_db (ok_db ok_bits : bool) (n : Z) : heap IdentifierDB :=
  match IdentifierDB_Alloc ok_db ok_bits n with Some db => Live db | None => Null end.

Definition alloc_tables (ok : nat → bool) (s : backend) : backend :=
  mkBackend (caps s)
    (calloc_table (ok 0%nat) VMCL_MAX_CONTEXTS zero_context)
    (alloc_db (ok 1%nat) (ok 2%nat) VMCL_MAX_CONTEXTS)
    (calloc_table (ok 3%nat) VMCL_MAX_SURFACES zero_surface)
    (alloc_db (ok 4%nat) (ok 5%nat) VMCL_MAX_SURFACES)
    (calloc_table (ok 6%nat) VMCL_MAX_QUEUES zero_queue)
    (alloc_db (ok 7%nat) (ok 8%nat) VMCL_MAX_QUEUES)
    (calloc_table (ok 9%nat) VMCL_MAX_SAMPLERS 0)
    (alloc_db (ok 10%nat) (ok 11%nat) VMCL_MAX_SAMPLERS)
    (calloc_table (ok 12%nat) VMCL_MAX_KERNELS zero_kernel)
    (alloc_db (ok 13%nat) (ok 14%nat) VMCL_MAX_KERNELS)
    (download_result s) (cl s).

Definition tables_missing (s : backend) : bool :=
  is_null (contexts s) || is_null (contextIds s) || is_null (surfaces s) ||
  is_null (surfaceIds s) || is_null (queues s) || is_null (queueIds s) ||
  is_null (samplers s) || is_null (samplerIds s) || is_null (kernels s) || is_null (kernelIds s).

(** [free]: of [NULL] nothing, of a dangling pointer an error. *)
Definition free_heap {A} (p : heap A) : B (heap A) :=
  match p with
  | Null => mret Null
  | Live _ => mret Freed
  | Freed => throw BadAccess
  end.

(** [IdentifierDB_Free] *)
Definition free_db (p : heap IdentifierDB) : B (heap IdentifierDB) :=
  match p with
  | Null => throw AssertFailed
  | Live _ => mret Freed
  | Freed => throw BadAccess
  end.

Fixpoint free_work_item_sizes (l : list VMWOpenCLCaps) : B unit :=
  match l with
  | [] => mret tt
  | x :: l => _ ← free_heap (caps_DEVICE_MAX_WORK_ITEM_SIZES x); free_work_item_sizes l
  end.

(** The static pointers keep their values: they dangle afterwards. *)
Definition vmwopencl_poweroff : B VMAccelStatus :=
  s ← get;
  _ ← free_work_item_sizes (caps s);
  cids ← free_db (contextIds s);  ctxs ← free_heap (contexts s);
  sids ← free_db (surfaceIds s);  surfs ← free_heap (surfaces s);
  qids ← free_db (queueIds s);    qs ← free_heap (queues s);
  smids ← free_db (samplerIds s); sms ← free_heap (samplers s);
  kids ← free_db (kernelIds s);   ks ← free_heap (kernels s);
  _ ← put (mkBackend (replicate VMACCEL_SELECT_MAX zero_caps) ctxs cids surfs sids qs qids
             sms smids ks kids (download_result s) (cl s));
  mret (mkStatus VMACCEL_SUCCESS).

Definition power_desc (accelArch : nat) (x : VMWOpenCLCaps) : VMAccelDesc :=
  mkVMAccelDesc 0 zero_VMAccelAddress VMACCEL_COMPUTE_ACCELERATOR_MASK (Z.of_nat accelArch)
    VMACCEL_SURFACEMAP [] (device_capacity x)
    VMCL_MAX_CONTEXTS VMCL_MAX_QUEUES 0 0 VMCL_MAX_SURFACES VMCL_MAX_SURFACES.

Definition vmwopencl_poweron (ok : nat → bool) (accelArch : nat) : B VMAccelAllocateStatus :=
  let fail := mkVMAccelAllocateStatus VMACCEL_FAIL 0 zero_VMAccelDesc in
  '(errNum, answer) ← cl_query (clGetPlatformIDs MAX_PLATFORMS);
  if negb (errNum =? CL_SUCCESS) then mret fail else
  let '(platforms, numPlatforms) := answer : list Z * Z in
  r ← probe_platforms accelArch platforms (Z.to_nat numPlatforms) 0;
  match r with
  | ProbeFound =>
      l ← gets caps;
      x ← access (l !! accelArch);
      let desc := power_desc accelArch x in
      _ ← modify (alloc_tables ok);
      missing ← gets tables_missing;
      if (missing : bool) then
        _ ← vmwopencl_poweroff;
        mret (mkVMAccelAllocateStatus VMACCEL_FAIL 0 desc)
      else mret (mkVMAccelAllocateStatus VMACCEL_SUCCESS 0 desc)
  | _ => mret fail
  end.

(** ** Context allocation *)

Definition contains (pat s : string) : bool :=
  match String.index 0 pat s with Some _ => true | None => false end.

Definition parse_version (v : string) : Z * Z :=
  if contains "OpenCL 1.2" v then (1, 2)
  else if contains "OpenCL 2.0" v then (2, 0)
  else if contains "OpenCL 2." v then (2, 1)
  else if contains "OpenCL 3." v then (3, 0)
  else (3, 0).

(** The local variables the platform and device loops change. *)
Record ca_locals := mkCaLocals {
  ca_caps : Z;
  ca_context : Z;
  ca_errNum : Z;
  ca_deviceIds : list Z;
  ca_ctxCaps : option nat;
}.

Definition ca_set_errNum e (v : ca_locals) :=
  mkCaLocals (ca_caps v) (ca_context v) e (ca_deviceIds v) (ca_ctxCaps v).
Definition ca_or_caps c (v : ca_locals) :=
  mkCaLocals (Z.lor (ca_caps v) c) (ca_context v) (ca_errNum v) (ca_deviceIds v) (ca_ctxCaps v).

(** The device loop on one platform: [n] classes remain from [j] on. *)
Fixpoint ca_devices (argp : VMCLContextAllocateDesc) (platform : Z) (n j : nat) (v : ca_locals) :
    B ca_locals :=
  match n with
  | O => mret v
  | S n' =>
      let num := Z.max 1 (VMCLContextAllocateDesc_numSubDevices argp) in
      if Z.land (VMCLContextAllocateDesc_selectionMask argp) (shl32 1 (Z.of_nat j)) =? 0
      then ca_devices argp platform n' (S j) v else
      type ← access (clDeviceTypes !! j);
      '(errNum, ids) ← cl_query (clGetDeviceIDs platform type num);
      if negb (errNum =? CL_SUCCESS) then ca_devices argp platform n' (S j) (ca_set_errNum errNum v) else
      (* the naming loop reads [deviceIds[k]] for every [k < num] *)
      if Z.of_nat VMCL_MAX_SUBDEVICES <? num then throw BadAccess else
      let deviceIds := take VMCL_MAX_SUBDEVICES (ids ++ drop (length ids) (ca_deviceIds v)) in
      '(context, errNum) ← cl_call (clCreateContext (take (Z.to_nat num) deviceIds));
      let v' := mkCaLocals (ca_caps v) context errNum deviceIds (ca_ctxCaps v) in
      if negb (errNum =? CL_SUCCESS) then ca_devices argp platform n' (S j) v'
      else if negb (context =? 0)
      then mret (mkCaLocals (ca_caps v) context errNum deviceIds (Some j))
      else ca_devices argp platform n' (S j) v'
  end.

(** The platform loop; [Some (platform, version)] is the iteration it breaks
    at. *)
Fixpoint ca_platforms (argp : VMCLContextAllocateDesc) (platforms : list Z) (n i : nat) (v : ca_locals) :
    B (ca_locals * option (Z * (Z * Z))) :=
  match n with
  | O => mret (v, None)
  | S n' =>
      let next v := ca_platforms argp platforms n' (S i) v in
      let req := VMCLContextAllocateDesc_requiredCaps argp in
      platform ← access (platforms !! i);
      '(errNum, version) ← cl_query (clGetPlatformInfo_VERSION platform);
      if negb (errNum =? CL_SUCCESS) then next (ca_set_errNum errNum v) else
      let '(major, minor) := parse_version version in
      let v := ca_set_errNum errNum v in
      if has_flag req VMCL_SPIRV_1_0_CAP && ((major <? 2) || (minor <? 1)) then next v else
      let v := ca_or_caps VMCL_SPIRV_1_0_CAP v in
      if (has_flag req VMCL_SPIRV_1_1_CAP || has_flag req VMCL_SPIRV_1_2_CAP) &&
         ((major <? 2) || (minor <? 2)) then next v else
      let v := ca_or_caps (Z.lor VMCL_SPIRV_1_1_CAP VMCL_SPIRV_1_2_CAP) v in
      '(errNum, _) ← cl_query (clGetPlatformInfo_NAME platform);
      if negb (errNum =? CL_SUCCESS) then next (ca_set_errNum errNum v) else
      v ← ca_devices argp platform VMACCEL_SELECT_MAX 0 (ca_set_errNum errNum v);
      if negb (ca_context v =? 0) then mret (v, Some (platform, (major, minor))) else next v
  end.

Definition vmwopencl_contextalloc_1 (argp : VMCLContextAllocateDesc) : B VMCLContextAllocateStatus :=
  let cid := VMCLContextAllocateDesc_clientId argp in
  active ← with_db ContextIds (IdentifierDB_ActiveId cid);
  if (active : bool) then mret (mkVMCLContextAllocateStatus VMACCEL_RESOURCE_UNAVAILABLE 0) else
  '(errNum, answer) ← cl_query (clGetPlatformIDs MAX_PLATFORMS);
  let '(platforms, numPlatforms) := answer : list Z * Z in
  if negb (errNum =? CL_SUCCESS) || (numPlatforms <=? 0)
  then mret (mkVMCLContextAllocateStatus VMACCEL_RESOURCE_UNAVAILABLE 0) else
  '(v, found) ← ca_platforms argp platforms (Z.to_nat numPlatforms) 0
                  (mkCaLocals 0 0 errNum (replicate VMCL_MAX_SUBDEVICES 0) None);
  match found with
  | Some (platform, (major, minor)) =>
      if (ca_context v =? 0) || negb (ca_errNum v =? CL_SUCCESS)
      then mret (mkVMCLContextAllocateStatus VMACCEL_RESOURCE_UNAVAILABLE (ca_caps v)) else
      ok ← with_db ContextIds (IdentifierDB_AcquireId cid);
      _ ← (if (ok : bool)
           then tab_write Contexts cid (mkVMWOpenCLContext (ca_context v) platform
                  (ca_deviceIds v) major minor (ca_ctxCaps v))
           else assert false);
      mret (mkVMCLContextAllocateStatus VMACCEL_SUCCESS (ca_caps v))
  | None => mret (mkVMCLContextAllocateStatus VMACCEL_RESOURCE_UNAVAILABLE (ca_caps v))
  end.

End Power.
