(* ===== verification/BackendLemmas.v ===== *)
(** * Critical sections of the OpenCL backend

    The handlers change a surface inside a critical section on the surface's
    and the instance's mutex.  This file describes such state changes as pure
    updates ([upd_surf], [upd_inst]) and proves the laws of entering and
    leaving a section: what is locked first is released last, and leaving
    restores the mutexes whatever the section did to the other members. *)

From S2P Require Import Prelude IdentifierDB XdrRuntime RpcTypes Backend BackendOps.

Lemma lock_unlock tid m m' : mutex_lock tid m = inl m' → mutex_unlock tid m' = inl m.
Proof.
  destruct m as [[t |] | [[t n] |] |]; simpl; try done; [| | ].
  - by intros [= <-].
  - destruct (Z.eqb_spec t tid); [| done]. intros [= <-]. simpl. by rewrite (proj2 (Z.eqb_eq t tid)).
  - intros [= <-]. simpl. by rewrite Z.eqb_refl.
Qed.

Definition can_lock (tid : Z) (m : mutex) : bool :=
  match mutex_lock tid m with inl _ => true | inr _ => false end.

Lemma can_lock_inv tid m : can_lock tid m = true → ∃ m', mutex_lock tid m = inl m'.
Proof. unfold can_lock. destruct (mutex_lock tid m); eauto. done. Qed.

(** A change of an instance that neither reads nor writes its mutex. *)
Definition mutex_free (f : VMWOpenCLSurfaceInstance → VMWOpenCLSurfaceInstance) : Prop :=
  ∀ m y, f (set_si_mutex m y) = set_si_mutex m (f y).

Section Lemmas.
Context `{OpenCL}.
Implicit Types s : backend.

(** ** Pure updates *)

Definition lookup_surf (sid : Z) (s : backend) : option VMWOpenCLSurface := tab_lookup Surfaces sid s.

Definition upd_surf (sid : Z) (F : VMWOpenCLSurface → VMWOpenCLSurface) (s : backend) : backend :=
  match surfaces s with
  | Live l => set_surfaces (Live (alter F (Z.to_nat sid) l)) s
  | _ => s
  end.

Definition on_inst (i : Z) (f : VMWOpenCLSurfaceInstance → VMWOpenCLSurfaceInstance)
    (x : VMWOpenCLSurface) : VMWOpenCLSurface :=
  set_surf_inst (alter f (Z.to_nat i) (surf_inst x)) x.

Definition upd_inst (sid i : Z) (f : VMWOpenCLSurfaceInstance → VMWOpenCLSurfaceInstance) :
    backend → backend := upd_surf sid (on_inst i f).

Definition lookup_inst (sid i : Z) (s : backend) : option VMWOpenCLSurfaceInstance :=
  lookup_surf sid s ≫= λ x, surf_inst x !! Z.to_nat i.

Lemma backend_eta s : set_surfaces (surfaces s) s = s.
Proof. by destruct s. Qed.

Lemma lookup_surf_live sid s x :
  lookup_surf sid s = Some x → ∃ l, surfaces s = Live l ∧ l !! Z.to_nat sid = Some x.
Proof.
  unfold lookup_surf, tab_lookup. simpl. destruct (surfaces s) as [| | l]; simpl; try done. eauto.
Qed.

Lemma lookup_upd_surf sid F s :
  lookup_surf sid (upd_surf sid F s) = F <$> lookup_surf sid s.
Proof.
  unfold lookup_surf, upd_surf, tab_lookup. simpl. destruct (surfaces s) as [| | l] eqn:E; simpl;
    rewrite ?E; simpl; try done. apply list_lookup_alter_eq.
Qed.

Lemma lookup_upd_surf_ne sid sid' F s :
  Z.to_nat sid ≠ Z.to_nat sid' → lookup_surf sid' (upd_surf sid F s) = lookup_surf sid' s.
Proof.
  intros Hne. unfold lookup_surf, upd_surf, tab_lookup. simpl.
  destruct (surfaces s) as [| | l] eqn:E; simpl; rewrite ?E; simpl; try done.
  by apply list_lookup_alter_ne.
Qed.

Lemma lookup_surf_set_cl sid c s : lookup_surf sid (set_cl c s) = lookup_surf sid s.
Proof. done. Qed.

Lemma upd_surf_set_cl sid F c s : upd_surf sid F (set_cl c s) = set_cl c (upd_surf sid F s).
Proof. unfold upd_surf. simpl. by destruct (surfaces s). Qed.

Lemma cl_upd_surf sid F s : cl (upd_surf sid F s) = cl s.
Proof. unfold upd_surf. by destruct (surfaces s). Qed.

Lemma set_cl_set_cl c c' s : set_cl c (set_cl c' s) = set_cl c s.
Proof. done. Qed.

Lemma upd_surf_compose sid F G s : upd_surf sid F (upd_surf sid G s) = upd_surf sid (F ∘ G) s.
Proof.
  unfold upd_surf. destruct (surfaces s) as [| | l] eqn:E; simpl; rewrite ?E; try done.
  by rewrite alter_compose.
Qed.

Lemma upd_surf_ext sid F G s x :
  lookup_surf sid s = Some x → F x = G x → upd_surf sid F s = upd_surf sid G s.
Proof.
  intros (l & Hl & Hx)%lookup_surf_live HFG. unfold upd_surf. rewrite Hl. f_equal. f_equal.
  apply list_alter_ext; [| done]. intros x' Hx'. by simplify_eq.
Qed.

Lemma upd_surf_id sid F s x : lookup_surf sid s = Some x → F x = x → upd_surf sid F s = s.
Proof.
  intros (l & Hl & Hx)%lookup_surf_live HF. unfold upd_surf. rewrite Hl.
  rewrite (alter_id_at _ _ _ x) by done. by rewrite <- Hl, backend_eta.
Qed.

Lemma upd_inst_id sid i s : upd_inst sid i id s = s.
Proof.
  unfold upd_inst, upd_surf. destruct (surfaces s) as [| | l] eqn:E; try done.
  rewrite list_alter_id; [by rewrite <- E, backend_eta |]. intros x. unfold on_inst.
  rewrite list_alter_id by done. by destruct x.
Qed.

Lemma set_cl_id s : set_cl (cl s) s = s.
Proof. by destruct s. Qed.

Lemma lookup_inst_intro sid i s x y :
  lookup_surf sid s = Some x → surf_inst x !! Z.to_nat i = Some y → lookup_inst sid i s = Some y.
Proof. intros Hx Hy. unfold lookup_inst. by rewrite Hx. Qed.

Lemma lookup_inst_inv sid i s y :
  lookup_inst sid i s = Some y →
  ∃ x, lookup_surf sid s = Some x ∧ surf_inst x !! Z.to_nat i = Some y.
Proof. unfold lookup_inst. destruct (lookup_surf sid s); simpl; [eauto | done]. Qed.

Lemma lookup_upd_inst sid i f s :
  lookup_inst sid i (upd_inst sid i f s) = f <$> lookup_inst sid i s.
Proof.
  unfold lookup_inst, upd_inst. rewrite lookup_upd_surf.
  destruct (lookup_surf sid s) as [x |]; simpl; [| done]. apply list_lookup_alter_eq.
Qed.

Lemma upd_inst_compose sid i f g s :
  upd_inst sid i f (upd_inst sid i g s) = upd_inst sid i (f ∘ g) s.
Proof.
  unfold upd_inst, upd_surf. destruct (surfaces s) as [| | l] eqn:E; simpl; rewrite ?E; try done.
  rewrite alter_compose. rewrite (list_alter_ext _ (on_inst i (f ∘ g)) l l); [done | | done].
  intros x _. unfold compose, on_inst, set_surf_inst. simpl. by rewrite alter_compose.
Qed.

Lemma upd_inst_set_cl sid i f c s : upd_inst sid i f (set_cl c s) = set_cl c (upd_inst sid i f s).
Proof. apply upd_surf_set_cl. Qed.

Lemma cl_upd_inst sid i f s : cl (upd_inst sid i f s) = cl s.
Proof. apply cl_upd_surf. Qed.

(** ** The monadic accesses as pure updates *)

Lemma surf_read_eq sid s x : lookup_surf sid s = Some x → surf_read sid s = Done x s.
Proof. intros Hx. unfold surf_read, tab_read. unfold lookup_surf in Hx. by rewrite Hx. Qed.

Lemma surf_read_inv sid s x s' :
  surf_read sid s = Done x s' → lookup_surf sid s = Some x ∧ s' = s.
Proof.
  unfold surf_read, tab_read, lookup_surf. destruct (tab_lookup Surfaces sid s); [| done].
  by intros [= -> ->].
Qed.

Lemma tab_insert_surf sid x F s :
  lookup_surf sid s = Some x → tab_insert Surfaces sid (F x) s = upd_surf sid F s.
Proof.
  intros (l & Hl & Hx)%lookup_surf_live. unfold tab_insert, upd_surf. simpl. rewrite Hl.
  by rewrite (insert_alter_at F _ _ x).
Qed.

Lemma inst_read_eq sid i s y : lookup_inst sid i s = Some y → inst_read sid i s = Done y s.
Proof.
  intros (x & Hx & Hy)%lookup_inst_inv. unfold inst_read. mrun.
  rewrite (surf_read_eq _ _ x) by done. by rewrite Hy.
Qed.

Lemma inst_read_inv sid i s y s' :
  inst_read sid i s = Done y s' → lookup_inst sid i s = Some y ∧ s' = s.
Proof.
  unfold inst_read. mrun. destruct (surf_read sid s) as [x s1 |] eqn:E; [| done].
  apply surf_read_inv in E as [Hx ->]. unfold lookup_inst. rewrite Hx. simpl.
  destruct (surf_inst x !! Z.to_nat i); [| done]. by intros [= -> ->].
Qed.

Lemma inst_modify_eq sid i f s y :
  lookup_inst sid i s = Some y → inst_modify sid i f s = Done tt (upd_inst sid i f s).
Proof.
  intros (x & Hx & Hy)%lookup_inst_inv. unfold inst_modify. mrun.
  rewrite (surf_read_eq _ _ x) by done. rewrite Hy. f_equal.
  rewrite (insert_alter_at f _ _ y) by done.
  by apply (tab_insert_surf sid x (on_inst i f)).
Qed.

(** ** Locking *)

Lemma surf_lock_eq tid sid s x m :
  lookup_surf sid s = Some x → mutex_lock tid (surf_mutex x) = inl m →
  surf_lock tid sid s = Done tt (upd_surf sid (set_surf_mutex m) s).
Proof.
  intros Hx Hm. unfold surf_lock. mrun. rewrite (surf_read_eq _ _ x) by done. rewrite Hm. simpl.
  mrun. f_equal. by apply (tab_insert_surf sid x (set_surf_mutex m)).
Qed.

Lemma surf_lock_inv tid sid s u s1 :
  surf_lock tid sid s = Done u s1 →
  ∃ x m, lookup_surf sid s = Some x ∧ mutex_lock tid (surf_mutex x) = inl m ∧
         s1 = upd_surf sid (set_surf_mutex m) s.
Proof.
  intros Hl. assert (Hl' := Hl). unfold surf_lock in Hl. revert Hl. mrun.
  destruct (surf_read sid s) as [x s2 |] eqn:E; [| done]. apply surf_read_inv in E as [Hx ->].
  destruct (mutex_lock tid (surf_mutex x)) as [m |] eqn:Hm; [| done]. intros _.
  exists x, m. split; [done |]. split; [done |].
  rewrite (surf_lock_eq _ _ _ x m) in Hl' by done. by simplify_eq.
Qed.

Lemma surf_unlock_eq tid sid s x m :
  lookup_surf sid s = Some x → mutex_unlock tid (surf_mutex x) = inl m →
  surf_unlock tid sid s = Done tt (upd_surf sid (set_surf_mutex m) s).
Proof.
  intros Hx Hm. unfold surf_unlock. mrun. rewrite (surf_read_eq _ _ x) by done. rewrite Hm. simpl.
  mrun. f_equal. by apply (tab_insert_surf sid x (set_surf_mutex m)).
Qed.

Lemma inst_lock_eq tid sid i s y m :
  lookup_inst sid i s = Some y → mutex_lock tid (si_mutex y) = inl m →
  inst_lock tid sid i s = Done tt (upd_inst sid i (set_si_mutex m) s).
Proof.
  intros Hy Hm. unfold inst_lock. mrun. rewrite (inst_read_eq _ _ _ y) by done. rewrite Hm. simpl.
  mrun. by apply (inst_modify_eq _ _ _ _ y).
Qed.

Lemma inst_lock_inv tid sid i s u s1 :
  inst_lock tid sid i s = Done u s1 →
  ∃ y m, lookup_inst sid i s = Some y ∧ mutex_lock tid (si_mutex y) = inl m ∧
         s1 = upd_inst sid i (set_si_mutex m) s.
Proof.
  intros Hl. assert (Hl' := Hl). unfold inst_lock in Hl. revert Hl. mrun.
  destruct (inst_read sid i s) as [y s2 |] eqn:E; [| done]. apply inst_read_inv in E as [Hy ->].
  destruct (mutex_lock tid (si_mutex y)) as [m |] eqn:Hm; [| done]. intros _.
  exists y, m. split; [done |]. split; [done |].
  rewrite (inst_lock_eq _ _ _ _ y m) in Hl' by done. by simplify_eq.
Qed.

Lemma inst_unlock_eq tid sid i s y m :
  lookup_inst sid i s = Some y → mutex_unlock tid (si_mutex y) = inl m →
  inst_unlock tid sid i s = Done tt (upd_inst sid i (set_si_mutex m) s).
Proof.
  intros Hy Hm. unfold inst_unlock. mrun. rewrite (inst_read_eq _ _ _ y) by done. rewrite Hm. simpl.
  mrun. by apply (inst_modify_eq _ _ _ _ y).
Qed.

(** ** What is locked first is released last *)

Lemma mutex_free_mutex f y : mutex_free f → si_mutex (f y) = si_mutex y.
Proof.
  intros Hf. assert (f (set_si_mutex (si_mutex y) y) = set_si_mutex (si_mutex y) (f y)) as E by apply Hf.
  replace (set_si_mutex (si_mutex y) y) with y in E by (by destruct y). rewrite E at 1. done.
Qed.

Lemma surf_unlock_nested tid sid i f s u s1 c :
  surf_lock tid sid s = Done u s1 →
  surf_unlock tid sid (set_cl c (upd_inst sid i f s1)) = Done tt (set_cl c (upd_inst sid i f s)).
Proof.
  intros (x & m & Hx & Hm & ->)%surf_lock_inv.
  rewrite (surf_unlock_eq _ _ _ (on_inst i f (set_surf_mutex m x)) (surf_mutex x)).
  - f_equal. rewrite upd_surf_set_cl. f_equal. unfold upd_inst. rewrite !upd_surf_compose.
    apply (upd_surf_ext _ _ _ _ x); [done |]. by destruct x.
  - rewrite lookup_surf_set_cl. unfold upd_inst. by rewrite !lookup_upd_surf, Hx.
  - simpl. by apply lock_unlock.
Qed.

Lemma inst_unlock_nested tid sid i f s u s1 c :
  mutex_free f →
  inst_lock tid sid i s = Done u s1 →
  inst_unlock tid sid i (set_cl c (upd_inst sid i f s1)) = Done tt (set_cl c (upd_inst sid i f s)).
Proof.
  intros Hf (y & m & Hy & Hm & ->)%inst_lock_inv.
  rewrite (inst_unlock_eq _ _ _ _ (f (set_si_mutex m y)) (si_mutex y)).
  - f_equal. unfold upd_inst. rewrite upd_surf_set_cl. f_equal. rewrite !upd_surf_compose.
    apply lookup_inst_inv in Hy as (x & Hx & Hy).
    apply (upd_surf_ext _ _ _ _ x); [done |]. unfold compose, on_inst. simpl.
    rewrite !alter_compose. unfold set_surf_inst. simpl. f_equal.
    apply list_alter_ext; [| done]. intros y' Hy'. assert (y' = y) as -> by congruence. simpl.
    rewrite Hf. rewrite <- (mutex_free_mutex f y) by done. by destruct (f y).
  - change (lookup_inst sid i (set_cl c ?s)) with (lookup_inst sid i s).
    by rewrite !lookup_upd_inst, Hy.
  - rewrite mutex_free_mutex by done. simpl. by apply lock_unlock.
Qed.

(** Entering and leaving the section of one surface instance. *)
Lemma lock_surface_eq tid sid i s x y :
  lookup_surf sid s = Some x → surf_inst x !! Z.to_nat i = Some y →
  can_lock tid (surf_mutex x) = true → can_lock tid (si_mutex y) = true →
  ∃ s1, lock_surface tid sid i s = Done tt s1.
Proof.
  intros Hx Hy (m1 & H1)%can_lock_inv (m2 & H2)%can_lock_inv. unfold lock_surface. mrun.
  rewrite (surf_lock_eq _ _ _ x m1) by done.
  rewrite (inst_lock_eq _ _ _ _ y m2); [eauto | | done].
  apply (lookup_inst_intro _ _ _ (set_surf_mutex m1 x)); [| done]. by rewrite lookup_upd_surf, Hx.
Qed.

Lemma lock_surface_inv tid sid i s u s1 :
  lock_surface tid sid i s = Done u s1 →
  ∃ x y m1 m2, lookup_surf sid s = Some x ∧ surf_inst x !! Z.to_nat i = Some y ∧
    mutex_lock tid (surf_mutex x) = inl m1 ∧ mutex_lock tid (si_mutex y) = inl m2 ∧
    s1 = upd_inst sid i (set_si_mutex m2) (upd_surf sid (set_surf_mutex m1) s).
Proof.
  unfold lock_surface. mrun. destruct (surf_lock tid sid s) as [u1 s0 |] eqn:E; [| done].
  intros (y & m2 & Hy & H2 & ->)%inst_lock_inv.
  apply surf_lock_inv in E as (x & m1 & Hx & H1 & ->).
  apply lookup_inst_inv in Hy as (x' & Hx' & Hy). rewrite lookup_upd_surf, Hx in Hx'.
  injection Hx' as <-. exists x, y, m1, m2. by split_and!.
Qed.

Lemma unlock_surface_nested tid sid i f s u s1 c :
  mutex_free f →
  lock_surface tid sid i s = Done u s1 →
  unlock_surface tid sid i (set_cl c (upd_inst sid i f s1)) = Done tt (set_cl c (upd_inst sid i f s)).
Proof.
  intros Hf. unfold lock_surface, unlock_surface. mrun.
  destruct (surf_lock tid sid s) as [u1 s0 |] eqn:E1; [| done]. intros E2.
  rewrite (inst_unlock_nested _ _ _ _ _ _ _ _ Hf E2).
  by rewrite (surf_unlock_nested _ _ _ _ _ _ _ _ E1).
Qed.

Lemma unlock_surface_same tid sid i s u s1 c :
  lock_surface tid sid i s = Done u s1 →
  unlock_surface tid sid i (set_cl c s1) = Done tt (set_cl c s).
Proof.
  intros Hl. pose proof (unlock_surface_nested tid sid i id s u s1 c) as E.
  rewrite !upd_inst_id in E. by apply E.
Qed.

Lemma surf_unlock_same tid sid s u s1 c :
  surf_lock tid sid s = Done u s1 →
  surf_unlock tid sid (set_cl c s1) = Done tt (set_cl c s).
Proof.
  intros Hl. pose proof (surf_unlock_nested tid sid 0 id s u s1 c Hl) as E.
  by rewrite !upd_inst_id in E.
Qed.

Lemma inst_unlock_same tid sid i s u s1 c :
  inst_lock tid sid i s = Done u s1 →
  inst_unlock tid sid i (set_cl c s1) = Done tt (set_cl c s).
Proof.
  intros Hl. pose proof (inst_unlock_nested tid sid i id s u s1 c) as E.
  rewrite !upd_inst_id in E. by apply E.
Qed.

(** ** The state without its mutexes *)

Definition erase_inst (y : VMWOpenCLSurfaceInstance) : VMWOpenCLSurfaceInstance :=
  set_si_mutex mutex_zero y.
Definition erase_surf (x : VMWOpenCLSurface) : VMWOpenCLSurface :=
  mkVMWOpenCLSurface (surf_cid x) (surf_desc x) (erase_inst <$> surf_inst x) mutex_zero.
Definition erase (s : backend) : backend :=
  match surfaces s with Live l => set_surfaces (Live (erase_surf <$> l)) s | _ => s end.

Lemma erase_upd_surf sid F s :
  (∀ x, erase_surf (F x) = erase_surf x) → erase (upd_surf sid F s) = erase s.
Proof.
  intros HF. unfold erase, upd_surf. destruct (surfaces s) as [| | l] eqn:E; simpl; rewrite ?E; try done.
  by rewrite (fmap_alter_same erase_surf F).
Qed.

Lemma erase_on_inst i f x :
  (∀ y, erase_inst (f y) = erase_inst y) → erase_surf (on_inst i f x) = erase_surf x.
Proof.
  intros Hf. unfold erase_surf, on_inst. simpl. by rewrite (fmap_alter_same erase_inst f).
Qed.

Lemma erase_surf_lock tid sid s u s1 : surf_lock tid sid s = Done u s1 → erase s1 = erase s.
Proof. intros (x & m & _ & _ & ->)%surf_lock_inv. by apply erase_upd_surf. Qed.

Lemma erase_inst_lock tid sid i s u s1 : inst_lock tid sid i s = Done u s1 → erase s1 = erase s.
Proof.
  intros (y & m & _ & _ & ->)%inst_lock_inv. apply erase_upd_surf. intros x. by apply erase_on_inst.
Qed.

Lemma erase_lock_surface tid sid i s u s1 : lock_surface tid sid i s = Done u s1 → erase s1 = erase s.
Proof.
  unfold lock_surface. mrun. destruct (surf_lock tid sid s) as [u1 s0 |] eqn:E1; [| done]. intros E2.
  by rewrite (erase_inst_lock _ _ _ _ _ _ E2), (erase_surf_lock _ _ _ _ _ E1).
Qed.

Lemma erase_set_cl c s : erase (set_cl c s) = set_cl c (erase s).
Proof. unfold erase. simpl. by destruct (surfaces s). Qed.

Lemma lookup_surf_erase sid s : lookup_surf sid (erase s) = erase_surf <$> lookup_surf sid s.
Proof.
  unfold lookup_surf, tab_lookup, erase. simpl. destruct (surfaces s) as [| | l] eqn:E; simpl;
    rewrite ?E; try done. simpl. apply list_lookup_fmap.
Qed.

(** Two states that agree without their mutexes hold the same surface data. *)
Lemma erase_same_surf s s' sid x :
  erase s' = erase s → lookup_surf sid s = Some x →
  ∃ x', lookup_surf sid s' = Some x' ∧ erase_surf x' = erase_surf x.
Proof.
  intros He Hx. pose proof (lookup_surf_erase sid s') as E. rewrite He, lookup_surf_erase, Hx in E.
  destruct (lookup_surf sid s') as [x' |]; [| done]. apply (inj Some) in E. by exists x'.
Qed.

Lemma erase_same_inst s s' sid i y :
  erase s' = erase s → lookup_inst sid i s = Some y →
  ∃ y', lookup_inst sid i s' = Some y' ∧ erase_inst y' = erase_inst y.
Proof.
  intros He (x & Hx & Hy)%lookup_inst_inv.
  destruct (erase_same_surf s s' sid x He Hx) as (x' & Hx' & E).
  assert ((erase_inst <$> surf_inst x') !! Z.to_nat i = (erase_inst <$> surf_inst x) !! Z.to_nat i) as El.
  { change (erase_inst <$> surf_inst x') with (surf_inst (erase_surf x')).
    change (erase_inst <$> surf_inst x) with (surf_inst (erase_surf x)). by rewrite E. }
  rewrite !list_lookup_fmap, Hy in El. unfold lookup_inst. rewrite Hx'. simpl.
  destruct (surf_inst x' !! Z.to_nat i) as [y' |]; [| done]. apply (inj Some) in El. by exists y'.
Qed.

Lemma erase_cl s s' : erase s' = erase s → cl s' = cl s.
Proof.
  intros He. assert (cl (erase s') = cl (erase s)) as E by (by rewrite He). revert E. unfold erase.
  by destruct (surfaces s), (surfaces s').
Qed.
End Lemmas.
