(* ===== verification/BackendFrame.v ===== *)
(** * Requests and frames of the OpenCL backend

    All handlers as one function [exec] on requests, and what each of them
    leaves alone: a view [π] of the state is kept by a computation when
    running it never changes the view.  The rules follow the monad, and the
    tactic [keeps_auto] applies them. *)

From S2P Require Import Prelude IdentifierDB XdrRuntime RpcTypes Backend BackendOps.
From S2P Require Import BackendPower BackendLemmas.

Inductive request : Type :=
| ContextAlloc (argp : VMCLContextAllocateDesc)
| ContextDestroy (argp : Z)
| SurfaceAlloc (argp : VMCLSurfaceAllocateDesc)
| SurfaceDestroy (argp : VMCLSurfaceId)
| QueueAlloc (argp : VMCLQueueAllocateDesc)
| QueueDestroy (argp : VMCLQueueId)
| QueueFlush (argp : VMCLQueueId)
| ImageUpload (argp : VMCLImageUploadOp)
| ImageDownload (argp : VMCLImageDownloadOp)
| SurfaceMap (argp : VMCLSurfaceMapOp)
| SurfaceUnmap (argp : VMCLSurfaceUnmapOp)
| SurfaceCopy (argp : VMCLSurfaceCopyOp)
| ImageFill (argp : VMCLImageFillOp)
| SamplerAlloc (argp : VMCLSamplerAllocateDesc)
| SamplerDestroy (argp : VMCLSamplerId)
| KernelAlloc (argp : VMCLKernelAllocateDesc)
| KernelDestroy (argp : VMCLKernelId)
| Dispatch (argp : VMCLDispatchOp).

Section Frame.
Context `{OpenCL}.
Implicit Types s : backend.

(** The backend's operation table [vmwopenclOps], the answer dropped. *)
Definition exec (tid : Z) (r : request) : B unit :=
  match r with
  | ContextAlloc a => _ ← vmwopencl_contextalloc_1 a; mret tt
  | ContextDestroy a => _ ← vmwopencl_contextdestroy_1 a; mret tt
  | SurfaceAlloc a => _ ← vmwopencl_surfacealloc_1 tid a; mret tt
  | SurfaceDestroy a => _ ← vmwopencl_surfacedestroy_1 tid a; mret tt
  | QueueAlloc a => _ ← vmwopencl_queuealloc_1 a; mret tt
  | QueueDestroy a => _ ← vmwopencl_queuedestroy_1 a; mret tt
  | QueueFlush a => _ ← vmwopencl_queueflush_1 a; mret tt
  | ImageUpload a => _ ← vmwopencl_imageupload_1 tid a; mret tt
  | ImageDownload a => _ ← vmwopencl_imagedownload_1 tid a; mret tt
  | SurfaceMap a => _ ← vmwopencl_surfacemap_1 tid a; mret tt
  | SurfaceUnmap a => _ ← vmwopencl_surfaceunmap_1 tid a; mret tt
  | SurfaceCopy a => _ ← vmwopencl_surfacecopy_1 tid a; mret tt
  | ImageFill a => _ ← vmwopencl_imagefill_1 tid a; mret tt
  | SamplerAlloc a => _ ← vmwopencl_sampleralloc_1 a; mret tt
  | SamplerDestroy a => _ ← vmwopencl_samplerdestroy_1 a; mret tt
  | KernelAlloc a => _ ← vmwopencl_kernelalloc_1 a; mret tt
  | KernelDestroy a => _ ← vmwopencl_kerneldestroy_1 a; mret tt
  | Dispatch a => _ ← vmwopencl_dispatch_1 tid a; mret tt
  end.

(** ** Inversion of runs that return *)

Lemma bind_done {A C} (m : B A) (k : A → B C) s b s' :
  (m ≫= k) s = Done b s' → ∃ a s1, m s = Done a s1 ∧ k a s1 = Done b s'.
Proof. unfold mbind, M_bind. destruct (m s); [eauto | done]. Qed.

Lemma tab_read_inv {A} (t : table A) i s a s' :
  tab_read t i s = Done a s' → tab_lookup t i s = Some a ∧ s' = s.
Proof. unfold tab_read. destruct (tab_lookup t i s); [| done]. by intros [= -> ->]. Qed.

Lemma tab_lookup_live {A} (t : table A) i s a :
  tab_lookup t i s = Some a → ∃ l, t_get t s = Live l ∧ l !! Z.to_nat i = Some a.
Proof. unfold tab_lookup. destruct (t_get t s); simpl; try done. eauto. Qed.

Lemma tab_write_inv {A} (t : table A) i a s u s' :
  tab_write t i a s = Done u s' →
  ∃ l, t_get t s = Live l ∧ is_Some (l !! Z.to_nat i) ∧ s' = t_set t (Live (<[Z.to_nat i := a]> l)) s.
Proof.
  unfold tab_write. intros (b & s1 & Hr & Hm)%bind_done. apply tab_read_inv in Hr as [Hl ->].
  apply tab_lookup_live in Hl as (l & Hl & Hb). exists l. injection Hm as _ <-. unfold tab_insert.
  rewrite Hl. eauto.
Qed.

Lemma with_db_inv {A} (d : dbref) (m : M IdentifierDB A) s a s' :
  with_db d m s = Done a s' →
  ∃ db db', d_get d s = Live db ∧ m db = Done a db' ∧ s' = d_set d (Live db') s.
Proof.
  unfold with_db. destruct (d_get d s) as [| | db]; simpl; try done.
  destruct (m db) as [a' db' |] eqn:E; [| done]. intros [= -> <-]. eauto.
Qed.

(** ** Views kept by a computation *)

Definition keeps {X A} (π : backend → X) (m : B A) : Prop :=
  ∀ s a s', m s = Done a s' → π s' = π s.

Section Rules.
Context {X : Type} (π : backend → X).

Lemma keeps_ret {A} (a : A) : keeps π (mret a).
Proof. by intros s b s' [= <- <-]. Qed.

Lemma keeps_bind {A C} (m : B A) (k : A → B C) :
  keeps π m → (∀ a, keeps π (k a)) → keeps π (m ≫= k).
Proof.
  intros Hm Hk s b s' (a & s1 & H1 & H2)%bind_done.
  by rewrite (Hk a s1 b s' H2), (Hm s a s1 H1).
Qed.

Lemma keeps_throw {A} f : keeps π (throw f : B A).
Proof. done. Qed.

Lemma keeps_assert b : keeps π (assert b).
Proof. destruct b; [apply keeps_ret | done]. Qed.

Lemma keeps_access {A} (o : option A) : keeps π (access o).
Proof. destruct o; [apply keeps_ret | done]. Qed.

Lemma keeps_gets {A} (f : backend → A) : keeps π (gets f).
Proof. by intros s a s' [= <- <-]. Qed.

Lemma keeps_modify f : (∀ s, π (f s) = π s) → keeps π (modify f).
Proof. intros Hf s a s' [= <- <-]. apply Hf. Qed.

Lemma keeps_cl_query {A} (f : cl_state → A) : keeps π (cl_query f).
Proof. apply keeps_gets. Qed.

Lemma keeps_tab_read {A} (t : table A) i : keeps π (tab_read t i).
Proof. by intros s a s' [_ ->]%tab_read_inv. Qed.

Lemma keeps_surf_read sid : keeps π (surf_read sid).
Proof. apply keeps_tab_read. Qed.

Lemma keeps_inst_read sid i : keeps π (inst_read sid i).
Proof. by intros s a s' [_ ->]%inst_read_inv. Qed.

Lemma keeps_cl_call {A} (f : cl_state → A * cl_state) :
  (∀ c s, π (set_cl c s) = π s) → keeps π (cl_call f).
Proof. intros Hcl s a s'. unfold cl_call. destruct (f (cl s)). intros [= <- <-]. apply Hcl. Qed.

Lemma keeps_cl_exec (f : cl_state → cl_state) :
  (∀ c s, π (set_cl c s) = π s) → keeps π (cl_exec f).
Proof. intros Hcl. by apply keeps_modify. Qed.

Lemma keeps_with_db {A} (d : dbref) (m : M IdentifierDB A) :
  (∀ x s, π (d_set d x s) = π s) → keeps π (with_db d m).
Proof. intros Hd s a s' (db & db' & _ & _ & ->)%with_db_inv. apply Hd. Qed.

Lemma keeps_tab_write {A} (t : table A) i a :
  (∀ x s, π (t_set t x s) = π s) → keeps π (tab_write t i a).
Proof. intros Ht s u s' (l & _ & _ & ->)%tab_write_inv. apply Ht. Qed.

Lemma keeps_tab_modify {A} (t : table A) i f :
  (∀ x s, π (t_set t x s) = π s) → keeps π (tab_modify t i f).
Proof.
  intros Ht. apply keeps_bind; [apply keeps_tab_read | intros a]. apply keeps_modify. intros s.
  unfold tab_insert. by destruct (t_get t s).
Qed.

Lemma keeps_inst_modify_any sid i f :
  (∀ x s, π (set_surfaces x s) = π s) → keeps π (inst_modify sid i f).
Proof.
  intros Hs. apply keeps_bind; [apply keeps_surf_read | intros x].
  apply keeps_bind; [apply keeps_access | intros y]. apply keeps_modify. intros s.
  unfold tab_insert. simpl. by destruct (surfaces s).
Qed.

Lemma keeps_for_from n : ∀ i body, (∀ j, keeps π (body j)) → keeps π (for_from n i body).
Proof.
  induction n as [| n IH]; intros i body Hb; simpl; [apply keeps_ret |].
  apply keeps_bind; [apply Hb | intros _; by apply IH].
Qed.
End Rules.

(** Looking an id up leaves the database, and so the state, as it is. *)
Lemma ActiveId_state id db b db' : ActiveId id db = Done b db' → db' = db.
Proof.
  unfold ActiveId, bits_get. mrun. destruct (size db <=? id); [by intros [= _ <-] |].
  destruct (bits db !! _); [| done]. by intros [= _ <-].
Qed.

Class DbLaws (d : dbref) : Prop :=
  db_set_get s : d_set d (d_get d s) s = s.
#[global] Instance dblaws_ContextIds : DbLaws ContextIds. Proof. by intros []. Qed.
#[global] Instance dblaws_SurfaceIds : DbLaws SurfaceIds. Proof. by intros []. Qed.
#[global] Instance dblaws_QueueIds : DbLaws QueueIds. Proof. by intros []. Qed.
#[global] Instance dblaws_SamplerIds : DbLaws SamplerIds. Proof. by intros []. Qed.
#[global] Instance dblaws_KernelIds : DbLaws KernelIds. Proof. by intros []. Qed.

Lemma with_db_Active d `{!DbLaws d} id s b s' :
  with_db d (IdentifierDB_ActiveId id) s = Done b s' →
  ∃ db, d_get d s = Live db ∧ ActiveId id db = Done b db ∧ s' = s.
Proof.
  intros (db & db' & Hd & Ha & ->)%with_db_inv. assert (db' = db) as -> by (by eapply ActiveId_state).
  exists db. split; [done |]. split; [done |]. by rewrite <- Hd, db_set_get.
Qed.

Lemma with_db_Count d `{!DbLaws d} s n s' : with_db d IdentifierDB_Count s = Done n s' → s' = s.
Proof. intros (db & db' & Hd & [= _ <-] & ->)%with_db_inv. by rewrite <- Hd, db_set_get. Qed.

Lemma keeps_Active {X} (π : backend → X) d `{!DbLaws d} id :
  keeps π (with_db d (IdentifierDB_ActiveId id)).
Proof. by intros s b s' (db & _ & _ & ->)%with_db_Active. Qed.

Lemma keeps_Count {X} (π : backend → X) d `{!DbLaws d} : keeps π (with_db d IdentifierDB_Count).
Proof. by intros s n s' ->%with_db_Count. Qed.


(** ** Surfaces: what the data handlers do not touch *)

Definition core_inst (y : VMWOpenCLSurfaceInstance) : Z * Z := (si_mem y, si_svm_ptr y).
Definition core_surf (x : VMWOpenCLSurface) : list (Z * Z) := core_inst <$> surf_inst x.

(** A view that sees of the surfaces at most their storage handles. *)
Class IgnoresSurf {X} (π : backend → X) : Prop :=
  ignores_surf sid F s : (∀ x, core_surf (F x) = core_surf x) → π (upd_surf sid F s) = π s.

Section SurfRules.
Context {X : Type} (π : backend → X) `{!IgnoresSurf π}.

Lemma keeps_inst_modify sid i f :
  (∀ y, core_inst (f y) = core_inst y) → keeps π (inst_modify sid i f).
Proof.
  intros Hf s u s'. unfold inst_modify. intros (x & s1 & Hx & Hm)%bind_done.
  apply surf_read_inv in Hx as [Hx ->]. apply bind_done in Hm as (y & s2 & Hy & Hm).
  destruct (surf_inst x !! Z.to_nat i) as [y' |] eqn:E; [| done]. injection Hy as -> <-.
  injection Hm as _ <-. rewrite (insert_alter_at f _ _ y) by done.
  rewrite (tab_insert_surf sid x (on_inst i f)) by done. apply ignores_surf.
  intros x0. unfold core_surf, on_inst. simpl. by apply fmap_alter_same.
Qed.

Lemma keeps_surf_lock tid sid : keeps π (surf_lock tid sid).
Proof. intros s u s' (x & m & _ & _ & ->)%surf_lock_inv. by apply ignores_surf. Qed.

Lemma keeps_surf_unlock tid sid : keeps π (surf_unlock tid sid).
Proof.
  intros s u s'. unfold surf_unlock. intros (x & s1 & Hx & Hm)%bind_done.
  apply surf_read_inv in Hx as [Hx ->]. apply bind_done in Hm as (m & s2 & Hu & Hm).
  destruct (mutex_unlock tid (surf_mutex x)); [| done]. injection Hu as -> <-. injection Hm as _ <-.
  rewrite (tab_insert_surf sid x (set_surf_mutex m)) by done. by apply ignores_surf.
Qed.

Lemma keeps_or_fault {A} (r : A + fault) : keeps π (or_fault r).
Proof. destruct r; [apply keeps_ret | done]. Qed.

Lemma keeps_inst_lock tid sid i : keeps π (inst_lock tid sid i).
Proof.
  apply keeps_bind; [apply keeps_inst_read | intros y]. apply keeps_bind; [apply keeps_or_fault | intros m].
  by apply keeps_inst_modify.
Qed.

Lemma keeps_inst_unlock tid sid i : keeps π (inst_unlock tid sid i).
Proof.
  apply keeps_bind; [apply keeps_inst_read | intros y]. apply keeps_bind; [apply keeps_or_fault | intros m].
  by apply keeps_inst_modify.
Qed.

Lemma keeps_lock_surface tid sid i : keeps π (lock_surface tid sid i).
Proof. apply keeps_bind; [apply keeps_surf_lock | intros _; apply keeps_inst_lock]. Qed.

Lemma keeps_unlock_surface tid sid i : keeps π (unlock_surface tid sid i).
Proof. apply keeps_bind; [apply keeps_inst_unlock | intros _; apply keeps_surf_unlock]. Qed.

End SurfRules.
End Frame.

(** [keeps_auto] follows the program text; views are seen not to depend on
    the member a primitive writes by computation. *)
Ltac keeps_loop := fail.

Ltac keeps_prim :=
  first
  [ apply keeps_ret | apply keeps_throw | apply keeps_assert | apply keeps_access
  | apply keeps_gets | apply keeps_cl_query | apply keeps_tab_read | apply keeps_surf_read
  | apply keeps_inst_read | apply keeps_Active; apply _ | apply keeps_Count; apply _
  | apply keeps_cl_call; done | apply keeps_cl_exec; done
  | apply keeps_lock_surface; apply _ | apply keeps_unlock_surface; apply _
  | apply keeps_surf_lock; apply _ | apply keeps_surf_unlock; apply _
  | apply keeps_inst_lock; apply _ | apply keeps_inst_unlock; apply _
  | apply keeps_inst_modify; [apply _ | done] | apply keeps_inst_modify_any; done
  | apply keeps_with_db; done | apply keeps_tab_write; done
  | apply keeps_tab_modify; done | apply keeps_modify; done
  | keeps_loop | assumption ].

Ltac keeps_step :=
  lazymatch goal with
  | |- keeps _ (mbind _ _) => apply keeps_bind; [| intros ?]
  | |- keeps _ (if ?b then _ else _) => destruct b
  | |- keeps _ (let '(_, _) := ?x in _) => destruct x
  | |- keeps _ (match ?x with _ => _ end) => destruct x
  | |- keeps _ (for_from _ _ _) => apply keeps_for_from; intros ?
  | _ => keeps_prim
  end.

Ltac keeps_auto := repeat (cbv zeta beta; keeps_step).

Section Loops.
Context `{OpenCL} {X : Type} (π : backend → X).
Hypothesis π_cl : ∀ c s, π (set_cl c s) = π s.

Lemma keeps_alloc_instances alloc release n : ∀ acc, keeps π (alloc_instances alloc release n acc).
Proof. induction n as [| n IH]; intros acc; simpl; keeps_auto. apply IH. Qed.

Lemma keeps_ca_devices argp platform n : ∀ j v, keeps π (ca_devices argp platform n j v).
Proof. induction n as [| n IH]; intros j v; simpl; keeps_auto; apply IH. Qed.

Lemma keeps_ca_platforms argp platforms n : ∀ i v, keeps π (ca_platforms argp platforms n i v).
Proof. induction n as [| n IH]; intros i v; simpl; keeps_auto; apply IH. Qed.

Context `{!IgnoresSurf π}.

Lemma keeps_bind_arg kernel index y : keeps π (bind_arg kernel index y).
Proof. unfold bind_arg. keeps_auto. Qed.

Lemma keeps_dispatch_args tid kernel args : ∀ i, keeps π (dispatch_args tid kernel i args).
Proof.
  induction args as [| a args IH]; intros i; simpl; keeps_auto; [apply keeps_bind_arg | apply IH].
Qed.

Lemma keeps_dispatch_cleanup tid args n : keeps π (dispatch_cleanup tid args n).
Proof. induction n as [| n IH]; simpl; keeps_auto. Qed.
End Loops.

Ltac keeps_loop ::=
  first
  [ apply keeps_alloc_instances; done | apply keeps_ca_devices; done | apply keeps_ca_platforms; done
  | apply keeps_bind_arg; done || apply _ | apply keeps_dispatch_args; done || apply _
  | apply keeps_dispatch_cleanup; done || apply _ ].
