(* ===== verification/SimCL.v ===== *)
(** * A concrete OpenCL runtime

    A small sequential runtime that executes every command at once; it shows
    that the hypotheses of the backend's theorems can be met.  It has one
    platform with one device, memory objects are byte strings named by their
    handle (which is also their mapped address), and every fallible command
    answers [sim_err]. *)

From stdpp Require Import strings.
From S2P Require Import Prelude IdentifierDB XdrRuntime RpcTypes Backend.
Open Scope Z_scope.
Open Scope list_scope.

Record sim := mkSim {
  sim_next : Z;
  sim_mem : gmap Z (list byte);
  sim_err : Z;
}.

Definition sim_write (h off : Z) (data : list byte) (c : sim) : sim :=
  match sim_mem c !! h with
  | Some b => mkSim (sim_next c)
      (<[h := take (Z.to_nat off) b ++ data ++ drop (Z.to_nat off + length data) b]> (sim_mem c))
      (sim_err c)
  | None => c
  end.

Definition sim_slice (h off len : Z) (c : sim) : list byte :=
  take (Z.to_nat len) (drop (Z.to_nat off) (default [] (sim_mem c !! h))).

Definition sim_new (data : list byte) (c : sim) : Z * sim :=
  (sim_next c, mkSim (sim_next c + 1) (<[sim_next c := data]> (sim_mem c)) (sim_err c)).

Definition sim_drop (h : Z) (c : sim) : sim := mkSim (sim_next c) (delete h (sim_mem c)) (sim_err c).

(** A command that takes effect when the runtime answers [CL_SUCCESS]. *)
Definition sim_run (f : sim → sim) (c : sim) : Z * sim :=
  (sim_err c, if sim_err c =? CL_SUCCESS then f c else c).

#[export] Instance simcl : OpenCL := {|
  cl_state := sim;
  clGetPlatformIDs := λ _ _, (CL_SUCCESS, ([1], 1));
  clGetPlatformInfo_VERSION := λ _ _, (CL_SUCCESS, "OpenCL 2.0 sim"%string);
  clGetPlatformInfo_NAME := λ _ _, (CL_SUCCESS, "sim"%string);
  clGetPlatformInfo_VENDOR := λ _ _, (CL_SUCCESS, "sim"%string);
  clGetDeviceIDs := λ _ type _ _, if type =? 4 then (CL_SUCCESS, [7]) else (-1, []);
  clGetDeviceInfo_NAME := λ _ _, (CL_SUCCESS, "device"%string);
  clGetDeviceInfo := λ _ _ _, (CL_SUCCESS, 3);
  clGetDeviceInfo_WORK_ITEM_SIZES := λ _ _ _, (CL_SUCCESS, [64; 64; 64]);
  clGetContextInfo_size := λ _ _, (CL_SUCCESS, SIZEOF_PTR);
  clGetContextInfo_devices := λ _ _ _, (CL_SUCCESS, [7]);
  clCreateContext := λ _ c, let '(h, c') := sim_new [] c in ((h, CL_SUCCESS), c');
  clReleaseContext := sim_drop;
  clSVMAlloc := λ _ _ size, sim_new (replicate (Z.to_nat size) x00);
  clSVMFree := λ _, sim_drop;
  clCreateBuffer := λ _ _ size, sim_new (replicate (Z.to_nat size) x00);
  clReleaseMemObject := sim_drop;
  clCreateCommandQueueWithProperties := λ _ _, sim_new [];
  clReleaseCommandQueue := sim_drop;
  clFlush := λ _, sim_run id;
  clFinish := λ _, sim_run id;
  clEnqueueWriteBuffer := λ _ mem off size data c,
    match data with
    | Some d => sim_run (sim_write mem off (take (Z.to_nat size) d)) c
    | None => (-30, c)
    end;
  clEnqueueReadBuffer := λ _ mem _ off size dst c,
    ((sim_err c, sim_slice mem off size c ++ drop (Z.to_nat size) dst), c);
  clEnqueueMapBuffer := λ _ mem _ _ _ _ c,
    ((if sim_err c =? CL_SUCCESS then mem else 0, sim_err c), c);
  clEnqueueUnmapMemObject := λ _ _ _, sim_run id;
  clEnqueueCopyBuffer := λ _ src dst so do_ size c,
    sim_run (sim_write dst do_ (sim_slice src so size c)) c;
  clEnqueueFillBuffer := λ _ mem _ off size, sim_run (sim_write mem off (replicate (Z.to_nat size) x01));
  clCreateProgramWithSource := λ _ src c, let '(h, c') := sim_new src c in ((h, CL_SUCCESS), c');
  clCreateProgramWithIL := λ _ il c, let '(h, c') := sim_new il c in ((h, CL_SUCCESS), c');
  clBuildProgram := λ _ _, sim_run id;
  clReleaseProgram := sim_drop;
  clCreateKernel := λ _ name, sim_new name;
  clReleaseKernel := sim_drop;
  clSetKernelArg := λ _ _ _, sim_run id;
  clSetKernelArgSVMPointer := λ _ _ _, sim_run id;
  clSetKernelExecInfo_SVM_PTRS := λ _ _, sim_run id;
  clEnqueueNDRangeKernel := λ _ _ _ _ _ _, sim_run id;
  host_write := λ ptr data, sim_write ptr 0 data;
  host_read := λ ptr len, sim_slice ptr 0 len;
|}.

Definition sim_init : sim := mkSim 100 ∅ CL_SUCCESS.

(** The statics before any power-on. *)
Definition sim_backend0 : backend :=
  mkBackend (replicate VMACCEL_SELECT_MAX zero_caps) Null Null Null Null Null Null Null Null Null Null
    zero_VMAccelDownloadStatus sim_init.
