(* ===== verification/BackendTransfer.v ===== *)
(** * Transfers, copies and fills of the OpenCL backend

    The behaviour of the data handlers on every branch.  Each is proved equal
    to what it does to the surface and to the runtime, with the critical
    section gone: the mutexes end as they were. *)

From S2P Require Import Prelude IdentifierDB XdrRuntime RpcTypes Backend BackendOps.
From S2P Require Import BackendPower BackendLemmas SimCL.

(** The reads of an instance do not see its mutex. *)
Ltac see_instance :=
  repeat match goal with
  | |- context [ si_generation (set_si_mutex ?m ?y) ] =>
      change (si_generation (set_si_mutex m y)) with (si_generation y)
  | |- context [ si_svm_ptr (set_si_mutex ?m ?y) ] =>
      change (si_svm_ptr (set_si_mutex m y)) with (si_svm_ptr y)
  | |- context [ si_mem (set_si_mutex ?m ?y) ] =>
      change (si_mem (set_si_mutex m y)) with (si_mem y)
  | |- context [ si_mapping_ptr (set_si_mutex ?m ?y) ] =>
      change (si_mapping_ptr (set_si_mutex m y)) with (si_mapping_ptr y)
  | |- context [ si_mapping_refCount (set_si_mutex ?m ?y) ] =>
      change (si_mapping_refCount (set_si_mutex m y)) with (si_mapping_refCount y)
  end.

Section Transfer.
Context `{OpenCL}.
Implicit Types s : backend.

Lemma mutex_free_generation g : mutex_free (set_si_generation g).
Proof. done. Qed.
Lemma mutex_free_refCount r : mutex_free (set_si_refCount r).
Proof. done. Qed.
Lemma mutex_free_mapping_ptr p : mutex_free (set_si_mapping_ptr p).
Proof. done. Qed.
Lemma mutex_free_compose f g : mutex_free f → mutex_free g → mutex_free (f ∘ g).
Proof. intros Hf Hg m y. unfold compose. by rewrite Hg, Hf. Qed.

(** What a handler reads inside the section. *)
Lemma in_section tid sid i s u s1 x y :
  lookup_surf sid s = Some x → surf_inst x !! Z.to_nat i = Some y →
  lock_surface tid sid i s = Done u s1 →
  cl s1 = cl s ∧ queues s1 = queues s ∧
  (∃ m, inst_read sid i s1 = Done (set_si_mutex m y) s1) ∧
  (∃ x1, surf_read sid s1 = Done x1 s1 ∧ surf_desc x1 = surf_desc x) ∧
  (∀ f g c, inst_modify sid i f (set_cl c (upd_inst sid i g s1)) =
              Done tt (set_cl c (upd_inst sid i (f ∘ g) s1))).
Proof.
  intros Hx Hy (x' & y' & m1 & m2 & Hx' & Hy' & H1 & H2 & ->)%lock_surface_inv.
  simplify_eq.
  assert (lookup_inst sid i (upd_inst sid i (set_si_mutex m2) (upd_surf sid (set_surf_mutex m1) s)) =
          Some (set_si_mutex m2 y)) as Hi.
  { rewrite lookup_upd_inst, (lookup_inst_intro _ _ _ (set_surf_mutex m1 x) y); [done | | done].
    by rewrite lookup_upd_surf, Hx. }
  split; [unfold upd_inst; by rewrite !cl_upd_surf |].
  split; [unfold upd_inst, upd_surf; destruct (surfaces s) as [| | l] eqn:E; simpl; by rewrite ?E |].
  split; [exists m2; by apply inst_read_eq |].
  split.
  - eexists. split; [apply surf_read_eq; unfold upd_inst; by rewrite !lookup_upd_surf, Hx | done].
  - intros f g c. erewrite inst_modify_eq.
    + by rewrite upd_inst_set_cl, upd_inst_compose.
    + change (lookup_inst sid i (set_cl c ?s)) with (lookup_inst sid i s).
      by rewrite lookup_upd_inst, Hi.
Qed.

Lemma tab_read_eq {A} (t : table A) i s a : tab_lookup t i s = Some a → tab_read t i s = Done a s.
Proof. intros Ha. unfold tab_read. by rewrite Ha. Qed.

Definition is_buffer (x : VMWOpenCLSurface) : bool :=
  VMAccelSurfaceDesc_type (surf_desc x) =? VMACCEL_SURFACE_BUFFER.

(** A thread can enter the section of instance [y] of surface [x]. *)
Definition enterable (tid : Z) (x : VMWOpenCLSurface) (y : VMWOpenCLSurfaceInstance) : Prop :=
  can_lock tid (surf_mutex x) = true ∧ can_lock tid (si_mutex y) = true.

(** Enters the section of a surface known to be there: the facts about the
    state inside it, and how it is left. *)
Ltac enter_section tid sid inst s x y Hx Hy Hc :=
  let s1 := fresh "s1" in let Hl := fresh "Hl" in let m := fresh "m" in
  destruct (lock_surface_eq tid sid inst s x y Hx Hy (proj1 Hc) (proj2 Hc)) as [s1 Hl];
  destruct (in_section _ _ _ _ _ _ _ _ Hx Hy Hl) as (Hcl & Hqs & (m & Hr) & (x1 & Hsr & Hd) & Hm);
  pose proof (unlock_surface_same _ _ _ _ _ _ (cl s1) Hl) as Hu0;
  rewrite set_cl_id, Hcl, set_cl_id in Hu0;
  pose proof (λ c, unlock_surface_same _ _ _ _ _ _ c Hl) as Hu;
  pose proof (λ f c Hf, unlock_surface_nested _ _ _ f _ _ _ c Hf Hl) as Hun;
  assert (∀ f c, inst_modify sid inst f (set_cl c s1) = Done tt (set_cl c (upd_inst sid inst f s1)))
    as Hm1 by (intros f c; rewrite <- (upd_inst_id sid inst s1) at 1; exact (Hm f id c)).

Definition upload_model (argp : VMCLImageUploadOp) (q : VMWOpenCLQueue)
    (x : VMWOpenCLSurface) (y : VMWOpenCLSurfaceInstance) (s : backend) :
    outcome backend VMAccelStatus :=
  let accel := VMCLSurfaceId_accel (VMCLImageUploadOp_img argp) in
  let sid := VMAccelSurfaceId_id accel in
  let gen := VMAccelSurfaceId_generation accel in
  let inst := VMAccelSurfaceId_instance accel in
  let op := VMCLImageUploadOp_op argp in
  let region := VMAccelImageTransferOp_imgRegion op in
  let size := VMAccelCoordinate3DUINT_x (VMAccelSurfaceRegion_size region) in
  let ptr := VMAccelImageTransferOp_ptr op in
    if gen <? si_generation y then Done (mkStatus VMACCEL_SEMANTIC_ERROR) s
    else if negb (VMCLQueueId_cid (VMCLImageUploadOp_queue argp) =?
                  VMCLSurfaceId_cid (VMCLImageUploadOp_img argp)) then Fault AssertFailed
    else if negb (is_buffer x && (si_svm_ptr y =? 0)) then Fault AssertFailed
    else
      let '(errNum, c) := clEnqueueWriteBuffer (q_queue q) (si_mem y)
             (VMAccelCoordinate3DUINT_x (VMAccelSurfaceRegion_coord region)) size
             (take (Z.to_nat size) <$> host_ptr ptr) (cl s) in
      if negb (errNum =? CL_SUCCESS) then Done (mkStatus VMACCEL_FAIL) (set_cl c s)
      else if Z.of_nat (length ptr) <? size then Fault BadAccess
      else Done (mkStatus VMACCEL_SUCCESS) (set_cl c (upd_inst sid inst (set_si_generation gen) s)).

Lemma imageupload_spec tid argp s q x y :
  let accel := VMCLSurfaceId_accel (VMCLImageUploadOp_img argp) in
  let sid := VMAccelSurfaceId_id accel in
  let gen := VMAccelSurfaceId_generation accel in
  let inst := VMAccelSurfaceId_instance accel in
  let op := VMCLImageUploadOp_op argp in
  let region := VMAccelImageTransferOp_imgRegion op in
  let size := VMAccelCoordinate3DUINT_x (VMAccelSurfaceRegion_size region) in
  let ptr := VMAccelImageTransferOp_ptr op in
  tab_lookup Queues (VMCLQueueId_id (VMCLImageUploadOp_queue argp)) s = Some q →
  lookup_surf sid s = Some x → surf_inst x !! Z.to_nat inst = Some y → enterable tid x y →
  vmwopencl_imageupload_1 tid argp s = upload_model argp q x y s.
Proof.
  intros accel sid gen inst op region size ptr Hq Hx Hy Hc.
  enter_section tid sid inst s x y Hx Hy Hc.
  unfold vmwopencl_imageupload_1, upload_model. mrun. rewrite (tab_read_eq _ _ _ q) by done.
  fold accel sid inst gen op region size ptr. rewrite Hl, Hr. see_instance.
  destruct (gen <? si_generation y); [by rewrite Hu0 |].
  destruct (_ =? _); simpl; [| done]. rewrite Hsr. see_instance. unfold is_buffer. rewrite Hd.
  destruct (_ && _); simpl; [| done].
  unfold enqueue_write, cl_call. mrun. rewrite Hcl.
  destruct (clEnqueueWriteBuffer _ _ _ _ _ (cl s)) as [errNum c].
  destruct (errNum =? CL_SUCCESS) eqn:He; simpl.
  - destruct (Z.of_nat (length ptr) <? size); [done |]. rewrite He. simpl.
    by rewrite Hm1, Hun by apply mutex_free_generation.
  - rewrite He. simpl. by rewrite Hu.
Qed.

Definition fill_model (argp : VMCLImageFillOp) (q : VMWOpenCLQueue)
    (x : VMWOpenCLSurface) (y : VMWOpenCLSurfaceInstance) (s : backend) :
    outcome backend VMAccelStatus :=
  let accel := VMCLSurfaceId_accel (VMCLImageFillOp_img argp) in
  let sid := VMAccelSurfaceId_id accel in
  let gen := VMAccelSurfaceId_generation accel in
  let op := VMCLImageFillOp_op argp in
  let region := VMAccelImageFillOp_dstRegion op in
  let u := VMAccelImageFillOp_u op in
    if si_generation y <? gen then Done (mkStatus VMACCEL_RESOURCE_UNAVAILABLE) s
    else if gen <? si_generation y then Done (mkStatus VMACCEL_SEMANTIC_ERROR) s
    else if negb (si_svm_ptr y =? 0) then Done (mkStatus VMACCEL_FAIL) s
    else if negb (is_buffer x) then Fault AssertFailed
    else
      let '(errNum, c) := clEnqueueFillBuffer (q_queue q) (si_mem y)
             [VMAccelElementUINT4D_r u; VMAccelElementUINT4D_g u;
              VMAccelElementUINT4D_b u; VMAccelElementUINT4D_a u]
             (VMAccelCoordinate3DUINT_x (VMAccelSurfaceRegion_coord region))
             (VMAccelCoordinate3DUINT_x (VMAccelSurfaceRegion_size region)) (cl s) in
      Done (mkStatus (if negb (errNum =? CL_SUCCESS) then VMACCEL_FAIL else VMACCEL_SUCCESS))
           (set_cl c s).

Lemma imagefill_spec tid argp s q x y :
  let accel := VMCLSurfaceId_accel (VMCLImageFillOp_img argp) in
  let sid := VMAccelSurfaceId_id accel in
  let gen := VMAccelSurfaceId_generation accel in
  let op := VMCLImageFillOp_op argp in
  let region := VMAccelImageFillOp_dstRegion op in
  let u := VMAccelImageFillOp_u op in
  tab_lookup Queues (VMCLQueueId_id (VMCLImageFillOp_queue argp)) s = Some q →
  lookup_surf sid s = Some x → surf_inst x !! Z.to_nat 0 = Some y → enterable tid x y →
  vmwopencl_imagefill_1 tid argp s = fill_model argp q x y s.
Proof.
  intros accel sid gen op region u Hq Hx Hy Hc.
  enter_section tid sid 0 s x y Hx Hy Hc.
  unfold vmwopencl_imagefill_1, fill_model. mrun. rewrite (tab_read_eq _ _ _ q) by done.
  fold accel sid gen op region u. rewrite Hl, Hr. see_instance.
  destruct (Z.ltb_spec (si_generation y) gen); [by rewrite Hu0 |].
  destruct (Z.ltb_spec gen (si_generation y)); [by rewrite Hu0 |].
  rewrite Hsr. destruct (negb (si_svm_ptr y =? 0)); simpl; [by rewrite Hu0 |].
  unfold is_buffer. rewrite Hd. destruct (_ =? VMACCEL_SURFACE_BUFFER); simpl; [| done].
  unfold cl_call. rewrite Hcl. destruct (clEnqueueFillBuffer _ _ _ _ _ (cl s)) as [errNum c].
  destruct (errNum =? CL_SUCCESS); simpl; [| by rewrite Hu].
  rewrite Hm1, Hun by apply mutex_free_generation. f_equal. f_equal.
  apply (upd_surf_id _ _ _ x); [done |]. unfold on_inst. rewrite (alter_id_at _ _ _ y); [by destruct x | done |].
  replace gen with (si_generation y) by lia. by destruct y.
Qed.

(** ** Mapping *)

(** The pointer of a first mapping and the runtime after it. *)
Definition map_first_result (queue : Z) (y : VMWOpenCLSurfaceInstance) (blocking : bool)
    (flags offset size : Z) (c : cl_state) : Z * Z * cl_state :=
  if negb (si_svm_ptr y =? 0) then
    let '(errNum, c) := if blocking then clFinish queue c else (CL_SUCCESS, c) in
    (errNum, if errNum =? CL_SUCCESS then si_svm_ptr y else 0, c)
  else
    let '(ptr, errNum, c) := clEnqueueMapBuffer queue (si_mem y) blocking flags offset size c in
    (errNum, ptr, c).

Lemma map_first_eq queue m y blocking flags offset size s errNum ptr c :
  map_first_result queue y blocking flags offset size (cl s) = (errNum, ptr, c) →
  map_first queue (set_si_mutex m y) blocking flags offset size s = Done (errNum, ptr) (set_cl c s).
Proof.
  unfold map_first, map_first_result, cl_call. mrun. see_instance.
  destruct (si_svm_ptr y =? 0); simpl.
  - destruct (clEnqueueMapBuffer _ _ _ _ _ _ _) as [[p e] c']. by intros [= -> -> ->].
  - destruct blocking.
    + destruct (clFinish queue (cl s)) as [e c']. by intros [= -> -> ->].
    + intros [= <- <- <-]. by rewrite set_cl_id.
Qed.

Definition map_model (argp : VMCLSurfaceMapOp) (q : VMWOpenCLQueue)
    (x : VMWOpenCLSurface) (y : VMWOpenCLSurfaceInstance) (s : backend) :
    outcome backend MapResult :=
  let op := VMCLSurfaceMapOp_op argp in
  let sid := VMAccelSurfaceId_id (VMAccelSurfaceMapOp_surf op) in
  let gen := VMAccelSurfaceId_generation (VMAccelSurfaceMapOp_surf op) in
  let inst := VMAccelSurfaceId_instance (VMAccelSurfaceMapOp_surf op) in
  let size := VMAccelCoordinate2DUINT_x (VMAccelSurfaceMapOp_size op) in
  let refCount := u32 (si_mapping_refCount y + 1) in
    if gen <? si_generation y then Done (mkMapResult VMACCEL_SEMANTIC_ERROR 0 0) s
    else if negb (is_buffer x) then Fault AssertFailed
    else if refCount =? 1 then
      let '(errNum, ptr, c) := map_first_result (q_queue q) y
             (negb (has_flag (VMAccelSurfaceMapOp_mapFlags op) VMACCEL_MAP_ASYNC_FLAG))
             (map_flags (VMAccelSurfaceMapOp_mapFlags op))
             (VMAccelCoordinate3DUINT_x (VMAccelSurfaceMapOp_coord op)) size (cl s) in
      if negb (errNum =? CL_SUCCESS)
      then Done (mkMapResult VMACCEL_FAIL 0 0)
                (set_cl c (upd_inst sid inst (set_si_refCount refCount) s))
      else Done (mkMapResult VMACCEL_SUCCESS ptr size)
                (set_cl c (upd_inst sid inst (set_si_mapping_ptr ptr ∘ set_si_refCount refCount) s))
    else Done (mkMapResult VMACCEL_SUCCESS (si_mapping_ptr y) size)
              (upd_inst sid inst (set_si_refCount refCount) s).

Lemma surfacemap_spec tid argp s q x y :
  let op := VMCLSurfaceMapOp_op argp in
  let sid := VMAccelSurfaceId_id (VMAccelSurfaceMapOp_surf op) in
  let gen := VMAccelSurfaceId_generation (VMAccelSurfaceMapOp_surf op) in
  let inst := VMAccelSurfaceId_instance (VMAccelSurfaceMapOp_surf op) in
  let size := VMAccelCoordinate2DUINT_x (VMAccelSurfaceMapOp_size op) in
  let refCount := u32 (si_mapping_refCount y + 1) in
  tab_lookup Queues (VMCLQueueId_id (VMCLSurfaceMapOp_queue argp)) s = Some q →
  lookup_surf sid s = Some x → surf_inst x !! Z.to_nat inst = Some y → enterable tid x y →
  vmwopencl_surfacemap_1 tid argp s = map_model argp q x y s.
Proof.
  intros op sid gen inst size refCount Hq Hx Hy Hc.
  enter_section tid sid inst s x y Hx Hy Hc.
  pose proof (Hm1 (set_si_refCount refCount) (cl s1)) as Hmr.
  rewrite set_cl_id, <- upd_inst_set_cl, set_cl_id in Hmr.
  assert (∀ f c, inst_modify sid inst f (set_cl c (upd_inst sid inst (set_si_refCount refCount) s1)) =
    Done tt (set_cl c (upd_inst sid inst (f ∘ set_si_refCount refCount) s1))) as Hm2 by (intros; apply Hm).
  unfold vmwopencl_surfacemap_1, map_model. mrun. rewrite (tab_read_eq _ _ _ q) by done.
  fold op sid inst gen size. rewrite Hl, Hr. see_instance.
  destruct (gen <? si_generation y); [by rewrite Hu0 |]. rewrite Hsr. unfold is_buffer. rewrite Hd.
  destruct (_ =? VMACCEL_SURFACE_BUFFER); simpl; [| done]. fold refCount. rewrite Hmr.
  destruct (refCount =? 1).
  - destruct (map_first_result _ _ _ _ _ _ _) as [[errNum ptr] c] eqn:E.
    erewrite map_first_eq by (rewrite cl_upd_inst, Hcl; exact E).
    destruct (errNum =? CL_SUCCESS); simpl.
    + by rewrite Hm2, Hun by (apply mutex_free_compose; done).
    + by rewrite Hun.
  - simpl. rewrite <- (set_cl_id (upd_inst sid inst (set_si_refCount refCount) s1)).
    rewrite Hm2, Hun by (apply mutex_free_compose; done). f_equal.
    rewrite cl_upd_inst, Hcl. rewrite <- (set_cl_id s) at 3. rewrite upd_inst_set_cl. f_equal.
    apply (upd_surf_ext _ _ _ _ x); [done |]. unfold on_inst. f_equal.
    apply list_alter_ext; [| done]. intros y' Hy'. by simplify_eq/=.
Qed.

(** What unmapping does to the instance besides its mutex. *)
Definition unmap_change (gen refCount errNum : Z) (y : VMWOpenCLSurfaceInstance) :
    VMWOpenCLSurfaceInstance :=
  mkVMWOpenCLSurfaceInstance (si_mem y) (si_svm_ptr y)
    (if errNum =? CL_SUCCESS then gen else si_generation y)
    (if refCount =? 0 then 0 else si_mapping_ptr y) refCount (si_mutex y).

Definition unmap_arg (argp : VMCLSurfaceUnmapOp) : VMCLSurfaceUnmapOp :=
  let op := VMCLSurfaceUnmapOp_op argp in
  if negb (has_flag (VMAccelSurfaceUnmapOp_mapFlags op) VMACCEL_MAP_NO_FREE_PTR_FLAG)
  then mkVMCLSurfaceUnmapOp (VMCLSurfaceUnmapOp_queue argp)
         (mkVMAccelSurfaceUnmapOp (VMAccelSurfaceUnmapOp_surf op) (VMAccelSurfaceUnmapOp_mapFlags op) [])
  else argp.

Definition is_nil {A} (l : list A) : bool := match l with [] => true | _ => false end.

Definition unmap_model (argp : VMCLSurfaceUnmapOp) (q : VMWOpenCLQueue)
    (x : VMWOpenCLSurface) (y : VMWOpenCLSurfaceInstance) (m : mutex) (s : backend) :
    outcome backend (VMAccelStatus * VMCLSurfaceUnmapOp) :=
  let op := VMCLSurfaceUnmapOp_op argp in
  let sid := VMAccelSurfaceId_id (VMAccelSurfaceUnmapOp_surf op) in
  let gen := VMAccelSurfaceId_generation (VMAccelSurfaceUnmapOp_surf op) in
  let inst := VMAccelSurfaceId_instance (VMAccelSurfaceUnmapOp_surf op) in
  let data := VMAccelSurfaceUnmapOp_ptr op in
  let refCount := u32 (si_mapping_refCount y - 1) in
    if negb (is_nil data) && (si_mapping_ptr y =? 0) then Fault BadAccess
    else
      let c := if is_nil data then cl s else host_write (si_mapping_ptr y) data (cl s) in
      let '(errNum, c) :=
        if (refCount =? 0) && is_buffer x && (si_svm_ptr y =? 0)
        then clEnqueueUnmapMemObject (q_queue q) (si_mem y) (si_mapping_ptr y) c
        else (CL_SUCCESS, c) in
      Done (mkStatus (if errNum =? CL_SUCCESS then VMACCEL_SUCCESS else VMACCEL_FAIL), unmap_arg argp)
           (set_cl c (upd_inst sid inst (set_si_mutex m ∘ unmap_change gen refCount errNum) s)).

(** The section of an unmapping: only the surface's mutex is taken, and the
    instance's mutex is released although it was not. *)
Lemma unmap_section tid sid inst s x y m m1 :
  lookup_surf sid s = Some x → surf_inst x !! Z.to_nat inst = Some y →
  mutex_lock tid (surf_mutex x) = inl m1 → mutex_unlock tid (si_mutex y) = inl m →
  let s1 := upd_surf sid (set_surf_mutex m1) s in
  surf_lock tid sid s = Done tt s1 ∧ lookup_inst sid inst s1 = Some y ∧
  (∀ f g c, inst_modify sid inst f (set_cl c (upd_inst sid inst g s1)) =
              Done tt (set_cl c (upd_inst sid inst (f ∘ g) s1))) ∧
  (∀ f c, si_mutex (f y) = si_mutex y →
     unlock_surface tid sid inst (set_cl c (upd_inst sid inst f s1)) =
     Done tt (set_cl c (upd_inst sid inst (set_si_mutex m ∘ f) s))) ∧
  (∀ f c, ∃ x1, surf_read sid (set_cl c (upd_inst sid inst f s1)) =
     Done x1 (set_cl c (upd_inst sid inst f s1)) ∧ is_buffer x1 = is_buffer x).
Proof.
  intros Hx Hy H1 H2 s1. pose proof (surf_lock_eq _ _ _ _ _ Hx H1) as Hl. fold s1 in Hl.
  assert (lookup_inst sid inst s1 = Some y) as Hi.
  { apply (lookup_inst_intro _ _ _ (set_surf_mutex m1 x)); [| done]. unfold s1. by rewrite lookup_upd_surf, Hx. }
  assert (∀ f c, lookup_inst sid inst (set_cl c (upd_inst sid inst f s1)) = Some (f y)) as Hif.
  { intros. change (lookup_inst sid inst (set_cl c ?s)) with (lookup_inst sid inst s).
    by rewrite lookup_upd_inst, Hi. }
  split; [done |]. split; [done |]. split; [| split].
  - intros f g c. rewrite (inst_modify_eq _ _ _ _ (g y)) by apply Hif.
    by rewrite upd_inst_set_cl, upd_inst_compose.
  - intros f c Hf. unfold unlock_surface. mrun.
    rewrite (inst_unlock_eq _ _ _ _ (f y) m) by (apply Hif || by rewrite Hf).
    rewrite upd_inst_set_cl, upd_inst_compose. by apply (surf_unlock_nested _ _ _ _ _ _ _ _ Hl).
  - intros f c. eexists. split; [apply surf_read_eq; rewrite lookup_surf_set_cl; unfold upd_inst, s1;
      by rewrite !lookup_upd_surf, Hx | done].
Qed.

(** Two changes of an instance that agree on it. *)
Lemma upd_inst_ext sid inst F G s x y :
  lookup_surf sid s = Some x → surf_inst x !! Z.to_nat inst = Some y → F y = G y →
  upd_inst sid inst F s = upd_inst sid inst G s.
Proof.
  intros Hx Hy HFG. apply (upd_surf_ext _ _ _ _ x); [done |]. unfold on_inst. f_equal.
  apply list_alter_ext; [| done]. intros y' Hy'. by simplify_eq.
Qed.

Lemma surfaceunmap_spec tid argp s q x y m :
  let op := VMCLSurfaceUnmapOp_op argp in
  let sid := VMAccelSurfaceId_id (VMAccelSurfaceUnmapOp_surf op) in
  let gen := VMAccelSurfaceId_generation (VMAccelSurfaceUnmapOp_surf op) in
  let inst := VMAccelSurfaceId_instance (VMAccelSurfaceUnmapOp_surf op) in
  let data := VMAccelSurfaceUnmapOp_ptr op in
  let refCount := u32 (si_mapping_refCount y - 1) in
  tab_lookup Queues (VMCLQueueId_id (VMCLSurfaceUnmapOp_queue argp)) s = Some q →
  lookup_surf sid s = Some x → surf_inst x !! Z.to_nat inst = Some y →
  can_lock tid (surf_mutex x) = true → mutex_unlock tid (si_mutex y) = inl m →
  vmwopencl_surfaceunmap_1 tid argp s = unmap_model argp q x y m s.
Proof.
  intros op sid gen inst data refCount Hq Hx Hy (m1 & H1)%can_lock_inv H2.
  destruct (unmap_section tid sid inst s x y m m1 Hx Hy H1 H2) as (Hl & Hi & Hm & Hu & Hsr).
  set (s1 := upd_surf sid (set_surf_mutex m1) s) in *.
  assert (∀ c F G, F y = G y →
    set_cl c (upd_inst sid inst F s) = set_cl c (upd_inst sid inst G s)) as Hext.
  { intros c F G HFG. f_equal. by apply (upd_inst_ext _ _ _ _ _ x y). }
  unfold vmwopencl_surfaceunmap_1, unmap_model. mrun. rewrite (tab_read_eq _ _ _ q) by done.
  fold op sid inst gen. rewrite Hl. rewrite (inst_read_eq _ _ _ y) by done. fold data refCount.
  destruct (negb (is_nil data) && (si_mapping_ptr y =? 0)) eqn:Hnull.
  { destruct data; [done |]. simpl in *. by rewrite Hnull. }
  set (c1 := if is_nil data then cl s else host_write (si_mapping_ptr y) data (cl s)).
  assert (memcpy_to (si_mapping_ptr y) data s1 = Done tt (set_cl c1 (upd_inst sid inst id s1))) as ->.
  { rewrite upd_inst_id. assert (cl s1 = cl s) as Hcs by apply cl_upd_surf. unfold memcpy_to, c1.
    destruct data; simpl in *; [mrun; by rewrite <- Hcs, set_cl_id |].
    rewrite Hnull. unfold cl_exec. mrun. by rewrite Hcs. }
  fold (unmap_arg argp). rewrite Hm.
  destruct (refCount =? 0) eqn:Hr.
  - destruct (Hsr (set_si_refCount refCount ∘ id) c1) as (x1 & -> & Hb).
    unfold is_buffer in Hb. rewrite Hb. fold (is_buffer x). simpl.
    destruct (is_buffer x && (si_svm_ptr y =? 0)).
    + unfold cl_call. simpl. destruct (clEnqueueUnmapMemObject _ _ _ c1) as [errNum c2].
      rewrite set_cl_set_cl, Hm. destruct (errNum =? CL_SUCCESS) eqn:He; simpl.
      * rewrite Hm, Hu by done. f_equal. apply Hext. unfold compose, unmap_change. by rewrite Hr, He.
      * rewrite Hu by done. f_equal. apply Hext. unfold compose, unmap_change. by rewrite Hr, He.
    + rewrite Hm. simpl. rewrite Hm, Hu by done. f_equal. apply Hext. unfold compose, unmap_change.
      by rewrite Hr.
  - simpl. rewrite Hm, Hu by done. f_equal. apply Hext. unfold compose, unmap_change. by rewrite Hr.
Qed.

(** ** Download *)

(** On success the instance's mutex stays locked: [m] is what locking made
    of it. *)
Definition download_model (argp : VMCLImageDownloadOp) (q : VMWOpenCLQueue)
    (x : VMWOpenCLSurface) (y : VMWOpenCLSurfaceInstance) (m : mutex) (s : backend) :
    outcome backend VMAccelDownloadStatus :=
  let accel := VMCLSurfaceId_accel (VMCLImageDownloadOp_img argp) in
  let sid := VMAccelSurfaceId_id accel in
  let gen := VMAccelSurfaceId_generation accel in
  let inst := VMAccelSurfaceId_instance accel in
  let op := VMCLImageDownloadOp_op argp in
  let region := VMAccelImageTransferOp_imgRegion op in
  let size := VMAccelCoordinate3DUINT_x (VMAccelSurfaceRegion_size region) in
  let dst := download_buffer size (VMAccelImageTransferOp_ptr op) in
    if negb (si_generation y =? gen) then
      let r := mkVMAccelDownloadStatus
                 (if gen <? si_generation y then VMACCEL_SEMANTIC_ERROR
                  else VMACCEL_RESOURCE_UNAVAILABLE)
                 (VMAccelDownloadStatus_fence (download_result s))
                 (VMAccelDownloadStatus_ptr (download_result s)) in
      Done r (set_download_result r s)
    else if negb (VMCLQueueId_cid (VMCLImageDownloadOp_queue argp) =?
                  VMCLSurfaceId_cid (VMCLImageDownloadOp_img argp)) then Fault AssertFailed
    else if negb (is_buffer x && (si_svm_ptr y =? 0)) then Fault AssertFailed
    else
      let '(errNum, buf, c) := clEnqueueReadBuffer (q_queue q) (si_mem y)
             (VMCLImageDownloadOp_mode argp =? VMACCEL_SURFACE_READ_SYNCHRONOUS)
             (VMAccelCoordinate3DUINT_x (VMAccelSurfaceRegion_coord region)) size dst (cl s) in
      if (errNum =? CL_SUCCESS) && (Z.of_nat (length dst) <? size) then Fault BadAccess
      else
        let r := if negb (errNum =? CL_SUCCESS) then mkVMAccelDownloadStatus VMACCEL_FAIL 0 []
                 else mkVMAccelDownloadStatus VMACCEL_SUCCESS 0 (take (Z.to_nat size) buf) in
        Done r (set_download_result r (set_cl c (upd_inst sid inst (set_si_mutex m) s))).

Lemma imagedownload_spec tid argp s q x y m :
  let accel := VMCLSurfaceId_accel (VMCLImageDownloadOp_img argp) in
  let sid := VMAccelSurfaceId_id accel in
  let gen := VMAccelSurfaceId_generation accel in
  let inst := VMAccelSurfaceId_instance accel in
  let op := VMCLImageDownloadOp_op argp in
  let region := VMAccelImageTransferOp_imgRegion op in
  let size := VMAccelCoordinate3DUINT_x (VMAccelSurfaceRegion_size region) in
  let dst := download_buffer size (VMAccelImageTransferOp_ptr op) in
  tab_lookup Queues (VMCLQueueId_id (VMCLImageDownloadOp_queue argp)) s = Some q →
  lookup_surf sid s = Some x → surf_inst x !! Z.to_nat inst = Some y →
  can_lock tid (surf_mutex x) = true → mutex_lock tid (si_mutex y) = inl m →
  vmwopencl_imagedownload_1 tid argp s = download_model argp q x y m s.
Proof.
  intros accel sid gen inst op region size dst Hq Hx Hy Hc1 Hm0.
  assert (enterable tid x y) as Hc by (split; [done | unfold can_lock; by rewrite Hm0]).
  enter_section tid sid inst s x y Hx Hy Hc.
  unfold lock_surface in Hl. unfold mbind, M_bind in Hl.
  destruct (surf_lock tid sid s) as [u0 s0 |] eqn:Hl0; [| done].
  assert (s1 = upd_inst sid inst (set_si_mutex m) s0) as Hs1.
  { apply inst_lock_inv in Hl as (y' & m' & Hy' & Hm' & ->).
    apply surf_lock_inv in Hl0 as (x' & m1' & Hx' & _ & ->).
    apply lookup_inst_inv in Hy' as (x'' & Hx'' & Hy'). rewrite lookup_upd_surf, Hx in Hx''.
    injection Hx'' as <-. simpl in Hy'. congruence. }
  assert (∀ c, surf_unlock tid sid (set_cl c s1) =
    Done tt (set_cl c (upd_inst sid inst (set_si_mutex m) s))) as Hsu.
  { intros c. rewrite Hs1. by apply (surf_unlock_nested _ _ _ _ _ _ _ _ Hl0). }
  assert (download_result s1 = download_result s) as Hdr.
  { apply surf_lock_inv in Hl0 as (x' & m1' & _ & _ & ->). rewrite Hs1. unfold upd_inst, upd_surf.
    destruct (surfaces s) as [| | l] eqn:E; simpl; by rewrite ?E. }
  unfold vmwopencl_imagedownload_1, download_model, lock_surface. mrun. rewrite (tab_read_eq _ _ _ q) by done.
  fold accel sid inst gen op region size. rewrite Hl0, Hl, Hr. see_instance.
  destruct (si_generation y =? gen); simpl.
  - destruct (_ =? VMCLSurfaceId_cid _); simpl; [| done]. rewrite Hsr. unfold is_buffer. rewrite Hd.
    see_instance. destruct (_ && _); simpl; [| done].
    fold dst.
    unfold enqueue_read, cl_call. mrun. rewrite Hcl.
    destruct (clEnqueueReadBuffer _ _ _ _ _ _ _) as [[errNum buf] c].
    destruct ((errNum =? CL_SUCCESS) && _); [done |]. by rewrite Hsu.
  - by rewrite Hu0, Hdr.
Qed.

(** ** Copy *)

Lemma unlock_pair_nested tid src si dst di s u s1 c :
  lock_pair tid src si dst di s = Done u s1 →
  unlock_pair tid src si dst di (set_cl c s1) = Done tt (set_cl c s).
Proof.
  unfold lock_pair, unlock_pair. mrun.
  destruct (surf_lock tid src s) as [u1 sa |] eqn:Ea; [| done].
  destruct (surf_lock tid dst sa) as [u2 sb |] eqn:Eb; [| done].
  destruct (inst_lock tid src si sb) as [u3 sc |] eqn:Ec; [| done]. intros Ed.
  rewrite (inst_unlock_same _ _ _ _ _ _ c Ed), (inst_unlock_same _ _ _ _ _ _ c Ec).
  by rewrite (surf_unlock_same _ _ _ _ _ c Eb), (surf_unlock_same _ _ _ _ _ c Ea).
Qed.

Lemma erase_lock_pair tid src si dst di s u s1 :
  lock_pair tid src si dst di s = Done u s1 → erase s1 = erase s.
Proof.
  unfold lock_pair. mrun.
  destruct (surf_lock tid src s) as [u1 sa |] eqn:Ea; [| done].
  destruct (surf_lock tid dst sa) as [u2 sb |] eqn:Eb; [| done].
  destruct (inst_lock tid src si sb) as [u3 sc |] eqn:Ec; [| done]. intros Ed.
  by rewrite (erase_inst_lock _ _ _ _ _ _ Ed), (erase_inst_lock _ _ _ _ _ _ Ec),
    (erase_surf_lock _ _ _ _ _ Eb), (erase_surf_lock _ _ _ _ _ Ea).
Qed.

(** Reads in a state that differs only in its mutexes. *)
Lemma inst_read_erase s s1 sid i y :
  erase s1 = erase s → lookup_inst sid i s = Some y →
  ∃ m, inst_read sid i s1 = Done (set_si_mutex m y) s1.
Proof.
  intros He Hy. destruct (erase_same_inst s s1 sid i y He Hy) as (y' & Hy' & E).
  exists (si_mutex y'). rewrite (inst_read_eq _ _ _ y') by done. f_equal.
  destruct y, y'. unfold erase_inst, set_si_mutex in *. simpl in *. congruence.
Qed.

Lemma surf_read_erase s s1 sid x :
  erase s1 = erase s → lookup_surf sid s = Some x →
  ∃ x1, surf_read sid s1 = Done x1 s1 ∧ surf_desc x1 = surf_desc x.
Proof.
  intros He Hx. destruct (erase_same_surf s s1 sid x He Hx) as (x1 & Hx1 & E).
  exists x1. split; [by apply surf_read_eq |].
  change (surf_desc (erase_surf x1) = surf_desc (erase_surf x)). by rewrite E.
Qed.

Definition copy_model (argp : VMCLSurfaceCopyOp) (q : VMWOpenCLQueue)
    (xs : VMWOpenCLSurface) (ys : VMWOpenCLSurfaceInstance)
    (xd : VMWOpenCLSurface) (yd : VMWOpenCLSurfaceInstance) (s : backend) :
    outcome backend VMAccelStatus :=
  let dst := VMCLSurfaceId_accel (VMCLSurfaceCopyOp_dst argp) in
  let src := VMCLSurfaceId_accel (VMCLSurfaceCopyOp_src argp) in
  let dstSid := VMAccelSurfaceId_id dst in
  let dstGen := VMAccelSurfaceId_generation dst in
  let srcSid := VMAccelSurfaceId_id src in
  let srcGen := VMAccelSurfaceId_generation src in
  let dstRegion := VMAccelSurfaceCopyOp_dstRegion (VMCLSurfaceCopyOp_op argp) in
  let srcRegion := VMAccelSurfaceCopyOp_srcRegion (VMCLSurfaceCopyOp_op argp) in
    if si_generation ys <? srcGen then Done (mkStatus VMACCEL_RESOURCE_UNAVAILABLE) s
    else if (srcGen <? si_generation ys) || (dstGen <? si_generation yd)
    then Done (mkStatus VMACCEL_SEMANTIC_ERROR) s
    else if negb (si_svm_ptr ys =? 0) || negb (si_svm_ptr yd =? 0)
    then Done (mkStatus VMACCEL_FAIL) s
    else if negb (is_buffer xd && is_buffer xs) then Fault AssertFailed
    else
      let '(errNum, c) := clEnqueueCopyBuffer (q_queue q) (si_mem ys) (si_mem yd)
             (VMAccelCoordinate3DUINT_x (VMAccelSurfaceRegion_coord srcRegion))
             (VMAccelCoordinate3DUINT_x (VMAccelSurfaceRegion_coord dstRegion))
             (VMAccelCoordinate3DUINT_x (VMAccelSurfaceRegion_size dstRegion)) (cl s) in
      Done (mkStatus (if negb (errNum =? CL_SUCCESS) then VMACCEL_FAIL else VMACCEL_SUCCESS))
           (set_cl c s).

Lemma surfacecopy_spec tid argp s s1 q xs ys xd yd :
  let dst := VMCLSurfaceId_accel (VMCLSurfaceCopyOp_dst argp) in
  let src := VMCLSurfaceId_accel (VMCLSurfaceCopyOp_src argp) in
  let dstSid := VMAccelSurfaceId_id dst in
  let dstGen := VMAccelSurfaceId_generation dst in
  let srcSid := VMAccelSurfaceId_id src in
  let srcGen := VMAccelSurfaceId_generation src in
  let dstRegion := VMAccelSurfaceCopyOp_dstRegion (VMCLSurfaceCopyOp_op argp) in
  let srcRegion := VMAccelSurfaceCopyOp_srcRegion (VMCLSurfaceCopyOp_op argp) in
  tab_lookup Queues (VMCLQueueId_id (VMCLSurfaceCopyOp_queue argp)) s = Some q →
  VMCLSurfaceId_cid (VMCLSurfaceCopyOp_dst argp) = VMCLSurfaceId_cid (VMCLSurfaceCopyOp_src argp) →
  lookup_surf srcSid s = Some xs → surf_inst xs !! Z.to_nat 0 = Some ys →
  lookup_surf dstSid s = Some xd → surf_inst xd !! Z.to_nat 0 = Some yd →
  lock_pair tid srcSid 0 dstSid 0 s = Done tt s1 →
  vmwopencl_surfacecopy_1 tid argp s = copy_model argp q xs ys xd yd s.
Proof.
  intros dst src dstSid dstGen srcSid srcGen dstRegion srcRegion Hq Hcid Hxs Hys Hxd Hyd Hl.
  pose proof (erase_lock_pair _ _ _ _ _ _ _ _ Hl) as He. pose proof (erase_cl _ _ He) as Hcl.
  pose proof (λ c, unlock_pair_nested _ _ _ _ _ _ _ _ c Hl) as Hu.
  pose proof (Hu (cl s1)) as Hu0. rewrite set_cl_id, Hcl, set_cl_id in Hu0.
  destruct (inst_read_erase _ _ srcSid 0 ys He (lookup_inst_intro _ _ _ _ _ Hxs Hys)) as (ms & Hrs).
  destruct (inst_read_erase _ _ dstSid 0 yd He (lookup_inst_intro _ _ _ _ _ Hxd Hyd)) as (md & Hrd).
  destruct (surf_read_erase _ _ _ _ He Hxs) as (xs1 & Hsrs & Hds).
  destruct (surf_read_erase _ _ _ _ He Hxd) as (xd1 & Hsrd & Hdd).
  unfold vmwopencl_surfacecopy_1, copy_model. mrun. rewrite (tab_read_eq _ _ _ q) by done.
  fold dst src dstSid dstGen srcSid srcGen dstRegion srcRegion. rewrite Hcid, Z.eqb_refl. simpl.
  rewrite Hl, Hrs, Hrd. see_instance.
  destruct (si_generation ys <? srcGen); [by rewrite Hu0 |].
  destruct (_ || _); [by rewrite Hu0 |]. rewrite Hsrs, Hsrd.
  destruct (_ || _); [by rewrite Hu0 |]. unfold is_buffer. rewrite Hds, Hdd.
  destruct (_ && _); simpl; [| done]. unfold cl_call. rewrite Hcl.
  destruct (clEnqueueCopyBuffer _ _ _ _ _ _ _) as [errNum c]. by rewrite Hu.
Qed.

End Transfer.
