(* ===== verification/BackendDispatch.v ===== *)
(** * Kernel dispatch of the OpenCL backend

    The dispatch handler locks every surface argument in order, checks its
    generation and binds it, enqueues the kernel, and releases what it locked
    in the opposite order, also when it stops half way.  The main theorem
    gives its result on every branch for argument lists of any length, with
    repeated surfaces allowed. *)

From S2P Require Import Prelude IdentifierDB XdrRuntime RpcTypes Backend BackendOps.
From S2P Require Import BackendPower BackendLemmas SimCL BackendTransfer.

(** A recursive mutex that is free or that the thread already owns. *)
Definition rec_avail (tid : Z) (m : mutex) : bool :=
  match m with
  | Recursive None => true
  | Recursive (Some (t, _)) => t =? tid
  | _ => false
  end.

Lemma rec_avail_can_lock tid m : rec_avail tid m = true → can_lock tid m = true.
Proof. unfold can_lock. destruct m as [? | [[t n] |] |]; simpl; try done. by destruct (t =? tid). Qed.

Lemma rec_avail_lock tid m m' :
  rec_avail tid m = true → mutex_lock tid m = inl m' → rec_avail tid m' = true.
Proof.
  destruct m as [? | [[t n] |] |]; simpl; try done.
  - intros E. rewrite E. by intros [= <-].
  - intros _ [= <-]. simpl. apply Z.eqb_refl.
Qed.

Section Dispatch.
Context `{OpenCL}.
Implicit Types s : backend.

(** ** Surfaces a thread can lock, however often *)

Definition ready_surface (tid sid inst : Z) (s : backend) : Prop :=
  ∃ x y, lookup_surf sid s = Some x ∧ surf_inst x !! Z.to_nat inst = Some y ∧
    rec_avail tid (surf_mutex x) = true ∧ rec_avail tid (si_mutex y) = true.

Lemma lookup_surf_nat sid sid' s : Z.to_nat sid = Z.to_nat sid' → lookup_surf sid s = lookup_surf sid' s.
Proof. intros E. unfold lookup_surf, tab_lookup. by rewrite E. Qed.

Lemma ready_lock tid sid inst sid' inst' s u s1 :
  ready_surface tid sid inst s → lock_surface tid sid' inst' s = Done u s1 →
  ready_surface tid sid inst s1.
Proof.
  intros (x & y & Hx & Hy & Hmx & Hmy) (x' & y' & m1 & m2 & Hx' & Hy' & H1 & H2 & ->)%lock_surface_inv.
  unfold upd_inst. destruct (decide (Z.to_nat sid' = Z.to_nat sid)) as [E | E].
  - rewrite (lookup_surf_nat _ _ _ E) in Hx'. simplify_eq.
    eexists (on_inst inst' (set_si_mutex m2) (set_surf_mutex m1 x)),
      (if decide (Z.to_nat inst' = Z.to_nat inst) then set_si_mutex m2 y else y).
    split_and!.
    + rewrite <- (lookup_surf_nat _ _ _ E), !lookup_upd_surf, (lookup_surf_nat _ _ _ E), Hx. done.
    + simpl. rewrite list_lookup_alter. destruct (decide _) as [-> |]; by rewrite Hy.
    + simpl. by apply (rec_avail_lock tid _ _ Hmx).
    + destruct (decide _) as [Ei |]; [| done]. rewrite Ei, Hy in Hy'. simplify_eq.
      simpl. by apply (rec_avail_lock tid _ _ Hmy).
  - exists x, y. rewrite !lookup_upd_surf_ne by done. done.
Qed.

(** ** What the argument loop computes *)

Definition bind_result (kernel index : Z) (y : VMWOpenCLSurfaceInstance) (c : cl_state) : Z * cl_state :=
  if negb (si_svm_ptr y =? 0) then
    let '(errNum, c) := clSetKernelArgSVMPointer kernel index (si_svm_ptr y) c in
    if errNum =? CL_SUCCESS then clSetKernelExecInfo_SVM_PTRS kernel (si_svm_ptr y) c else (errNum, c)
  else clSetKernelArg kernel index (si_mem y) c.

(** The status of a generation the backend does not have. *)
Definition gen_mismatch (have want : Z) : Z :=
  if want <? have then VMACCEL_SEMANTIC_ERROR else VMACCEL_RESOURCE_UNAVAILABLE.

(** The argument list evaluated on the surfaces of one state: the status that
    stops it, if any, and the runtime with the arguments bound so far. *)
Fixpoint bind_all (kernel : Z) (s : backend) (args : list VMCLKernelArgDesc) (c : cl_state) :
    option Z * cl_state :=
  match args with
  | [] => (None, c)
  | a :: args =>
      let surf := VMCLKernelArgDesc_surf a in
      match lookup_inst (VMAccelSurfaceId_id surf) (VMAccelSurfaceId_instance surf) s with
      | None => (Some VMACCEL_FAIL, c)
      | Some y =>
          if negb (si_generation y =? VMAccelSurfaceId_generation surf)
          then (Some (gen_mismatch (si_generation y) (VMAccelSurfaceId_generation surf)), c)
          else
            let '(errNum, c) := bind_result kernel (VMCLKernelArgDesc_index a) y c in
            if negb (errNum =? CL_SUCCESS) then (Some VMACCEL_FAIL, c) else bind_all kernel s args c
      end
  end.

Lemma bind_arg_eq kernel index m y s e c :
  bind_result kernel index y (cl s) = (e, c) →
  bind_arg kernel index (set_si_mutex m y) s = Done e (set_cl c s).
Proof.
  unfold bind_arg, bind_result, cl_call. mrun. see_instance.
  destruct (si_svm_ptr y =? 0); simpl.
  - destruct (clSetKernelArg _ _ _ _). by intros [= -> ->].
  - destruct (clSetKernelArgSVMPointer _ _ _ _) as [e1 c1]. destruct (e1 =? CL_SUCCESS).
    + simpl. destruct (clSetKernelExecInfo_SVM_PTRS _ _ _). by intros [= -> ->].
    + by intros [= -> ->].
Qed.

(** The first [n] arguments' locks, released from the last on, lead back to
    [s]; the runtime keeps what happened in between. *)
Definition unwinds (tid : Z) (args : list VMCLKernelArgDesc) (n : nat) (s' s : backend) : Prop :=
  ∀ c, dispatch_cleanup tid args n (set_cl c s') = Done tt (set_cl c s).

Definition ready_arg (tid : Z) (s : backend) (a : VMCLKernelArgDesc) : Prop :=
  VMCLKernelArgDesc_type a = VMCL_ARG_SURFACE ∧
  ready_surface tid (VMAccelSurfaceId_id (VMCLKernelArgDesc_surf a))
    (VMAccelSurfaceId_instance (VMCLKernelArgDesc_surf a)) s.

Lemma unwinds_step tid args n a s' s1 s u :
  args !! n = Some a → VMCLKernelArgDesc_type a = VMCL_ARG_SURFACE →
  lock_surface tid (VMAccelSurfaceId_id (VMCLKernelArgDesc_surf a))
    (VMAccelSurfaceId_instance (VMCLKernelArgDesc_surf a)) s' = Done u s1 →
  unwinds tid args n s' s → unwinds tid args (S n) s1 s.
Proof.
  intros Ha Ht Hl Hun c. simpl. rewrite Ha. mrun. rewrite Ht. simpl.
  rewrite (unlock_surface_same _ _ _ _ _ _ c Hl). apply Hun.
Qed.

Lemma dispatch_args_run tid kernel s args : ∀ rest pre s',
  args = pre ++ rest → erase (set_cl (cl s) s') = erase s → Forall (ready_arg tid s') rest →
  unwinds tid args (length pre) s' s →
  ∃ n s'',
    dispatch_args tid kernel (Z.of_nat (length pre)) rest s' =
      Done (Z.of_nat n, (bind_all kernel s rest (cl s')).1) s'' ∧
    cl s'' = (bind_all kernel s rest (cl s')).2 ∧
    match (bind_all kernel s rest (cl s')).1 with
    | None => n = length args ∧ unwinds tid args n s'' s
    | Some _ => (n < length args)%nat ∧ unwinds tid args (S n) s'' s
    end.
Proof.
  induction rest as [| a rest IH]; intros pre s' Hargs He Hready Hun.
  { exists (length pre), s'. rewrite app_nil_r in Hargs. by subst. }
  inversion Hready as [| ? ? [Ht Hra] Hready']; subst.
  destruct Hra as (x' & y' & Hx' & Hy' & Hmx & Hmy).
  destruct (lock_surface_eq tid _ _ s' x' y' Hx' Hy' (rec_avail_can_lock _ _ Hmx)
              (rec_avail_can_lock _ _ Hmy)) as [s1 Hl].
  assert (Hnth : (pre ++ a :: rest) !! length pre = Some a)
    by (rewrite lookup_app_r, Nat.sub_diag by lia; done).
  pose proof (unwinds_step _ _ _ _ _ _ _ _ Hnth Ht Hl Hun) as Hun1.
  pose proof (erase_lock_surface _ _ _ _ _ _ Hl) as He1. pose proof (erase_cl _ _ He1) as Hcl.
  destruct (erase_same_inst (set_cl (cl s) s') s _ _ y' (eq_sym He) (lookup_inst_intro _ _ _ _ _ Hx' Hy'))
    as (y & Hy & _).
  assert (He1' : erase (set_cl (cl s) s1) = erase s) by (by rewrite <- He, !erase_set_cl, He1).
  destruct (inst_read_erase s (set_cl (cl s) s1) _ _ y He1' Hy) as (m & Hr).
  assert (Hr1 : inst_read (VMAccelSurfaceId_id (VMCLKernelArgDesc_surf a))
                 (VMAccelSurfaceId_instance (VMCLKernelArgDesc_surf a)) s1 = Done (set_si_mutex m y) s1).
  { apply inst_read_inv in Hr as [Hr _]. by apply inst_read_eq. }
  assert (Hlen : (length pre < length (pre ++ a :: rest))%nat) by (rewrite length_app; simpl; lia).
  cbn [dispatch_args bind_all]. rewrite Hy, Ht, Z.eqb_refl. mrun. rewrite Hl, Hr1. see_instance.
  destruct (si_generation y =? _) eqn:Hg; cbn [negb].
  2: { by exists (length pre), s1. }
  destruct (bind_result _ _ y (cl s')) as [e c] eqn:Hb.
  rewrite (bind_arg_eq _ _ _ _ _ e c) by (by rewrite Hcl).
  destruct (e =? CL_SUCCESS); cbn [negb]; [| by exists (length pre), (set_cl c s1)].
  destruct (IH (pre ++ [a]) (set_cl c s1)) as (n & s'' & Hd & Hcl' & Hst).
  - by rewrite <- app_assoc.
  - done.
  - eapply List.Forall_impl; [| exact Hready']. intros b [Htb Hrb]. split; [done |].
    destruct (ready_lock _ _ _ _ _ _ _ _ Hrb Hl) as (xb & yb & ?). by exists xb, yb.
  - rewrite length_app. simpl. rewrite Nat.add_1_r. exact Hun1.
  - exists n, s''. rewrite length_app, Nat2Z.inj_add in Hd.
    change (Z.of_nat (length [a])) with 1 in Hd. by rewrite Hd.
Qed.

(** The index the cleanup loop starts from. *)
Lemma cleanup_start_stop n len :
  (n < len)%nat → Z.of_nat len < 2147483648 → cleanup_start (Z.of_nat n) (Z.of_nat len) = Z.of_nat n.
Proof. intros. unfold cleanup_start, s32. u32_unfold. repeat zcase; lia. Qed.

Lemma cleanup_start_end len :
  (0 < len)%nat → Z.of_nat len < 2147483648 →
  cleanup_start (Z.of_nat len) (Z.of_nat len) = Z.of_nat len - 1.
Proof. intros. unfold cleanup_start, s32. u32_unfold. repeat zcase; lia. Qed.

Definition dims_available (argp : VMCLDispatchOp) : bool :=
  let d := VMCLDispatchOp_dimension argp in
  (d <=? Z.of_nat (length (VMCLDispatchOp_globalWorkOffset argp))) &&
  (d <=? Z.of_nat (length (VMCLDispatchOp_globalWorkSize argp))) &&
  (d <=? Z.of_nat (length (VMCLDispatchOp_localWorkSize argp))).

Lemma dispatch_enqueue_eq queue kernel argp s :
  dispatch_enqueue queue kernel argp s =
    if negb (VMCLDispatchOp_dimension argp <=? CL_DEVICE_MAX_WORK_ITEM_DIMENSIONS)
    then Fault AssertFailed
    else if negb (dims_available argp) then Fault BadAccess
    else
      let n := Z.to_nat (VMCLDispatchOp_dimension argp) in
      let '(errNum, c) := clEnqueueNDRangeKernel queue kernel (VMCLDispatchOp_dimension argp)
             (take n (VMCLDispatchOp_globalWorkOffset argp)) (take n (VMCLDispatchOp_globalWorkSize argp))
             (take n (VMCLDispatchOp_localWorkSize argp)) (cl s) in
      Done (if negb (errNum =? CL_SUCCESS) then VMACCEL_FAIL else VMACCEL_SUCCESS) (set_cl c s).
Proof.
  unfold dispatch_enqueue, dims_available, read_n, cl_call. mrun.
  destruct (_ <=? CL_DEVICE_MAX_WORK_ITEM_DIMENSIONS); simpl; [| done].
  destruct (_ <=? Z.of_nat (length (VMCLDispatchOp_globalWorkOffset argp))); simpl; [| done].
  destruct (_ <=? Z.of_nat (length (VMCLDispatchOp_globalWorkSize argp))); simpl; [| done].
  destruct (_ <=? Z.of_nat (length (VMCLDispatchOp_localWorkSize argp))); simpl; [| done].
  by destruct (clEnqueueNDRangeKernel _ _ _ _ _ _ _).
Qed.

(** The whole dispatch on one state: bind the arguments, stop at the first
    that is not there, else enqueue the kernel. *)
Definition dispatch_model (argp : VMCLDispatchOp) (q : VMWOpenCLQueue) (k : VMWOpenCLKernel)
    (s : backend) : outcome backend VMAccelStatus :=
  match bind_all (k_kernel k) s (VMCLDispatchOp_args argp) (cl s) with
  | (Some status, c) => Done (mkStatus status) (set_cl c s)
  | (None, c) =>
      match dispatch_enqueue (q_queue q) (k_kernel k) argp (set_cl c s) with
      | Done status s' => Done (mkStatus status) s'
      | Fault f => Fault f
      end
  end.

Lemma dispatch_spec tid argp s q k :
  let args := VMCLDispatchOp_args argp in
  tab_lookup Queues (VMCLQueueId_id (VMCLDispatchOp_queue argp)) s = Some q →
  tab_lookup Kernels (VMCLKernelId_id (VMCLDispatchOp_kernel argp)) s = Some k →
  args ≠ [] → Z.of_nat (length args) < 2147483648 → Forall (ready_arg tid s) args →
  vmwopencl_dispatch_1 tid argp s = dispatch_model argp q k s.
Proof.
  intros args Hq Hk Hne Hlen Hready.
  destruct (dispatch_args_run tid (k_kernel k) s args args [] s) as (n & s'' & Hd & Hcl & Hst); try done.
  { by rewrite set_cl_id. }
  change (Z.of_nat (length [])) with 0 in Hd. unfold vmwopencl_dispatch_1, dispatch_model. mrun. rewrite (tab_read_eq _ _ _ q), (tab_read_eq _ _ _ k) by done.
  fold args. rewrite Hd. destruct (bind_all (k_kernel k) s args (cl s)) as [[status |] c]; simpl in *.
  - destruct Hst as [Hn Hun]. rewrite cleanup_start_stop by done.
    replace (Z.to_nat (Z.of_nat n + 1)) with (S n) by lia.
    rewrite <- (set_cl_id s''), Hun, Hcl. done.
  - destruct Hst as [-> Hun].
    rewrite cleanup_start_end; [| destruct args; [done | simpl; lia] | done].
    replace (Z.to_nat (Z.of_nat (length args) - 1 + 1)) with (length args) by lia.
    rewrite !dispatch_enqueue_eq. simpl. rewrite Hcl.
    destruct (_ <=? CL_DEVICE_MAX_WORK_ITEM_DIMENSIONS); simpl; [| done].
    destruct (dims_available argp); simpl; [| done].
    destruct (clEnqueueNDRangeKernel _ _ _ _ _ _ c) as [e c2]. by rewrite Hun.
Qed.

(** ** Dispatches that return, whatever the mutexes *)

Lemma dispatch_args_inv tid kernel s args : ∀ rest pre s' i stop s'',
  args = pre ++ rest → unwinds tid args (length pre) s' s →
  dispatch_args tid kernel (Z.of_nat (length pre)) rest s' = Done (i, stop) s'' →
  ∃ n, i = Z.of_nat n ∧
    match stop with
    | None => n = length args ∧ unwinds tid args n s'' s
    | Some _ => (n < length args)%nat ∧ unwinds tid args (S n) s'' s
    end.
Proof.
  induction rest as [| a rest IH]; intros pre s' i stop s'' Hargs Hun Hrun.
  { simpl in Hrun. injection Hrun as <- <- <-. exists (length pre). rewrite app_nil_r in Hargs. by subst. }
  cbn [dispatch_args] in Hrun. destruct (Z.eqb_spec (VMCLKernelArgDesc_type a) VMCL_ARG_SURFACE) as [Ht |];
    [| done].
  unfold mbind, M_bind in Hrun. destruct (lock_surface _ _ _ s') as [u s1 |] eqn:Hl; [| done].
  assert (Hnth : args !! length pre = Some a) by (rewrite Hargs, lookup_app_r, Nat.sub_diag by lia; done).
  assert (Hlen : (length pre < length args)%nat) by (rewrite Hargs, length_app; simpl; lia).
  pose proof (unwinds_step _ _ _ _ _ _ _ _ Hnth Ht Hl Hun) as Hun1.
  destruct (inst_read _ _ s1) as [y s2 |] eqn:Hr; [| done]. apply inst_read_inv in Hr as [_ ->].
  destruct (negb _); [injection Hrun as <- <- <-; by exists (length pre) |].
  destruct (bind_arg _ _ y s1) as [e s2 |] eqn:Hb; [| done].
  assert (∃ c, s2 = set_cl c s1) as (c & ->).
  { pose proof (bind_arg_eq kernel (VMCLKernelArgDesc_index a) (si_mutex y) y s1) as Hbe.
    replace (set_si_mutex (si_mutex y) y) with y in Hbe by (by destruct y).
    destruct (bind_result _ _ y (cl s1)) as [e' c'].
    rewrite (Hbe e' c' eq_refl) in Hb. injection Hb as _ <-. by exists c'. }
  destruct (negb _); [injection Hrun as <- <- <-; by exists (length pre) |].
  apply (IH (pre ++ [a]) (set_cl c s1)); [by rewrite <- app_assoc | |].
  - rewrite length_app. simpl. rewrite Nat.add_1_r. exact Hun1.
  - rewrite length_app, Nat2Z.inj_add. exact Hrun.
Qed.

(** A dispatch that returns has changed nothing but the runtime's state. *)
Lemma dispatch_inv tid argp s r s' :
  Z.of_nat (length (VMCLDispatchOp_args argp)) < 2147483648 →
  vmwopencl_dispatch_1 tid argp s = Done r s' → ∃ c, s' = set_cl c s.
Proof.
  intros Hlen Hrun. unfold vmwopencl_dispatch_1 in Hrun. set (args := VMCLDispatchOp_args argp) in *.
  unfold mbind, M_bind in Hrun.
  destruct (tab_read Queues _ s) as [q s0 |] eqn:Hq; [| done].
  unfold tab_read in Hq. destruct (tab_lookup Queues _ s); [| done]. injection Hq as _ <-.
  destruct (tab_read Kernels _ s) as [k s0 |] eqn:Hk; [| done].
  unfold tab_read in Hk. destruct (tab_lookup Kernels _ s); [| done]. injection Hk as _ <-.
  destruct (dispatch_args tid (k_kernel k) 0 args s) as [[i stop] s1 |] eqn:Hd; [| done].
  destruct (dispatch_args_inv tid (k_kernel k) s args args [] s i stop s1) as (n & -> & Hst); try done.
  assert (∀ n c, unwinds tid args n s1 s → ∀ s2, dispatch_cleanup tid args n (set_cl c s1) = Done tt s2 →
    s2 = set_cl c s) as Hfin.
  { intros n0 c Hun s2 Hc. rewrite Hun in Hc. by injection Hc. }
  destruct stop as [status |].
  - destruct Hst as [Hn Hun]. cbv [mret M_ret] in Hrun. rewrite cleanup_start_stop in Hrun by done.
    replace (Z.to_nat (Z.of_nat n + 1)) with (S n) in Hrun by lia.
    destruct (dispatch_cleanup tid args (S n) s1) as [[] s2 |] eqn:Hc; [| done]. injection Hrun as _ <-.
    exists (cl s1). apply (Hfin (S n)); [done |]. by rewrite set_cl_id.
  - destruct Hst as [-> Hun].
    destruct (dispatch_enqueue _ _ argp s1) as [st s2 |] eqn:He; [| done].
    assert (∃ c, s2 = set_cl c s1) as (c & ->).
    { rewrite dispatch_enqueue_eq in He. destruct (negb _); [done |]. destruct (negb _); [done |].
      cbv zeta in He. destruct (clEnqueueNDRangeKernel _ _ _ _ _ _ _) as [e c].
      injection He as _ <-. by exists c. }
    destruct (decide (args = [])) as [Hnil | Hnil]; [rewrite Hnil in Hrun; done |].
    rewrite cleanup_start_end in Hrun; [| destruct args; [done | simpl; lia] | done].
    replace (Z.to_nat (Z.of_nat (length args) - 1 + 1)) with (length args) in Hrun by lia.
    destruct (dispatch_cleanup tid args (length args) _) as [[] s2 |] eqn:Hc; [| done]. injection Hrun as _ <-.
    exists c. by apply (Hfin (length args)).
Qed.

End Dispatch.
