(* ===== verification/BackendInvariants.v ===== *)
(** * Invariants of the OpenCL backend

    What holds in every state the backend reaches from power-on: each id the
    databases call active names a live object and the others name none. *)

From S2P Require Import Prelude IdentifierDB XdrRuntime RpcTypes Backend BackendOps.
From S2P Require Import BackendPower BackendLemmas BackendFrame SimCL.

(** The definitions a handler is made of. *)
Ltac unfold_handlers :=
  unfold vmwopencl_contextalloc_1, vmwopencl_contextdestroy_1, vmwopencl_surfacealloc_1,
    vmwopencl_surfacedestroy_1, vmwopencl_queuealloc_1, vmwopencl_queuedestroy_1,
    vmwopencl_queueflush_1, vmwopencl_imageupload_1, vmwopencl_imagedownload_1,
    vmwopencl_surfacemap_1, vmwopencl_surfaceunmap_1, vmwopencl_surfacecopy_1,
    vmwopencl_imagefill_1, vmwopencl_sampleralloc_1, vmwopencl_samplerdestroy_1,
    vmwopencl_kernelalloc_1, vmwopencl_kerneldestroy_1, vmwopencl_dispatch_1,
    context_warnings, surface_install, instance_destroy, lock_pair, unlock_pair, map_first, memcpy_to,
    enqueue_write, enqueue_read, dispatch_enqueue, read_n.

Section Views.
Context `{OpenCL}.
Implicit Types s : backend.

Definition view_context s := (contexts s, contextIds s).
Definition view_queue s := (queues s, queueIds s).
Definition view_kernel s := (kernels s, kernelIds s).
Definition cores s : heap (list (list (Z * Z))) :=
  match surfaces s with Live l => Live (core_surf <$> l) | Null => Null | Freed => Freed end.
Definition view_surface s := (cores s, surfaceIds s).

#[global] Instance ignores_context : IgnoresSurf view_context.
Proof. intros sid F s _. unfold view_context, upd_surf. by destruct (surfaces s). Qed.
#[global] Instance ignores_queue : IgnoresSurf view_queue.
Proof. intros sid F s _. unfold view_queue, upd_surf. by destruct (surfaces s). Qed.
#[global] Instance ignores_kernel : IgnoresSurf view_kernel.
Proof. intros sid F s _. unfold view_kernel, upd_surf. by destruct (surfaces s). Qed.
#[global] Instance ignores_surface : IgnoresSurf view_surface.
Proof.
  intros sid F s HF. unfold view_surface, cores, upd_surf.
  destruct (surfaces s) as [| | l] eqn:E; simpl; rewrite ?E; try done.
  by rewrite (fmap_alter_same core_surf F).
Qed.

Definition on_contexts (r : request) : bool :=
  match r with ContextAlloc _ | ContextDestroy _ => true | _ => false end.
Definition on_queues (r : request) : bool :=
  match r with QueueAlloc _ | QueueDestroy _ => true | _ => false end.
Definition on_kernels (r : request) : bool :=
  match r with KernelAlloc _ | KernelDestroy _ => true | _ => false end.
Definition on_surfaces (r : request) : bool :=
  match r with SurfaceAlloc _ | SurfaceDestroy _ => true | _ => false end.

Lemma exec_keeps_context tid r : on_contexts r = false → keeps view_context (exec tid r).
Proof. destruct r; try done; intros _; simpl; unfold_handlers; keeps_auto. Qed.

Lemma exec_keeps_queue tid r : on_queues r = false → keeps view_queue (exec tid r).
Proof. destruct r; try done; intros _; simpl; unfold_handlers; keeps_auto. Qed.

Lemma exec_keeps_kernel tid r : on_kernels r = false → keeps view_kernel (exec tid r).
Proof. destruct r; try done; intros _; simpl; unfold_handlers; keeps_auto. Qed.

Lemma exec_keeps_surface tid r : on_surfaces r = false → keeps view_surface (exec tid r).
Proof. destruct r; try done; intros _; simpl; unfold_handlers; keeps_auto. Qed.

End Views.

(** ** Objects and their ids *)

(** A table with its database: every element has the shape of an object of
    its kind, and an id is active exactly when its element is live. *)
Definition objects {A} (shape live : A → Prop) (v : heap (list A) * heap IdentifierDB) : Prop :=
  ∃ l db, v = (Live l, Live db) ∧ IdentifierDB.wf db ∧ size db = 32 ∧ length l = 32%nat ∧
    Forall shape l ∧
    ∀ id a, 0 ≤ id → l !! Z.to_nat id = Some a → (id ∈ used db ↔ live a).

Section Objects.
Context {A : Type} (shape live : A → Prop).

Lemma AcquireId_true db id db' :
  IdentifierDB.wf db → 0 ≤ id → IdentifierDB_AcquireId id db = Done true db' →
  IdentifierDB.wf db' ∧ size db' = size db ∧ used db' = {[id]} ∪ used db ∧ id < size db ∧ (id ∉ used db).
Proof.
  intros Hwf Hid Ha. destruct (decide (size db ≤ id ∨ id ∈ used db)) as [Hr | Hr].
  { rewrite (AcquireId_refused db id Hwf Hid Hr) in Ha. done. }
  destruct (AcquireId_fresh db id Hwf) as (db1 & H1 & Hwf1 & [Hs _] & _ & Hu & _); [lia | tauto |].
  rewrite H1 in Ha. injection Ha as <-. split_and!; try done; [lia | tauto].
Qed.

Lemma objects_install l db id a db' :
  objects shape live (Live l, Live db) → 0 ≤ id → IdentifierDB_AcquireId id db = Done true db' →
  shape a → live a →
  objects shape live (Live (<[Z.to_nat id := a]> l), Live db').
Proof.
  intros (l0 & db0 & [= <- <-] & Hwf & Hsz & Hlen & Hshape & Hiff) Hid Ha Hsa Hla.
  destruct (AcquireId_true db id db' Hwf Hid Ha) as (Hwf' & Hs' & Hu & Hlt & _).
  exists (<[Z.to_nat id := a]> l), db'. split_and!; try done; [lia | by rewrite length_insert | |].
  - by apply Forall_insert.
  - intros k b Hk. rewrite Hu, elem_of_union, elem_of_singleton.
    destruct (decide (k = id)) as [-> | Hne].
    + rewrite list_lookup_insert_eq by lia. intros [= <-]. tauto.
    + rewrite list_lookup_insert_ne by lia. intros Hb. rewrite <- (Hiff k b Hk Hb). tauto.
Qed.

Lemma objects_remove l db id a u db' :
  objects shape live (Live l, Live db) → 0 ≤ id → ActiveId id db = Done true db →
  IdentifierDB_ReleaseId id db = Done u db' → shape a → ¬ live a →
  objects shape live (Live (<[Z.to_nat id := a]> l), Live db').
Proof.
  intros (l0 & db0 & [= <- <-] & Hwf & Hsz & Hlen & Hshape & Hiff) Hid Ha Hr Hsa Hla.
  rewrite (ActiveId_eq db id Hwf Hid) in Ha. injection Ha as Ha%bool_decide_eq_true.
  destruct (ReleaseId_active db id Hwf Ha) as (db1 & H1 & Hwf1 & [Hs _] & _ & Hu & _).
  rewrite H1 in Hr. injection Hr as _ <-. apply elem_of_used in Ha as [Hrange _].
  exists (<[Z.to_nat id := a]> l), db1. split_and!; try done; [lia | by rewrite length_insert | |].
  - by apply Forall_insert.
  - intros k b Hk. rewrite Hu, elem_of_difference, elem_of_singleton.
    destruct (decide (k = id)) as [-> | Hne].
    + rewrite list_lookup_insert_eq by lia. intros [= <-]. tauto.
    + rewrite list_lookup_insert_ne by lia. intros Hb. rewrite <- (Hiff k b Hk Hb). tauto.
Qed.

Lemma objects_initial n zero :
  n = 32 → shape zero → ¬ live zero →
  ∀ db, IdentifierDB_Alloc true true n = Some db →
  objects shape live (Live (replicate (Z.to_nat n) zero), Live db).
Proof.
  intros -> Hs Hl db Hdb. destruct (Alloc_wf 32 db ltac:(lia) Hdb) as (Hwf & Hsz & Hu & _).
  exists (replicate (Z.to_nat 32) zero), db. split_and!; try done.
  - by apply Forall_replicate.
  - intros id a _ [-> _]%lookup_replicate_1. rewrite Hu. split; [by intros ?%elem_of_empty | done].
Qed.
End Objects.

(** Takes a returning run apart, one bind at a time. *)
Ltac minv H :=
  let a := fresh "a" in let s1 := fresh "s" in let H1 := fresh "Hrun" in
  apply bind_done in H as (a & s1 & H1 & H).

Section Preservation.
Context `{OpenCL}.
Implicit Types s : backend.

Lemma with_db_view {A C} (d : dbref) (m : M IdentifierDB A) (π : backend → C) s a s' :
  with_db d m s = Done a s' → (∀ x s, π (d_set d x s) = π s) → π s' = π s.
Proof. intros (? & ? & _ & _ & ->)%with_db_inv Hd. apply Hd. Qed.

(** *** Queues *)

Definition queue_live (q : VMWOpenCLQueue) : Prop := q_queue q ≠ 0.
Definition queues_ok s : Prop := objects (λ _, True) queue_live (view_queue s).

Lemma queuealloc_ok argp s r s' :
  0 ≤ VMCLQueueId_id (VMCLQueueAllocateDesc_client argp) →
  queues_ok s → vmwopencl_queuealloc_1 argp s = Done r s' → queues_ok s'.
Proof.
  intros Hid Hok Hrun. unfold vmwopencl_queuealloc_1 in Hrun.
  minv Hrun. apply tab_read_inv in Hrun0 as [_ ->].
  minv Hrun. apply with_db_Active in Hrun0 as (db & Hdb & Ha & ->); [| apply _].
  destruct a0; [by injection Hrun as <- <- |].
  minv Hrun. injection Hrun0 as <- <-. destruct (clGetContextInfo_size _ _) as [e1 sz].
  destruct (negb (e1 =? CL_SUCCESS)); [by injection Hrun as <- <- |].
  destruct (sz <=? 0); [by injection Hrun as <- <- |].
  minv Hrun. injection Hrun0 as <- <-. destruct (clGetContextInfo_devices _ _ _) as [e2 devs].
  destruct (_ || _); [by injection Hrun as <- <- |].
  minv Hrun. destruct (take _ _ !! _); [| done]. injection Hrun0 as <- <-.
  minv Hrun. unfold cl_call in Hrun0. destruct (clCreateCommandQueueWithProperties _ _ _) as [h c].
  injection Hrun0 as <- <-. destruct (Z.eqb_spec h 0); [by injection Hrun as <- <- |].
  minv Hrun. apply with_db_inv in Hrun0 as (db1 & db' & Hdb1 & Hacq & ->).
  destruct a0; [| by minv Hrun; minv Hrun].
  minv Hrun. apply tab_write_inv in Hrun0 as (l & Hl & _ & ->). injection Hrun as <- <-.
  unfold queues_ok, view_queue in *. simpl in *. rewrite Hl, Hdb1 in Hok.
  by apply (objects_install _ _ l db1).
Qed.

Lemma queuedestroy_ok argp s r s' :
  0 ≤ VMCLQueueId_id argp →
  queues_ok s → vmwopencl_queuedestroy_1 argp s = Done r s' → queues_ok s'.
Proof.
  intros Hid Hok Hrun. unfold vmwopencl_queuedestroy_1 in Hrun.
  minv Hrun. apply with_db_Active in Hrun0 as (db & Hdb & Ha & ->); [| apply _].
  minv Hrun. destruct a; [| done]. injection Hrun0 as <- <-.
  minv Hrun. apply tab_read_inv in Hrun0 as [_ ->].
  minv Hrun. injection Hrun0 as <- <-.
  minv Hrun. apply tab_write_inv in Hrun0 as (l & Hl & _ & ->).
  minv Hrun. apply with_db_inv in Hrun0 as (db1 & db' & Hdb1 & Hrel & ->). injection Hrun as <- <-.
  unfold queues_ok, view_queue in *. simpl in *. rewrite Hl, Hdb1 in Hok.
  assert (db1 = db) as -> by congruence. eapply (objects_remove _ _ l db); try done.
  intros Hl0. by apply Hl0.
Qed.

(** *** Kernels *)

Definition kernel_live (k : VMWOpenCLKernel) : Prop := k_program k ≠ 0 ∧ k_kernel k ≠ 0.
Definition kernels_ok s : Prop := objects (λ k, kernel_live k ∨ k = zero_kernel) kernel_live (view_kernel s).

Lemma kernelalloc_ok argp s r s' :
  0 ≤ VMCLKernelId_id (VMCLKernelAllocateDesc_client argp) →
  kernels_ok s → vmwopencl_kernelalloc_1 argp s = Done r s' → kernels_ok s'.
Proof.
  intros Hid Hok Hrun. unfold vmwopencl_kernelalloc_1 in Hrun.
  minv Hrun. apply tab_read_inv in Hrun0 as [_ ->].
  minv Hrun. destruct (ctx_deviceIds a !! _); [| done]. injection Hrun0 as <- <-.
  minv Hrun. apply with_db_Active in Hrun0 as (db & Hdb & Ha & ->); [| apply _].
  destruct a0; [by injection Hrun as <- <- |].
  destruct (create_program _ _ _ _ _) as [create |]; [| by minv Hrun].
  minv Hrun. unfold cl_call in Hrun0. destruct (create (cl s)) as [[program e1] c1].
  injection Hrun0 as <- <-.
  destruct (Z.eqb_spec program 0); simpl in Hrun; [by injection Hrun as <- <- |].
  destruct (e1 =? CL_SUCCESS); simpl in Hrun; [| by injection Hrun as <- <-].
  minv Hrun. unfold cl_call in Hrun0. destruct (clBuildProgram _ _ _) as [e2 c2].
  injection Hrun0 as <- <-. destruct (e2 =? CL_SUCCESS); simpl in Hrun;
    [| minv Hrun; injection Hrun0 as <- <-; by injection Hrun as <- <-].
  minv Hrun. unfold cl_call in Hrun0. destruct (clCreateKernel _ _ _) as [h c3].
  injection Hrun0 as <- <-. destruct (Z.eqb_spec h 0); simpl in Hrun;
    [minv Hrun; injection Hrun0 as <- <-; by injection Hrun as <- <- |].
  minv Hrun. apply with_db_inv in Hrun0 as (db1 & db' & Hdb1 & Hacq & ->).
  minv Hrun. destruct a0; [| done].
  apply tab_write_inv in Hrun0 as (l & Hl & _ & ->). injection Hrun as <- <-.
  unfold kernels_ok, view_kernel in *. simpl in *. rewrite Hl, Hdb1 in Hok.
  apply (objects_install _ _ l db1); try done. by left.
Qed.

Lemma kerneldestroy_ok argp s r s' :
  0 ≤ VMCLKernelId_id argp →
  kernels_ok s → vmwopencl_kerneldestroy_1 argp s = Done r s' → kernels_ok s'.
Proof.
  intros Hid Hok Hrun. unfold vmwopencl_kerneldestroy_1 in Hrun.
  minv Hrun. apply with_db_Active in Hrun0 as (db & Hdb & Ha & ->); [| apply _].
  destruct a; simpl in Hrun; [| by injection Hrun as <- <-].
  minv Hrun. apply tab_read_inv in Hrun0 as [_ ->].
  minv Hrun. injection Hrun0 as <- <-. minv Hrun. injection Hrun0 as <- <-.
  minv Hrun. apply tab_write_inv in Hrun0 as (l & Hl & _ & ->).
  minv Hrun. apply with_db_inv in Hrun0 as (db1 & db' & Hdb1 & Hrel & ->). injection Hrun as <- <-.
  unfold kernels_ok, view_kernel in *. simpl in *. rewrite Hl, Hdb1 in Hok.
  assert (db1 = db) as -> by congruence. eapply (objects_remove _ _ l db); try done; [by right |].
  by intros [].
Qed.

(** *** Contexts *)

Definition context_live (c : VMWOpenCLContext) : Prop := ctx_context c ≠ 0.
Definition context_shape (c : VMWOpenCLContext) : Prop :=
  length (ctx_deviceIds c) = VMCL_MAX_SUBDEVICES.
Definition contexts_ok s : Prop := objects context_shape context_live (view_context s).

Lemma ca_devices_length argp platform n : ∀ j v s v' s',
  length (ca_deviceIds v) = VMCL_MAX_SUBDEVICES →
  ca_devices argp platform n j v s = Done v' s' → length (ca_deviceIds v') = VMCL_MAX_SUBDEVICES.
Proof.
  induction n as [| n IH]; intros j v s v' s' Hv Hrun; simpl in Hrun; [by injection Hrun as <- <- |].
  destruct (_ =? 0); [by eapply IH |]. minv Hrun. minv Hrun.
  destruct a0 as [e ids]. destruct (negb (e =? CL_SUCCESS)); [by eapply IH in Hrun |].
  destruct (_ <? _); [done |]. minv Hrun. destruct a0 as [context e2].
  set (ids' := take VMCL_MAX_SUBDEVICES (ids ++ drop (length ids) (ca_deviceIds v))) in *.
  assert (length ids' = VMCL_MAX_SUBDEVICES) as Hids.
  { unfold ids'. rewrite length_take, length_app, length_drop. lia. }
  destruct (negb (e2 =? CL_SUCCESS)); [by eapply IH in Hrun |].
  destruct (negb (context =? 0)); [by injection Hrun as <- <- | by eapply IH in Hrun].
Qed.

Lemma ca_platforms_found argp platforms n : ∀ i v s v' found s',
  length (ca_deviceIds v) = VMCL_MAX_SUBDEVICES →
  ca_platforms argp platforms n i v s = Done (v', found) s' →
  length (ca_deviceIds v') = VMCL_MAX_SUBDEVICES.
Proof.
  induction n as [| n IH]; intros i v s v' found s' Hv Hrun; cbn [ca_platforms] in Hrun; [by injection Hrun as <- <- <- |].
  minv Hrun. minv Hrun. destruct a0 as [e version].
  destruct (negb (e =? CL_SUCCESS)); [by eapply IH in Hrun |].
  destruct (parse_version version) as [major minor].
  destruct (_ && _); [by eapply IH in Hrun |]. destruct (_ && _); [by eapply IH in Hrun |].
  minv Hrun. destruct a0 as [e3 name]. destruct (negb (e3 =? CL_SUCCESS)); [by eapply IH in Hrun |].
  minv Hrun. apply ca_devices_length in Hrun3; [| done].
  destruct (negb (ca_context a0 =? 0)); [by injection Hrun as <- <- <- | by eapply IH in Hrun].
Qed.

Lemma contextalloc_ok argp s r s' :
  0 ≤ VMCLContextAllocateDesc_clientId argp →
  contexts_ok s → vmwopencl_contextalloc_1 argp s = Done r s' → contexts_ok s'.
Proof.
  intros Hid Hok Hrun. unfold vmwopencl_contextalloc_1 in Hrun.
  minv Hrun. apply with_db_Active in Hrun0 as (db & Hdb & Ha & ->); [| apply _].
  destruct a; [by injection Hrun as <- <- |].
  minv Hrun. injection Hrun0 as <- <-. destruct (clGetPlatformIDs _ _) as [e [platforms num]].
  destruct (_ || _); [by injection Hrun as <- <- |].
  minv Hrun. destruct a as [v found].
  assert (view_context s0 = view_context s) as Hview
    by (eapply (keeps_ca_platforms view_context); [done | exact Hrun0]).
  apply ca_platforms_found in Hrun0; [| done].
  assert (contexts_ok s0) as Hok0 by (unfold contexts_ok; by rewrite Hview).
  destruct found as [[platform [major minor]] |]; [| by injection Hrun as <- <-].
  destruct (Z.eqb_spec (ca_context v) 0); simpl in Hrun; [by injection Hrun as <- <- |].
  destruct (ca_errNum v =? CL_SUCCESS); simpl in Hrun; [| by injection Hrun as <- <-].
  minv Hrun. apply with_db_inv in Hrun1 as (db1 & db' & Hdb1 & Hacq & ->).
  minv Hrun. destruct a; [| done].
  apply tab_write_inv in Hrun1 as (l & Hl & _ & ->). injection Hrun as <- <-.
  unfold contexts_ok, view_context in *. simpl in *. rewrite Hl, Hdb1 in Hok0.
  by apply (objects_install _ _ l db1).
Qed.

Lemma objects_refused {A} (shape live : A → Prop) l db id u db' :
  objects shape live (Live l, Live db) → 0 ≤ id → ActiveId id db = Done false db →
  IdentifierDB_ReleaseId id db = Done u db' → db' = db.
Proof.
  intros (l0 & db0 & [= <- <-] & Hwf & _) Hid Ha Hr. rewrite ActiveId_eq in Ha by done.
  injection Ha as Ha%bool_decide_eq_false. rewrite ReleaseId_refused in Hr by done.
  destruct (size db <=? id); [by injection Hr | done].
Qed.

Lemma warnings_ok s r s' :
  (_ ← context_warnings; mret (mkStatus VMACCEL_SUCCESS)) s = Done r s' → contexts_ok s → contexts_ok s'.
Proof.
  intros Hr Hok. unfold contexts_ok.
  assert (keeps view_context (_ ← context_warnings; mret (mkStatus VMACCEL_SUCCESS))) as Hk
    by (unfold context_warnings; keeps_auto).
  by rewrite (Hk s r s' Hr).
Qed.

Lemma contextdestroy_ok argp s r s' :
  0 ≤ argp → contexts_ok s → vmwopencl_contextdestroy_1 argp s = Done r s' → contexts_ok s'.
Proof.
  intros Hid Hok Hrun. unfold vmwopencl_contextdestroy_1 in Hrun.
  minv Hrun. apply with_db_Active in Hrun0 as (db & Hdb & Ha & ->); [| apply _].
  assert (Hstart := Hok). destruct Hstart as (l & db0 & Hv & Hwf & Hsz & Hlen & Hshape & Hiff).
  unfold view_context in Hv. simpl in Hdb. assert (db0 = db) as -> by congruence. injection Hv as Hl _.
  unfold contexts_ok in Hok. unfold view_context in Hok. rewrite Hl, Hdb in Hok.
  minv Hrun. destruct a; simpl in Hrun0.
  - minv Hrun0. apply tab_read_inv in Hrun1 as [Hx ->]. injection Hrun0 as <- <-.
    apply tab_lookup_live in Hx as (l1 & Hl1 & Hx). simpl in Hl1. assert (l1 = l) as -> by congruence.
    assert (a ∈ l) as Hin by (by eapply list_elem_of_lookup_2).
    assert (context_live a) as Hlive.
    { apply (Hiff argp); [done | done |]. rewrite ActiveId_eq in Ha by done.
      injection Ha as Ha. by apply bool_decide_eq_true in Ha. }
    assert (context_shape a) as Hsh by (eapply Forall_lookup_1; [exact Hshape | exact Hx]).
    rewrite (proj2 (Z.eqb_neq (ctx_context a) 0) Hlive) in Hrun. simpl in Hrun. minv Hrun.
    minv Hrun0. apply tab_read_inv in Hrun1 as [Hx' ->]. minv Hrun0. injection Hrun1 as <- <-.
    apply tab_write_inv in Hrun0 as (l2 & Hl2 & _ & ->). simpl in Hl2. assert (l2 = l) as -> by congruence.
    minv Hrun. apply with_db_inv in Hrun0 as (db1 & db' & Hdb1 & Hrel & ->). simpl in Hdb1.
    assert (db1 = db) as -> by congruence. apply (warnings_ok _ _ _ Hrun).
    apply tab_lookup_live in Hx' as (l3 & Hl3 & Hx'). simpl in Hl3. assert (a1 = a) as -> by congruence.
    unfold contexts_ok, view_context. simpl. eapply (objects_remove _ _ l db); try done.
    intros Hn. by apply Hn.
  - injection Hrun0 as <- <-. minv Hrun. injection Hrun0 as <- <-.
    minv Hrun. apply with_db_inv in Hrun0 as (db1 & db' & Hdb1 & Hrel & ->). simpl in Hdb1.
    assert (db1 = db) as -> by congruence.
    assert (db' = db) as -> by (by eapply (objects_refused _ _ l)). apply (warnings_ok _ _ _ Hrun).
    unfold contexts_ok, view_context. simpl. by rewrite Hl.
Qed.

(** *** Surfaces *)

(** A surface is live when one of its instances has storage. *)
Definition surface_live (core : list (Z * Z)) : Prop := ∃ mem svm, (mem, svm) ∈ core ∧ (mem ≠ 0 ∨ svm ≠ 0).
Definition surface_shape (core : list (Z * Z)) : Prop := length core = VMACCEL_MAX_SURFACE_INSTANCE.
Definition surfaces_ok s : Prop := objects surface_shape surface_live (view_surface s).

Lemma alloc_instances_some alloc release n : ∀ acc s l s',
  Forall (λ h, h ≠ 0) acc → alloc_instances alloc release n acc s = Done (Some l) s' →
  length l = (n + length acc)%nat ∧ Forall (λ h, h ≠ 0) l.
Proof.
  induction n as [| n IH]; intros acc s l s' Hacc Hrun; simpl in Hrun.
  { injection Hrun as <- <-. rewrite length_rev. split; [done |]. by apply Forall_rev. }
  minv Hrun. destruct (Z.eqb_spec a 0); [by minv Hrun |].
  apply IH in Hrun as [Hl Hf]; [| by constructor]. simpl in Hl. split; [lia | done].
Qed.

Lemma cores_upd_surf sid F s x :
  lookup_surf sid s = Some x →
  ∃ l, cores s = Live l ∧ cores (upd_surf sid F s) = Live (<[Z.to_nat sid := core_surf (F x)]> l).
Proof.
  intros (l & Hl & Hx)%lookup_surf_live. exists (core_surf <$> l). unfold cores, upd_surf. rewrite Hl.
  split; [done |]. simpl. rewrite <- (insert_alter_at F _ _ x) by done. by rewrite list_fmap_insert.
Qed.

Lemma tab_modify_surf sid F s u s' :
  tab_modify Surfaces sid F s = Done u s' → ∃ x, lookup_surf sid s = Some x ∧ s' = upd_surf sid F s.
Proof.
  intros Hrun. unfold tab_modify in Hrun. minv Hrun. apply tab_read_inv in Hrun0 as [Hx ->].
  injection Hrun as _ <-. exists a. split; [done |]. by apply tab_insert_surf.
Qed.

Lemma core_init_instances mem svm old :
  length mem = length old → length svm = length old →
  core_inst <$> init_instances mem svm old = zip mem svm.
Proof.
  revert mem svm. induction old as [| y old IH]; intros [| m mem] [| p svm] H1 H2; try done.
  simpl. f_equal. apply IH; simpl in *; lia.
Qed.

Lemma zip_live mem svm :
  length mem = VMACCEL_MAX_SURFACE_INSTANCE → length svm = VMACCEL_MAX_SURFACE_INSTANCE →
  Forall (λ h, h ≠ 0) mem ∨ Forall (λ h, h ≠ 0) svm → surface_live (zip mem svm).
Proof.
  destruct mem as [| m []], svm as [| p []]; try done. intros _ _ Hf. exists m, p. split; [left |].
  destruct Hf as [Hf | Hf]; inversion Hf; tauto.
Qed.

Lemma surface_install_ok tid cid sid desc mem svm s r s' :
  0 ≤ sid →
  length mem = VMACCEL_MAX_SURFACE_INSTANCE → length svm = VMACCEL_MAX_SURFACE_INSTANCE →
  Forall (λ h, h ≠ 0) mem ∨ Forall (λ h, h ≠ 0) svm →
  surfaces_ok s → surface_install tid cid sid desc mem svm s = Done r s' → surfaces_ok s'.
Proof.
  intros Hid Hm Hp Hne Hok Hrun. unfold surface_install in Hrun.
  minv Hrun. apply tab_modify_surf in Hrun0 as (x0 & Hx0 & ->).
  assert (view_surface (upd_surf sid (set_surf_mutex mutex_init_recursive) s) = view_surface s) as Hv
    by (by apply ignores_surf).
  unfold surfaces_ok in Hok. rewrite <- Hv in Hok. clear Hv.
  set (s1 := upd_surf sid (set_surf_mutex mutex_init_recursive) s) in *.
  minv Hrun. apply with_db_inv in Hrun0 as (db & db' & Hdb & Hacq & ->). simpl in Hdb.
  destruct a0; [| by minv Hrun].
  minv Hrun. apply (keeps_surf_lock view_surface) in Hrun0 as Hv1.
  minv Hrun. apply tab_modify_surf in Hrun1 as (x & Hx & ->).
  minv Hrun. apply (keeps_surf_unlock view_surface) in Hrun1 as Hv2. injection Hrun as <- <-.
  unfold surfaces_ok. rewrite Hv2.
  destruct (cores_upd_surf sid (λ x, mkVMWOpenCLSurface cid desc
              (init_instances mem svm (surf_inst x)) (surf_mutex x)) s0 x Hx) as (l & Hl & Hl').
  assert (surfaceIds (upd_surf sid (λ x, mkVMWOpenCLSurface cid desc
              (init_instances mem svm (surf_inst x)) (surf_mutex x)) s0) = surfaceIds s0) as Hids
    by (unfold upd_surf; by destruct (surfaces s0)).
  unfold view_surface in *. rewrite Hl', Hids. injection Hv1 as Hc1 Hi1. simpl in Hi1. rewrite Hi1.
  assert (cores s1 = Live l) as Hl1 by (rewrite <- Hl, Hc1; done). rewrite Hl1, Hdb in Hok.
  assert (length (surf_inst x) = VMACCEL_MAX_SURFACE_INSTANCE) as Hlen.
  { destruct Hok as (l0 & db0 & [= <- <-] & _ & _ & _ & Hsh & _).
    apply lookup_surf_live in Hx as (ls & Hls & Hx). unfold cores in Hl. rewrite Hls in Hl.
    injection Hl as <-. rewrite <- (length_fmap core_inst). apply (Forall_lookup_1 _ _ (Z.to_nat sid) _ Hsh).
    by rewrite list_lookup_fmap, Hx. }
  assert (core_surf (mkVMWOpenCLSurface cid desc (init_instances mem svm (surf_inst x)) (surf_mutex x)) =
          zip mem svm) as Hcore by (apply core_init_instances; by rewrite Hlen).
  rewrite Hcore. apply (objects_install _ _ l db); try done.
  - unfold surface_shape. rewrite length_zip_with. by rewrite Hm, Hp.
  - by apply zip_live.
Qed.

Lemma surfacealloc_ok tid argp s r s' :
  0 ≤ VMAccelSurfaceId_id (VMCLSurfaceId_accel (VMCLSurfaceAllocateDesc_client argp)) →
  surfaces_ok s → vmwopencl_surfacealloc_1 tid argp s = Done r s' → surfaces_ok s'.
Proof.
  intros Hid Hok Hrun. unfold vmwopencl_surfacealloc_1 in Hrun.
  minv Hrun. apply tab_read_inv in Hrun0 as [_ ->].
  minv Hrun. apply with_db_Active in Hrun0 as (db & Hdb & Ha & ->); [| apply _].
  destruct a0; [by injection Hrun as <- <- |].
  assert (∀ alloc release o s1, alloc_instances alloc release VMACCEL_MAX_SURFACE_INSTANCE [] s = Done o s1 →
    surfaces_ok s1) as Hstep.
  { intros alloc release o s1 Hal. unfold surfaces_ok.
    by rewrite (keeps_alloc_instances view_surface ltac:(done) _ _ _ _ _ _ _ Hal). }
  destruct (_ && _).
  - minv Hrun. destruct a0 as [l |]; [| injection Hrun as <- <-; by eapply Hstep].
    pose proof (Hstep _ _ _ _ Hrun0) as Hok1.
    apply alloc_instances_some in Hrun0 as [Hl Hf]; [| constructor].
    eapply surface_install_ok; [exact Hid | | | | exact Hok1 | exact Hrun]; [done | exact Hl | by right].
  - destruct (_ =? VMACCEL_SURFACE_BUFFER).
    2: { minv Hrun. destruct (_ =? VMACCEL_SURFACE_USAGE_READWRITE); [| done].
         injection Hrun0 as <- <-. by injection Hrun as <- <-. }
    minv Hrun. destruct (_ =? VMACCEL_FORMAT_R8_TYPELESS); [| done]. injection Hrun0 as <- <-.
    minv Hrun. destruct a0 as [l |]; [| injection Hrun as <- <-; by eapply Hstep].
    pose proof (Hstep _ _ _ _ Hrun0) as Hok1.
    apply alloc_instances_some in Hrun0 as [Hl Hf]; [| constructor].
    eapply surface_install_ok; [exact Hid | | | | exact Hok1 | exact Hrun]; [exact Hl | done | by left].
Qed.

(** A computation that changes no surface but [sid], and nothing else but the
    runtime. *)
Definition touches {A} (sid : Z) (m : B A) : Prop :=
  ∀ s a s', m s = Done a s' → ∃ F c, s' = set_cl c (upd_surf sid F s).

Lemma upd_surf_none sid s : upd_surf sid id s = s.
Proof.
  unfold upd_surf. destruct (surfaces s) as [| | l] eqn:E; try done.
  by rewrite list_alter_id, <- E, backend_eta.
Qed.

Lemma touches_same {A} sid (m : B A) : (∀ s a s', m s = Done a s' → s' = s) → touches sid m.
Proof. intros Hm s a s' ->%Hm. exists id, (cl s). by rewrite upd_surf_none, set_cl_id. Qed.

Lemma touches_bind {A C} sid (m : B A) (k : A → B C) :
  touches sid m → (∀ a, touches sid (k a)) → touches sid (m ≫= k).
Proof.
  intros Hm Hk s b s' (a & s1 & H1 & H2)%bind_done.
  apply Hm in H1 as (F & c & ->). apply Hk in H2 as (G & c' & ->).
  exists (G ∘ F), c'. by rewrite upd_surf_set_cl, upd_surf_compose.
Qed.

Lemma touches_cl_exec sid f : touches sid (cl_exec f).
Proof. intros s a s' [= <- <-]. exists id, (f (cl s)). by rewrite upd_surf_none. Qed.

Lemma touches_inst_modify sid i f : touches sid (inst_modify sid i f).
Proof.
  intros s u s' Hrun. unfold inst_modify in Hrun. minv Hrun. apply surf_read_inv in Hrun0 as [Hx ->].
  minv Hrun. destruct (surf_inst a !! Z.to_nat i) eqn:Hy; [| done]. injection Hrun0 as <- <-.
  injection Hrun as _ <-. exists (on_inst i f), (cl s). rewrite (insert_alter_at f _ _ v) by done.
  rewrite (tab_insert_surf sid a (on_inst i f)) by done.
  by rewrite <- upd_surf_set_cl, set_cl_id.
Qed.

Lemma touches_instance_destroy tid sid i : touches sid (instance_destroy tid sid i).
Proof.
  unfold instance_destroy, inst_lock, inst_unlock.
  repeat first
    [ apply touches_inst_modify | apply touches_cl_exec
    | match goal with |- touches _ (if ?b then _ else _) => destruct b end
    | apply touches_same; intros ? ? ?;
      first [ intros [_ ->]%inst_read_inv; done | intros [_ ->]%surf_read_inv; done
            | intros [_ ->]%tab_read_inv; done
            | (destruct (mutex_lock _ _) || destruct (mutex_unlock _ _)); [by intros [= _ <-] | done] ]
    | apply touches_bind; [| intros ?] ].
Qed.

Lemma surfacedestroy_ok tid argp s r s' :
  0 ≤ VMAccelSurfaceId_id (VMCLSurfaceId_accel argp) →
  surfaces_ok s → vmwopencl_surfacedestroy_1 tid argp s = Done r s' → surfaces_ok s'.
Proof.
  intros Hid Hok Hrun. unfold vmwopencl_surfacedestroy_1 in Hrun.
  set (sid := VMAccelSurfaceId_id (VMCLSurfaceId_accel argp)) in *.
  minv Hrun. apply (keeps_surf_lock view_surface) in Hrun0 as Hv0.
  minv Hrun. apply with_db_Active in Hrun1 as (db & Hdb & Ha & ->); [| apply _]. simpl in Hdb.
  minv Hrun. destruct a0; [| done]. injection Hrun1 as <- <-.
  minv Hrun. assert (touches sid (for_from VMACCEL_MAX_SURFACE_INSTANCE 0 (instance_destroy tid sid))) as Ht.
  { apply touches_bind; [apply touches_instance_destroy |]. intros _. apply touches_same.
    by intros ? ? ? [= _ <-]. }
  apply Ht in Hrun1 as (F & c & ->). clear Ht.
  minv Hrun. apply tab_write_inv in Hrun1 as (l1 & Hl1 & Hin & ->).
  minv Hrun. apply (keeps_surf_unlock view_surface) in Hrun1 as Hv1.
  minv Hrun. apply tab_modify_surf in Hrun2 as (x & _ & ->).
  minv Hrun. apply with_db_inv in Hrun2 as (db1 & db' & Hdb1 & Hrel & ->). injection Hrun as _ <-.
  assert (∃ l0, surfaces s0 = Live l0 ∧ l1 = alter F (Z.to_nat sid) l0) as (l0 & Hl0 & ->).
  { revert Hl1. simpl. unfold upd_surf. destruct (surfaces s0) as [| | l0] eqn:E; simpl; rewrite ?E; try done.
    intros [= <-]. by exists l0. }
  assert (surfaceIds (upd_surf sid F s0) = surfaceIds s0) as Hi0 by (unfold upd_surf; by rewrite Hl0).
  unfold surfaces_ok in Hok. rewrite <- Hv0 in Hok. unfold view_surface, cores in Hok.
  rewrite Hl0, Hdb in Hok.
  assert (view_surface (upd_surf sid (λ x, set_surf_mutex (mutex_destroy (surf_mutex x)) x) s1) =
          (Live (<[Z.to_nat sid := core_surf zero_surface]> (core_surf <$> l0)), Live db)) as Hv2.
  { rewrite ignores_surf, Hv1 by done. unfold view_surface, cores. simpl. f_equal.
    - f_equal. rewrite <- list_fmap_insert. by rewrite !insert_as_alter, alter_compose.
    - by rewrite Hi0. }
  unfold surfaces_ok. injection Hv2 as Hc2 Hi2. simpl in Hdb1. rewrite Hi2 in Hdb1. injection Hdb1 as <-.
  unfold view_surface, cores in *. simpl. rewrite Hc2.
  eapply (objects_remove _ _ _ db); try done.
  intros (m & p & [= -> ->]%list_elem_of_singleton & Hne). destruct Hne; lia.
Qed.

End Preservation.

(** ** Reachable states *)

(** The id a request allocates or destroys ([u_int] on the wire). *)
Definition request_id (r : request) : Z :=
  match r with
  | ContextAlloc a => VMCLContextAllocateDesc_clientId a
  | ContextDestroy a => a
  | SurfaceAlloc a => VMAccelSurfaceId_id (VMCLSurfaceId_accel (VMCLSurfaceAllocateDesc_client a))
  | SurfaceDestroy a => VMAccelSurfaceId_id (VMCLSurfaceId_accel a)
  | QueueAlloc a => VMCLQueueId_id (VMCLQueueAllocateDesc_client a)
  | QueueDestroy a => VMCLQueueId_id a
  | KernelAlloc a => VMCLKernelId_id (VMCLKernelAllocateDesc_client a)
  | KernelDestroy a => VMCLKernelId_id a
  | _ => 0
  end.

Section Reachable.
Context `{OpenCL}.
Implicit Types s : backend.

(** From a successful power-on, by requests of any threads that return. *)
Inductive reachable : backend → Prop :=
| reach_poweron arch s0 r s :
    vmwopencl_poweron (λ _, true) arch s0 = Done r s →
    VMAccelAllocateStatus_status r = VMACCEL_SUCCESS → reachable s
| reach_request tid r s u s' :
    reachable s → 0 ≤ request_id r → exec tid r s = Done u s' → reachable s'.

Record consistent s : Prop := {
  cons_contexts : contexts_ok s;
  cons_queues : queues_ok s;
  cons_kernels : kernels_ok s;
  cons_surfaces : surfaces_ok s;
}.

(** A power-on that succeeds ends with fresh tables. *)
Lemma poweron_tables ok arch s0 r s :
  vmwopencl_poweron ok arch s0 = Done r s → VMAccelAllocateStatus_status r = VMACCEL_SUCCESS →
  ∃ s1, s = alloc_tables ok s1.
Proof.
  intros Hrun Hst. unfold vmwopencl_poweron in Hrun. minv Hrun. injection Hrun0 as <- <-.
  destruct (clGetPlatformIDs _ _) as [e [platforms num]].
  destruct (negb (e =? CL_SUCCESS)); [by injection Hrun as <- <- |].
  minv Hrun. destruct a; [by injection Hrun as <- <- .. |].
  minv Hrun. injection Hrun1 as <- <-. minv Hrun. minv Hrun. injection Hrun2 as _ <-. minv Hrun.
  injection Hrun2 as <- <-. destruct (tables_missing _); [| injection Hrun as _ <-; eauto].
  minv Hrun. by injection Hrun as <- _.
Qed.

Lemma poweron_consistent arch s0 r s :
  vmwopencl_poweron (λ _, true) arch s0 = Done r s →
  VMAccelAllocateStatus_status r = VMACCEL_SUCCESS → consistent s.
Proof.
  intros Hrun Hst. destruct (poweron_tables _ _ _ _ _ Hrun Hst) as [s1 ->].
  split; unfold contexts_ok, queues_ok, kernels_ok, surfaces_ok.
  - apply (objects_initial _ _ 32 zero_context); try done. intros Hn. by apply Hn.
  - apply (objects_initial _ _ 32 zero_queue); try done. intros Hn. by apply Hn.
  - apply (objects_initial _ _ 32 zero_kernel); try done; [by right |]. by intros [].
  - apply (objects_initial _ _ 32 (core_surf zero_surface)); try done.
    intros (m & p & [= -> ->]%list_elem_of_singleton & Hne). destruct Hne; lia.
Qed.

Lemma exec_consistent tid r s u s' :
  0 ≤ request_id r → consistent s → exec tid r s = Done u s' → consistent s'.
Proof.
  intros Hid [Hc Hq Hk Hs] Hrun. split.
  - destruct (on_contexts r) eqn:Hr.
    + destruct r; try done; simpl in Hrun; minv Hrun; injection Hrun as _ <-;
        [by eapply contextalloc_ok | by eapply contextdestroy_ok].
    + unfold contexts_ok. by rewrite (exec_keeps_context tid r Hr s u s' Hrun).
  - destruct (on_queues r) eqn:Hr.
    + destruct r; try done; simpl in Hrun; minv Hrun; injection Hrun as _ <-;
        [by eapply queuealloc_ok | by eapply queuedestroy_ok].
    + unfold queues_ok. by rewrite (exec_keeps_queue tid r Hr s u s' Hrun).
  - destruct (on_kernels r) eqn:Hr.
    + destruct r; try done; simpl in Hrun; minv Hrun; injection Hrun as _ <-;
        [by eapply kernelalloc_ok | by eapply kerneldestroy_ok].
    + unfold kernels_ok. by rewrite (exec_keeps_kernel tid r Hr s u s' Hrun).
  - destruct (on_surfaces r) eqn:Hr.
    + destruct r; try done; simpl in Hrun; minv Hrun; injection Hrun as _ <-;
        [by eapply surfacealloc_ok | by eapply surfacedestroy_ok].
    + unfold surfaces_ok. by rewrite (exec_keeps_surface tid r Hr s u s' Hrun).
Qed.

Lemma reachable_consistent s : reachable s → consistent s.
Proof. induction 1; [by eapply poweron_consistent | by eapply exec_consistent]. Qed.

(** (C3) In every state the backend reaches from a successful power-on by the
    requests of any number of threads, the four object tables agree with
    their identifier databases: all are allocated with 32 elements, and an id
    is active exactly when its element holds a live OpenCL object (a context,
    a command queue, a program with its kernel, a surface whose instance has
    a buffer or shared memory). *)
Theorem objects_match_ids s : reachable s → consistent s.
Proof. apply reachable_consistent. Qed.
End Reachable.

(** ** A concrete history *)

Definition ended `{OpenCL} {A} (m : B A) (s : backend) : backend :=
  match m s with Done _ s' => s' | Fault _ => s end.

Definition is_done `{OpenCL} {A} (m : B A) (s : backend) : bool :=
  match m s with Done _ _ => true | Fault _ => false end.

Lemma ended_done `{OpenCL} {A} (m : B A) s : is_done m s = true → ∃ a, m s = Done a (ended m s).
Proof. unfold is_done, ended. destruct (m s); [eauto | done]. Qed.

(** Power-on, then a context, a queue, two buffer surfaces and a kernel. *)
Definition demo_desc : VMAccelSurfaceDesc :=
  mkVMAccelSurfaceDesc 0 VMACCEL_SURFACE_BUFFER 16 0 0 0 0 0 VMACCEL_FORMAT_R8_TYPELESS 0 0
    VMACCEL_SURFACE_USAGE_READWRITE 0 0 0.
Definition demo_surface (sid : Z) : VMCLSurfaceId :=
  mkVMCLSurfaceId 0 (mkVMAccelSurfaceId 0 0 sid 0 0 0).
Definition demo_requests : list request :=
  [ContextAlloc (mkVMCLContextAllocateDesc 0 0 1 1 0);
   QueueAlloc (mkVMCLQueueAllocateDesc (mkVMCLQueueId 0 0) 0 zero_VMAccelQueueDesc);
   SurfaceAlloc (mkVMCLSurfaceAllocateDesc (demo_surface 3) demo_desc);
   SurfaceAlloc (mkVMCLSurfaceAllocateDesc (demo_surface 4) demo_desc);
   KernelAlloc (mkVMCLKernelAllocateDesc (mkVMCLKernelId 0 0) 0 VMCL_OPENCL_C_1_2 [x01] [x02])].

Definition run_requests `{OpenCL} (tid : Z) (rs : list request) (s : backend) : backend :=
  foldl (λ s r, ended (exec tid r) s) s rs.

Lemma run_reachable tid rs : ∀ s,
  reachable s →
  (fix ok s rs := match rs with
   | [] => True
   | r :: rs => 0 ≤ request_id r ∧ is_done (exec tid r) s = true ∧ ok (ended (exec tid r) s) rs
   end) s rs → reachable (run_requests tid rs s).
Proof.
  induction rs as [| r rs IH]; intros s Hs; [done |]. intros (Hid & Hd & Hok). simpl.
  apply IH; [| done]. apply ended_done in Hd as [u Hu]. by eapply reach_request.
Qed.

Definition sim_on : backend := ended (vmwopencl_poweron (λ _, true) 0) sim_backend0.
Definition sim_ready : backend := run_requests 1 demo_requests sim_on.

Lemma sim_on_reachable : reachable sim_on.
Proof.
  destruct (ended_done (vmwopencl_poweron (λ _, true) 0) sim_backend0) as [r Hr];
    [vm_compute; reflexivity |].
  eapply (reach_poweron 0 sim_backend0 r); [exact Hr |].
  assert (match vmwopencl_poweron (λ _, true) 0 sim_backend0 with
          | Done r _ => VMAccelAllocateStatus_status r | Fault _ => 1 end = VMACCEL_SUCCESS) as E
    by (vm_compute; reflexivity).
  by rewrite Hr in E.
Qed.

Lemma sim_ready_reachable : reachable sim_ready.
Proof.
  apply run_reachable; [apply sim_on_reachable |].
  repeat split; try (vm_compute; reflexivity); vm_compute; discriminate.
Qed.

Lemma objects_match_ids_witness : consistent sim_ready.
Proof. exact (objects_match_ids sim_ready sim_ready_reachable). Defined.
