(* ===== verification/BackendData.v ===== *)
(** * Data requests of the OpenCL backend: atomicity, locks, generations

    The theorems about the handlers that move data.  A handler that can enter
    its critical section behaves as the lock-free model of the same name; the
    requests that return leave every mutex as they found it and never move a
    generation backwards, except for the two handlers where the code does not
    pair its locks or check the generation. *)

From S2P Require Import Prelude IdentifierDB XdrRuntime RpcTypes Backend BackendOps.
From S2P Require Import BackendPower BackendLemmas BackendFrame SimCL BackendTransfer.
From S2P Require Import BackendDispatch BackendInvariants.

Section Data.
Context `{OpenCL}.
Implicit Types s : backend.

(** ** What a data request changes *)

(** One instance, neither its mutex nor its generation backwards, and the
    runtime. *)
Definition data_step s s' : Prop :=
  ∃ sid i f c, s' = set_cl c (upd_inst sid i f s) ∧ (∀ y, si_mutex (f y) = si_mutex y) ∧
    ∀ y, lookup_inst sid i s = Some y → si_generation y ≤ si_generation (f y).

Lemma data_step_cl c s : data_step s (set_cl c s).
Proof. exists 0, 0, id, c. rewrite upd_inst_id. split; [done |]. by split. Qed.

Lemma data_step_same s : data_step s s.
Proof. pose proof (data_step_cl (cl s) s) as Hd. by rewrite set_cl_id in Hd. Qed.

(** Handlers that begin by reading their queue and entering a section. *)
Lemma section_enters {A} qid tid sid inst (k : VMWOpenCLQueue → B A) s r s' :
  (q ← tab_read Queues qid; _ ← lock_surface tid sid inst; k q) s = Done r s' →
  ∃ q x y, tab_lookup Queues qid s = Some q ∧ lookup_surf sid s = Some x ∧
    surf_inst x !! Z.to_nat inst = Some y ∧ enterable tid x y.
Proof.
  intros Hrun. minv Hrun. apply tab_read_inv in Hrun0 as [Hq ->]. minv Hrun.
  apply lock_surface_inv in Hrun0 as (x & y & m1 & m2 & Hx & Hy & H1 & H2 & _).
  exists a, x, y. unfold enterable, can_lock. rewrite H1, H2. done.
Qed.

Lemma imageupload_step tid argp s r s' :
  vmwopencl_imageupload_1 tid argp s = Done r s' → data_step s s'.
Proof.
  intros Hrun. destruct (section_enters _ _ _ _ _ _ _ _ Hrun) as (q & x & y & Hq & Hx & Hy & He).
  rewrite (imageupload_spec tid argp s q x y Hq Hx Hy He) in Hrun. unfold upload_model in Hrun.
  destruct (Z.ltb_spec (VMAccelSurfaceId_generation (VMCLSurfaceId_accel (VMCLImageUploadOp_img argp)))
              (si_generation y)); [injection Hrun as _ <-; apply data_step_same |].
  destruct (negb _); [done |]. destruct (negb _); [done |].
  destruct (clEnqueueWriteBuffer _ _ _ _ _ _) as [e c].
  destruct (negb _); [injection Hrun as _ <-; apply data_step_cl |].
  destruct (_ <? _); [done |]. injection Hrun as _ <-. eexists _, _, _, c. split; [done |]. split; [done |].
  intros y' Hy'. rewrite (lookup_inst_intro _ _ _ x y Hx Hy) in Hy'. injection Hy' as <-. done.
Qed.

Lemma imagefill_step tid argp s r s' :
  vmwopencl_imagefill_1 tid argp s = Done r s' → data_step s s'.
Proof.
  intros Hrun. destruct (section_enters _ _ _ _ _ _ _ _ Hrun) as (q & x & y & Hq & Hx & Hy & He).
  rewrite (imagefill_spec tid argp s q x y Hq Hx Hy He) in Hrun. unfold fill_model in Hrun.
  destruct (_ <? _); [injection Hrun as _ <-; apply data_step_same |].
  destruct (_ <? _); [injection Hrun as _ <-; apply data_step_same |].
  destruct (negb _); [injection Hrun as _ <-; apply data_step_same |].
  destruct (negb _); [done |]. destruct (clEnqueueFillBuffer _ _ _ _ _ _) as [e c].
  injection Hrun as _ <-. apply data_step_cl.
Qed.

Lemma surfacemap_step tid argp s r s' :
  vmwopencl_surfacemap_1 tid argp s = Done r s' → data_step s s'.
Proof.
  intros Hrun. destruct (section_enters _ _ _ _ _ _ _ _ Hrun) as (q & x & y & Hq & Hx & Hy & He).
  rewrite (surfacemap_spec tid argp s q x y Hq Hx Hy He) in Hrun. unfold map_model in Hrun.
  destruct (_ <? _); [injection Hrun as _ <-; apply data_step_same |].
  destruct (negb _); [done |].
  destruct (_ =? 1).
  - destruct (map_first_result _ _ _ _ _ _ _) as [[e p] c].
    destruct (negb _); injection Hrun as _ <-; eexists _, _, _, c; (split; [done |]); done.
  - injection Hrun as _ <-. eexists _, _, _, (cl s).
    split; [rewrite <- (set_cl_id s) at 1; apply upd_inst_set_cl | done].
Qed.

Lemma surfacecopy_step tid argp s r s' :
  vmwopencl_surfacecopy_1 tid argp s = Done r s' → data_step s s'.
Proof.
  intros Hrun. assert (Hrun0 := Hrun). unfold vmwopencl_surfacecopy_1 in Hrun.
  minv Hrun. apply tab_read_inv in Hrun1 as [Hq ->].
  destruct (Z.eqb_spec (VMCLSurfaceId_cid (VMCLSurfaceCopyOp_dst argp))
              (VMCLSurfaceId_cid (VMCLSurfaceCopyOp_src argp))) as [Hcid |]; [| done]. simpl in Hrun.
  minv Hrun. destruct a0. minv Hrun. minv Hrun.
  assert (He := erase_lock_pair _ _ _ _ _ _ _ _ Hrun1).
  apply inst_read_inv in Hrun2 as [Hys ->]. apply inst_read_inv in Hrun3 as [Hyd ->].
  destruct (erase_same_inst s0 s _ _ _ (eq_sym He) Hys) as (ys & (xs & Hxs & Hys')%lookup_inst_inv & _).
  destruct (erase_same_inst s0 s _ _ _ (eq_sym He) Hyd) as (yd & (xd & Hxd & Hyd')%lookup_inst_inv & _).
  pose proof (surfacecopy_spec tid argp s s0 a xs ys xd yd Hq Hcid Hxs Hys' Hxd Hyd' Hrun1) as Hspec.
  rewrite Hspec in Hrun0. clear Hspec Hrun. unfold copy_model in Hrun0.
  destruct (_ <? _); [injection Hrun0 as _ <-; apply data_step_same |].
  destruct (_ || _); [injection Hrun0 as _ <-; apply data_step_same |].
  destruct (_ || _); [injection Hrun0 as _ <-; apply data_step_same |].
  destruct (negb _); [done |]. destruct (clEnqueueCopyBuffer _ _ _ _ _ _ _) as [e c].
  injection Hrun0 as _ <-. apply data_step_cl.
Qed.

Lemma dispatch_step tid argp s r s' :
  Z.of_nat (length (VMCLDispatchOp_args argp)) < 2147483648 →
  vmwopencl_dispatch_1 tid argp s = Done r s' → data_step s s'.
Proof. intros Hlen (c & ->)%dispatch_inv; [| done]. apply data_step_cl. Qed.

(** ** Views of the locks and of the generations *)

Definition locks_surf (x : VMWOpenCLSurface) : mutex * list mutex := (surf_mutex x, si_mutex <$> surf_inst x).
Definition locks_of s : heap (list (mutex * list mutex)) :=
  match surfaces s with Live l => Live (locks_surf <$> l) | Null => Null | Freed => Freed end.

(** Every instance still exists and its generation has not decreased. *)
Definition gen_le s s' : Prop :=
  ∀ sid i y, lookup_inst sid i s = Some y →
    ∃ y', lookup_inst sid i s' = Some y' ∧ si_generation y ≤ si_generation y'.

Lemma lookup_inst_nat sid i sid' i' s :
  Z.to_nat sid = Z.to_nat sid' → Z.to_nat i = Z.to_nat i' → lookup_inst sid i s = lookup_inst sid' i' s.
Proof. intros Hs Hi. unfold lookup_inst. by rewrite Hi, (lookup_surf_nat _ _ _ Hs). Qed.

Lemma lookup_inst_upd_ne sid i f sid' i' s :
  ¬ (Z.to_nat sid = Z.to_nat sid' ∧ Z.to_nat i = Z.to_nat i') →
  lookup_inst sid' i' (upd_inst sid i f s) = lookup_inst sid' i' s.
Proof.
  intros Hne. destruct (decide (Z.to_nat sid = Z.to_nat sid')) as [E | E].
  - unfold lookup_inst, upd_inst. rewrite <- (lookup_surf_nat sid sid' _ E), lookup_upd_surf.
    rewrite (lookup_surf_nat sid sid' s E). destruct (lookup_surf sid' s) as [x |]; simpl; [| done].
    apply list_lookup_alter_ne. tauto.
  - unfold lookup_inst, upd_inst. by rewrite lookup_upd_surf_ne.
Qed.

Lemma data_step_locks s s' : data_step s s' → locks_of s' = locks_of s.
Proof.
  intros (sid & i & f & c & -> & Hf & _). unfold locks_of, upd_inst, upd_surf. simpl.
  destruct (surfaces s) as [| | l] eqn:E; simpl; rewrite ?E; try done.
  rewrite (fmap_alter_same locks_surf); [done |]. intros x. unfold locks_surf, on_inst. simpl. f_equal.
  by apply fmap_alter_same.
Qed.

Lemma data_step_gens s s' : data_step s s' → gen_le s s'.
Proof.
  intros (sid & i & f & c & -> & _ & Hg) sid' i' y Hy.
  change (lookup_inst sid' i' (set_cl c ?s)) with (lookup_inst sid' i' s).
  destruct (decide (Z.to_nat sid = Z.to_nat sid' ∧ Z.to_nat i = Z.to_nat i')) as [[E1 E2] | E].
  - rewrite <- (lookup_inst_nat sid i sid' i' _ E1 E2), lookup_upd_inst.
    rewrite <- (lookup_inst_nat sid i sid' i' s E1 E2) in Hy. rewrite Hy. simpl. eauto.
  - rewrite lookup_inst_upd_ne by done. eauto with lia.
Qed.

Lemma surfaces_same_gens s s' : surfaces s' = surfaces s → gen_le s s'.
Proof.
  intros E sid i y Hy. exists y. split; [| lia]. revert Hy. unfold lookup_inst, lookup_surf, tab_lookup.
  simpl. by rewrite E.
Qed.

(** Requests whose locking is paired on every path. *)
Definition paired_locks (r : request) : bool :=
  match r with
  | SurfaceAlloc _ | SurfaceDestroy _ | ImageDownload _ | SurfaceUnmap _ => false
  | _ => true
  end.

(** Requests that respect the generation a surface has reached. *)
Definition checks_generation (r : request) : bool :=
  match r with SurfaceDestroy _ | SurfaceUnmap _ => false | _ => true end.

(** An argument array whose length fits a C [int]. *)
Definition request_fits (r : request) : Prop :=
  match r with
  | Dispatch a => Z.of_nat (length (VMCLDispatchOp_args a)) < 2147483648
  | _ => True
  end.

(** A request other than the surface handlers leaves the surfaces alone. *)
Definition moves_data (r : request) : bool :=
  match r with
  | SurfaceAlloc _ | SurfaceDestroy _ | ImageUpload _ | ImageDownload _ | SurfaceMap _
  | SurfaceUnmap _ | SurfaceCopy _ | ImageFill _ | Dispatch _ => true
  | _ => false
  end.

Lemma exec_keeps_surfaces tid r : moves_data r = false → keeps surfaces (exec tid r).
Proof.
  destruct r; try done; intros _; simpl;
    unfold_handlers; keeps_auto.
Qed.

Lemma exec_data_step tid r s u s' :
  request_fits r → moves_data r = true → paired_locks r = true → exec tid r s = Done u s' → data_step s s'.
Proof.
  intros Hfit Hd Hp Hrun.
  destruct r; try done; simpl in Hrun; minv Hrun; injection Hrun as _ <-;
    [by eapply imageupload_step | by eapply surfacemap_step | by eapply surfacecopy_step
    | by eapply imagefill_step | by eapply dispatch_step].
Qed.

(** (C6) A request that returns has released every mutex it took, as often as
    it took it: for all requests but surface creation and destruction (which
    make and destroy mutexes), download and unmap, every surface and instance
    mutex is in the end as it was before, on success and on every error path,
    for dispatches of fewer than 2^31 (possibly repeated) surfaces. *)
Theorem locks_balanced tid r s u s' :
  request_fits r → paired_locks r = true → exec tid r s = Done u s' → locks_of s' = locks_of s.
Proof.
  intros Hfit Hp Hrun. destruct (moves_data r) eqn:Hd.
  - apply data_step_locks. by eapply exec_data_step.
  - unfold locks_of. by rewrite (exec_keeps_surfaces tid r Hd s u s' Hrun).
Qed.

Definition gens_surf (x : VMWOpenCLSurface) : list Z := si_generation <$> surf_inst x.

Lemma gens_upd_surf sid F s :
  (∀ x, gens_surf (F x) = gens_surf x) → gen_le s (upd_surf sid F s).
Proof.
  intros HF sid' i y (x & Hx & Hy)%lookup_inst_inv.
  destruct (decide (Z.to_nat sid = Z.to_nat sid')) as [E | E].
  - pose proof (f_equal (.!! Z.to_nat i) (HF x)) as Hi. unfold gens_surf in Hi.
    rewrite !list_lookup_fmap, Hy in Hi. destruct (surf_inst (F x) !! Z.to_nat i) as [y' |] eqn:Hy'; [| done].
    injection Hi as Hi. exists y'. split; [| lia]. apply (lookup_inst_intro _ _ _ (F x)); [| done].
    by rewrite <- (lookup_surf_nat sid sid' _ E), lookup_upd_surf, (lookup_surf_nat sid sid' _ E), Hx.
  - exists y. split; [| lia]. apply (lookup_inst_intro _ _ _ x); [| done]. by rewrite lookup_upd_surf_ne.
Qed.

Lemma gen_le_trans s1 s2 s3 : gen_le s1 s2 → gen_le s2 s3 → gen_le s1 s3.
Proof.
  intros H12 H23 sid i y (y2 & Hy2 & Hle)%H12. apply H23 in Hy2 as (y3 & Hy3 & Hle'). eauto with lia.
Qed.

Lemma surf_unlock_inv tid sid s u s' :
  surf_unlock tid sid s = Done u s' → ∃ m, s' = upd_surf sid (set_surf_mutex m) s.
Proof.
  intros Hrun. unfold surf_unlock in Hrun. minv Hrun. apply surf_read_inv in Hrun0 as [Hx ->].
  minv Hrun. destruct (mutex_unlock tid (surf_mutex a)); [| done]. injection Hrun0 as -> <-.
  injection Hrun as _ <-. exists a0. by apply (tab_insert_surf sid a (set_surf_mutex a0)).
Qed.

Lemma gens_init_instances mem svm old :
  si_generation <$> init_instances mem svm old = si_generation <$> old.
Proof.
  revert mem svm. induction old as [| y old IH]; intros mem svm; [by destruct mem |].
  destruct mem as [| m mem], svm as [| p svm]; try done. simpl. f_equal. apply IH.
Qed.

Lemma surface_install_gens tid cid sid desc mem svm s r s' :
  surface_install tid cid sid desc mem svm s = Done r s' → gen_le s s'.
Proof.
  intros Hrun. unfold surface_install in Hrun. minv Hrun. apply tab_modify_surf in Hrun0 as (x0 & _ & ->).
  eapply gen_le_trans; [by apply (gens_upd_surf sid (set_surf_mutex mutex_init_recursive)) |].
  set (s1 := upd_surf sid (set_surf_mutex mutex_init_recursive) s) in *.
  minv Hrun. apply with_db_inv in Hrun0 as (db & db' & _ & _ & ->).
  eapply gen_le_trans; [by apply (surfaces_same_gens s1 (d_set SurfaceIds (Live db') s1)) |].
  destruct a0; [| by minv Hrun]. minv Hrun. apply surf_lock_inv in Hrun0 as (x & m & _ & _ & ->).
  eapply gen_le_trans; [by apply (gens_upd_surf sid (set_surf_mutex m)) |].
  minv Hrun. apply tab_modify_surf in Hrun0 as (x1 & _ & ->).
  minv Hrun. apply surf_unlock_inv in Hrun0 as (m' & ->). injection Hrun as _ <-.
  eapply gen_le_trans; [| by apply (gens_upd_surf sid (set_surf_mutex m'))].
  apply gens_upd_surf. intros y. apply gens_init_instances.
Qed.

Lemma surfacealloc_gens tid argp s r s' :
  vmwopencl_surfacealloc_1 tid argp s = Done r s' → gen_le s s'.
Proof.
  intros Hrun. unfold vmwopencl_surfacealloc_1 in Hrun. minv Hrun. apply tab_read_inv in Hrun0 as [_ ->].
  minv Hrun. apply with_db_Active in Hrun0 as (db & _ & _ & ->); [| apply _].
  destruct a0; [injection Hrun as _ <-; by apply surfaces_same_gens |].
  assert (∀ alloc release o s1, alloc_instances alloc release VMACCEL_MAX_SURFACE_INSTANCE [] s = Done o s1 →
    gen_le s s1) as Hstep.
  { intros alloc release o s1 Hal. apply surfaces_same_gens.
    exact (keeps_alloc_instances surfaces ltac:(done) _ _ _ _ _ _ _ Hal). }
  destruct (_ && _).
  - minv Hrun. apply Hstep in Hrun0. eapply gen_le_trans; [exact Hrun0 |].
    destruct a0; [by eapply surface_install_gens | injection Hrun as _ <-; by apply surfaces_same_gens].
  - destruct (_ =? VMACCEL_SURFACE_BUFFER).
    + minv Hrun. destruct (_ =? VMACCEL_FORMAT_R8_TYPELESS); [| done]. injection Hrun0 as <- <-.
      minv Hrun. apply Hstep in Hrun0. eapply gen_le_trans; [exact Hrun0 |].
      destruct a0; [by eapply surface_install_gens | injection Hrun as _ <-; by apply surfaces_same_gens].
    + minv Hrun. destruct (_ =? VMACCEL_SURFACE_USAGE_READWRITE); [| done]. injection Hrun0 as <- <-.
      injection Hrun as _ <-. by apply surfaces_same_gens.
Qed.

(** The surface a download names, when the download returns. *)
Lemma imagedownload_enters tid argp s r s' :
  let accel := VMCLSurfaceId_accel (VMCLImageDownloadOp_img argp) in
  vmwopencl_imagedownload_1 tid argp s = Done r s' →
  ∃ q x y m, tab_lookup Queues (VMCLQueueId_id (VMCLImageDownloadOp_queue argp)) s = Some q ∧
    lookup_surf (VMAccelSurfaceId_id accel) s = Some x ∧
    surf_inst x !! Z.to_nat (VMAccelSurfaceId_instance accel) = Some y ∧
    mutex_lock tid (si_mutex y) = inl m ∧ Done r s' = download_model argp q x y m s.
Proof.
  intros accel Hrun. destruct (section_enters _ _ _ _ _ _ _ _ Hrun) as (q & x & y & Hq & Hx & Hy & [H1 H2]).
  destruct (can_lock_inv _ _ H2) as [m Hm]. exists q, x, y, m. split_and!; try done.
  by rewrite <- Hrun, (imagedownload_spec tid argp s q x y m).
Qed.

Lemma imagedownload_gens tid argp s r s' :
  vmwopencl_imagedownload_1 tid argp s = Done r s' → gen_le s s'.
Proof.
  intros (q & x & y & m & _ & _ & _ & _ & Hm)%imagedownload_enters. unfold download_model in Hm.
  destruct (negb _); [injection Hm as _ ->; by apply surfaces_same_gens |].
  destruct (negb _); [done |]. destruct (negb _); [done |].
  destruct (clEnqueueReadBuffer _ _ _ _ _ _ _) as [[e buf] c]. destruct (_ && _); [done |].
  injection Hm as _ ->. eapply gen_le_trans; [| by apply surfaces_same_gens].
  apply gens_upd_surf. intros x0. unfold gens_surf, on_inst. simpl. by apply fmap_alter_same.
Qed.

(** (C7) Generations only move forward: no request other than the destruction
    of the surface or an unmap takes the generation of any surface instance
    back, so a client that has seen a generation is never told it is too new. *)
Theorem generations_monotone tid r s u s' :
  request_fits r → checks_generation r = true → exec tid r s = Done u s' → gen_le s s'.
Proof.
  intros Hfit Hc Hrun. destruct (moves_data r) eqn:Hd.
  - destruct (paired_locks r) eqn:Hp; [apply data_step_gens; by eapply exec_data_step |].
    destruct r; try done; simpl in Hrun; minv Hrun; injection Hrun as _ <-;
      [by eapply surfacealloc_gens | by eapply imagedownload_gens].
  - apply surfaces_same_gens. exact (exec_keeps_surfaces tid r Hd s u s' Hrun).
Qed.

End Data.
