(* ===== verification/BackendBehaviour.v ===== *)
(** * Behaviour of the OpenCL backend's handlers

    The handlers' results on every branch (against the lock-free models), the
    refusals of the allocation handlers, what power-off leaves behind, and
    the behaviours a client has to know about because the code does not do
    what its structure suggests. *)

From S2P Require Import Prelude IdentifierDB XdrRuntime RpcTypes Backend BackendOps.
From S2P Require Import BackendPower BackendLemmas BackendFrame SimCL BackendTransfer.
From S2P Require Import BackendDispatch BackendInvariants BackendData.

Section Behaviour.
Context `{OpenCL}.
Implicit Types s : backend.

(** Surface [sid] has instance [inst], and the thread can enter its section. *)
Definition section_open (tid sid inst : Z) (s : backend)
    (x : VMWOpenCLSurface) (y : VMWOpenCLSurfaceInstance) : Prop :=
  lookup_surf sid s = Some x ∧ surf_inst x !! Z.to_nat inst = Some y ∧ enterable tid x y.

(** (C9) An upload that can take its locks is the atomic [upload_model]: an
    older generation than the surface's is refused and nothing changes;
    otherwise the bytes are written and the surface moves to the client's
    generation, or the error is reported and the generation stays. *)
Theorem imageupload_atomic tid argp s q x y :
  let accel := VMCLSurfaceId_accel (VMCLImageUploadOp_img argp) in
  tab_lookup Queues (VMCLQueueId_id (VMCLImageUploadOp_queue argp)) s = Some q →
  section_open tid (VMAccelSurfaceId_id accel) (VMAccelSurfaceId_instance accel) s x y →
  vmwopencl_imageupload_1 tid argp s = upload_model argp q x y s.
Proof. intros accel Hq (Hx & Hy & He). by apply imageupload_spec. Qed.

(** A dispatch without arguments never answers: the cleanup loop starts
    at index 0 of an empty argument array. *)
Lemma dispatch_without_args tid argp s :
  VMCLDispatchOp_args argp = [] → ∃ f, vmwopencl_dispatch_1 tid argp s = Fault f.
Proof.
  intros Hargs. destruct (vmwopencl_dispatch_1 tid argp s) as [r s' | f] eqn:Hrun; [| by exists f].
  unfold vmwopencl_dispatch_1 in Hrun. rewrite Hargs in Hrun.
  minv Hrun. minv Hrun. minv Hrun. injection Hrun2 as <- <-. minv Hrun. by minv Hrun.
Qed.

(** (C8) A dispatch of one to 2^31 - 1 surfaces, repeated or not, whose mutexes
    are free or already the thread's, is the atomic [dispatch_model]: the
    arguments are checked and bound in order against one state, the first
    whose generation differs (or that cannot be bound) decides the status and
    nothing is enqueued, else the kernel is enqueued; in every case the
    surfaces end as they were.  A dispatch without arguments never answers: it
    reads the argument array out of bounds. *)
Theorem dispatch_atomic tid argp s q k :
  tab_lookup Queues (VMCLQueueId_id (VMCLDispatchOp_queue argp)) s = Some q →
  tab_lookup Kernels (VMCLKernelId_id (VMCLDispatchOp_kernel argp)) s = Some k →
  Z.of_nat (length (VMCLDispatchOp_args argp)) < 2147483648 →
  Forall (ready_arg tid s) (VMCLDispatchOp_args argp) →
  if bool_decide (VMCLDispatchOp_args argp = []) then ∃ f, vmwopencl_dispatch_1 tid argp s = Fault f
  else vmwopencl_dispatch_1 tid argp s = dispatch_model argp q k s.
Proof.
  intros Hq Hk Hlen Hready. case_bool_decide as Hargs; [by apply dispatch_without_args | by apply dispatch_spec].
Qed.

(** (C10) A map that can take its locks is the atomic [map_model]: only the
    first of several mappings asks the runtime for a pointer, the later ones
    share it and count; a surface newer than the client's generation is not
    mapped. *)
Theorem surfacemap_atomic tid argp s q x y :
  let surf := VMAccelSurfaceMapOp_surf (VMCLSurfaceMapOp_op argp) in
  tab_lookup Queues (VMCLQueueId_id (VMCLSurfaceMapOp_queue argp)) s = Some q →
  section_open tid (VMAccelSurfaceId_id surf) (VMAccelSurfaceId_instance surf) s x y →
  vmwopencl_surfacemap_1 tid argp s = map_model argp q x y s.
Proof. intros surf Hq (Hx & Hy & He). by apply surfacemap_spec. Qed.

(** An unmap that can take the surface's lock is the atomic
    [unmap_model]: the client's bytes are copied through the mapped pointer
    (a fault when there is none), the last of several mappings is given back
    to the runtime, and the argument's buffer is dropped unless it is marked
    as the caller's. *)
Theorem surfaceunmap_atomic tid argp s q x y m :
  let surf := VMAccelSurfaceUnmapOp_surf (VMCLSurfaceUnmapOp_op argp) in
  tab_lookup Queues (VMCLQueueId_id (VMCLSurfaceUnmapOp_queue argp)) s = Some q →
  lookup_surf (VMAccelSurfaceId_id surf) s = Some x →
  surf_inst x !! Z.to_nat (VMAccelSurfaceId_instance surf) = Some y →
  can_lock tid (surf_mutex x) = true → mutex_unlock tid (si_mutex y) = inl m →
  vmwopencl_surfaceunmap_1 tid argp s = unmap_model argp q x y m s.
Proof. apply surfaceunmap_spec. Qed.

(** A copy inside one context that can take the four mutexes is the
    atomic [copy_model]: the source must be at exactly the client's
    generation, the destination not beyond it, and then one buffer copy is
    enqueued; the surfaces end as they were. *)
Theorem surfacecopy_atomic tid argp s s1 q xs ys xd yd :
  let dst := VMCLSurfaceId_accel (VMCLSurfaceCopyOp_dst argp) in
  let src := VMCLSurfaceId_accel (VMCLSurfaceCopyOp_src argp) in
  tab_lookup Queues (VMCLQueueId_id (VMCLSurfaceCopyOp_queue argp)) s = Some q →
  VMCLSurfaceId_cid (VMCLSurfaceCopyOp_dst argp) = VMCLSurfaceId_cid (VMCLSurfaceCopyOp_src argp) →
  lookup_surf (VMAccelSurfaceId_id src) s = Some xs → surf_inst xs !! Z.to_nat 0 = Some ys →
  lookup_surf (VMAccelSurfaceId_id dst) s = Some xd → surf_inst xd !! Z.to_nat 0 = Some yd →
  lock_pair tid (VMAccelSurfaceId_id src) 0 (VMAccelSurfaceId_id dst) 0 s = Done tt s1 →
  vmwopencl_surfacecopy_1 tid argp s = copy_model argp q xs ys xd yd s.
Proof. apply surfacecopy_spec. Qed.

(** A fill that can take its locks is the atomic [fill_model]: the
    client must name exactly the surface's generation, and the generation is
    the same afterwards. *)
Theorem imagefill_atomic tid argp s q x y :
  let accel := VMCLSurfaceId_accel (VMCLImageFillOp_img argp) in
  tab_lookup Queues (VMCLQueueId_id (VMCLImageFillOp_queue argp)) s = Some q →
  section_open tid (VMAccelSurfaceId_id accel) 0 s x y →
  vmwopencl_imagefill_1 tid argp s = fill_model argp q x y s.
Proof. intros accel Hq (Hx & Hy & He). by apply imagefill_spec. Qed.

(** ** Allocation of an id in use *)

Lemma active_db d `{!DbLaws d} db id s :
  d_get d s = Live db → IdentifierDB.wf db → id ∈ used db →
  with_db d (IdentifierDB_ActiveId id) s = Done true s.
Proof.
  intros Hd Hwf Hid. unfold with_db, IdentifierDB_ActiveId. rewrite Hd. simpl.
  assert (0 ≤ id) by (apply elem_of_used in Hid; lia).
  rewrite ActiveId_eq, bool_decide_eq_true_2 by done. by rewrite <- Hd, db_set_get.
Qed.

(** The id an allocation request asks for, its database, and the status the
    handler answers with. *)
Definition alloc_db_of (r : request) : option (dbref * Z) :=
  match r with
  | ContextAlloc a => Some (ContextIds, VMCLContextAllocateDesc_clientId a)
  | SurfaceAlloc a => Some (SurfaceIds, request_id (SurfaceAlloc a))
  | QueueAlloc a => Some (QueueIds, VMCLQueueId_id (VMCLQueueAllocateDesc_client a))
  | KernelAlloc a => Some (KernelIds, VMCLKernelId_id (VMCLKernelAllocateDesc_client a))
  | _ => None
  end.

Definition alloc_status (tid : Z) (r : request) : B Z :=
  match r with
  | ContextAlloc a => x ← vmwopencl_contextalloc_1 a; mret (VMCLContextAllocateStatus_status x)
  | SurfaceAlloc a => x ← vmwopencl_surfacealloc_1 tid a; mret (VMAccelSurfaceAllocateStatus_status x)
  | QueueAlloc a => x ← vmwopencl_queuealloc_1 a; mret (VMAccelQueueStatus_status x)
  | KernelAlloc a => x ← vmwopencl_kernelalloc_1 a; mret (VMCLKernelAllocateStatus_status x)
  | _ => mret 0
  end.

(** The context (and sub-device) indices of the request are inside their
    arrays; the handlers do not check them. *)
Definition context_in_range (r : request) : Prop :=
  match r with
  | SurfaceAlloc a => 0 ≤ VMCLSurfaceId_cid (VMCLSurfaceAllocateDesc_client a) < 32
  | QueueAlloc a => 0 ≤ VMCLQueueId_cid (VMCLQueueAllocateDesc_client a) < 32
  | KernelAlloc a => 0 ≤ VMCLKernelId_cid (VMCLKernelAllocateDesc_client a) < 32 ∧
                     0 ≤ VMCLKernelAllocateDesc_subDevice a < 32
  | _ => True
  end.

Lemma context_lookup s cid :
  consistent s → 0 ≤ cid < 32 → ∃ c, tab_lookup Contexts cid s = Some c ∧ context_shape c.
Proof.
  intros [(l & db & Hv & _ & _ & Hlen & Hsh & _) _ _ _] Hcid. unfold view_context in Hv.
  injection Hv as Hl _. destruct (lookup_lt_is_Some_2 l (Z.to_nat cid)) as [c Hc]; [lia |].
  exists c. unfold tab_lookup. simpl. rewrite Hl. split; [done |]. by eapply Forall_lookup_1.
Qed.

(** In a reachable state an allocation of an id that is in use is
    refused with [VMACCEL_RESOURCE_UNAVAILABLE] and changes nothing, neither
    the backend's tables nor the runtime: for contexts, surfaces, queues and
    kernels alike. *)
Theorem alloc_refuses_active tid r s d id db :
  reachable s → alloc_db_of r = Some (d, id) → context_in_range r →
  d_get d s = Live db → id ∈ used db →
  alloc_status tid r s = Done VMACCEL_RESOURCE_UNAVAILABLE s.
Proof.
  intros Hr%reachable_consistent Hd Hin Hdb Hid.
  assert (IdentifierDB.wf db) as Hwf.
  { destruct Hr as [(?&?&Hv1&Hw1&_) (?&?&Hv2&Hw2&_) (?&?&Hv3&Hw3&_) (?&?&Hv4&Hw4&_)].
    destruct r; try done; injection Hd as <- _; simpl in Hdb; unfold view_context, view_queue,
      view_kernel, view_surface in *; simplify_eq; congruence. }
  destruct r as [a | | a | | a | | | | | | | | | | | a | |]; try done; injection Hd as <- <-;
    unfold alloc_status; simpl in Hin.
  - unfold vmwopencl_contextalloc_1. mrun. by rewrite (active_db ContextIds db).
  - destruct (context_lookup s _ Hr Hin) as (c & Hc & _). unfold vmwopencl_surfacealloc_1. mrun.
    rewrite (tab_read_eq _ _ _ c) by done. by rewrite (active_db SurfaceIds db).
  - destruct (context_lookup s _ Hr Hin) as (c & Hc & _). unfold vmwopencl_queuealloc_1. mrun.
    rewrite (tab_read_eq _ _ _ c) by done. by rewrite (active_db QueueIds db).
  - destruct Hin as [Hin Hsub]. destruct (context_lookup s _ Hr Hin) as (c & Hc & Hsh).
    unfold vmwopencl_kernelalloc_1. mrun. rewrite (tab_read_eq _ _ _ c) by done.
    destruct (lookup_lt_is_Some_2 (ctx_deviceIds c) (Z.to_nat (VMCLKernelAllocateDesc_subDevice a)))
      as [dev Hdev]; [unfold context_shape in Hsh; rewrite Hsh; unfold VMCL_MAX_SUBDEVICES; lia |].
    rewrite Hdev. by rewrite (active_db KernelIds db).
Qed.

(** ** Behaviours a client must know about *)

(** A successful download keeps the instance's mutex: afterwards an
    upload of any other thread to that surface instance never returns. *)
Theorem download_keeps_lock tid tid' argp up s r s' x y :
  let accel := VMCLSurfaceId_accel (VMCLImageDownloadOp_img argp) in
  let accel' := VMCLSurfaceId_accel (VMCLImageUploadOp_img up) in
  lookup_surf (VMAccelSurfaceId_id accel) s = Some x →
  surf_inst x !! Z.to_nat (VMAccelSurfaceId_instance accel) = Some y →
  surf_mutex x = Recursive None → si_mutex y = Recursive None →
  vmwopencl_imagedownload_1 tid argp s = Done r s' →
  VMAccelDownloadStatus_status r = VMACCEL_SUCCESS →
  tid' ≠ tid →
  VMAccelSurfaceId_id accel' = VMAccelSurfaceId_id accel →
  VMAccelSurfaceId_instance accel' = VMAccelSurfaceId_instance accel →
  is_Some (tab_lookup Queues (VMCLQueueId_id (VMCLImageUploadOp_queue up)) s) →
  vmwopencl_imageupload_1 tid' up s' = Fault WouldBlock.
Proof.
  intros accel accel' Hx Hy Hmx Hmy (q & x' & y' & m & _ & Hx' & Hy' & Hm & Hd)%imagedownload_enters
    Hst Hne Hs Hi [q' Hq'].
  fold accel in Hx', Hy'. rewrite Hx in Hx'. injection Hx' as <-. rewrite Hy in Hy'. injection Hy' as <-.
  rewrite Hmy in Hm. injection Hm as <-. unfold download_model in Hd. fold accel in Hd.
  destruct (negb _) in Hd; [injection Hd as -> _; simpl in Hst; by destruct (_ <? _) in Hst |].
  destruct (negb _) in Hd; [done |]. destruct (negb _) in Hd; [done |]. cbv zeta in Hd.
  destruct (clEnqueueReadBuffer _ _ _ _ _ _ _) as [[e buf] c]. destruct (_ && _) in Hd; [done |].
  injection Hd as _ ->.
  set (s1 := set_cl c (upd_inst (VMAccelSurfaceId_id accel) (VMAccelSurfaceId_instance accel)
    (set_si_mutex (Recursive (Some (tid, 0%nat)))) s)).
  assert (lookup_surf (VMAccelSurfaceId_id accel) s1 = Some (on_inst (VMAccelSurfaceId_instance accel)
    (set_si_mutex (Recursive (Some (tid, 0%nat)))) x)) as Hx1.
  { unfold s1, upd_inst. by rewrite lookup_surf_set_cl, lookup_upd_surf, Hx. }
  set (s2 := set_download_result _ s1).
  assert (tab_lookup Queues (VMCLQueueId_id (VMCLImageUploadOp_queue up)) s2 = Some q') as Hq2.
  { rewrite <- Hq'. unfold tab_lookup, s2, s1, upd_inst, upd_surf. simpl. by destruct (surfaces s). }
  unfold vmwopencl_imageupload_1, lock_surface. mrun. rewrite (tab_read_eq _ _ _ q') by done.
  fold accel'. rewrite Hs, Hi.
  rewrite (surf_lock_eq _ _ s2 _ (Recursive (Some (tid', 0%nat))) Hx1) by (simpl; by rewrite Hmx).
  unfold inst_lock. mrun.
  rewrite (inst_read_eq _ _ _ (set_si_mutex (Recursive (Some (tid, 0%nat))) y)).
  - simpl. by rewrite (proj2 (Z.eqb_neq tid tid')) by done.
  - eapply lookup_inst_intro; [rewrite lookup_upd_surf; by rewrite (Hx1 : lookup_surf _ s2 = _) |].
    simpl. by rewrite list_lookup_alter_eq, Hy.
Qed.

(** A map whose first request the runtime fails leaves the reference
    counted: the next map of the surface reports success without asking the
    runtime and hands out the pointer the instance had before, [NULL] for an
    instance that was never mapped. *)
Theorem failed_map_poisons tid argp s q x y errNum ptr c :
  let op := VMCLSurfaceMapOp_op argp in
  let surf := VMAccelSurfaceMapOp_surf op in
  let size := VMAccelCoordinate2DUINT_x (VMAccelSurfaceMapOp_size op) in
  tab_lookup Queues (VMCLQueueId_id (VMCLSurfaceMapOp_queue argp)) s = Some q →
  section_open tid (VMAccelSurfaceId_id surf) (VMAccelSurfaceId_instance surf) s x y →
  si_generation y ≤ VMAccelSurfaceId_generation surf → is_buffer x = true →
  si_mapping_refCount y = 0 → si_mapping_ptr y = 0 →
  map_first_result (q_queue q) y
    (negb (has_flag (VMAccelSurfaceMapOp_mapFlags op) VMACCEL_MAP_ASYNC_FLAG))
    (map_flags (VMAccelSurfaceMapOp_mapFlags op))
    (VMAccelCoordinate3DUINT_x (VMAccelSurfaceMapOp_coord op)) size (cl s) = (errNum, ptr, c) →
  errNum ≠ CL_SUCCESS →
  ∃ s1 s2, vmwopencl_surfacemap_1 tid argp s = Done (mkMapResult VMACCEL_FAIL 0 0) s1 ∧
           vmwopencl_surfacemap_1 tid argp s1 = Done (mkMapResult VMACCEL_SUCCESS 0 size) s2.
Proof.
  intros op surf size Hq (Hx & Hy & He) Hg Hb Hrc Hp Hmf Herr.
  set (sid := VMAccelSurfaceId_id surf) in *. set (inst := VMAccelSurfaceId_instance surf) in *.
  set (s1 := set_cl c (upd_inst sid inst (set_si_refCount 1) s)).
  assert (lookup_surf sid s1 = Some (on_inst inst (set_si_refCount 1) x)) as Hx1.
  { unfold s1, upd_inst. by rewrite lookup_surf_set_cl, lookup_upd_surf, Hx. }
  assert (surf_inst (on_inst inst (set_si_refCount 1) x) !! Z.to_nat inst = Some (set_si_refCount 1 y)) as Hy1.
  { simpl. by rewrite list_lookup_alter_eq, Hy. }
  assert (tab_lookup Queues (VMCLQueueId_id (VMCLSurfaceMapOp_queue argp)) s1 = Some q) as Hq1.
  { rewrite <- Hq. unfold tab_lookup, s1, upd_inst, upd_surf. simpl. by destruct (surfaces s). }
  exists s1. eexists. split.
  - rewrite (surfacemap_spec tid argp s q x y Hq Hx Hy He). unfold map_model. fold op surf size inst sid.
    rewrite (proj2 (Z.ltb_ge _ _) Hg), Hb, Hrc. simpl negb. change (u32 (0 + 1)) with 1.
    change (1 =? 1) with true. cbv beta iota zeta. rewrite Hmf.
    by rewrite (proj2 (Z.eqb_neq errNum CL_SUCCESS)).
  - rewrite (surfacemap_spec tid argp s1 q _ _ Hq1 Hx1 Hy1); [| done].
    unfold map_model. fold op surf size inst sid.
    change (si_generation (set_si_refCount 1 y)) with (si_generation y).
    change (is_buffer (on_inst inst (set_si_refCount 1) x)) with (is_buffer x).
    change (si_mapping_ptr (set_si_refCount 1 y)) with (si_mapping_ptr y).
    by rewrite (proj2 (Z.ltb_ge _ _) Hg), Hb, Hp.
Qed.

(** An unmap never compares generations: when it succeeds the instance
    is at whatever generation the client wrote into the request, however old. *)
Theorem unmap_sets_any_generation tid argp s q x y m st argp' s' :
  let surf := VMAccelSurfaceUnmapOp_surf (VMCLSurfaceUnmapOp_op argp) in
  tab_lookup Queues (VMCLQueueId_id (VMCLSurfaceUnmapOp_queue argp)) s = Some q →
  lookup_surf (VMAccelSurfaceId_id surf) s = Some x →
  surf_inst x !! Z.to_nat (VMAccelSurfaceId_instance surf) = Some y →
  can_lock tid (surf_mutex x) = true → mutex_unlock tid (si_mutex y) = inl m →
  vmwopencl_surfaceunmap_1 tid argp s = Done (st, argp') s' → VMAccelStatus_status st = VMACCEL_SUCCESS →
  ∃ y', lookup_inst (VMAccelSurfaceId_id surf) (VMAccelSurfaceId_instance surf) s' = Some y' ∧
        si_generation y' = VMAccelSurfaceId_generation surf.
Proof.
  intros surf Hq Hx Hy Hc Hm Hrun Hst.
  rewrite (surfaceunmap_spec tid argp s q x y m Hq Hx Hy Hc Hm) in Hrun. unfold unmap_model in Hrun.
  fold surf in Hrun. destruct (_ && _) in Hrun; [done |]. cbv zeta in Hrun.
  destruct (if _ && _ && _ then _ else _) as [e c]. injection Hrun as <- _ <-. simpl in Hst.
  exists (set_si_mutex m (unmap_change (VMAccelSurfaceId_generation surf) (u32 (si_mapping_refCount y - 1)) e y)).
  split.
  - change (lookup_inst ?a ?b (set_cl c ?s)) with (lookup_inst a b s).
    by rewrite lookup_upd_inst, (lookup_inst_intro _ _ _ x y).
  - simpl. by destruct (e =? CL_SUCCESS).
Qed.

(** ** Power-off *)

(** All statics point to live objects. *)
Definition powered s : Prop :=
  (∃ l, contexts s = Live l) ∧ (∃ d, contextIds s = Live d) ∧ (∃ l, surfaces s = Live l) ∧
  (∃ d, surfaceIds s = Live d) ∧ (∃ l, queues s = Live l) ∧ (∃ d, queueIds s = Live d) ∧
  (∃ l, samplers s = Live l) ∧ (∃ d, samplerIds s = Live d) ∧ (∃ l, kernels s = Live l) ∧
  (∃ d, kernelIds s = Live d) ∧ Forall (λ x, caps_DEVICE_MAX_WORK_ITEM_SIZES x ≠ Freed) (caps s).

Lemma free_sizes_ok l s :
  Forall (λ x, caps_DEVICE_MAX_WORK_ITEM_SIZES x ≠ Freed) l → free_work_item_sizes l s = Done tt s.
Proof.
  induction 1 as [| x l Hx Hl IH]; [done |]. simpl. mrun. unfold free_heap.
  by destruct (caps_DEVICE_MAX_WORK_ITEM_SIZES x).
Qed.

(** Power-off frees every table once and answers success, and leaves
    the static pointers dangling: a second power-off is a double free, and no
    request of any thread can be served before the next power-on. *)
Theorem poweroff_dangles s :
  powered s →
  ∃ s', vmwopencl_poweroff s = Done (mkStatus VMACCEL_SUCCESS) s' ∧
        vmwopencl_poweroff s' = Fault BadAccess ∧
        ∀ tid r, ∃ f, exec tid r s' = Fault f.
Proof.
  intros ((l1 & H1) & (d1 & H2) & (l2 & H3) & (d2 & H4) & (l3 & H5) & (d3 & H6) & (l4 & H7) &
    (d4 & H8) & (l5 & H9) & (d5 & H10) & Hc).
  eexists. split; [| split].
  - unfold vmwopencl_poweroff. mrun. rewrite free_sizes_ok by done.
    unfold free_db, free_heap. rewrite H1, H2, H3, H4, H5, H6, H7, H8, H9, H10. reflexivity.
  - unfold vmwopencl_poweroff. mrun. rewrite free_sizes_ok; [done |]. by apply Forall_replicate.
  - intros tid r. destruct r; eexists; reflexivity.
Qed.

End Behaviour.

(** ** Witnesses on the concrete runtime *)

Definition the {A} (d : A) (o : option A) : A := default d o.

Definition demo_queue : VMWOpenCLQueue := the zero_queue (tab_lookup Queues 0 sim_ready).
Definition demo_kernel : VMWOpenCLKernel := the zero_kernel (tab_lookup Kernels 0 sim_ready).
Definition demo_surf (sid : Z) (s : backend) : VMWOpenCLSurface := the zero_surface (lookup_surf sid s).
Definition demo_inst (sid : Z) (s : backend) : VMWOpenCLSurfaceInstance :=
  the zero_instance (lookup_inst sid 0 s).

(** Surface [sid] at generation [gen]. *)
Definition demo_id (sid gen : Z) : VMAccelSurfaceId := mkVMAccelSurfaceId 0 0 sid 0 0 gen.
Definition demo_region (len : Z) : VMAccelSurfaceRegion :=
  mkVMAccelSurfaceRegion 0 zero_VMAccelCoordinate3DUINT (mkVMAccelCoordinate3DUINT len 0 0).
Definition demo_transfer (data : list byte) : VMAccelImageTransferOp :=
  mkVMAccelImageTransferOp (demo_region 2) data [].
Definition demo_upload (sid gen : Z) : VMCLImageUploadOp :=
  mkVMCLImageUploadOp zero_VMCLQueueId (mkVMCLSurfaceId 0 (demo_id sid gen)) (demo_transfer [x0a; x0b]) 0.
Definition demo_download (sid gen : Z) : VMCLImageDownloadOp :=
  mkVMCLImageDownloadOp zero_VMCLQueueId (mkVMCLSurfaceId 0 (demo_id sid gen)) (demo_transfer []) 0.
Definition demo_map (sid gen : Z) : VMCLSurfaceMapOp :=
  mkVMCLSurfaceMapOp zero_VMCLQueueId
    (mkVMAccelSurfaceMapOp (demo_id sid gen) zero_VMAccelCoordinate3DUINT
       (mkVMAccelCoordinate2DUINT 16 0) VMACCEL_MAP_WRITE_FLAG).
Definition demo_unmap (sid gen : Z) : VMCLSurfaceUnmapOp :=
  mkVMCLSurfaceUnmapOp zero_VMCLQueueId (mkVMAccelSurfaceUnmapOp (demo_id sid gen) 0 [x0c]).
Definition demo_copy (src dst gen : Z) : VMCLSurfaceCopyOp :=
  mkVMCLSurfaceCopyOp zero_VMCLQueueId (mkVMCLSurfaceId 0 (demo_id dst gen))
    (mkVMCLSurfaceId 0 (demo_id src gen)) (mkVMAccelSurfaceCopyOp (demo_region 2) (demo_region 2)).
Definition demo_fill (sid gen : Z) : VMCLImageFillOp :=
  mkVMCLImageFillOp zero_VMCLQueueId (mkVMCLSurfaceId 0 (demo_id sid gen))
    (mkVMAccelImageFillOp (demo_region 2) zero_VMAccelElementDouble4D zero_VMAccelElementFloat4D
       zero_VMAccelElementUINT4D).
Definition demo_arg (sid gen : Z) : VMCLKernelArgDesc :=
  mkVMCLKernelArgDesc zero_VMCLQueueId 0 VMCL_ARG_SURFACE 0 (demo_id sid gen) zero_VMCLSamplerId.
Definition demo_dispatch (args : list VMCLKernelArgDesc) : VMCLDispatchOp :=
  mkVMCLDispatchOp zero_VMCLQueueId zero_VMCLKernelId 1 [0] [8] [8] args [].

Lemma demo_section sid : sid = 3 ∨ sid = 4 →
  section_open 1 sid 0 sim_ready (demo_surf sid sim_ready) (demo_inst sid sim_ready).
Proof. by intros [-> | ->]; repeat split; by_compute. Qed.

Lemma imageupload_atomic_witness :
  vmwopencl_imageupload_1 1 (demo_upload 3 5) sim_ready =
    upload_model (demo_upload 3 5) demo_queue (demo_surf 3 sim_ready) (demo_inst 3 sim_ready) sim_ready.
Proof.
  apply imageupload_atomic; [by_compute | apply demo_section; by left].
Defined.

Lemma dispatch_atomic_witness :
  vmwopencl_dispatch_1 1 (demo_dispatch [demo_arg 3 0; demo_arg 4 0; demo_arg 3 0]) sim_ready =
    dispatch_model (demo_dispatch [demo_arg 3 0; demo_arg 4 0; demo_arg 3 0]) demo_queue demo_kernel sim_ready.
Proof.
  apply (dispatch_atomic 1 (demo_dispatch [demo_arg 3 0; demo_arg 4 0; demo_arg 3 0]) sim_ready demo_queue demo_kernel);
    [by_compute | by_compute | done |].
  repeat constructor; eexists _, _; split_and!; by_compute.
Defined.

Lemma surfacemap_atomic_witness :
  vmwopencl_surfacemap_1 1 (demo_map 3 0) sim_ready =
    map_model (demo_map 3 0) demo_queue (demo_surf 3 sim_ready) (demo_inst 3 sim_ready) sim_ready.
Proof. apply surfacemap_atomic; [by_compute | apply demo_section; by left]. Defined.

(** After a map and an upload to generation 5. *)
Definition sim_mapped : backend :=
  run_requests 1 [SurfaceMap (demo_map 3 0); ImageUpload (demo_upload 3 5)] sim_ready.

Lemma surfaceunmap_atomic_witness :
  vmwopencl_surfaceunmap_1 1 (demo_unmap 3 2) sim_mapped =
    unmap_model (demo_unmap 3 2) demo_queue (demo_surf 3 sim_mapped) (demo_inst 3 sim_mapped)
      (Recursive None) sim_mapped.
Proof. apply surfaceunmap_atomic; by_compute. Defined.

Lemma surfacecopy_atomic_witness :
  vmwopencl_surfacecopy_1 1 (demo_copy 3 4 0) sim_ready =
    copy_model (demo_copy 3 4 0) demo_queue (demo_surf 3 sim_ready) (demo_inst 3 sim_ready)
      (demo_surf 4 sim_ready) (demo_inst 4 sim_ready) sim_ready.
Proof.
  apply (surfacecopy_atomic 1 (demo_copy 3 4 0) sim_ready (ended (lock_pair 1 3 0 4 0) sim_ready)); by_compute.
Defined.

Lemma imagefill_atomic_witness :
  vmwopencl_imagefill_1 1 (demo_fill 3 0) sim_ready =
    fill_model (demo_fill 3 0) demo_queue (demo_surf 3 sim_ready) (demo_inst 3 sim_ready) sim_ready.
Proof. apply imagefill_atomic; [by_compute | apply demo_section; by left]. Defined.

Lemma locks_balanced_witness :
  locks_of (run_requests 1 [Dispatch (demo_dispatch [demo_arg 3 0; demo_arg 4 7])] sim_ready) =
    locks_of sim_ready.
Proof.
  apply (locks_balanced 1 (Dispatch (demo_dispatch [demo_arg 3 0; demo_arg 4 7])) sim_ready tt);
    [done | done | by_compute].
Defined.

Lemma generations_monotone_witness :
  gen_le sim_ready (run_requests 1 [ImageUpload (demo_upload 3 5)] sim_ready).
Proof.
  apply (generations_monotone 1 (ImageUpload (demo_upload 3 5)) sim_ready tt); [done | done | by_compute].
Defined.

Lemma alloc_refuses_active_witness :
  alloc_status 1 (QueueAlloc (mkVMCLQueueAllocateDesc zero_VMCLQueueId 0 zero_VMAccelQueueDesc)) sim_ready =
    Done VMACCEL_RESOURCE_UNAVAILABLE sim_ready.
Proof.
  eapply (alloc_refuses_active 1 _ sim_ready QueueIds 0);
    [apply sim_ready_reachable | reflexivity | simpl; lia | by_compute | ].
  apply (bool_decide_eq_true_1 (0 ∈ _)). by_compute.
Defined.

Lemma download_keeps_lock_witness :
  vmwopencl_imageupload_1 2 (demo_upload 3 5)
    (ended (vmwopencl_imagedownload_1 1 (demo_download 3 0)) sim_ready) = Fault WouldBlock.
Proof.
  apply (download_keeps_lock 1 2 (demo_download 3 0) (demo_upload 3 5) sim_ready
    (mkVMAccelDownloadStatus VMACCEL_SUCCESS 0 [x00; x00]) _ (demo_surf 3 sim_ready) (demo_inst 3 sim_ready));
    try by_compute; [discriminate |]. eexists. by_compute.
Defined.

(** The same state with a runtime that fails every command. *)
Definition sim_failing : backend := set_cl (mkSim 200 ∅ (-5)) sim_ready.

Lemma failed_map_poisons_witness :
  ∃ s1 s2, vmwopencl_surfacemap_1 1 (demo_map 3 0) sim_failing = Done (mkMapResult VMACCEL_FAIL 0 0) s1 ∧
           vmwopencl_surfacemap_1 1 (demo_map 3 0) s1 = Done (mkMapResult VMACCEL_SUCCESS 0 16) s2.
Proof.
  apply (failed_map_poisons 1 (demo_map 3 0) sim_failing demo_queue (demo_surf 3 sim_ready)
    (demo_inst 3 sim_ready) (-5) 0 (cl sim_failing));
    [by_compute | repeat split; by_compute | vm_compute; discriminate | by_compute | by_compute | by_compute
    | by_compute | discriminate].
Defined.

Lemma unmap_sets_any_generation_witness :
  si_generation (demo_inst 3 sim_mapped) = 5 ∧
  ∃ y', lookup_inst 3 0 (ended (vmwopencl_surfaceunmap_1 1 (demo_unmap 3 2)) sim_mapped) = Some y' ∧
        si_generation y' = 2.
Proof.
  split; [by_compute |].
  apply (unmap_sets_any_generation 1 (demo_unmap 3 2) sim_mapped demo_queue (demo_surf 3 sim_mapped)
    (demo_inst 3 sim_mapped) (Recursive None) (mkStatus VMACCEL_SUCCESS) (unmap_arg (demo_unmap 3 2)));
    by_compute.
Defined.

Lemma poweroff_dangles_witness :
  ∃ s', vmwopencl_poweroff sim_ready = Done (mkStatus VMACCEL_SUCCESS) s' ∧
        vmwopencl_poweroff s' = Fault BadAccess ∧ ∀ tid r, ∃ f, exec tid r s' = Fault f.
Proof.
  apply poweroff_dangles. unfold powered. split_and!; try (eexists; by_compute).
  vm_compute. repeat constructor; discriminate.
Defined.
