(* ===== verification/Server.v ===== *)
(** * The vmcl service (accelerators/vmcl/src/vmcl_rpc_server.c)

    The service owns the backend and a power-on reference count; each
    [vmcl_*_2_svc] routine forwards its argument to the backend's operation
    table and wraps the answer in the return union, whose [errno] is the zero
    of its static storage.  [rqstp] is [None] when a client in the same process
    calls the routine directly. *)

From S2P Require Import Prelude IdentifierDB XdrRuntime RpcTypes Backend BackendOps.
From S2P Require Import BackendPower.

Section Server.
Context `{OpenCL}.

Record server := mkServer {
  sv_backend : backend;
  clRefCount : Z;
  (** whether the buffer of the retained download result was part of a
      request whose arguments have been freed *)
  sv_download_freed : bool;
}.

Definition set_sv_backend b s := mkServer b (clRefCount s) (sv_download_freed s).
Definition set_clRefCount n s := mkServer (sv_backend s) n (sv_download_freed s).
Definition set_sv_download_freed f s := mkServer (sv_backend s) (clRefCount s) f.

Definition SV (A : Type) : Type := M server A.

(** [cl->op(...)] *)
Definition cl_op {A} (m : B A) : SV A := zoom sv_backend set_sv_backend m.

(** ** Power *)

(** [ok i] tells which allocations of the attempt on architecture [i] succeed. *)
Fixpoint poweron_loop (ok : nat → nat → bool) (n i : nat) (ret : option VMAccelAllocateStatus) :
    SV (option VMAccelAllocateStatus) :=
  match n with
  | O => mret ret
  | S n' =>
      r ← cl_op (vmwopencl_poweron (ok i) i);
      if VMAccelAllocateStatus_status r =? VMACCEL_SUCCESS then
        _ ← modify (λ s, set_clRefCount (u64 (clRefCount s + 1)) s);
        mret (Some r)
      else poweron_loop ok n' (S i) (Some r)
  end.

Definition vmcl_poweron_svc (ok : nat → nat → bool) : SV (option VMAccelAllocateStatus) :=
  _ ← assert (0 <? Z.of_nat VMACCEL_SELECT_MAX);
  poweron_loop ok VMACCEL_SELECT_MAX 0 None.

Definition vmcl_poweroff_svc : SV (option VMAccelStatus) :=
  n ← gets clRefCount;
  if n =? 1 then
    _ ← modify (set_clRefCount 0);
    r ← cl_op vmwopencl_poweroff;
    mret (Some r)
  else
    _ ← (if 1 <? n then modify (set_clRefCount (n - 1)) else mret tt);
    mret None.

(** ** Service routines *)

Definition vmcl_contextalloc_2_svc (argp : VMCLContextAllocateDesc) : SV VMCLContextAllocateReturnStatus :=
  r ← cl_op (vmwopencl_contextalloc_1 argp); mret (mkVMCLContextAllocateReturnStatus 0 (Some r)).

Definition vmcl_contextdestroy_2_svc (argp : Z) : SV VMAccelReturnStatus :=
  r ← cl_op (vmwopencl_contextdestroy_1 argp); mret (mkVMAccelReturnStatus 0 (Some r)).

Definition vmcl_surfacealloc_2_svc (tid : Z) (argp : VMCLSurfaceAllocateDesc) :
    SV VMAccelSurfaceAllocateReturnStatus :=
  r ← cl_op (vmwopencl_surfacealloc_1 tid argp); mret (mkVMAccelSurfaceAllocateReturnStatus 0 (Some r)).

Definition vmcl_surfacedestroy_2_svc (tid : Z) (argp : VMCLSurfaceId) : SV VMAccelReturnStatus :=
  r ← cl_op (vmwopencl_surfacedestroy_1 tid argp); mret (mkVMAccelReturnStatus 0 (Some r)).

Definition vmcl_queuealloc_2_svc (argp : VMCLQueueAllocateDesc) : SV VMAccelQueueReturnStatus :=
  r ← cl_op (vmwopencl_queuealloc_1 argp); mret (mkVMAccelQueueReturnStatus 0 (Some r)).

Definition vmcl_queuedestroy_2_svc (argp : VMCLQueueId) : SV VMAccelReturnStatus :=
  r ← cl_op (vmwopencl_queuedestroy_1 argp); mret (mkVMAccelReturnStatus 0 (Some r)).

Definition vmcl_queueflush_2_svc (argp : VMCLQueueId) : SV VMAccelReturnStatus :=
  r ← cl_op (vmwopencl_queueflush_1 argp); mret (mkVMAccelReturnStatus 0 (Some r)).

Definition vmcl_imageupload_2_svc (tid : Z) (argp : VMCLImageUploadOp) : SV VMAccelReturnStatus :=
  r ← cl_op (vmwopencl_imageupload_1 tid argp); mret (mkVMAccelReturnStatus 0 (Some r)).

(** A download that succeeds retains a buffer that is live. *)
Definition vmcl_imagedownload_2_svc (tid : Z) (argp : VMCLImageDownloadOp) : SV VMAccelDownloadReturnStatus :=
  r ← cl_op (vmwopencl_imagedownload_1 tid argp);
  _ ← (if VMAccelDownloadStatus_status r =? VMACCEL_SUCCESS
       then modify (set_sv_download_freed false) else mret tt);
  mret (mkVMAccelDownloadReturnStatus 0 (Some r)).

(** The return union of [surfacemap] in memory: the mapped pointer. *)
Record MapReturnStatus := mkMapReturnStatus {
  MapReturnStatus_errno : Z;
  MapReturnStatus_ret : option MapResult;
}.

(** Local calls keep the caller's pointers: the routine sets the flag in the
    caller's argument. *)
Definition or_mapFlags (op : VMAccelSurfaceMapOp) : VMAccelSurfaceMapOp :=
  mkVMAccelSurfaceMapOp (VMAccelSurfaceMapOp_surf op) (VMAccelSurfaceMapOp_coord op)
    (VMAccelSurfaceMapOp_size op)
    (Z.lor (VMAccelSurfaceMapOp_mapFlags op) VMACCEL_MAP_NO_FREE_PTR_FLAG).

Definition or_unmapFlags (op : VMAccelSurfaceUnmapOp) : VMAccelSurfaceUnmapOp :=
  mkVMAccelSurfaceUnmapOp (VMAccelSurfaceUnmapOp_surf op)
    (Z.lor (VMAccelSurfaceUnmapOp_mapFlags op) VMACCEL_MAP_NO_FREE_PTR_FLAG)
    (VMAccelSurfaceUnmapOp_ptr op).

Definition vmcl_surfacemap_2_svc (tid : Z) (argp : VMCLSurfaceMapOp) (rqstp : option Z) :
    SV (MapReturnStatus * VMCLSurfaceMapOp) :=
  let call (argp : VMCLSurfaceMapOp) : SV (MapReturnStatus * VMCLSurfaceMapOp) :=
    r ← cl_op (vmwopencl_surfacemap_1 tid argp); mret (mkMapReturnStatus 0 (Some r), argp) in
  match rqstp with
  | None => call (mkVMCLSurfaceMapOp (VMCLSurfaceMapOp_queue argp) (or_mapFlags (VMCLSurfaceMapOp_op argp)))
  | Some _ =>
      if has_flag (VMAccelSurfaceMapOp_mapFlags (VMCLSurfaceMapOp_op argp)) VMACCEL_MAP_NO_FREE_PTR_FLAG
      then mret (mkMapReturnStatus 0 (Some (mkMapResult VMACCEL_FAIL 0 0)), argp)
      else call argp
  end.

Definition vmcl_surfaceunmap_2_svc (tid : Z) (argp : VMCLSurfaceUnmapOp) (rqstp : option Z) :
    SV (VMAccelReturnStatus * VMCLSurfaceUnmapOp) :=
  let call (argp : VMCLSurfaceUnmapOp) : SV (VMAccelReturnStatus * VMCLSurfaceUnmapOp) :=
    '(r, argp) ← cl_op (vmwopencl_surfaceunmap_1 tid argp);
    mret (mkVMAccelReturnStatus 0 (Some r), argp) in
  match rqstp with
  | None =>
      call (mkVMCLSurfaceUnmapOp (VMCLSurfaceUnmapOp_queue argp) (or_unmapFlags (VMCLSurfaceUnmapOp_op argp)))
  | Some _ =>
      if has_flag (VMAccelSurfaceUnmapOp_mapFlags (VMCLSurfaceUnmapOp_op argp)) VMACCEL_MAP_NO_FREE_PTR_FLAG
      then mret (mkVMAccelReturnStatus 0 (Some (mkStatus VMACCEL_FAIL)), argp)
      else call argp
  end.

Definition vmcl_surfacecopy_2_svc (tid : Z) (argp : VMCLSurfaceCopyOp) : SV VMAccelReturnStatus :=
  r ← cl_op (vmwopencl_surfacecopy_1 tid argp); mret (mkVMAccelReturnStatus 0 (Some r)).

Definition vmcl_imagefill_2_svc (tid : Z) (argp : VMCLImageFillOp) : SV VMAccelReturnStatus :=
  r ← cl_op (vmwopencl_imagefill_1 tid argp); mret (mkVMAccelReturnStatus 0 (Some r)).

Definition vmcl_sampleralloc_2_svc (argp : VMCLSamplerAllocateDesc) : SV VMCLSamplerAllocateReturnStatus :=
  r ← cl_op (vmwopencl_sampleralloc_1 argp); mret (mkVMCLSamplerAllocateReturnStatus 0 (Some r)).

Definition vmcl_samplerdestroy_2_svc (argp : VMCLSamplerId) : SV VMAccelReturnStatus :=
  r ← cl_op (vmwopencl_samplerdestroy_1 argp); mret (mkVMAccelReturnStatus 0 (Some r)).

Definition vmcl_kernelalloc_2_svc (argp : VMCLKernelAllocateDesc) : SV VMCLKernelAllocateReturnStatus :=
  r ← cl_op (vmwopencl_kernelalloc_1 argp); mret (mkVMCLKernelAllocateReturnStatus 0 (Some r)).

Definition vmcl_kerneldestroy_2_svc (argp : VMCLKernelId) : SV VMAccelReturnStatus :=
  r ← cl_op (vmwopencl_kerneldestroy_1 argp); mret (mkVMAccelReturnStatus 0 (Some r)).

Definition vmcl_dispatch_2_svc (tid : Z) (argp : VMCLDispatchOp) : SV VMAccelReturnStatus :=
  r ← cl_op (vmwopencl_dispatch_1 tid argp); mret (mkVMAccelReturnStatus 0 (Some r)).
End Server.
