(* ===== verification/SunRPC.v ===== *)
(** * The Sun RPC library

    [<rpc/rpc.h>] is not part of the repository: the routines the generated
    code calls are the operations of the class [SunRPC], and what it relies on
    (rpc(3)) are the laws of [SunRPCLaws]: a request carries the encoded
    arguments to the server, [svc_getargs] decodes them, [svc_sendreply]
    encodes the result, [svc_freeargs] runs the filter in [XDR_FREE] mode, and
    [clnt_call] decodes the reply.  The clients of this program use TCP, so a
    call is executed at most once.  The last section has an instance. *)

From S2P Require Import Prelude XdrRuntime.

(** What the server sends back. *)
Inductive reply : Type :=
| Accepted (b : list byte)
| NoProc
| GarbageArgs
| SystemErr
| NoReply.

(** What happens to a call on its way: it does not reach the server
    ([RPC_CANTSEND], [RPC_TIMEDOUT]), its reply is lost ([RPC_CANTRECV],
    [RPC_TIMEDOUT]), or neither. *)
Inductive rpc_fate : Type := NotDelivered | ReplyLost | Delivered.

(** [xdr_void] *)
Definition xdr_void : filter unit := λ a xdrs, Some (a, xdrs).

Class SunRPC := {
  SVCXPRT : Type;
  CLIENT : Type;
  svc_getargs {A} (transp : SVCXPRT) (f : filter A) (a : A) : option A;
  (** the bytes of the reply, or [None] for [FALSE] *)
  svc_sendreply {A} (transp : SVCXPRT) (f : filter A) (a : A) : option (list byte);
  svc_freeargs {A} (transp : SVCXPRT) (f : filter A) (a : A) : bool;
  (** [peer] is the dispatcher of the server at the other end; the answer is
      [None] unless the status is [RPC_SUCCESS] *)
  clnt_call {S A R} (clnt : CLIENT) (peer : Z → SVCXPRT → M S reply) (proc : Z)
    (fa : filter A) (a : A) (fr : filter R) (r : R) : M S (option R);
}.

Class SunRPCLaws `{SunRPC} := {
  rq_bytes : SVCXPRT → list byte;
  reply_room : SVCXPRT → nat;
  fate : CLIENT → rpc_fate;
  send_room : CLIENT → nat;
  (** the transport on which the server receives a client's request *)
  accept : CLIENT → list byte → SVCXPRT;

  accept_bytes clnt b : rq_bytes (accept clnt b) = b;
  svc_getargs_spec {A} transp (f : filter A) a0 :
    svc_getargs transp f a0 = fst <$> f a0 (mkXDR XDR_DECODE [] (rq_bytes transp));
  svc_sendreply_spec {A} transp (f : filter A) `{Transmits A f} a :
    wf f a → (length (enc f a) ≤ reply_room transp)%nat →
    svc_sendreply transp f a = Some (enc f a);
  svc_freeargs_spec {A} transp (f : filter A) a a' xdrs :
    f a (mkXDR XDR_FREE [] []) = Some (a', xdrs) → svc_freeargs transp f a = true;
  clnt_call_spec {S A R} clnt (peer : Z → SVCXPRT → M S reply) proc (fa : filter A) `{Transmits A fa} a
      (fr : filter R) r0 s :
    wf fa a → (length (enc fa a) ≤ send_room clnt)%nat →
    clnt_call clnt peer proc fa a fr r0 s =
      match fate clnt with
      | NotDelivered => Done None s
      | ReplyLost =>
          match peer proc (accept clnt (enc fa a)) s with
          | Done _ s' => Done None s'
          | Fault f => Fault f
          end
      | Delivered =>
          match peer proc (accept clnt (enc fa a)) s with
          | Done (Accepted b) s' => Done (fst <$> fr r0 (mkXDR XDR_DECODE [] b)) s'
          | Done _ s' => Done None s'
          | Fault f => Fault f
          end
      end;
}.

Section Consequences.
Context `{SunRPCLaws}.

Lemma svc_getargs_encoded {A} transp (f : filter A) `{Transmits A f} a a0 :
  wf f a → rq_bytes transp = enc f a → svc_getargs transp f a0 = Some a.
Proof.
  intros Ha Hr. rewrite svc_getargs_spec, Hr.
  pose proof (law_decode a a0 [] [] Ha) as Hd. rewrite app_nil_r in Hd. by rewrite Hd.
Qed.

Lemma svc_getargs_wf {A} transp (f : filter A) `{Lawful A f} a a0 :
  svc_getargs transp f a0 = Some a → wf f a.
Proof.
  rewrite svc_getargs_spec. destruct (f a0 _) as [[a' x] |] eqn:E; simpl; [| done].
  intros [= <-]. by destruct (law_bounds (f := f) _ _ _ _ _ E).
Qed.

Lemma svc_freeargs_ok {A} transp (f : filter A) `{Transmits A f} a : svc_freeargs transp f a = true.
Proof. destruct (law_free a [] []) as [a' E]. by eapply svc_freeargs_spec. Qed.

#[global] Instance format_void : Format xdr_void := {| wf := λ _, True; enc := λ _, [] |}.
#[global] Instance transmits_void : Transmits xdr_void.
Proof.
  apply transmits_intro; unfold xdr_void.
  - intros a d r _ _. by rewrite app_nil_r.
  - intros [] [] d r _. by rewrite app_nil_r.
  - eauto.
Qed.

Lemma svc_sendreply_void transp : svc_sendreply transp xdr_void tt = Some [].
Proof. change (Some []) with (Some (enc xdr_void tt)). apply svc_sendreply_spec; [apply _ | done | apply Nat.le_0_l]. Qed.

(** A call that is delivered and answered decodes the answer. *)
Lemma clnt_call_answered {S A R} clnt (peer : Z → SVCXPRT → M S reply) proc
    (fa : filter A) `{Transmits A fa} a (fr : filter R) `{Transmits R fr} r r0 s s' :
  wf fa a → (length (enc fa a) ≤ send_room clnt)%nat → fate clnt = Delivered →
  peer proc (accept clnt (enc fa a)) s = Done (Accepted (enc fr r)) s' → wf fr r →
  clnt_call clnt peer proc fa a fr r0 s = Done (Some r) s'.
Proof.
  intros Ha Hlen Hf Hp Hr. rewrite (clnt_call_spec clnt peer proc fa a fr r0 s Ha Hlen), Hf, Hp.
  pose proof (law_decode (f := fr) r r0 [] [] Hr) as Hd. rewrite app_nil_r in Hd. by rewrite Hd.
Qed.
End Consequences.

(** ** An instance: messages in memory *)

Record sim_client := mkSimClient {
  sc_fate : rpc_fate;
  sc_room : nat;
}.

Definition sim_encode {A} (room : nat) (f : filter A) (a : A) : option (list byte) :=
  (λ r, x_done r.2) <$> f a (mkXDR XDR_ENCODE [] (replicate room x00)).

#[export] Instance simrpc : SunRPC := {|
  SVCXPRT := list byte * nat;
  CLIENT := sim_client;
  svc_getargs := λ A transp f a, fst <$> f a (mkXDR XDR_DECODE [] transp.1);
  svc_sendreply := λ A transp f a, sim_encode transp.2 f a;
  svc_freeargs := λ A transp f a, if f a (mkXDR XDR_FREE [] []) then true else false;
  clnt_call := λ S A R clnt peer proc fa a fr r s,
    match sc_fate clnt, sim_encode (sc_room clnt) fa a with
    | NotDelivered, _ | _, None => Done None s
    | fate, Some b =>
        match peer proc (b, sc_room clnt) s with
        | Done (Accepted b) s' =>
            Done (match fate with Delivered => fst <$> fr r (mkXDR XDR_DECODE [] b) | _ => None end) s'
        | Done _ s' => Done None s'
        | Fault f => Fault f
        end
    end |}.

Lemma sim_encode_wf {A} room (f : filter A) `{Transmits A f} a :
  wf f a → (length (enc f a) ≤ room)%nat → sim_encode room f a = Some (enc f a).
Proof. intros Ha Hr. unfold sim_encode. by rewrite law_encode by (rewrite ?length_replicate; done). Qed.

#[export] Instance simrpc_laws : SunRPCLaws.
Proof.
  refine {| rq_bytes := (fst : @SVCXPRT simrpc → _); reply_room := snd;
            fate := (sc_fate : @CLIENT simrpc → _); send_room := sc_room;
            accept := λ (c : @CLIENT simrpc) b, (b, sc_room c) : @SVCXPRT simrpc |}.
  - done.
  - done.
  - intros A transp f F T a Ha Hr. by apply sim_encode_wf.
  - intros A transp f a a' xdrs E. simpl. by rewrite E.
  - intros S A R clnt peer proc fa F T a fr r0 s Ha Hr. simpl.
    rewrite (sim_encode_wf (sc_room clnt) fa a Ha Hr). destruct (sc_fate clnt); [done | |];
      destruct (peer _ _ _) as [[] |]; done.
Defined.
