(* ===== verification/Program.v ===== *)
(** * Remote programs

    rpcgen writes the same dispatcher and the same client stubs for every
    program of the repository: vmaccel_mgr_svc.c, vmaccel_rpc_svc.c,
    vmaccel_callback_rpc_svc.c, vmcl_callback_rpc_svc.c and vmxc_svc.c differ
    in the table of procedures only.  A program is such a table
    ([rpc_program]); [svc_dispatch] and [clnt_stub] are the code rpcgen writes around
    it, and the theorems about a call are proved once, for a table that
    satisfies [RpcProgramLaws].  (The dispatcher of vmcl frees the buffers of
    its answers too and has a model of its own, in [Protocol].) *)

From S2P Require Import Prelude XdrRuntime SunRPC.
Open Scope Z_scope.

(** The table of a program over the state [S] of its server.  A service
    routine returns the address of its result or [NULL]. *)
Record rpc_program (S : Type) := mkProgram {
  pg_proc : Type;
  pg_number : pg_proc → Z;
  pg_proc_of : Z → option pg_proc;
  pg_arg : pg_proc → Type;
  pg_res : pg_proc → Type;
  pg_zero_arg (p : pg_proc) : pg_arg p;
  pg_zero_res (p : pg_proc) : pg_res p;
  pg_xdr_arg (p : pg_proc) : filter (pg_arg p);
  pg_xdr_res (p : pg_proc) : filter (pg_res p);
  pg_routine (p : pg_proc) : pg_arg p → M S (option (pg_res p));
}.
Arguments pg_proc {_} _.
Arguments pg_number {_} _ _.
Arguments pg_proc_of {_} _ _.
Arguments pg_arg {_} _ _.
Arguments pg_res {_} _ _.
Arguments pg_zero_arg {_} _ _.
Arguments pg_zero_res {_} _ _.
Arguments pg_xdr_arg {_} _ _.
Arguments pg_xdr_res {_} _ _.
Arguments pg_routine {_} _ _ _.

Class RpcProgramLaws {S} (P : rpc_program S) := {
  numbered p : pg_proc_of P (pg_number P p) = Some p;
  not_null p : pg_number P p ≠ 0;
  only_numbered n p : pg_proc_of P n = Some p → n = pg_number P p;
  program_format_argument p :: Format (pg_xdr_arg P p);
  program_lawful_argument p :: Lawful (pg_xdr_arg P p);
  program_format_result p :: Format (pg_xdr_res P p);
  program_transmits_result p :: Transmits (pg_xdr_res P p);
}.

Section Program.
Context `{SunRPC} {S : Type} (P : rpc_program S).

(** The generated dispatcher. *)
Definition svc_dispatch (rq_proc : Z) (transp : SVCXPRT) : M S reply :=
  if rq_proc =? 0 then
    mret (match svc_sendreply transp xdr_void tt with Some b => Accepted b | None => NoReply end)
  else
  match pg_proc_of P rq_proc with
  | None => mret NoProc
  | Some p =>
      match svc_getargs transp (pg_xdr_arg P p) (pg_zero_arg P p) with
      | None => mret GarbageArgs
      | Some argument =>
          result ← pg_routine P p argument;
          let rep := match result with
                     | None => NoReply
                     | Some r => match svc_sendreply transp (pg_xdr_res P p) r with
                                 | Some b => Accepted b
                                 | None => SystemErr
                                 end
                     end in
          if svc_freeargs transp (pg_xdr_arg P p) argument then mret rep else throw Exited
      end
  end.

(** The generated client stubs, which differ in the procedure only. *)
Definition clnt_stub (p : pg_proc P) (argp : pg_arg P p) (clnt : CLIENT) : M S (option (pg_res P p)) :=
  clnt_call clnt svc_dispatch (pg_number P p) (pg_xdr_arg P p) argp (pg_xdr_res P p) (pg_zero_res P p).
End Program.

(** ** What a call does

    The answer and the effect of a call, given what the routine does and
    what happens to the messages. *)
Definition call_outcome {S R} (f : rpc_fate) (s : S) (o : outcome S (option R)) : outcome S (option R) :=
  match f, o with
  | NotDelivered, _ => Done None s
  | _, Fault e => Fault e
  | ReplyLost, Done _ s' => Done None s'
  | Delivered, Done r s' => Done r s'
  end.

Section Calls.
Context `{SunRPCLaws} {S : Type} (P : rpc_program S) `{!RpcProgramLaws P}.

(** A message that carries the argument of a procedure runs its routine. *)
Lemma svc_dispatch_run p a transp s :
  wf (pg_xdr_arg P p) a → rq_bytes transp = enc (pg_xdr_arg P p) a →
  svc_dispatch P (pg_number P p) transp s =
    match pg_routine P p a s with
    | Done None s' => Done NoReply s'
    | Done (Some r) s' =>
        Done (match svc_sendreply transp (pg_xdr_res P p) r with
              | Some b => Accepted b | None => SystemErr end) s'
    | Fault f => Fault f
    end.
Proof.
  intros Ha Hb. unfold svc_dispatch. rewrite (proj2 (Z.eqb_neq _ _) (not_null p)), numbered.
  rewrite (svc_getargs_encoded transp (pg_xdr_arg P p) a) by done.
  unfold mbind, M_bind. destruct (pg_routine P p a s) as [[r |] s' | f]; [| | done];
    by rewrite (svc_freeargs_ok transp (pg_xdr_arg P p)).
Qed.

(** A message whose procedure the program does not have, or whose argument
    cannot be decoded, changes nothing; neither does the null procedure. *)
Lemma svc_dispatch_refused n transp s :
  match pg_proc_of P n with
  | Some p => n ≠ 0 → svc_getargs transp (pg_xdr_arg P p) (pg_zero_arg P p) = None →
              svc_dispatch P n transp s = Done GarbageArgs s
  | None => svc_dispatch P n transp s = Done (if n =? 0 then Accepted [] else NoProc) s
  end.
Proof.
  unfold svc_dispatch. destruct (pg_proc_of P n) as [p |] eqn:E.
  - intros Hn Hg. rewrite (proj2 (Z.eqb_neq _ _) Hn). by rewrite Hg.
  - rewrite svc_sendreply_void. by case (n =? 0).
Qed.

(** A message whose argument can be decoded runs the routine of its
    procedure. *)
Lemma svc_dispatch_args p a transp s :
  svc_getargs transp (pg_xdr_arg P p) (pg_zero_arg P p) = Some a →
  match pg_routine P p a s with
  | Done _ s' => ∃ rep, svc_dispatch P (pg_number P p) transp s = Done rep s'
  | Fault f => svc_dispatch P (pg_number P p) transp s = Fault f
  end.
Proof.
  intros Ha. unfold svc_dispatch. rewrite (proj2 (Z.eqb_neq _ _) (not_null p)), numbered, Ha.
  unfold mbind, M_bind. destruct (pg_routine P p a s) as [r s' | f]; [| done].
  rewrite (svc_freeargs_ok transp (pg_xdr_arg P p)). eauto.
Qed.

(** Whatever the bytes of a message, the dispatcher runs at most one routine,
    on the argument it decodes, which is within the bounds of its type, or
    leaves the server as it was. *)
Lemma svc_dispatch_any n transp s :
  (∃ rep, svc_dispatch P n transp s = Done rep s) ∨
  ∃ p a, n = pg_number P p ∧ wf (pg_xdr_arg P p) a ∧
    svc_getargs transp (pg_xdr_arg P p) (pg_zero_arg P p) = Some a ∧
    match pg_routine P p a s with
    | Done _ s' => ∃ rep, svc_dispatch P n transp s = Done rep s'
    | Fault f => svc_dispatch P n transp s = Fault f
    end.
Proof.
  unfold svc_dispatch. destruct (n =? 0) eqn:E0; [left; eauto |].
  destruct (pg_proc_of P n) as [p |] eqn:Ep; [| left; eauto].
  destruct (svc_getargs transp _ _) as [a |] eqn:Ea; [| left; eauto].
  right. exists p, a. split_and!; [by apply only_numbered | by eapply svc_getargs_wf; [apply _ |] | done |].
  unfold mbind, M_bind. destruct (pg_routine P p a s) as [r s' | f]; [| done].
  rewrite (svc_freeargs_ok transp (pg_xdr_arg P p)). eauto.
Qed.

(** A call through the stub is the routine under the fate of its messages. *)
Lemma clnt_stub_outcome p a clnt s :
  wf (pg_xdr_arg P p) a → (length (enc (pg_xdr_arg P p) a) ≤ send_room clnt)%nat →
  (∀ r s', pg_routine P p a s = Done (Some r) s' →
     wf (pg_xdr_res P p) r ∧
     ∀ b, (length (enc (pg_xdr_res P p) r) ≤ reply_room (accept clnt b))%nat) →
  clnt_stub P p a clnt s = call_outcome (fate clnt) s (pg_routine P p a s).
Proof.
  intros Ha Hlen Hroom. unfold clnt_stub.
  rewrite (clnt_call_spec clnt (svc_dispatch P) _ (pg_xdr_arg P p) a (pg_xdr_res P p) _ s Ha Hlen).
  rewrite (svc_dispatch_run p a _ s Ha (accept_bytes clnt _)). unfold call_outcome.
  destruct (pg_routine P p a s) as [[r |] s' | f] eqn:E; [| by destruct (fate clnt) | by destruct (fate clnt)].
  destruct (Hroom r s' eq_refl) as [Hr Hb]. rewrite (svc_sendreply_spec _ (pg_xdr_res P p) r Hr (Hb _)).
  destruct (fate clnt); [done | done |].
  pose proof (law_decode (f := pg_xdr_res P p) r (pg_zero_res P p) [] [] Hr) as Hd.
  rewrite app_nil_r in Hd. by rewrite Hd.
Qed.
End Calls.
