(* ===== verification/Protocol.v ===== *)
(** * The vmcl program: procedures, dispatcher and client stubs

    accelerators/vmcl/src/vmcl_rpc_svc.c and vmcl_clnt.c.  The RPC library
    ([svc_getargs], [svc_sendreply], [svc_freeargs], [clnt_call]) is the class
    [SunRPC]; its documented behaviour are the laws of [SunRPCLaws].  The
    eighteen stubs differ only in the procedure, its types and the service
    mutex they take, so they are one definition over [vmcl_proc]. *)

From S2P Require Import Prelude IdentifierDB XdrRuntime RpcTypes XdrVMAccel XdrVMCL Backend.
From S2P Require Import BackendOps BackendPower Server SunRPC.

(** ** Procedures of the program (common/inc/vmcl_rpc.h) *)

Inductive vmcl_proc : Type :=
| VMCL_CONTEXTALLOC | VMCL_CONTEXTDESTROY | VMCL_SURFACEALLOC | VMCL_SURFACEDESTROY
| VMCL_QUEUEALLOC | VMCL_QUEUEDESTROY | VMCL_QUEUEFLUSH | VMCL_IMAGEUPLOAD
| VMCL_IMAGEDOWNLOAD | VMCL_SURFACEMAP | VMCL_SURFACEUNMAP | VMCL_SURFACECOPY
| VMCL_IMAGEFILL | VMCL_SAMPLERALLOC | VMCL_SAMPLERDESTROY | VMCL_KERNELALLOC
| VMCL_KERNELDESTROY | VMCL_DISPATCH.

#[export] Instance vmcl_proc_eq_dec : EqDecision vmcl_proc.
Proof. solve_decision. Defined.

Definition all_procs : list vmcl_proc :=
  [VMCL_CONTEXTALLOC; VMCL_CONTEXTDESTROY; VMCL_SURFACEALLOC; VMCL_SURFACEDESTROY;
   VMCL_QUEUEALLOC; VMCL_QUEUEDESTROY; VMCL_QUEUEFLUSH; VMCL_IMAGEUPLOAD;
   VMCL_IMAGEDOWNLOAD; VMCL_SURFACEMAP; VMCL_SURFACEUNMAP; VMCL_SURFACECOPY;
   VMCL_IMAGEFILL; VMCL_SAMPLERALLOC; VMCL_SAMPLERDESTROY; VMCL_KERNELALLOC;
   VMCL_KERNELDESTROY; VMCL_DISPATCH].

Definition proc_number (p : vmcl_proc) : Z :=
  match p with
  | VMCL_CONTEXTALLOC => 1 | VMCL_CONTEXTDESTROY => 2 | VMCL_SURFACEALLOC => 3
  | VMCL_SURFACEDESTROY => 4 | VMCL_QUEUEALLOC => 5 | VMCL_QUEUEDESTROY => 6
  | VMCL_QUEUEFLUSH => 7 | VMCL_IMAGEUPLOAD => 8 | VMCL_IMAGEDOWNLOAD => 9
  | VMCL_SURFACEMAP => 10 | VMCL_SURFACEUNMAP => 11 | VMCL_SURFACECOPY => 12
  | VMCL_IMAGEFILL => 13 | VMCL_SAMPLERALLOC => 14 | VMCL_SAMPLERDESTROY => 15
  | VMCL_KERNELALLOC => 16 | VMCL_KERNELDESTROY => 17 | VMCL_DISPATCH => 18
  end.

Definition NULLPROC : Z := 0.

(** The case of [switch (rqstp->rq_proc)] that a number selects. *)
Definition proc_of (n : Z) : option vmcl_proc := list_find (λ p, proc_number p = n) all_procs ≫= λ x, Some x.2.

Lemma proc_of_number p : proc_of (proc_number p) = Some p.
Proof. by destruct p. Qed.

Lemma proc_of_Some n p : proc_of n = Some p → n = proc_number p.
Proof.
  unfold proc_of. destruct (list_find _ _) as [[i q] |] eqn:E; simpl; [| done].
  intros [= <-]. apply list_find_Some in E as (_ & E & _). done.
Qed.

(** Argument and result of each procedure, in memory and on the wire: only
    the mapped pointer of [surfacemap] differs. *)
Definition vmcl_arg (p : vmcl_proc) : Type :=
  match p with
  | VMCL_CONTEXTALLOC => VMCLContextAllocateDesc
  | VMCL_CONTEXTDESTROY => Z
  | VMCL_SURFACEALLOC => VMCLSurfaceAllocateDesc
  | VMCL_SURFACEDESTROY => VMCLSurfaceId
  | VMCL_QUEUEALLOC => VMCLQueueAllocateDesc
  | VMCL_QUEUEDESTROY => VMCLQueueId
  | VMCL_QUEUEFLUSH => VMCLQueueId
  | VMCL_IMAGEUPLOAD => VMCLImageUploadOp
  | VMCL_IMAGEDOWNLOAD => VMCLImageDownloadOp
  | VMCL_SURFACEMAP => VMCLSurfaceMapOp
  | VMCL_SURFACEUNMAP => VMCLSurfaceUnmapOp
  | VMCL_SURFACECOPY => VMCLSurfaceCopyOp
  | VMCL_IMAGEFILL => VMCLImageFillOp
  | VMCL_SAMPLERALLOC => VMCLSamplerAllocateDesc
  | VMCL_SAMPLERDESTROY => VMCLSamplerId
  | VMCL_KERNELALLOC => VMCLKernelAllocateDesc
  | VMCL_KERNELDESTROY => VMCLKernelId
  | VMCL_DISPATCH => VMCLDispatchOp
  end.

Definition vmcl_wire (p : vmcl_proc) : Type :=
  match p with
  | VMCL_CONTEXTALLOC => VMCLContextAllocateReturnStatus
  | VMCL_SURFACEALLOC => VMAccelSurfaceAllocateReturnStatus
  | VMCL_QUEUEALLOC => VMAccelQueueReturnStatus
  | VMCL_IMAGEDOWNLOAD => VMAccelDownloadReturnStatus
  | VMCL_SURFACEMAP => VMAccelSurfaceMapReturnStatus
  | VMCL_SAMPLERALLOC => VMCLSamplerAllocateReturnStatus
  | VMCL_KERNELALLOC => VMCLKernelAllocateReturnStatus
  | _ => VMAccelReturnStatus
  end.

Definition vmcl_res (p : vmcl_proc) : Type :=
  match p with VMCL_SURFACEMAP => MapReturnStatus | _ => vmcl_wire p end.

(** The cleared argument union and result. *)
Definition zero_arg (p : vmcl_proc) : vmcl_arg p :=
  match p with
  | VMCL_CONTEXTALLOC => zero_VMCLContextAllocateDesc
  | VMCL_CONTEXTDESTROY => 0
  | VMCL_SURFACEALLOC => zero_VMCLSurfaceAllocateDesc
  | VMCL_SURFACEDESTROY => zero_VMCLSurfaceId
  | VMCL_QUEUEALLOC => zero_VMCLQueueAllocateDesc
  | VMCL_QUEUEDESTROY => zero_VMCLQueueId
  | VMCL_QUEUEFLUSH => zero_VMCLQueueId
  | VMCL_IMAGEUPLOAD => zero_VMCLImageUploadOp
  | VMCL_IMAGEDOWNLOAD => zero_VMCLImageDownloadOp
  | VMCL_SURFACEMAP => zero_VMCLSurfaceMapOp
  | VMCL_SURFACEUNMAP => zero_VMCLSurfaceUnmapOp
  | VMCL_SURFACECOPY => zero_VMCLSurfaceCopyOp
  | VMCL_IMAGEFILL => zero_VMCLImageFillOp
  | VMCL_SAMPLERALLOC => zero_VMCLSamplerAllocateDesc
  | VMCL_SAMPLERDESTROY => zero_VMCLSamplerId
  | VMCL_KERNELALLOC => zero_VMCLKernelAllocateDesc
  | VMCL_KERNELDESTROY => zero_VMCLKernelId
  | VMCL_DISPATCH => zero_VMCLDispatchOp
  end.

Definition zero_res (p : vmcl_proc) : vmcl_wire p :=
  match p with
  | VMCL_CONTEXTALLOC => zero_VMCLContextAllocateReturnStatus
  | VMCL_SURFACEALLOC => zero_VMAccelSurfaceAllocateReturnStatus
  | VMCL_QUEUEALLOC => zero_VMAccelQueueReturnStatus
  | VMCL_IMAGEDOWNLOAD => zero_VMAccelDownloadReturnStatus
  | VMCL_SURFACEMAP => zero_VMAccelSurfaceMapReturnStatus
  | VMCL_SAMPLERALLOC => zero_VMCLSamplerAllocateReturnStatus
  | VMCL_KERNELALLOC => zero_VMCLKernelAllocateReturnStatus
  | _ => zero_VMAccelReturnStatus
  end.

(** ** Filters of each procedure *)

Section Filters.
Context `{XdrLaws}.

Definition xdr_argument (p : vmcl_proc) : filter (vmcl_arg p) :=
  match p with
  | VMCL_CONTEXTALLOC => xdr_VMCLContextAllocateDesc
  | VMCL_CONTEXTDESTROY => xdr_VMCLContextId
  | VMCL_SURFACEALLOC => xdr_VMCLSurfaceAllocateDesc
  | VMCL_SURFACEDESTROY => xdr_VMCLSurfaceId
  | VMCL_QUEUEALLOC => xdr_VMCLQueueAllocateDesc
  | VMCL_QUEUEDESTROY => xdr_VMCLQueueId
  | VMCL_QUEUEFLUSH => xdr_VMCLQueueId
  | VMCL_IMAGEUPLOAD => xdr_VMCLImageUploadOp
  | VMCL_IMAGEDOWNLOAD => xdr_VMCLImageDownloadOp
  | VMCL_SURFACEMAP => xdr_VMCLSurfaceMapOp
  | VMCL_SURFACEUNMAP => xdr_VMCLSurfaceUnmapOp
  | VMCL_SURFACECOPY => xdr_VMCLSurfaceCopyOp
  | VMCL_IMAGEFILL => xdr_VMCLImageFillOp
  | VMCL_SAMPLERALLOC => xdr_VMCLSamplerAllocateDesc
  | VMCL_SAMPLERDESTROY => xdr_VMCLSamplerId
  | VMCL_KERNELALLOC => xdr_VMCLKernelAllocateDesc
  | VMCL_KERNELDESTROY => xdr_VMCLKernelId
  | VMCL_DISPATCH => xdr_VMCLDispatchOp
  end.

Definition xdr_result (p : vmcl_proc) : filter (vmcl_wire p) :=
  match p with
  | VMCL_CONTEXTALLOC => xdr_VMCLContextAllocateReturnStatus
  | VMCL_SURFACEALLOC => xdr_VMAccelSurfaceAllocateReturnStatus
  | VMCL_QUEUEALLOC => xdr_VMAccelQueueReturnStatus
  | VMCL_IMAGEDOWNLOAD => xdr_VMAccelDownloadReturnStatus
  | VMCL_SURFACEMAP => xdr_VMAccelSurfaceMapReturnStatus
  | VMCL_SAMPLERALLOC => xdr_VMCLSamplerAllocateReturnStatus
  | VMCL_KERNELALLOC => xdr_VMCLKernelAllocateReturnStatus
  | _ => xdr_VMAccelReturnStatus
  end.

#[global] Instance format_argument p : Format (xdr_argument p).
Proof. destruct p; simpl; apply _. Defined.
#[global] Instance lawful_argument p : Lawful (xdr_argument p).
Proof. destruct p; apply _. Qed.
#[global] Instance format_result p : Format (xdr_result p).
Proof. destruct p; simpl; apply _. Defined.
#[global] Instance transmits_result p : Transmits (xdr_result p).
Proof. destruct p; apply _. Qed.
End Filters.

(** ** The dispatcher [vmcl_1] *)

Section Dispatcher.
Context `{OpenCL} `{XdrRuntime} `{SunRPC}.

(** The [local] routine of each case; [surfacemap] and [surfaceunmap] also
    change the argument. *)
Definition local (tid : Z) (p : vmcl_proc) : vmcl_arg p → option Z → SV (vmcl_res p * vmcl_arg p) :=
  match p return vmcl_arg p → option Z → SV (vmcl_res p * vmcl_arg p) with
  | VMCL_CONTEXTALLOC => λ a _, r ← vmcl_contextalloc_2_svc a; mret (r, a)
  | VMCL_CONTEXTDESTROY => λ a _, r ← vmcl_contextdestroy_2_svc a; mret (r, a)
  | VMCL_SURFACEALLOC => λ a _, r ← vmcl_surfacealloc_2_svc tid a; mret (r, a)
  | VMCL_SURFACEDESTROY => λ a _, r ← vmcl_surfacedestroy_2_svc tid a; mret (r, a)
  | VMCL_QUEUEALLOC => λ a _, r ← vmcl_queuealloc_2_svc a; mret (r, a)
  | VMCL_QUEUEDESTROY => λ a _, r ← vmcl_queuedestroy_2_svc a; mret (r, a)
  | VMCL_QUEUEFLUSH => λ a _, r ← vmcl_queueflush_2_svc a; mret (r, a)
  | VMCL_IMAGEUPLOAD => λ a _, r ← vmcl_imageupload_2_svc tid a; mret (r, a)
  | VMCL_IMAGEDOWNLOAD => λ a _, r ← vmcl_imagedownload_2_svc tid a; mret (r, a)
  | VMCL_SURFACEMAP => vmcl_surfacemap_2_svc tid
  | VMCL_SURFACEUNMAP => vmcl_surfaceunmap_2_svc tid
  | VMCL_SURFACECOPY => λ a _, r ← vmcl_surfacecopy_2_svc tid a; mret (r, a)
  | VMCL_IMAGEFILL => λ a _, r ← vmcl_imagefill_2_svc tid a; mret (r, a)
  | VMCL_SAMPLERALLOC => λ a _, r ← vmcl_sampleralloc_2_svc a; mret (r, a)
  | VMCL_SAMPLERDESTROY => λ a _, r ← vmcl_samplerdestroy_2_svc a; mret (r, a)
  | VMCL_KERNELALLOC => λ a _, r ← vmcl_kernelalloc_2_svc a; mret (r, a)
  | VMCL_KERNELDESTROY => λ a _, r ← vmcl_kerneldestroy_2_svc a; mret (r, a)
  | VMCL_DISPATCH => λ a _, r ← vmcl_dispatch_2_svc tid a; mret (r, a)
  end.

(** The bytes behind the mapped pointer, which the filter of the result
    reads. *)
Definition marshal_map (r : MapReturnStatus) : SV VMAccelSurfaceMapReturnStatus :=
  match MapReturnStatus_ret r with
  | None => mret (mkVMAccelSurfaceMapReturnStatus (MapReturnStatus_errno r) None)
  | Some x =>
      if mr_ptr_len x =? 0 then
        mret (mkVMAccelSurfaceMapReturnStatus (MapReturnStatus_errno r)
                (Some (mkVMAccelSurfaceMapStatus (mr_status x) [])))
      else if mr_ptr_val x =? 0 then throw BadAccess
      else
        b ← cl_op (cl_query (host_read (mr_ptr_val x) (mr_ptr_len x)));
        mret (mkVMAccelSurfaceMapReturnStatus (MapReturnStatus_errno r)
                (Some (mkVMAccelSurfaceMapStatus (mr_status x) b)))
  end.

(** A failed download answers with the buffer of an earlier one. *)
Definition marshal_download (r : VMAccelDownloadReturnStatus) : SV VMAccelDownloadReturnStatus :=
  match VMAccelDownloadReturnStatus_ret r with
  | Some (mkVMAccelDownloadStatus _ _ (_ :: _)) =>
      freed ← gets sv_download_freed; if (freed : bool) then throw BadAccess else mret r
  | _ => mret r
  end.

(** The result as its filter sees it when the reply is encoded. *)
Definition marshal (p : vmcl_proc) : vmcl_res p → SV (vmcl_wire p) :=
  match p return vmcl_res p → SV (vmcl_wire p) with
  | VMCL_SURFACEMAP => marshal_map
  | VMCL_IMAGEDOWNLOAD => marshal_download
  | _ => mret
  end.

(** After [svc_freeargs] the retained result of a download into the request's
    own buffer dangles. *)
Definition release_buffers (p : vmcl_proc) : vmcl_arg p → vmcl_res p → SV unit :=
  match p return vmcl_arg p → vmcl_res p → SV unit with
  | VMCL_IMAGEDOWNLOAD => λ a r,
      match VMAccelImageTransferOp_ptr (VMCLImageDownloadOp_op a), VMAccelDownloadReturnStatus_ret r with
      | _ :: _, Some x =>
          if VMAccelDownloadStatus_status x =? VMACCEL_SUCCESS
          then modify (set_sv_download_freed true) else mret tt
      | _, _ => mret tt
      end
  | _ => λ _ _, mret tt
  end.

Definition vmcl_1 (tid : Z) (rq_proc : Z) (transp : SVCXPRT) : SV reply :=
  if rq_proc =? NULLPROC then
    mret (match svc_sendreply transp xdr_void tt with Some b => Accepted b | None => NoReply end)
  else
  match proc_of rq_proc with
  | None => mret NoProc
  | Some p =>
      match svc_getargs transp (xdr_argument p) (zero_arg p) with
      | None => mret GarbageArgs
      | Some argument =>
          '(result, argument) ← local tid p argument (Some rq_proc);
          w ← marshal p result;
          let answer := match svc_sendreply transp (xdr_result p) w with
                        | Some b => Accepted b
                        | None => SystemErr
                        end in
          _ ← release_buffers p argument result;
          if svc_freeargs transp (xdr_argument p) argument then mret answer else throw Exited
      end
  end.
End Dispatcher.

(** ** Client stubs *)

(** Which paths a build of the client library contains. *)
Record build := mkBuild {
  ENABLE_VMACCEL_LOCAL : bool;
  ENABLE_VMACCEL_RPC : bool;
}.

Inductive svc_mutex : Type := svc_compute_mutex | svc_data_mutex | svc_state_mutex.

(** The mutex each stub takes. *)
Definition proc_mutex (p : vmcl_proc) : svc_mutex :=
  match p with
  | VMCL_DISPATCH => svc_compute_mutex
  | VMCL_IMAGEUPLOAD | VMCL_IMAGEDOWNLOAD | VMCL_SURFACEMAP | VMCL_SURFACEUNMAP
  | VMCL_SURFACECOPY | VMCL_IMAGEFILL => svc_data_mutex
  | _ => svc_state_mutex
  end.

Section Client.
Context `{OpenCL} `{XdrRuntime} `{SunRPC}.

(** A client process with its service mutexes and the service linked into
    it, and the server process its connections lead to. *)
Record world := mkWorld {
  w_compute : mutex;
  w_data : mutex;
  w_state : mutex;
  w_local : server;
  w_remote : server;
}.

Definition W (A : Type) : Type := M world A.

Definition get_svc_mutex (k : svc_mutex) (w : world) : mutex :=
  match k with
  | svc_compute_mutex => w_compute w
  | svc_data_mutex => w_data w
  | svc_state_mutex => w_state w
  end.

Definition set_svc_mutex (k : svc_mutex) (m : mutex) (w : world) : world :=
  match k with
  | svc_compute_mutex => mkWorld m (w_data w) (w_state w) (w_local w) (w_remote w)
  | svc_data_mutex => mkWorld (w_compute w) m (w_state w) (w_local w) (w_remote w)
  | svc_state_mutex => mkWorld (w_compute w) (w_data w) m (w_local w) (w_remote w)
  end.

Definition svc_lock (tid : Z) (k : svc_mutex) : W unit :=
  m ← gets (get_svc_mutex k);
  match mutex_lock tid m with
  | inl m' => modify (set_svc_mutex k m')
  | inr f => throw f
  end.

Definition svc_unlock (tid : Z) (k : svc_mutex) : W unit :=
  m ← gets (get_svc_mutex k);
  match mutex_unlock tid m with
  | inl m' => modify (set_svc_mutex k m')
  | inr f => throw f
  end.

Definition at_local {A} (m : SV A) : W A :=
  zoom w_local (λ s w, mkWorld (w_compute w) (w_data w) (w_state w) s (w_remote w)) m.
Definition at_remote {A} (m : SV A) : W A :=
  zoom w_remote (λ s w, mkWorld (w_compute w) (w_data w) (w_state w) (w_local w) s) m.

(** ** Service mutexes (vmaccel_utils.c)

    [ok i] tells whether the [i]-th library call of the sequence succeeds. *)
Definition vmaccel_utils_poweron_svc (ok : nat → bool) : W (option VMAccelAllocateStatus) :=
  if negb (ok 0%nat) then mret None else
  if negb (ok 1%nat) then mret None else
  _ ← modify (set_svc_mutex svc_compute_mutex mutex_zero);
  if negb (ok 2%nat) then mret None else
  _ ← modify (set_svc_mutex svc_data_mutex mutex_zero);
  if negb (ok 3%nat) then mret None else
  _ ← modify (set_svc_mutex svc_state_mutex mutex_zero);
  mret (Some (mkVMAccelAllocateStatus VMACCEL_SUCCESS 0 zero_VMAccelDesc)).

(** [pthread_mutex_destroy], which fails on a mutex that is held. *)
Definition svc_destroy (k : svc_mutex) : W bool :=
  m ← gets (get_svc_mutex k);
  match m with
  | Normal None | Recursive None => _ ← modify (set_svc_mutex k Destroyed); mret true
  | Destroyed => throw BadAccess
  | _ => mret false
  end.

Definition vmaccel_utils_poweroff_svc : W (option VMAccelStatus) :=
  b ← svc_destroy svc_state_mutex;
  if negb b then mret None else
  b ← svc_destroy svc_data_mutex;
  if negb b then mret None else
  b ← svc_destroy svc_compute_mutex;
  if negb b then mret None else
  mret (Some (mkStatus VMACCEL_SUCCESS)).

(** What a stub returns when it does not return [NULL]: the result of the
    local routine, or the decoded reply. *)
Inductive answer (p : vmcl_proc) : Type :=
| LocalAnswer (r : vmcl_res p)
| RemoteAnswer (w : vmcl_wire p).
Arguments LocalAnswer {p} r.
Arguments RemoteAnswer {p} w.

(** The body of [vmcl_*_2(argp, clnt)]; the argument comes back as the call
    left it.  [stid] is the thread of the server's [svc_run]. *)
Definition vmcl_call (b : build) (stid tid : Z) (p : vmcl_proc) (argp : vmcl_arg p) (clnt : option CLIENT) :
    W (option (answer p) * vmcl_arg p) :=
  if ENABLE_VMACCEL_LOCAL b && (if clnt then false else true) then
    _ ← svc_lock tid (proc_mutex p);
    '(ret, argp) ← at_local (local tid p argp None);
    _ ← svc_unlock tid (proc_mutex p);
    mret (Some (LocalAnswer ret), argp)
  else if ENABLE_VMACCEL_RPC b then
    _ ← svc_lock tid (proc_mutex p);
    match clnt with
    | None => throw BadAccess
    | Some c =>
        ret ← at_remote (clnt_call c (vmcl_1 stid) (proc_number p) (xdr_argument p) argp
                           (xdr_result p) (zero_res p));
        _ ← svc_unlock tid (proc_mutex p);
        mret (RemoteAnswer <$> ret, argp)
    end
  else mret (None, argp).

Definition vmcl_contextalloc_2 (b : build) (stid tid : Z) := vmcl_call b stid tid VMCL_CONTEXTALLOC.
Definition vmcl_contextdestroy_2 (b : build) (stid tid : Z) := vmcl_call b stid tid VMCL_CONTEXTDESTROY.
Definition vmcl_surfacealloc_2 (b : build) (stid tid : Z) := vmcl_call b stid tid VMCL_SURFACEALLOC.
Definition vmcl_surfacedestroy_2 (b : build) (stid tid : Z) := vmcl_call b stid tid VMCL_SURFACEDESTROY.
Definition vmcl_queuealloc_2 (b : build) (stid tid : Z) := vmcl_call b stid tid VMCL_QUEUEALLOC.
Definition vmcl_queuedestroy_2 (b : build) (stid tid : Z) := vmcl_call b stid tid VMCL_QUEUEDESTROY.
Definition vmcl_queueflush_2 (b : build) (stid tid : Z) := vmcl_call b stid tid VMCL_QUEUEFLUSH.
Definition vmcl_imageupload_2 (b : build) (stid tid : Z) := vmcl_call b stid tid VMCL_IMAGEUPLOAD.
Definition vmcl_imagedownload_2 (b : build) (stid tid : Z) := vmcl_call b stid tid VMCL_IMAGEDOWNLOAD.
Definition vmcl_surfacemap_2 (b : build) (stid tid : Z) := vmcl_call b stid tid VMCL_SURFACEMAP.
Definition vmcl_surfaceunmap_2 (b : build) (stid tid : Z) := vmcl_call b stid tid VMCL_SURFACEUNMAP.
Definition vmcl_surfacecopy_2 (b : build) (stid tid : Z) := vmcl_call b stid tid VMCL_SURFACECOPY.
Definition vmcl_imagefill_2 (b : build) (stid tid : Z) := vmcl_call b stid tid VMCL_IMAGEFILL.
Definition vmcl_sampleralloc_2 (b : build) (stid tid : Z) := vmcl_call b stid tid VMCL_SAMPLERALLOC.
Definition vmcl_samplerdestroy_2 (b : build) (stid tid : Z) := vmcl_call b stid tid VMCL_SAMPLERDESTROY.
Definition vmcl_kernelalloc_2 (b : build) (stid tid : Z) := vmcl_call b stid tid VMCL_KERNELALLOC.
Definition vmcl_kerneldestroy_2 (b : build) (stid tid : Z) := vmcl_call b stid tid VMCL_KERNELDESTROY.
Definition vmcl_dispatch_2 (b : build) (stid tid : Z) := vmcl_call b stid tid VMCL_DISPATCH.

Definition vmcl_stub (b : build) (stid tid : Z) (p : vmcl_proc) :
    vmcl_arg p → option CLIENT → W (option (answer p) * vmcl_arg p) :=
  match p with
  | VMCL_CONTEXTALLOC => vmcl_contextalloc_2 b stid tid
  | VMCL_CONTEXTDESTROY => vmcl_contextdestroy_2 b stid tid
  | VMCL_SURFACEALLOC => vmcl_surfacealloc_2 b stid tid
  | VMCL_SURFACEDESTROY => vmcl_surfacedestroy_2 b stid tid
  | VMCL_QUEUEALLOC => vmcl_queuealloc_2 b stid tid
  | VMCL_QUEUEDESTROY => vmcl_queuedestroy_2 b stid tid
  | VMCL_QUEUEFLUSH => vmcl_queueflush_2 b stid tid
  | VMCL_IMAGEUPLOAD => vmcl_imageupload_2 b stid tid
  | VMCL_IMAGEDOWNLOAD => vmcl_imagedownload_2 b stid tid
  | VMCL_SURFACEMAP => vmcl_surfacemap_2 b stid tid
  | VMCL_SURFACEUNMAP => vmcl_surfaceunmap_2 b stid tid
  | VMCL_SURFACECOPY => vmcl_surfacecopy_2 b stid tid
  | VMCL_IMAGEFILL => vmcl_imagefill_2 b stid tid
  | VMCL_SAMPLERALLOC => vmcl_sampleralloc_2 b stid tid
  | VMCL_SAMPLERDESTROY => vmcl_samplerdestroy_2 b stid tid
  | VMCL_KERNELALLOC => vmcl_kernelalloc_2 b stid tid
  | VMCL_KERNELDESTROY => vmcl_kerneldestroy_2 b stid tid
  | VMCL_DISPATCH => vmcl_dispatch_2 b stid tid
  end.

Lemma vmcl_stub_call b stid tid p : vmcl_stub b stid tid p = vmcl_call b stid tid p.
Proof. by destruct p. Qed.
End Client.
#[global] Arguments LocalAnswer {p} r.
#[global] Arguments RemoteAnswer {p} w.
