(* ===== verification/Answers.v ===== *)
(** * Every answer of the service can be sent

    What the handlers return, whatever state they run in: status codes, caps
    and buffers within the limits of the wire format.  The retained download
    result is the one answer that depends on the state; its bound is an
    invariant of the service. *)

From S2P Require Import Prelude IdentifierDB XdrRuntime RpcTypes XdrVMAccel XdrVMCL Backend.
From S2P Require Import BackendOps BackendPower BackendLemmas BackendFrame BackendInvariants.
From S2P Require Import Server SunRPC Protocol.

(** ** Computations whose results satisfy a predicate *)

Section Yields.
Context {S : Type}.

Definition yields {A} (P : A → Prop) (m : M S A) : Prop := ∀ s a s', m s = Done a s' → P a.

Lemma yields_ret {A} (P : A → Prop) a : P a → yields P (mret a).
Proof. by intros HP s b s' [= <- <-]. Qed.

Lemma yields_throw {A} (P : A → Prop) f : yields P (throw f).
Proof. done. Qed.

Lemma yields_bind {A C} (P : C → Prop) (m : M S A) (k : A → M S C) :
  (∀ a, yields P (k a)) → yields P (m ≫= k).
Proof.
  intros Hk s c s'. unfold mbind, M_bind. destruct (m s) as [a s1 |]; [| done]. apply Hk.
Qed.

Lemma yields_bind_with {A C} (Q : A → Prop) (P : C → Prop) (m : M S A) (k : A → M S C) :
  yields Q m → (∀ a, Q a → yields P (k a)) → yields P (m ≫= k).
Proof.
  intros Hm Hk s c s'. unfold mbind, M_bind. destruct (m s) as [a s1 |] eqn:E; [| done].
  apply Hk. by eapply Hm.
Qed.

Lemma yields_assert_false {A} (P : A → Prop) (k : unit → M S A) : yields P (assert false ≫= k).
Proof. done. Qed.
End Yields.

(** Goes through a computation; [Q] is what a status bound on the way
    satisfies. *)
Ltac yields_step :=
  match goal with
  | |- yields _ (mret _) => apply yields_ret
  | |- yields _ (throw _) => apply yields_throw
  | |- yields _ (let _ := _ in _) => cbv zeta
  | |- yields _ (if ?b then _ else _) => destruct b
  | |- yields _ (match ?x with _ => _ end) => destruct x
  | |- yields _ (assert false ≫= _) => apply yields_assert_false
  | |- yields _ (_ ≫= _) => apply yields_bind; intros ?
  end.

Section Codes.
Context `{OpenCL} `{XdrLaws}.

(** Status codes *)
Definition code (z : Z) : Prop := 0 ≤ z < 256.

Lemma code_u32 z : code z → is_u32 z.
Proof. unfold code, is_u32, UINT_MOD. lia. Qed.

Definition code_status (x : VMAccelStatus) : Prop := ∃ z, x = mkStatus z ∧ code z.

Lemma code_mkStatus z : code z → code_status (mkStatus z).
Proof. unfold code_status. eauto. Qed.

Lemma code_status_wf x : code_status x → wf xdr_VMAccelStatus x.
Proof.
  intros (z & -> & Hz). split; [| by apply code_u32]. unfold wf. simpl. unfold VMACCEL_MAX_NONCE_SIZE. lia.
Qed.
End Codes.

Ltac solve_code := by (simpl; unfold code, VMACCEL_SUCCESS, VMACCEL_FAIL, VMACCEL_SEMANTIC_ERROR,
  VMACCEL_RESOURCE_UNAVAILABLE in *; repeat case_match; lia).

(** A handler that ends with [mkStatus status]. *)
Ltac status_step :=
  match goal with
  | |- yields _ (mret (mkStatus _)) => apply yields_ret, code_mkStatus; first [assumption | solve_code]
  | |- yields code (mret _) => apply yields_ret; solve_code
  | |- yields code_status (?m ≫= _) =>
      apply (yields_bind_with code _ m); [solve [repeat status_step] | intros ? ?]
  | _ => yields_step
  end.

Section Handlers.
Context `{OpenCL} `{XdrLaws}.

Lemma contextdestroy_code a : yields code_status (vmwopencl_contextdestroy_1 a).
Proof. unfold vmwopencl_contextdestroy_1. repeat status_step. Qed.

Lemma surfacedestroy_code tid a : yields code_status (vmwopencl_surfacedestroy_1 tid a).
Proof. unfold vmwopencl_surfacedestroy_1. repeat status_step. Qed.

Lemma queuedestroy_code a : yields code_status (vmwopencl_queuedestroy_1 a).
Proof. unfold vmwopencl_queuedestroy_1. repeat status_step. Qed.

Lemma queueflush_code a : yields code_status (vmwopencl_queueflush_1 a).
Proof. unfold vmwopencl_queueflush_1. repeat status_step. Qed.

Lemma kerneldestroy_code a : yields code_status (vmwopencl_kerneldestroy_1 a).
Proof. unfold vmwopencl_kerneldestroy_1. repeat status_step. Qed.

Lemma samplerdestroy_code a : yields code_status (vmwopencl_samplerdestroy_1 a).
Proof. done. Qed.

Lemma imageupload_code tid a : yields code_status (vmwopencl_imageupload_1 tid a).
Proof. unfold vmwopencl_imageupload_1. repeat status_step. Qed.

Lemma surfacecopy_code tid a : yields code_status (vmwopencl_surfacecopy_1 tid a).
Proof. unfold vmwopencl_surfacecopy_1. repeat status_step. Qed.

Lemma imagefill_code tid a : yields code_status (vmwopencl_imagefill_1 tid a).
Proof. unfold vmwopencl_imagefill_1. repeat status_step. Qed.

Lemma surfaceunmap_code tid a : yields (λ x, code_status x.1) (vmwopencl_surfaceunmap_1 tid a).
Proof.
  unfold vmwopencl_surfaceunmap_1. do 6 yields_step.
  apply (yields_bind_with code); [repeat status_step | intros ? ?].
  yields_step. apply yields_ret. by apply code_mkStatus.
Qed.

Lemma dispatch_args_code tid kernel args : ∀ i,
  yields (λ x, match x.2 with Some st => code st | None => True end) (dispatch_args tid kernel i args).
Proof.
  induction args as [| a args IH]; intros i; simpl; [by apply yields_ret |].
  repeat first [apply IH | yields_step]; simpl; solve_code.
Qed.

Lemma dispatch_code tid a : yields code_status (vmwopencl_dispatch_1 tid a).
Proof.
  unfold vmwopencl_dispatch_1. do 2 yields_step.
  eapply yields_bind_with; [apply dispatch_args_code | intros [i stop] Hstop]. simpl in Hstop.
  apply (yields_bind_with code); [| intros ? ?].
  - destruct stop; [by apply yields_ret |]. unfold dispatch_enqueue. repeat status_step.
  - yields_step. by apply yields_ret, code_mkStatus.
Qed.
End Handlers.

(** ** Answers with more than a status *)

Section Allocations.
Context `{OpenCL} `{XdrLaws}.

Lemma surfacealloc_answer tid a :
  yields (λ x, ∃ st, x = mkVMAccelSurfaceAllocateStatus st zero_VMAccelSurfaceDesc ∧ code st)
    (vmwopencl_surfacealloc_1 tid a).
Proof.
  unfold vmwopencl_surfacealloc_1, surface_install. repeat yields_step; eexists; split; done || solve_code.
Qed.

Lemma queuealloc_answer a : yields (λ x, code (VMAccelQueueStatus_status x)) (vmwopencl_queuealloc_1 a).
Proof. unfold vmwopencl_queuealloc_1. repeat yields_step; simpl; solve_code. Qed.

Lemma kernelalloc_answer a : yields (λ x, code (VMCLKernelAllocateStatus_status x)) (vmwopencl_kernelalloc_1 a).
Proof. unfold vmwopencl_kernelalloc_1. repeat yields_step; simpl; solve_code. Qed.

(** The context's capabilities are a combination of the three SPIR-V bits. *)
Lemma ca_devices_caps argp platform n : ∀ j v,
  yields (λ v', ca_caps v' = ca_caps v) (ca_devices argp platform n j v).
Proof.
  induction n as [| n IH]; intros j v; simpl; [by apply yields_ret |].
  repeat first [done | apply IH | (intros s v' s' ?%IH; done) | yields_step].
Qed.

Lemma ca_platforms_caps argp platforms n : ∀ i v,
  is_u32 (ca_caps v) → yields (λ x, is_u32 (ca_caps x.1)) (ca_platforms argp platforms n i v).
Proof.
  induction n as [| n IH]; intros i v Hv; cbn [ca_platforms]; [by apply yields_ret |].
  assert (∀ c, is_u32 c → is_u32 (Z.lor (ca_caps v) c)) as Hor by (intros; by apply is_u32_lor).
  assert (is_u32 (Z.lor (Z.lor (ca_caps v) VMCL_SPIRV_1_0_CAP) (Z.lor VMCL_SPIRV_1_1_CAP VMCL_SPIRV_1_2_CAP)))
    as Hall by (apply is_u32_lor; [apply Hor |]; done).
  do 2 yields_step. destruct a0 as [e version]. destruct (negb (e =? CL_SUCCESS)); [by apply IH |].
  destruct (parse_version version) as [major minor]. cbv zeta.
  destruct (_ && _); [by apply IH |].
  destruct (_ && _); [apply IH; simpl; by apply Hor |].
  yields_step. destruct a0 as [e' name]. destruct (negb (e' =? CL_SUCCESS)); [by apply IH |].
  eapply yields_bind_with; [apply ca_devices_caps | intros v' Hv'; simpl in Hv'].
  destruct (negb (ca_context v' =? 0)); [apply yields_ret; simpl; by rewrite Hv' |].
  apply IH. by rewrite Hv'.
Qed.

Lemma contextalloc_answer a :
  yields (λ x, code (VMCLContextAllocateStatus_status x) ∧ is_u32 (VMCLContextAllocateStatus_caps x))
    (vmwopencl_contextalloc_1 a).
Proof.
  unfold vmwopencl_contextalloc_1. yields_step. destruct a0; [apply yields_ret; split; [solve_code | done] |].
  yields_step. destruct a0 as [e [platforms num]]. destruct (_ || _);
    [apply yields_ret; split; [solve_code | done] |].
  eapply yields_bind_with; [by apply ca_platforms_caps | intros [v found] Hv]. simpl in Hv.
  repeat yields_step; simpl; split; solve_code || done.
Qed.
End Allocations.

Section Transfers.
Context `{OpenCL} `{XdrLaws}.
Implicit Types s : backend.

Lemma surfacemap_answer tid a :
  yields (λ x, code (mr_status x) ∧
    (mr_ptr_len x = 0 ∨ mr_ptr_len x = VMAccelCoordinate2DUINT_x (VMAccelSurfaceMapOp_size (VMCLSurfaceMapOp_op a))))
    (vmwopencl_surfacemap_1 tid a).
Proof.
  unfold vmwopencl_surfacemap_1. do 3 yields_step. yields_step.
  - yields_step. apply yields_ret. split; [solve_code | by left].
  - yields_step. eapply yields_bind_with; [| intros r Hr; yields_step; apply yields_ret; exact Hr].
    repeat yields_step; (split; [solve_code |]); auto.
Qed.

#[global] Instance ignores_download : IgnoresSurf download_result.
Proof. intros sid F s _. unfold upd_surf. by destruct (surfaces s). Qed.

Definition on_download (r : request) : bool := match r with ImageDownload _ => true | _ => false end.

Lemma exec_keeps_download tid r : on_download r = false → keeps download_result (exec tid r).
Proof. destruct r; try done; intros _; simpl; unfold_handlers; keeps_auto. Qed.

Lemma enqueue_read_length queue mem blocking off size dst e data s s' :
  enqueue_read queue mem blocking off size dst s = Done (e, data) s' → 0 ≤ size →
  Z.of_nat (length data) ≤ size.
Proof.
  unfold enqueue_read. intros ([e' buf] & s1 & _ & Hr)%bind_done Hs. destruct (_ && _); [done |].
  injection Hr as _ <- _. rewrite length_take. lia.
Qed.

Lemma wf_download_size a :
  wf xdr_VMCLImageDownloadOp a →
  is_u32 (VMAccelCoordinate3DUINT_x (VMAccelSurfaceRegion_size
            (VMAccelImageTransferOp_imgRegion (VMCLImageDownloadOp_op a)))).
Proof. intros (_ & _ & Hop & _). apply Hop. Qed.

(** A download answers with its retained result, which it replaces. *)
Lemma imagedownload_answer tid a s r s' :
  vmwopencl_imagedownload_1 tid a s = Done r s' →
  wf xdr_VMCLImageDownloadOp a → wf xdr_VMAccelDownloadStatus (download_result s) →
  wf xdr_VMAccelDownloadStatus r ∧ download_result s' = r.
Proof.
  intros Hrun Ha Hold. unfold vmwopencl_imagedownload_1 in Hrun. minv Hrun.
  apply tab_read_inv in Hrun0 as [_ ->]. minv Hrun. apply (keeps_lock_surface download_result) in Hrun0.
  minv Hrun. apply inst_read_inv in Hrun1 as [_ ->]. destruct (negb _).
  - minv Hrun. injection Hrun1 as <- <-. minv Hrun. minv Hrun. injection Hrun2 as _ <-.
    injection Hrun as <- <-. split; [| done]. rewrite Hrun0. destruct Hold as (_ & Hf & Hp).
    split; [apply code_u32; solve_code | done].
  - minv Hrun. minv Hrun. minv Hrun. minv Hrun. minv Hrun. injection Hrun5 as _ <-.
    injection Hrun as <- <-. split; [| done].
    destruct (_ && _); [| by apply bind_done in Hrun3 as (? & ? & ? & ?)].
    apply bind_done in Hrun3 as ([e data] & s5 & Hread & Hr).
    apply enqueue_read_length in Hread; [| by apply wf_download_size in Ha; destruct Ha].
    apply wf_download_size in Ha. injection Hr as <- _.
    destruct (negb _); (split; [apply code_u32; solve_code |]); (split; [done |]);
      unfold wf; simpl; u32_unfold; lia.
Qed.
End Transfers.
