(* ===== verification/Service.v ===== *)
(** * The service and its clients: what a call does

    The service routines run the backend's handlers, the dispatcher runs the
    service routines on decoded arguments only, and a stub gives the same
    answer whether it calls the service in its own process or through the
    wire. *)

From S2P Require Import Prelude IdentifierDB XdrRuntime RpcTypes XdrVMAccel XdrVMCL Backend.
From S2P Require Import BackendOps BackendPower BackendLemmas BackendFrame BackendInvariants.
From S2P Require Import Server SunRPC Protocol Answers.

Section Inversion.
Context `{OpenCL}.
Implicit Types s : server.

Lemma sv_bind_done {A C} (m : SV A) (k : A → SV C) s c s' :
  (m ≫= k) s = Done c s' → ∃ a s1, m s = Done a s1 ∧ k a s1 = Done c s'.
Proof. unfold mbind, M_bind. destruct (m s); [eauto | done]. Qed.

Lemma cl_op_inv {A} (m : B A) s a s' :
  cl_op m s = Done a s' → ∃ b, m (sv_backend s) = Done a b ∧ s' = set_sv_backend b s.
Proof. unfold cl_op, zoom. destruct (m (sv_backend s)); [| done]. intros [= <- <-]. eauto. Qed.

Lemma cl_op_done {A} (m : B A) s a b :
  m (sv_backend s) = Done a b → cl_op m s = Done a (set_sv_backend b s).
Proof. unfold cl_op, zoom. by intros ->. Qed.
End Inversion.

(** The backend request a procedure makes. *)
Definition request_of (p : vmcl_proc) : vmcl_arg p → request :=
  match p with
  | VMCL_CONTEXTALLOC => ContextAlloc
  | VMCL_CONTEXTDESTROY => ContextDestroy
  | VMCL_SURFACEALLOC => SurfaceAlloc
  | VMCL_SURFACEDESTROY => SurfaceDestroy
  | VMCL_QUEUEALLOC => QueueAlloc
  | VMCL_QUEUEDESTROY => QueueDestroy
  | VMCL_QUEUEFLUSH => QueueFlush
  | VMCL_IMAGEUPLOAD => ImageUpload
  | VMCL_IMAGEDOWNLOAD => ImageDownload
  | VMCL_SURFACEMAP => SurfaceMap
  | VMCL_SURFACEUNMAP => SurfaceUnmap
  | VMCL_SURFACECOPY => SurfaceCopy
  | VMCL_IMAGEFILL => ImageFill
  | VMCL_SAMPLERALLOC => SamplerAlloc
  | VMCL_SAMPLERDESTROY => SamplerDestroy
  | VMCL_KERNELALLOC => KernelAlloc
  | VMCL_KERNELDESTROY => KernelDestroy
  | VMCL_DISPATCH => Dispatch
  end.

(** The argument the backend sees: local calls mark the caller's pointers. *)
Definition effective (p : vmcl_proc) (rqstp : option Z) : vmcl_arg p → vmcl_arg p :=
  match p, rqstp with
  | VMCL_SURFACEMAP, None => λ a,
      mkVMCLSurfaceMapOp (VMCLSurfaceMapOp_queue a) (or_mapFlags (VMCLSurfaceMapOp_op a))
  | VMCL_SURFACEUNMAP, None => λ a,
      mkVMCLSurfaceUnmapOp (VMCLSurfaceUnmapOp_queue a) (or_unmapFlags (VMCLSurfaceUnmapOp_op a))
  | _, _ => λ a, a
  end.

(** The flag only local calls may carry. *)
Definition keeps_pointer (p : vmcl_proc) : vmcl_arg p → bool :=
  match p with
  | VMCL_SURFACEMAP => λ a,
      has_flag (VMAccelSurfaceMapOp_mapFlags (VMCLSurfaceMapOp_op a)) VMACCEL_MAP_NO_FREE_PTR_FLAG
  | VMCL_SURFACEUNMAP => λ a,
      has_flag (VMAccelSurfaceUnmapOp_mapFlags (VMCLSurfaceUnmapOp_op a)) VMACCEL_MAP_NO_FREE_PTR_FLAG
  | _ => λ _, false
  end.

(** Takes a returning run of a service routine apart. *)
Ltac svinv H :=
  let a := fresh "x" in let s1 := fresh "s" in let H1 := fresh "Hrun" in
  apply sv_bind_done in H as (a & s1 & H1 & H).

Section Exec.
Context `{OpenCL}.
Implicit Types s : server.

Lemma cl_op_exec {A} (m : B A) tid q s a s' :
  cl_op m s = Done a s' → exec tid q = (_ ← m; mret tt) →
  exec tid q (sv_backend s) = Done tt (sv_backend s') ∧ clRefCount s' = clRefCount s.
Proof.
  intros (b & Hm & ->)%cl_op_inv ->. split; [| done]. unfold mbind, M_bind. by rewrite Hm.
Qed.

(** A service routine runs exactly one request of the backend, or refuses
    without effect. *)
Lemma local_exec tid p a rqstp s r a' s' :
  local tid p a rqstp s = Done (r, a') s' →
  s' = s ∨
  (exec tid (request_of p (effective p rqstp a)) (sv_backend s) = Done tt (sv_backend s') ∧
   clRefCount s' = clRefCount s).
Proof.
  destruct p; intros Hrun; cbn [local] in Hrun.
  10: { unfold vmcl_surfacemap_2_svc in Hrun. destruct rqstp as [n |]; [destruct (has_flag _ _) |].
        - injection Hrun as _ _ <-. by left.
        - right. svinv Hrun. injection Hrun as _ _ <-. by eapply cl_op_exec.
        - right. svinv Hrun. injection Hrun as _ _ <-. by eapply cl_op_exec. }
  10: { unfold vmcl_surfaceunmap_2_svc in Hrun. destruct rqstp as [n |]; [destruct (has_flag _ _) |].
        - injection Hrun as _ _ <-. by left.
        - right. svinv Hrun. destruct x. injection Hrun as _ _ <-. by eapply cl_op_exec.
        - right. svinv Hrun. destruct x. injection Hrun as _ _ <-. by eapply cl_op_exec. }
  9: { right. svinv Hrun. injection Hrun as _ _ <-. apply sv_bind_done in Hrun0 as (y & s1 & Hop & Hrest).
       destruct (cl_op_exec (vmwopencl_imagedownload_1 tid a) tid (ImageDownload a) s y s1 Hop eq_refl).
       apply sv_bind_done in Hrest as (u & s2 & Hset & Hret). injection Hret as _ <-.
       destruct (_ =? _); injection Hset as _ <-; done. }
  all: right; svinv Hrun; injection Hrun as _ _ <-;
    apply sv_bind_done in Hrun0 as (y & s1 & Hop & Hret); injection Hret as _ <-; by eapply cl_op_exec.
Qed.
End Exec.

(** ** Answers *)

Section Wire.
Context `{OpenCL} `{XdrLaws}.
Implicit Types s : server.

(** Reading mapped memory gives no more bytes than were asked for. *)
Hypothesis host_read_length : ∀ ptr len c, 0 ≤ len → Z.of_nat (length (host_read ptr len c)) ≤ len.

(** The retained download result can be sent. *)
Definition sendable s : Prop := wf xdr_VMAccelDownloadStatus (download_result (sv_backend s)).

Lemma status_wf {m : B VMAccelStatus} s s' x :
  yields code_status m → cl_op m s = Done x s' →
  wf xdr_VMAccelReturnStatus (mkVMAccelReturnStatus 0 (Some x)).
Proof.
  intros Hm (b & Hx & _)%cl_op_inv. split; [done |]. change (wf xdr_VMAccelStatus x).
  by eapply code_status_wf, Hm.
Qed.

Lemma map_wf tid a s r s' w s'' :
  is_u32 (VMAccelCoordinate2DUINT_x (VMAccelSurfaceMapOp_size (VMCLSurfaceMapOp_op a))) →
  cl_op (vmwopencl_surfacemap_1 tid a) s = Done r s' →
  marshal_map (mkMapReturnStatus 0 (Some r)) s' = Done w s'' →
  wf xdr_VMAccelSurfaceMapReturnStatus w ∧ s'' = s'.
Proof.
  intros Hsize (b & Hr & _)%cl_op_inv. apply surfacemap_answer in Hr as [Hst Hlen].
  unfold marshal_map. simpl. destruct (mr_ptr_len r =? 0).
  - intros [= <- <-]. split; [| done]. split; [done |]. split; [by apply code_u32 |].
    unfold wf. simpl. u32_unfold. lia.
  - destruct (mr_ptr_val r =? 0); [done |]. unfold mbind, M_bind, cl_op, zoom, cl_query, gets. simpl.
    intros [= <- <-]. split; [| by destruct s']. split; [done |]. split; [by apply code_u32 |].
    unfold wf. simpl. pose proof (host_read_length (mr_ptr_val r) (mr_ptr_len r) (cl (sv_backend s'))).
    u32_unfold. lia.
Qed.

Lemma marshal_download_inv r s w s' : marshal_download r s = Done w s' → w = r ∧ s' = s.
Proof.
  unfold marshal_download.
  destruct (VMAccelDownloadReturnStatus_ret r) as [[st fence [| x l]] |]; [by intros [= <- <-] | | by intros [= <- <-]].
  unfold mbind, M_bind, gets. destruct (sv_download_freed s); [done | by intros [= <- <-]].
Qed.

(** A routine that wraps the answer of one handler. *)
Lemma wrapped_inv {A R T} (m : B A) (wrap : A → R) (a : T) s r a' s' :
  (x ← (x ← cl_op m; mret (wrap x)); mret (x, a) : SV (R * T)) s = Done (r, a') s' →
  ∃ x, cl_op m s = Done x s' ∧ r = wrap x.
Proof.
  intros (y & s1 & (x & s2 & Hop & Hret)%sv_bind_done & Hy)%sv_bind_done.
  injection Hret as <- <-. injection Hy as <- _ <-. eauto.
Qed.

Lemma status_case {T} (m : B VMAccelStatus) (a : T) s r a' s' (w : VMAccelReturnStatus) s'' :
  yields code_status m →
  (x ← (x ← cl_op m; mret (mkVMAccelReturnStatus 0 (Some x))); mret (x, a) : SV (_ * T)) s = Done (r, a') s' →
  (mret r : SV VMAccelReturnStatus) s' = Done w s'' → wf xdr_VMAccelReturnStatus w ∧ s'' = s'.
Proof.
  intros Hm (x & Hop & ->)%wrapped_inv [= <- <-]. split; [by eapply status_wf | done].
Qed.

Lemma zero_desc_wf : wf xdr_VMAccelSurfaceDesc zero_VMAccelSurfaceDesc.
Proof. repeat split; first [by repeat constructor | simpl; lia]. Qed.

Lemma local_answer tid p a rqstp s r a' s' w s'' :
  wf (xdr_argument p) a → sendable s →
  local tid p a rqstp s = Done (r, a') s' → marshal p r s' = Done w s'' →
  wf (xdr_result p) w ∧ s'' = s'.
Proof.
  intros Ha Hs. destruct p; cbn [local marshal].
  - intros (x & (b & Hx & _)%cl_op_inv & ->)%wrapped_inv [= <- <-].
    apply contextalloc_answer in Hx as [Hst Hcaps]. split; [| done]. split; [done |].
    split; [by apply code_u32 | done].
  - apply status_case, contextdestroy_code.
  - intros (x & (b & Hx & _)%cl_op_inv & ->)%wrapped_inv [= <- <-].
    apply surfacealloc_answer in Hx as (st & -> & Hst). split; [| done]. split; [done |].
    split; [by apply code_u32 |]. apply zero_desc_wf.
  - apply status_case, surfacedestroy_code.
  - intros (x & (b & Hx & _)%cl_op_inv & ->)%wrapped_inv [= <- <-].
    apply queuealloc_answer in Hx. split; [| done]. split; [done |]. by apply code_u32.
  - apply status_case, queuedestroy_code.
  - apply status_case, queueflush_code.
  - apply status_case, imageupload_code.
  - intros Hrun Hm. apply marshal_download_inv in Hm as [-> ->]. split; [| done].
    apply sv_bind_done in Hrun as (y & s1 & Hrun & Hret). injection Hret as <- _ _.
    apply sv_bind_done in Hrun as (x & s2 & (b & Hx & _)%cl_op_inv & Hrun).
    apply sv_bind_done in Hrun as (u & s3 & _ & Hret). injection Hret as <- _.
    eapply imagedownload_answer in Hx as [Hx _]; [| exact Ha | exact Hs]. split; [done | exact Hx].
  - intros Hrun Hm. assert (is_u32 (VMAccelCoordinate2DUINT_x (VMAccelSurfaceMapOp_size (VMCLSurfaceMapOp_op a))))
      as Hsize by apply Ha.
    unfold vmcl_surfacemap_2_svc in Hrun. destruct rqstp as [n |]; [destruct (has_flag _ _) |].
    + injection Hrun as <- _ <-. injection Hm as <- <-. split; [| done]. split; [done |].
      split; [apply code_u32; solve_code | unfold wf; simpl; u32_unfold; lia].
    + apply sv_bind_done in Hrun as (x & s1 & Hop & Hret). injection Hret as <- _ <-.
      by eapply map_wf.
    + apply sv_bind_done in Hrun as (x & s1 & Hop & Hret). injection Hret as <- _ <-.
      by eapply map_wf in Hop.
  - intros Hrun [= <- <-]. split; [| done].
    unfold vmcl_surfaceunmap_2_svc in Hrun. destruct rqstp as [n |]; [destruct (has_flag _ _) |].
    + injection Hrun as <- _ _. split; [done |]. apply code_status_wf, code_mkStatus. solve_code.
    + apply sv_bind_done in Hrun as ([x y] & s1 & (b & Hx & _)%cl_op_inv & Hret). injection Hret as <- _ _.
      split; [done |]. by apply surfaceunmap_code, code_status_wf in Hx.
    + apply sv_bind_done in Hrun as ([x y] & s1 & (b & Hx & _)%cl_op_inv & Hret). injection Hret as <- _ _.
      split; [done |]. by apply surfaceunmap_code, code_status_wf in Hx.
  - apply status_case, surfacecopy_code.
  - apply status_case, imagefill_code.
  - intros (x & (b & Hx & _)%cl_op_inv & _)%wrapped_inv. done.
  - apply status_case, samplerdestroy_code.
  - intros (x & (b & Hx & _)%cl_op_inv & ->)%wrapped_inv [= <- <-].
    apply kernelalloc_answer in Hx. split; [| done]. split; [done |]. by apply code_u32.
  - apply status_case, kerneldestroy_code.
  - apply status_case, dispatch_code.
Qed.

(** The retained result stays sendable. *)
Lemma local_sendable tid p a rqstp s r a' s' :
  wf (xdr_argument p) a → sendable s →
  local tid p a rqstp s = Done (r, a') s' → sendable s'.
Proof.
  intros Ha Hs Hrun. destruct (decide (p = VMCL_IMAGEDOWNLOAD)) as [-> | Hp].
  - apply sv_bind_done in Hrun as (y & s1 & Hrun & Hret). injection Hret as _ _ <-.
    apply sv_bind_done in Hrun as (x & s2 & (b & Hx & ->)%cl_op_inv & Hrun).
    apply sv_bind_done in Hrun as (u & s3 & Hset & Hret). injection Hret as _ <-.
    eapply imagedownload_answer in Hx as [Hx Hb]; [| exact Ha | exact Hs].
    unfold sendable. destruct (_ =? _); injection Hset as _ <-; simpl; by rewrite Hb.
  - destruct (local_exec _ _ _ _ _ _ _ _ Hrun) as [-> | [He _]]; [done |].
    assert (on_download (request_of p (effective p rqstp a)) = false) as Hd.
    { destruct p; try done. }
    unfold sendable. rewrite (exec_keeps_download tid _ Hd _ _ _ He). exact Hs.
Qed.
End Wire.

(** ** The dispatcher *)

Section Dispatcher.
Context `{OpenCL} `{XdrLaws} `{SunRPCLaws}.
Implicit Types s : server.

Lemma marshal_state p r s w s' : marshal p r s = Done w s' → s' = s.
Proof.
  destruct p; cbn [marshal]; try (by intros [= _ <-]).
  - by intros [_ ->]%marshal_download_inv.
  - unfold marshal_map. destruct (MapReturnStatus_ret r) as [x |]; [| by intros [= _ <-]].
    destruct (mr_ptr_len x =? 0); [by intros [= _ <-] |]. destruct (mr_ptr_val x =? 0); [done |].
    unfold mbind, M_bind, cl_op, zoom, cl_query, gets. simpl. intros [= _ <-]. by destruct s.
Qed.

Lemma release_buffers_run p a r s :
  ∃ f, release_buffers p a r s = Done tt (set_sv_download_freed f s).
Proof.
  assert (Done tt s = Done tt (set_sv_download_freed (sv_download_freed s) s)) as Hsame by (by destruct s).
  destruct p; try (exists (sv_download_freed s); exact Hsame). simpl.
  destruct (VMAccelImageTransferOp_ptr _); [by exists (sv_download_freed s) |].
  destruct (VMAccelDownloadReturnStatus_ret _); [| by exists (sv_download_freed s)].
  destruct (_ =? _); [by exists true | by exists (sv_download_freed s)].
Qed.

Lemma proc_number_pos p : (proc_number p =? NULLPROC) = false.
Proof. by destruct p. Qed.

(** The state a dispatched call ends in. *)
Definition served s s1 : Prop := sv_backend s1 = sv_backend s ∧ clRefCount s1 = clRefCount s.

Lemma vmcl_1_answers tid p transp a s r a' s1 w :
  wf (xdr_argument p) a → rq_bytes transp = enc (xdr_argument p) a →
  local tid p a (Some (proc_number p)) s = Done (r, a') s1 → marshal p r s1 = Done w s1 →
  wf (xdr_result p) w → (length (enc (xdr_result p) w) ≤ reply_room transp)%nat →
  ∃ s2, vmcl_1 tid (proc_number p) transp s = Done (Accepted (enc (xdr_result p) w)) s2 ∧ served s1 s2.
Proof.
  intros Ha Hrq Hl Hm Hw Hroom. unfold vmcl_1. rewrite proc_number_pos, proc_of_number.
  rewrite (svc_getargs_encoded transp (xdr_argument p) a) by done.
  destruct (release_buffers_run p a' r s1) as [f Hf]. exists (set_sv_download_freed f s1).
  split; [| done]. unfold mbind, M_bind. rewrite Hl, Hm, Hf.
  rewrite (svc_freeargs_ok transp (xdr_argument p)).
  by rewrite (svc_sendreply_spec transp (xdr_result p) w Hw Hroom).
Qed.

(** A dispatched message changes the backend only by running a service
    routine on arguments the wire format admits. *)
Lemma vmcl_1_inv tid n transp s rep s' :
  vmcl_1 tid n transp s = Done rep s' →
  s' = s ∨ ∃ p a r a' s1, n = proc_number p ∧ wf (xdr_argument p) a ∧
    local tid p a (Some n) s = Done (r, a') s1 ∧ served s1 s'.
Proof.
  unfold vmcl_1. destruct (n =? NULLPROC); [intros [= _ <-]; by left |].
  destruct (proc_of n) as [p |] eqn:Hp; [| intros [= _ <-]; by left].
  destruct (svc_getargs _ _ _) as [a |] eqn:Ha; [| intros [= _ <-]; by left].
  intros ([r a'] & s1 & Hl & Hrun)%sv_bind_done. right. exists p, a, r, a', s1.
  split; [by apply proc_of_Some |]. split; [exact (svc_getargs_wf transp (xdr_argument p) a _ Ha) |]. split; [done |].
  apply sv_bind_done in Hrun as (w & s2 & ->%marshal_state & Hrun).
  apply sv_bind_done in Hrun as (u & s3 & Hrel & Hrun).
  destruct (release_buffers_run p a' r s1) as [f Hf]. rewrite Hf in Hrel. injection Hrel as _ <-.
  destruct (svc_freeargs _ _ _); [| done]. by injection Hrun as _ <-.
Qed.

Lemma request_id_wf p a rqstp : wf (xdr_argument p) a → 0 ≤ request_id (request_of p (effective p rqstp a)).
Proof.
  intros Ha. destruct p; try done; try (by destruct rqstp).
  - by apply Ha.
  - by apply Ha.
  - destruct Ha as [[_ Ha] _]. by apply Ha.
  - destruct Ha as [_ Ha]. by apply Ha.
  - destruct Ha as [[_ Ha] _]. by apply Ha.
  - destruct Ha as [_ Ha]. by apply Ha.
  - destruct Ha as [[_ Ha] _]. by apply Ha.
  - destruct Ha as [_ Ha]. by apply Ha.
Qed.

(** A server that powered on and has handled messages with any contents,
    on any of its transports. *)
Inductive serving : server → Prop :=
| serve_poweron s0 r s :
    vmcl_poweron_svc (λ _ _, true) s0 = Done (Some r) s →
    VMAccelAllocateStatus_status r = VMACCEL_SUCCESS → serving s
| serve_message tid n transp s rep s' :
    serving s → vmcl_1 tid n transp s = Done rep s' → serving s'.

Lemma poweron_loop_reachable n : ∀ i ret s r s',
  (∀ x, ret = Some x → VMAccelAllocateStatus_status x ≠ VMACCEL_SUCCESS) →
  poweron_loop (λ _ _, true) n i ret s = Done (Some r) s' →
  VMAccelAllocateStatus_status r = VMACCEL_SUCCESS → reachable (sv_backend s').
Proof.
  induction n as [| n IH]; intros i ret s r s' Hret Hrun Hst; cbn [poweron_loop] in Hrun.
  - injection Hrun as -> <-. by destruct (Hret r).
  - apply sv_bind_done in Hrun as (x & s1 & (b & Hx & ->)%cl_op_inv & Hrun).
    destruct (VMAccelAllocateStatus_status x =? VMACCEL_SUCCESS) eqn:E.
    + apply sv_bind_done in Hrun as (u & s2 & Hmod & Hrun). injection Hmod as _ <-.
      injection Hrun as <- <-. simpl. by eapply reach_poweron.
    + eapply IH; [| exact Hrun | done]. intros y [= <-]. by apply Z.eqb_neq.
Qed.

Lemma serving_reachable s : serving s → reachable (sv_backend s).
Proof.
  induction 1 as [s0 r s Hrun Hst | tid n transp s rep s' _ IH Hrun].
  - unfold vmcl_poweron_svc in Hrun. apply sv_bind_done in Hrun as (u & s1 & Ha & Hrun).
    eapply poweron_loop_reachable; [| exact Hrun | done]. done.
  - apply vmcl_1_inv in Hrun as [-> | (p & a & r & a' & s1 & -> & Ha & Hl & [Hb _])]; [done |].
    rewrite Hb. apply local_exec in Hl as [-> | [He _]]; [done |].
    eapply reach_request; [exact IH | by eapply request_id_wf | exact He].
Qed.
End Dispatcher.
