(* ===== verification/Calls.v ===== *)
(** * Calls: local, remote and failed

    The theorems about the stubs of vmcl_clnt.c and the dispatcher of
    vmcl_rpc_svc.c. *)

From S2P Require Import Prelude IdentifierDB XdrRuntime XdrRFC4506 RpcTypes XdrVMAccel XdrVMCL.
From S2P Require Import Backend BackendOps BackendPower BackendLemmas BackendFrame SimCL.
From S2P Require Import BackendInvariants Server SunRPC Protocol Answers Service.

(** ** The pointer flag does not change what the backend does *)

Lemma has_flag_lor f b x : Z.land b x = 0 → has_flag (Z.lor f b) x = has_flag f x.
Proof. intros Hb. unfold has_flag. by rewrite Z.land_lor_distr_l, Hb, Z.lor_0_r. Qed.

Section Flags.
Context `{OpenCL}.
Implicit Types s : backend.

Lemma surfacemap_flag tid q op :
  vmwopencl_surfacemap_1 tid (mkVMCLSurfaceMapOp q (or_mapFlags op)) =
  vmwopencl_surfacemap_1 tid (mkVMCLSurfaceMapOp q op).
Proof.
  assert (∀ f, map_flags (Z.lor f VMACCEL_MAP_NO_FREE_PTR_FLAG) = map_flags f) as Hm.
  { intros f. unfold map_flags. by rewrite !has_flag_lor. }
  unfold vmwopencl_surfacemap_1. cbn -[map_flags]. rewrite Hm, has_flag_lor by done. done.
Qed.

Lemma surfaceunmap_flag tid q op s r x s' :
  vmwopencl_surfaceunmap_1 tid (mkVMCLSurfaceUnmapOp q (or_unmapFlags op)) s = Done (r, x) s' →
  ∃ y, vmwopencl_surfaceunmap_1 tid (mkVMCLSurfaceUnmapOp q op) s = Done (r, y) s'.
Proof.
  unfold vmwopencl_surfaceunmap_1. cbn [or_unmapFlags VMCLSurfaceUnmapOp_queue VMCLSurfaceUnmapOp_op
    VMAccelSurfaceUnmapOp_surf VMAccelSurfaceUnmapOp_mapFlags VMAccelSurfaceUnmapOp_ptr].
  intros Hrun. do 8 minv Hrun. injection Hrun as <- _ <-. eexists.
  unfold mbind at 1, M_bind at 1. rewrite Hrun0.
  do 7 (unfold mbind at 1, M_bind at 1; match goal with Hr : _ = Done _ _ |- _ => rewrite Hr; clear Hr end).
  reflexivity.
Qed.
End Flags.

Section Same.
Context `{OpenCL}.
Implicit Types s : server.

(** Without the flag, a remote request makes the server do what a local call
    does in its own process. *)
Lemma local_same tid p a n s r a' s' :
  keeps_pointer p a = false → local tid p a None s = Done (r, a') s' →
  ∃ a'', local tid p a (Some n) s = Done (r, a'') s'.
Proof.
  intros Hf Hrun. destruct p; try (by exists a'); cbn [local keeps_pointer] in *.
  - unfold vmcl_surfacemap_2_svc in *. rewrite Hf. destruct a as [q op].
    cbn [VMCLSurfaceMapOp_queue VMCLSurfaceMapOp_op] in Hrun. rewrite surfacemap_flag in Hrun.
    apply sv_bind_done in Hrun as (x & s1 & Hop & Hret). injection Hret as <- _ <-.
    eexists. unfold mbind, M_bind. by rewrite Hop.
  - unfold vmcl_surfaceunmap_2_svc in *. rewrite Hf. destruct a as [q op].
    cbn [VMCLSurfaceUnmapOp_queue VMCLSurfaceUnmapOp_op] in Hrun.
    apply sv_bind_done in Hrun as ([x y] & s1 & (b & Hop & ->)%cl_op_inv & Hret). injection Hret as <- _ <-.
    apply surfaceunmap_flag in Hop as [y' Hop]. eexists. unfold mbind, M_bind.
    by rewrite (cl_op_done _ _ _ _ Hop).
Qed.
End Same.

Section Stubs.
Context `{OpenCL} `{XdrLaws} `{SunRPCLaws}.
Implicit Types w : world.

Definition set_local (s : server) w := mkWorld (w_compute w) (w_data w) (w_state w) s (w_remote w).
Definition set_remote (s : server) w := mkWorld (w_compute w) (w_data w) (w_state w) (w_local w) s.

Definition mutexes w : mutex * mutex * mutex := (w_compute w, w_data w, w_state w).

(** The service mutexes are normal ones. *)
Definition normal_mutexes w : Prop := ∀ k, ∃ h, get_svc_mutex k w = Normal h.

Lemma w_bind_done {A C} (m : W A) (k : A → W C) w c w' :
  (m ≫= k) w = Done c w' → ∃ a w1, m w = Done a w1 ∧ k a w1 = Done c w'.
Proof. unfold mbind, M_bind. destruct (m w); [eauto | done]. Qed.

(** A stub that finds its mutex free: the mutex is free again at the end. *)
Lemma call_local_run b stid tid p a w :
  ENABLE_VMACCEL_LOCAL b = true → get_svc_mutex (proc_mutex p) w = Normal None →
  vmcl_call b stid tid p a None w =
    match local tid p a None (w_local w) with
    | Done (r, a') s => Done (Some (LocalAnswer r), a') (set_local s w)
    | Fault f => Fault f
    end.
Proof.
  intros Hb Hk. unfold vmcl_call, svc_lock, svc_unlock, at_local, zoom, mbind, M_bind, gets.
  rewrite Hb. destruct w, (proc_mutex p); simpl in Hk; subst; cbn -[local];
    destruct (local tid p a None _) as [[r a'] s |]; done.
Qed.

Lemma call_remote_run b stid tid p a c w :
  ENABLE_VMACCEL_RPC b = true → get_svc_mutex (proc_mutex p) w = Normal None →
  vmcl_call b stid tid p a (Some c) w =
    match clnt_call c (vmcl_1 stid) (proc_number p) (xdr_argument p) a (xdr_result p) (zero_res p)
            (w_remote w) with
    | Done ret s => Done (RemoteAnswer <$> ret, a) (set_remote s w)
    | Fault f => Fault f
    end.
Proof.
  intros Hb Hk. unfold vmcl_call, svc_lock, svc_unlock, at_remote, zoom, mbind, M_bind, gets.
  rewrite Hb, andb_false_r.
  destruct w, (proc_mutex p); simpl in Hk; subst; cbn -[clnt_call xdr_argument xdr_result];
    destruct (clnt_call _ _ _ _ _ _ _ _) as [ret s |]; done.
Qed.

(** A stub that finds its mutex held waits, unless the build lacks the path. *)
Lemma call_held b stid tid p a clnt h w :
  get_svc_mutex (proc_mutex p) w = Normal (Some h) →
  vmcl_call b stid tid p a clnt w = Fault WouldBlock ∨
  vmcl_call b stid tid p a clnt w = Done (None, a) w.
Proof.
  intros Hk. assert (svc_lock tid (proc_mutex p) w = Fault WouldBlock) as Hl
    by (unfold svc_lock, mbind, M_bind, gets; by rewrite Hk).
  unfold vmcl_call. destruct (_ && _); [left; unfold mbind, M_bind; by rewrite Hl |].
  destruct (ENABLE_VMACCEL_RPC b); [left; unfold mbind, M_bind; by rewrite Hl | by right].
Qed.

Hypothesis host_read_length : ∀ ptr len c, 0 ≤ len → Z.of_nat (length (host_read ptr len c)) ≤ len.

(** (C4) Location transparency.  For every procedure of the program: when a
    call in the client's own process returns, the same call through a
    connection to a server in the same state returns the wire image of the
    same result (the mapped bytes in place of the mapped pointer), and the
    server's backend ends in the same state, provided the arguments fit the
    wire format and do not ask to keep the caller's pointers, the messages fit
    the transport's buffers and the network delivers them. *)
Theorem location_transparency b tid p a c wl r a' wl' wr x :
  ENABLE_VMACCEL_LOCAL b = true → ENABLE_VMACCEL_RPC b = true →
  mutexes wl = mutexes wr → get_svc_mutex (proc_mutex p) wr = Normal None →
  w_local wl = w_remote wr → sendable (w_remote wr) →
  wf (xdr_argument p) a → keeps_pointer p a = false →
  vmcl_stub b tid tid p a None wl = Done (Some (LocalAnswer r), a') wl' →
  marshal p r (w_local wl') = Done x (w_local wl') →
  fate c = Delivered → (length (enc (xdr_argument p) a) ≤ send_room c)%nat →
  (length (enc (xdr_result p) x) ≤ reply_room (accept c (enc (xdr_argument p) a)))%nat →
  ∃ wr', vmcl_stub b tid tid p a (Some c) wr = Done (Some (RemoteAnswer x), a) wr' ∧
    sv_backend (w_remote wr') = sv_backend (w_local wl') ∧ mutexes wr' = mutexes wr.
Proof.
  rewrite ?vmcl_stub_call.
  intros Hbl Hbr Hmut Hfree Hsame Hsend Ha Hflag Hloc Hm Hfate Hroom Hroom'.
  assert (get_svc_mutex (proc_mutex p) wl = Normal None) as Hfree'.
  { injection Hmut. destruct (proc_mutex p); simpl in *; congruence. }
  rewrite call_local_run in Hloc by done. rewrite call_remote_run by done.
  destruct (local tid p a None (w_local wl)) as [[r0 a0] s1 |] eqn:Hl; [| done].
  injection Hloc as -> -> <-. rewrite Hsame in Hl. simpl in Hm.
  apply (local_same tid p a (proc_number p)) in Hl as [a'' Hl]; [| done].
  destruct (local_answer host_read_length tid p a _ _ _ _ _ _ _ Ha Hsend Hl Hm) as [Hx _].
  destruct (vmcl_1_answers tid p (accept c (enc (xdr_argument p) a)) a (w_remote wr) r a'' s1 x)
    as (s2 & Hs2 & Hback & _); try done; [by rewrite accept_bytes |].
  rewrite (clnt_call_answered c (vmcl_1 tid) (proc_number p) (xdr_argument p) a (xdr_result p) x _ _ s2)
    by done.
  eexists. split; [done |]. split; [exact Hback | done].
Qed.

(** A stub that returns leaves the three service mutexes as it found
    them, on the local path, on the remote path whatever becomes of the
    call, and where the build has no path at all. *)
Theorem stub_keeps_mutexes b stid tid p a clnt w x w' :
  normal_mutexes w → vmcl_stub b stid tid p a clnt w = Done x w' → mutexes w' = mutexes w.
Proof.
  rewrite ?vmcl_stub_call.
  intros Hn Hrun. destruct (Hn (proc_mutex p)) as [[h |] Hk].
  { destruct (call_held b stid tid p a clnt h w Hk) as [Hf | Hf]; rewrite Hf in Hrun; [done |].
    by injection Hrun as _ <-. }
  destruct clnt as [c |].
  - destruct (ENABLE_VMACCEL_RPC b) eqn:Hb.
    + rewrite call_remote_run in Hrun by done. destruct (clnt_call _ _ _ _ _ _ _ _); [| done].
      by injection Hrun as _ <-.
    + unfold vmcl_call in Hrun. rewrite Hb, andb_false_r in Hrun. by injection Hrun as _ <-.
  - destruct (ENABLE_VMACCEL_LOCAL b) eqn:Hb.
    + rewrite call_local_run in Hrun by done. destruct (local _ _ _ _ _) as [[r a'] s |]; [| done].
      by injection Hrun as _ <-.
    + unfold vmcl_call in Hrun. rewrite Hb in Hrun. simpl in Hrun.
      destruct (ENABLE_VMACCEL_RPC b); [| by injection Hrun as _ <-].
      apply w_bind_done in Hrun as (? & ? & _ & ?). done.
Qed.

(** A remote call that returns [NULL] because the network failed: if the
    request was lost nothing has happened, and if the reply was lost the
    server has handled the request all the same. *)
Theorem failed_call b stid tid p a c w :
  ENABLE_VMACCEL_RPC b = true → get_svc_mutex (proc_mutex p) w = Normal None →
  wf (xdr_argument p) a → (length (enc (xdr_argument p) a) ≤ send_room c)%nat → fate c ≠ Delivered →
  vmcl_stub b stid tid p a (Some c) w =
    match fate c with
    | NotDelivered => Done (None, a) w
    | _ =>
        match vmcl_1 stid (proc_number p) (accept c (enc (xdr_argument p) a)) (w_remote w) with
        | Done _ s => Done (None, a) (set_remote s w)
        | Fault f => Fault f
        end
    end.
Proof.
  rewrite ?vmcl_stub_call.
  intros Hb Hk Ha Hroom Hf. rewrite call_remote_run by done.
  rewrite (clnt_call_spec c (vmcl_1 stid) (proc_number p) (xdr_argument p) a) by done.
  destruct (fate c); [by destruct w | | done]. by destruct (vmcl_1 _ _ _ _).
Qed.
End Stubs.

(** ** Messages *)

Section Messages.
Context `{OpenCL} `{XdrLaws} `{SunRPCLaws}.
Implicit Types s : server.

(** (C5) Whatever messages reach a server that has powered on, with any
    procedure number and any argument bytes, the object tables of its backend
    agree with the identifier databases after each of them. *)
Theorem serving_consistent s : serving s → consistent (sv_backend s).
Proof. intros Hs. by apply reachable_consistent, serving_reachable. Qed.

(** A message with a procedure number outside the program is answered
    with "procedure unavailable", one whose arguments do not decode with
    "garbage arguments", and the null procedure with an empty result; in all
    three cases the server's state is unchanged. *)
Theorem refused_message tid n transp s :
  (n < 0 ∨ 18 < n → vmcl_1 tid n transp s = Done NoProc s) ∧
  (∀ p, n = proc_number p → svc_getargs transp (xdr_argument p) (zero_arg p) = None →
     vmcl_1 tid n transp s = Done GarbageArgs s) ∧
  vmcl_1 tid NULLPROC transp s = Done (Accepted []) s.
Proof.
  split_and!.
  - intros Hn. unfold vmcl_1, NULLPROC. destruct (Z.eqb_spec n 0); [lia |].
    destruct (proc_of n) as [p |] eqn:E; [| done]. apply proc_of_Some in E.
    destruct p; simpl in E; lia.
  - intros p -> Hg. unfold vmcl_1. by rewrite proc_number_pos, proc_of_number, Hg.
  - unfold vmcl_1. simpl. rewrite (svc_sendreply_void transp). done.
Qed.

(** A remote client cannot make the server keep a pointer: a
    [surfacemap] or [surfaceunmap] request that carries the local-only flag is
    answered with a failure and has no effect, whatever state the server is
    in. *)
Theorem remote_flag_refused tid p a n s :
  keeps_pointer p a = true →
  ∃ r, local tid p a (Some n) s = Done (r, a) s ∧
    match p return vmcl_res p → Prop with
    | VMCL_SURFACEMAP => λ r, r = mkMapReturnStatus 0 (Some (mkMapResult VMACCEL_FAIL 0 0))
    | VMCL_SURFACEUNMAP => λ r, r = mkVMAccelReturnStatus 0 (Some (mkStatus VMACCEL_FAIL))
    | _ => λ _, False
    end r.
Proof.
  destruct p; try done; cbn [keeps_pointer local]; intros Hf.
  - unfold vmcl_surfacemap_2_svc. rewrite Hf. by eexists.
  - unfold vmcl_surfaceunmap_2_svc. rewrite Hf. by eexists.
Qed.

Lemma download_local tid a n s r a' s' :
  local tid VMCL_IMAGEDOWNLOAD a n s = Done (r, a') s' →
  a' = a ∧ ∃ x, VMAccelDownloadReturnStatus_ret r = Some x ∧
    sv_download_freed s' =
      if VMAccelDownloadStatus_status x =? VMACCEL_SUCCESS then false else sv_download_freed s.
Proof.
  cbn [local]. intros (y & s1 & Hrun & Hret)%sv_bind_done. injection Hret as <- <- <-. split; [done |].
  apply sv_bind_done in Hrun as (x & s2 & (b & Hx & ->)%cl_op_inv & Hrun).
  apply sv_bind_done in Hrun as (u & s3 & Hset & Hret). injection Hret as <- <-.
  exists x. split; [done |]. destruct (_ =? _); by injection Hset as _ <-.
Qed.

(** (C40) A download into the buffer that came with the request leaves the
    retained result pointing into the request's freed arguments: the next
    download that is refused for its generation makes the server read freed
    memory when it encodes the answer. *)
Theorem download_buffer_dangles tid transp a s r x a' s1 rep s2 :
  wf (xdr_argument VMCL_IMAGEDOWNLOAD) a → rq_bytes transp = enc (xdr_argument VMCL_IMAGEDOWNLOAD) a →
  VMAccelImageTransferOp_ptr (VMCLImageDownloadOp_op a) ≠ [] →
  local tid VMCL_IMAGEDOWNLOAD a (Some 9) s = Done (r, a') s1 →
  VMAccelDownloadReturnStatus_ret r = Some x → VMAccelDownloadStatus_status x = VMACCEL_SUCCESS →
  vmcl_1 tid 9 transp s = Done rep s2 →
  ∀ transp' a2 r2 x2 a2' s3,
    wf (xdr_argument VMCL_IMAGEDOWNLOAD) a2 → rq_bytes transp' = enc (xdr_argument VMCL_IMAGEDOWNLOAD) a2 →
    local tid VMCL_IMAGEDOWNLOAD a2 (Some 9) s2 = Done (r2, a2') s3 →
    VMAccelDownloadReturnStatus_ret r2 = Some x2 → VMAccelDownloadStatus_status x2 ≠ VMACCEL_SUCCESS →
    VMAccelDownloadStatus_ptr x2 ≠ [] →
    vmcl_1 tid 9 transp' s2 = Fault BadAccess.
Proof.
  intros Ha Hrq Hptr Hl Hr Hst Hrun transp' a2 r2 x2 a2' s3 Ha2 Hrq2 Hl2 Hr2 Hst2 Hptr2.
  assert (sv_download_freed s2 = true) as Hfreed.
  { change 9 with (proc_number VMCL_IMAGEDOWNLOAD) in Hrun. unfold vmcl_1 in Hrun.
    rewrite proc_number_pos, proc_of_number in Hrun.
    rewrite (svc_getargs_encoded transp (xdr_argument VMCL_IMAGEDOWNLOAD) a) in Hrun by done.
    unfold mbind at 1, M_bind at 1 in Hrun. change (proc_number VMCL_IMAGEDOWNLOAD) with 9 in Hrun.
    rewrite Hl in Hrun.
    apply sv_bind_done in Hrun as (w & s1' & ->%marshal_state & Hrun).
    apply sv_bind_done in Hrun as (u & s4 & Hrel & Hrun).
    destruct (download_local _ _ _ _ _ _ _ Hl) as [-> _]. simpl in Hrel. rewrite Hr, Hst in Hrel.
    destruct (VMAccelImageTransferOp_ptr (VMCLImageDownloadOp_op a)); [done |]. injection Hrel as _ <-.
    destruct (svc_freeargs _ _ _); [| done]. by injection Hrun as _ <-. }
  change 9 with (proc_number VMCL_IMAGEDOWNLOAD). unfold vmcl_1. rewrite proc_number_pos, proc_of_number.
  rewrite (svc_getargs_encoded transp' (xdr_argument VMCL_IMAGEDOWNLOAD) a2) by done.
  unfold mbind at 1, M_bind at 1. change (proc_number VMCL_IMAGEDOWNLOAD) with 9. rewrite Hl2.
  destruct (download_local _ _ _ _ _ _ _ Hl2) as (_ & x2' & Hr2' & Hf). rewrite Hr2 in Hr2'.
  injection Hr2' as <-. destruct (Z.eqb_spec (VMAccelDownloadStatus_status x2) VMACCEL_SUCCESS); [done |].
  unfold mbind at 1, M_bind at 1. cbn [marshal]. unfold marshal_download. rewrite Hr2.
  destruct x2 as [st fence [| y l]]; [done |]. unfold mbind, M_bind, gets. by rewrite Hf, Hfreed.
Qed.
End Messages.

(** ** Concrete calls

    The simulated runtime behind the RFC 4506 stream and in-memory messages:
    surface 3 is mapped and downloaded by a local and by a remote client. *)

Definition sim_server0 : server := mkServer sim_backend0 0 false.
Definition sim_server : server := mkServer sim_ready 1 false.

Definition free_world (l r : server) : world := mkWorld (Normal None) (Normal None) (Normal None) l r.
Definition hybrid : build := mkBuild true true.
Definition good_client : @CLIENT simrpc := mkSimClient Delivered 4096.
Definition lossy_client : @CLIENT simrpc := mkSimClient ReplyLost 4096.

Definition demo_map : vmcl_arg VMCL_SURFACEMAP :=
  mkVMCLSurfaceMapOp (mkVMCLQueueId 0 0)
    (mkVMAccelSurfaceMapOp (mkVMAccelSurfaceId 0 0 3 0 0 0) (mkVMAccelCoordinate3DUINT 0 0 0)
       (mkVMAccelCoordinate2DUINT 16 1) VMACCEL_MAP_READ_FLAG).

Definition demo_download (gen : Z) : vmcl_arg VMCL_IMAGEDOWNLOAD :=
  mkVMCLImageDownloadOp (mkVMCLQueueId 0 0) (mkVMCLSurfaceId 0 (mkVMAccelSurfaceId 0 0 3 0 0 gen))
    (mkVMAccelImageTransferOp
       (mkVMAccelSurfaceRegion 0 (mkVMAccelCoordinate3DUINT 0 0 0) (mkVMAccelCoordinate3DUINT 16 1 1))
       (replicate 16 x07) []) VMACCEL_SURFACE_READ_SYNCHRONOUS.

Definition local_map : outcome world (option (answer VMCL_SURFACEMAP) * vmcl_arg VMCL_SURFACEMAP) :=
  vmcl_stub hybrid 1 1 VMCL_SURFACEMAP demo_map None (free_world sim_server sim_server0).
Definition local_map_result : vmcl_res VMCL_SURFACEMAP :=
  match local_map with Done (Some (LocalAnswer r), _) _ => r | _ => mkMapReturnStatus 1 None end.
Definition local_map_arg : vmcl_arg VMCL_SURFACEMAP := (run_result (None, demo_map) local_map).2.
Definition local_map_world : world := run_state (free_world sim_server sim_server) local_map.
Definition mapped_bytes : vmcl_wire VMCL_SURFACEMAP :=
  mkVMAccelSurfaceMapReturnStatus 0 (Some (mkVMAccelSurfaceMapStatus 0 (replicate 16 x00))).

(** Named runs are unfolded before the code they run. *)
#[local] Strategy expand [local_map local_map_world].

Lemma sim_host_read_length (ptr len : Z) (c : @cl_state simcl) :
  0 ≤ len → Z.of_nat (length (host_read ptr len c)) ≤ len.
Proof. intros Hl. simpl. unfold sim_slice. rewrite length_take. lia. Qed.

Lemma demo_map_wf : wf (xdr_argument VMCL_SURFACEMAP) demo_map.
Proof. repeat split; vm_compute; congruence. Qed.

Lemma local_map_run :
  vmcl_stub hybrid 1 1 VMCL_SURFACEMAP demo_map None (free_world sim_server sim_server0) =
    Done (Some (LocalAnswer local_map_result), local_map_arg) local_map_world.
Proof.
  change (local_map = Done (Some (LocalAnswer local_map_result), local_map_arg)
                        (run_state (free_world sim_server sim_server) local_map)).
  apply (run_done (None, demo_map)); by_compute.
Qed.

Lemma marshal_run p (r : vmcl_res p) (s : server) x d :
  returned (marshal p r s) = true → run_result d (marshal p r s) = x → marshal p r s = Done x s.
Proof.
  destruct (marshal p r s) as [y s1 |] eqn:E; [| done]. simpl. intros _ ->.
  by apply marshal_state in E as ->.
Qed.

Lemma local_map_bytes :
  marshal VMCL_SURFACEMAP local_map_result (w_local local_map_world) =
    Done mapped_bytes (w_local local_map_world).
Proof.
  apply (marshal_run _ _ _ _ mapped_bytes); by_compute.
Qed.

Lemma sim_server_sendable : sendable sim_server.
Proof. repeat split; vm_compute; congruence. Qed.

Lemma demo_map_room : (length (enc (xdr_argument VMCL_SURFACEMAP) demo_map) ≤ send_room good_client)%nat.
Proof. vm_compute. lia. Qed.

Lemma mapped_bytes_room :
  (length (enc (xdr_result VMCL_SURFACEMAP) mapped_bytes) ≤
   reply_room (accept good_client (enc (xdr_argument VMCL_SURFACEMAP) demo_map)))%nat.
Proof. vm_compute. lia. Qed.

Lemma location_transparency_witness :
  ∃ wr', vmcl_stub hybrid 1 1 VMCL_SURFACEMAP demo_map (Some good_client) (free_world sim_server0 sim_server)
           = Done (Some (RemoteAnswer mapped_bytes), demo_map) wr' ∧
    sv_backend (w_remote wr') = sv_backend (w_local local_map_world) ∧
    mutexes wr' = mutexes (free_world sim_server0 sim_server).
Proof.
  exact (location_transparency sim_host_read_length hybrid 1 VMCL_SURFACEMAP demo_map good_client
           (free_world sim_server sim_server0) local_map_result local_map_arg local_map_world
           (free_world sim_server0 sim_server) mapped_bytes
           eq_refl eq_refl eq_refl eq_refl eq_refl sim_server_sendable demo_map_wf eq_refl
           local_map_run local_map_bytes eq_refl demo_map_room mapped_bytes_room).
Defined.

Lemma free_world_normal l r : normal_mutexes (free_world l r).
Proof. intros []; by exists None. Qed.

Lemma stub_keeps_mutexes_witness : mutexes local_map_world = mutexes (free_world sim_server sim_server0).
Proof.
  exact (stub_keeps_mutexes hybrid 1 1 VMCL_SURFACEMAP demo_map None (free_world sim_server sim_server0) _ _
           (free_world_normal _ _) local_map_run).
Defined.

Lemma failed_call_witness :
  vmcl_stub hybrid 1 1 VMCL_SURFACEMAP demo_map (Some lossy_client) (free_world sim_server0 sim_server) =
    match fate lossy_client with
    | NotDelivered => Done (None, demo_map) (free_world sim_server0 sim_server)
    | _ =>
        match vmcl_1 1 (proc_number VMCL_SURFACEMAP)
                (accept lossy_client (enc (xdr_argument VMCL_SURFACEMAP) demo_map))
                (w_remote (free_world sim_server0 sim_server)) with
        | Done _ s => Done (None, demo_map) (set_remote s (free_world sim_server0 sim_server))
        | Fault f => Fault f
        end
    end.
Proof.
  apply failed_call; [reflexivity | reflexivity | exact demo_map_wf | exact demo_map_room | discriminate].
Defined.

(** A server that powered on and was asked for a context. *)
Definition on_run : outcome server (option VMAccelAllocateStatus) := vmcl_poweron_svc (λ _ _, true) sim_server0.
Definition on_server : server := run_state sim_server0 on_run.
Definition on_status : VMAccelAllocateStatus :=
  default (mkVMAccelAllocateStatus 1 0 zero_VMAccelDesc) (run_result None on_run).
Definition alloc_message : @SVCXPRT simrpc :=
  (enc (xdr_argument VMCL_CONTEXTALLOC) (mkVMCLContextAllocateDesc 0 0 1 1 0), 4096%nat).
Definition message_run : outcome server reply := vmcl_1 1 1 alloc_message on_server.
Definition message_server : server := run_state on_server message_run.

#[local] Strategy expand [on_run on_server message_run message_server].

Lemma on_run_done : vmcl_poweron_svc (λ _ _, true) sim_server0 = Done (Some on_status) on_server.
Proof.
  change (on_run = Done (Some on_status) (run_state sim_server0 on_run)). apply (run_done None); by_compute.
Qed.

Lemma message_run_done : vmcl_1 1 1 alloc_message on_server = Done (run_result NoReply message_run) message_server.
Proof.
  change (message_run = Done (run_result NoReply message_run) (run_state on_server message_run)).
  apply (run_done NoReply); [by_compute | reflexivity].
Qed.

Lemma on_status_ok : VMAccelAllocateStatus_status on_status = VMACCEL_SUCCESS.
Proof. vm_compute. reflexivity. Qed.

Lemma message_serving : serving message_server.
Proof.
  eapply serve_message; [| exact message_run_done]. exact (serve_poweron _ _ _ on_run_done on_status_ok).
Qed.

Lemma serving_consistent_witness : consistent (sv_backend message_server).
Proof. exact (serving_consistent message_server message_serving). Defined.

Lemma refused_message_witness :
  vmcl_1 1 19 ([], 0%nat) sim_server = Done NoProc sim_server ∧
  vmcl_1 1 10 ([], 0%nat) sim_server = Done GarbageArgs sim_server.
Proof.
  pose proof (refused_message 1 19 ([], 0%nat) sim_server) as [H1 _].
  pose proof (refused_message 1 10 ([], 0%nat) sim_server) as (_ & H2 & _).
  split; [apply H1; lia | apply (H2 VMCL_SURFACEMAP); reflexivity].
Defined.

Definition flagged_unmap : vmcl_arg VMCL_SURFACEUNMAP :=
  mkVMCLSurfaceUnmapOp (mkVMCLQueueId 0 0)
    (mkVMAccelSurfaceUnmapOp (mkVMAccelSurfaceId 0 0 3 0 0 0) VMACCEL_MAP_NO_FREE_PTR_FLAG []).

Lemma remote_flag_refused_witness :
  ∃ r, local 1 VMCL_SURFACEUNMAP flagged_unmap (Some 11) sim_server = Done (r, flagged_unmap) sim_server ∧
    r = mkVMAccelReturnStatus 0 (Some (mkStatus VMACCEL_FAIL)).
Proof. exact (remote_flag_refused 1 VMCL_SURFACEUNMAP flagged_unmap 11 sim_server eq_refl). Defined.

(** Surface 3 is downloaded into the request's buffer, then a download that
    expects a later generation is refused. *)
Definition dl_transp (gen : Z) : @SVCXPRT simrpc :=
  (enc (xdr_argument VMCL_IMAGEDOWNLOAD) (demo_download gen), 4096%nat).
Definition dl_local (gen : Z) (s : server) := local 1 VMCL_IMAGEDOWNLOAD (demo_download gen) (Some 9) s.
Definition dl_result (gen : Z) (s : server) : VMAccelDownloadReturnStatus :=
  (run_result (zero_VMAccelDownloadReturnStatus, demo_download gen) (dl_local gen s)).1.
Definition dl_status (gen : Z) (s : server) : VMAccelDownloadStatus :=
  default zero_VMAccelDownloadStatus (VMAccelDownloadReturnStatus_ret (dl_result gen s)).
Definition dl_message : outcome server reply := vmcl_1 1 9 (dl_transp 0) sim_server.
Definition dl_server : server := run_state sim_server dl_message.

#[local] Strategy expand [dl_local dl_message dl_server].

Lemma demo_download_wf gen : is_u32 gen → wf (xdr_argument VMCL_IMAGEDOWNLOAD) (demo_download gen).
Proof.
  intros Hg. assert (is_u32 0 ∧ is_u32 1 ∧ is_u32 3 ∧ is_u32 16) as (? & ? & ? & ?) by done.
  assert (0 ≤ UINT_MAX ∧ 16 ≤ UINT_MAX) as [? ?] by done.
  split_and!; repeat (first [done | constructor | assumption]).
Qed.

Lemma dl_first_run :
  local 1 VMCL_IMAGEDOWNLOAD (demo_download 0) (Some 9) sim_server =
    Done (dl_result 0 sim_server, demo_download 0) (run_state sim_server (dl_local 0 sim_server)).
Proof.
  change (dl_local 0 sim_server =
            Done (dl_result 0 sim_server, demo_download 0) (run_state sim_server (dl_local 0 sim_server))).
  apply (run_done (zero_VMAccelDownloadReturnStatus, demo_download 0)); by_compute.
Qed.

Lemma dl_first_message :
  vmcl_1 1 9 (dl_transp 0) sim_server =
    Done (run_result NoReply dl_message) dl_server.
Proof.
  change (dl_message = Done (run_result NoReply dl_message) (run_state sim_server dl_message)).
  apply (run_done NoReply); [by_compute | reflexivity].
Qed.

Lemma dl_second_run :
  local 1 VMCL_IMAGEDOWNLOAD (demo_download 5) (Some 9) dl_server =
    Done (dl_result 5 dl_server, demo_download 5) (run_state sim_server (dl_local 5 dl_server)).
Proof.
  change (dl_local 5 dl_server =
            Done (dl_result 5 dl_server, demo_download 5) (run_state sim_server (dl_local 5 dl_server))).
  apply (run_done (zero_VMAccelDownloadReturnStatus, demo_download 5)); by_compute.
Qed.

Lemma dl_statuses :
  VMAccelDownloadReturnStatus_ret (dl_result 0 sim_server) = Some (dl_status 0 sim_server) ∧
  VMAccelDownloadStatus_status (dl_status 0 sim_server) = VMACCEL_SUCCESS ∧
  VMAccelDownloadReturnStatus_ret (dl_result 5 dl_server) = Some (dl_status 5 dl_server) ∧
  VMAccelDownloadStatus_status (dl_status 5 dl_server) ≠ VMACCEL_SUCCESS ∧
  VMAccelDownloadStatus_ptr (dl_status 5 dl_server) ≠ [].
Proof. split_and!; [by_compute | by_compute | by_compute | |]; intros E; vm_compute in E; discriminate. Qed.

Lemma demo_download_ptr : VMAccelImageTransferOp_ptr (VMCLImageDownloadOp_op (demo_download 0)) ≠ [].
Proof. done. Qed.

Lemma demo_gens : is_u32 0 ∧ is_u32 5.
Proof. done. Qed.

Lemma download_buffer_dangles_witness : vmcl_1 1 9 (dl_transp 5) dl_server = Fault BadAccess.
Proof.
  destruct dl_statuses as (H1 & H2 & H3 & H4 & H5).
  exact (download_buffer_dangles 1 (dl_transp 0) (demo_download 0) sim_server (dl_result 0 sim_server)
    (dl_status 0 sim_server) (demo_download 0) (run_state sim_server (dl_local 0 sim_server))
    (run_result NoReply dl_message) dl_server
    (demo_download_wf 0 (proj1 demo_gens)) eq_refl demo_download_ptr dl_first_run H1 H2 dl_first_message
    (dl_transp 5) (demo_download 5) (dl_result 5 dl_server) (dl_status 5 dl_server) (demo_download 5)
    (run_state sim_server (dl_local 5 dl_server))
    (demo_download_wf 5 (proj2 demo_gens)) eq_refl dl_second_run H3 H4 H5).
Defined.
