(* ===== verification/ServicePower.v ===== *)
(** * Power and reference count of the vmcl service

    [vmcl_poweron_svc], [vmcl_poweroff_svc] (vmcl_rpc_server.c) and the
    service mutexes of vmaccel_utils.c. *)

From S2P Require Import Prelude IdentifierDB XdrRuntime XdrRFC4506 RpcTypes XdrVMAccel XdrVMCL.
From S2P Require Import Backend BackendOps BackendPower BackendLemmas BackendFrame SimCL.
From S2P Require Import BackendInvariants Server SunRPC Protocol Answers Service.

Section Power.
Context `{OpenCL}.
Implicit Types s : server.

(** The backend after [i] attempts, on the first [i] architectures, that all
    failed. *)
Inductive tried (ok : nat → nat → bool) (b0 : backend) : nat → backend → Prop :=
| tried_none : tried ok b0 0 b0
| tried_next i b r b' :
    tried ok b0 i b → vmwopencl_poweron (ok i) i b = Done r b' →
    VMAccelAllocateStatus_status r ≠ VMACCEL_SUCCESS → tried ok b0 (S i) b'.

Definition poweron_outcome ok s (r : option VMAccelAllocateStatus) s' : Prop :=
  match r with
  | None => False
  | Some r =>
      (VMAccelAllocateStatus_status r = VMACCEL_SUCCESS ∧
       clRefCount s' = u64 (clRefCount s + 1) ∧
       ∃ i b, (i < VMACCEL_SELECT_MAX)%nat ∧ tried ok (sv_backend s) i b ∧
         vmwopencl_poweron (ok i) i b = Done r (sv_backend s')) ∨
      (VMAccelAllocateStatus_status r ≠ VMACCEL_SUCCESS ∧
       clRefCount s' = clRefCount s ∧
       tried ok (sv_backend s) VMACCEL_SELECT_MAX (sv_backend s'))
  end.

Lemma poweron_loop_outcome ok n : ∀ i ret s s0 r s',
  (i + n)%nat = VMACCEL_SELECT_MAX → clRefCount s = clRefCount s0 → tried ok (sv_backend s0) i (sv_backend s) →
  (i = 0%nat ∧ n ≠ 0%nat ∨ ∃ x, ret = Some x ∧ VMAccelAllocateStatus_status x ≠ VMACCEL_SUCCESS) →
  poweron_loop ok n i ret s = Done r s' → poweron_outcome ok s0 r s'.
Proof.
  induction n as [| n IH]; intros i ret s s0 r s' Hn Hc Ht Hret Hrun; cbn [poweron_loop] in Hrun.
  - destruct Hret as [[_ Hz] | (x & -> & Hx)]; [done |]. injection Hrun as <- <-. right.
    rewrite Nat.add_0_r in Hn. by subst i.
  - apply sv_bind_done in Hrun as (x & s1 & (b & Hx & ->)%cl_op_inv & Hrun).
    destruct (Z.eqb_spec (VMAccelAllocateStatus_status x) VMACCEL_SUCCESS) as [Hst | Hst].
    + apply sv_bind_done in Hrun as (u & s2 & Hmod & Hrun). injection Hmod as _ <-.
      injection Hrun as <- <-. left. simpl. rewrite Hc. split; [done |]. split; [done |].
      exists i, (sv_backend s). split; [lia | done].
    + eapply IH; [| | | | exact Hrun]; [lia | done | by eapply tried_next | eauto].
Qed.

(** Powering on tries the accelerator architectures in order and stops
    at the first that powers on: its description is returned and the
    reference count grows by one.  When all four fail, the last answer is
    returned and the count stays. *)
Theorem poweron_first_architecture ok s r s' :
  vmcl_poweron_svc ok s = Done r s' → poweron_outcome ok s r s'.
Proof.
  intros Hrun. apply sv_bind_done in Hrun as (u & s1 & Ha & Hrun). injection Ha as _ <-.
  eapply poweron_loop_outcome; [| | | | exact Hrun]; [done | done | constructor | by left].
Qed.

(** Powering off counts: with [n + 1] power-ons outstanding, the first
    [n] calls return nothing and leave the backend alone, the next one powers
    the backend off, and calls beyond that do nothing. *)
Theorem poweroff_last_reference n s :
  clRefCount s = Z.of_nat (S n) →
  Nat.iter n (λ m : SV (option VMAccelStatus), _ ← vmcl_poweroff_svc; m) vmcl_poweroff_svc s =
    (r ← cl_op vmwopencl_poweroff; mret (Some r)) (set_clRefCount 0 s) ∧
  vmcl_poweroff_svc (set_clRefCount 0 s) = Done None (set_clRefCount 0 s).
Proof.
  intros Hc. split; [| done]. revert s Hc. induction n as [| n IH]; intros s Hc.
  - simpl. unfold vmcl_poweroff_svc, mbind, M_bind, gets, modify. by rewrite Hc.
  - rewrite Nat.iter_succ. unfold mbind at 1, M_bind at 1.
    assert (vmcl_poweroff_svc s = Done None (set_clRefCount (Z.of_nat (S n)) s)) as Hoff.
    { unfold vmcl_poweroff_svc, mbind, M_bind, gets, modify. rewrite Hc.
      destruct (Z.eqb_spec (Z.of_nat (S (S n))) 1); [lia |].
      destruct (Z.ltb_spec 1 (Z.of_nat (S (S n)))); [| lia]. do 3 f_equal. lia. }
    rewrite Hoff, IH by done. by destruct s.
Qed.

(** The five identifier databases. *)
Definition databases : list dbref := [ContextIds; SurfaceIds; QueueIds; SamplerIds; KernelIds].

Lemma fresh_inactive d id (s : backend) :
  d ∈ databases → 0 ≤ id →
  with_db d (IdentifierDB_ActiveId id) (alloc_tables (λ _, true) s) =
    Done false (alloc_tables (λ _, true) s).
Proof.
  intros Hd Hid.
  assert (∃ db, alloc_db true true 32 = Live db ∧ ActiveId id db = Done false db) as (db & Hdb & Ha).
  { eexists. split; [done |]. destruct (Alloc_wf 32 _ ltac:(lia) eq_refl) as (Hwf & _ & Hu & _).
    rewrite (ActiveId_eq _ _ Hwf Hid), Hu. by rewrite bool_decide_false by set_solver. }
  assert (d_get d (alloc_tables (λ _, true) s) = Live db ∧ DbLaws d) as [Hget Hlaws].
  { unfold databases in Hd. rewrite !elem_of_cons in Hd.
    destruct Hd as [-> | [-> | [-> | [-> | [-> | Hd]]]]]; [.. | by apply elem_of_nil in Hd];
      (split; [exact Hdb | apply _]). }
  unfold with_db. rewrite Hget. simpl. unfold IdentifierDB_ActiveId. rewrite Ha.
  by rewrite <- Hget, db_set_get.
Qed.

(** A power-on that succeeds starts from empty tables whatever the
    backend held: powering on a second time, which only adds a reference,
    forgets every context, surface, queue, sampler and kernel of the first
    users. *)
Theorem poweron_forgets s r s' d id :
  vmcl_poweron_svc (λ _ _, true) s = Done (Some r) s' →
  VMAccelAllocateStatus_status r = VMACCEL_SUCCESS → d ∈ databases → 0 ≤ id →
  clRefCount s' = u64 (clRefCount s + 1) ∧
  with_db d (IdentifierDB_ActiveId id) (sv_backend s') = Done false (sv_backend s').
Proof.
  intros Hrun Hst Hd Hid. apply sv_bind_done in Hrun as (u & s1 & Ha & Hrun). injection Ha as _ <-.
  apply (poweron_loop_outcome _ _ _ _ _ s) in Hrun; [| done | done | constructor | by left].
  destruct Hrun as [(_ & Hc & i & b & _ & _ & Hon) | (Hne & _)]; [| done]. split; [done |].
  apply poweron_tables in Hon as [b' ->]; [| done]. by apply fresh_inactive.
Qed.
End Power.

(** ** The service mutexes *)

Section Mutexes.
Context `{OpenCL}.
Implicit Types w : world.

Definition all_mutexes (m : mutex) w : Prop := ∀ k, get_svc_mutex k w = m.

(** After [vmaccel_utils_poweron_svc] succeeds the three service mutexes
    are free.  [vmaccel_utils_poweroff_svc] then succeeds exactly when no
    thread is inside a stub, destroying all three; a held mutex makes it
    return [NULL]. *)
Theorem service_mutex_lifecycle ok w r w' :
  vmaccel_utils_poweron_svc ok w = Done (Some r) w' →
  all_mutexes (Normal None) w' ∧
  (∃ w'', vmaccel_utils_poweroff_svc w' = Done (Some (mkStatus VMACCEL_SUCCESS)) w'' ∧
          all_mutexes Destroyed w'') ∧
  ∀ k tid, ∃ w'', vmaccel_utils_poweroff_svc (set_svc_mutex k (Normal (Some tid)) w') = Done None w''.
Proof.
  unfold vmaccel_utils_poweron_svc, mbind, M_bind, modify.
  destruct (ok 0%nat), (ok 1%nat), (ok 2%nat), (ok 3%nat); try done. simpl. intros [= _ <-].
  split; [by intros [] |]. split.
  - eexists. split; [reflexivity | by intros []].
  - intros [] tid; by eexists.
Qed.
End Mutexes.

(** ** Concrete runs *)

Definition off_server : server := mkServer sim_backend0 0 false.
Definition twice_server : server := mkServer sim_ready 1 false.

Definition power_state (s : server) : server :=
  match vmcl_poweron_svc (λ _ _, true) s with Done _ s' => s' | Fault _ => s end.
Definition power_answer (s : server) : VMAccelAllocateStatus :=
  match vmcl_poweron_svc (λ _ _, true) s with
  | Done (Some r) _ => r
  | _ => mkVMAccelAllocateStatus VMACCEL_FAIL 0 zero_VMAccelDesc
  end.

Lemma power_done s :
  VMAccelAllocateStatus_status (power_answer s) = VMACCEL_SUCCESS →
  vmcl_poweron_svc (λ _ _, true) s = Done (Some (power_answer s)) (power_state s).
Proof.
  unfold power_answer, power_state. by destruct (vmcl_poweron_svc _ s) as [[r |] s' |].
Qed.

Lemma poweron_first_architecture_witness :
  poweron_outcome (λ _ _, true) off_server (Some (power_answer off_server)) (power_state off_server).
Proof.
  apply (poweron_first_architecture (λ _ _, true) off_server). apply power_done. vm_compute. reflexivity.
Defined.

Lemma twice_status : VMAccelAllocateStatus_status (power_answer twice_server) = VMACCEL_SUCCESS.
Proof. vm_compute. reflexivity. Qed.

Lemma queue_database : QueueIds ∈ databases.
Proof. unfold databases. set_solver. Qed.

(** The queue with id 0, in use in [sim_ready], is unknown after a second
    power-on. *)
Lemma poweron_forgets_witness :
  clRefCount (power_state twice_server) = 2 ∧
  with_db QueueIds (IdentifierDB_ActiveId 0) (sv_backend (power_state twice_server)) =
    Done false (sv_backend (power_state twice_server)).
Proof.
  pose proof (poweron_forgets twice_server (power_answer twice_server) (power_state twice_server) QueueIds 0
                (power_done _ twice_status) twice_status queue_database (Z.le_refl 0)) as [Hc Hq].
  split; [rewrite Hc; reflexivity | exact Hq].
Defined.

Lemma poweroff_last_reference_witness :
  Nat.iter 2 (λ m : SV (option VMAccelStatus), _ ← vmcl_poweroff_svc; m) vmcl_poweroff_svc
    (mkServer sim_ready 3 false) =
    (r ← cl_op vmwopencl_poweroff; mret (Some r)) (set_clRefCount 0 (mkServer sim_ready 3 false)).
Proof. exact (proj1 (poweroff_last_reference 2 (mkServer sim_ready 3 false) eq_refl)). Defined.

Definition blank_world : world := mkWorld Destroyed Destroyed Destroyed off_server off_server.

Lemma service_mutex_lifecycle_witness :
  ∃ w, vmaccel_utils_poweron_svc (λ _, true) blank_world =
         Done (Some (mkVMAccelAllocateStatus VMACCEL_SUCCESS 0 zero_VMAccelDesc)) w ∧
       all_mutexes (Normal None) w.
Proof.
  eexists. split; [reflexivity |].
  exact (proj1 (service_mutex_lifecycle (λ _, true) blank_world _ _ eq_refl)).
Defined.
