(* ===== verification/Allocator.v ===== *)
(** * Resource allocator (common/inc/vmaccel_allocator.hpp)

    The class template [VMAccelAllocator<T, C>] the accelerator manager keeps
    its resources in, and the three types it is instantiated with:
    accelerator descriptions (vmaccel_types_desc.hpp), address ranges
    (vmaccel_types_allocrange.hpp) and integers (vmaccel_types_int.hpp).

    What the template asks of its parameters is the class [AllocType]; one
    instance per type.  The pool of free objects is a [std::multiset] ordered
    by [C]: a list in iteration order with the operations of the standard.
    [lower_bound], [upper_bound] and [insert] are specified only on a sequence
    that is partitioned by the comparison with the key; elsewhere the result
    is unspecified and the model answers [Undefined]. *)

From S2P Require Import Prelude IdentifierDB XdrRuntime RpcTypes Backend.
Open Scope Z_scope.
Open Scope list_scope.

Definition VMACCEL_INVALID_ID : Z := UINT_MAX.
Definition VMACCEL_MAX_ACCELERATORS : Z := 256.

(** An object with the resource it is cut from. *)
Record VMAccelObject (T : Type) := mkVMAccelObject {
  GetParentId : Z;
  GetFenceId : Z;
  GetObj : T;
}.
Arguments mkVMAccelObject {T}.
Arguments GetParentId {T}.
Arguments GetFenceId {T}.
Arguments GetObj {T}.

(** ** The multiset *)

Section Multiset.
Context {A : Type}.
Implicit Types (f : A → bool) (cmp : A → A → bool) (l : list A).

(** The elements that satisfy [f] precede the others. *)
Fixpoint partitioned f l : bool :=
  match l with
  | [] => true
  | x :: l' => if f x then partitioned f l' else forallb (λ y, negb (f y)) l'
  end.

Fixpoint prefix_length f l : nat :=
  match l with
  | [] => O
  | x :: l' => if f x then S (prefix_length f l') else O
  end.

(** The position of the first element that does not satisfy [f]; the length
    is [end()]. *)
Definition bound f : M (list A) nat := λ l,
  if partitioned f l then Done (prefix_length f l) l else Fault Undefined.

Definition lower_bound cmp (k : A) : M (list A) nat := bound (λ e, cmp e k).
Definition upper_bound cmp (k : A) : M (list A) nat := bound (λ e, negb (cmp k e)).

(** Among equivalent elements the new one goes last; the returned iterator is
    never [end()]. *)
Definition multiset_insert cmp (x : A) : M (list A) bool :=
  i ← upper_bound cmp x;
  _ ← modify (λ l, take i l ++ x :: drop i l);
  mret true.

Definition multiset_erase (i : nat) : M (list A) unit := modify (delete i).
End Multiset.

(** ** What the template uses of [T] and [C] *)

Class AllocType (T : Type) := {
  (** cleared members *)
  obj_zero : T;
  (** the object in some storage after [Constructor], and the left operand
      after [DeepCopy] (or [Move]) *)
  Constructor : T → T;
  DeepCopy : T → T → T;
  obj_le : T → T → bool;
  (** the left operand after [+=] and [-=] *)
  obj_add : T → T → T;
  obj_sub : T → T → T;
  IsEmpty : T → bool;
  (** the answer [false], or the reservation and the remainder *)
  Reserve : T → T → option (T * T);
  (** [C::operator()] *)
  obj_cmp : VMAccelObject T → VMAccelObject T → bool;
  FreeObj : VMAccelObject T → M (list (VMAccelObject T)) bool;
}.

(** ** The template *)

Section Allocator.
Context {T : Type} `{AllocType T}.

(** The constructor [VMAccelObject(VMAccelId id, T *o)], the default one in
    some storage, and assignment.  Temporaries start from cleared storage. *)
Definition new_object (id : Z) (o : T) : VMAccelObject T :=
  mkVMAccelObject id VMACCEL_INVALID_ID (DeepCopy (Constructor obj_zero) o).

Definition default_object (storage : T) : VMAccelObject T :=
  mkVMAccelObject VMACCEL_INVALID_ID VMACCEL_INVALID_ID (Constructor storage).

Definition assign_object (lhs rhs : VMAccelObject T) : VMAccelObject T :=
  mkVMAccelObject (GetParentId rhs) (GetFenceId rhs) (DeepCopy (GetObj lhs) (GetObj rhs)).

(** Whether the build defers the return of freed objects to the pool. *)
Variable DEFER_FREE : bool.

(** [Alloc] answers with a static that it does not clear. *)
Record VMAccelAllocator := mkVMAccelAllocator {
  al_registered : list T;
  al_capacity : list T;
  al_load : list T;
  al_refCount : list Z;
  al_free : list (VMAccelObject T);
  al_freed : list (VMAccelObject T);
  al_allocated : list (VMAccelObject T);
  al_registeredIds : heap IdentifierDB;
  al_externalIds : heap IdentifierDB;
  al_result_id : Z;
}.
Implicit Types s : VMAccelAllocator.

Definition set_registered x s := mkVMAccelAllocator x (al_capacity s) (al_load s) (al_refCount s)
  (al_free s) (al_freed s) (al_allocated s) (al_registeredIds s) (al_externalIds s) (al_result_id s).
Definition set_capacity x s := mkVMAccelAllocator (al_registered s) x (al_load s) (al_refCount s)
  (al_free s) (al_freed s) (al_allocated s) (al_registeredIds s) (al_externalIds s) (al_result_id s).
Definition set_load x s := mkVMAccelAllocator (al_registered s) (al_capacity s) x (al_refCount s)
  (al_free s) (al_freed s) (al_allocated s) (al_registeredIds s) (al_externalIds s) (al_result_id s).
Definition set_refCount x s := mkVMAccelAllocator (al_registered s) (al_capacity s) (al_load s) x
  (al_free s) (al_freed s) (al_allocated s) (al_registeredIds s) (al_externalIds s) (al_result_id s).
Definition set_pool x s := mkVMAccelAllocator (al_registered s) (al_capacity s) (al_load s) (al_refCount s)
  x (al_freed s) (al_allocated s) (al_registeredIds s) (al_externalIds s) (al_result_id s).
Definition set_freed x s := mkVMAccelAllocator (al_registered s) (al_capacity s) (al_load s) (al_refCount s)
  (al_free s) x (al_allocated s) (al_registeredIds s) (al_externalIds s) (al_result_id s).
Definition set_allocated x s := mkVMAccelAllocator (al_registered s) (al_capacity s) (al_load s)
  (al_refCount s) (al_free s) (al_freed s) x (al_registeredIds s) (al_externalIds s) (al_result_id s).
Definition set_registeredIds x s := mkVMAccelAllocator (al_registered s) (al_capacity s) (al_load s)
  (al_refCount s) (al_free s) (al_freed s) (al_allocated s) x (al_externalIds s) (al_result_id s).
Definition set_externalIds x s := mkVMAccelAllocator (al_registered s) (al_capacity s) (al_load s)
  (al_refCount s) (al_free s) (al_freed s) (al_allocated s) (al_registeredIds s) x (al_result_id s).
Definition set_result_id x s := mkVMAccelAllocator (al_registered s) (al_capacity s) (al_load s)
  (al_refCount s) (al_free s) (al_freed s) (al_allocated s) (al_registeredIds s) (al_externalIds s) x.

Definition AM (A : Type) : Type := M VMAccelAllocator A.

(** An operation on the free pool. *)
Definition on_free {A} (m : M (list (VMAccelObject T)) A) : AM A := zoom al_free set_pool m.

(** An operation on one of the identifier databases; [NULL] cannot be used. *)
Definition on_db {A} (get : VMAccelAllocator → heap IdentifierDB)
    (set : heap IdentifierDB → VMAccelAllocator → VMAccelAllocator)
    (m : M IdentifierDB A) : AM A := λ s,
  match deref (get s) with
  | Some db => match m db with
               | Done a db' => Done a (set (Live db') s)
               | Fault f => Fault f
               end
  | None => Fault BadAccess
  end.
Definition on_registeredIds {A} : M IdentifierDB A → AM A := on_db al_registeredIds set_registeredIds.
Definition on_externalIds {A} : M IdentifierDB A → AM A := on_db al_externalIds set_externalIds.

(** [v[i] = f(v[i])] on a vector: [operator[]] does not check the index. *)
Definition vec_modify {A} (get : VMAccelAllocator → list A)
    (set : list A → VMAccelAllocator → VMAccelAllocator) (i : Z) (f : A → A) : AM unit :=
  s ← Prelude.get;
  x ← access (get s !! Z.to_nat i);
  modify (set (<[Z.to_nat i := f x]> (get s))).

Definition vec_read {A} (get : VMAccelAllocator → list A) (i : Z) : AM A :=
  s ← Prelude.get; access (get s !! Z.to_nat i).

(** The constructor [VMAccelAllocator(size_t num)]; [ok] says whether the
    database allocations succeed, [storage] what the memory of the vector of
    objects holds, [id0] is the retained static of [Alloc]. *)
Definition new_allocator (ok : bool) (storage : T) (num id0 : Z) : VMAccelAllocator :=
  let db := match IdentifierDB_Alloc ok ok num with Some db => Live db | None => Null end in
  mkVMAccelAllocator (replicate (Z.to_nat num) obj_zero) (replicate (Z.to_nat num) obj_zero)
    (replicate (Z.to_nat num) obj_zero) (replicate (Z.to_nat num) 0) [] []
    (replicate (Z.to_nat num) (default_object storage)) db db id0.

(** vmaccel_manager.cpp; the loops below retry a fence that is not reached
    without end. *)
Definition vmaccel_manager_wait_for_fence (id : Z) : bool := true.

Definition wait_for_fence (id : Z) : AM unit :=
  if vmaccel_manager_wait_for_fence id then mret tt else throw WouldBlock.

(** The loop runs over the queue, which nothing else extends. *)
Fixpoint CoalesceFreed_loop (freed : list (VMAccelObject T)) : AM unit :=
  match freed with
  | [] => mret tt
  | a :: rest =>
      _ ← wait_for_fence (GetFenceId a);
      _ ← modify (set_freed rest);
      _ ← on_free (FreeObj a);
      CoalesceFreed_loop rest
  end.

Definition CoalesceFreed : AM unit := freed ← gets al_freed; CoalesceFreed_loop freed.

(** [Reserve] from the object [a]: the new object, with the remainder back in
    the pool; [take] removes [a] from where it is. *)
Definition reserve_from (req : VMAccelObject T) (a : T) (take : AM unit) :
    AM (option (VMAccelObject T)) :=
  match Reserve a (GetObj req) with
  | None => mret None
  | Some (div, r) =>
      _ ← take;
      _ ← (if negb (IsEmpty r) then on_free (FreeObj (new_object (GetParentId req) r)) else mret true);
      mret (Some (new_object (GetParentId req) div))
  end.

(** [it = free.lower_bound(req)]; [None] is [end()]. *)
Definition find_free (req : VMAccelObject T) : AM (option (nat * VMAccelObject T)) :=
  i ← on_free (lower_bound obj_cmp req);
  l ← gets al_free;
  mret (match l !! i with Some e => Some (i, e) | None => None end).

Definition erase_free (i : nat) : AM unit := on_free (multiset_erase i).

Fixpoint FindFreed_loop (req : VMAccelObject T) (freed : list (VMAccelObject T)) :
    AM (option (VMAccelObject T)) :=
  match freed with
  | [] => mret None
  | a :: rest =>
      _ ← wait_for_fence (GetFenceId a);
      _ ← modify (set_freed rest);
      if negb (GetParentId a =? GetParentId req) then FindFreed_loop req rest else
      if obj_le (GetObj req) (GetObj a) then reserve_from req (GetObj a) (mret tt)
      else
        _ ← on_free (FreeObj a);
        it ← find_free req;
        match it with
        | None => FindFreed_loop req rest
        | Some (i, e) =>
            d ← reserve_from req (GetObj e) (erase_free i);
            match d with
            | Some _ => mret d
            | None => FindFreed_loop req rest
            end
        end
  end.

Definition FindFreed (req : VMAccelObject T) : AM (option (VMAccelObject T)) :=
  freed ← gets al_freed; FindFreed_loop req freed.

(** The answers: the status and, for an allocation, the id. *)
Definition Register (a : T) : AM (Z * Z) :=
  id ← on_registeredIds IdentifierDB_AllocId;
  match id with
  | None => mret (VMACCEL_FAIL, 0)
  | Some id =>
      _ ← vec_modify al_capacity set_capacity id (λ c, obj_add c a);
      _ ← vec_modify al_registered set_registered id (λ _, a);
      _ ← vec_modify al_refCount set_refCount id (λ _, 0);
      ok ← on_free (FreeObj (new_object id a));
      if negb ok then
        _ ← on_registeredIds (IdentifierDB_ReleaseId id);
        mret (VMACCEL_FAIL, id)
      else mret (VMACCEL_SUCCESS, id)
  end.

Definition Unregister (id : Z) : AM Z :=
  n ← vec_read al_refCount id;
  if negb (n =? 0) then mret VMACCEL_FAIL else
  _ ← CoalesceFreed;
  n ← vec_read al_refCount id;
  _ ← assert (n =? 0);
  _ ← on_registeredIds (IdentifierDB_ReleaseId id);
  _ ← modify (λ s, set_pool (base.filter (λ e : VMAccelObject T, GetParentId e ≠ id) (al_free s)) s);
  mret VMACCEL_SUCCESS.

(** [Alloc(parentId, a, d)]: the status, the id and [d] afterwards. *)
Definition Alloc (parentId : Z) (a d : T) : AM ((Z * Z) * T) :=
  let req := new_object parentId a in
  id ← on_externalIds IdentifierDB_AllocId;
  match id with
  | None => old ← gets al_result_id; mret ((VMACCEL_FAIL, old), d)
  | Some externalId =>
      it ← find_free req;
      found ← match it with
              | Some (i, e) => reserve_from req (GetObj e) (erase_free i)
              | None => FindFreed req
              end;
      match found with
      | None =>
          _ ← on_externalIds (IdentifierDB_ReleaseId externalId);
          old ← gets al_result_id;
          mret ((VMACCEL_RESOURCE_UNAVAILABLE, old), d)
      | Some obj =>
          let registeredId := GetParentId obj in
          _ ← vec_modify al_allocated set_allocated externalId (λ o, assign_object o obj);
          o ← vec_read al_allocated externalId;
          let d := GetObj o in
          _ ← vec_modify al_capacity set_capacity registeredId (λ c, obj_sub c d);
          _ ← vec_modify al_load set_load registeredId (λ c, obj_add c d);
          _ ← vec_modify al_refCount set_refCount registeredId (λ n, u32 (n + 1));
          _ ← modify (set_result_id externalId);
          mret ((VMACCEL_SUCCESS, externalId), d)
      end
  end.

Definition Free (id : Z) : AM Z :=
  active ← on_externalIds (IdentifierDB_ActiveId id);
  _ ← assert active;
  o ← vec_read al_allocated id;
  let registeredId := GetParentId o in
  _ ← modify (λ s, set_freed (al_freed s ++ [o]) s);
  _ ← (if negb DEFER_FREE then CoalesceFreed else mret tt);
  _ ← vec_modify al_capacity set_capacity registeredId (λ c, obj_add c (GetObj o));
  _ ← vec_modify al_load set_load registeredId (λ c, obj_sub c (GetObj o));
  _ ← vec_modify al_refCount set_refCount registeredId (λ n, u32 (n - 1));
  _ ← vec_modify al_allocated set_allocated id (λ o, assign_object o (default_object obj_zero));
  _ ← on_externalIds (IdentifierDB_ReleaseId id);
  mret VMACCEL_SUCCESS.

End Allocator.
Arguments VMAccelAllocator : clear implicits.
Arguments mkVMAccelAllocator {T}.
