(* ===== verification/AllocTypes.v ===== *)
(** * The types resources are described by

    The instances of [AllocType]: accelerator descriptions
    (common/inc/vmaccel_types_desc.hpp), integers
    (common/inc/vmaccel_types_int.hpp) and address ranges
    (common/inc/vmaccel_types_allocrange.hpp).  Objects are values: the deep
    copies and moves give every object its own arrays, so an object is
    determined by its members.  [DeepCopy] and [Constructor] of an address
    (vmaccel_types_address.hpp) skip the member [subDevice]. *)

From S2P Require Import Prelude IdentifierDB XdrRuntime RpcTypes Backend Allocator.
Open Scope Z_scope.
Open Scope list_scope.

(** ** Accelerator descriptions *)

Module Desc.

Notation megaFlops := VMAccelWorkloadDesc_megaFlops.
Notation megaOps := VMAccelWorkloadDesc_megaOps.
Notation llcSizeKB := VMAccelWorkloadDesc_llcSizeKB.
Notation llcBandwidthMBSec := VMAccelWorkloadDesc_llcBandwidthMBSec.
Notation localMemSizeKB := VMAccelWorkloadDesc_localMemSizeKB.
Notation localMemBandwidthMBSec := VMAccelWorkloadDesc_localMemBandwidthMBSec.
Notation nonLocalMemSizeKB := VMAccelWorkloadDesc_nonLocalMemSizeKB.
Notation nonLocalMemBandwidthMBSec := VMAccelWorkloadDesc_nonLocalMemBandwidthMBSec.
Notation interconnectBandwidthMBSec := VMAccelWorkloadDesc_interconnectBandwidthMBSec.

(** [operator<]: at least one of three dimensions is less. *)
Definition workload_lt (lhs rhs : VMAccelWorkloadDesc) : bool :=
  (localMemSizeKB lhs <? localMemSizeKB rhs) || (megaFlops lhs <? megaFlops rhs) ||
  (megaOps lhs <? megaOps rhs).

Definition workload_le (lhs rhs : VMAccelWorkloadDesc) : bool :=
  (localMemSizeKB lhs <=? localMemSizeKB rhs) && (megaFlops lhs <=? megaFlops rhs) &&
  (megaOps lhs <=? megaOps rhs).

(** Member by member, in 32-bit arithmetic. *)
Definition workload_map2 (f : Z → Z → Z) (lhs rhs : VMAccelWorkloadDesc) : VMAccelWorkloadDesc :=
  mkVMAccelWorkloadDesc
    (u32 (f (megaFlops lhs) (megaFlops rhs)))
    (u32 (f (megaOps lhs) (megaOps rhs)))
    (u32 (f (llcSizeKB lhs) (llcSizeKB rhs)))
    (u32 (f (llcBandwidthMBSec lhs) (llcBandwidthMBSec rhs)))
    (u32 (f (localMemSizeKB lhs) (localMemSizeKB rhs)))
    (u32 (f (localMemBandwidthMBSec lhs) (localMemBandwidthMBSec rhs)))
    (u32 (f (nonLocalMemSizeKB lhs) (nonLocalMemSizeKB rhs)))
    (u32 (f (nonLocalMemBandwidthMBSec lhs) (nonLocalMemBandwidthMBSec rhs)))
    (u32 (f (interconnectBandwidthMBSec lhs) (interconnectBandwidthMBSec rhs))).

Definition workload_add : VMAccelWorkloadDesc → VMAccelWorkloadDesc → VMAccelWorkloadDesc :=
  workload_map2 Z.add.
Definition workload_sub : VMAccelWorkloadDesc → VMAccelWorkloadDesc → VMAccelWorkloadDesc :=
  workload_map2 Z.sub.

Definition set_capacity_of (c : VMAccelWorkloadDesc) (x : VMAccelDesc) : VMAccelDesc :=
  mkVMAccelDesc (VMAccelDesc_parentId x) (VMAccelDesc_parentAddr x) (VMAccelDesc_typeMask x)
    (VMAccelDesc_architecture x) (VMAccelDesc_caps x) (VMAccelDesc_formatCaps x) c
    (VMAccelDesc_maxContexts x) (VMAccelDesc_maxQueues x) (VMAccelDesc_maxEvents x)
    (VMAccelDesc_maxFences x) (VMAccelDesc_maxSurfaces x) (VMAccelDesc_maxMappings x).

Definition desc_le (lhs rhs : VMAccelDesc) : bool :=
  workload_le (VMAccelDesc_capacity lhs) (VMAccelDesc_capacity rhs).

Definition desc_add (lhs rhs : VMAccelDesc) : VMAccelDesc :=
  set_capacity_of (workload_add (VMAccelDesc_capacity lhs) (VMAccelDesc_capacity rhs)) lhs.

Definition desc_sub (lhs rhs : VMAccelDesc) : VMAccelDesc :=
  set_capacity_of (workload_sub (VMAccelDesc_capacity lhs) (VMAccelDesc_capacity rhs)) lhs.

(** Not a strict weak ordering: of objects of different accelerators each
    precedes the other.  [lower_bound], [upper_bound] and the insertion built on
    it are [Undefined] where that leaves the pool without a partition; an object
    whose accelerator is not in the pool precedes all of it, so its insertion is
    specified. *)
Definition VMAccelDescCmp (lhs rhs : VMAccelObject VMAccelDesc) : bool :=
  negb (GetParentId lhs =? GetParentId rhs) ||
  workload_lt (VMAccelDesc_capacity (GetObj lhs)) (VMAccelDesc_capacity (GetObj rhs)).

Definition address_Constructor (obj : VMAccelAddress) : VMAccelAddress :=
  mkVMAccelAddress [] 0 0 (VMAccelAddress_subDevice obj).

Definition address_DeepCopy (lhs rhs : VMAccelAddress) : VMAccelAddress :=
  mkVMAccelAddress (VMAccelAddress_addr rhs) (VMAccelAddress_port rhs)
    (VMAccelAddress_resourceType rhs) (VMAccelAddress_subDevice lhs).

Definition desc_Constructor (obj : VMAccelDesc) : VMAccelDesc :=
  mkVMAccelDesc VMACCEL_INVALID_ID (address_Constructor (VMAccelDesc_parentAddr obj)) 0 0 0 []
    zero_VMAccelWorkloadDesc 0 0 0 0 0 0.

Definition desc_DeepCopy (lhs rhs : VMAccelDesc) : VMAccelDesc :=
  mkVMAccelDesc (VMAccelDesc_parentId rhs)
    (address_DeepCopy (VMAccelDesc_parentAddr lhs) (VMAccelDesc_parentAddr rhs))
    (VMAccelDesc_typeMask rhs) (VMAccelDesc_architecture rhs) (VMAccelDesc_caps rhs)
    (VMAccelDesc_formatCaps rhs) (VMAccelDesc_capacity rhs) (VMAccelDesc_maxContexts rhs)
    (VMAccelDesc_maxQueues rhs) (VMAccelDesc_maxEvents rhs) (VMAccelDesc_maxFences rhs)
    (VMAccelDesc_maxSurfaces rhs) (VMAccelDesc_maxMappings rhs).

(** The nine members are added in 32 bits. *)
Definition workload_sum (c : VMAccelWorkloadDesc) : Z :=
  megaFlops c + megaOps c + llcSizeKB c + llcBandwidthMBSec c + localMemSizeKB c +
  localMemBandwidthMBSec c + nonLocalMemSizeKB c + nonLocalMemBandwidthMBSec c +
  interconnectBandwidthMBSec c.

Definition desc_IsEmpty (val : VMAccelDesc) : bool :=
  u32 (workload_sum (VMAccelDesc_capacity val)) =? 0.

Definition desc_Reserve (a req : VMAccelDesc) : option (VMAccelDesc * VMAccelDesc) :=
  if workload_lt (VMAccelDesc_capacity a) (VMAccelDesc_capacity req) then None else
  let copy := desc_DeepCopy zero_VMAccelDesc a in
  let d := set_capacity_of (VMAccelDesc_capacity req) copy in
  let r := set_capacity_of (workload_sub (VMAccelDesc_capacity a) (VMAccelDesc_capacity d)) copy in
  if workload_lt (VMAccelDesc_capacity r) (VMAccelDesc_capacity a) then Some (d, r) else None.

(** The pool keeps one object per parent. *)
Definition desc_FreeObj (obj : VMAccelObject VMAccelDesc) : M (list (VMAccelObject VMAccelDesc)) bool :=
  pool ← get;
  match list_find (λ e, GetParentId e = GetParentId obj) pool with
  | None => multiset_insert VMAccelDescCmp obj
  | Some (i, e) =>
      _ ← multiset_erase i;
      let desc := desc_DeepCopy zero_VMAccelDesc (GetObj e) in
      multiset_insert VMAccelDescCmp
        (mkVMAccelObject (GetParentId obj) VMACCEL_INVALID_ID
           (desc_DeepCopy (desc_Constructor zero_VMAccelDesc) (desc_add desc (GetObj obj))))
  end.

#[global] Instance VMAccelDesc_AllocType : AllocType VMAccelDesc := {|
  obj_zero := zero_VMAccelDesc;
  Constructor := desc_Constructor;
  DeepCopy := desc_DeepCopy;
  obj_le := desc_le;
  obj_add := desc_add;
  obj_sub := desc_sub;
  IsEmpty := desc_IsEmpty;
  Reserve := desc_Reserve;
  obj_cmp := VMAccelDescCmp;
  FreeObj := desc_FreeObj;
|}.

End Desc.

(** ** Integers *)

Module Int.

Record Int := mkInt { x : Z }.

Definition IntCmp (lhs rhs : VMAccelObject Int) : bool :=
  negb (GetParentId lhs =? GetParentId rhs) || (x (GetObj lhs) <? x (GetObj rhs)).

(** [operator+=] and [operator-=] take their left operand by value: the
    object they are applied to does not change. *)
Definition int_add (lhs rhs : Int) : Int := lhs.
Definition int_sub (lhs rhs : Int) : Int := lhs.

(** Signed arithmetic that overflows is undefined. *)
Definition int_checked {S} (v : Z) : M S Z :=
  if (-2147483648 <=? v) && (v <? 2147483648) then mret v else throw Undefined.

Definition int_Reserve (in_ req : Int) : option (Int * Int) :=
  if x in_ <? x req then None else Some (req, mkInt (x in_ - x req)).

Definition int_FreeObj (obj : VMAccelObject Int) : M (list (VMAccelObject Int)) bool :=
  pool ← get;
  match list_find (λ e, GetParentId e = GetParentId obj) pool with
  | None => multiset_insert IntCmp obj
  | Some (i, e) =>
      _ ← multiset_erase i;
      val ← int_checked (x (GetObj e) + x (GetObj obj));
      multiset_insert IntCmp (mkVMAccelObject (GetParentId obj) VMACCEL_INVALID_ID (mkInt val))
  end.

#[global] Instance Int_AllocType : AllocType Int := {|
  obj_zero := mkInt 0;
  Constructor := λ _, mkInt 0;
  DeepCopy := λ _ rhs, rhs;
  obj_le := λ a b, x a <=? x b;
  obj_add := int_add;
  obj_sub := int_sub;
  IsEmpty := λ v, x v =? 0;
  Reserve := int_Reserve;
  obj_cmp := IntCmp;
  FreeObj := int_FreeObj;
|}.

End Int.

(** ** Address ranges *)

Module Range.

Record AllocRange := mkAllocRange {
  cmpRange : bool;
  size : Z;
  begin : Z;
  end_ : Z;
}.

Definition range_lt (lhs rhs : AllocRange) : bool :=
  if cmpRange lhs || cmpRange rhs
  then (begin lhs <? begin rhs) || (end_ lhs <? end_ rhs)
  else size lhs <? size rhs.

Definition range_le (lhs rhs : AllocRange) : bool :=
  if cmpRange lhs || cmpRange rhs
  then (begin lhs <=? begin rhs) && (end_ lhs <=? end_ rhs)
  else size lhs <=? size rhs.

Definition set_size (n : Z) (r : AllocRange) : AllocRange := mkAllocRange (cmpRange r) n (begin r) (end_ r).
Definition range_add (lhs rhs : AllocRange) : AllocRange := set_size (u64 (size lhs + size rhs)) lhs.
Definition range_sub (lhs rhs : AllocRange) : AllocRange := set_size (u64 (size lhs - size rhs)) lhs.

Definition AllocRangeCmp (lhs rhs : VMAccelObject AllocRange) : bool :=
  negb (GetParentId lhs =? GetParentId rhs) || range_lt (GetObj lhs) (GetObj rhs).

Definition range_Reserve (a req : AllocRange) : option (AllocRange * AllocRange) :=
  if range_lt a req then None else
  let d_end := u64 (begin a + size req - 1) in
  let d := mkAllocRange (cmpRange a) (size req) (begin a) d_end in
  let r := mkAllocRange (cmpRange a) (u64 (size a - size req)) (u64 (d_end + 1)) (end_ a) in
  if range_lt r a then Some (d, r) else None.

(** The neighbour at position [i] absorbs the range [r] when it starts right
    after it or ends right before it. *)
Definition merge_at (parentId : Z) (r : AllocRange) (i : nat) :
    M (list (VMAccelObject AllocRange)) (option bool) :=
  pool ← get;
  match pool !! i with
  | None => mret None
  | Some e =>
      let range := GetObj e in
      let grown := u64 (size range + u64 (end_ r - begin r + 1)) in
      if begin range =? u64 (end_ r + 1) then
        _ ← multiset_erase i;
        ok ← multiset_insert AllocRangeCmp
               (mkVMAccelObject parentId VMACCEL_INVALID_ID (mkAllocRange (cmpRange range) grown (begin r) (end_ range)));
        mret (Some ok)
      else if u64 (end_ range + 1) =? begin r then
        _ ← multiset_erase i;
        ok ← multiset_insert AllocRangeCmp
               (mkVMAccelObject parentId VMACCEL_INVALID_ID (mkAllocRange (cmpRange range) grown (begin range) (begin r)));
        mret (Some ok)
      else mret None
  end.

Definition range_FreeObj (obj : VMAccelObject AllocRange) : M (list (VMAccelObject AllocRange)) bool :=
  let o := GetObj obj in
  let r := mkAllocRange true (size o) (begin o) (end_ o) in
  let key := mkVMAccelObject (GetParentId obj) VMACCEL_INVALID_ID r in
  i ← lower_bound AllocRangeCmp key;
  m ← merge_at (GetParentId obj) r i;
  match m with
  | Some ok => mret ok
  | None =>
      i ← upper_bound AllocRangeCmp key;
      m ← merge_at (GetParentId obj) r i;
      match m with
      | Some ok => mret ok
      | None => multiset_insert AllocRangeCmp obj
      end
  end.

#[global] Instance AllocRange_AllocType : AllocType AllocRange := {|
  obj_zero := mkAllocRange false 0 0 0;
  Constructor := λ _, mkAllocRange false 0 0 0;
  DeepCopy := λ _ rhs, rhs;
  obj_le := range_le;
  obj_add := range_add;
  obj_sub := range_sub;
  IsEmpty := λ v, size v =? 0;
  Reserve := range_Reserve;
  obj_cmp := AllocRangeCmp;
  FreeObj := range_FreeObj;
|}.

End Range.
