(* ===== verification/AllocPool.v ===== *)
(** * The pool of free accelerator capacity

    Sums over objects, the identifier databases as sets of ids, and the free
    pool of accelerator descriptions, which holds at most one object per
    accelerator: how [FreeObj] merges and what [lower_bound] finds. *)

From S2P Require Import Prelude IdentifierDB XdrRuntime RpcTypes Backend Allocator AllocTypes.
Import Desc.
Open Scope Z_scope.
Open Scope list_scope.

(** ** Sums over a list *)

Section Total.
Context {A : Type} (g : A → Z).
Implicit Types l : list A.

Definition total l : Z := foldr (λ a n, g a + n) 0 l.

Lemma total_app l l' : total (l ++ l') = total l + total l'.
Proof. induction l as [| a l IH]; simpl; [done | rewrite IH; lia]. Qed.

Lemma total_delete l i a : l !! i = Some a → total (delete i l) = total l - g a.
Proof.
  intros Hi. rewrite delete_take_drop, total_app. rewrite <- (take_drop_middle l i a Hi) at 3.
  rewrite total_app. simpl. lia.
Qed.

Lemma total_insert l i a b : l !! i = Some a → total (<[i := b]> l) = total l - g a + g b.
Proof.
  intros Hi. rewrite insert_take_drop by (by apply lookup_lt_is_Some; eauto).
  rewrite <- (take_drop_middle l i a Hi) at 3. rewrite !total_app. simpl. lia.
Qed.

Lemma total_zero l : (∀ a, a ∈ l → g a = 0) → total l = 0.
Proof. intros Hl. induction l as [| a l IH]; [done |]. simpl. rewrite IH, Hl by set_solver. lia. Qed.

Lemma total_filter l (P : A → Prop) `{∀ a, Decision (P a)} :
  (∀ a, a ∈ l → ¬ P a → g a = 0) → total (base.filter P l) = total l.
Proof.
  intros Hl. induction l as [| a l IH]; [done |]. rewrite filter_cons. simpl.
  rewrite <- IH by set_solver. destruct (decide (P a)); [done |]. rewrite (Hl a) by set_solver. lia.
Qed.

Lemma total_nonneg l : (∀ a, a ∈ l → 0 ≤ g a) → 0 ≤ total l.
Proof.
  intros Hl. induction l as [| a l IH]; [done |]. simpl.
  pose proof (Hl a ltac:(set_solver)). pose proof (IH ltac:(set_solver)). lia.
Qed.

Lemma total_le_elem l a : (∀ b, b ∈ l → 0 ≤ g b) → a ∈ l → g a ≤ total l.
Proof.
  intros Hl Ha. induction l as [| b l IH]; [set_solver |]. simpl.
  pose proof (total_nonneg l ltac:(set_solver)). pose proof (Hl b ltac:(set_solver)).
  apply elem_of_cons in Ha as [-> | Ha]; [lia |]. pose proof (IH ltac:(set_solver) Ha). lia.
Qed.
End Total.

Lemma total_ext {A} (g h : A → Z) l : (∀ a, a ∈ l → g a = h a) → total g l = total h l.
Proof. intros Hl. induction l as [| a l IH]; [done |]. simpl. rewrite IH, Hl by set_solver. done. Qed.

(** ** Identifier databases as sets *)

Definition holds (sz : Z) (X : gset Z) (p : heap IdentifierDB) : Prop :=
  ∃ db, p = Live db ∧ IdentifierDB.wf db ∧ accounted db ∧ IdentifierDB.size db = sz ∧ used db = X.

Lemma holds_new sz :
  0 ≤ sz ≤ 4294967264 → ∃ db, IdentifierDB_Alloc true true sz = Some db ∧ holds sz ∅ (Live db).
Proof.
  intros Hsz. destruct (IdentifierDB_Alloc true true sz) as [db |] eqn:E; [| done].
  exists db. split; [done |]. destruct (Alloc_wf sz db Hsz E) as (_ & _ & Hu & _).
  destruct (alloc_reach_inv sz db Hsz (reach_init sz db E)) as (? & ? & ?). by exists db.
Qed.

Lemma holds_range sz X p id : holds sz X p → id ∈ X → 0 ≤ id < sz.
Proof. intros (db & _ & _ & _ & <- & <-). rewrite elem_of_used. tauto. Qed.

Lemma holds_size sz X p : holds sz X p → Z.of_nat (base.size X) ≤ sz.
Proof. intros (db & _ & Hwf & _ & <- & <-). by apply used_le. Qed.

Section OnDb.
Context {T : Type} `{AllocType T}.
Implicit Types s : VMAccelAllocator T.
Context (get : VMAccelAllocator T → heap IdentifierDB)
  (set : heap IdentifierDB → VMAccelAllocator T → VMAccelAllocator T).

Lemma on_db_alloc sz X s :
  holds sz X (get s) → Z.of_nat (base.size X) < sz →
  ∃ id p, on_db get set IdentifierDB_AllocId s = Done (Some id) (set p s) ∧
          0 ≤ id < sz ∧ id ∉ X ∧ holds sz ({[id]} ∪ X) p.
Proof.
  intros (db & Hp & Hwf & Hacc & Hs & Hu) Hlt.
  destruct (AllocId_accounted db Hwf Hacc) as (id & db' & Hrun & Hwf' & Hacc' & [Hs' _] & Hid & Hn & _ & Hu');
    [by rewrite Hu, Hs |].
  exists id, (Live db'). unfold on_db. rewrite Hp. simpl. rewrite Hrun. split; [done |].
  split; [lia |]. split; [by rewrite <- Hu |]. exists db'.
  split; [done |]. split; [done |]. split; [done |]. split; [congruence |]. by rewrite Hu', Hu.
Qed.

Lemma on_db_full sz X s :
  holds sz X (get s) → Z.of_nat (base.size X) = sz →
  on_db get set IdentifierDB_AllocId s = Done None (set (get s) s).
Proof.
  intros (db & Hp & Hwf & Hacc & Hs & Hu) Hfull. unfold on_db. rewrite Hp. simpl.
  by rewrite AllocId_full by (done || by rewrite Hu, Hs).
Qed.

Lemma on_db_release sz X s id :
  holds sz X (get s) → id ∈ X →
  ∃ p, on_db get set (IdentifierDB_ReleaseId id) s = Done tt (set p s) ∧ holds sz (X ∖ {[id]}) p.
Proof.
  intros (db & Hp & Hwf & Hacc & Hs & Hu) Hid. rewrite <- Hu in Hid.
  destruct (ReleaseId_accounted db id Hwf Hacc Hid) as (db' & Hrun & Hwf' & Hacc' & [Hs' _] & Hu').
  exists (Live db'). unfold on_db. rewrite Hp. simpl. rewrite Hrun. split; [done |].
  exists db'. split; [done |]. split; [done |]. split; [done |]. split; [congruence |]. by rewrite Hu', Hu.
Qed.

Lemma on_db_active sz X s id :
  holds sz X (get s) → 0 ≤ id →
  on_db get set (IdentifierDB_ActiveId id) s = Done (bool_decide (id ∈ X)) (set (get s) s).
Proof.
  intros (db & Hp & Hwf & _ & _ & <-) Hid. unfold on_db. rewrite Hp. simpl.
  unfold IdentifierDB_ActiveId. by rewrite ActiveId_eq by done.
Qed.

(** Releasing an id below the size that is not in use fails an assertion. *)
Lemma on_db_release_refused sz X s id :
  holds sz X (get s) → 0 ≤ id < sz → id ∉ X → on_db get set (IdentifierDB_ReleaseId id) s = Fault AssertFailed.
Proof.
  intros (db & Hp & Hwf & Hacc & Hs & Hu) Hid Hn. unfold on_db. rewrite Hp. simpl. rewrite <- Hu in Hn.
  rewrite (ReleaseId_refused db id Hwf ltac:(lia) Hn), Hs.
  by destruct (Z.leb_spec sz id); [lia |].
Qed.

Lemma on_db_release_inv sz X s id u s' :
  holds sz X (get s) → 0 ≤ id < sz → on_db get set (IdentifierDB_ReleaseId id) s = Done u s' → id ∈ X.
Proof.
  intros Hh Hid Hrun. destruct (decide (id ∈ X)) as [| Hn]; [done |].
  by rewrite (on_db_release_refused sz X s id Hh Hid Hn) in Hrun.
Qed.
End OnDb.

(** ** Workloads *)

(** The nine dimensions. *)
Definition dims : list (VMAccelWorkloadDesc → Z) :=
  [megaFlops; megaOps; llcSizeKB; llcBandwidthMBSec; localMemSizeKB; localMemBandwidthMBSec;
   nonLocalMemSizeKB; nonLocalMemBandwidthMBSec; interconnectBandwidthMBSec].

Ltac each_dim Hf := repeat (apply elem_of_cons in Hf as [-> | Hf]; [simpl | ]); [.. | by apply elem_of_nil in Hf].

Lemma dims_map2 f op a b : f ∈ dims → f (workload_map2 op a b) = u32 (op (f a) (f b)).
Proof. intros Hf. each_dim Hf; done. Qed.

Lemma dims_zero f : f ∈ dims → f zero_VMAccelWorkloadDesc = 0.
Proof. intros Hf. each_dim Hf; done. Qed.

Definition nonneg (w : VMAccelWorkloadDesc) : Prop := ∀ f, f ∈ dims → 0 ≤ f w.
Definition covers (w v : VMAccelWorkloadDesc) : Prop := ∀ f, f ∈ dims → f v ≤ f w.

Lemma workload_sum_total w : workload_sum w = total (λ f, f w) dims.
Proof. unfold workload_sum, dims. simpl. lia. Qed.

Lemma workload_sum_le w v : covers w v → workload_sum v ≤ workload_sum w.
Proof.
  intros Hc. rewrite !workload_sum_total. unfold covers in Hc. revert Hc. generalize dims.
  intros l Hc. induction l as [| f l IH]; [done |]. simpl.
  pose proof (Hc f ltac:(set_solver)). pose proof (IH ltac:(set_solver)). lia.
Qed.

Lemma dim_le_sum w f : nonneg w → f ∈ dims → f w ≤ workload_sum w.
Proof.
  intros Hw Hf. rewrite workload_sum_total.
  by apply (total_le_elem (λ g : VMAccelWorkloadDesc → Z, g w)).
Qed.

(** A sum below 2^32 is zero only for the empty workload. *)
Lemma sum_zero w f : nonneg w → workload_sum w < UINT_MOD → u32 (workload_sum w) = 0 → f ∈ dims → f w = 0.
Proof.
  intros Hw Hlt Hz Hf. pose proof (dim_le_sum w f Hw Hf). pose proof (Hw f Hf).
  rewrite u32_small in Hz by (u32_unfold; lia). lia.
Qed.

(** ** The pool *)

Notation obj := (VMAccelObject VMAccelDesc).
Notation cap o := (VMAccelDesc_capacity (GetObj o)).

(** What the object [o] holds of dimension [f] of accelerator [p]. *)
Definition share (p : Z) (f : VMAccelWorkloadDesc → Z) (o : obj) : Z :=
  if GetParentId o =? p then f (cap o) else 0.

Definition one_per_parent (pool : list obj) : Prop := NoDup (GetParentId <$> pool).

Lemma one_per_parent_lookup pool i j a b :
  one_per_parent pool → pool !! i = Some a → pool !! j = Some b → GetParentId a = GetParentId b → i = j.
Proof.
  intros Hn Ha Hb Hab. apply (NoDup_lookup (GetParentId <$> pool) i j (GetParentId a) Hn);
    rewrite list_lookup_fmap; [by rewrite Ha | by rewrite Hb, Hab].
Qed.

Lemma fmap_delete {A B} (h : A → B) (i : nat) (l : list A) : h <$> delete i l = delete i (h <$> l).
Proof. revert i. induction l as [| a l IH]; intros [| i]; simpl; try done. f_equal. apply IH. Qed.

Lemma NoDup_delete {A} (i : nat) (l : list A) : NoDup l → NoDup (delete i l).
Proof. intros Hl. apply (sublist_NoDup _ l); [done | apply sublist_delete]. Qed.

Lemma elem_of_delete_parent pool i a b :
  one_per_parent pool → pool !! i = Some a →
  b ∈ delete i pool ↔ b ∈ pool ∧ GetParentId b ≠ GetParentId a.
Proof.
  intros Hn Hi. split.
  - intros Hb. apply list_elem_of_lookup in Hb as [j Hj]. destruct (decide (j < i)%nat).
    + rewrite list_lookup_delete_lt in Hj by lia. split; [by eapply list_elem_of_lookup_2 |].
      intros E. pose proof (one_per_parent_lookup _ _ _ _ _ Hn Hj Hi E). lia.
    + rewrite list_lookup_delete_ge in Hj by lia. split; [by eapply list_elem_of_lookup_2 |].
      intros E. pose proof (one_per_parent_lookup _ _ _ _ _ Hn Hj Hi E). lia.
  - intros [Hb Hne]. rewrite <- (take_drop_middle pool i a Hi) in Hb.
    rewrite delete_take_drop. set_solver.
Qed.

Lemma bound_all_false {A} (f : A → bool) l : (∀ a, a ∈ l → f a = false) → bound f l = Done O l.
Proof.
  intros Hl. unfold bound. destruct l as [| a l]; [done |]. simpl. rewrite (Hl a) by set_solver.
  assert (forallb (λ y, negb (f y)) l = true) as ->; [| done].
  apply forallb_forall. intros b Hb. rewrite Hl; [done |]. apply list_elem_of_In in Hb. set_solver.
Qed.

Lemma bound_all_true {A} (f : A → bool) l : (∀ a, a ∈ l → f a = true) → bound f l = Done (length l) l.
Proof.
  intros Hl. unfold bound.
  assert (partitioned f l = true ∧ prefix_length f l = length l) as [-> ->]; [| done].
  induction l as [| a l IH]; [done |]. simpl. rewrite (Hl a) by set_solver.
  destruct IH as [-> ->]; [set_solver |]. done.
Qed.

(** An object of a new accelerator goes to the front of the pool. *)
Lemma insert_front pool o :
  (∀ e, e ∈ pool → GetParentId e ≠ GetParentId o) →
  multiset_insert VMAccelDescCmp o pool = Done true (o :: pool).
Proof.
  intros Hp. unfold multiset_insert, upper_bound. mrun. rewrite bound_all_false; [done |].
  intros e He. unfold VMAccelDescCmp. specialize (Hp e He).
  destruct (Z.eqb_spec (GetParentId o) (GetParentId e)); [congruence | done].
Qed.

Lemma total_share_none pool p f :
  p ∉ GetParentId <$> pool → total (share p f) pool = 0.
Proof.
  intros Hp. apply total_zero. intros e He. unfold share.
  destruct (Z.eqb_spec (GetParentId e) p) as [<- |]; [| done].
  destruct Hp. by apply list_elem_of_fmap_2.
Qed.

(** The only object of an accelerator is all that is free of it. *)
Lemma total_share_entry pool i e f :
  one_per_parent pool → pool !! i = Some e → total (share (GetParentId e) f) pool = f (cap e).
Proof.
  intros Hn Hi. pose proof (total_delete (share (GetParentId e) f) pool i e Hi) as Ht.
  rewrite total_share_none in Ht; [unfold share in Ht at 2; rewrite Z.eqb_refl in Ht; lia |].
  intros (b & Hb & Hin)%list_elem_of_fmap. apply (elem_of_delete_parent pool i e b Hn Hi) in Hin as [_ ?]. done.
Qed.

Lemma cap_DeepCopy lhs rhs : VMAccelDesc_capacity (desc_DeepCopy lhs rhs) = VMAccelDesc_capacity rhs.
Proof. done. Qed.

(** How a pool changes when the object [o] joins it. *)
Record joined (o : obj) (pool pool' : list obj) : Prop := {
  joined_unique : one_per_parent pool';
  joined_parents q : q ∈ GetParentId <$> pool' ↔ q = GetParentId o ∨ q ∈ GetParentId <$> pool;
  joined_total p f : f ∈ dims → total (share p f) pool' = total (share p f) pool + share p f o;
  joined_nonneg : (∀ e, e ∈ pool → nonneg (cap e)) → nonneg (cap o) → ∀ e, e ∈ pool' → nonneg (cap e);
}.

Lemma joined_cons o pool :
  one_per_parent pool → GetParentId o ∉ GetParentId <$> pool → joined o pool (o :: pool).
Proof.
  intros Hn Hp. split.
  - by apply list.NoDup_cons.
  - intros q. rewrite fmap_cons, elem_of_cons. done.
  - intros p f _. simpl. lia.
  - set_solver.
Qed.

Lemma desc_FreeObj_join pool o :
  one_per_parent pool →
  (∀ f, f ∈ dims → 0 ≤ total (share (GetParentId o) f) pool + f (cap o) < UINT_MOD) →
  ∃ pool', desc_FreeObj o pool = Done true pool' ∧ joined o pool pool'.
Proof.
  intros Hn Hb. unfold desc_FreeObj. mrun.
  destruct (list_find _ pool) as [[i e] |] eqn:Ef.
  - apply list_find_Some in Ef as (Hi & Hpe & _). simpl. rewrite insert_front.
    2: { intros b Hin%(elem_of_delete_parent pool i e b Hn Hi). simpl. destruct Hin. congruence. }
    eexists. split; [done |]. set (m := mkVMAccelObject _ _ _).
    assert (∀ f, f ∈ dims → f (cap m) = f (cap e) + f (cap o)) as Hm.
    { intros f Hf. specialize (Hb f Hf). rewrite <- Hpe, (total_share_entry pool i e f Hn Hi) in Hb.
      unfold m. simpl. unfold workload_add. rewrite dims_map2 by done.
      apply u32_small. by u32_unfold. }
    split.
    + apply list.NoDup_cons. split.
      * intros (b & Hbe & Hin)%list_elem_of_fmap. apply (elem_of_delete_parent pool i e b Hn Hi) in Hin as [_ ?].
        simpl in Hbe. congruence.
      * change (NoDup (GetParentId <$> delete i pool)). rewrite fmap_delete. by apply NoDup_delete.
    + intros q. rewrite fmap_cons, elem_of_cons. simpl. split; intros [-> | Hq]; [by left | | by left |].
      * right. apply list_elem_of_fmap in Hq as (b & -> & Hin). apply list_elem_of_fmap_2.
        by apply (elem_of_delete_parent pool i e b Hn Hi) in Hin as [? _].
      * destruct (decide (q = GetParentId o)) as [| Hne]; [by left | right].
        apply list_elem_of_fmap in Hq as (b & -> & Hin). apply list_elem_of_fmap_2.
        apply (elem_of_delete_parent pool i e b Hn Hi). split; [done | congruence].
    + intros p f Hf. change (share p f m + total (share p f) (delete i pool) = total (share p f) pool + share p f o).
      rewrite (total_delete _ pool i e Hi).
      assert (share p f m = share p f e + share p f o); [| lia].
      unfold share. rewrite (Hm f Hf), Hpe. change (GetParentId m) with (GetParentId o).
      destruct (GetParentId o =? p); lia.
    + intros Hp Ho b [-> | Hin]%elem_of_cons.
      * intros f Hf. rewrite (Hm f Hf). pose proof (Ho f Hf).
        pose proof (Hp e (list_elem_of_lookup_2 _ _ _ Hi) f Hf). lia.
      * apply (elem_of_delete_parent pool i e b Hn Hi) in Hin as [? _]. by apply Hp.
  - apply list_find_None in Ef. rewrite Forall_forall in Ef. rewrite insert_front by (intros e He; by apply Ef, list_elem_of_In).
    eexists. split; [done |]. apply joined_cons; [done |].
    intros (b & Hbe & Hin)%list_elem_of_fmap. by apply (Ef b); [apply list_elem_of_In |].
Qed.

Lemma desc_FreeObj_fresh pool o :
  GetParentId o ∉ GetParentId <$> pool → desc_FreeObj o pool = Done true (o :: pool).
Proof.
  intros Hp. assert (∀ e, e ∈ pool → GetParentId e ≠ GetParentId o) as Hne.
  { intros e He Heq. destruct Hp. rewrite <- Heq. by apply list_elem_of_fmap_2. }
  unfold desc_FreeObj. mrun. rewrite (proj2 (list_find_None _ _)); [by apply insert_front |].
  apply Forall_forall. intros e He%list_elem_of_In. by apply Hne.
Qed.

(** ** What [lower_bound] finds *)

Lemma bound_found {A} (f : A → bool) l i l' e :
  bound f l = Done i l' → l' = l ∧ (l !! i = Some e → f e = false).
Proof.
  unfold bound. destruct (partitioned f l); [| done]. intros [= <- <-]. split; [done |].
  induction l as [| a l IH]; [done |]. simpl. destruct (f a) eqn:E; simpl; [done |]. congruence.
Qed.

Lemma bound_last {A} (f : A → bool) pre e :
  (∀ a, a ∈ pre → f a = true) → f e = false → bound f (pre ++ [e]) = Done (length pre) (pre ++ [e]).
Proof.
  intros Hpre He. unfold bound.
  assert (partitioned f (pre ++ [e]) = true ∧ prefix_length f (pre ++ [e]) = length pre) as [-> ->]; [| done].
  induction pre as [| a pre IH]; simpl; [by rewrite He |]. rewrite (Hpre a) by set_solver.
  destruct IH as [-> ->]; [set_solver |]. done.
Qed.

Lemma bound_not_last {A} (f : A → bool) pre e b post :
  (∀ a, a ∈ pre → f a = true) → f e = false → f b = true →
  bound f (pre ++ e :: b :: post) = Fault Undefined.
Proof.
  intros Hpre He Hb. unfold bound.
  assert (partitioned f (pre ++ e :: b :: post) = false) as ->; [| done].
  induction pre as [| a pre IH]; simpl; [by rewrite He, Hb |]. rewrite (Hpre a) by set_solver.
  apply IH. set_solver.
Qed.

(** The pool has an object of [p] that is large enough for [w]. *)
Definition fits (pool : list obj) (p : Z) (w : VMAccelWorkloadDesc) (e : obj) : Prop :=
  e ∈ pool ∧ GetParentId e = p ∧ workload_lt (cap e) w = false.

Lemma cmp_true e p (a : VMAccelDesc) :
  VMAccelDescCmp e (new_object p a) = true ↔
  (GetParentId e = p → workload_lt (cap e) (VMAccelDesc_capacity a) = true).
Proof.
  unfold VMAccelDescCmp. simpl. destruct (Z.eqb_spec (GetParentId e) p) as [-> | Hne]; simpl; naive_solver.
Qed.

Lemma lower_bound_none pool p (a : VMAccelDesc) :
  (∀ e, ¬ fits pool p (VMAccelDesc_capacity a) e) →
  lower_bound VMAccelDescCmp (new_object p a) pool = Done (length pool) pool.
Proof.
  intros Hno. apply bound_all_true. intros e He. apply cmp_true. intros Hp.
  destruct (workload_lt _ _) eqn:E; [done |]. by destruct (Hno e).
Qed.

Lemma lower_bound_fits pool pre p (a : VMAccelDesc) e post :
  one_per_parent pool → pool = pre ++ e :: post → fits pool p (VMAccelDesc_capacity a) e →
  lower_bound VMAccelDescCmp (new_object p a) pool =
    match post with [] => Done (length pre) pool | _ => Fault Undefined end.
Proof.
  intros Hn -> (_ & Hp & Hlt). unfold one_per_parent in Hn. rewrite fmap_app, fmap_cons in Hn.
  apply list.NoDup_app in Hn as (_ & Hpre & [Hpost _]%list.NoDup_cons).
  assert (∀ b, b ∈ pre → VMAccelDescCmp b (new_object p a) = true) as Hb.
  { intros b Hin. apply cmp_true. intros E. destruct (Hpre (GetParentId b)); [by apply list_elem_of_fmap_2 |].
    rewrite E, <- Hp. by left. }
  assert (VMAccelDescCmp e (new_object p a) = false) as He.
  { destruct (VMAccelDescCmp e _) eqn:E; [| done]. apply cmp_true in E; [congruence | done]. }
  destruct post as [| b post]; [by apply bound_last |]. apply bound_not_last; [done | done |].
  apply cmp_true. intros E. destruct Hpost. rewrite Hp, <- E. by left.
Qed.

(** [Reserve] cuts the request off the object. *)
Lemma desc_Reserve_inv a req d r :
  desc_Reserve a req = Some (d, r) →
  workload_lt (VMAccelDesc_capacity a) (VMAccelDesc_capacity req) = false ∧
  VMAccelDesc_capacity d = VMAccelDesc_capacity req ∧
  VMAccelDesc_capacity r = workload_sub (VMAccelDesc_capacity a) (VMAccelDesc_capacity req).
Proof.
  unfold desc_Reserve. cbv zeta. destruct (workload_lt (VMAccelDesc_capacity a) _) eqn:E; [done |].
  match goal with |- context [if ?c then _ else _] => destruct c end; [| done]. intros Hs. injection Hs as <- <-.
  split; [done |]. split; reflexivity.
Qed.

(** ... and refuses a request that asks for nothing in the compared dimensions. *)
Definition asks (w : VMAccelWorkloadDesc) : Prop := 0 < localMemSizeKB w ∨ 0 < megaFlops w ∨ 0 < megaOps w.

Lemma desc_Reserve_some a req :
  (∀ f, f ∈ dims → is_u32 (f (VMAccelDesc_capacity a))) → nonneg (VMAccelDesc_capacity req) →
  workload_lt (VMAccelDesc_capacity a) (VMAccelDesc_capacity req) = false →
  is_Some (desc_Reserve a req) ↔ asks (VMAccelDesc_capacity req).
Proof.
  intros Ha Hw Hlt. unfold desc_Reserve. rewrite Hlt. simpl. unfold workload_lt in *. simpl.
  pose proof (Ha megaFlops ltac:(set_solver)). pose proof (Ha megaOps ltac:(set_solver)).
  pose proof (Ha localMemSizeKB ltac:(set_solver)). pose proof (Hw megaFlops ltac:(set_solver)).
  pose proof (Hw megaOps ltac:(set_solver)). pose proof (Hw localMemSizeKB ltac:(set_solver)).
  repeat rewrite orb_false_iff in Hlt. rewrite !Z.ltb_ge in Hlt. unfold asks.
  rewrite !u32_small by (u32_unfold; lia).
  match goal with |- context [if ?c then _ else _] => destruct c eqn:Ec end.
  - split; [| by eexists]. intros _. repeat rewrite orb_true_iff in Ec. rewrite !Z.ltb_lt in Ec. lia.
  - split; [by intros [? ?] |]. repeat rewrite orb_false_iff in Ec. rewrite !Z.ltb_ge in Ec. lia.
Qed.
