(* ===== verification/Ledger.v ===== *)
(** * The ledger of the accelerator manager

    What the manager's vectors and its free pool say of each registered
    accelerator: everything registered is free or allocated, the load is what
    is allocated, the reference count is the number of allocations.  The
    ledger is stated on the data alone; each operation of the allocator makes
    one of the transitions below. *)

From S2P Require Import Prelude IdentifierDB XdrRuntime RpcTypes Backend Allocator AllocTypes AllocPool.
Import Desc.
Open Scope Z_scope.
Open Scope list_scope.

(** An object counts for its accelerator. *)
Definition count (p : Z) (o : obj) : Z := if GetParentId o =? p then 1 else 0.

(** A description the ledger can account for exactly. *)
Definition sound (w : VMAccelWorkloadDesc) : Prop := nonneg w ∧ workload_sum w < UINT_MOD.

Section Ledger.
Variable N : Z.
Hypothesis HN : 0 ≤ N ≤ 4294967264.

(** [R] and [E] are the registered and the external ids in use. *)
Record ledger (R E : gset Z) (registered load : list VMAccelDesc) (refs : list Z)
    (pool allocated : list obj) : Prop := {
  l_regs p : p ∈ R → 0 ≤ p < N;
  l_registered : length registered = Z.to_nat N;
  l_loads : length load = Z.to_nat N;
  l_refs : length refs = Z.to_nat N;
  l_allocated : length allocated = Z.to_nat N;
  l_unique : one_per_parent pool;
  l_parents e : e ∈ pool → GetParentId e ∈ R;
  l_nonneg e : e ∈ pool ∨ e ∈ allocated → nonneg (cap e);
  l_owner i o : allocated !! i = Some o →
    if decide (Z.of_nat i ∈ E) then GetParentId o ∈ R else GetParentId o = VMACCEL_INVALID_ID;
  l_sound p d : p ∈ R → registered !! Z.to_nat p = Some d → sound (VMAccelDesc_capacity d);
  l_conserved p d f : p ∈ R → registered !! Z.to_nat p = Some d → f ∈ dims →
    total (share p f) pool + total (share p f) allocated = f (VMAccelDesc_capacity d);
  l_load p d f : 0 ≤ p < N → load !! Z.to_nat p = Some d → f ∈ dims →
    f (VMAccelDesc_capacity d) = total (share p f) allocated;
  l_count p n : 0 ≤ p < N → refs !! Z.to_nat p = Some n → n = total (count p) allocated;
}.

(** Sums over the allocated objects do not see ids that are not in use. *)
Lemma unowned R E registered load refs pool allocated p (g : obj → Z) :
  ledger R E registered load refs pool allocated → p ∉ R → 0 ≤ p < N →
  (∀ o, GetParentId o ≠ p → g o = 0) → total g allocated = 0.
Proof.
  intros HL Hp Hr Hg. apply total_zero. intros o [i Hi]%list_elem_of_lookup. apply Hg. intros <-.
  pose proof (l_owner _ _ _ _ _ _ _ HL i o Hi) as Ho. destruct (decide _); [done |].
  unfold VMACCEL_INVALID_ID, UINT_MAX in Ho. lia.
Qed.

Lemma share_other p f o : GetParentId o ≠ p → share p f o = 0.
Proof. unfold share. by destruct (Z.eqb_spec (GetParentId o) p). Qed.

Lemma count_other p o : GetParentId o ≠ p → count p o = 0.
Proof. unfold count. by destruct (Z.eqb_spec (GetParentId o) p). Qed.

Lemma share_own f o : share (GetParentId o) f o = f (cap o).
Proof. unfold share. by rewrite Z.eqb_refl. Qed.

Lemma lookup_insert_id {A} (l : list A) (i j : Z) a b :
  0 ≤ i → 0 ≤ j → <[Z.to_nat i := a]> l !! Z.to_nat j = Some b →
  (j = i ∧ b = a) ∨ (j ≠ i ∧ l !! Z.to_nat j = Some b).
Proof.
  intros Hi Hj Hl. destruct (decide (j = i)) as [-> | Hne].
  - apply list_lookup_insert_Some in Hl as [(_ & -> & _) | [Hne _]]; [by left | done].
  - rewrite list_lookup_insert_ne in Hl by lia. by right.
Qed.

(** ** Registering an accelerator *)

Lemma ledger_register R E registered load refs pool allocated id a pool' :
  ledger R E registered load refs pool allocated → 0 ≤ id < N → id ∉ R →
  sound (VMAccelDesc_capacity a) → joined (new_object id a) pool pool' →
  ledger ({[id]} ∪ R) E (<[Z.to_nat id := a]> registered) load (<[Z.to_nat id := 0]> refs) pool' allocated.
Proof.
  intros HL Hid Hn [Hnn Hsum] HJ. pose proof HL as HL'. destruct HL'.
  assert (∀ f, total (share id f) pool = 0) as Hpool.
  { intros f. apply total_share_none. intros (e & -> & He)%list_elem_of_fmap. by apply Hn, l_parents0. }
  split; rewrite ?length_insert; try done.
  - intros p [->%elem_of_singleton | Hp]%elem_of_union; [done | by apply l_regs0].
  - by destruct HJ.
  - intros e He. assert (GetParentId e ∈ GetParentId <$> pool') as Hp by (by apply list_elem_of_fmap_2).
    apply (joined_parents _ _ _ HJ) in Hp as [-> | (b & -> & Hb)%list_elem_of_fmap]; simpl; [set_solver |].
    apply elem_of_union_r. by apply l_parents0.
  - intros e [He | He]; [| by apply l_nonneg0; right].
    eapply (joined_nonneg _ _ _ HJ); [intros b Hb; apply l_nonneg0; by left | done | done].
  - intros i o Hi. specialize (l_owner0 i o Hi). destruct (decide _); [set_solver | done].
  - intros p d Hp Hd. apply lookup_insert_id in Hd as [[-> ->] | [Hne Hd]]; [done | | lia |].
    + apply (l_sound0 p); [set_solver | done].
    + apply elem_of_union in Hp as [->%elem_of_singleton | Hp]; [lia |]. by apply l_regs0 in Hp as [? _].
  - intros p d f Hp Hd Hf. rewrite (joined_total _ _ _ HJ) by done.
    apply lookup_insert_id in Hd as [[-> ->] | [Hne Hd]]; [| | lia |].
    + rewrite Hpool, (unowned _ _ _ _ _ _ _ id _ HL Hn Hid (share_other id f)).
      change (share id f (new_object id a)) with (share (GetParentId (new_object id a)) f (new_object id a)).
      rewrite share_own. simpl. lia.
    + rewrite (share_other p f (new_object id a)) by done. rewrite Z.add_0_r. apply l_conserved0; set_solver.
    + apply elem_of_union in Hp as [->%elem_of_singleton | Hp]; [lia |]. by apply l_regs0 in Hp as [? _].
  - intros p n Hp Hr. apply lookup_insert_id in Hr as [[-> ->] | [Hne Hr]]; [| by apply l_count0 | lia | lia].
    symmetry. apply (unowned _ _ _ _ _ _ _ id _ HL Hn Hid (count_other id)).
Qed.

(** ** Unregistering an idle accelerator *)

Lemma ledger_unregister R E registered load refs pool allocated id :
  ledger R E registered load refs pool allocated → id ∈ R →
  refs !! Z.to_nat id = Some 0 →
  ledger (R ∖ {[id]}) E registered load refs (base.filter (λ e : obj, GetParentId e ≠ id) pool) allocated.
Proof.
  intros HL Hid H0. pose proof HL as HL'. destruct HL'.
  assert (∀ o, o ∈ allocated → GetParentId o ≠ id) as Hidle.
  { intros o Ho E0. pose proof (l_count0 id 0 (l_regs0 id Hid) H0) as Hc.
    pose proof (total_le_elem (count id) allocated o) as Hle. unfold count at 2 in Hle.
    rewrite E0, Z.eqb_refl in Hle.
    assert (∀ b, b ∈ allocated → 0 ≤ count id b) by (intros b _; unfold count; destruct (_ =? _); lia).
    specialize (Hle ltac:(done) Ho). lia. }
  split; try done.
  - intros p Hp. apply l_regs0. set_solver.
  - unfold one_per_parent in *. eapply sublist_NoDup; [apply l_unique0 |]. apply fmap_sublist, sublist_filter.
  - intros e [Hne He]%list_elem_of_filter. specialize (l_parents0 e He). set_solver.
  - intros e [[_ He]%list_elem_of_filter | He]; apply l_nonneg0; [by left | by right].
  - intros i o Hi. specialize (l_owner0 i o Hi). pose proof (Hidle o (list_elem_of_lookup_2 _ _ _ Hi)).
    destruct (decide _); [set_solver | done].
  - intros p d Hp. apply l_sound0. set_solver.
  - intros p d f Hp Hd Hf. rewrite total_filter; [apply l_conserved0; set_solver |].
    intros e He Hne. apply share_other. apply dec_stable in Hne. set_solver.
Qed.

(** ** Allocating and freeing *)

Lemma count_range p allocated : 0 ≤ total (count p) allocated ≤ Z.of_nat (length allocated).
Proof.
  induction allocated as [| o l IH]; [done |]. simpl. unfold count at 1 3. destruct (_ =? _); lia.
Qed.

(** The capacity [w] of accelerator [p] has left the pool. *)
Record withdrawn (R : gset Z) (p : Z) (w : VMAccelWorkloadDesc) (pool pool' : list obj) : Prop := {
  w_unique : one_per_parent pool';
  w_parents e : e ∈ pool' → GetParentId e ∈ R;
  w_nonneg e : e ∈ pool' → nonneg (cap e);
  w_total q f : f ∈ dims →
    total (share q f) pool' = total (share q f) pool - (if p =? q then f w else 0);
}.

Lemma ledger_total_nonneg R E registered load refs pool allocated p f :
  ledger R E registered load refs pool allocated → f ∈ dims →
  0 ≤ total (share p f) pool ∧ 0 ≤ total (share p f) allocated.
Proof.
  intros HL Hf. split; apply total_nonneg; intros e He; unfold share; destruct (_ =? _); try lia;
    (eapply (l_nonneg _ _ _ _ _ _ _ HL); [| done]); [by left | by right].
Qed.

(** Nothing in the ledger exceeds what was registered. *)
Lemma ledger_bound R E registered load refs pool allocated p f :
  ledger R E registered load refs pool allocated → p ∈ R → f ∈ dims →
  total (share p f) pool + total (share p f) allocated < UINT_MOD.
Proof.
  intros HL Hp Hf. pose proof (l_regs _ _ _ _ _ _ _ HL p Hp) as Hr.
  destruct (lookup_lt_is_Some_2 registered (Z.to_nat p)) as [d Hd];
    [rewrite (l_registered _ _ _ _ _ _ _ HL); lia |].
  rewrite (l_conserved _ _ _ _ _ _ _ HL p d f Hp Hd Hf).
  destruct (l_sound _ _ _ _ _ _ _ HL p d Hp Hd) as [Hnn Hs]. pose proof (dim_le_sum _ _ Hnn Hf). lia.
Qed.

Lemma ledger_alloc R E registered load refs pool allocated p w pool' x o0 o d n :
  ledger R E registered load refs pool allocated → p ∈ R → nonneg w → withdrawn R p w pool pool' →
  x ∉ E → allocated !! Z.to_nat x = Some o0 → 0 ≤ x → GetParentId o = p → cap o = w →
  load !! Z.to_nat p = Some d → refs !! Z.to_nat p = Some n →
  ledger R ({[x]} ∪ E) registered (<[Z.to_nat p := desc_add d (GetObj o)]> load)
    (<[Z.to_nat p := u32 (n + 1)]> refs) pool' (<[Z.to_nat x := o]> allocated).
Proof.
  intros HL Hp Hw HW Hx Ho0 Hx0 Hpo Hco Hd Hn. pose proof HL as HL'. destruct HL'.
  pose proof (l_regs0 p Hp) as Hpr.
  assert (GetParentId o0 = VMACCEL_INVALID_ID) as Hinv.
  { specialize (l_owner0 _ _ Ho0). rewrite Z2Nat.id in l_owner0 by done. by destruct (decide (x ∈ E)). }
  assert (∀ q f, 0 ≤ q < N → total (share q f) (<[Z.to_nat x := o]> allocated) =
            total (share q f) allocated + (if p =? q then f w else 0)) as Hsh.
  { intros q f Hq. rewrite (total_insert _ _ _ _ _ Ho0), (share_other q f o0)
      by (rewrite Hinv; unfold VMACCEL_INVALID_ID, UINT_MAX; lia).
    unfold share at 2. rewrite Hpo, Hco. lia. }
  assert (∀ q, 0 ≤ q < N → total (count q) (<[Z.to_nat x := o]> allocated) =
            total (count q) allocated + (if p =? q then 1 else 0)) as Hct.
  { intros q Hq. rewrite (total_insert _ _ _ _ _ Ho0), (count_other q o0)
      by (rewrite Hinv; unfold VMACCEL_INVALID_ID, UINT_MAX; lia).
    unfold count at 2. rewrite Hpo. lia. }
  split; rewrite ?length_insert; try done.
  - by destruct HW.
  - by destruct HW.
  - intros e [He | He]; [by apply (w_nonneg _ _ _ _ _ HW) |].
    apply list_elem_of_lookup in He as [j Hj].
    apply list_lookup_insert_Some in Hj as [(_ & -> & _) | [_ Hj]]; [by rewrite Hco |].
    apply l_nonneg0. right. by eapply list_elem_of_lookup_2.
  - intros i b Hi. apply list_lookup_insert_Some in Hi as [(<- & -> & _) | [Hne Hi]].
    + rewrite Z2Nat.id by done. rewrite decide_True by set_solver. by rewrite Hpo.
    + specialize (l_owner0 i b Hi). assert (Z.of_nat i ≠ x) by lia.
      destruct (decide (Z.of_nat i ∈ E)); [rewrite decide_True | rewrite decide_False]; set_solver.
  - intros q b f Hq Hb Hf. rewrite (w_total _ _ _ _ _ HW) by done. rewrite Hsh by (by apply l_regs0).
    rewrite <- (l_conserved0 q b f) by done. lia.
  - intros q b f Hq Hb Hf. rewrite Hsh by done. apply lookup_insert_id in Hb as [[-> ->] | [Hne Hb]]; [| | lia | lia].
    + rewrite Z.eqb_refl. simpl. unfold workload_add. rewrite dims_map2 by done. rewrite Hco.
      rewrite (l_load0 p d f) by done. apply u32_small.
      pose proof (ledger_bound _ _ _ _ _ _ _ p f HL Hp Hf) as Hb.
      destruct (ledger_total_nonneg _ _ _ _ _ _ _ p f HL Hf) as [Hn0 Hn1].
      pose proof (w_total _ _ _ _ _ HW p f Hf) as Hwt. rewrite Z.eqb_refl in Hwt.
      assert (0 ≤ total (share p f) pool').
      { apply total_nonneg. intros e He. unfold share. destruct (_ =? _); [| lia]. by apply (w_nonneg _ _ _ _ _ HW). }
      pose proof (Hw f Hf). u32_unfold. lia.
    + destruct (Z.eqb_spec p q); [congruence |]. rewrite Z.add_0_r. by apply l_load0.
  - intros q m Hq Hm. rewrite Hct by done. apply lookup_insert_id in Hm as [[-> ->] | [Hne Hm]]; [| | lia | lia].
    + rewrite Z.eqb_refl, (l_count0 p n) by done. pose proof (count_range p allocated).
      apply u32_small. u32_unfold. lia.
    + destruct (Z.eqb_spec p q); [congruence |]. rewrite Z.add_0_r. by apply l_count0.
Qed.

Lemma ledger_free R E registered load refs pool allocated x o o1 o2 d n pool' :
  ledger R E registered load refs pool allocated → x ∈ E → 0 ≤ x → allocated !! Z.to_nat x = Some o →
  GetParentId o1 = GetParentId o → cap o1 = cap o → joined o1 pool pool' →
  GetParentId o2 = VMACCEL_INVALID_ID → nonneg (cap o2) →
  load !! Z.to_nat (GetParentId o) = Some d → refs !! Z.to_nat (GetParentId o) = Some n →
  ledger R (E ∖ {[x]}) registered (<[Z.to_nat (GetParentId o) := desc_sub d (GetObj o)]> load)
    (<[Z.to_nat (GetParentId o) := u32 (n - 1)]> refs) pool' (<[Z.to_nat x := o2]> allocated).
Proof.
  intros HL Hx Hx0 Ho Hp1 Hc1 HJ Hp2 Hnn2 Hd Hn. pose proof HL as HL'. destruct HL'.
  set (p := GetParentId o) in *.
  assert (p ∈ R) as Hp.
  { specialize (l_owner0 _ _ Ho). rewrite Z2Nat.id in l_owner0 by done. by rewrite decide_True in l_owner0. }
  pose proof (l_regs0 p Hp) as Hpr.
  assert (∀ q f, 0 ≤ q < N → total (share q f) (<[Z.to_nat x := o2]> allocated) =
            total (share q f) allocated - share q f o) as Hsh.
  { intros q f Hq. rewrite (total_insert _ _ _ _ _ Ho), (share_other q f o2)
      by (rewrite Hp2; unfold VMACCEL_INVALID_ID, UINT_MAX; lia). lia. }
  assert (∀ q, 0 ≤ q < N → total (count q) (<[Z.to_nat x := o2]> allocated) =
            total (count q) allocated - count q o) as Hct.
  { intros q Hq. rewrite (total_insert _ _ _ _ _ Ho), (count_other q o2)
      by (rewrite Hp2; unfold VMACCEL_INVALID_ID, UINT_MAX; lia). lia. }
  assert (∀ q f, share q f o1 = share q f o) as Hs1.
  { intros q f. unfold share. by rewrite Hp1, Hc1. }
  pose proof (list_elem_of_lookup_2 _ _ _ Ho) as Hin.
  assert (∀ f, share p f o = f (cap o)) as Hown by (intros f; apply share_own).
  assert (count p o = 1) as Hcown by (unfold count, p; by rewrite Z.eqb_refl).
  split; rewrite ?length_insert; try done.
  - by destruct HJ.
  - intros e He. assert (GetParentId e ∈ GetParentId <$> pool') as Hpe by (by apply list_elem_of_fmap_2).
    apply (joined_parents _ _ _ HJ) in Hpe as [-> | (b & -> & Hb)%list_elem_of_fmap];
      [by rewrite Hp1 | by apply l_parents0].
  - intros e [He | He].
    + eapply (joined_nonneg _ _ _ HJ); [intros b Hb; apply l_nonneg0; by left | | done].
      rewrite Hc1. apply l_nonneg0. by right.
    + apply list_elem_of_lookup in He as [j Hj].
      apply list_lookup_insert_Some in Hj as [(_ & -> & _) | [_ Hj]]; [done |].
      apply l_nonneg0. right. by eapply list_elem_of_lookup_2.
  - intros i b Hi. apply list_lookup_insert_Some in Hi as [(<- & -> & _) | [Hne Hi]].
    + rewrite Z2Nat.id by done. by rewrite decide_False by set_solver.
    + specialize (l_owner0 i b Hi). assert (Z.of_nat i ≠ x) by lia.
      destruct (decide (Z.of_nat i ∈ E)); [rewrite decide_True | rewrite decide_False]; set_solver.
  - intros q b f Hq Hb Hf. rewrite (joined_total _ _ _ HJ) by done. rewrite Hs1, Hsh by (by apply l_regs0).
    rewrite <- (l_conserved0 q b f) by done. lia.
  - intros q b f Hq Hb Hf. rewrite Hsh by done. apply lookup_insert_id in Hb as [[-> ->] | [Hne Hb]]; [| | lia | lia].
    + simpl. unfold workload_sub. rewrite dims_map2 by done. rewrite (l_load0 p d f) by done.
      rewrite Hown. apply u32_small.
      pose proof (ledger_bound _ _ _ _ _ _ _ p f HL Hp Hf). pose proof (l_nonneg0 o (or_intror Hin) f Hf).
      destruct (ledger_total_nonneg _ _ _ _ _ _ _ p f HL Hf) as [Hn0 _].
      assert (f (cap o) ≤ total (share p f) allocated).
      { rewrite <- Hown. apply total_le_elem; [| done]. intros e He. unfold share.
        destruct (_ =? _); [| lia]. by apply (l_nonneg0 e (or_intror He)). }
      u32_unfold. lia.
    + rewrite share_other by (fold p; congruence). rewrite Z.sub_0_r. by apply l_load0.
  - intros q m Hq Hm. rewrite Hct by done. apply lookup_insert_id in Hm as [[-> ->] | [Hne Hm]]; [| | lia | lia].
    + rewrite (l_count0 p n) by done. rewrite Hcown.
      assert (1 ≤ total (count p) allocated).
      { rewrite <- Hcown. apply total_le_elem; [| done]. intros e _. unfold count. destruct (_ =? _); lia. }
      pose proof (count_range p allocated). apply u32_small. u32_unfold. lia.
    + rewrite count_other by (fold p; congruence). rewrite Z.sub_0_r. by apply l_count0.
Qed.
End Ledger.
