(* ===== verification/Accounting.v ===== *)
(** * How the accelerator manager's operations run

    On a state whose vectors, pool and databases form a ledger, each operation
    of [VMAccelAllocator<VMAccelDesc, VMAccelDescCmp>] returns, is refused, or
    reaches a search of the multiset that is not specified; the ledger is kept. *)

From S2P Require Import Prelude IdentifierDB XdrRuntime RpcTypes Backend.
From S2P Require Import Allocator AllocTypes AllocPool Ledger.
Import Desc.
Open Scope Z_scope.
Open Scope list_scope.

Notation accelAllocator := (VMAccelAllocator VMAccelDesc).

(** ** Primitive steps *)

Section Steps.
Implicit Types s : accelAllocator.

Lemma vec_modify_run {A} (get : accelAllocator → list A) set i f s x :
  get s !! Z.to_nat i = Some x →
  vec_modify get set i f s = Done tt (set (<[Z.to_nat i := f x]> (get s)) s).
Proof. intros Hx. unfold vec_modify. mrun. by rewrite Hx. Qed.

Lemma vec_read_run {A} (get : accelAllocator → list A) i s x :
  get s !! Z.to_nat i = Some x → vec_read get i s = Done x s.
Proof. intros Hx. unfold vec_read. mrun. by rewrite Hx. Qed.

Lemma on_free_run {A} (m : M (list obj) A) s a pool :
  m (al_free s) = Done a pool → on_free m s = Done a (set_pool pool s).
Proof. intros Hm. unfold on_free, zoom. by rewrite Hm. Qed.

Lemma set_pool_same s : set_pool (al_free s) s = s.
Proof. by destruct s. Qed.
Lemma set_registeredIds_same s : set_registeredIds (al_registeredIds s) s = s.
Proof. by destruct s. Qed.
Lemma set_externalIds_same s : set_externalIds (al_externalIds s) s = s.
Proof. by destruct s. Qed.
Lemma set_freed_same s : set_freed (al_freed s) s = s.
Proof. by destruct s. Qed.

End Steps.

Section Accounting.
Variable N : Z.
Hypothesis HN : 0 ≤ N ≤ 4294967264.
Implicit Types s : accelAllocator.

Record managed (R E : gset Z) s : Prop := {
  mg_regs : holds N R (al_registeredIds s);
  mg_exts : holds N E (al_externalIds s);
  mg_freed : al_freed s = [];
  mg_capacity : length (al_capacity s) = Z.to_nat N;
  mg_ledger : ledger N R E (al_registered s) (al_load s) (al_refCount s) (al_free s) (al_allocated s);
}.

Lemma slot {A} (l : list A) p : length l = Z.to_nat N → 0 ≤ p < N → ∃ x, l !! Z.to_nat p = Some x.
Proof. intros Hl Hp. apply lookup_lt_is_Some_2. lia. Qed.

Lemma total_replicate {A} (g : A → Z) n a : g a = 0 → total g (replicate n a) = 0.
Proof. intros Ha. apply total_zero. intros b Hb. apply elem_of_replicate in Hb as [-> _]. done. Qed.

Lemma new_managed storage id0 : managed ∅ ∅ (new_allocator true storage N id0).
Proof.
  destruct (holds_new N HN) as (db & Hdb & Hh). unfold new_allocator. rewrite Hdb.
  split; simpl; [done | done | done | by rewrite length_replicate |].
  assert (∀ p, 0 ≤ p < N → GetParentId (default_object storage) ≠ p) as Hs.
  { intros p Hp. change (VMACCEL_INVALID_ID ≠ p). unfold VMACCEL_INVALID_ID, UINT_MAX. lia. }
  split; rewrite ?length_replicate; try done; try (by intros ? ?%not_elem_of_empty).
  - apply list.NoDup_nil. done.
  - by intros e ?%elem_of_nil.
  - intros e [He | He]; [by apply elem_of_nil in He |]. apply elem_of_replicate in He as [-> _].
    intros f Hf. change (0 ≤ f zero_VMAccelWorkloadDesc). by rewrite dims_zero.
  - intros i o Hi. apply lookup_replicate in Hi as [-> _]. by rewrite decide_False by set_solver.
  - intros p d f Hp Hd Hf. apply lookup_replicate in Hd as [-> _].
    rewrite total_replicate by (by apply share_other, Hs). by apply dims_zero.
  - intros p n Hp Hn. apply lookup_replicate in Hn as [-> _].
    by rewrite total_replicate by (by apply count_other, Hs).
Qed.

(** ** Register *)

Lemma Register_full R E s a :
  managed R E s → Z.of_nat (base.size R) = N → Register a s = Done (VMACCEL_FAIL, 0) s.
Proof.
  intros [Hr _ _ _ _] Hfull. unfold Register, on_registeredIds.
  rewrite (bind_run _ _ _ _ _ (on_db_full _ set_registeredIds N R s Hr Hfull)).
  by rewrite set_registeredIds_same.
Qed.

Lemma Register_run R E s a :
  managed R E s → Z.of_nat (base.size R) < N → sound (VMAccelDesc_capacity a) →
  ∃ id s', Register a s = Done (VMACCEL_SUCCESS, id) s' ∧ id ∉ R ∧ managed ({[id]} ∪ R) E s' ∧
           al_registered s' = <[Z.to_nat id := a]> (al_registered s) ∧ al_allocated s' = al_allocated s ∧
           al_free s' = new_object id a :: al_free s.
Proof.
  intros [Hr He Hf Hc HL] Hlt Ha.
  destruct (on_db_alloc _ set_registeredIds N R s Hr Hlt) as (id & p & Hrun & Hid & Hn & Hr').
  destruct (slot (al_capacity s) id Hc Hid) as [c Hcap].
  destruct (slot (al_registered s) id (l_registered _ _ _ _ _ _ _ _ HL) Hid) as [o Hreg].
  destruct (slot (al_refCount s) id (l_refs _ _ _ _ _ _ _ _ HL) Hid) as [n Href].
  assert (id ∉ GetParentId <$> al_free s) as Hfresh.
  { intros (e & -> & Hin)%list_elem_of_fmap. by apply Hn, (l_parents _ _ _ _ _ _ _ _ HL). }
  unfold Register, on_registeredIds. step Hrun. set (s1 := set_registeredIds p s).
  step (vec_modify_run al_capacity set_capacity id (λ c, obj_add c a) s1 c Hcap). set (s2 := set_capacity _ s1).
  step (vec_modify_run al_registered set_registered id (λ _, a) s2 o Hreg). set (s3 := set_registered _ s2).
  step (vec_modify_run al_refCount set_refCount id (λ _, 0) s3 n Href). set (s4 := set_refCount _ s3).
  assert (FreeObj (new_object id a) (al_free s4) = Done true (new_object id a :: al_free s)) as Hfree.
  { by apply desc_FreeObj_fresh. }
  step (on_free_run _ _ _ _ Hfree).
  exists id, (set_pool (new_object id a :: al_free s) s4). split; [done |]. split; [done |].
  split; [| done]. split; [done | done | done | by simpl; rewrite length_insert |].
  apply (ledger_register N HN R E _ _ _ (al_free s)); [done | done | done | done |].
  by apply joined_cons; [apply (l_unique _ _ _ _ _ _ _ _ HL) |].
Qed.

(** ** Unregister *)

Lemma CoalesceFreed_empty s : al_freed s = [] → CoalesceFreed s = Done tt s.
Proof. unfold CoalesceFreed. mrun. by intros ->. Qed.

Lemma Unregister_busy R E s id n :
  managed R E s → al_refCount s !! Z.to_nat id = Some n → n ≠ 0 → Unregister id s = Done VMACCEL_FAIL s.
Proof.
  intros _ Hn Hne. unfold Unregister. step (vec_read_run al_refCount id s n Hn).
  by destruct (Z.eqb_spec n 0).
Qed.

Lemma Unregister_idle R E s id :
  managed R E s → id ∈ R → al_refCount s !! Z.to_nat id = Some 0 →
  ∃ s', Unregister id s = Done VMACCEL_SUCCESS s' ∧ managed (R ∖ {[id]}) E s' ∧
        al_registered s' = al_registered s ∧ al_allocated s' = al_allocated s ∧
        al_free s' = base.filter (λ e : obj, GetParentId e ≠ id) (al_free s).
Proof.
  intros [Hr He Hf Hc HL] Hid H0.
  destruct (on_db_release _ set_registeredIds N R s id Hr Hid) as (p & Hrun & Hr').
  unfold Unregister. step (vec_read_run al_refCount id s 0 H0). change (negb (0 =? 0)) with false. cbv iota.
  step (CoalesceFreed_empty s Hf). step (vec_read_run al_refCount id s 0 H0).
  step (assert_run (0 =? 0) s eq_refl). unfold on_registeredIds.
  eexists. split; [by step Hrun |]. split; [| done].
  split; [done | done | done | done |]. by apply ledger_unregister.
Qed.

(** ** Alloc *)

(** A request that the compared dimensions admit fits in the others too. *)
Definition admissible s p (w : VMAccelWorkloadDesc) : Prop :=
  nonneg w ∧ ∀ e, fits (al_free s) p w e → covers (cap e) w.

(** What is reserved leaves the pool: the remainder comes back, or there is
    none. *)
Lemma reserve_run R s p a e i d r :
  one_per_parent (al_free s) → (∀ e, e ∈ al_free s → GetParentId e ∈ R ∧ nonneg (cap e)) →
  al_free s !! i = Some e → GetParentId e = p → sound (cap e) →
  covers (cap e) (VMAccelDesc_capacity a) → nonneg (VMAccelDesc_capacity a) →
  desc_Reserve (GetObj e) a = Some (d, r) →
  ∃ pool, reserve_from (new_object p a) (GetObj e) (erase_free i) s =
            Done (Some (new_object p d)) (set_pool pool s) ∧
          withdrawn R p (VMAccelDesc_capacity a) (al_free s) pool.
Proof.
  intros Hn Hpar Hi Hp [Hnn Hsum] Hcov Hw Hres.
  destruct (desc_Reserve_inv _ _ _ _ Hres) as (_ & _ & Hr).
  assert (∀ f, f ∈ dims → f (VMAccelDesc_capacity r) = f (cap e) - f (VMAccelDesc_capacity a)) as Hrf.
  { intros f Hf. rewrite Hr. unfold workload_sub. rewrite dims_map2 by done. apply u32_small.
    pose proof (Hcov f Hf). pose proof (Hw f Hf). pose proof (dim_le_sum _ _ Hnn Hf). u32_unfold. lia. }
  assert (nonneg (VMAccelDesc_capacity r)) as Hrn.
  { intros f Hf. rewrite Hrf by done. pose proof (Hcov f Hf). lia. }
  assert (one_per_parent (delete i (al_free s))) as Hn'.
  { unfold one_per_parent. rewrite fmap_delete. by apply NoDup_delete. }
  assert (p ∉ GetParentId <$> delete i (al_free s)) as Hfresh.
  { intros (b & Hb & Hin)%list_elem_of_fmap. apply (elem_of_delete_parent _ i e b Hn Hi) in Hin as [_ ?]. congruence. }
  assert (∀ b, b ∈ delete i (al_free s) → GetParentId b ∈ R ∧ nonneg (cap b)) as Hpar'.
  { intros b Hin. apply (elem_of_delete_parent _ i e b Hn Hi) in Hin as [? _]. by apply Hpar. }
  assert (∀ q f, total (share q f) (delete i (al_free s)) =
            total (share q f) (al_free s) - (if p =? q then f (cap e) else 0)) as Hdel.
  { intros q f. rewrite (total_delete _ _ i e Hi). unfold share at 2. by rewrite Hp. }
  unfold reserve_from. change (Reserve (GetObj e) (GetObj (new_object p a))) with (desc_Reserve (GetObj e) a).
  rewrite Hres. cbv beta iota. unfold erase_free.
  step (on_free_run (multiset_erase i) s tt (delete i (al_free s)) eq_refl).
  change (IsEmpty r) with (desc_IsEmpty r). unfold desc_IsEmpty.
  destruct (Z.eqb_spec (u32 (workload_sum (VMAccelDesc_capacity r))) 0) as [Hz | Hnz]; cbn [negb].
  - exists (delete i (al_free s)). split; [done |].
    split; [done | by apply Hpar' | by apply Hpar' |]. intros q f Hf. rewrite Hdel.
    assert (workload_sum (VMAccelDesc_capacity r) < UINT_MOD) as Hlt.
    { pose proof (workload_sum_le (cap e) (VMAccelDesc_capacity r)) as Hle.
      assert (covers (cap e) (VMAccelDesc_capacity r)) as Hc by (intros g Hg; rewrite Hrf by done; specialize (Hw g Hg); lia).
      specialize (Hle Hc). lia. }
    pose proof (sum_zero _ f Hrn Hlt Hz Hf) as H0. rewrite Hrf in H0 by done. destruct (p =? q); lia.
  - assert (desc_FreeObj (new_object p r) (delete i (al_free s)) =
              Done true (new_object p r :: delete i (al_free s))) as Hfree.
    { by apply desc_FreeObj_fresh. }
    exists (new_object p r :: delete i (al_free s)).
    split; [by step (on_free_run (FreeObj (new_object p r)) (set_pool (delete i (al_free s)) s) _ _ Hfree) |].
    split.
    + by apply list.NoDup_cons.
    + intros b [-> | Hin]%elem_of_cons; [| by apply Hpar']. simpl. rewrite <- Hp.
      by apply Hpar, (list_elem_of_lookup_2 _ _ _ Hi).
    + intros b [-> | Hin]%elem_of_cons; [done | by apply Hpar'].
    + intros q f Hf. simpl. rewrite Hdel. unfold share at 1. simpl. rewrite (Hrf f Hf). destruct (p =? q); lia.
Qed.

Lemma find_free_none s p a :
  (∀ e, ¬ fits (al_free s) p (VMAccelDesc_capacity a) e) → find_free (new_object p a) s = Done None s.
Proof.
  intros Hno. unfold find_free. step (on_free_run _ s _ _ (lower_bound_none (al_free s) p a Hno)).
  mrun. simpl. rewrite (lookup_ge_None_2 (al_free s)) by done. by rewrite set_pool_same.
Qed.

Lemma find_free_fits s p a pre e post :
  one_per_parent (al_free s) → al_free s = pre ++ e :: post →
  fits (al_free s) p (VMAccelDesc_capacity a) e →
  find_free (new_object p a) s =
    match post with [] => Done (Some (length pre, e)) s | _ => Fault Undefined end.
Proof.
  intros Hn Hpool Hfit. pose proof (lower_bound_fits _ pre p a e post Hn Hpool Hfit) as Hlb.
  unfold find_free. destruct post.
  - step (on_free_run _ s _ _ Hlb). mrun. simpl. rewrite set_pool_same, Hpool.
    rewrite (list_lookup_middle pre [] e) by done. done.
  - apply bind_fault. unfold on_free, zoom.
    change (lower_bound obj_cmp) with (lower_bound VMAccelDescCmp). by rewrite Hlb.
Qed.

(** The external ids are exhausted: nothing happens. *)
Lemma Alloc_full R E s p a d :
  managed R E s → Z.of_nat (base.size E) = N →
  Alloc p a d s = Done ((VMACCEL_FAIL, al_result_id s), d) s.
Proof.
  intros [_ He _ _ _] Hfull. unfold Alloc, on_externalIds. cbv zeta.
  step (on_db_full _ set_externalIds N E s He Hfull). by rewrite set_externalIds_same.
Qed.

(** Nothing is found: the id that was taken is given back. *)
Definition refused R E s p a (d : VMAccelDesc) : Prop :=
  ∃ s', Alloc p a d s = Done ((VMACCEL_RESOURCE_UNAVAILABLE, al_result_id s), d) s' ∧ managed R E s' ∧
        al_registered s' = al_registered s ∧ al_free s' = al_free s ∧ al_allocated s' = al_allocated s.

Lemma give_back R E s id p q a (d : VMAccelDesc) :
  managed R E s → id ∉ E → holds N ({[id]} ∪ E) p → on_externalIds IdentifierDB_AllocId s = Done (Some id) (set_externalIds p s) →
  (it ← find_free (new_object q a);
   match it with
   | Some (i, e) => reserve_from (new_object q a) (GetObj e) (erase_free i)
   | None => FindFreed (new_object q a)
   end) (set_externalIds p s) = Done None (set_externalIds p s) →
  refused R E s q a d.
Proof.
  intros [Hr He Hf Hc HL] Hid Hp Hrun Hnone. apply bind_inv in Hnone as (it & s1 & Hfind & Hnone).
  destruct (on_db_release al_externalIds set_externalIds N _ (set_externalIds p s) id Hp) as (p' & Hrel & Hp'); [set_solver |].
  replace (({[id]} ∪ E) ∖ {[id]}) with E in Hp' by set_solver.
  exists (set_externalIds p' (set_externalIds p s)). split; [| by destruct s].
  unfold Alloc. cbv zeta. step Hrun. step Hfind. step Hnone. unfold on_externalIds. by step Hrel.
Qed.

Lemma Alloc_no_fit R E s p a d :
  managed R E s → Z.of_nat (base.size E) < N →
  (∀ e, ¬ fits (al_free s) p (VMAccelDesc_capacity a) e) → refused R E s p a d.
Proof.
  intros HM Hlt Hno. destruct (on_db_alloc al_externalIds set_externalIds N E s (mg_exts _ _ _ HM) Hlt) as (id & q & Hrun & _ & Hid & Hq).
  apply (give_back R E s id q); [done | done | done | done |].
  step (find_free_none (set_externalIds q s) p a Hno).
  unfold FindFreed. mrun. simpl. by rewrite (mg_freed _ _ _ HM).
Qed.

Lemma Alloc_asks_nothing R E s p a d pre e :
  managed R E s → Z.of_nat (base.size E) < N → al_free s = pre ++ [e] →
  fits (al_free s) p (VMAccelDesc_capacity a) e → desc_Reserve (GetObj e) a = None → refused R E s p a d.
Proof.
  intros HM Hlt Hpool Hfit Hres.
  destruct (on_db_alloc al_externalIds set_externalIds N E s (mg_exts _ _ _ HM) Hlt) as (id & q & Hrun & _ & Hid & Hq).
  apply (give_back R E s id q); [done | done | done | done |].
  pose proof (l_unique _ _ _ _ _ _ _ _ (mg_ledger _ _ _ HM)) as Hn.
  step (find_free_fits (set_externalIds q s) p a pre e [] Hn Hpool Hfit).
  unfold reserve_from. change (Reserve (GetObj e) (GetObj (new_object p a))) with (desc_Reserve (GetObj e) a).
  by rewrite Hres.
Qed.

Lemma Alloc_undefined R E s p a d pre e b post :
  managed R E s → Z.of_nat (base.size E) < N → al_free s = pre ++ e :: b :: post →
  fits (al_free s) p (VMAccelDesc_capacity a) e → Alloc p a d s = Fault Undefined.
Proof.
  intros HM Hlt Hpool Hfit.
  destruct (on_db_alloc al_externalIds set_externalIds N E s (mg_exts _ _ _ HM) Hlt) as (id & q & Hrun & _).
  pose proof (l_unique _ _ _ _ _ _ _ _ (mg_ledger _ _ _ HM)) as Hn.
  unfold Alloc, on_externalIds. cbv zeta. step Hrun. apply bind_fault.
  apply (find_free_fits (set_externalIds q s) p a pre e (b :: post) Hn Hpool Hfit).
Qed.

Lemma pool_sound R E s e : managed R E s → e ∈ al_free s → sound (cap e).
Proof.
  intros [Hr _ _ _ HL] He. pose proof (l_parents _ _ _ _ _ _ _ _ HL e He) as Hp.
  pose proof (l_regs _ _ _ _ _ _ _ _ HL _ Hp) as Hpr.
  destruct (slot (al_registered s) (GetParentId e) (l_registered _ _ _ _ _ _ _ _ HL) Hpr) as [d Hd].
  destruct (l_sound _ _ _ _ _ _ _ _ HL _ d Hp Hd) as [Hnn Hs].
  split; [by apply (l_nonneg _ _ _ _ _ _ _ _ HL); left |].
  eapply Z.le_lt_trans; [| exact Hs]. apply workload_sum_le. intros f Hf.
  rewrite <- (l_conserved _ _ _ _ _ _ _ _ HL _ d f Hp Hd Hf).
  apply list_elem_of_lookup in He as [i Hi].
  rewrite (total_share_entry (al_free s) i e f (l_unique _ _ _ _ _ _ _ _ HL) Hi).
  destruct (ledger_total_nonneg _ _ _ _ _ _ _ _ (GetParentId e) f HL Hf). lia.
Qed.

Lemma desc_Reserve_addr a req d r :
  desc_Reserve a req = Some (d, r) →
  VMAccelAddress_addr (VMAccelDesc_parentAddr d) = VMAccelAddress_addr (VMAccelDesc_parentAddr a).
Proof. unfold desc_Reserve. cbv zeta. repeat case_match; intros [= <- <-]; done. Qed.

(** A reservation does not depend on the ids. *)
Lemma reserve_from_frame (req : obj) (a : VMAccelDesc) i s r pool q :
  reserve_from req a (erase_free i) s = Done r (set_pool pool s) →
  reserve_from req a (erase_free i) (set_externalIds q s) = Done r (set_pool pool (set_externalIds q s)).
Proof.
  unfold reserve_from, erase_free, on_free, zoom. destruct (Reserve a (GetObj req)) as [[dv r'] |]; mrun.
  - cbn [al_free set_pool set_externalIds]. destruct (multiset_erase i (al_free s)) as [[] l |]; [| done].
    destruct (negb (IsEmpty r')); mrun.
    + cbn [al_free set_pool set_externalIds]. destruct (FreeObj _ l) as [? l' |]; [| done]. intros E1. injection E1 as <- Hp.
      by rewrite Hp.
    + intros E1. injection E1 as <- Hp. by rewrite Hp.
  - intros E1. injection E1 as <- Hp. f_equal. destruct s; cbn in *. by injection Hp as ->.
Qed.

(** The state after an allocation of [o] from accelerator [p] under [id]. *)
Definition alloc_state (id : Z) (q : heap IdentifierDB) (p : Z) (pool : list obj) (o : obj) (c ld : VMAccelDesc) (n : Z) s :=
  set_result_id id (set_refCount (<[Z.to_nat p := u32 (n + 1)]> (al_refCount s))
    (set_load (<[Z.to_nat p := obj_add ld (GetObj o)]> (al_load s))
    (set_capacity (<[Z.to_nat p := obj_sub c (GetObj o)]> (al_capacity s))
    (set_allocated (<[Z.to_nat id := o]> (al_allocated s)) (set_pool pool (set_externalIds q s)))))).

(** An allocation that finds an object to reserve from. *)
Lemma Alloc_steps E s p a d i e dv pool c ld n :
  holds N E (al_externalIds s) → Z.of_nat (base.size E) < N →
  (∀ q, find_free (new_object p a) (set_externalIds q s) = Done (Some (i, e)) (set_externalIds q s)) →
  (∀ q, reserve_from (new_object p a) (GetObj e) (erase_free i) (set_externalIds q s) =
          Done (Some (new_object p dv)) (set_pool pool (set_externalIds q s))) →
  length (al_allocated s) = Z.to_nat N → al_capacity s !! Z.to_nat p = Some c → al_load s !! Z.to_nat p = Some ld →
  al_refCount s !! Z.to_nat p = Some n →
  ∃ id q o0, 0 ≤ id < N ∧ id ∉ E ∧ holds N ({[id]} ∪ E) q ∧ al_allocated s !! Z.to_nat id = Some o0 ∧
    let o := assign_object o0 (new_object p dv) in
    Alloc p a d s = Done ((VMACCEL_SUCCESS, id), GetObj o) (alloc_state id q p pool o c ld n s).
Proof.
  intros He Hlt Hfind Hres Hla Hcp Hld Hrf.
  destruct (on_db_alloc al_externalIds set_externalIds N E s He Hlt) as (id & q & Hrun & Hidr & Hid & Hq).
  destruct (slot (al_allocated s) id Hla Hidr) as [o0 Ho0].
  exists id, q, o0. split; [done |]. split; [done |]. split; [done |]. split; [done |]. cbv zeta.
  set (o := assign_object o0 (new_object p dv)).
  unfold Alloc. cbv zeta. unfold on_externalIds. step Hrun. step (Hfind q). step (Hres q).
  set (s1 := set_pool pool (set_externalIds q s)). change (GetParentId (new_object p dv)) with p.
  step (vec_modify_run al_allocated set_allocated id (λ o, assign_object o (new_object p dv)) s1 o0 Ho0).
  set (s2 := set_allocated _ s1).
  assert (al_allocated s2 !! Z.to_nat id = Some o) as Ho by (apply list_lookup_insert_eq; change (al_allocated s1) with (al_allocated s); lia).
  step (vec_read_run al_allocated id s2 o Ho).
  step (vec_modify_run al_capacity set_capacity p (λ c, obj_sub c (GetObj o)) s2 c Hcp). set (s3 := set_capacity _ s2).
  step (vec_modify_run al_load set_load p (λ c, obj_add c (GetObj o)) s3 ld Hld). set (s4 := set_load _ s3).
  by step (vec_modify_run al_refCount set_refCount p (λ n, u32 (n + 1)) s4 n Hrf).
Qed.

Lemma Alloc_run R E s p a d pre e dv r :
  managed R E s → Z.of_nat (base.size E) < N → al_free s = pre ++ [e] →
  fits (al_free s) p (VMAccelDesc_capacity a) e → admissible s p (VMAccelDesc_capacity a) →
  desc_Reserve (GetObj e) a = Some (dv, r) →
  ∃ id o s', Alloc p a d s = Done ((VMACCEL_SUCCESS, id), GetObj o) s' ∧ id ∉ E ∧ 0 ≤ id < N ∧
    managed R ({[id]} ∪ E) s' ∧ al_registered s' = al_registered s ∧
    al_allocated s' = <[Z.to_nat id := o]> (al_allocated s) ∧ GetParentId o = p ∧
    cap o = VMAccelDesc_capacity a ∧ withdrawn R p (VMAccelDesc_capacity a) (al_free s) (al_free s') ∧
    VMAccelAddress_addr (VMAccelDesc_parentAddr (GetObj o)) = VMAccelAddress_addr (VMAccelDesc_parentAddr (GetObj e)).
Proof.
  intros HM Hlt Hpool Hfit [Hw Hcov] Hres.
  pose proof HM as [Hr He Hf Hc HL]. pose proof (l_unique _ _ _ _ _ _ _ _ HL) as Hn.
  pose proof Hfit as (Hin & Hpe & _). pose proof (l_parents _ _ _ _ _ _ _ _ HL e Hin) as HpR. rewrite Hpe in HpR.
  pose proof (l_regs _ _ _ _ _ _ _ _ HL p HpR) as Hpr.
  assert (al_free s !! length pre = Some e) as Hi by (rewrite Hpool; by apply list_lookup_middle).
  destruct (reserve_run R s p a e (length pre) dv r Hn) as (pool & Hrv & HW);
    [| done | done | by eapply pool_sound | by apply Hcov | done | done |].
  { intros b Hb. split; [by apply (l_parents _ _ _ _ _ _ _ _ HL) | apply (l_nonneg _ _ _ _ _ _ _ _ HL); by left]. }
  destruct (slot (al_capacity s) p Hc Hpr) as [c Hcp].
  destruct (slot (al_load s) p (l_loads _ _ _ _ _ _ _ _ HL) Hpr) as [ld Hld].
  destruct (slot (al_refCount s) p (l_refs _ _ _ _ _ _ _ _ HL) Hpr) as [n Hrf].
  destruct (desc_Reserve_inv _ _ _ _ Hres) as (_ & Hdv & _). pose proof (l_allocated _ _ _ _ _ _ _ _ HL) as Hla.
  destruct (Alloc_steps E s p a d (length pre) e dv pool c ld n He Hlt) as (id & q & o0 & Hidr & Hid & Hq & Ho0 & Hrun);
    [| intros q; by apply reserve_from_frame | done | done | done | done |].
  { intros q. apply (find_free_fits (set_externalIds q s) p a pre e [] Hn Hpool Hfit). }
  set (o := assign_object o0 (new_object p dv)) in *.
  assert (cap o = VMAccelDesc_capacity a) as Hco by exact Hdv. assert (id < N) as HidN by lia.
  exists id, o, (alloc_state id q p pool o c ld n s). split; [done |]. split; [done |]. split; [lia |].
  split; [| split_and!; try done; exact (desc_Reserve_addr _ _ _ _ Hres)].
  split; [done | done | done | by simpl; rewrite length_insert |].
  apply (ledger_alloc N HN R E _ _ _ (al_free s) _ p (VMAccelDesc_capacity a) pool id o0); done || lia.
Qed.

(** ** Free *)

Definition free_state (id p : Z) (q : heap IdentifierDB) (pool : list obj) (o : obj) (c ld : VMAccelDesc) (n : Z) s :=
  set_externalIds q (set_allocated (<[Z.to_nat id := assign_object o (default_object obj_zero)]> (al_allocated s))
    (set_refCount (<[Z.to_nat p := u32 (n - 1)]> (al_refCount s))
    (set_load (<[Z.to_nat p := obj_sub ld (GetObj o)]> (al_load s))
    (set_capacity (<[Z.to_nat p := obj_add c (GetObj o)]> (al_capacity s)) (set_pool pool (set_freed [] s)))))).

(** A free whose object goes back to the pool. *)
Lemma Free_steps E s id o c ld n pool :
  holds N E (al_externalIds s) → id ∈ E → al_allocated s !! Z.to_nat id = Some o → al_freed s = [] →
  al_capacity s !! Z.to_nat (GetParentId o) = Some c → al_load s !! Z.to_nat (GetParentId o) = Some ld →
  al_refCount s !! Z.to_nat (GetParentId o) = Some n → desc_FreeObj o (al_free s) = Done true pool →
  ∃ q, holds N (E ∖ {[id]}) q ∧ Free false id s = Done VMACCEL_SUCCESS (free_state id (GetParentId o) q pool o c ld n s).
Proof.
  intros He Hid Ho Hf Hcp Hld Hrf Hfree. pose proof (holds_range _ _ _ _ He Hid) as Hidr.
  destruct (on_db_release al_externalIds set_externalIds N E s id He Hid) as (q & Hrel & Hq). exists q. split; [done |].
  unfold Free, on_externalIds. step (on_db_active _ set_externalIds N E s id He ltac:(lia)).
  rewrite set_externalIds_same, bool_decide_eq_true_2 by done. step (assert_run true s eq_refl).
  step (vec_read_run al_allocated id s o Ho). cbv zeta.
  set (s1 := set_freed (al_freed s ++ [o]) s).
  step (eq_refl : modify (λ s, set_freed (al_freed s ++ [o]) s) s = Done tt s1). cbv [negb].
  assert (CoalesceFreed s1 = Done tt (set_pool pool (set_freed [] s))) as Hco.
  { unfold CoalesceFreed. rewrite (bind_run _ _ s1 [o] s1) by (unfold gets; simpl; by rewrite Hf).
    change (CoalesceFreed_loop [o] s1) with ((on_free (FreeObj o) ≫= λ _, mret tt) (set_freed [] s1)).
    by step (on_free_run (FreeObj o) (set_freed [] s1) true pool Hfree). }
  step Hco. set (s2 := set_pool pool (set_freed [] s)).
  step (vec_modify_run al_capacity set_capacity _ (λ c, obj_add c (GetObj o)) s2 c Hcp). set (s3 := set_capacity _ s2).
  step (vec_modify_run al_load set_load _ (λ c, obj_sub c (GetObj o)) s3 ld Hld). set (s4 := set_load _ s3).
  step (vec_modify_run al_refCount set_refCount _ (λ n, u32 (n - 1)) s4 n Hrf). set (s5 := set_refCount _ s4).
  step (vec_modify_run al_allocated set_allocated id (λ o, assign_object o (default_object obj_zero)) s5 o Ho).
  set (s6 := set_allocated _ s5).
  rewrite (bind_run _ _ s6 tt (set_externalIds q s6)); [done |]. revert Hrel. unfold on_db.
  change (al_externalIds s6) with (al_externalIds s). destruct (deref _); [| done].
  destruct (IdentifierDB_ReleaseId _ _) as [[] |]; [| done]. intros E1. injection E1 as <-. done.
Qed.

Lemma Free_run R E s id o :
  managed R E s → id ∈ E → al_allocated s !! Z.to_nat id = Some o →
  ∃ s' o', Free false id s = Done VMACCEL_SUCCESS s' ∧ managed R (E ∖ {[id]}) s' ∧
    al_registered s' = al_registered s ∧ al_allocated s' = <[Z.to_nat id := o']> (al_allocated s) ∧
    GetParentId o' = VMACCEL_INVALID_ID ∧ joined o (al_free s) (al_free s').
Proof.
  intros HM Hid Ho. pose proof HM as [Hr He Hf Hc HL].
  pose proof (holds_range _ _ _ _ He Hid) as Hidr.
  assert (GetParentId o ∈ R) as HpR.
  { pose proof (l_owner _ _ _ _ _ _ _ _ HL _ _ Ho) as Hown. rewrite Z2Nat.id in Hown by lia.
    by rewrite decide_True in Hown. }
  pose proof (l_regs _ _ _ _ _ _ _ _ HL _ HpR) as Hpr.
  destruct (slot (al_capacity s) _ Hc Hpr) as [c Hcp].
  destruct (slot (al_load s) _ (l_loads _ _ _ _ _ _ _ _ HL) Hpr) as [ld Hld].
  destruct (slot (al_refCount s) _ (l_refs _ _ _ _ _ _ _ _ HL) Hpr) as [n Hrf].
  destruct (desc_FreeObj_join (al_free s) o (l_unique _ _ _ _ _ _ _ _ HL)) as (pool & Hfree & HJ).
  { intros f Hfd. pose proof (ledger_bound _ _ _ _ _ _ _ _ (GetParentId o) f HL HpR Hfd).
    destruct (ledger_total_nonneg _ _ _ _ _ _ _ _ (GetParentId o) f HL Hfd).
    pose proof (list_elem_of_lookup_2 _ _ _ Ho) as Hin.
    pose proof (l_nonneg _ _ _ _ _ _ _ _ HL o (or_intror Hin) f Hfd).
    assert (f (cap o) ≤ total (share (GetParentId o) f) (al_allocated s)); [| lia].
    rewrite <- (share_own f o). apply total_le_elem; [| done]. intros b Hb. unfold share.
    destruct (_ =? _); [| lia]. by apply (l_nonneg _ _ _ _ _ _ _ _ HL b (or_intror Hb)). }
  destruct (Free_steps E s id o c ld n pool He Hid Ho Hf Hcp Hld Hrf Hfree) as (q & Hq & Hrun).
  exists (free_state id (GetParentId o) q pool o c ld n s), (assign_object o (default_object obj_zero)).
  split; [done |]. split; [| done].
  split; [done | done | done | by simpl; rewrite length_insert |].
  apply (ledger_free N HN R E _ _ _ (al_free s) _ id o o); try done; [lia |].
  intros f Hfd. simpl. by rewrite dims_zero.
Qed.
End Accounting.
