(* ===== verification/Manager.v ===== *)
(** * Accelerator manager (accelerators/vmaccel/src/vmaccel_manager.cpp)

    The two allocators of the manager, its power-on self test, the operations
    behind the manager's service (vmaccel_mgr_server.c), the dispatcher
    (vmaccel_mgr_svc.c) and the client stubs (vmaccel_mgr_clnt.c). *)

From S2P Require Import Prelude IdentifierDB XdrRuntime RpcTypes XdrVMAccel Backend.
From S2P Require Import Allocator AllocTypes SunRPC Program.
Import Desc.
Open Scope Z_scope.
Open Scope list_scope.

(** [DEFER_FREE] is not defined in the build. *)
Definition DEFER_FREE : bool := false.

(** The two managers and the retained static of the template's [Alloc]. *)
Record manager := mkManager {
  accelMgr : option (VMAccelAllocator VMAccelDesc);
  memMgr : option (VMAccelAllocator Range.AllocRange);
  alloc_static : Z;
}.

(** ** The self test *)

Section SelfTest.
Import Int.

Definition SELF_TEST_IDS : Z := 2048.

Definition IA (A : Type) : Type := M (VMAccelAllocator Int) A.

Definition test_alloc (parent v expected : Z) : IA Z :=
  '((status, id), _) ← Alloc parent (mkInt v) (mkInt 0);
  _ ← assert (status =? expected);
  mret id.

(** [for (i = 0; i < n; i++) alloc[i] = ...] *)
Fixpoint test_alloc_all (parent : Z) (n : nat) : IA (list Z) :=
  match n with
  | O => mret []
  | S n' =>
      id ← test_alloc parent 1 VMACCEL_SUCCESS;
      ids ← test_alloc_all parent n';
      mret (id :: ids)
  end.

Fixpoint test_free_all (ids : list Z) : IA unit :=
  match ids with
  | [] => mret tt
  | id :: ids' => _ ← Free DEFER_FREE id; test_free_all ids'
  end.

Definition self_test : IA unit :=
  '(status, parent) ← Register (mkInt 65535);
  _ ← assert (status =? VMACCEL_SUCCESS);
  a0 ← test_alloc parent 32768 VMACCEL_SUCCESS;
  status ← Unregister parent;
  _ ← assert (status =? VMACCEL_FAIL);
  _ ← test_alloc parent 32768 VMACCEL_RESOURCE_UNAVAILABLE;
  a1 ← test_alloc parent 16384 VMACCEL_SUCCESS;
  _ ← test_alloc parent 16384 VMACCEL_RESOURCE_UNAVAILABLE;
  _ ← Free DEFER_FREE a1;
  a1 ← test_alloc parent 32767 VMACCEL_SUCCESS;
  _ ← Free DEFER_FREE a1;
  _ ← Free DEFER_FREE a0;
  ids ← test_alloc_all parent (Z.to_nat SELF_TEST_IDS);
  _ ← test_alloc parent 1 VMACCEL_FAIL;
  _ ← test_free_all ids;
  status ← Unregister parent;
  assert (status =? VMACCEL_SUCCESS).

End SelfTest.

(** ** Power and the operations *)

Definition MGR (A : Type) : Type := M manager A.

(** [ok]: whether the databases can be allocated; [storage]: what the memory
    of the new vectors holds. *)
Definition vmaccel_manager_poweron (ok : bool) (storage : VMAccelDesc) : MGR Z := λ m,
  match self_test (new_allocator ok (Int.mkInt 0) SELF_TEST_IDS 0) with
  | Fault f => Fault f
  | Done _ _ =>
      let id0 := match accelMgr m with Some a => al_result_id a | None => alloc_static m end in
      Done VMACCEL_SUCCESS
        (mkManager (Some (new_allocator ok storage VMACCEL_MAX_ACCELERATORS id0))
           (Some (new_allocator ok obj_zero VMACCEL_MAX_ACCELERATORS 0)) id0)
  end.

(** The destructor frees the databases, which must exist. *)
Definition delete_allocator {T} (a : VMAccelAllocator T) : MGR unit :=
  match deref (al_externalIds a), deref (al_registeredIds a) with
  | Some _, Some _ => mret tt
  | _, _ => throw AssertFailed
  end.

Definition vmaccel_manager_poweroff : MGR Z :=
  m ← get;
  _ ← match memMgr m with
      | Some a => _ ← delete_allocator a; modify (λ m, mkManager (accelMgr m) None (alloc_static m))
      | None => mret tt
      end;
  match accelMgr m with
  | Some a =>
      _ ← delete_allocator a;
      _ ← modify (λ m, mkManager None (memMgr m) (al_result_id a));
      mret VMACCEL_SUCCESS
  | None => mret VMACCEL_FAIL
  end.

(** An operation of the accelerator manager; [none] is the answer when there
    is none. *)
Definition on_accelMgr {A} (none : A) (op : M (VMAccelAllocator VMAccelDesc) A) : MGR A :=
  λ m,
  match accelMgr m with
  | None => Done none m
  | Some a =>
      match op a with
      | Done r a' => Done r (mkManager (Some a') (memMgr m) (alloc_static m))
      | Fault f => Fault f
      end
  end.

Definition vmaccel_manager_register (desc : VMAccelDesc) : MGR VMAccelAllocateStatus :=
  '(status, id) ← on_accelMgr (VMACCEL_FAIL, 0) (Register desc);
  mret (mkVMAccelAllocateStatus status id zero_VMAccelDesc).

Definition vmaccel_manager_unregister (id : Z) : MGR VMAccelStatus :=
  status ← on_accelMgr VMACCEL_FAIL (Unregister id);
  mret (mkVMAccelStatus [] status).

Definition vmaccel_manager_alloc (desc : VMAccelDesc) : MGR VMAccelAllocateStatus :=
  '((status, id), d) ← on_accelMgr ((VMACCEL_FAIL, 0), zero_VMAccelDesc)
                         (Alloc (VMAccelDesc_parentId desc) desc zero_VMAccelDesc);
  mret (mkVMAccelAllocateStatus status id d).

Definition vmaccel_manager_free (id : Z) : MGR VMAccelStatus :=
  status ← on_accelMgr VMACCEL_FAIL (Free DEFER_FREE id);
  mret (mkVMAccelStatus [] status).

(** ** The service routines (vmaccel_mgr_server.c): the static union's
    discriminant stays 0. *)

Definition vmaccelmgr_register_1_svc (argp : VMAccelRegisterDesc) : MGR VMAccelAllocateReturnStatus :=
  r ← vmaccel_manager_register (VMAccelRegisterDesc_desc argp);
  mret (mkVMAccelAllocateReturnStatus 0 (Some r)).

Definition vmaccelmgr_unregister_1_svc (argp : Z) : MGR VMAccelReturnStatus :=
  r ← vmaccel_manager_unregister argp; mret (mkVMAccelReturnStatus 0 (Some r)).

Definition vmaccelmgr_alloc_1_svc (argp : VMAccelDesc) : MGR VMAccelAllocateReturnStatus :=
  r ← vmaccel_manager_alloc argp; mret (mkVMAccelAllocateReturnStatus 0 (Some r)).

Definition vmaccelmgr_free_1_svc (argp : Z) : MGR VMAccelReturnStatus :=
  r ← vmaccel_manager_free argp; mret (mkVMAccelReturnStatus 0 (Some r)).

(** ** The program VMACCELMGR (common/inc/vmaccel_mgr.h) *)

Inductive mgr_proc : Type :=
| VMACCELMGR_REGISTER | VMACCELMGR_UNREGISTER | VMACCELMGR_ALLOC | VMACCELMGR_FREE.

Definition mgr_number (p : mgr_proc) : Z :=
  match p with
  | VMACCELMGR_REGISTER => 1 | VMACCELMGR_UNREGISTER => 2
  | VMACCELMGR_ALLOC => 3 | VMACCELMGR_FREE => 4
  end.

Definition mgr_proc_of (n : Z) : option mgr_proc :=
  if n =? 1 then Some VMACCELMGR_REGISTER else if n =? 2 then Some VMACCELMGR_UNREGISTER else
  if n =? 3 then Some VMACCELMGR_ALLOC else if n =? 4 then Some VMACCELMGR_FREE else None.

Definition mgr_arg (p : mgr_proc) : Type :=
  match p with
  | VMACCELMGR_REGISTER => VMAccelRegisterDesc
  | VMACCELMGR_ALLOC => VMAccelDesc
  | _ => Z
  end.

Definition mgr_res (p : mgr_proc) : Type :=
  match p with
  | VMACCELMGR_REGISTER | VMACCELMGR_ALLOC => VMAccelAllocateReturnStatus
  | _ => VMAccelReturnStatus
  end.

Definition mgr_zero_arg (p : mgr_proc) : mgr_arg p :=
  match p with
  | VMACCELMGR_REGISTER => zero_VMAccelRegisterDesc
  | VMACCELMGR_ALLOC => zero_VMAccelDesc
  | _ => 0
  end.

Definition mgr_zero_res (p : mgr_proc) : mgr_res p :=
  match p with
  | VMACCELMGR_REGISTER | VMACCELMGR_ALLOC => zero_VMAccelAllocateReturnStatus
  | _ => zero_VMAccelReturnStatus
  end.

Definition mgr_local (p : mgr_proc) : mgr_arg p → MGR (mgr_res p) :=
  match p with
  | VMACCELMGR_REGISTER => vmaccelmgr_register_1_svc
  | VMACCELMGR_UNREGISTER => vmaccelmgr_unregister_1_svc
  | VMACCELMGR_ALLOC => vmaccelmgr_alloc_1_svc
  | VMACCELMGR_FREE => vmaccelmgr_free_1_svc
  end.

Section Filters.
Context `{XdrRuntime}.

Definition mgr_xdr_argument (p : mgr_proc) : filter (mgr_arg p) :=
  match p with
  | VMACCELMGR_REGISTER => xdr_VMAccelRegisterDesc
  | VMACCELMGR_UNREGISTER => xdr_VMAccelId
  | VMACCELMGR_ALLOC => xdr_VMAccelDesc
  | VMACCELMGR_FREE => xdr_VMAccelId
  end.

Definition mgr_xdr_result (p : mgr_proc) : filter (mgr_res p) :=
  match p with
  | VMACCELMGR_REGISTER => xdr_VMAccelAllocateReturnStatus
  | VMACCELMGR_UNREGISTER => xdr_VMAccelReturnStatus
  | VMACCELMGR_ALLOC => xdr_VMAccelAllocateReturnStatus
  | VMACCELMGR_FREE => xdr_VMAccelReturnStatus
  end.
End Filters.

(** The table of the program: the routines return the address of a static. *)
Section Program.
Context `{XdrRuntime} `{SunRPC}.

Definition VMACCELMGR : rpc_program manager := {|
  pg_proc := mgr_proc; pg_number := mgr_number; pg_proc_of := mgr_proc_of;
  pg_arg := mgr_arg; pg_res := mgr_res; pg_zero_arg := mgr_zero_arg; pg_zero_res := mgr_zero_res;
  pg_xdr_arg := mgr_xdr_argument; pg_xdr_res := mgr_xdr_result;
  pg_routine := λ p a, r ← mgr_local p a; mret (Some r) |}.

Definition vmaccelmgr_1 : Z → SVCXPRT → MGR reply := svc_dispatch VMACCELMGR.

Definition vmaccelmgr_stub (p : mgr_proc) (argp : mgr_arg p) (clnt : CLIENT) : MGR (option (mgr_res p)) :=
  clnt_stub VMACCELMGR p argp clnt.

Definition vmaccelmgr_register_1 := vmaccelmgr_stub VMACCELMGR_REGISTER.
Definition vmaccelmgr_unregister_1 := vmaccelmgr_stub VMACCELMGR_UNREGISTER.
Definition vmaccelmgr_alloc_1 := vmaccelmgr_stub VMACCELMGR_ALLOC.
Definition vmaccelmgr_free_1 := vmaccelmgr_stub VMACCELMGR_FREE.
End Program.
