(* ===== verification/Placement.v ===== *)
(** * What the accelerator manager guarantees

    Theorems on the states the manager's allocator reaches with registrations
    and requests that its accounts can hold: conservation of the registered
    capacity, the outcome of an allocation, and that freeing undoes it.  A
    request outside these is granted too, and [total_decides_remainder] shows
    what it does to the accounts. *)

From S2P Require Import Prelude IdentifierDB XdrRuntime RpcTypes XdrVMAccel Backend.
From S2P Require Import Allocator AllocTypes AllocPool Ledger Accounting Manager.
Import Desc.
Open Scope Z_scope.
Open Scope list_scope.

(** The ids in use, what is free and what is allocated of accelerator [p]. *)
Definition ids (h : heap IdentifierDB) : gset Z :=
  match deref h with Some db => used db | None => ∅ end.
Definition free_of (s : accelAllocator) (p : Z) (f : VMAccelWorkloadDesc → Z) : Z :=
  total (share p f) (al_free s).
Definition allocated_of (s : accelAllocator) (p : Z) (f : VMAccelWorkloadDesc → Z) : Z :=
  total (share p f) (al_allocated s).

(** ** The manager's life *)

Inductive accel_op : Type :=
| OpRegister (a : VMAccelDesc)
| OpUnregister (id : Z)
| OpAlloc (parentId : Z) (a d : VMAccelDesc)
| OpFree (id : Z).

(** Any operation that returns. *)
Definition accel_step (op : accel_op) (s s' : accelAllocator) : Prop :=
  match op with
  | OpRegister a => ∃ r, Register a s = Done r s'
  | OpUnregister id => ∃ r, Unregister id s = Done r s'
  | OpAlloc p a d => ∃ r, Alloc p a d s = Done r s'
  | OpFree id => ∃ r, Free DEFER_FREE id s = Done r s'
  end.

(** The operations the accounts can hold: a registration whose nine members add
    up in 32 bits, and a request that fits in all nine dimensions of an object
    in which it fits in the three that are compared.  (Ids are unsigned.) *)
Definition accountable (s : accelAllocator) (op : accel_op) : Prop :=
  match op with
  | OpRegister a => sound (VMAccelDesc_capacity a)
  | OpUnregister id | OpFree id => 0 ≤ id
  | OpAlloc p a d => admissible s p (VMAccelDesc_capacity a)
  end.

Definition accountable_step (s s' : accelAllocator) : Prop := ∃ op, accountable s op ∧ accel_step op s s'.

Definition accel_reachable (s : accelAllocator) : Prop :=
  ∃ storage id0, rtc accountable_step (new_allocator true storage VMACCEL_MAX_ACCELERATORS id0) s.

Notation N := VMACCEL_MAX_ACCELERATORS.

Lemma N_range : 0 ≤ N ≤ 4294967264.
Proof. done. Qed.

Lemma ids_holds sz X h : holds sz X h → ids h = X.
Proof. by intros (db & -> & _ & _ & _ & <-). Qed.

(** ** Every operation keeps the ledger *)

Lemma size_cases sz X h : holds sz X h → Z.of_nat (base.size X) = sz ∨ Z.of_nat (base.size X) < sz.
Proof. intros Hh. pose proof (holds_size _ _ _ Hh). lia. Qed.

Lemma fits_dec pool p w : (∃ e, fits pool p w e) ∨ (∀ e, ¬ fits pool p w e).
Proof.
  destruct (decide (Exists (λ e : obj, GetParentId e = p ∧ workload_lt (cap e) w = false) pool)) as [He | He].
  - left. apply list.Exists_exists in He as (e & He & ?). exists e. by split.
  - right. intros e (Hin & ?). destruct He. apply list.Exists_exists. eauto.
Qed.

Section Step.
Implicit Types s : accelAllocator.

Lemma register_step R E s a r s' :
  managed N R E s → sound (VMAccelDesc_capacity a) → Register a s = Done r s' → ∃ R', managed N R' E s'.
Proof.
  intros HM Ha Hrun. destruct (size_cases _ _ _ (mg_regs _ _ _ _ HM)) as [Hf | Hf].
  - rewrite (Register_full N R E s a HM Hf) in Hrun. injection Hrun as _ <-. eauto.
  - destruct (Register_run N N_range R E s a HM Hf Ha) as (id & s1 & Heq & _ & HM' & _).
    rewrite Heq in Hrun. injection Hrun as _ <-. eauto.
Qed.

Lemma unregister_step R E s id r s' :
  managed N R E s → 0 ≤ id → Unregister id s = Done r s' → ∃ R', managed N R' E s'.
Proof.
  intros HM Hid Hrun. destruct (al_refCount s !! Z.to_nat id) as [n |] eqn:Hn.
  2: { unfold Unregister, vec_read in Hrun. revert Hrun. mrun. by rewrite Hn. }
  destruct (decide (n = 0)) as [-> | Hne].
  2: { rewrite (Unregister_busy N R E s id n HM Hn Hne) in Hrun. injection Hrun as _ <-. eauto. }
  assert (id < N) as HidN.
  { apply lookup_lt_Some in Hn. rewrite (l_refs _ _ _ _ _ _ _ _ (mg_ledger _ _ _ _ HM)) in Hn. lia. }
  assert (id ∈ R) as HR.
  { unfold Unregister in Hrun. rewrite (bind_run _ _ _ _ _ (vec_read_run al_refCount id s 0 Hn)) in Hrun.
    cbn [negb Z.eqb] in Hrun. rewrite (bind_run _ _ _ _ _ (CoalesceFreed_empty s (mg_freed _ _ _ _ HM))) in Hrun.
    rewrite (bind_run _ _ _ _ _ (vec_read_run al_refCount id s 0 Hn)) in Hrun.
    rewrite (bind_run _ _ _ _ _ (assert_run (0 =? 0) s eq_refl)) in Hrun.
    apply bind_inv in Hrun as (u & s1 & Hrel & _).
    by eapply (on_db_release_inv al_registeredIds set_registeredIds N R s id u s1 (mg_regs _ _ _ _ HM)). }
  destruct (Unregister_idle N N_range R E s id HM HR Hn) as (s1 & Heq & HM' & _).
  rewrite Heq in Hrun. injection Hrun as _ <-. eauto.
Qed.

Lemma free_step R E s id r s' :
  managed N R E s → 0 ≤ id → Free DEFER_FREE id s = Done r s' → ∃ E', managed N R E' s'.
Proof.
  intros HM Hid Hrun. assert (id ∈ E) as HE.
  { unfold Free, on_externalIds in Hrun.
    rewrite (bind_run _ _ _ _ _ (on_db_active al_externalIds set_externalIds N E s id (mg_exts _ _ _ _ HM) Hid)) in Hrun.
    apply bind_inv in Hrun as (u & s1 & Ha & _). by destruct (bool_decide_reflect (id ∈ E)). }
  pose proof (holds_range _ _ _ _ (mg_exts _ _ _ _ HM) HE) as Hr.
  destruct (slot N (al_allocated s) id (l_allocated _ _ _ _ _ _ _ _ (mg_ledger _ _ _ _ HM)) Hr) as [o Ho].
  destruct (Free_run N N_range R E s id o HM HE Ho) as (s1 & o' & Heq & HM' & _).
  change DEFER_FREE with false in Hrun. rewrite Heq in Hrun. injection Hrun as _ <-. eauto.
Qed.

(** The five ways an allocation can go. *)
Lemma alloc_cases R E s p a d :
  managed N R E s → admissible s p (VMAccelDesc_capacity a) →
  let w := VMAccelDesc_capacity a in
  (Z.of_nat (base.size E) = N ∧ Alloc p a d s = Done ((VMACCEL_FAIL, al_result_id s), d) s) ∨
  Z.of_nat (base.size E) < N ∧
  (((∀ e, ¬ fits (al_free s) p w e) ∧ refused N R E s p a d) ∨
   (∃ e, fits (al_free s) p w e ∧ list.last (al_free s) ≠ Some e ∧ Alloc p a d s = Fault Undefined) ∨
   (∃ e, fits (al_free s) p w e ∧ list.last (al_free s) = Some e ∧ ¬ asks w ∧ refused N R E s p a d) ∨
   (∃ e, fits (al_free s) p w e ∧ list.last (al_free s) = Some e ∧ asks w ∧
      ∃ id o s', Alloc p a d s = Done ((VMACCEL_SUCCESS, id), GetObj o) s' ∧ id ∉ E ∧ 0 ≤ id < N ∧
        managed N R ({[id]} ∪ E) s' ∧ al_registered s' = al_registered s ∧
        al_allocated s' = <[Z.to_nat id := o]> (al_allocated s) ∧ GetParentId o = p ∧ cap o = w ∧
        withdrawn R p w (al_free s) (al_free s'))).
Proof.
  intros HM Hadm w. destruct (size_cases _ _ _ (mg_exts _ _ _ _ HM)) as [Hf | Hf].
  { left. split; [done |]. by eapply Alloc_full. }
  right. split; [done |]. destruct (fits_dec (al_free s) p w) as [[e He] | Hno].
  2: { left. split; [done |]. by apply Alloc_no_fit. }
  right. pose proof He as (Hin & Hp & Hlt). apply list_elem_of_split in Hin as (pre & post & Hpool).
  destruct post as [| b post].
  - right. assert (list.last (al_free s) = Some e) as Hlast by (rewrite Hpool; by rewrite last_snoc).
    pose proof (pool_sound N R E s e HM (proj1 He)) as [Hnn Hsum].
    assert (∀ f, f ∈ dims → is_u32 (f (cap e))) as Hu.
    { intros f Hfd. pose proof (Hnn f Hfd). pose proof (dim_le_sum _ _ Hnn Hfd). u32_unfold. lia. }
    pose proof (desc_Reserve_some (GetObj e) a Hu (proj1 Hadm) Hlt) as Hres.
    destruct (desc_Reserve (GetObj e) a) as [[dv r] |] eqn:Hr.
    + right. exists e. split; [done |]. split; [done |]. split; [by apply Hres |].
      destruct (Alloc_run N N_range R E s p a d pre e dv r) as (id & o & s' & ? & ? & ? & ? & ? & ? & ? & ? & ? & _);
        [done | done | done | done | done | done |]. by exists id, o, s'.
    + left. exists e. split; [done |]. split; [done |].
      split; [intros Hask; apply Hres in Hask as [? ?]; done |]. by apply (Alloc_asks_nothing N N_range R E s p a d pre e).
  - left. exists e. split; [done |]. split.
    + intros Hlast. rewrite Hpool, last_app_cons, last_cons_cons in Hlast.
      apply last_Some_elem_of in Hlast. pose proof (l_unique _ _ _ _ _ _ _ _ (mg_ledger _ _ _ _ HM)) as Hn.
      unfold one_per_parent in Hn. rewrite Hpool, fmap_app, fmap_cons in Hn.
      apply list.NoDup_app in Hn as (_ & _ & [Hn _]%list.NoDup_cons). destruct Hn. by apply list_elem_of_fmap_2.
    + by eapply Alloc_undefined.
Qed.

Lemma alloc_step R E s p a d r s' :
  managed N R E s → admissible s p (VMAccelDesc_capacity a) → Alloc p a d s = Done r s' →
  ∃ E', managed N R E' s'.
Proof.
  intros HM Hadm Hrun.
  destruct (alloc_cases R E s p a d HM Hadm)
    as [[_ Heq] | [_ [[_ Hr] | [(e & _ & _ & Heq) | [(e & _ & _ & _ & Hr) | (e & _ & _ & _ & Hr)]]]]].
  - rewrite Heq in Hrun. injection Hrun as _ <-. eauto.
  - destruct Hr as (s1 & Heq & HM' & _). rewrite Heq in Hrun. injection Hrun as _ <-. eauto.
  - congruence.
  - destruct Hr as (s1 & Heq & HM' & _). rewrite Heq in Hrun. injection Hrun as _ <-. eauto.
  - destruct Hr as (id & o & s1 & Heq & _ & _ & HM' & _). rewrite Heq in Hrun. injection Hrun as _ <-. eauto.
Qed.

Lemma reachable_managed s : accel_reachable s → managed N (ids (al_registeredIds s)) (ids (al_externalIds s)) s.
Proof.
  intros (storage & id0 & Hreach).
  assert (∃ R E, managed N R E s) as (R & E & HM).
  { revert s Hreach. apply (rtc_ind_r (R := accountable_step) (λ s, ∃ R E, managed N R E s) (new_allocator true storage N id0)).
    - exists ∅, ∅. apply new_managed, N_range.
    - intros s1 s2 _ Hstep (R & E & HM). destruct Hstep as ([a | id | p a d | id] & Ha & r & Hrun); cbn [accountable] in Ha.
      + destruct (register_step R E s1 a r s2 HM Ha Hrun). eauto.
      + destruct (unregister_step R E s1 id r s2 HM Ha Hrun). eauto.
      + destruct (alloc_step R E s1 p a d r s2 HM Ha Hrun). eauto.
      + destruct (free_step R E s1 id r s2 HM Ha Hrun). eauto. }
  by rewrite (ids_holds _ _ _ (mg_regs _ _ _ _ HM)), (ids_holds _ _ _ (mg_exts _ _ _ _ HM)).
Qed.
(** ** Theorems *)

(** (C11) Conservation: in every state the manager reaches by registrations
    whose nine members add up in 32 bits and by requests that fit in all nine
    dimensions wherever they fit in the three compared ones, each dimension of
    the capacity an accelerator was registered with is, exactly, the sum of
    what the pool holds of it and what its allocations hold, neither of which
    is negative; its load is what is allocated and its reference count is the
    number of its allocations.  So allocations never exceed the accelerator. *)
Theorem manager_conserves s p d f :
  accel_reachable s → p ∈ ids (al_registeredIds s) → al_registered s !! Z.to_nat p = Some d → f ∈ dims →
  free_of s p f + allocated_of s p f = f (VMAccelDesc_capacity d) ∧
  0 ≤ free_of s p f ∧ 0 ≤ allocated_of s p f ∧
  (∃ l, al_load s !! Z.to_nat p = Some l ∧ f (VMAccelDesc_capacity l) = allocated_of s p f) ∧
  (∃ n, al_refCount s !! Z.to_nat p = Some n ∧ n = total (count p) (al_allocated s)).
Proof.
  intros Hreach Hp Hd Hf. pose proof (mg_ledger _ _ _ _ (reachable_managed s Hreach)) as HL.
  pose proof (l_regs _ _ _ _ _ _ _ _ HL p Hp) as Hr.
  split; [by eapply l_conserved |].
  destruct (ledger_total_nonneg _ _ _ _ _ _ _ _ p f HL Hf) as [H1 H2]. split; [done |]. split; [done |].
  destruct (slot N (al_load s) p (l_loads _ _ _ _ _ _ _ _ HL) Hr) as [l Hl].
  destruct (slot N (al_refCount s) p (l_refs _ _ _ _ _ _ _ _ HL) Hr) as [n Hn].
  split; [exists l; split; [done | by eapply l_load] | exists n; split; [done | by eapply l_count]].
Qed.

(** What a refused allocation leaves alone. *)
Definition unchanged (s s' : accelAllocator) : Prop :=
  al_registered s' = al_registered s ∧ al_free s' = al_free s ∧ al_allocated s' = al_allocated s ∧
  ids (al_externalIds s') = ids (al_externalIds s).

(** (C12) The outcome of an allocation on any reachable state, for a request
    that fits in all nine dimensions wherever it fits in the three compared ones: it fails when
    all external ids are in use; it is refused, without effect, when the pool
    has no object of that accelerator large enough in the three compared
    dimensions, or when the request asks for nothing in them; it searches the
    multiset outside its specification when the accelerator's object is not
    the last of the pool; and otherwise it answers a fresh id and a
    description whose capacity is the request, which leaves the pool. *)
Theorem Alloc_outcome s p a d :
  accel_reachable s → admissible s p (VMAccelDesc_capacity a) →
  let w := VMAccelDesc_capacity a in
  let full := Z.of_nat (base.size (ids (al_externalIds s))) = N in
  (full → Alloc p a d s = Done ((VMACCEL_FAIL, al_result_id s), d) s) ∧
  (¬ full → (∀ e, fits (al_free s) p w e → list.last (al_free s) = Some e ∧ ¬ asks w) →
     ∃ s', Alloc p a d s = Done ((VMACCEL_RESOURCE_UNAVAILABLE, al_result_id s), d) s' ∧ unchanged s s') ∧
  (¬ full → ∀ e, fits (al_free s) p w e → list.last (al_free s) ≠ Some e → Alloc p a d s = Fault Undefined) ∧
  (¬ full → ∀ e, fits (al_free s) p w e → list.last (al_free s) = Some e → asks w →
     ∃ id d' s', Alloc p a d s = Done ((VMACCEL_SUCCESS, id), d') s' ∧
       id ∉ ids (al_externalIds s) ∧ 0 ≤ id < N ∧ ids (al_externalIds s') = {[id]} ∪ ids (al_externalIds s) ∧
       VMAccelDesc_capacity d' = w ∧
       ∀ q f, f ∈ dims → free_of s' q f = free_of s q f - (if p =? q then f w else 0)).
Proof.
  intros Hreach Hadm w full. pose proof (reachable_managed s Hreach) as HM.
  assert (∀ e e', fits (al_free s) p w e → fits (al_free s) p w e' → e = e') as Huniq.
  { intros e e' ([i Hi]%list_elem_of_lookup & Hp & _) ([j Hj]%list_elem_of_lookup & Hp' & _).
    assert (i = j) as ->; [| congruence].
    eapply one_per_parent_lookup; [apply (l_unique _ _ _ _ _ _ _ _ (mg_ledger _ _ _ _ HM)) | done | done | congruence]. }
  destruct (alloc_cases _ _ s p a d HM Hadm) as [[Hfull Heq] | [Hlt Hcase]].
  { split; [done |]. split; [done |]. split; done. }
  assert (¬ full) as Hnf by (unfold full; lia).
  assert (refused N (ids (al_registeredIds s)) (ids (al_externalIds s)) s p a d →
          ∃ s', Alloc p a d s = Done ((VMACCEL_RESOURCE_UNAVAILABLE, al_result_id s), d) s' ∧ unchanged s s') as Href.
  { intros (s' & Heq & HM' & Hr & Hfr & Hal). exists s'. split; [done |]. split; [done |]. split; [done |].
    split; [done |]. apply (ids_holds N). apply HM'. }
  split; [done |].
  destruct Hcase as [[Hno Hr] | [(e & He & Hl & Hu) | [(e & He & Hl & Hask & Hr) | (e & He & Hl & Hask & Hr)]]].
  - split; [intros; by apply Href |]. split; intros _ e He; by destruct (Hno e).
  - split; [intros _ Hall; by destruct (Hall e He) |].
    split; [done |]. intros _ e' He'. rewrite <- (Huniq e e' He He'). done.
  - split; [intros; by apply Href |].
    split; intros _ e' He'; rewrite <- (Huniq e e' He He'); done.
  - split; [intros _ Hall; by destruct (Hall e He) |].
    split; [intros _ e' He'; rewrite <- (Huniq e e' He He'); done |]. intros _ e' _ _ _.
    destruct Hr as (id & o & s' & Heq & Hid & Hidr & HM' & _ & _ & _ & Hc & HW).
    exists id, (GetObj o), s'. split; [done |]. split; [done |]. split; [done |].
    split; [apply (ids_holds N), HM' |]. split; [done |]. intros q f Hf. by apply (w_total _ _ _ _ _ HW).
Qed.

(** (C13) Freeing undoes an allocation, on any reachable state and for a request
    that fits in all nine dimensions wherever it fits in the three compared
    ones: after a successful [Alloc] the [Free] of the answered id succeeds, and every accelerator has as much free and as
    much allocated as before, with the same external ids in use. *)
Theorem alloc_free_roundtrip s p a d id d' s' :
  accel_reachable s → admissible s p (VMAccelDesc_capacity a) →
  Alloc p a d s = Done ((VMACCEL_SUCCESS, id), d') s' →
  ∃ s'', Free DEFER_FREE id s' = Done VMACCEL_SUCCESS s'' ∧
    ids (al_externalIds s'') = ids (al_externalIds s) ∧
    ∀ q f, 0 ≤ q < N → f ∈ dims → free_of s'' q f = free_of s q f ∧ allocated_of s'' q f = allocated_of s q f.
Proof.
  intros Hreach Hadm Hrun. pose proof (reachable_managed s Hreach) as HM.
  destruct (alloc_cases _ _ s p a d HM Hadm)
    as [[_ Heq] | [_ [[_ Hr] | [(e & _ & _ & Heq) | [(e & _ & _ & _ & Hr) | (e & _ & _ & _ & Hr)]]]]].
  - rewrite Heq in Hrun. done.
  - destruct Hr as (s1 & Heq & _). by rewrite Heq in Hrun.
  - congruence.
  - destruct Hr as (s1 & Heq & _). by rewrite Heq in Hrun.
  - destruct Hr as (id1 & o & s1 & Heq & Hid & Hidr & HM' & _ & Hal & Hp & Hc & HW).
    rewrite Heq in Hrun. injection Hrun as <- _ <-.
    pose proof (l_allocated _ _ _ _ _ _ _ _ (mg_ledger _ _ _ _ HM)) as Hla.
    assert (al_allocated s1 !! Z.to_nat id1 = Some o) as Ho.
    { rewrite Hal. apply list_lookup_insert_eq. lia. }
    destruct (slot N (al_allocated s) id1 Hla Hidr) as [o0 Ho0].
    destruct (Free_run N N_range _ _ s1 id1 o HM' ltac:(set_solver) Ho) as (s2 & o' & Hfree & HM2 & _ & Hal2 & Hp2 & HJ).
    exists s2. split; [done |]. split.
    { rewrite (ids_holds _ _ _ (mg_exts _ _ _ _ HM2)). set_solver. }
    intros q f Hq Hf. unfold free_of, allocated_of. split.
    + rewrite (joined_total _ _ _ HJ), (w_total _ _ _ _ _ HW) by done. unfold share at 2. rewrite Hp, Hc.
      destruct (p =? q); lia.
    + rewrite Hal2, Hal, list_insert_insert_eq, (total_insert _ _ _ _ _ Ho0).
      assert (GetParentId o0 = VMACCEL_INVALID_ID) as Hinv.
      { pose proof (l_owner _ _ _ _ _ _ _ _ (mg_ledger _ _ _ _ HM) _ _ Ho0) as Hown.
        rewrite Z2Nat.id in Hown by lia. by rewrite decide_False in Hown. }
      assert (VMACCEL_INVALID_ID ≠ q) by (unfold VMACCEL_INVALID_ID, UINT_MAX, N in *; lia).
      rewrite !share_other by congruence. lia.
Qed.

(** The sum of the remainder's members, in 32 bits. *)
Lemma u32_total {A} (g : A → Z) l : u32 (total (λ x, u32 (g x)) l) = u32 (total g l).
Proof.
  induction l as [| x l IH]; [done |]. cbn [total foldr]. fold (total (λ x, u32 (g x)) l) (total g l).
  rewrite u32_add_idemp, Z.add_comm, <- u32_add_idemp, IH, u32_add_idemp. f_equal. lia.
Qed.

Lemma remainder_empty (c w : VMAccelWorkloadDesc) :
  u32 (workload_sum w) = u32 (workload_sum c) → u32 (workload_sum (workload_sub c w)) = 0.
Proof.
  intros Heq. rewrite workload_sum_total.
  rewrite (total_ext _ (λ f : VMAccelWorkloadDesc → Z, u32 (f c - f w)) dims) by (intros f Hf; by apply dims_map2).
  rewrite u32_total.
  assert (total (λ f : VMAccelWorkloadDesc → Z, f c - f w) dims = workload_sum c - workload_sum w) as ->
    by (unfold workload_sum, dims; simpl; lia).
  unfold u32 in *. by rewrite Zminus_mod, Heq, Z.sub_diag.
Qed.

End Step.

(** ** A manager with one and with two accelerators *)

Definition sound_b (w : VMAccelWorkloadDesc) : bool :=
  forallb (λ f : VMAccelWorkloadDesc → Z, 0 <=? f w) dims && (workload_sum w <? UINT_MOD).

Lemma forallb_dims (b : (VMAccelWorkloadDesc → Z) → bool) (P : (VMAccelWorkloadDesc → Z) → Prop) :
  (∀ f, b f = true → P f) → forallb b dims = true → ∀ f, f ∈ dims → P f.
Proof. intros Hb Hall f Hf. apply Hb. rewrite forallb_forall in Hall. by apply Hall, list_elem_of_In. Qed.

Lemma sound_of_b w : sound_b w = true → sound w.
Proof.
  unfold sound_b. intros [Hn Hs]%andb_true_iff. split; [| by apply Z.ltb_lt].
  exact (forallb_dims (λ f, 0 <=? f w) (λ f, 0 ≤ f w) (λ f, proj1 (Z.leb_le 0 (f w))) Hn).
Qed.

Definition admissible_b (pool : list obj) (p : Z) (w : VMAccelWorkloadDesc) : bool :=
  forallb (λ f : VMAccelWorkloadDesc → Z, 0 <=? f w) dims &&
  forallb (λ e : obj, negb (GetParentId e =? p) || workload_lt (cap e) w ||
             forallb (λ f : VMAccelWorkloadDesc → Z, f w <=? f (cap e)) dims) pool.

Lemma admissible_of_b s p w : admissible_b (al_free s) p w = true → admissible s p w.
Proof.
  unfold admissible_b. intros [Hn Hp]%andb_true_iff. split.
  - exact (forallb_dims (λ f, 0 <=? f w) (λ f, 0 ≤ f w) (λ f, proj1 (Z.leb_le 0 (f w))) Hn).
  - intros e (Hin & He & Hlt). rewrite forallb_forall in Hp. apply list_elem_of_In in Hin.
    specialize (Hp e Hin). rewrite He, Z.eqb_refl, Hlt in Hp. cbn [negb orb] in Hp.
    exact (forallb_dims (λ f, f w <=? f (cap e)) (λ f, f w ≤ f (cap e)) (λ f, proj1 (Z.leb_le _ _)) Hp).
Qed.

Definition demo_workload (flops mem : Z) : VMAccelWorkloadDesc := mkVMAccelWorkloadDesc flops 0 0 0 mem 0 0 0 0.
Definition demo_accel (flops mem : Z) : VMAccelDesc := set_capacity_of (demo_workload flops mem) zero_VMAccelDesc.

Definition demo_new : accelAllocator := new_allocator true zero_VMAccelDesc N 0.
Definition demo_one : accelAllocator := run_state demo_new (Register (demo_accel 100 64) demo_new).
Definition demo_two : accelAllocator := run_state demo_new (Register (demo_accel 200 64) demo_one).
Definition demo_busy : accelAllocator :=
  run_state demo_new (Alloc 0 (demo_accel 30 16) zero_VMAccelDesc demo_one).

#[local] Strategy expand [demo_one demo_two demo_busy].

Lemma demo_one_run : Register (demo_accel 100 64) demo_new = Done (VMACCEL_SUCCESS, 0) demo_one.
Proof. apply (run_done (0, 0)); by_compute. Qed.

Lemma demo_two_run : Register (demo_accel 200 64) demo_one = Done (VMACCEL_SUCCESS, 1) demo_two.
Proof. apply (run_done (0, 0)); by_compute. Qed.

Lemma demo_busy_run :
  Alloc 0 (demo_accel 30 16) zero_VMAccelDesc demo_one =
    Done ((VMACCEL_SUCCESS, 0), demo_accel 30 16) demo_busy.
Proof. apply (run_done (0, 0, zero_VMAccelDesc)); by_compute. Qed.

Lemma demo_one_reachable : accel_reachable demo_one.
Proof.
  exists zero_VMAccelDesc, 0. apply rtc_once. exists (OpRegister (demo_accel 100 64)).
  split; [apply sound_of_b; by_compute | eexists; apply demo_one_run].
Qed.

Lemma demo_two_reachable : accel_reachable demo_two.
Proof.
  destruct demo_one_reachable as (st & id0 & Hr). exists st, id0. eapply rtc_r; [exact Hr |].
  exists (OpRegister (demo_accel 200 64)). split; [apply sound_of_b; by_compute | eexists; apply demo_two_run].
Qed.

Lemma demo_admissible : admissible demo_one 0 (VMAccelDesc_capacity (demo_accel 30 16)).
Proof. apply admissible_of_b. by_compute. Qed.

Lemma demo_two_admissible : admissible demo_two 1 (VMAccelDesc_capacity (demo_accel 30 16)).
Proof. apply admissible_of_b. by_compute. Qed.

Lemma demo_busy_reachable : accel_reachable demo_busy.
Proof.
  destruct demo_one_reachable as (st & id0 & Hr). exists st, id0. eapply rtc_r; [exact Hr |].
  exists (OpAlloc 0 (demo_accel 30 16) zero_VMAccelDesc). split; [apply demo_admissible | eexists; apply demo_busy_run].
Qed.

Lemma dims_flops : megaFlops ∈ dims.
Proof. unfold dims. set_solver. Qed.

(** 30 of the 100 megaflops of accelerator 0 are allocated. *)
Lemma manager_conserves_witness :
  free_of demo_busy 0 megaFlops + allocated_of demo_busy 0 megaFlops = 100 ∧
  free_of demo_busy 0 megaFlops = 70.
Proof.
  split; [| by_compute].
  apply (manager_conserves demo_busy 0 (demo_accel 100 64) megaFlops);
    [apply demo_busy_reachable | | by_compute | apply dims_flops].
  refine (bool_decide_eq_true_1 (0 ∈ ids (al_registeredIds demo_busy)) _). by_compute.
Defined.

Definition demo_entry (p flops : Z) : obj := new_object p (demo_accel flops 64).

Lemma demo_pool_one : al_free demo_one = [demo_entry 0 100].
Proof. by_compute. Qed.

Lemma demo_pool_two : al_free demo_two = [demo_entry 1 200; demo_entry 0 100].
Proof. by_compute. Qed.

Lemma demo_not_full (s : accelAllocator) : Z.of_nat (base.size (ids (al_externalIds s))) =? N = false →
  ¬ Z.of_nat (base.size (ids (al_externalIds s))) = N.
Proof. apply Z.eqb_neq. Qed.

(** With one accelerator the allocation succeeds; with a second one registered
    after it, an allocation on the second is undefined. *)
Lemma Alloc_outcome_witness :
  (∃ id d' s', Alloc 0 (demo_accel 30 16) zero_VMAccelDesc demo_one = Done ((VMACCEL_SUCCESS, id), d') s' ∧
               VMAccelDesc_capacity d' = demo_workload 30 16) ∧
  Alloc 1 (demo_accel 30 16) zero_VMAccelDesc demo_two = Fault Undefined.
Proof.
  split.
  - destruct (Alloc_outcome demo_one 0 (demo_accel 30 16) zero_VMAccelDesc demo_one_reachable demo_admissible)
      as (_ & _ & _ & Hok).
    destruct (Hok (demo_not_full demo_one ltac:(by_compute)) (demo_entry 0 100)) as (id & d' & s' & Hrun & _ & _ & _ & Hc & _).
    + rewrite demo_pool_one. split; [by left | done].
    + by rewrite demo_pool_one.
    + left. by_compute.
    + by exists id, d', s'.
  - destruct (Alloc_outcome demo_two 1 (demo_accel 30 16) zero_VMAccelDesc demo_two_reachable demo_two_admissible)
      as (_ & _ & Hun & _).
    apply (Hun (demo_not_full demo_two ltac:(by_compute)) (demo_entry 1 200)).
    + rewrite demo_pool_two. split; [by left | done].
    + rewrite demo_pool_two. by intros [= ].
Defined.

Lemma alloc_free_roundtrip_witness :
  ∃ s'', Free DEFER_FREE 0 demo_busy = Done VMACCEL_SUCCESS s'' ∧ free_of s'' 0 megaFlops = 100.
Proof.
  destruct (alloc_free_roundtrip demo_one 0 (demo_accel 30 16) zero_VMAccelDesc 0 (demo_accel 30 16) demo_busy
    demo_one_reachable demo_admissible demo_busy_run) as (s'' & Hf & _ & Hq).
  exists s''. split; [exact Hf |].
  rewrite (proj1 (Hq 0 megaFlops ltac:(split; [reflexivity | by_compute]) dims_flops)). by_compute.
Defined.

(** Two megaflops and no non-local memory; a request for one of each. *)
Definition narrow_accel : VMAccelDesc := set_capacity_of (mkVMAccelWorkloadDesc 2 0 0 0 0 0 0 0 0) zero_VMAccelDesc.
Definition wide_request : VMAccelDesc := set_capacity_of (mkVMAccelWorkloadDesc 1 0 0 0 0 0 1 0 0) zero_VMAccelDesc.

Definition narrow_one : accelAllocator := run_state demo_new (Register narrow_accel demo_new).

#[local] Strategy expand [narrow_one].

Lemma narrow_reachable : accel_reachable narrow_one.
Proof.
  exists zero_VMAccelDesc, 0. apply rtc_once. exists (OpRegister narrow_accel).
  split; [apply sound_of_b; by_compute | exists (VMACCEL_SUCCESS, 0)]. apply (run_done (0, 0)); by_compute.
Qed.

