(* ===== verification/SelfTest.v ===== *)
(** * Power-on of the accelerator manager, and the resource types

    The self test that [vmaccel_manager_poweron] runs on an integer allocator
    is evaluated: all of its assertions hold.  What [Reserve] and [FreeObj] of
    descriptions and ranges do on single objects. *)

From S2P Require Import Prelude IdentifierDB XdrRuntime RpcTypes Backend.
From S2P Require Import Allocator AllocTypes AllocPool Ledger Accounting Manager.
Open Scope Z_scope.
Open Scope list_scope.

Lemma self_test_passes : returned (self_test (new_allocator true (Int.mkInt 0) SELF_TEST_IDS 0)) = true.
Proof. by_compute. Qed.

(** Power-on terminates with success whenever the identifier databases
    can be allocated: the self test, which allocates and frees 2048 ids one by
    one, passes all of its assertions, and both managers are new, without
    registered resources. *)
Theorem poweron_self_test storage m :
  ∃ a r m', vmaccel_manager_poweron true storage m = Done VMACCEL_SUCCESS m' ∧
    accelMgr m' = Some a ∧ memMgr m' = Some r ∧
    managed VMACCEL_MAX_ACCELERATORS ∅ ∅ a ∧ al_free r = [] ∧ al_freed r = [].
Proof.
  unfold vmaccel_manager_poweron. pose proof self_test_passes as Hp.
  destruct (self_test _) as [u s | f]; [clear Hp | discriminate Hp].
  do 3 eexists. split; [done |]. split; [done |]. split; [done |]. split; [| done].
  by apply new_managed.
Qed.

(** ** Descriptions *)

(** [Reserve] compares three of the nine dimensions.  Whenever these
    admit a request that asks for something in one of them, it succeeds, and
    the remainder of every other dimension is the difference modulo 2^32: a
    request that exceeds what is left there is granted, and what remains wraps
    to a huge amount. *)
Theorem Reserve_unchecked_dimensions (a req : VMAccelDesc) :
  (∀ f, f ∈ dims → is_u32 (f (VMAccelDesc_capacity a))) → nonneg (VMAccelDesc_capacity req) →
  Desc.workload_lt (VMAccelDesc_capacity a) (VMAccelDesc_capacity req) = false →
  asks (VMAccelDesc_capacity req) →
  ∃ d r, Desc.desc_Reserve a req = Some (d, r) ∧ VMAccelDesc_capacity d = VMAccelDesc_capacity req ∧
    (∀ f, f ∈ dims →
       f (VMAccelDesc_capacity r) = u32 (f (VMAccelDesc_capacity a) - f (VMAccelDesc_capacity req))) ∧
    (∀ f, f ∈ dims → is_u32 (f (VMAccelDesc_capacity req)) →
       f (VMAccelDesc_capacity a) < f (VMAccelDesc_capacity req) →
       f (VMAccelDesc_capacity a) < f (VMAccelDesc_capacity r)).
Proof.
  intros Ha Hw Hlt Hask. apply (desc_Reserve_some a req Ha Hw Hlt) in Hask as [[d r] Hres].
  destruct (desc_Reserve_inv _ _ _ _ Hres) as (_ & Hd & Hr). exists d, r.
  assert (∀ f, f ∈ dims →
    f (VMAccelDesc_capacity r) = u32 (f (VMAccelDesc_capacity a) - f (VMAccelDesc_capacity req))) as Hrf.
  { intros f Hf. rewrite Hr. by apply dims_map2. }
  split; [done |]. split; [done |]. split; [done |].
  intros f Hf Hu Hgt. rewrite Hrf by done. pose proof (Ha f Hf). u32_unfold. lia.
Qed.

Definition small_accel : VMAccelDesc :=
  Desc.set_capacity_of (mkVMAccelWorkloadDesc 100 0 0 0 0 0 10 0 0) zero_VMAccelDesc.
Definition greedy_request : VMAccelDesc :=
  Desc.set_capacity_of (mkVMAccelWorkloadDesc 1 0 0 0 0 0 11 0 0) zero_VMAccelDesc.

(** Eleven of ten kilobytes of non-local memory. *)
Lemma Reserve_unchecked_dimensions_witness :
  ∃ d r, Desc.desc_Reserve small_accel greedy_request = Some (d, r) ∧
         Desc.nonLocalMemSizeKB (VMAccelDesc_capacity r) = 4294967295.
Proof.
  destruct (Reserve_unchecked_dimensions small_accel greedy_request) as (d & r & Hres & _ & Hf & _).
  - intros f Hf. each_dim Hf; by u32_unfold.
  - intros f Hf. each_dim Hf; by u32_unfold.
  - reflexivity.
  - right. left. reflexivity.
  - exists d, r. split; [exact Hres |]. rewrite Hf; [reflexivity |]. unfold dims. set_solver.
Defined.

(** ** Ranges *)

Section Ranges.
Import Range.

(** [begin] and [end] are inclusive. *)
Definition consistent (a : AllocRange) : Prop :=
  cmpRange a = false ∧ 0 ≤ begin a ∧ 0 < Range.size a ∧ end_ a = begin a + Range.size a - 1 ∧
  end_ a < 18446744073709551615.

Lemma u64_small z : 0 ≤ z < 18446744073709551616 → u64 z = z.
Proof. apply Z.mod_small. Qed.

(** In a pool of at most one object every search is specified. *)
Lemma bound_single {A} (f : A → bool) (e : A) : bound f [e] = Done (if f e then 1%nat else 0%nat) [e].
Proof. unfold bound. simpl. by destruct (f e). Qed.

(** The range [x] at the only position of the pool absorbs [r]. *)
Definition grown (x r : AllocRange) : Z := u64 (Range.size x + u64 (end_ r - begin r + 1)).

Lemma merge_before p fence x r :
  begin x = u64 (end_ r + 1) →
  merge_at p r 0 [mkVMAccelObject p fence x] =
    Done (Some true) [mkVMAccelObject p VMACCEL_INVALID_ID (mkAllocRange (cmpRange x) (grown x r) (begin r) (end_ x))].
Proof. intros Hx. unfold merge_at. mrun. simpl. by rewrite Hx, Z.eqb_refl. Qed.

(** Cutting a range and giving the piece back: [Reserve] of [n] bytes of
    a consistent range answers the first [n] and leaves the rest, adjacent and
    disjoint; freeing the piece while the rest is the pool merges them into
    the range they came from. *)
Theorem range_reserve_rejoin (p n : Z) (a req : AllocRange) :
  consistent a → cmpRange req = false → Range.size req = n → 0 < n < Range.size a →
  ∃ d r, range_Reserve a req = Some (d, r) ∧ consistent d ∧ consistent r ∧
    Range.size d = n ∧ begin d = begin a ∧ begin r = end_ d + 1 ∧ end_ r = end_ a ∧
    range_FreeObj (mkVMAccelObject p VMACCEL_INVALID_ID d) [mkVMAccelObject p VMACCEL_INVALID_ID r] =
      Done true [mkVMAccelObject p VMACCEL_INVALID_ID a].
Proof.
  intros (Hcmp & Hb & Hs & He & Hmax) Hcr Hn Hlt. destruct a as [ca sa ba ea], req as [cr sr br er].
  simpl in *. subst ca cr sr ea.
  unfold range_Reserve, range_lt. simpl.
  rewrite (u64_small (ba + n - 1)), (u64_small (sa - n)), (u64_small (ba + n - 1 + 1)) by lia.
  destruct (Z.ltb_spec sa n); [lia |]. destruct (Z.ltb_spec (sa - n) sa); [| lia].
  do 2 eexists. split; [reflexivity |]. split; [unfold consistent; simpl; lia |].
  split; [unfold consistent; simpl; repeat split; lia |]. do 4 (split; [simpl; lia |]).
  unfold range_FreeObj, lower_bound. mrun. rewrite bound_single.
  unfold AllocRangeCmp at 1, range_lt. simpl. rewrite Z.eqb_refl. simpl.
  destruct (Z.ltb_spec (ba + n - 1 + 1) ba); [lia |].
  destruct (Z.ltb_spec (ba + sa - 1) (ba + n - 1)); [lia |]. simpl.
  rewrite merge_before by (simpl; by rewrite u64_small by lia). unfold grown. simpl.
  rewrite (u64_small (ba + n - 1 - ba + 1)), (u64_small (sa - n + (ba + n - 1 - ba + 1))) by lia.
  do 5 f_equal. lia.
Qed.

Definition page (b n : Z) : AllocRange := mkAllocRange false n b (b + n - 1).

Lemma range_reserve_rejoin_witness :
  ∃ d r, range_Reserve (page 4096 4096) (page 0 1024) = Some (d, r) ∧ begin r = 5120 ∧
    range_FreeObj (mkVMAccelObject 0 VMACCEL_INVALID_ID d) [mkVMAccelObject 0 VMACCEL_INVALID_ID r] =
      Done true [mkVMAccelObject 0 VMACCEL_INVALID_ID (page 4096 4096)].
Proof.
  destruct (range_reserve_rejoin 0 1024 (page 4096 4096) (page 0 1024)) as (d & r & Hr & Hd & _ & Hs & Hb & Hbr & _ & Hf);
    [unfold consistent; simpl; lia | reflexivity | reflexivity | simpl; lia |].
  exists d, r. split; [exact Hr |]. split; [| exact Hf].
  destruct Hd as (_ & _ & _ & Hde & _). rewrite Hbr, Hde, Hb, Hs. reflexivity.
Defined.

(** Freed ranges are merged downwards only: freeing the range that
    follows the pool's range leaves two adjacent objects, ordered by size, and
    a request for both together is not granted from either. *)
Theorem range_append_not_merged (p : Z) (x r req : AllocRange) :
  consistent x → consistent r → begin r = end_ x + 1 →
  cmpRange req = false → Range.size req = Range.size x + Range.size r →
  let X := mkVMAccelObject p VMACCEL_INVALID_ID x in
  let Y := mkVMAccelObject p VMACCEL_INVALID_ID r in
  range_FreeObj Y [X] = Done true (if Range.size r <? Range.size x then [Y; X] else [X; Y]) ∧
  range_Reserve x req = None ∧ range_Reserve r req = None.
Proof.
  intros (Hcx & Hbx & Hsx & Hex & Hmx) (Hcr & Hbr & Hsr & Her & Hmr) Hadj Hcq Hsq X Y.
  assert (∀ y, cmpRange y = false → Range.size y < Range.size req → range_Reserve y req = None) as Hno.
  { intros y Hy Hlt. unfold range_Reserve, range_lt. rewrite Hy, Hcq. simpl.
    by destruct (Z.ltb_spec (Range.size y) (Range.size req)); [| lia]. }
  split; [| split; apply Hno; done || lia].
  set (key := mkVMAccelObject p VMACCEL_INVALID_ID (mkAllocRange true (Range.size r) (begin r) (end_ r))).
  assert (AllocRangeCmp X key = true) as H1.
  { unfold AllocRangeCmp, range_lt, X, key. simpl. rewrite Z.eqb_refl, orb_true_r. simpl.
    destruct (Z.ltb_spec (begin x) (begin r)); [done | lia]. }
  assert (AllocRangeCmp key X = false) as H2.
  { unfold AllocRangeCmp, range_lt, X, key. simpl. rewrite Z.eqb_refl. simpl.
    destruct (Z.ltb_spec (begin r) (begin x)); [lia |]. by destruct (Z.ltb_spec (end_ r) (end_ x)); [lia |]. }
  assert (AllocRangeCmp Y X = (Range.size r <? Range.size x)) as H3.
  { unfold AllocRangeCmp, range_lt, X, Y. simpl. by rewrite Z.eqb_refl, Hcx, Hcr. }
  unfold range_FreeObj. cbv zeta. change (mkVMAccelObject (GetParentId Y) _ _) with key.
  assert (lower_bound AllocRangeCmp key [X] = Done 1%nat [X]) as Hl
    by (unfold lower_bound; by rewrite bound_single, H1).
  assert (upper_bound AllocRangeCmp key [X] = Done 1%nat [X]) as Hu
    by (unfold upper_bound; by rewrite bound_single, H2).
  step Hl. rewrite (bind_run _ _ [X] None [X]) by done. step Hu. rewrite (bind_run _ _ [X] None [X]) by done.
  unfold multiset_insert, upper_bound. rewrite (bind_run _ _ _ _ _ (bound_single _ X)), H3.
  by destruct (Range.size r <? Range.size x).
Qed.

(** Two pages freed in ascending order. *)
Lemma range_append_not_merged_witness :
  range_FreeObj (mkVMAccelObject 0 VMACCEL_INVALID_ID (page 4096 4096))
    [mkVMAccelObject 0 VMACCEL_INVALID_ID (page 0 4096)] =
    Done true [mkVMAccelObject 0 VMACCEL_INVALID_ID (page 0 4096);
               mkVMAccelObject 0 VMACCEL_INVALID_ID (page 4096 4096)].
Proof.
  apply (range_append_not_merged 0 (page 0 4096) (page 4096 4096) (page 0 8192));
    [unfold consistent; simpl; lia | unfold consistent; simpl; lia | reflexivity | reflexivity | reflexivity].
Defined.
End Ranges.
