(* ===== verification/ManagerService.v ===== *)
(** * Calls to the accelerator manager

    A client's stub, the dispatcher and the service routine of the manager
    program together, and what ids the service does not check. *)

From S2P Require Import Prelude IdentifierDB XdrRuntime XdrRFC4506 RpcTypes XdrVMAccel Backend.
From S2P Require Import Allocator AllocTypes AllocPool Ledger Accounting SunRPC Program Manager Placement.
Open Scope Z_scope.
Open Scope list_scope.

Section Calls.
Context `{XdrLaws} `{SunRPCLaws}.

#[global] Instance mgr_laws : RpcProgramLaws VMACCELMGR.
Proof.
  unshelve econstructor; simpl; try (by intros []); try (intros []; simpl; apply _).
  intros n p. unfold mgr_proc_of. by repeat case_match; intros [= <-]; apply Z.eqb_eq.
Defined.

(** (C14) Calling the manager through the wire: for each of its four
    procedures, a call that is delivered answers exactly what the service
    routine answers and leaves the manager as the routine leaves it; when the
    request is lost nothing happens, when the reply is lost the operation has
    happened; and a routine that stops the process stops it for the caller. *)
Theorem manager_call p a clnt m :
  wf (pg_xdr_arg VMACCELMGR p) a → (length (enc (pg_xdr_arg VMACCELMGR p) a) ≤ send_room clnt)%nat →
  match mgr_local p a m with
  | Done r m' =>
      wf (pg_xdr_res VMACCELMGR p) r →
      (∀ b, length (enc (pg_xdr_res VMACCELMGR p) r) ≤ reply_room (accept clnt b))%nat →
      vmaccelmgr_stub p a clnt m =
        match fate clnt with
        | NotDelivered => Done None m
        | ReplyLost => Done None m'
        | Delivered => Done (Some r) m'
        end
  | Fault f => fate clnt ≠ NotDelivered → vmaccelmgr_stub p a clnt m = Fault f
  end.
Proof.
  intros Ha Hlen. pose proof (clnt_stub_outcome VMACCELMGR p a clnt m Ha Hlen) as Hc.
  simpl in Hc. unfold mbind, M_bind in Hc. unfold vmaccelmgr_stub.
  destruct (mgr_local p a m) as [r m' | f]; simpl in Hc.
  - intros Hr Hroom. rewrite Hc by (by intros ? ? [= <- <-]). by destruct (fate clnt).
  - intros Hf. rewrite Hc by done. by destruct (fate clnt).
Qed.
End Calls.

(** ** Ids the service does not check *)

(** Any client can stop the manager: [free] of an id that is not
    allocated fails an assertion, [unregister] of an id that is not registered
    fails an assertion, and [unregister] of an id past the manager's vectors
    reads outside them. *)
Theorem unchecked_ids m a id :
  accelMgr m = Some a → accel_reachable a → 0 ≤ id →
  (id ∉ ids (al_externalIds a) → vmaccelmgr_free_1_svc id m = Fault AssertFailed) ∧
  (id < VMACCEL_MAX_ACCELERATORS → id ∉ ids (al_registeredIds a) →
   vmaccelmgr_unregister_1_svc id m = Fault AssertFailed) ∧
  (VMACCEL_MAX_ACCELERATORS ≤ id → vmaccelmgr_unregister_1_svc id m = Fault BadAccess).
Proof.
  intros Hm Hreach Hid. pose proof (reachable_managed a Hreach) as HM.
  pose proof (mg_ledger _ _ _ _ HM) as HL. pose proof (l_refs _ _ _ _ _ _ _ _ HL) as Hlen.
  assert (∀ op (f : fault), op a = Fault f → on_accelMgr VMACCEL_FAIL op m = Fault f) as Hon.
  { intros op f Hop. unfold on_accelMgr. by rewrite Hm, Hop. }
  split; [| split].
  - intros Hn. do 2 apply bind_fault. apply Hon. unfold Free, on_externalIds.
    step (on_db_active al_externalIds set_externalIds _ _ a id (mg_exts _ _ _ _ HM) Hid).
    by rewrite bool_decide_eq_false_2.
  - intros Hlt Hn. do 2 apply bind_fault. apply Hon.
    destruct (slot _ (al_refCount a) id Hlen) as [n Hrc]; [lia |].
    assert (n = 0) as ->.
    { rewrite (l_count _ _ _ _ _ _ _ _ HL id n) by (done || lia).
      apply (unowned _ N_range _ _ _ _ _ _ _ id _ HL Hn); [lia | apply count_other]. }
    unfold Unregister. step (vec_read_run al_refCount id a 0 Hrc). cbn [negb Z.eqb].
    step (CoalesceFreed_empty a (mg_freed _ _ _ _ HM)). step (vec_read_run al_refCount id a 0 Hrc).
    step (assert_run (0 =? 0) a eq_refl). apply bind_fault.
    by apply (on_db_release_refused al_registeredIds set_registeredIds VMACCEL_MAX_ACCELERATORS (ids (al_registeredIds a)));
      [apply HM | lia |].
  - intros Hge. do 2 apply bind_fault. apply Hon. unfold Unregister, vec_read. mrun.
    by rewrite lookup_ge_None_2 by lia.
Qed.

(** ** Concrete calls *)

Definition demo_manager (a : accelAllocator) : manager := mkManager (Some a) None 0.
Definition mgr_client : @CLIENT simrpc := mkSimClient Delivered 4096.

Definition freed_run : outcome manager (mgr_res VMACCELMGR_FREE) := mgr_local VMACCELMGR_FREE 0 (demo_manager demo_busy).
Definition freed_manager : manager := run_state (demo_manager demo_busy) freed_run.
Definition freed_answer : mgr_res VMACCELMGR_FREE :=
  mkVMAccelReturnStatus 0 (Some (mkVMAccelStatus [] VMACCEL_SUCCESS)).

#[local] Strategy expand [freed_run freed_manager].

Lemma freed_run_done : mgr_local VMACCELMGR_FREE 0 (demo_manager demo_busy) = Done freed_answer freed_manager.
Proof. apply (run_done zero_VMAccelReturnStatus); by_compute. Qed.

Lemma freed_answer_wf : wf (pg_xdr_res VMACCELMGR VMACCELMGR_FREE) freed_answer.
Proof. repeat split; vm_compute; congruence. Qed.

Lemma freed_room :
  (length (enc (pg_xdr_arg VMACCELMGR VMACCELMGR_FREE) 0%Z) ≤ send_room mgr_client)%nat ∧
  (∀ b, length (enc (pg_xdr_res VMACCELMGR VMACCELMGR_FREE) freed_answer) ≤ reply_room (accept mgr_client b))%nat.
Proof. split; [| intros b]; vm_compute; lia. Qed.

Lemma manager_call_witness :
  vmaccelmgr_free_1 0 mgr_client (demo_manager demo_busy) = Done (Some freed_answer) freed_manager.
Proof.
  pose proof (manager_call VMACCELMGR_FREE 0 mgr_client (demo_manager demo_busy)) as Hcall.
  rewrite freed_run_done in Hcall. apply Hcall.
  - split; vm_compute; congruence.
  - apply freed_room.
  - apply freed_answer_wf.
  - apply freed_room.
Defined.

Lemma unchecked_ids_witness :
  vmaccelmgr_free_1_svc 7 (demo_manager demo_busy) = Fault AssertFailed ∧
  vmaccelmgr_unregister_1_svc 9 (demo_manager demo_busy) = Fault AssertFailed ∧
  vmaccelmgr_unregister_1_svc 300 (demo_manager demo_busy) = Fault BadAccess.
Proof.
  pose proof (λ id, unchecked_ids (demo_manager demo_busy) demo_busy id eq_refl demo_busy_reachable) as Hid.
  split; [| split].
  - refine (proj1 (Hid 7 _) _); [lia |].
    refine (bool_decide_eq_false_1 (7 ∈ ids (al_externalIds demo_busy)) _). by_compute.
  - refine (proj1 (proj2 (Hid 9 _)) _ _); [lia | reflexivity |].
    refine (bool_decide_eq_false_1 (9 ∈ ids (al_registeredIds demo_busy)) _). by_compute.
  - refine (proj2 (proj2 (Hid 300 _)) _); [lia |]. vm_compute. discriminate.
Defined.
