(* ===== verification/Address.v ===== *)
(** * Address conversion (common/src/vmaccel_utils.c)

    Internet addresses between their four-byte form, in which the protocol
    carries them, and the text the socket library reads.  The text is a C
    string; [inet_ntoa] and [inet_addr] are the C library's. *)

From S2P Require Import Prelude XdrRuntime XdrRFC4506 RpcTypes.
Open Scope Z_scope.
Open Scope list_scope.

Definition ch_dot : byte := x2e.
Definition ch_zero : byte := x30.

(** ** The C library *)

Definition dec_digit (d : Z) : byte := byte_of (48 + d).

(** [%d] of a byte. *)
Definition dec_byte (v : Z) : list byte :=
  if v <? 10 then [dec_digit v]
  else if v <? 100 then [dec_digit (v / 10); dec_digit (v mod 10)]
  else [dec_digit (v / 100); dec_digit (v / 10 mod 10); dec_digit (v mod 10)].

(** inet_ntoa of four bytes in network order. *)
Definition inet_ntoa (a : list byte) : list byte :=
  match a with
  | [b0; b1; b2; b3] =>
      dec_byte (byte_val b0) ++ ch_dot :: dec_byte (byte_val b1) ++ ch_dot ::
      dec_byte (byte_val b2) ++ ch_dot :: dec_byte (byte_val b3)
  | _ => []
  end.

(** The value of a digit, and the base it belongs to. *)
Definition digit_val (c : byte) : option Z :=
  let v := byte_val c in
  if (48 <=? v) && (v <=? 57) then Some (v - 48)
  else if (65 <=? v) && (v <=? 70) then Some (v - 55)
  else if (97 <=? v) && (v <=? 102) then Some (v - 87)
  else None.

Definition digit_in (base : Z) (c : byte) : option Z :=
  d ← digit_val c; if d <? base then Some d else None.

(** The longest run of digits, from [acc]. *)
Fixpoint digits (base acc : Z) (s : list byte) : Z * list byte :=
  match s with
  | c :: s' =>
      match digit_in base c with
      | Some d => digits base (acc * base + d) s'
      | None => (acc, s)
      end
  | [] => (acc, s)
  end.

(** strtoul(s, &end, 0) of a text that starts with a decimal digit. *)
Definition strtoul (s : list byte) : Z * list byte :=
  match s with
  | x30 :: (x78 | x58) :: c :: rest =>
      match digit_in 16 c with
      | Some _ => digits 16 0 (c :: rest)
      | None => (0, drop 1 s)
      end
  | x30 :: rest => digits 8 0 rest
  | _ => digits 10 0 s
  end.

Definition is_space (c : byte) : bool := let v := byte_val c in (v =? 32) || ((9 <=? v) && (v <=? 13)).

(** The address with the leading bytes [parts] and the number [val] in what is
    left of the four. *)
Definition inet_pack (parts : list Z) (val : Z) : option (list byte) :=
  let n := (4 - length parts)%nat in
  if 256 ^ Z.of_nat n <=? val then None
  else Some ((byte_of <$> parts) ++ ((λ k, byte_of (Z.shiftr val (8 * Z.of_nat k))) <$> reverse (seq 0 n))).

(** inet_aton: one to four numbers between dots, in C notation, up to the end
    of the text or a space.  Four numbers are the most, so four rounds are
    enough. *)
Fixpoint inet_aton (rounds : nat) (parts : list Z) (s : list byte) : option (list byte) :=
  match rounds, s with
  | S rounds', c :: _ =>
      match digit_in 10 c with
      | None => None
      | Some _ =>
          let '(val, rest) := strtoul s in
          match rest with
          | [] => inet_pack parts val
          | c :: rest' =>
              if byte_val c =? 46 then
                if (3 <=? Z.of_nat (length parts)) || (255 <? val) then None
                else inet_aton rounds' (parts ++ [val]) rest'
              else if is_space c then inet_pack parts val else None
          end
      end
  | _, _ => None
  end.

(** inet_addr: [INADDR_NONE] for what is no address. *)
Definition inet_addr (s : list byte) : list byte := default [xff; xff; xff; xff] (inet_aton 4 [] s).

(** A C string at the start of a buffer: the bytes before the first NUL. *)
Fixpoint c_string (buf : list byte) : list byte :=
  match buf with
  | [] | x00 :: _ => []
  | c :: buf' => c :: c_string buf'
  end.

(** strcpy over the start of [out]: writing past its end is an access error. *)
Definition strcpy (out text : list byte) : option (list byte) :=
  if Z.of_nat (length out) <=? Z.of_nat (length text) then None
  else Some (text ++ x00 :: drop (S (length text)) out).

(** ** The conversions *)

(** Into a buffer [out] of [len] bytes: the answer and the buffer; [None] is
    an access out of bounds. *)
Definition VMAccel_AddressOpaqueAddrToString (addr : VMAccelAddress) (out : list byte) (len : Z) :
    option (bool * list byte) :=
  let n := Z.of_nat (length (VMAccelAddress_addr addr)) in
  if len <? 4 * n then Some (false, out) else
  if n =? 4 then
    out' ← strcpy out (inet_ntoa (VMAccelAddress_addr addr)); Some (true, out')
  else Some (false, replicate (Z.to_nat len) x00 ++ drop (Z.to_nat len) out).

Definition VMAccel_AddressStringToOpaqueAddr (addr out : list byte) (len : Z) : option (bool * list byte) :=
  if len =? 4 then
    if Z.of_nat (length out) <? 4 then None else Some (true, inet_addr addr ++ drop 4 out)
  else Some (false, out).

(** ** The text of an address *)

Lemma dec_byte_length v : 0 ≤ v < 256 → (1 ≤ length (dec_byte v) ≤ 3)%nat.
Proof. intros Hv. unfold dec_byte. repeat case_match; simpl; lia. Qed.

(** Facts about one byte, by going through all of them. *)
Definition all_bytes : list byte := (λ k, byte_of (Z.of_nat k)) <$> seq 0 256.

Lemma all_bytes_spec (P : byte → bool) : forallb P all_bytes = true → ∀ b, P b = true.
Proof.
  intros HP b. rewrite forallb_forall in HP. apply HP, list_elem_of_In, list_elem_of_fmap.
  pose proof (byte_val_range b). exists (Z.to_nat (byte_val b)). split.
  - by rewrite Z2Nat.id, byte_of_val by lia.
  - apply elem_of_seq. lia.
Qed.

Definition text_ok (b : byte) : bool :=
  let s := dec_byte (byte_val b) in
  let '(v, rest) := digits 10 0 s in
  (v =? byte_val b) && (match rest with [] => true | _ => false end) &&
  forallb (λ c, 0 <? byte_val c) s &&
  (match s with
   | c :: rest => bool_decide (is_Some (digit_in 10 c)) &&
       ((48 <? byte_val c) || (byte_val b =? 0) && (match rest with [] => true | _ => false end))
   | [] => false
   end).

Lemma dec_byte_text b :
  digits 10 0 (dec_byte (byte_val b)) = (byte_val b, []) ∧
  Forall (λ c, c ≠ x00) (dec_byte (byte_val b)) ∧
  ∃ c rest, dec_byte (byte_val b) = c :: rest ∧ is_Some (digit_in 10 c) ∧
    (c ≠ x30 ∨ byte_val b = 0 ∧ c :: rest = [x30]).
Proof.
  assert (text_ok b = true) as Hok by (apply all_bytes_spec; by vm_compute).
  unfold text_ok in Hok. destruct (digits 10 0 _) as [v rest].
  apply andb_prop in Hok as [[[Hv Hrest]%andb_prop Hnul]%andb_prop Hhead].
  apply Z.eqb_eq in Hv as ->. split; [by destruct rest |]. split.
  - apply Forall_forall. intros c Hc ->. rewrite forallb_forall in Hnul.
    by specialize (Hnul x00 Hc).
  - destruct (dec_byte (byte_val b)) as [| c t] eqn:Hs; [done |].
    apply andb_prop in Hhead as [Hd Hz]. exists c, t. split; [done |].
    split; [by apply bool_decide_eq_true in Hd |].
    destruct (Z.ltb_spec 48 (byte_val c)) as [Hlt |]; [left; intros ->; done |].
    right. cbn in Hz. apply andb_prop in Hz as [Hz Ht]. apply Z.eqb_eq in Hz.
    destruct t; [| done]. rewrite Hz in Hs. injection Hs as <-. done.
Qed.

(** A byte's text followed by no digit reads back as the byte. *)
Lemma digits_app base acc s t : digits base acc s = (fst (digits base acc s), []) →
  (∀ c t', t = c :: t' → digit_in base c = None) →
  digits base acc (s ++ t) = (fst (digits base acc s), t).
Proof.
  revert acc. induction s as [| c s IH]; intros acc Hs Ht; simpl in *.
  - destruct t as [| c t]; [done |]. simpl. by rewrite (Ht c t).
  - destruct (digit_in base c) eqn:Hc; [by apply IH | done].
Qed.

Definition not_digit (t : list byte) : Prop := t = [] ∨ ∃ t', t = ch_dot :: t'.

Lemma strtoul_decimal c s : c ≠ x30 → strtoul (c :: s) = digits 10 0 (c :: s).
Proof. by destruct c. Qed.

Lemma strtoul_dec_byte b t : not_digit t → strtoul (dec_byte (byte_val b) ++ t) = (byte_val b, t).
Proof.
  intros Ht. assert (∀ base c t', t = c :: t' → digit_in base c = None) as Hnd.
  { intros base c t' ->. destruct Ht as [? | [? Ht]]; [done |]. by injection Ht as -> _. }
  destruct (dec_byte_text b) as (Hd & _ & c & rest & Hs & _ & [Hc | [Hz Hc]]).
  - assert (strtoul (dec_byte (byte_val b) ++ t) = digits 10 0 (dec_byte (byte_val b) ++ t)) as ->.
    { rewrite Hs. by apply strtoul_decimal. }
    rewrite digits_app, Hd; [done | by rewrite Hd | by apply Hnd].
  - rewrite Hs, Hc, Hz. destruct Ht as [-> | [t' ->]]; done.
Qed.

Lemma inet_aton_dec_byte rounds parts b t :
  not_digit t →
  inet_aton (S rounds) parts (dec_byte (byte_val b) ++ t) =
    match t with
    | [] => inet_pack parts (byte_val b)
    | _ :: t' => if 3 <=? Z.of_nat (length parts) then None else inet_aton rounds (parts ++ [byte_val b]) t'
    end.
Proof.
  intros Ht. pose proof (byte_val_range b) as Hb. pose proof (strtoul_dec_byte b t Ht) as Hr.
  destruct (dec_byte_text b) as (_ & _ & c & rest & Hc & [d Hd] & _).
  rewrite Hc in *. cbn [app inet_aton] in *. rewrite Hd, Hr.
  destruct Ht as [-> | [t' ->]]; [done |].
  assert (255 <? byte_val b = false) as -> by (apply Z.ltb_ge; lia). by rewrite orb_false_r.
Qed.

Lemma inet_addr_ntoa a : length a = 4%nat → inet_addr (inet_ntoa a) = a.
Proof.
  destruct a as [| b0 [| b1 [| b2 [| b3 [| ? ?]]]]]; try done. intros _. unfold inet_addr, inet_ntoa.
  assert (∀ t, not_digit (ch_dot :: t)) as Hdot by (intros t; right; by exists t).
  rewrite !inet_aton_dec_byte by done. cbn [length app Z.of_nat Z.leb Z.compare].
  rewrite <- (app_nil_r (dec_byte (byte_val b3))), inet_aton_dec_byte by (by left).
  pose proof (byte_val_range b3). unfold inet_pack. cbn [length Nat.sub]. change (256 ^ Z.of_nat 1) with 256.
  destruct (Z.leb_spec 256 (byte_val b3)); [lia |].
  change (reverse (seq 0 1)) with [0%nat]. cbn [default fmap list_fmap app]. change (8 * Z.of_nat 0) with 0.
  by rewrite Z.shiftr_0_r, !byte_of_val.
Qed.

Lemma inet_ntoa_length a : (length (inet_ntoa a) ≤ 15)%nat.
Proof.
  assert (∀ b, (length (dec_byte (byte_val b)) ≤ 3)%nat) as Hl by (intros b; apply dec_byte_length, byte_val_range).
  unfold inet_ntoa. destruct a as [| b0 [| b1 [| b2 [| b3 [| ? ?]]]]]; cbn [length]; try lia.
  repeat (rewrite length_app; cbn [length]). pose proof (Hl b0). pose proof (Hl b1). pose proof (Hl b2).
  pose proof (Hl b3). lia.
Qed.

Lemma inet_ntoa_no_nul a : Forall (λ c, c ≠ x00) (inet_ntoa a).
Proof.
  assert (∀ b, Forall (λ c, c ≠ x00) (dec_byte (byte_val b))) as Hb by (intros b; apply dec_byte_text).
  unfold inet_ntoa. repeat case_match; try constructor.
  repeat (apply Forall_app; split; [done |]; constructor; [done |]). done.
Qed.

Lemma c_string_text text rest : Forall (λ c, c ≠ x00) text → c_string (text ++ x00 :: rest) = text.
Proof. induction 1 as [| c text Hc _ IH]; [done |]. simpl. rewrite IH. by destruct c. Qed.

(** ** The round trip *)

(** An IPv4 address goes into a buffer of the size the callers use: the text
    and its NUL fit, and reading the text gives the address back. *)
Lemma to_string_run addr out :
  length (VMAccelAddress_addr addr) = 4%nat → length out = 16%nat →
  ∃ out', VMAccel_AddressOpaqueAddrToString addr out 16 = Some (true, out') ∧ length out' = 16%nat ∧
    c_string out' = inet_ntoa (VMAccelAddress_addr addr).
Proof.
  intros Ha Ho. unfold VMAccel_AddressOpaqueAddrToString. rewrite Ha. cbn [Z.of_nat].
  pose proof (inet_ntoa_length (VMAccelAddress_addr addr)) as Hl. unfold strcpy.
  destruct (Z.leb_spec (Z.of_nat (length out)) (Z.of_nat (length (inet_ntoa (VMAccelAddress_addr addr))))); [lia |].
  eexists. split; [done |]. split.
  - rewrite length_app. cbn [length]. rewrite length_drop. lia.
  - apply c_string_text, inet_ntoa_no_nul.
Qed.

(** (C35) The conversion to text and back: every IPv4 address fits the caller's
    sixteen bytes and is read back as it was; an address of any other length
    leaves no text, and is refused. *)
Theorem address_roundtrip addr out buf :
  length out = 16%nat → (4 ≤ length buf)%nat →
  ∃ answer out', VMAccel_AddressOpaqueAddrToString addr out 16 = Some (answer, out') ∧ length out' = 16%nat ∧
    (answer = true ↔ length (VMAccelAddress_addr addr) = 4%nat) ∧
    (answer = true →
     VMAccel_AddressStringToOpaqueAddr (c_string out') buf 4 = Some (true, VMAccelAddress_addr addr ++ drop 4 buf)).
Proof.
  intros Ho Hb. destruct (decide (length (VMAccelAddress_addr addr) = 4%nat)) as [Ha | Ha].
  - destruct (to_string_run addr out Ha Ho) as (out' & Hrun & Hl & Htext). exists true, out'.
    repeat split; try done. intros _. unfold VMAccel_AddressStringToOpaqueAddr.
    rewrite Htext, inet_addr_ntoa by done. cbn. destruct (Z.ltb_spec (Z.of_nat (length buf)) 4); [lia | done].
  - unfold VMAccel_AddressOpaqueAddrToString. case_match; [by exists false, out |].
    destruct (Z.eqb_spec (Z.of_nat (length (VMAccelAddress_addr addr))) 4); [lia |].
    eexists false, _. split; [done |]. repeat split; try done.
    rewrite length_app, length_replicate, length_drop. lia.
Qed.

(** 192.168.0.255, into a buffer and back. *)
Lemma address_roundtrip_witness :
  ∃ out', VMAccel_AddressOpaqueAddrToString (mkVMAccelAddress [xc0; xa8; x00; xff] 5100 0 0)
    (replicate 16 x00) 16 = Some (true, out') ∧
  VMAccel_AddressStringToOpaqueAddr (c_string out') (replicate 4 x00) 4 = Some (true, [xc0; xa8; x00; xff]).
Proof.
  destruct (address_roundtrip (mkVMAccelAddress [xc0; xa8; x00; xff] 5100 0 0) (replicate 16 x00) (replicate 4 x00))
    as (answer & out' & Hrun & _ & [_ Ht] & Hback); [done | simpl; lia |].
  assert (answer = true) as -> by by apply Ht. exists out'. split; [done |]. rewrite Hback; done.
Defined.
