(* ===== verification/Stream.v ===== *)
(** * Data streams (common/src/vmaccel_stream.c)

    TCP connections that carry surface contents beside the RPC protocol: the
    module's global state, the server thread that receives packets into mapped
    surfaces, the client's threads, and power management.

    The operating system (sockets and threads) is the class [POSIX]; the
    process around the module (the memory behind pointers, and the callbacks
    that map and unmap surfaces) is the class [StreamHost].  A packet travels
    as the bytes of its C structure: sixteen 32-bit words, little-endian. *)

From S2P Require Import Prelude IdentifierDB XdrRuntime XdrRFC4506 Words RpcTypes Backend Address.
Open Scope Z_scope.
Open Scope list_scope.

(** The default of the header vmaccel_utils.h: connections are not kept. *)
Definition DEBUG_STREAMS : bool := true.

Definition VMACCEL_STREAM_TYPE_VMCL_UPLOAD : Z := 0.
Definition VMACCEL_STREAM_TYPE_MAX : nat := 1.
Definition VMACCEL_MAX_STREAMS : Z := 4.

(** ** Packets *)

Record VMAccelStreamPacket := mkVMAccelStreamPacket {
  packet_type : Z;
  packet_len : Z;
  packet_desc : VMCLSurfaceMapOp;
}.

Definition packet_words (p : VMAccelStreamPacket) : list Z :=
  let op := VMCLSurfaceMapOp_op (packet_desc p) in
  let surf := VMAccelSurfaceMapOp_surf op in
  let coord := VMAccelSurfaceMapOp_coord op in
  let size := VMAccelSurfaceMapOp_size op in
  [packet_type p; packet_len p;
   VMCLQueueId_cid (VMCLSurfaceMapOp_queue (packet_desc p));
   VMCLQueueId_id (VMCLSurfaceMapOp_queue (packet_desc p));
   VMAccelSurfaceId_type surf; VMAccelSurfaceId_handleType surf; VMAccelSurfaceId_id surf;
   VMAccelSurfaceId_instance surf; VMAccelSurfaceId_offset surf; VMAccelSurfaceId_generation surf;
   VMAccelCoordinate3DUINT_x coord; VMAccelCoordinate3DUINT_y coord; VMAccelCoordinate3DUINT_z coord;
   VMAccelCoordinate2DUINT_x size; VMAccelCoordinate2DUINT_y size;
   VMAccelSurfaceMapOp_mapFlags op].

Definition packet_bytes (p : VMAccelStreamPacket) : list byte := packet_words p ≫= word_bytes.

Definition SIZEOF_PACKET : Z := 64.

Definition packet_of (b : list byte) : VMAccelStreamPacket :=
  let w := word_of b in
  mkVMAccelStreamPacket (w 0%nat) (w 1%nat)
    (mkVMCLSurfaceMapOp (mkVMCLQueueId (w 2%nat) (w 3%nat))
       (mkVMAccelSurfaceMapOp
          (mkVMAccelSurfaceId (w 4%nat) (w 5%nat) (w 6%nat) (w 7%nat) (w 8%nat) (w 9%nat))
          (mkVMAccelCoordinate3DUINT (w 10%nat) (w 11%nat) (w 12%nat))
          (mkVMAccelCoordinate2DUINT (w 13%nat) (w 14%nat)) (w 15%nat))).

(** ** The operating system *)

Inductive sockopt : Type := SO_RCVBUF | SO_SNDBUF | TCP_NODELAY.

Class POSIX := {
  net : Type;
  sock_socket : net → Z * net;
  sock_bind (fd port : Z) : net → Z * net;
  (** [None] when the option cannot be read *)
  sock_getsockopt (fd : Z) (opt : sockopt) : net → option Z;
  sock_setsockopt (fd : Z) (opt : sockopt) (v : Z) : net → Z * net;
  sock_listen (fd : Z) : net → Z * net;
  sock_accept (fd : Z) : net → Z * net;
  sock_connect (fd : Z) (addr : list byte) (port : Z) : net → Z * net;
  sock_send (fd : Z) (data : list byte) : net → Z * net;
  (** the count and the bytes received *)
  sock_recv (fd len : Z) : net → (Z * list byte) * net;
  sock_close (fd : Z) : net → net;
  (** the error code, and the new thread *)
  pthread_create : net → (Z * Z) * net;
  pthread_join (t : Z) : net → Z * net;
  pthread_getschedparam : net → Z;
  (** asks for the policy [SCHED_RR] *)
  pthread_setschedparam : net → Z * net;
  pthread_attr_init : net → Z;
}.

(** What an [int] keeps of a 64-bit count. *)
Definition int_of (z : Z) : Z := s32 z.

(** ** The process around the module *)

(** The answer of the map callback: status, pointer and length. *)
Record StreamMapping := mkStreamMapping {
  sm_status : Z;
  sm_ptr_val : Z;
  sm_ptr_len : Z;
}.

Class StreamHost := {
  host : Type;
  (** memory behind pointers *)
  mem_store (ptr : Z) (data : list byte) : host → host;
  mem_load (ptr len : Z) : host → list byte;
  (** VMAccelStreamCallbacks *)
  clSurfacemap_1 : VMCLSurfaceMapOp → M host StreamMapping;
  clSurfaceunmap_1 : VMCLSurfaceUnmapOp → M host unit;
}.

(** ** Global state *)

Section Stream.
Context `{POSIX} `{StreamHost}.

Record streams := mkStreams {
  g_init : Z;
  g_initClntThreads : Z;
  g_initSvrThreads : Z;
  g_exitClntThreads : Z;
  g_exitSvrThreads : Z;
  g_svrDB : list (heap IdentifierDB);
  g_clntFD : list (list Z);
  g_svrFD : list (list Z);
  g_clntThread : list (list Z);
  g_svrThread : list (list Z);
  st_net : net;
  st_host : host;
}.

Definition set_g_init x s := mkStreams x (g_initClntThreads s) (g_initSvrThreads s) (g_exitClntThreads s)
  (g_exitSvrThreads s) (g_svrDB s) (g_clntFD s) (g_svrFD s) (g_clntThread s) (g_svrThread s) (st_net s) (st_host s).
Definition set_g_initClntThreads x s := mkStreams (g_init s) x (g_initSvrThreads s) (g_exitClntThreads s)
  (g_exitSvrThreads s) (g_svrDB s) (g_clntFD s) (g_svrFD s) (g_clntThread s) (g_svrThread s) (st_net s) (st_host s).
Definition set_g_initSvrThreads x s := mkStreams (g_init s) (g_initClntThreads s) x (g_exitClntThreads s)
  (g_exitSvrThreads s) (g_svrDB s) (g_clntFD s) (g_svrFD s) (g_clntThread s) (g_svrThread s) (st_net s) (st_host s).
Definition set_g_exitClntThreads x s := mkStreams (g_init s) (g_initClntThreads s) (g_initSvrThreads s) x
  (g_exitSvrThreads s) (g_svrDB s) (g_clntFD s) (g_svrFD s) (g_clntThread s) (g_svrThread s) (st_net s) (st_host s).
Definition set_g_exitSvrThreads x s := mkStreams (g_init s) (g_initClntThreads s) (g_initSvrThreads s)
  (g_exitClntThreads s) x (g_svrDB s) (g_clntFD s) (g_svrFD s) (g_clntThread s) (g_svrThread s) (st_net s) (st_host s).
Definition set_g_svrDB x s := mkStreams (g_init s) (g_initClntThreads s) (g_initSvrThreads s) (g_exitClntThreads s)
  (g_exitSvrThreads s) x (g_clntFD s) (g_svrFD s) (g_clntThread s) (g_svrThread s) (st_net s) (st_host s).
Definition set_g_clntFD x s := mkStreams (g_init s) (g_initClntThreads s) (g_initSvrThreads s) (g_exitClntThreads s)
  (g_exitSvrThreads s) (g_svrDB s) x (g_svrFD s) (g_clntThread s) (g_svrThread s) (st_net s) (st_host s).
Definition set_g_svrFD x s := mkStreams (g_init s) (g_initClntThreads s) (g_initSvrThreads s) (g_exitClntThreads s)
  (g_exitSvrThreads s) (g_svrDB s) (g_clntFD s) x (g_clntThread s) (g_svrThread s) (st_net s) (st_host s).
Definition set_g_clntThread x s := mkStreams (g_init s) (g_initClntThreads s) (g_initSvrThreads s) (g_exitClntThreads s)
  (g_exitSvrThreads s) (g_svrDB s) (g_clntFD s) (g_svrFD s) x (g_svrThread s) (st_net s) (st_host s).
Definition set_g_svrThread x s := mkStreams (g_init s) (g_initClntThreads s) (g_initSvrThreads s) (g_exitClntThreads s)
  (g_exitSvrThreads s) (g_svrDB s) (g_clntFD s) (g_svrFD s) (g_clntThread s) x (st_net s) (st_host s).
Definition set_net x s := mkStreams (g_init s) (g_initClntThreads s) (g_initSvrThreads s) (g_exitClntThreads s)
  (g_exitSvrThreads s) (g_svrDB s) (g_clntFD s) (g_svrFD s) (g_clntThread s) (g_svrThread s) x (st_host s).
Definition set_host x s := mkStreams (g_init s) (g_initClntThreads s) (g_initSvrThreads s) (g_exitClntThreads s)
  (g_exitSvrThreads s) (g_svrDB s) (g_clntFD s) (g_svrFD s) (g_clntThread s) (g_svrThread s) (st_net s) x.

Definition ST (A : Type) : Type := M streams A.

Definition os {A} (f : net → A * net) : ST A := λ s,
  let '(a, n) := f (st_net s) in Done a (set_net n s).
Definition os_query {A} (f : net → A) : ST A := gets (λ s, f (st_net s)).
Definition os_do (f : net → net) : ST unit := modify (λ s, set_net (f (st_net s)) s).
Definition on_host {A} (m : M host A) : ST A := zoom st_host set_host m.

(** [g[type][index]] of the two-dimensional arrays. *)
Definition arr_read (get : streams → list (list Z)) (type index : Z) : ST Z :=
  s ← Prelude.get; access (get s !! Z.to_nat type ≫= λ row, row !! Z.to_nat index).

Definition arr_write (get : streams → list (list Z)) (set : list (list Z) → streams → streams)
    (type index v : Z) : ST unit :=
  s ← Prelude.get;
  _ ← arr_read get type index;
  modify (set (alter (λ row, <[Z.to_nat index := v]> row) (Z.to_nat type) (get s))).

(** An operation on [g_svrDB[type]]. *)
Definition on_svrDB {A} (type : Z) (m : M IdentifierDB A) : ST A :=
  s ← Prelude.get;
  p ← access (g_svrDB s !! Z.to_nat type);
  db ← access (deref p);
  match m db with
  | Done a db' =>
      _ ← modify (set_g_svrDB (<[Z.to_nat type := Live db']> (g_svrDB s)));
      mret a
  | Fault f => throw f
  end.

Definition stream_ids : list Z := [0; 1; 2; 3].

(** ** Power on *)

Definition all_rows (v : Z) : list (list Z) :=
  replicate VMACCEL_STREAM_TYPE_MAX (replicate (Z.to_nat VMACCEL_MAX_STREAMS) v).

(** [ok_db] and [ok_bits]: whether a database and its words can be allocated. *)
Definition vmaccel_stream_poweron (ok_db ok_bits : bool) : ST Z :=
  let db := match IdentifierDB_Alloc ok_db ok_bits VMACCEL_MAX_STREAMS with Some db => Live db | None => Null end in
  _ ← modify (set_g_svrDB (replicate VMACCEL_STREAM_TYPE_MAX db));
  _ ← modify (set_g_clntFD (all_rows (-1)));
  _ ← modify (set_g_svrFD (all_rows (-1)));
  _ ← modify (set_g_clntThread (all_rows 0));
  _ ← modify (set_g_svrThread (all_rows 0));
  _ ← modify (set_g_init 1);
  mret VMACCEL_SUCCESS.

(** What [htons] keeps of a port. *)
Definition u16 (z : Z) : Z := z mod 65536.

Definition TCP_RCV_BUFFER_SIZE : Z := 131072.
Definition TCP_SND_BUFFER_SIZE : Z := 16384.

(** Asks for the size [req] of a buffer that has another. *)
Definition ConfigureBuffer (sockFD : Z) (opt : sockopt) (req : Z) : ST unit :=
  size ← os_query (sock_getsockopt sockFD opt);
  match size with
  | Some v => if negb (v =? req) then _ ← os (sock_setsockopt sockFD opt req); mret tt else mret tt
  | None => mret tt
  end.

(** [TCP_NODELAY] is read for the log only. *)
Definition ConfigureSocket (sockFD reqRcvBufSize reqSndBufSize : Z) : ST unit :=
  _ ← ConfigureBuffer sockFD SO_RCVBUF reqRcvBufSize;
  _ ← ConfigureBuffer sockFD SO_SNDBUF reqSndBufSize;
  _ ← os_query (sock_getsockopt sockFD TCP_NODELAY);
  mret tt.

(** ** The server thread *)

(** VMAccelStreamContext: the type, the index and the base port. *)
Record VMAccelStreamContext := mkVMAccelStreamContext {
  ctx_type : Z;
  ctx_index : Z;
  ctx_port : Z;
}.

(** [recv] into memory at [ptr]: what an [int] keeps of the count. *)
Definition recv_into (fd ptr len : Z) : ST Z :=
  '(r, b) ← os (sock_recv fd len);
  _ ← modify (λ s, set_host (mem_store ptr b (st_host s)) s);
  mret (int_of r).

(** The receive loop.  [rxLen] is a [size_t], so [rxLen - rxSize < 0] is a
    comparison of unsigned numbers.  The answer is [rxLen] and the number of
    passes; a pass receives at least one byte, so [rxLen] passes are enough. *)
Fixpoint rx_loop (fuel : nat) (fd ptr rxLen rxOffset numPasses : Z) : ST (Z * Z) :=
  exit_ ← gets g_exitSvrThreads;
  if negb ((exit_ =? 0) && (0 <? rxLen)) then mret (rxLen, numPasses) else
  match fuel with
  | O => throw WouldBlock
  | S fuel' =>
      rxSize ← recv_into fd (ptr + rxOffset) rxLen;
      if rxSize <=? 0 then mret (rxLen, numPasses) else
      if u64 (rxLen - rxSize) <? 0 then mret (u64 (-1), numPasses) else
      rx_loop fuel' fd ptr (u64 (rxLen - rxSize)) (u64 (rxOffset + rxSize)) (u32 (numPasses + 1))
  end.

Inductive packet_end : Type := NextPacket | CloseConnection.

(** One packet: the body of the inner loop. *)
Definition serve_packet (clntFD : Z) (p : VMAccelStreamPacket) : ST packet_end :=
  let rxLen := packet_len p in
  if packet_type p =? VMACCEL_STREAM_TYPE_VMCL_UPLOAD then
    let op := VMCLSurfaceMapOp_op (packet_desc p) in
    mapStatus ← on_host (clSurfacemap_1 (packet_desc p));
    if sm_ptr_len mapStatus <? rxLen then mret CloseConnection else
    '(rxLen, _) ← rx_loop (Z.to_nat rxLen) clntFD (sm_ptr_val mapStatus) rxLen 0 0;
    data ← gets (λ s, mem_load (sm_ptr_val mapStatus) (sm_ptr_len mapStatus) (st_host s));
    _ ← on_host (clSurfaceunmap_1
          (mkVMCLSurfaceUnmapOp (VMCLSurfaceMapOp_queue (packet_desc p))
             (mkVMAccelSurfaceUnmapOp (VMAccelSurfaceMapOp_surf op)
                (Z.lor (VMAccelSurfaceMapOp_mapFlags op) VMACCEL_MAP_NO_FREE_PTR_FLAG) data)));
    if rxLen <? 0 then mret CloseConnection else mret NextPacket
  else mret CloseConnection.

(** The inner loop: [buf] are the bytes of the packet variable, which keeps
    what a short [recv] does not overwrite.  Every pass receives at least one
    byte; [fuel] bounds the passes. *)
Fixpoint serve_connection (fuel : nat) (clntFD : Z) (buf : list byte) : ST (list byte) :=
  exit_ ← gets g_exitSvrThreads;
  if negb (exit_ =? 0) then mret buf else
  '(r, b) ← os (sock_recv clntFD SIZEOF_PACKET);
  if int_of r <=? 0 then mret buf else
  let buf := b ++ drop (length b) buf in
  match fuel with
  | O => throw WouldBlock
  | S fuel' =>
      next ← serve_packet clntFD (packet_of buf);
      match next with
      | CloseConnection => mret buf
      | NextPacket => serve_connection fuel' clntFD buf
      end
  end.

(** The accept loop; [conns] bounds the connections, [fuel] the packets of
    each. *)
Fixpoint accept_loop (conns fuel : nat) (c : VMAccelStreamContext) (svrFD : Z) (buf : list byte) : ST unit :=
  exit_ ← gets g_exitSvrThreads;
  if negb (exit_ =? 0) then mret tt else
  r ← os (sock_listen svrFD);
  if negb (r =? 0) then mret tt else
  fd ← arr_read g_svrFD (ctx_type c) (ctx_index c);
  clntFD ← os (sock_accept fd);
  if clntFD <? 0 then mret tt else
  match conns with
  | O => throw WouldBlock
  | S conns' =>
      buf ← serve_connection fuel clntFD buf;
      _ ← os_do (sock_close clntFD);
      accept_loop conns' fuel c svrFD buf
  end.

Definition server_exit (c : VMAccelStreamContext) : ST unit :=
  fd ← arr_read g_svrFD (ctx_type c) (ctx_index c);
  _ ← assert (negb (fd =? -1));
  _ ← os_do (sock_close fd);
  _ ← arr_write g_svrFD set_g_svrFD (ctx_type c) (ctx_index c) (-1);
  _ ← on_svrDB (ctx_type c) (IdentifierDB_ReleaseId (ctx_index c));
  n ← gets g_exitSvrThreads;
  if 0 <? n then modify (λ s, set_g_exitSvrThreads (g_exitSvrThreads s - 1) s)
  else modify (λ s, set_g_initSvrThreads (g_initSvrThreads s - 1) s).

Definition StreamTCPServerThread (conns fuel : nat) (c : VMAccelStreamContext) : ST unit :=
  let port := u32 (ctx_port c + ctx_index c) in
  svrFD ← os sock_socket;
  if svrFD =? -1 then mret tt else
  r ← os (sock_bind svrFD (u16 port));
  if r <? 0 then os_do (sock_close svrFD) else
  _ ← ConfigureSocket svrFD TCP_RCV_BUFFER_SIZE TCP_SND_BUFFER_SIZE;
  _ ← arr_write g_svrFD set_g_svrFD (ctx_type c) (ctx_index c) svrFD;
  _ ← modify (λ s, set_g_initSvrThreads (g_initSvrThreads s + 1) s);
  _ ← accept_loop conns fuel c svrFD (replicate (Z.to_nat SIZEOF_PACKET) x00);
  server_exit c.

(** One pass per index; [None] ends the loop with [VMACCEL_FAIL]. *)
Fixpoint stream_server_loop (type : Z) (indices : list Z) : ST Z :=
  match indices with
  | [] => mret VMACCEL_SUCCESS
  | i :: rest =>
      taken ← on_svrDB type (IdentifierDB_AcquireId i);
      if (taken : bool) then
        '(err, t) ← os pthread_create;
        if negb (err =? 0) then mret VMACCEL_FAIL else
        _ ← arr_write g_svrThread set_g_svrThread type i t;
        stream_server_loop type rest
      else stream_server_loop type rest
  end.

Definition vmaccel_stream_server (type : Z) : ST Z :=
  init ← gets g_init;
  if init =? 0 then mret VMACCEL_FAIL else stream_server_loop type stream_ids.

(** ** The client *)

Record VMAccelStreamSend := mkVMAccelStreamSend {
  send_accel : VMAccelAddress;
  send_type : Z;
  send_index : Z;
  send_desc : VMCLSurfaceMapOp;
  send_ptr_len : Z;
  send_ptr_val : Z;
}.

(** The transmit loop: [txSize] is the truth value of [send(...) < 0], by
    which [txLen] decreases; the pointer does not advance. *)
Fixpoint tx_loop (fuel : nat) (fd ptr txLen numPasses : Z) : ST Z :=
  exit_ ← gets g_exitClntThreads;
  if negb ((exit_ =? 0) && (0 <? txLen)) then mret numPasses else
  data ← gets (λ s, mem_load ptr txLen (st_host s));
  r ← os (sock_send fd data);
  let txSize := if r <? 0 then 1 else 0 in
  if txSize =? 0 then mret numPasses else
  match fuel with
  | O => throw WouldBlock
  | S fuel' => tx_loop fuel' fd ptr (u64 (txLen - txSize)) (numPasses + 1)
  end.

Definition StreamTCPClientSend (s : VMAccelStreamSend) : ST Z :=
  fd ← arr_read g_clntFD (send_type s) (send_index s);
  if fd =? -1 then mret VMACCEL_FAIL else
  let p := mkVMAccelStreamPacket (send_type s) (send_ptr_len s) (send_desc s) in
  r ← os (sock_send fd (packet_bytes p));
  if negb (r =? SIZEOF_PACKET) then mret VMACCEL_FAIL else
  _ ← tx_loop (Z.to_nat (send_ptr_len s)) fd (send_ptr_val s) (send_ptr_len s) 0;
  mret VMACCEL_SUCCESS.

(** The buffer of the client thread: 127.0.0.1 in [4 * VMACCEL_MAX_LOCATION_SIZE]
    bytes. *)
Definition host_buffer : list byte :=
  let text := inet_ntoa [x7f; x00; x00; x01] in
  text ++ replicate (Z.to_nat (4 * VMACCEL_MAX_LOCATION_SIZE) - length text) x00.

Definition release_stream (s : VMAccelStreamSend) : ST unit :=
  on_svrDB (send_type s) (IdentifierDB_ReleaseId (send_index s)).

(** Opens the connection of a thread's index: [false] when it cannot, and the
    index is given back. *)
Definition client_connect (s : VMAccelStreamSend) : ST bool :=
  '(ok, text) ← access (VMAccel_AddressOpaqueAddrToString (send_accel s) host_buffer (4 * VMACCEL_MAX_LOCATION_SIZE));
  if negb ok then _ ← release_stream s; mret false else
  clntFD ← os sock_socket;
  if clntFD =? -1 then _ ← release_stream s; mret false else
  _ ← ConfigureSocket clntFD TCP_RCV_BUFFER_SIZE TCP_SND_BUFFER_SIZE;
  r ← os (sock_connect clntFD (inet_addr (c_string text))
            (u16 (VMAccelAddress_port (send_accel s) + send_index s)));
  if r <? 0 then
    _ ← os_do (sock_close clntFD);
    _ ← release_stream s;
    mret false
  else
    _ ← arr_write g_clntFD set_g_clntFD (send_type s) (send_index s) clntFD;
    mret true.

(** The thread up to the transmission; [false] when it has ended. *)
Definition client_begin (s : VMAccelStreamSend) : ST bool :=
  ret ← os_query pthread_getschedparam;
  if negb (ret =? 0) then mret false else
  fd ← arr_read g_clntFD (send_type s) (send_index s);
  open_ ← (if fd =? -1 then client_connect s else mret true);
  if negb open_ then mret false else
  _ ← modify (λ st, set_g_initClntThreads (g_initClntThreads st + 1) st);
  mret true.

(** The thread after the transmission and the release of its index. *)
Definition client_close (s : VMAccelStreamSend) : ST unit :=
  if DEBUG_STREAMS then
    fd ← arr_read g_clntFD (send_type s) (send_index s);
    _ ← os_do (sock_close fd);
    arr_write g_clntFD set_g_clntFD (send_type s) (send_index s) (-1)
  else mret tt.

Definition client_exit : ST unit :=
  n ← gets g_exitClntThreads;
  if 0 <? n then modify (λ st, set_g_exitClntThreads (g_exitClntThreads st - 1) st)
  else modify (λ st, set_g_initClntThreads (g_initClntThreads st - 1) st).

Definition StreamTCPClientThread (s : VMAccelStreamSend) : ST unit :=
  running ← client_begin s;
  if negb running then mret tt else
  _ ← StreamTCPClientSend s;
  _ ← release_stream s;
  _ ← client_close s;
  client_exit.

(** The stages of vmaccel_stream_send_async: the caller's scheduling; a free
    index; when there is none the index of the first client thread, after that
    thread has been joined; the new thread. *)
Definition send_check : ST bool :=
  ret ← os_query pthread_getschedparam;
  if negb (ret =? 0) then mret false else
  _ ← (if DEBUG_STREAMS then _ ← os pthread_setschedparam; mret tt else mret tt);
  mret true.

Definition send_alloc (type : Z) : ST (option Z) :=
  init ← gets g_init;
  _ ← assert (negb (init =? 0));
  on_svrDB type IdentifierDB_AllocId.

(** The loop over the threads ends in its first pass, whichever way the join
    goes. *)
Definition send_wait (type : Z) : ST (option Z) :=
  t ← arr_read g_clntThread type 0;
  r ← os (pthread_join t);
  mret (if negb (r =? 0) then None else Some 0).

Definition send_acquire (type index : Z) : ST unit :=
  taken ← on_svrDB type (IdentifierDB_AcquireId index);
  assert taken.

Definition send_join (type : Z) : ST (option Z) :=
  index ← send_wait type;
  match index with
  | None => mret None
  | Some i => _ ← send_acquire type i; mret index
  end.

(** The status and the thread that was started, if any. *)
Definition send_create (a : VMAccelAddress) (type index : Z) (args : VMCLSurfaceMapOp) (ptr_val ptr_len : Z) :
    ST (Z * option (Z * VMAccelStreamSend)) :=
  let s := mkVMAccelStreamSend a type index args (u32 ptr_len) ptr_val in
  attr ← os_query pthread_attr_init;
  if attr =? 0 then
    '(err, t) ← os pthread_create;
    if negb (err =? 0) then mret (VMACCEL_FAIL, None) else mret (VMACCEL_SUCCESS, Some (t, s))
  else mret (VMACCEL_SUCCESS, None).

Definition send_store (type index t : Z) : ST unit := arr_write g_clntThread set_g_clntThread type index t.

Definition send_start (a : VMAccelAddress) (type index : Z) (args : VMCLSurfaceMapOp) (ptr_val ptr_len : Z) :
    ST (Z * option (Z * VMAccelStreamSend)) :=
  '(status, th) ← send_create a type index args ptr_val ptr_len;
  _ ← match th with Some (t, _) => send_store type index t | None => mret tt end;
  mret (status, th).

Definition vmaccel_stream_send_async (a : VMAccelAddress) (type : Z) (args : VMCLSurfaceMapOp)
    (ptr_val ptr_len : Z) : ST (Z * option (Z * VMAccelStreamSend)) :=
  ok ← send_check;
  if negb ok then mret (VMACCEL_FAIL, None) else
  id ← send_alloc type;
  index ← (match id with Some _ => mret id | None => send_join type end);
  match index with
  | None => mret (VMACCEL_FAIL, None)
  | Some index => send_start a type index args ptr_val ptr_len
  end.

(** ** Power off *)

(** What is left of stream [i] of type [j]; server threads are not joined
    (the code tests a macro that is not defined). *)
Definition poweroff_stream (j i : Z) : ST unit :=
  t ← arr_read g_clntThread j i;
  _ ← (if negb (t =? 0)
       then _ ← os (pthread_join t); arr_write g_clntThread set_g_clntThread j i 0
       else mret tt);
  _ ← arr_write g_svrThread set_g_svrThread j i 0;
  fd ← arr_read g_svrFD j i;
  _ ← (if negb (fd =? -1)
       then _ ← os_do (sock_close fd); arr_write g_svrFD set_g_svrFD j i (-1)
       else mret tt);
  p ← (s ← Prelude.get; access (g_svrDB s !! Z.to_nat j));
  if is_null p then mret tt else
  active ← on_svrDB j (IdentifierDB_ActiveId i);
  if (active : bool) then on_svrDB j (IdentifierDB_ReleaseId i) else mret tt.

Fixpoint poweroff_streams (j : Z) (indices : list Z) : ST unit :=
  match indices with
  | [] => mret tt
  | i :: rest => _ ← poweroff_stream j i; poweroff_streams j rest
  end.

(** There is one type.  The wait for the threads does not return while both
    kinds have threads left. *)
Definition vmaccel_stream_poweroff : ST unit :=
  s ← Prelude.get;
  if ((0 <? g_initClntThreads s) || (0 <? g_initSvrThreads s)) &&
     ((0 <? g_exitClntThreads s) || (0 <? g_exitSvrThreads s)) then throw AssertFailed else
  _ ← modify (set_g_exitClntThreads (g_initClntThreads s));
  _ ← modify (set_g_exitSvrThreads (g_initSvrThreads s));
  s ← Prelude.get;
  if negb (g_exitClntThreads s =? 0) && negb (g_exitSvrThreads s =? 0) then throw WouldBlock else
  _ ← poweroff_streams VMACCEL_STREAM_TYPE_VMCL_UPLOAD stream_ids;
  s ← Prelude.get;
  p ← access (g_svrDB s !! O);
  match p with
  | Null => mret tt
  | Freed => throw BadAccess
  | Live _ => modify (set_g_svrDB (<[O := Freed]> (g_svrDB s)))
  end.
End Stream.
