(* ===== verification/StreamServer.v ===== *)
(** * What the stream server does with a packet

    Whatever pieces TCP delivers a payload in, the server stores the payload
    in the mapped surface, from its start, and unmaps it: the receive loop is
    an atomic transfer. *)

From S2P Require Import Prelude IdentifierDB XdrRuntime XdrRFC4506 Words RpcTypes Backend Address Stream.
Open Scope Z_scope.
Open Scope list_scope.

(** ** What the module relies on

    recv(2) on a connected stream socket delivers the peer's bytes in order, at
    least one and at most as many as asked for, or answers 0 or -1; while the
    connection is alive and bytes are on their way it delivers.  send(2)
    answers how many bytes, from the first, are on their way to the peer. *)
Class POSIXLaws `{POSIX} := {
  inbound : Z → net → list byte;
  alive : Z → net → Prop;
  recv_spec fd len n r b n' :
    0 < len → sock_recv fd len n = ((r, b), n') →
    (-1 ≤ r ≤ 0 ∧ b = [] ∧ inbound fd n' = inbound fd n) ∨
    (0 < r ≤ len ∧ Z.of_nat (length b) = r ∧ inbound fd n = b ++ inbound fd n');
  recv_alive fd len n r b n' :
    0 < len → alive fd n → inbound fd n ≠ [] → sock_recv fd len n = ((r, b), n') → 0 < r ∧ alive fd n';
  peer : Z → Z;
  send_spec fd data n r n' :
    sock_send fd data n = (r, n') →
    (r < 0 ∧ inbound (peer fd) n' = inbound (peer fd) n) ∨
    (0 ≤ r ≤ Z.of_nat (length data) ∧ inbound (peer fd) n' = inbound (peer fd) n ++ take (Z.to_nat r) data);
  send_alive fd data n r n' : alive (peer fd) n → 0 ≤ r → sock_send fd data n = (r, n') → alive (peer fd) n';
}.

(** Consecutive stores are one store; a load has its length, and a shorter one
    is its beginning. *)
Class StreamHostLaws `{StreamHost} := {
  store_nil ptr h : mem_store ptr [] h = h;
  store_app ptr a b h : mem_store ptr (a ++ b) h = mem_store (ptr + Z.of_nat (length a)) b (mem_store ptr a h);
  load_length ptr len h : 0 ≤ len → Z.of_nat (length (mem_load ptr len h)) = len;
  load_prefix ptr j len h : 0 ≤ j ≤ len → mem_load ptr j h `prefix_of` mem_load ptr len h;
}.

(** ** Packets survive their memory image *)

Definition packet_ok (p : VMAccelStreamPacket) : Prop := Forall is_u32 (packet_words p).

Lemma packet_of_bytes p : packet_ok p → packet_of (packet_bytes p) = p.
Proof.
  intros Hp. unfold packet_of, packet_bytes.
  assert (∀ i w, packet_words p !! i = Some w → word_of (packet_words p ≫= word_bytes) i = w) as Hw.
  { intros i w Hi. apply word_of_concat; [done |]. by eapply Forall_lookup_1. }
  destruct p as [ty len [[cid qid] [[st ht sid inst off gen] [cx cy cz] [sx sy] flags]]].
  by rewrite (Hw 0%nat ty), (Hw 1%nat len), (Hw 2%nat cid), (Hw 3%nat qid), (Hw 4%nat st), (Hw 5%nat ht),
    (Hw 6%nat sid), (Hw 7%nat inst), (Hw 8%nat off), (Hw 9%nat gen), (Hw 10%nat cx), (Hw 11%nat cy),
    (Hw 12%nat cz), (Hw 13%nat sx), (Hw 14%nat sy), (Hw 15%nat flags).
Qed.

Lemma length_packet_bytes p : Z.of_nat (length (packet_bytes p)) = SIZEOF_PACKET.
Proof. done. Qed.

(** ** The receive loop *)

Section Receive.
Context `{POSIXLaws} `{StreamHostLaws}.
Implicit Types s : streams.

Definition with_io (n : net) (h : host) s : streams := set_net n (set_host h s).

Lemma recv_into_run fd ptr len s r b n :
  sock_recv fd len (st_net s) = ((r, b), n) →
  recv_into fd ptr len s = Done (int_of r) (with_io n (mem_store ptr b (st_host s)) s).
Proof. intros Hr. unfold recv_into, os. mrun. by rewrite Hr. Qed.

Lemma int_of_small r : -1 ≤ r < 2147483648 → int_of r = r.
Proof.
  intros Hr. unfold int_of, s32. u32_unfold. cbv zeta.
  destruct (Z.ltb_spec (r mod 4294967296) 2147483648); lia.
Qed.

(** [k] of [rxLen] bytes arrive; all of them while the connection lives. *)
Lemma rx_loop_run fuel : ∀ fd ptr rxLen off np s,
  g_exitSvrThreads s = 0 → 0 ≤ rxLen < 2147483648 → 0 ≤ off → off + rxLen ≤ 4294967296 → (Z.to_nat rxLen ≤ fuel)%nat →
  ∃ k np' n',
    let data := take (Z.to_nat k) (inbound fd (st_net s)) in
    rx_loop fuel fd ptr rxLen off np s =
      Done (rxLen - k, np') (with_io n' (mem_store (ptr + off) data (st_host s)) s) ∧
    0 ≤ k ≤ rxLen ∧ Z.of_nat (length data) = k ∧
    inbound fd n' = drop (Z.to_nat k) (inbound fd (st_net s)) ∧
    (alive fd (st_net s) → rxLen ≤ Z.of_nat (length (inbound fd (st_net s))) → k = rxLen ∧ alive fd n').
Proof.
  induction fuel as [| fuel IH]; intros fd ptr rxLen off np s Hexit Hlen Hoff Hsum Hfuel.
  - assert (rxLen = 0) as -> by lia. exists 0, np, (st_net s). cbn [rx_loop Z.to_nat]. mrun. rewrite Hexit.
    cbn [negb andb Z.eqb Z.ltb]. rewrite take_0, drop_0, store_nil. destruct s. repeat split; done || lia.
  - cbn [rx_loop]. mrun. rewrite Hexit. cbn [Z.eqb andb]. destruct (Z.ltb_spec 0 rxLen) as [Hpos |]; cbn [negb].
    2: { assert (rxLen = 0) as -> by lia. exists 0, np, (st_net s). cbn [Z.to_nat].
         rewrite take_0, drop_0, store_nil. destruct s. repeat split; done || lia. }
    destruct (sock_recv fd rxLen (st_net s)) as [[r b] n1] eqn:Hr.
    rewrite (recv_into_run fd (ptr + off) rxLen s r b n1 Hr).
    destruct (recv_spec fd rxLen (st_net s) r b n1 Hpos Hr) as [(Hr0 & -> & Hin) | (Hrp & Hb & Hin)].
    + rewrite int_of_small by lia. destruct (Z.leb_spec r 0); [| lia].
      exists 0, np, n1. cbn [Z.to_nat]. rewrite take_0, drop_0. rewrite Z.sub_0_r.
      split; [done |]. split; [lia |]. split; [done |]. split; [done |].
      intros Hal Hlong. destruct (recv_alive fd rxLen (st_net s) r [] n1) as [? _]; [done | done | | done | lia].
      destruct (inbound fd (st_net s)); [simpl in Hlong; lia | done].
    + rewrite int_of_small by lia. destruct (Z.leb_spec r 0); [lia |].
      assert (u64 (rxLen - r) = rxLen - r) as -> by (apply Z.mod_small; lia).
      assert (u64 (off + r) = off + r) as -> by (apply Z.mod_small; lia).
      destruct (Z.ltb_spec (rxLen - r) 0); [lia |].
      set (s1 := with_io n1 (mem_store (ptr + off) b (st_host s)) s).
      destruct (IH fd ptr (rxLen - r) (off + r) (u32 (np + 1)) s1) as (k & np' & n' & Hrun & Hk & Hd & Hin' & Hall);
        [done | lia | lia | lia | lia |].
      change (st_net s1) with n1 in *.
      exists (r + k), np', n'. cbv zeta.
      assert (take (Z.to_nat (r + k)) (inbound fd (st_net s)) = b ++ take (Z.to_nat k) (inbound fd n1)) as ->.
      { rewrite Hin, Z2Nat.inj_add by lia. rewrite take_app_add'; [done | lia]. }
      rewrite Hrun. split.
      { f_equal; [f_equal; lia |]. unfold with_io, s1. simpl. rewrite store_app, Hb.
        by replace (ptr + off + r) with (ptr + (off + r)) by lia. }
      split; [lia |]. split; [rewrite length_app; lia |]. split.
      { rewrite Hin', Hin, Z2Nat.inj_add by lia. rewrite drop_app_add'; [done | lia]. }
      intros Hal Hlong. destruct (recv_alive fd rxLen (st_net s) r b n1) as [_ Hal1]; [done | done | | done |].
      { destruct (inbound fd (st_net s)); [simpl in Hlong; lia | done]. }
      rewrite Hin, length_app in Hlong. destruct (Hall Hal1 ltac:(lia)) as [-> ?]. split; [lia | done].
Qed.

(** ** One packet *)

(** The answer the server gives the surface back with. *)
Definition unmap_of (p : VMAccelStreamPacket) (data : list byte) : VMCLSurfaceUnmapOp :=
  let op := VMCLSurfaceMapOp_op (packet_desc p) in
  mkVMCLSurfaceUnmapOp (VMCLSurfaceMapOp_queue (packet_desc p))
    (mkVMAccelSurfaceUnmapOp (VMAccelSurfaceMapOp_surf op)
       (Z.lor (VMAccelSurfaceMapOp_mapFlags op) VMACCEL_MAP_NO_FREE_PTR_FLAG) data).

(** The contents of [m] go back with the surface, once [data] is in it. *)
Definition fill_unmap (p : VMAccelStreamPacket) (m : StreamMapping) (data : list byte) : M host unit :=
  _ ← modify (mem_store (sm_ptr_val m) data);
  back ← gets (mem_load (sm_ptr_val m) (sm_ptr_len m));
  clSurfaceunmap_1 (unmap_of p back).

(** A packet as one transfer: [k] bytes arrive and the surface is given back. *)
Lemma serve_packet_run fd p s m h1 :
  packet_type p = VMACCEL_STREAM_TYPE_VMCL_UPLOAD → g_exitSvrThreads s = 0 → 0 ≤ packet_len p < 2147483648 →
  clSurfacemap_1 (packet_desc p) (st_host s) = Done m h1 → packet_len p ≤ sm_ptr_len m →
  ∃ k n',
    let data := take (Z.to_nat k) (inbound fd (st_net s)) in
    serve_packet fd p s =
      match fill_unmap p m data h1 with
      | Done _ h2 => Done NextPacket (with_io n' h2 s)
      | Fault f => Fault f
      end ∧
    0 ≤ k ≤ packet_len p ∧ Z.of_nat (length data) = k ∧
    inbound fd n' = drop (Z.to_nat k) (inbound fd (st_net s)) ∧
    (alive fd (st_net s) → packet_len p ≤ Z.of_nat (length (inbound fd (st_net s))) → k = packet_len p ∧ alive fd n').
Proof.
  intros Hty Hexit Hlen Hmap Hfit.
  destruct (rx_loop_run (Z.to_nat (packet_len p)) fd (sm_ptr_val m) (packet_len p) 0 0 (set_host h1 s))
    as (k & np & n' & Hrx & Hk & Hd & Hin & Hall); [done | done | lia | lia | done |].
  exists k, n'. cbv zeta in *. split; [| done].
  unfold serve_packet, fill_unmap, unmap_of. rewrite Hty, Z.eqb_refl. unfold on_host, zoom. mrun. rewrite Hmap.
  destruct (Z.ltb_spec (sm_ptr_len m) (packet_len p)); [lia |].
  rewrite Hrx. rewrite Z.add_0_r. cbn [st_host st_net with_io set_net set_host].
  destruct (clSurfaceunmap_1 _ _); [| done].
  destruct (Z.ltb_spec (packet_len p - k) 0); [lia | done].
Qed.

(** A payload that does not fit the mapping ends the connection: the surface
    stays mapped. *)
Lemma serve_packet_overflow fd p s m h1 :
  packet_type p = VMACCEL_STREAM_TYPE_VMCL_UPLOAD → clSurfacemap_1 (packet_desc p) (st_host s) = Done m h1 →
  sm_ptr_len m < packet_len p → serve_packet fd p s = Done CloseConnection (set_host h1 s).
Proof.
  intros Hty Hmap Hlong. unfold serve_packet. rewrite Hty, Z.eqb_refl. unfold on_host, zoom. mrun. rewrite Hmap.
  by destruct (Z.ltb_spec (sm_ptr_len m) (packet_len p)); [| lia].
Qed.

(** ** A connection *)

(** What a client means to upload: the packet and its payload. *)
Definition upload_ok (u : VMAccelStreamPacket * list byte) : Prop :=
  packet_ok u.1 ∧ packet_type u.1 = VMACCEL_STREAM_TYPE_VMCL_UPLOAD ∧
  packet_len u.1 = Z.of_nat (length u.2) ∧ packet_len u.1 < 2147483648.

(** The bytes of uploads on the wire. *)
Definition wire (ups : list (VMAccelStreamPacket * list byte)) : list byte :=
  ups ≫= λ u, packet_bytes u.1 ++ u.2.

(** The uploads as the service sees them: each surface is mapped, holds its
    payload, and is given back. *)
Fixpoint deliver (ups : list (VMAccelStreamPacket * list byte)) : M host unit :=
  match ups with
  | [] => mret tt
  | (p, data) :: ups' =>
      m ← clSurfacemap_1 (packet_desc p);
      _ ← assert (packet_len p <=? sm_ptr_len m);
      _ ← fill_unmap p m data;
      deliver ups'
  end.

(** A packet's header arrives in one piece, which the server takes for
    granted. *)
Definition headers_whole (fd : Z) : Prop := ∀ n,
  alive fd n → SIZEOF_PACKET ≤ Z.of_nat (length (inbound fd n)) →
  ∃ b n', sock_recv fd SIZEOF_PACKET n = ((SIZEOF_PACKET, b), n').

Lemma recv_header fd p rest n :
  headers_whole fd → alive fd n → inbound fd n = packet_bytes p ++ rest →
  ∃ n', sock_recv fd SIZEOF_PACKET n = ((SIZEOF_PACKET, packet_bytes p), n') ∧ inbound fd n' = rest ∧ alive fd n'.
Proof.
  intros Hw Hal Hin. destruct (Hw n Hal) as (b & n' & Hr).
  { rewrite Hin, length_app. pose proof (length_packet_bytes p). lia. }
  exists n'. destruct (recv_spec fd SIZEOF_PACKET n _ b n' ltac:(done) Hr) as [[? _] | (_ & Hb & Hin')];
    [unfold SIZEOF_PACKET in *; lia |].
  assert (length (packet_bytes p) = length b) as Hl by (pose proof (length_packet_bytes p); lia).
  rewrite Hin in Hin'. destruct (app_inj_1 _ _ _ _ Hl Hin') as [<- <-].
  split; [done |]. split; [done |].
  eapply recv_alive; [| done | | done]; [done |]. rewrite Hin. by destruct p.
Qed.

Lemma serve_connection_run fd ups : headers_whole fd → ∀ fuel buf s h',
  g_exitSvrThreads s = 0 → alive fd (st_net s) → inbound fd (st_net s) = wire ups → Forall upload_ok ups →
  deliver ups (st_host s) = Done tt h' → (length ups ≤ fuel)%nat → length buf = Z.to_nat SIZEOF_PACKET →
  ∃ buf' n', serve_connection fuel fd buf s = Done buf' (with_io n' h' s) ∧ inbound fd n' = [] ∧
    length buf' = Z.to_nat SIZEOF_PACKET.
Proof.
  intros Hw. induction ups as [| [p data] ups IH]; intros fuel buf s h' Hexit Hal Hin Hok Hdel Hfuel Hbuf.
  - injection Hdel as <-. destruct (sock_recv fd SIZEOF_PACKET (st_net s)) as [[r b] n'] eqn:Hr.
    destruct (recv_spec fd SIZEOF_PACKET _ r b n' ltac:(done) Hr) as [(Hr0 & _ & Hin') | (Hrp & Hb & Hin')].
    2: { rewrite Hin in Hin'. destruct b; [simpl in Hb; lia | done]. }
    exists buf, n'. split; [| by rewrite Hin', Hin]. destruct fuel; cbn [serve_connection]; mrun; rewrite Hexit;
      cbn [Z.eqb negb]; unfold os; rewrite Hr, int_of_small by lia; by destruct (Z.leb_spec r 0); [| lia].
  - destruct fuel as [| fuel]; [simpl in Hfuel; lia |].
    apply Forall_cons_1 in Hok as [(Hp & Hty & Hlen & Hshort) Hok]. cbn [fst snd] in *.
    cbn [wire mbind list_bind fst snd] in Hin. rewrite <- app_assoc in Hin. change (ups ≫= _) with (wire ups) in Hin.
    destruct (recv_header fd p (data ++ wire ups) (st_net s) Hw Hal Hin) as (n1 & Hr & Hin1 & Hal1).
    cbn [deliver] in Hdel. apply bind_inv in Hdel as (m & h1 & Hmap & Hdel).
    apply bind_inv in Hdel as (u & h1' & Hfit & Hdel).
    apply bind_inv in Hdel as (u' & h2 & Hfill & Hdel).
    assert (packet_len p ≤ sm_ptr_len m ∧ h1' = h1) as [Hle ->].
    { revert Hfit. unfold assert. destruct (Z.leb_spec (packet_len p) (sm_ptr_len m)); [| done]. by intros [= _ <-]. }
    set (s1 := set_net n1 s).
    destruct (serve_packet_run fd p s1 m h1) as (k & n2 & Hserve & Hk & Hd & Hin2 & Hall); try done; [lia |].
    cbv zeta in *. change (st_net s1) with n1 in *.
    destruct Hall as [-> Hal2]; [done | rewrite Hin1, length_app; lia |].
    assert (Z.to_nat (packet_len p) = length data) as Hn by lia. rewrite Hn in *.
    rewrite Hin1, take_app_length in Hserve. rewrite Hin1, drop_app_length in Hin2. rewrite Hfill in Hserve.
    destruct (IH fuel (packet_bytes p ++ drop (length (packet_bytes p)) buf) (with_io n2 h2 s1) h') as (buf' & n' & Hrun & Hend & Hbuf');
      try done; [simpl in Hfuel; lia | |].
    { rewrite length_app, length_drop, Hbuf. done. }
    exists buf', n'. split; [| done]. cbn [serve_connection]. mrun. rewrite Hexit. cbn [Z.eqb negb]. unfold os. rewrite Hr.
    change (int_of SIZEOF_PACKET <=? 0) with false. cbv iota.
    assert (packet_of (packet_bytes p ++ drop (length (packet_bytes p)) buf) = p) as ->.
    { rewrite drop_ge, app_nil_r by (rewrite Hbuf; done). by apply packet_of_bytes. }
    fold s1. rewrite Hserve. done.
Qed.

(** (C16) A connection on which every packet header arrives whole is served as
    one delivery: the accept loop takes it, hands every upload on it to the
    service, whole and in order, in whatever pieces the payloads arrive, closes
    it, and goes on to the next connection.  (A header that arrives in pieces is
    misread.) *)
Theorem connection_delivers conns fuel c svrFD buf s n1 fd clntFD n2 ups h' :
  g_exitSvrThreads s = 0 → sock_listen svrFD (st_net s) = (0, n1) →
  (g_svrFD s !! Z.to_nat (ctx_type c) ≫= λ row, row !! Z.to_nat (ctx_index c)) = Some fd →
  sock_accept fd n1 = (clntFD, n2) → 0 ≤ clntFD → headers_whole clntFD → alive clntFD n2 →
  inbound clntFD n2 = wire ups → Forall upload_ok ups → deliver ups (st_host s) = Done tt h' →
  (length ups ≤ fuel)%nat → length buf = Z.to_nat SIZEOF_PACKET →
  ∃ buf' n3, inbound clntFD n3 = [] ∧ length buf' = Z.to_nat SIZEOF_PACKET ∧
    accept_loop (S conns) fuel c svrFD buf s =
      accept_loop conns fuel c svrFD buf' (with_io (sock_close clntFD n3) h' s).
Proof.
  intros Hexit Hlisten Hfd Hacc Hpos Hw Hal Hin Hok Hdel Hfuel Hbuf.
  destruct (serve_connection_run clntFD ups Hw fuel buf (set_net n2 s) h') as (buf' & n3 & Hrun & Hend & Hbuf'); try done.
  exists buf', n3. split; [done |]. split; [done |]. cbn [accept_loop]. mrun. rewrite Hexit. cbn [Z.eqb negb].
  unfold os at 1. rewrite Hlisten. cbn [Z.eqb negb].
  unfold arr_read. mrun. cbv [mbind] in Hfd. cbn [g_svrFD set_net]. rewrite Hfd. unfold os. cbn [st_net set_net].
  rewrite Hacc. destruct (Z.ltb_spec clntFD 0); [lia |].
  change (set_net n2 (set_net n1 s)) with (set_net n2 s). rewrite Hrun. done.
Qed.
End Receive.
