(* ===== verification/StreamSim.v ===== *)
(** * A simulated network and host for the data streams

    One connection: the client's descriptor 4 sends to the server's
    descriptor 5, which receives at most a hundred bytes at a time.  The host
    keeps its memory byte by byte, maps two hundred bytes at address 4096 for
    every surface, and remembers what it was given back. *)

From S2P Require Import Prelude IdentifierDB XdrRuntime XdrRFC4506 RpcTypes Backend Address Stream StreamServer.
Open Scope Z_scope.
Open Scope list_scope.

Record simnet := mkSimnet {
  sn_bytes : list byte;
  sn_thread : Z;
}.

Definition sim_send (fd : Z) (data : list byte) (n : simnet) : Z * simnet :=
  if fd =? 4 then (Z.of_nat (length data), mkSimnet (sn_bytes n ++ data) (sn_thread n)) else (-1, n).

Definition sim_recv (fd len : Z) (n : simnet) : (Z * list byte) * simnet :=
  let k := Z.to_nat (Z.min len 100) in
  if fd =? 5 then ((Z.of_nat (length (take k (sn_bytes n))), take k (sn_bytes n)),
                   mkSimnet (drop k (sn_bytes n)) (sn_thread n))
  else ((0, []), n).

#[export] Instance sim_POSIX : POSIX := {|
  net := simnet;
  sock_socket n := (4, n);
  sock_bind _ _ n := (0, n);
  sock_getsockopt _ _ _ := Some 4096;
  sock_setsockopt _ _ _ n := (0, n);
  sock_listen _ n := (0, n);
  sock_accept _ n := (5, n);
  sock_connect _ _ _ n := (0, n);
  sock_send := sim_send;
  sock_recv := sim_recv;
  sock_close _ n := n;
  pthread_create n := ((0, sn_thread n), mkSimnet (sn_bytes n) (sn_thread n + 1));
  pthread_join _ n := (0, n);
  pthread_getschedparam _ := 0;
  pthread_setschedparam n := (0, n);
  pthread_attr_init _ := 0;
|}.

(** Nothing on its way, and the next thread. *)
Definition sim_net (t : Z) : net := mkSimnet [] t.

Definition sim_inbound (fd : Z) (n : simnet) : list byte := if fd =? 5 then sn_bytes n else [].
Definition sim_peer (fd : Z) : Z := if fd =? 4 then 5 else 6.

Lemma sim_recv_spec fd len n r b n' :
  0 < len → sim_recv fd len n = ((r, b), n') →
  (-1 ≤ r ≤ 0 ∧ b = [] ∧ sim_inbound fd n' = sim_inbound fd n) ∨
  (0 < r ≤ len ∧ Z.of_nat (length b) = r ∧ sim_inbound fd n = b ++ sim_inbound fd n').
Proof.
  intros Hlen. unfold sim_recv, sim_inbound. destruct (fd =? 5); [| intros [= <- <- <-]; left; repeat split; lia].
  intros [= <- <- <-]. cbn [sn_bytes]. destruct (sn_bytes n) as [| x bs] eqn:Hb.
  - left. rewrite take_nil, drop_nil. repeat split; simpl; lia.
  - right. rewrite take_drop, length_take. repeat split; cbn [length]; lia.
Qed.

Lemma sim_recv_alive fd len n r b n' :
  0 < len → fd = 5 → sim_inbound fd n ≠ [] → sim_recv fd len n = ((r, b), n') → 0 < r ∧ fd = 5.
Proof.
  intros Hlen -> Hne. unfold sim_recv, sim_inbound in *. cbn [Z.eqb Pos.eqb] in *. intros [= <- <- <-].
  split; [| done]. destruct (sn_bytes n); [done |]. rewrite length_take. cbn [length]. lia.
Qed.

Lemma sim_send_spec fd data n r n' :
  sim_send fd data n = (r, n') →
  (r < 0 ∧ sim_inbound (sim_peer fd) n' = sim_inbound (sim_peer fd) n) ∨
  (0 ≤ r ≤ Z.of_nat (length data) ∧
   sim_inbound (sim_peer fd) n' = sim_inbound (sim_peer fd) n ++ take (Z.to_nat r) data).
Proof.
  unfold sim_send, sim_peer, sim_inbound. destruct (fd =? 4); intros [= <- <-]; [right | left; done].
  cbn [Z.eqb Pos.eqb sn_bytes]. rewrite take_ge by lia. split; [lia | done].
Qed.

#[export] Instance sim_POSIXLaws : POSIXLaws.
Proof.
  refine {| inbound := (sim_inbound : Z → net → list byte); alive fd _ := fd = 5; peer := sim_peer |}.
  - exact sim_recv_spec.
  - exact sim_recv_alive.
  - exact sim_send_spec.
  - by intros fd data n r n' Hp _ _.
Defined.

Record simhost := mkSimhost {
  sh_mem : gmap Z byte;
  sh_unmapped : list VMCLSurfaceUnmapOp;
}.

Fixpoint sim_store (ptr : Z) (data : list byte) (m : gmap Z byte) : gmap Z byte :=
  match data with [] => m | b :: data' => sim_store (ptr + 1) data' (<[ptr := b]> m) end.

Definition sim_load (ptr len : Z) (m : gmap Z byte) : list byte :=
  (λ i, default x00 (m !! (ptr + i))) <$> seqZ 0 len.

#[export] Instance sim_StreamHost : StreamHost := {|
  host := simhost;
  mem_store ptr data h := mkSimhost (sim_store ptr data (sh_mem h)) (sh_unmapped h);
  mem_load ptr len h := sim_load ptr len (sh_mem h);
  clSurfacemap_1 _ h := Done (mkStreamMapping 0 4096 200) h;
  clSurfaceunmap_1 op h := Done tt (mkSimhost (sh_mem h) (sh_unmapped h ++ [op]));
|}.

Lemma sim_store_app a b : ∀ ptr m,
  sim_store ptr (a ++ b) m = sim_store (ptr + Z.of_nat (length a)) b (sim_store ptr a m).
Proof.
  induction a as [| x a IH]; intros ptr m; simpl; [by rewrite Z.add_0_r |].
  rewrite IH. f_equal. lia.
Qed.

#[export] Instance sim_StreamHostLaws : StreamHostLaws.
Proof.
  split.
  - by intros ptr [].
  - intros ptr a b h. cbn. by rewrite sim_store_app.
  - intros ptr len h Hlen. cbn. unfold sim_load. rewrite length_fmap, length_seqZ. lia.
  - intros ptr j len h Hj. cbn. unfold sim_load.
    assert (seqZ 0 len = seqZ 0 j ++ seqZ j (len - j)) as ->.
    { rewrite <- (Z.add_0_l j) at 2. rewrite <- seqZ_app by lia. f_equal. lia. }
    rewrite fmap_app. by apply prefix_app_r.
Qed.

Lemma sim_headers_whole : headers_whole 5.
Proof.
  intros n _ Hlong. cbn in Hlong. exists (take 64 (sn_bytes n)). eexists. cbn. unfold sim_recv. cbn [Z.eqb Pos.eqb].
  change (Z.to_nat (Z.min SIZEOF_PACKET 100)) with 64%nat. rewrite length_take. unfold SIZEOF_PACKET in *.
  repeat f_equal. lia.
Qed.

(** A process with [mem] in its memory, before and after the module's power-on. *)
Definition sim_boot (mem : gmap Z byte) : streams :=
  mkStreams 0 0 0 0 0 [] [] [] [] [] (sim_net 100) (mkSimhost mem [] : host).

Definition sim_streams (mem : gmap Z byte) : streams :=
  match vmaccel_stream_poweron true true (sim_boot mem) with Done _ s => s | Fault _ => sim_boot mem end.

(** An upload of [len] bytes from address 0 by the thread with [index]. *)
Definition sim_upload (index len : Z) : VMAccelStreamSend :=
  mkVMAccelStreamSend (mkVMAccelAddress [x7f; x00; x00; x01] 5100 0 0) VMACCEL_STREAM_TYPE_VMCL_UPLOAD index
    (mkVMCLSurfaceMapOp (mkVMCLQueueId 1 2)
       (mkVMAccelSurfaceMapOp (mkVMAccelSurfaceId 1 2 3 0 0 4) (mkVMAccelCoordinate3DUINT 0 0 0)
          (mkVMAccelCoordinate2DUINT len 1) VMACCEL_MAP_WRITE_FLAG)) len 0.

(** 150 bytes of data. *)
Definition sim_data : list byte := (λ k, byte_of (7 * k)) <$> seqZ 0 150.
