(* ===== verification/StreamClient.v ===== *)
(** * What the stream client sends, and what arrives

    The client's transmission puts a beginning of the packet and its payload on
    the wire; when the operating system takes both whole, the server hands
    exactly the payload to the service. *)

From S2P Require Import Prelude IdentifierDB XdrRuntime XdrRFC4506 RpcTypes Backend Address Stream StreamServer StreamSim.
Open Scope Z_scope.
Open Scope list_scope.

Section Client.
Context `{POSIXLaws} `{StreamHostLaws}.
Implicit Types s : streams.

Definition send_packet (x : VMAccelStreamSend) : VMAccelStreamPacket :=
  mkVMAccelStreamPacket (send_type x) (send_ptr_len x) (send_desc x).

(** The payload, as the memory holds it at the time of the transmission. *)
Definition payload (x : VMAccelStreamSend) s : list byte := mem_load (send_ptr_val x) (send_ptr_len x) (st_host s).

Definition client_fd (x : VMAccelStreamSend) s : option Z :=
  g_clntFD s !! Z.to_nat (send_type x) ≫= λ row, row !! Z.to_nat (send_index x).

Lemma arr_read_run (get : streams → list (list Z)) type index v s :
  (get s !! Z.to_nat type ≫= λ row, row !! Z.to_nat index) = Some v → arr_read get type index s = Done v s.
Proof. intros Hv. unfold arr_read. mrun. cbv [mbind] in Hv. by rewrite Hv. Qed.

(** The transmit loop ends, and what it has sent is a beginning of the data. *)
Lemma tx_loop_run fuel : ∀ fd ptr txLen np s,
  0 ≤ txLen < 4294967296 → (Z.to_nat txLen ≤ fuel)%nat →
  ∃ np' n' sent, tx_loop fuel fd ptr txLen np s = Done np' (set_net n' s) ∧
    inbound (peer fd) n' = inbound (peer fd) (st_net s) ++ sent ∧ sent `prefix_of` mem_load ptr txLen (st_host s).
Proof.
  induction fuel as [| fuel IH]; intros fd ptr txLen np s Hlen Hfuel; cbn [tx_loop]; mrun.
  - assert (txLen = 0) as -> by lia. rewrite andb_false_r. cbn [negb]. exists np, (st_net s), [].
    rewrite app_nil_r. repeat split; [by destruct s | apply prefix_nil].
  - destruct (g_exitClntThreads s =? 0), (Z.ltb_spec 0 txLen); cbn [andb negb].
    2-4: exists np, (st_net s), []; rewrite app_nil_r; repeat split; [by destruct s | apply prefix_nil].
    unfold os. destruct (sock_send fd _ (st_net s)) as [r n1] eqn:Hs.
    destruct (send_spec _ _ _ _ _ Hs) as [[Hr Hin] | [Hr Hin]].
    + destruct (Z.ltb_spec r 0); [| lia]. cbn [Z.eqb].
      assert (u64 (txLen - 1) = txLen - 1) as -> by (apply Z.mod_small; lia).
      destruct (IH fd ptr (txLen - 1) (np + 1) (set_net n1 s)) as (np' & n' & sent & Hrun & Hin' & Hpre); [lia.. |].
      exists np', n', sent. rewrite Hrun. split; [done |]. split; [by rewrite Hin', <- Hin |].
      etrans; [exact Hpre |]. apply load_prefix. lia.
    + destruct (Z.ltb_spec r 0); [lia |]. cbn [Z.eqb]. eexists np, n1, _. split; [done |]. split; [exact Hin |].
      apply prefix_take.
Qed.

(** (C19) [StreamTCPClientSend] returns; the bytes it has put on the wire are a
    beginning of the packet followed by its payload, and [VMACCEL_SUCCESS]
    means that the packet went whole: nothing is said about the payload. *)
Theorem client_send_prefix x s fd :
  client_fd x s = Some fd → fd ≠ -1 → 0 ≤ send_ptr_len x < 4294967296 →
  ∃ status n' sent, StreamTCPClientSend x s = Done status (set_net n' s) ∧
    inbound (peer fd) n' = inbound (peer fd) (st_net s) ++ sent ∧
    sent `prefix_of` packet_bytes (send_packet x) ++ payload x s ∧
    (status = VMACCEL_SUCCESS ↔ packet_bytes (send_packet x) `prefix_of` sent).
Proof.
  intros Hfd Hopen Hlen. unfold StreamTCPClientSend. mrun. rewrite (arr_read_run _ _ _ fd s Hfd).
  destruct (Z.eqb_spec fd (-1)); [done |]. unfold os. fold (send_packet x).
  destruct (sock_send fd (packet_bytes (send_packet x)) (st_net s)) as [r n1] eqn:Hs.
  pose proof (length_packet_bytes (send_packet x)) as Hhdr.
  assert (∀ l, (length l < length (packet_bytes (send_packet x)))%nat → ¬ packet_bytes (send_packet x) `prefix_of` l)
    as Hshort by (intros l Hl Hp%prefix_length; lia).
  destruct (Z.eqb_spec r SIZEOF_PACKET) as [-> | Hne]; cbn [negb].
  - destruct (send_spec _ _ _ _ _ Hs) as [[? _] | [_ Hin]]; [done |].
    rewrite take_ge in Hin by lia.
    destruct (tx_loop_run (Z.to_nat (send_ptr_len x)) fd (send_ptr_val x) (send_ptr_len x) 0 (set_net n1 s))
      as (np & n2 & sent & Hrun & Hin2 & Hpre); [lia | done |].
    exists VMACCEL_SUCCESS, n2, (packet_bytes (send_packet x) ++ sent). rewrite Hrun.
    split; [done |]. split; [by rewrite Hin2, app_assoc, <- Hin |]. split; [by apply prefix_app |].
    split; intros _; [by apply prefix_app_r | done].
  - exists VMACCEL_FAIL, n1. destruct (send_spec _ _ _ _ _ Hs) as [[Hr Hin] | [Hr Hin]].
    + exists []. rewrite app_nil_r. split; [done |]. split; [done |]. split; [apply prefix_nil |].
      split; [done |]. intros Hp. exfalso. revert Hp. apply Hshort. simpl. lia.
    + eexists. split; [done |]. split; [exact Hin |]. split; [apply prefix_app_r, prefix_take |].
      split; [done |]. intros Hp. exfalso. revert Hp. apply Hshort. rewrite length_take. lia.
Qed.

(** A socket that takes all it is given. *)
Definition sends_whole (fd : Z) : Prop := ∀ data n, ∃ n', sock_send fd data n = (Z.of_nat (length data), n').

Lemma client_send_whole x s fd :
  client_fd x s = Some fd → fd ≠ -1 → 0 ≤ send_ptr_len x < 4294967296 → g_exitClntThreads s = 0 → sends_whole fd →
  alive (peer fd) (st_net s) →
  ∃ n', StreamTCPClientSend x s = Done VMACCEL_SUCCESS (set_net n' s) ∧ alive (peer fd) n' ∧
    inbound (peer fd) n' = inbound (peer fd) (st_net s) ++ packet_bytes (send_packet x) ++ payload x s.
Proof.
  intros Hfd Hopen Hlen Hexit Hwhole Hal. unfold StreamTCPClientSend. mrun. rewrite (arr_read_run _ _ _ fd s Hfd).
  destruct (Z.eqb_spec fd (-1)); [done |]. unfold os. fold (send_packet x).
  assert (∀ data n, alive (peer fd) n → ∃ n', sock_send fd data n = (Z.of_nat (length data), n') ∧
    alive (peer fd) n' ∧ inbound (peer fd) n' = inbound (peer fd) n ++ data) as Hsend.
  { intros data w Hw. destruct (Hwhole data w) as [n' Hs]. exists n'. split; [done |].
    split; [eapply send_alive; [done | | done]; lia |].
    destruct (send_spec _ _ _ _ _ Hs) as [[? _] | [_ Hin]]; [lia |]. by rewrite take_ge in Hin by lia. }
  destruct (Hsend (packet_bytes (send_packet x)) (st_net s) Hal) as (n1 & -> & Hal1 & Hin1).
  rewrite length_packet_bytes, Z.eqb_refl. cbn [negb].
  assert (mem_load (send_ptr_val x) (send_ptr_len x) (st_host s) = payload x s) as Hpay by done.
  destruct (Z.to_nat (send_ptr_len x)) as [| fuel] eqn:Hf; cbn [tx_loop]; mrun; cbn [set_net g_exitClntThreads];
    rewrite Hexit; cbn [Z.eqb andb].
  - assert (send_ptr_len x = 0) as Hzero by lia. rewrite Hzero. exists n1. split; [done |]. split; [done |].
    rewrite Hin1. f_equal. rewrite (nil_length_inv (payload x s)), app_nil_r; [done |].
    pose proof (load_length (send_ptr_val x) (send_ptr_len x) (st_host s)). unfold payload. lia.
  - destruct (Z.ltb_spec 0 (send_ptr_len x)); [| lia]. cbn [negb]. unfold os. cbn [st_host st_net set_net].
    rewrite Hpay. destruct (Hsend (payload x s) n1 Hal1) as (n2 & -> & Hal2 & Hin2).
    destruct (Z.ltb_spec (Z.of_nat (length (payload x s))) 0); [lia |]. cbn [Z.eqb].
    exists n2. split; [done |]. split; [done |]. by rewrite Hin2, Hin1, app_assoc.
Qed.

(** (C17) From the client's memory to the service: the client transmits on a
    connection whose sockets pass it whole; the server thread then maps the
    surface, receives exactly the client's payload into it in whatever pieces
    it arrives, gives the surface back, and waits for the next packet. *)
Theorem upload_end_to_end x sc ss fd h' :
  client_fd x sc = Some fd → fd ≠ -1 → g_exitClntThreads sc = 0 → g_exitSvrThreads ss = 0 →
  send_type x = VMACCEL_STREAM_TYPE_VMCL_UPLOAD → packet_ok (send_packet x) → send_ptr_len x < 2147483648 →
  sends_whole fd → headers_whole (peer fd) → alive (peer fd) (st_net sc) → inbound (peer fd) (st_net sc) = [] →
  deliver [(send_packet x, payload x sc)] (st_host ss) = Done tt h' →
  ∃ n1, StreamTCPClientSend x sc = Done VMACCEL_SUCCESS (set_net n1 sc) ∧
  ∃ buf n2, serve_connection 1 (peer fd) (replicate (Z.to_nat SIZEOF_PACKET) x00) (set_net n1 ss) =
              Done buf (with_io n2 h' ss) ∧
    inbound (peer fd) n2 = [].
Proof.
  intros Hfd Hopen Hexc Hexs Hty Hok Hshort Hsends Hheads Hal Hin Hdel.
  assert (is_u32 (send_ptr_len x)) as Hu32.
  { by apply (Forall_lookup_1 _ _ 1 (send_ptr_len x) Hok). }
  assert (0 ≤ send_ptr_len x) as Hpos by (u32_unfold; lia).
  destruct (client_send_whole x sc fd Hfd Hopen ltac:(lia) Hexc Hsends Hal) as (n1 & Hsend & Hal1 & Hin1).
  exists n1. split; [done |]. rewrite Hin in Hin1. cbn [app] in Hin1.
  destruct (serve_connection_run (peer fd) [(send_packet x, payload x sc)] Hheads 1
    (replicate (Z.to_nat SIZEOF_PACKET) x00) (set_net n1 ss) h') as (buf & n2 & Hrun & Hend & _); try done.
  - cbn [st_net set_net]. rewrite Hin1. cbn [wire mbind list_bind fst snd]. by rewrite app_nil_r.
  - constructor; [| constructor]. split; [done |]. split; [done |]. split; [| done].
    cbn [fst snd send_packet packet_len]. unfold payload. by rewrite load_length.
  - exists buf, n2. done.
Qed.
End Client.

(** ** Witnesses *)

(** 150 bytes at address 0 of the client, on the connection 4. *)
Definition stream_client : streams := set_g_clntFD [[4; -1; -1; -1]] (sim_streams (sim_store 0 sim_data ∅)).

Lemma client_send_prefix_witness :
  ∃ status n' sent, StreamTCPClientSend (sim_upload 0 150) stream_client = Done status (set_net n' stream_client) ∧
    inbound (peer 4) n' = inbound (peer 4) (st_net stream_client) ++ sent ∧
    sent `prefix_of` packet_bytes (send_packet (sim_upload 0 150)) ++ payload (sim_upload 0 150) stream_client ∧
    (status = VMACCEL_SUCCESS ↔ packet_bytes (send_packet (sim_upload 0 150)) `prefix_of` sent).
Proof. apply (client_send_prefix (sim_upload 0 150) stream_client 4); [done | done | simpl; lia]. Defined.

Lemma sim_sends_whole : sends_whole 4.
Proof. intros data n. by eexists. Qed.

Lemma sim_packet_ok : packet_ok (send_packet (sim_upload 0 150)).
Proof. repeat constructor; by u32_unfold. Qed.

(** What the service is left with after an upload of [data]. *)
Definition sim_delivered (ups : list (VMAccelStreamPacket * list byte)) : host :=
  match deliver ups (st_host (sim_streams ∅)) with Done _ h => h | Fault _ => st_host (sim_streams ∅) end.

Lemma upload_end_to_end_witness :
  let x := sim_upload 0 150 in
  payload x stream_client = sim_data ∧
  ∃ n1, StreamTCPClientSend x stream_client = Done VMACCEL_SUCCESS (set_net n1 stream_client) ∧
  ∃ buf n2, serve_connection 1 (peer 4) (replicate (Z.to_nat SIZEOF_PACKET) x00) (set_net n1 (sim_streams ∅)) =
              Done buf (with_io n2 (sim_delivered [(send_packet x, sim_data)]) (sim_streams ∅)) ∧
    inbound (peer 4) n2 = [].
Proof.
  cbv zeta. split; [by_compute |].
  apply (upload_end_to_end (sim_upload 0 150) stream_client (sim_streams ∅) 4 (sim_delivered [(send_packet (sim_upload 0 150), sim_data)]));
    try done.
  - apply sim_packet_ok.
  - apply sim_sends_whole.
  - apply sim_headers_whole.
Defined.

(** Two uploads on one connection of the server's thread 0. *)
Definition sim_uploads : list (VMAccelStreamPacket * list byte) :=
  [(send_packet (sim_upload 0 150), sim_data); (send_packet (sim_upload 1 5), take 5 sim_data)].

Definition stream_server : streams :=
  set_net (mkSimnet (wire sim_uploads) 0 : net) (set_g_svrFD [[3; -1; -1; -1]] (sim_streams ∅)).

Lemma connection_delivers_witness :
  let zeros := replicate (Z.to_nat SIZEOF_PACKET) x00 in
  ∃ buf' n3, inbound 5 n3 = [] ∧ length buf' = Z.to_nat SIZEOF_PACKET ∧
    accept_loop 1 2 (mkVMAccelStreamContext 0 0 5100) 3 zeros stream_server =
      accept_loop 0 2 (mkVMAccelStreamContext 0 0 5100) 3 buf'
        (with_io (sock_close 5 n3) (sim_delivered sim_uploads) stream_server).
Proof.
  cbv zeta. apply (connection_delivers 0 2 (mkVMAccelStreamContext 0 0 5100) 3 (replicate 64 x00) stream_server
    (st_net stream_server) 3 5 (st_net stream_server) sim_uploads (sim_delivered sim_uploads)); try done.
  - apply sim_headers_whole.
  - constructor; [| constructor; [| constructor]]; (split; [repeat constructor; by u32_unfold | done]).
Defined.
