(* ===== verification/StreamThreads.v ===== *)
(** * The client's threads

    Every upload runs in a thread of its own, which holds an index of the
    module's database while it transmits.  The threads and the callers of
    [vmaccel_stream_send_async] interleave between the stages at which they
    touch the shared state: a caller can be overtaken between its search for an
    index, the join, the retry, the creation of the thread and the store into
    the thread table.  Two of them never hold the same index.  An operation of
    the database is one stage here; StreamRaces.v shows what becomes of that
    when two callers are inside it, since nothing locks it. *)

From S2P Require Import Prelude IdentifierDB XdrRuntime XdrRFC4506 RpcTypes Backend Address Stream StreamServer StreamSim.
Open Scope Z_scope.
Open Scope list_scope.

(** ** Operations that leave the databases alone *)

Section Threads.
Context `{POSIX} `{StreamHost}.
Implicit Types s : streams.

Definition keeps_db {A} (m : ST A) : Prop := ∀ s a s', m s = Done a s' → g_svrDB s' = g_svrDB s.

Lemma kdb_ret {A} (a : A) : keeps_db (mret a).
Proof. by intros s a' s' [= <- <-]. Qed.

Lemma kdb_bind {A B} (m : ST A) (f : A → ST B) : keeps_db m → (∀ a, keeps_db (f a)) → keeps_db (m ≫= f).
Proof.
  intros Hm Hf s b s' Hrun. apply bind_inv in Hrun as (a & s1 & H1 & H2).
  by rewrite (Hf _ _ _ _ H2), (Hm _ _ _ H1).
Qed.

Lemma kdb_gets {A} (f : streams → A) : keeps_db (gets f).
Proof. by intros s a s' [= _ <-]. Qed.

Lemma kdb_modify (f : streams → streams) : (∀ s, g_svrDB (f s) = g_svrDB s) → keeps_db (modify f).
Proof. by intros Hf s a s' [= <- <-]. Qed.

Lemma kdb_access {A} (o : option A) : keeps_db (access o).
Proof. by destruct o; intros s a' s' [= <- <-]. Qed.

Lemma kdb_throw {A} f : keeps_db (throw f : ST A).
Proof. by intros s a s' ?. Qed.

Lemma kdb_os {A} (f : net → A * net) : keeps_db (os f).
Proof. intros s a s' Hrun. unfold os in Hrun. destruct (f (st_net s)). by injection Hrun as <- <-. Qed.

Lemma kdb_arr_read get type index : keeps_db (arr_read get type index).
Proof.
  intros s a s' Hrun. unfold arr_read in Hrun. apply bind_inv in Hrun as (s1 & s2 & [= <- <-] & Hrun).
  by apply kdb_access in Hrun.
Qed.

Lemma kdb_arr_write get set type index v :
  (∀ x s, g_svrDB (set x s) = g_svrDB s) → keeps_db (arr_write get set type index v).
Proof.
  intros Hset s a s' Hrun. unfold arr_write in Hrun.
  apply bind_inv in Hrun as (s1 & s2 & [= <- <-] & Hrun). apply bind_inv in Hrun as (v' & s3 & H3 & Hrun).
  apply kdb_arr_read in H3. apply kdb_modify in Hrun; [| done]. by rewrite Hrun.
Qed.

(** Goes through an operation's steps. *)
Ltac keeps :=
  repeat first
    [ apply kdb_ret | apply kdb_gets | apply kdb_os | apply kdb_access | apply kdb_throw
    | apply kdb_arr_read | (apply kdb_arr_write; intros; reflexivity) | (apply kdb_modify; intros; reflexivity)
    | progress unfold os_query, os_do | (apply kdb_bind; [| intros ?]) | case_match ].

Lemma kdb_ConfigureSocket fd a b : keeps_db (ConfigureSocket fd a b).
Proof. unfold ConfigureSocket, ConfigureBuffer. keeps. Qed.

Lemma kdb_tx_loop fuel : ∀ fd ptr len np, keeps_db (tx_loop fuel fd ptr len np).
Proof. induction fuel as [| fuel IH]; intros; cbn [tx_loop]; keeps; apply IH. Qed.

Lemma kdb_ClientSend x : keeps_db (StreamTCPClientSend x).
Proof. unfold StreamTCPClientSend. keeps. all: apply kdb_tx_loop. Qed.

Lemma kdb_client_close x : keeps_db (client_close x).
Proof. unfold client_close. keeps. Qed.

Lemma kdb_client_exit : keeps_db client_exit.
Proof. unfold client_exit. keeps. Qed.

Lemma kdb_send_check : keeps_db send_check.
Proof. unfold send_check. keeps. Qed.

Lemma kdb_send_wait type : keeps_db (send_wait type).
Proof. unfold send_wait. keeps. Qed.

Lemma kdb_send_create a type index args p l : keeps_db (send_create a type index args p l).
Proof. unfold send_create. keeps. Qed.

Lemma kdb_send_store type index t : keeps_db (send_store type index t).
Proof. by apply kdb_arr_write. Qed.

(** ** Callers and threads *)

(** Where a client thread is: before its connection, its transmission, the
    release of its index, the end of its connection, and its exit. *)
Inductive phase : Type := TBegin | TSend | TRelease | TClose | TExit.

(** Where a caller is: before the check of its scheduling, the search for an
    index, the join of the first thread, the retry with that thread's index, the
    creation of its thread, and the store of the thread in the table. *)
Inductive caller_phase : Type :=
  | CEnter | CAlloc | CJoin | CAcquire (index : Z) | CCreate (index : Z) | CStore (index t : Z).

(** The arguments of a call. *)
Record stream_call := mkStreamCall {
  sc_accel : VMAccelAddress;
  sc_type : Z;
  sc_args : VMCLSurfaceMapOp;
  sc_ptr_val : Z;
  sc_ptr_len : Z;
}.

Inductive actor : Type :=
  | Caller (ph : caller_phase) (q : stream_call)
  | Client (ph : phase) (x : VMAccelStreamSend).

Record clients := mkClients {
  w_streams : streams;
  w_actors : list actor;
}.

(** The next stage of a client thread, if it goes on. *)
Definition thread_step (ph : phase) (x : VMAccelStreamSend) : ST (list actor) :=
  match ph with
  | TBegin => b ← client_begin x; mret (if (b : bool) then [Client TSend x] else [])
  | TSend => _ ← StreamTCPClientSend x; mret [Client TRelease x]
  | TRelease => _ ← release_stream x; mret [Client TClose x]
  | TClose => _ ← client_close x; mret [Client TExit x]
  | TExit => _ ← client_exit; mret []
  end.

(** The next stage of a caller, with the thread that it started. *)
Definition caller_step (ph : caller_phase) (q : stream_call) : ST (list actor) :=
  match ph with
  | CEnter => ok ← send_check; mret (if (ok : bool) then [Caller CAlloc q] else [])
  | CAlloc =>
      id ← send_alloc (sc_type q);
      mret [Caller (match id with Some i => CCreate i | None => CJoin end) q]
  | CJoin => i ← send_wait (sc_type q); mret (match i with Some i => [Caller (CAcquire i) q] | None => [] end)
  | CAcquire i => _ ← send_acquire (sc_type q) i; mret [Caller (CCreate i) q]
  | CCreate i =>
      '(_, th) ← send_create (sc_accel q) (sc_type q) i (sc_args q) (sc_ptr_val q) (sc_ptr_len q);
      mret (match th with Some (t, x) => [Client TBegin x; Caller (CStore i t) q] | None => [] end)
  | CStore i t => _ ← send_store (sc_type q) i t; mret []
  end.

Definition actor_step (a : actor) : ST (list actor) :=
  match a with Caller ph q => caller_step ph q | Client ph x => thread_step ph x end.

(** A call begins, or one of the callers and threads goes through its next
    stage. *)
Inductive client_step : clients → clients → Prop :=
  | step_call s ts q : 0 ≤ sc_type q → client_step (mkClients s ts) (mkClients s (ts ++ [Caller CEnter q]))
  | step_actor s ts1 a ts2 us s' :
      actor_step a s = Done us s' → client_step (mkClients s (ts1 ++ a :: ts2)) (mkClients s' (ts1 ++ us ++ ts2)).

(** The module after power-on, without threads. *)
Definition powered_on (w : clients) : Prop :=
  w_actors w = [] ∧ ∃ s, vmaccel_stream_poweron true true s = Done VMACCEL_SUCCESS (w_streams w).

(** The index an actor holds: a caller from the moment it has got the index to
    the creation of the thread, which holds it until it releases it. *)
Definition held (a : actor) : list Z :=
  match a with
  | Caller (CCreate i) _ => [i]
  | Caller _ _ => []
  | Client (TBegin | TSend | TRelease) x => [send_index x]
  | Client (TClose | TExit) _ => []
  end.

Definition holders (ts : list actor) : list Z := ts ≫= held.

Lemma holders_app ts us : holders (ts ++ us) = holders ts ++ holders us.
Proof. apply bind_app. Qed.

Lemma holders_cons a ts : holders (a :: ts) = held a ++ holders ts.
Proof. done. Qed.

(** ** The invariant *)

(** The indices [l] are taken in the database, each by one holder.  A caller
    that waits goes on with index 0. *)
Record indexed (s : streams) (l : list Z) : Prop := {
  ix_db : ∃ db, g_svrDB s = [Live db] ∧ IdentifierDB.wf db ∧ Forall (λ i, bit_at db i = true) l;
  ix_nodup : NoDup l;
  ix_pos : Forall (λ i, 0 ≤ i) l;
}.

Definition waits_at_0 (a : actor) : Prop := match a with Caller (CAcquire i) _ => i = 0 | _ => True end.

#[export] Instance indexed_perm s : Proper ((≡ₚ) ==> iff) (indexed s).
Proof.
  intros l l' Hl. split; intros [(db & Hdb & Hwf & Hb) Hnd Hpos].
  - split; [exists db; by rewrite <- Hl | by rewrite <- Hl | by rewrite <- Hl].
  - split; [exists db; by rewrite Hl | by rewrite Hl | by rewrite Hl].
Qed.

Lemma on_svrDB_inv {A} s db type (m : M IdentifierDB A) a s' :
  g_svrDB s = [Live db] → on_svrDB type m s = Done a s' →
  ∃ db', m db = Done a db' ∧ g_svrDB s' = [Live db'].
Proof.
  intros Hdb. unfold on_svrDB. mrun. rewrite Hdb. destruct (Z.to_nat type) as [| k]; [| by destruct k].
  cbn [lookup list_lookup deref]. destruct (m db) as [a1 db1 | f] eqn:Hm; [| done].
  intros [= <- <-]. by exists db1.
Qed.

(** The databases as they were, and no new holder. *)
Lemma indexed_frame s s' l l' : indexed s l → g_svrDB s' = g_svrDB s → sublist l' l → indexed s' l'.
Proof.
  intros [(db & Hdb & Hwf & Hbits) Hnd Hpos] Hsame Hsub. split; [| by eapply sublist_NoDup |].
  - exists db. rewrite Hsame. split; [done |]. split; [done |].
    rewrite list.Forall_forall in *. intros i Hi. apply Hbits. by eapply elem_of_sublist.
  - rewrite list.Forall_forall in *. intros i Hi. apply Hpos. by eapply elem_of_sublist.
Qed.

(** A thread gives its index back. *)
Lemma indexed_release s s' x l u :
  indexed s (send_index x :: l) → release_stream x s = Done u s' → indexed s' l.
Proof.
  intros [(db & Hdb & Hwf & [Hbx Hbits]%Forall_cons_1) [Hnot Hnd]%list.NoDup_cons [Hx Hpos]%Forall_cons_1] Hrun.
  destruct (on_svrDB_inv _ _ _ _ _ _ Hdb Hrun) as (db' & Hrel & Hdb').
  destruct (ReleaseId_bits db _ _ db' Hwf Hx Hbx Hrel) as [Hwf' Hother]. split; [| done | done].
  exists db'. split; [done |]. split; [done |]. rewrite list.Forall_forall in *. intros i Hi.
  rewrite Hother; [by apply Hbits | by apply Hpos | by intros ->].
Qed.

(** A new holder of an index that was free. *)
Lemma indexed_take s s' l db db' i :
  indexed s l → g_svrDB s = [Live db] → g_svrDB s' = [Live db'] → IdentifierDB.wf db' →
  taken_bit db db' i → indexed s' (i :: l).
Proof.
  intros [(db0 & Hdb0 & _ & Hbits) Hnd Hpos] Hdb Hdb' Hwf' (Hi & Hclear & Hset).
  rewrite Hdb in Hdb0. injection Hdb0 as <-. split; [| | by constructor].
  - exists db'. split; [done |]. split; [done |]. constructor; [by rewrite Hset, Z.eqb_refl |].
    rewrite list.Forall_forall in *. intros k Hk. rewrite Hset, (Hbits k Hk) by by apply Hpos. apply orb_true_r.
  - constructor; [| done]. intros Hin. rewrite list.Forall_forall in Hbits. by rewrite (Hbits i Hin) in Hclear.
Qed.

(** ** What the stages do to the indices *)

(** The start of a thread leaves its index to it, or gives it back. *)
Lemma client_connect_db x s b s' :
  client_connect x s = Done b s' →
  g_svrDB s' = g_svrDB s ∨ b = false ∧ ∃ s1 u, g_svrDB s1 = g_svrDB s ∧ release_stream x s1 = Done u s'.
Proof.
  assert (∀ s0 b s', (_ ← release_stream x; mret false : ST bool) s0 = Done b s' →
    b = false ∧ ∃ u, release_stream x s0 = Done u s') as Hrel.
  { intros s0 b0 s0' Hrun. apply bind_inv in Hrun as (u & s2 & Hr & [= <- <-]). eauto. }
  unfold client_connect. intros Hrun. apply bind_inv in Hrun as ([ok text] & s1 & Hacc & Hrun).
  apply kdb_access in Hacc. destruct ok; cbn [negb] in Hrun.
  2: { apply Hrel in Hrun as [-> [u Hr]]. right. split; [done |]. by exists s1, u. }
  apply bind_inv in Hrun as (fd & s2 & Hsock & Hrun). apply kdb_os in Hsock. case_match.
  { apply Hrel in Hrun as [-> [u Hr]]. right. split; [done |]. exists s2, u. split; [congruence | done]. }
  apply bind_inv in Hrun as (u1 & s3 & Hconf & Hrun). apply kdb_ConfigureSocket in Hconf.
  apply bind_inv in Hrun as (r & s4 & Hconn & Hrun). apply kdb_os in Hconn. case_match.
  - apply bind_inv in Hrun as (u2 & s5 & Hclose & Hrun).
    assert (g_svrDB s5 = g_svrDB s4) as Hs5 by (revert Hclose; unfold os_do; apply kdb_modify; done).
    apply Hrel in Hrun as [-> [u Hr]]. right. split; [done |]. exists s5, u. split; [congruence | done].
  - left. assert (keeps_db (_ ← arr_write g_clntFD set_g_clntFD (send_type x) (send_index x) fd; mret true)) as Hk by keeps.
    apply Hk in Hrun. congruence.
Qed.

Lemma client_begin_db x s b s' :
  client_begin x s = Done b s' →
  g_svrDB s' = g_svrDB s ∨ b = false ∧ ∃ s1 u, g_svrDB s1 = g_svrDB s ∧ release_stream x s1 = Done u s'.
Proof.
  unfold client_begin. intros Hrun. apply bind_inv in Hrun as (ret & s1 & Hq & Hrun). apply kdb_gets in Hq.
  case_match; [injection Hrun as <- <-; left; congruence |].
  apply bind_inv in Hrun as (fd & s2 & Hfd & Hrun). apply kdb_arr_read in Hfd.
  apply bind_inv in Hrun as (open_ & s3 & Hopen & Hrun).
  assert (keeps_db (_ ← modify (λ st, set_g_initClntThreads (g_initClntThreads st + 1) st); mret true)) as Hk by keeps.
  assert (g_svrDB s3 = g_svrDB s2 ∨
    open_ = false ∧ ∃ s1 u, g_svrDB s1 = g_svrDB s2 ∧ release_stream x s1 = Done u s3) as Hconn.
  { destruct (fd =? -1); [by apply client_connect_db in Hopen | left; by apply kdb_ret in Hopen]. }
  destruct Hconn as [Hsame | (-> & s4 & u & Hs4 & Hrel)].
  - left. destruct open_; cbn [negb] in Hrun; [apply Hk in Hrun | injection Hrun as <- <-]; congruence.
  - cbn [negb] in Hrun. injection Hrun as <- <-. right. split; [done |]. exists s4, u. split; [congruence | done].
Qed.

(** A search that finds nothing changes nothing; an index that was found was
    free. *)
Lemma send_alloc_indexed type s l i s' :
  indexed s l → send_alloc type s = Done i s' → indexed s' (option_list i ++ l).
Proof.
  intros Hix Hrun. pose proof (ix_db _ _ Hix) as (db & Hdb & Hwf & _).
  apply bind_inv in Hrun as (ini & s1 & [= _ <-] & Hrun). apply bind_inv in Hrun as (u & s1 & Hass & Hrun).
  assert (s1 = s) as -> by (revert Hass; unfold assert; destruct (negb _); [by intros [= _ <-] | done]).
  destruct (on_svrDB_inv _ _ _ _ _ _ Hdb Hrun) as (db1 & Hal & Hdb1).
  destruct (AllocId_bits db i db1 Hwf Hal) as [Hwf1 Hcase]. destruct i as [i |].
  - by eapply (indexed_take s s' l db db1).
  - subst db1. eapply indexed_frame; [done | congruence | done].
Qed.

Lemma send_acquire_indexed type s l i u s' :
  indexed s l → 0 ≤ i → send_acquire type i s = Done u s' → indexed s' (i :: l).
Proof.
  intros Hix Hi Hrun. pose proof (ix_db _ _ Hix) as (db & Hdb & Hwf & _).
  apply bind_inv in Hrun as (taken & s1 & Hacq & Hrun).
  destruct (on_svrDB_inv _ _ _ _ _ _ Hdb Hacq) as (db1 & Hac & Hdb1).
  destruct (AcquireId_bits db i taken db1 Hwf Hi Hac) as [Hwf1 Htaken].
  destruct taken; [| done]. injection Hrun as <- <-. by eapply (indexed_take s s1 l db db1).
Qed.

Lemma send_create_index a type index args p l s st th s' :
  send_create a type index args p l s = Done (st, th) s' →
  match th with Some (_, x) => send_index x = index | None => True end.
Proof.
  unfold send_create. intros Hrun. apply bind_inv in Hrun as (at_ & s1 & _ & Hrun).
  case_match; [| by injection Hrun as <- <- <-].
  apply bind_inv in Hrun as ([err t] & s2 & _ & Hrun). case_match; by injection Hrun as <- <- <-.
Qed.

Lemma thread_indexed ph x s us s' l :
  indexed s (held (Client ph x) ++ l) → thread_step ph x s = Done us s' →
  indexed s' (holders us ++ l) ∧ Forall waits_at_0 us.
Proof.
  intros Hix Hrun. destruct ph; cbn [thread_step] in Hrun; apply bind_inv in Hrun as (b & s1 & Hb & [= <- <-]).
  - split; [| by destruct b; repeat constructor]. destruct (client_begin_db _ _ _ _ Hb) as [Hs | (-> & s2 & u & Hs2 & Hrel)].
    + eapply indexed_frame; [done | done |]. destruct b; [done | by apply sublist_cons].
    + eapply (indexed_release s2); [| done]. by eapply indexed_frame.
  - apply kdb_ClientSend in Hb. split; [by eapply indexed_frame | by repeat constructor].
  - split; [| by repeat constructor]. eapply (indexed_release s s1 x l); [exact Hix | exact Hb].
  - apply kdb_client_close in Hb. split; [by eapply indexed_frame | by repeat constructor].
  - apply kdb_client_exit in Hb. split; [by eapply indexed_frame | by constructor].
Qed.

Lemma caller_indexed ph q s us s' l :
  indexed s (held (Caller ph q) ++ l) → waits_at_0 (Caller ph q) → caller_step ph q s = Done us s' →
  indexed s' (holders us ++ l) ∧ Forall waits_at_0 us.
Proof.
  intros Hix Hw Hrun. destruct ph as [| | | i | i | i t]; cbn [caller_step held] in *; apply bind_inv in Hrun as (b & s1 & Hb & Hrun).
  - injection Hrun as <- <-. apply kdb_send_check in Hb.
    destruct b; (split; [by eapply indexed_frame | by repeat constructor]).
  - injection Hrun as <- <-. apply (send_alloc_indexed _ _ _ _ _ Hix) in Hb.
    destruct b; (split; [exact Hb | by repeat constructor]).
  - injection Hrun as <- <-. pose proof (kdb_send_wait _ _ _ _ Hb) as Hs.
    split; [destruct b; by eapply indexed_frame |]. destruct b as [i |]; repeat constructor. cbn.
    apply bind_inv in Hb as (t & s2 & _ & Hb). apply bind_inv in Hb as (r & s3 & _ & [= Hr _]). case_match; [done | by injection Hr as <-].
  - injection Hrun as <- <-. split; [| by repeat constructor]. eapply (send_acquire_indexed _ s l i); [done | | done].
    by rewrite Hw.
  - destruct b as [st th]. injection Hrun as <- <-. pose proof (send_create_index _ _ _ _ _ _ _ _ _ _ Hb) as Hi.
    apply kdb_send_create in Hb. destruct th as [[t x] |]; (split; [| by repeat constructor]).
    + eapply indexed_frame; [done | done |]. cbn. by rewrite Hi.
    + eapply indexed_frame; [done | done |]. by apply sublist_cons.
  - injection Hrun as <- <-. apply kdb_send_store in Hb. split; [by eapply indexed_frame | by constructor].
Qed.

Definition invariant (w : clients) : Prop := indexed (w_streams w) (holders (w_actors w)) ∧ Forall waits_at_0 (w_actors w).

Lemma client_step_invariant w w' : invariant w → client_step w w' → invariant w'.
Proof.
  intros [Hix Hw] Hstep. destruct Hstep as [s ts q Hq | s ts1 a ts2 us s' Hrun]; unfold invariant; cbn [w_streams w_actors] in *.
  - rewrite holders_app. cbn. rewrite app_nil_r. split; [done |]. apply Forall_app. by repeat constructor.
  - rewrite !holders_app, holders_cons in *. apply Forall_app in Hw as [Hw1 [Hwa Hw2]%Forall_cons_1].
    rewrite Permutation_app_swap_app in Hix.
    assert (indexed s' (holders us ++ holders ts1 ++ holders ts2) ∧ Forall waits_at_0 us) as [Hix' Hwu].
    { destruct a as [ph q | ph x]; [by eapply caller_indexed | by eapply thread_indexed]. }
    rewrite Permutation_app_swap_app. split; [done |]. by repeat apply Forall_app_2.
Qed.

Lemma invariant_init w : powered_on w → invariant w.
Proof.
  intros [Hts [s Hrun]]. unfold invariant. rewrite Hts. injection Hrun as <-. split; [| constructor].
  split; [| constructor | constructor]. eexists. split; [reflexivity |]. split; [| constructor].
  destruct (Alloc_wf VMACCEL_MAX_STREAMS (mkIdentifierDB 4 1 4 [0])) as [Hwf _]; [unfold VMACCEL_MAX_STREAMS; lia | done | done].
Qed.

(** (C18) However the stages of callers and client threads interleave after
    power-on, retries included, no two of them hold the same index at the same
    time, where each operation of the database is taken as one stage: no two
    transmissions share a connection's index. *)
Theorem client_indices_distinct w w' :
  powered_on w → rtc client_step w w' → NoDup (holders (w_actors w')).
Proof.
  intros Hon Hr. enough (invariant w') as [Hix _] by apply Hix. apply invariant_init in Hon.
  induction Hr as [| w1 w2 w3 Hstep _ IH]; [done |]. by apply IH, (client_step_invariant w1).
Qed.

(** ** The stages in sequence *)

(** One actor after the other: a thread, and a call with the threads it starts. *)
Fixpoint run_actor (fuel : nat) (a : actor) : ST (list VMAccelStreamSend) :=
  match fuel with
  | O => throw WouldBlock
  | S fuel' =>
      us ← actor_step a;
      match us with
      | [a'] => run_actor fuel' a'
      | [Client _ x; a'] => xs ← run_actor fuel' a'; mret (x :: xs)
      | _ => mret []
      end
  end.

(** Alone, the stages of a thread are the thread function. *)
Lemma run_thread_eq x s : run_actor 5 (Client TBegin x) s = (_ ← StreamTCPClientThread x; mret []) s.
Proof.
  unfold StreamTCPClientThread. cbn [run_actor actor_step thread_step]. mrun.
  destruct (client_begin x s) as [[] s1 |]; cbn [negb actor_step thread_step]; mrun; [| done | done].
  destruct (StreamTCPClientSend x s1) as [? s2 |]; cbn [actor_step thread_step]; mrun; [| done].
  destruct (release_stream x s2) as [? s3 |]; cbn [actor_step thread_step]; mrun; [| done].
  destruct (client_close x s3) as [? s4 |]; cbn [actor_step thread_step]; mrun; [| done].
  by destruct (client_exit s4) as [[] s5 |].
Qed.

Lemma run_create_eq n q i s :
  run_actor (S (S n)) (Caller (CCreate i) q) s =
    ('(_, th) ← send_start (sc_accel q) (sc_type q) i (sc_args q) (sc_ptr_val q) (sc_ptr_len q);
     mret (option_list (snd <$> th))) s.
Proof.
  unfold send_start. cbn [run_actor actor_step caller_step]. mrun.
  destruct (send_create _ _ _ _ _ _ s) as [[st [[t x] |]] s1 |]; cbn [actor_step caller_step]; mrun; [| done | done].
  by destruct (send_store _ _ _ s1) as [[] s2 |].
Qed.

(** Alone, the stages of a call are vmaccel_stream_send_async. *)
Lemma run_caller_eq q s :
  run_actor 6 (Caller CEnter q) s =
    ('(_, th) ← vmaccel_stream_send_async (sc_accel q) (sc_type q) (sc_args q) (sc_ptr_val q) (sc_ptr_len q);
     mret (option_list (snd <$> th))) s.
Proof.
  unfold vmaccel_stream_send_async, send_join. cbn [run_actor actor_step caller_step]. mrun.
  destruct (send_check s) as [[] s1 |]; cbn [negb actor_step caller_step]; mrun; [| done | done].
  destruct (send_alloc (sc_type q) s1) as [[i |] s2 |]; mrun; [apply (run_create_eq 2 q i s2) | | done].
  cbn [actor_step caller_step]. mrun.
  destruct (send_wait (sc_type q) s2) as [[i |] s3 |]; cbn [actor_step caller_step]; mrun; [| done | done].
  destruct (send_acquire (sc_type q) i s3) as [[] s4 |]; mrun; [apply (run_create_eq 0 q i s4) | done].
Qed.
End Threads.

(** ** Witness *)

(** [k] steps of one schedule: what each caller or thread does. *)
Inductive move : Type := Call (len : Z) | Step (k : nat).

Definition sim_call (len : Z) : stream_call :=
  mkStreamCall (send_accel (sim_upload 0 len)) 0 (send_desc (sim_upload 0 len)) 0 len.

(** Runs a schedule on the simulation; [None] when a step is not possible. *)
Definition sim_move (m : move) (w : clients) : option clients :=
  match m with
  | Call len => Some (mkClients (w_streams w) (w_actors w ++ [Caller CEnter (sim_call len)]))
  | Step k =>
      a ← w_actors w !! k;
      match actor_step a (w_streams w) with
      | Done us s' => Some (mkClients s' (take k (w_actors w) ++ us ++ drop (S k) (w_actors w)))
      | Fault _ => None
      end
  end.

Fixpoint sim_schedule (ms : list move) (w : clients) : option clients :=
  match ms with [] => Some w | m :: ms' => w' ← sim_move m w; sim_schedule ms' w' end.

Lemma sim_move_step m w w' : sim_move m w = Some w' → client_step w w'.
Proof.
  destruct m as [len | k], w as [s ts]; cbn [sim_move w_streams w_actors].
  - intros [= <-]. by apply step_call.
  - destruct (ts !! k) as [a |] eqn:Hk; [| done]. cbn. destruct (actor_step a s) as [us s' |] eqn:Hrun; [| done].
    intros [= <-]. rewrite <- (take_drop_middle ts k a) at 1 by done. by apply step_actor.
Qed.

Lemma sim_schedule_steps ms : ∀ w w', sim_schedule ms w = Some w' → rtc client_step w w'.
Proof.
  induction ms as [| m ms IH]; intros w w' Hrun; simpl in Hrun; [injection Hrun as <-; apply rtc_refl |].
  destruct (sim_move m w) as [w1 |] eqn:Hm; [| done]. eapply rtc_l; [by eapply sim_move_step | by apply IH].
Qed.

(** The call of actor [k] from its entry to its end: the thread it started takes
    its place. *)
Definition whole_call (k : nat) : list move := [Step k; Step k; Step k; Step (S k)].

Definition sim_world : clients := mkClients (sim_streams ∅) [].

(** Four uploads in flight; a fifth call finds no index and waits; the first
    thread transmits, releases its index and ends; the fifth call takes that
    index back and starts its thread. *)
Definition four_calls : list move :=
  concat (imap (λ k _, Call 8 :: whole_call k) (replicate 4 ())).

Definition fifth_call : list move :=
  [Call 8; Step 4; Step 4] ++ replicate 5 (Step 0) ++ [Step 3; Step 3; Step 3].

Lemma sim_powered_on : powered_on sim_world.
Proof. split; [done |]. by exists (sim_boot ∅). Qed.

Lemma client_indices_distinct_witness :
  ∃ w', rtc client_step sim_world w' ∧ holders (w_actors w') = [1; 2; 3; 0] ∧ NoDup (holders (w_actors w')).
Proof.
  assert ((λ w, holders (w_actors w)) <$> sim_schedule (four_calls ++ fifth_call) sim_world = Some [1; 2; 3; 0]) as Hh by by_compute.
  destruct (sim_schedule (four_calls ++ fifth_call) sim_world) as [w' |] eqn:Hrun; [| discriminate Hh].
  exists w'. pose proof (sim_schedule_steps _ _ _ Hrun) as Hsteps. injection Hh as Hh.
  exact (conj Hsteps (conj Hh (client_indices_distinct sim_world w' sim_powered_on Hsteps))).
Defined.
