(* ===== verification/StreamRaces.v ===== *)
(** * Interleavings of the client's threads that go wrong

    Interleavings beyond those of StreamThreads.v, and bad ones among them: two
    callers inside the unlocked database get the same index; the retry of a send when
    every index is taken makes the database count one id too many, and the
    next send writes outside the thread table; and a thread closes its
    connection after it has given back its index, when the next upload may
    already use both.  A simulated network and host runs both, and the
    transfers of StreamServer.v and StreamClient.v. *)

From S2P Require Import Prelude Utils IdentifierDB XdrRuntime XdrRFC4506 RpcTypes Backend Address Stream StreamServer StreamSim StreamClient StreamThreads.
Import BitMask.
Open Scope Z_scope.
Open Scope list_scope.

Section Races.
Context `{POSIX} `{StreamHost}.
Implicit Types s : streams.

Lemma on_svrDB_run {A} type (m : M IdentifierDB A) s db a db' :
  Z.to_nat type = O → g_svrDB s = [Live db] → m db = Done a db' →
  on_svrDB type m s = Done a (set_g_svrDB [Live db'] s).
Proof. intros Hty Hdb Hm. unfold on_svrDB. mrun. by rewrite Hty, Hdb; cbn [lookup list_lookup deref]; rewrite Hm. Qed.

(** ** Inside the database *)

(** IdentifierDB_AllocId in two stages: the search for a word with a free bit,
    and the marking of that bit, which reads the word again. *)
Fixpoint AllocId_find_loop (n : nat) (i : Z) : M IdentifierDB (option (Z * Z)) :=
  match n with
  | O => throw AssertFailed
  | S n' =>
      w ← bits_get i;
      let ret := BitMask_FindFirstZero w in
      if ret =? -1 then AllocId_find_loop n' (i + 1) else mret (Some (i, ret))
  end.

Definition AllocId_find : M IdentifierDB (option (Z * Z)) :=
  db ← get;
  if free db =? 0 then mret None else AllocId_find_loop (Z.to_nat (numWords db)) 0.

Definition AllocId_mark (i ret : Z) : M IdentifierDB Z :=
  _ ← modify (λ db, set_free (u32 (free db - 1)) db);
  w ← bits_get i;
  _ ← bits_set i (Z.lor w (shl32 1 ret));
  mret (u32 (i * 32 + ret)).

Lemma AllocId_loop_stages n : ∀ i db,
  AllocId_loop n i db =
    (f ← AllocId_find_loop n i; match f with None => mret None | Some (i, ret) => id ← AllocId_mark i ret; mret (Some id) end) db.
Proof.
  induction n as [| n IH]; intros i db; [done |]. cbn [AllocId_loop AllocId_find_loop]. mrun.
  destruct (bits db !! Z.to_nat i) as [w |] eqn:Hw; [| unfold bits_get; by rewrite Hw]. rewrite (bits_get_eq _ i w) by done.
  destruct (BitMask_FindFirstZero w =? -1); [apply IH |]. unfold AllocId_mark. mrun.
  rewrite (bits_get_eq _ i w) by done. by destruct (bits_set _ _ _).
Qed.

(** With nobody in between, the two stages are the operation. *)
Lemma AllocId_stages db :
  IdentifierDB_AllocId db =
    (f ← AllocId_find; match f with None => mret None | Some (i, ret) => id ← AllocId_mark i ret; mret (Some id) end) db.
Proof.
  unfold IdentifierDB_AllocId, AllocId_find. mrun. destruct (free db =? 0); [done |]. apply AllocId_loop_stages.
Qed.

Lemma AllocId_find_same db f db' : AllocId_find db = Done f db' → db' = db.
Proof.
  unfold AllocId_find. mrun. destruct (free db =? 0); [by intros [= _ <-] |].
  generalize (Z.to_nat (numWords db)) as n, 0 as i. induction n as [| n IH]; intros i; [done |].
  cbn [AllocId_find_loop]. mrun. unfold bits_get. destruct (bits db !! Z.to_nat i) as [w |]; [| done]. cbn [access]. mrun.
  destruct (BitMask_FindFirstZero w =? -1); [apply IH | by intros [= _ <-]].
Qed.

(** Marking the same bit twice only counts it twice. *)
Lemma AllocId_mark_twice i ret db id db1 :
  AllocId_mark i ret db = Done id db1 → AllocId_mark i ret db1 = Done id (set_free (u32 (free db1 - 1)) db1).
Proof.
  unfold AllocId_mark. mrun. unfold bits_get, bits_set. cbn [bits set_free set_bits].
  destruct (bits db !! Z.to_nat i) as [w |] eqn:Hw; [| done]. cbn [access]. mrun. cbn [bits set_free set_bits].
  rewrite Hw. intros [= <- <-]. cbn [bits set_free set_bits].
  rewrite list_lookup_insert_eq by (by eapply lookup_lt_Some). cbn [access]. mrun. cbn [bits set_free set_bits].
  rewrite list_lookup_insert_eq by (by eapply lookup_lt_Some).
  rewrite <- Z.lor_assoc, Z.lor_diag, list_insert_insert_eq. done.
Qed.

(** (C39) Nothing locks the database.  Two senders that have both searched it
    before either has marked what it found get the same index; and when both
    transmissions have ended, the second release of the index fails the
    assertion against a double free and ends the process. *)
Theorem alloc_race x y s db i s1 :
  g_svrDB s = [Live db] → IdentifierDB.wf db → send_type x = VMACCEL_STREAM_TYPE_VMCL_UPLOAD →
  send_type y = send_type x → send_index x = i → send_index y = i → i < size db →
  send_alloc VMACCEL_STREAM_TYPE_VMCL_UPLOAD s = Done (Some i) s1 →
  ∃ word ret s2 s3,
    on_svrDB VMACCEL_STREAM_TYPE_VMCL_UPLOAD AllocId_find s = Done (Some (word, ret)) s ∧
    on_svrDB VMACCEL_STREAM_TYPE_VMCL_UPLOAD (AllocId_mark word ret) s = Done i s1 ∧
    on_svrDB VMACCEL_STREAM_TYPE_VMCL_UPLOAD (AllocId_mark word ret) s1 = Done i s2 ∧
    release_stream x s2 = Done tt s3 ∧ release_stream y s3 = Fault AssertFailed.
Proof.
  intros Hdb Hwf Htx Hty Hix Hiy Hlt Halloc. apply bind_inv in Halloc as (ini & s' & [= _ <-] & Halloc).
  apply bind_inv in Halloc as (u & s' & Hass & Halloc).
  assert (s' = s) as -> by (revert Hass; unfold assert; destruct (negb _); [by intros [= _ <-] | done]).
  pose proof Halloc as Hrun. apply (on_svrDB_inv _ _ _ _ _ _ Hdb) in Hrun as (db1 & Hal & Hdb1).
  destruct (AllocId_bits db (Some i) db1 Hwf Hal) as [Hwf1 (Hi0 & _ & Hset)]. pose proof (AllocId_size _ _ _ Hwf Hal) as Hsz.
  rewrite (on_svrDB_run _ _ s db (Some i) db1) in Halloc by done. injection Halloc as <-.
  rewrite AllocId_stages in Hal. apply bind_inv in Hal as (f & db' & Hfind & Hmark).
  apply AllocId_find_same in Hfind as Hsame. subst db'. destruct f as [[word ret] |]; [| done].
  apply bind_inv in Hmark as (i' & db' & Hmark & [= <- <-]).
  set (db2 := set_free (u32 (free db' - 1)) db').
  assert (IdentifierDB.wf db2) as Hwf2 by (destruct Hwf1; split; first [done | apply u32_range]).
  assert (i' ∈ used db2) as Hin.
  { apply elem_of_used. split; [change (size db2) with (size db'); lia |]. change (bit_at db' i' = true). by rewrite Hset, Z.eqb_refl. }
  destruct (ReleaseId_active db2 i' Hwf2 Hin) as (db3 & Hrel & Hwf3 & [Hsz3 _] & _ & Hused & _).
  set (s2 := set_g_svrDB [Live db2] s).
  exists word, ret, s2, (set_g_svrDB [Live db3] s2). split_and!.
  - rewrite (on_svrDB_run _ _ s db _ db) by done. rewrite <- Hdb. by destruct s.
  - by rewrite (on_svrDB_run _ _ s db i' db').
  - rewrite (on_svrDB_run _ _ _ db' i' db2); [done | done | done |]. by apply (AllocId_mark_twice word ret db).
  - unfold release_stream. rewrite Htx, Hix. by rewrite (on_svrDB_run _ _ s2 db2 tt db3).
  - unfold release_stream. rewrite Hty, Htx, Hiy. unfold on_svrDB. mrun. change (Z.to_nat VMACCEL_STREAM_TYPE_VMCL_UPLOAD) with O. cbn [g_svrDB set_g_svrDB lookup list_lookup deref access].
    rewrite ReleaseId_refused; [| done | done | rewrite Hused; by intros [_ []]%elem_of_difference; apply elem_of_singleton].
    rewrite Hsz3. change (size db2) with (size db'). destruct (Z.leb_spec (size db') i'); [lia | done].
Qed.

(** Every index is taken by an upload in flight. *)
Definition all_taken : IdentifierDB := mkIdentifierDB 4 1 0 [15].

(** The network's threads: created, joined and queried without error. *)
Definition threads_work (n : net) : Prop :=
  pthread_getschedparam n = 0 ∧ pthread_attr_init n = 0 ∧ ∃ t n', pthread_create n = ((0, t), n').

Lemma arr_write_run get set type index v row s old :
  get s !! Z.to_nat type = Some row → row !! Z.to_nat index = Some old →
  arr_write get set type index v s =
    Done tt (set (alter (λ row, <[Z.to_nat index := v]> row) (Z.to_nat type) (get s)) s).
Proof.
  intros Hrow Hold. unfold arr_write, arr_read. mrun. rewrite Hrow. cbn. by rewrite Hold.
Qed.

(** A client thread closes the connection of its index after it has released
    the index.  When the next upload has taken the index and found the
    connection open, its transmission then fails without a byte sent. *)
Theorem close_races_reuse x y s fd :
  client_fd x s = Some fd → send_type y = send_type x → send_index y = send_index x →
  ∃ s', client_step (mkClients s [Client TClose x; Client TSend y]) (mkClients s' [Client TExit x; Client TSend y]) ∧
    StreamTCPClientSend y s' = Done VMACCEL_FAIL s'.
Proof.
  intros Hfd Hty Hix. unfold client_fd in Hfd. destruct (g_clntFD s !! Z.to_nat (send_type x)) as [row |] eqn:Hrow; [| done].
  cbn in Hfd. set (s1 := set_net (sock_close fd (st_net s)) s).
  exists (set_g_clntFD (alter (λ row, <[Z.to_nat (send_index x) := -1]> row) (Z.to_nat (send_type x)) (g_clntFD s)) s1).
  assert (arr_read g_clntFD (send_type x) (send_index x) s = Done fd s) as Hread.
  { apply arr_read_run. by rewrite Hrow. }
  split.
  - apply (step_actor s [] (Client TClose x) [Client TSend y] [Client TExit x]). cbn [actor_step thread_step]. unfold client_close.
    change DEBUG_STREAMS with true. cbv iota. mrun. rewrite Hread. unfold os_do. mrun. fold s1.
    by rewrite (arr_write_run _ _ _ _ _ row s1 fd).
  - unfold StreamTCPClientSend. mrun. rewrite Hty, Hix. rewrite (arr_read_run g_clntFD _ _ (-1)); [done |].
    cbn [g_clntFD set_g_clntFD]. rewrite list_lookup_alter_eq, Hrow. cbn.
    rewrite list_lookup_insert_eq; [done |]. by eapply lookup_lt_Some.
Qed.

(** (C20) Four uploads are in flight.  A fifth finds no index and waits for the first
    thread; the retry takes that thread's index back but does not count it, so
    that one index seems free when all four are in flight again.  The sixth
    upload gets index 4 and writes outside [g_clntThread]. *)
Theorem retry_overrun a args p l x s t0 t1 t2 t3 n1 :
  g_svrDB s = [Live all_taken] → g_init s ≠ 0 → g_clntThread s = [[t0; t1; t2; t3]] →
  send_type x = VMACCEL_STREAM_TYPE_VMCL_UPLOAD → send_index x = 0 →
  (∀ n, threads_work n) → pthread_join t0 (st_net s) = (0, n1) →
  ∃ s1 s2 s3 th,
    send_alloc VMACCEL_STREAM_TYPE_VMCL_UPLOAD s = Done None s ∧
    release_stream x s = Done tt s1 ∧
    send_join VMACCEL_STREAM_TYPE_VMCL_UPLOAD s1 = Done (Some 0) s2 ∧
    send_start a VMACCEL_STREAM_TYPE_VMCL_UPLOAD 0 args p l s2 = Done (VMACCEL_SUCCESS, Some th) s3 ∧
    vmaccel_stream_send_async a VMACCEL_STREAM_TYPE_VMCL_UPLOAD args p l s3 = Fault BadAccess.
Proof.
  intros Hdb Hinit Hthr Hty Hix Hwork Hjoin.
  set (db1 := mkIdentifierDB 4 1 1 [14]). set (db2 := mkIdentifierDB 4 1 1 [15]).
  set (s1 := set_g_svrDB [Live db1] s). set (s2 := set_g_svrDB [Live db2] (set_net n1 s1)).
  destruct (Hwork n1) as (_ & _ & t & n2 & Hcreate).
  set (s3 := set_g_clntThread [[t; t1; t2; t3]] (set_net n2 s2)).
  assert (∀ s0, g_init s0 = g_init s → send_alloc VMACCEL_STREAM_TYPE_VMCL_UPLOAD s0 =
    on_svrDB VMACCEL_STREAM_TYPE_VMCL_UPLOAD IdentifierDB_AllocId s0) as Halloc.
  { intros s0 Hg. unfold send_alloc. mrun. rewrite Hg. by destruct (Z.eqb_spec (g_init s) 0). }
  eexists s1, s2, s3, _. split; [| split; [| split; [| split]]].
  - rewrite Halloc by done. rewrite (on_svrDB_run _ _ s all_taken None all_taken); try done.
    rewrite <- Hdb. by destruct s.
  - unfold release_stream. rewrite Hty, Hix. by apply (on_svrDB_run _ _ s all_taken).
  - unfold send_join, send_wait, send_acquire, os. mrun. rewrite (arr_read_run g_clntThread _ _ t0) by (cbn; by rewrite Hthr).
    change (st_net s1) with (st_net s). rewrite Hjoin. cbn [negb Z.eqb].
    by rewrite (on_svrDB_run _ _ (set_net n1 s1) db1 true db2).
  - unfold send_start, send_create, send_store, os_query, os. mrun. destruct (Hwork (st_net s2)) as (_ & -> & _). cbn [Z.eqb].
    change (st_net s2) with n1. rewrite Hcreate. cbn [negb Z.eqb].
    rewrite (arr_write_run _ _ _ _ _ [t0; t1; t2; t3] _ t0); [| cbn; by rewrite Hthr | done].
    cbn [g_clntThread set_net]. change (g_clntThread s2) with (g_clntThread s). rewrite Hthr. reflexivity.
  - unfold vmaccel_stream_send_async, send_check, os_query. mrun. destruct (Hwork (st_net s3)) as (-> & _). cbn [negb Z.eqb].
    change DEBUG_STREAMS with true. cbv iota. unfold os at 1. destruct (pthread_setschedparam (st_net s3)) as [r n3].
    mrun. cbn [negb]. rewrite Halloc by done.
    rewrite (on_svrDB_run _ _ (set_net n3 s3) db2 (Some 4) (mkIdentifierDB 4 1 0 [31])); try done.
    unfold send_start, send_create, send_store, os_query, os. mrun. cbn [st_net set_net set_g_svrDB].
    destruct (Hwork n3) as (_ & Hattr & t4 & n4 & Hc). rewrite Hattr. cbn [Z.eqb st_net set_net set_g_svrDB].
    rewrite Hc. cbn [negb Z.eqb]. unfold arr_write, arr_read. mrun. reflexivity.
Qed.
End Races.

(** ** Witnesses *)

(** The first upload has released index 0 but not closed its connection when
    the second takes index 0 and finds the connection open. *)
Definition sim_reuse : list move :=
  (Call 8 :: whole_call 0) ++ replicate 3 (Step 0) ++ (Call 8 :: whole_call 1) ++ [Step 1].

Lemma close_races_reuse_witness :
  ∃ s x y s', rtc client_step sim_world (mkClients s [Client TClose x; Client TSend y]) ∧
    client_step (mkClients s [Client TClose x; Client TSend y]) (mkClients s' [Client TExit x; Client TSend y]) ∧
    StreamTCPClientSend y s' = Done VMACCEL_FAIL s'.
Proof.
  assert ((λ w, (w_actors w, g_clntFD (w_streams w))) <$> sim_schedule sim_reuse sim_world =
    Some ([Client TClose (sim_upload 0 8); Client TSend (sim_upload 0 8)], [[4; -1; -1; -1]])) as Hw by by_compute.
  destruct (sim_schedule sim_reuse sim_world) as [[s ts] |] eqn:Hrun; [| discriminate Hw].
  injection Hw as Hts Hfd. subst ts.
  destruct (close_races_reuse (sim_upload 0 8) (sim_upload 0 8) s 4) as (s' & Hstep & Hsend); [| done | done |].
  { unfold client_fd. by rewrite Hfd. }
  exists s, (sim_upload 0 8), (sim_upload 0 8), s'.
  exact (conj (sim_schedule_steps _ _ _ Hrun) (conj Hstep Hsend)).
Defined.

(** Four uploads in flight. *)
Lemma retry_overrun_witness :
  ∃ w s1 s2 s3 th, rtc client_step sim_world w ∧
    release_stream (sim_upload 0 8) (w_streams w) = Done tt s1 ∧
    send_join VMACCEL_STREAM_TYPE_VMCL_UPLOAD s1 = Done (Some 0) s2 ∧
    send_start (send_accel (sim_upload 0 8)) 0 0 (send_desc (sim_upload 0 8)) 0 8 s2 =
      Done (VMACCEL_SUCCESS, Some th) s3 ∧
    vmaccel_stream_send_async (send_accel (sim_upload 0 8)) 0 (send_desc (sim_upload 0 8)) 0 8 s3 = Fault BadAccess.
Proof.
  assert ((λ w, (g_svrDB (w_streams w), g_init (w_streams w), g_clntThread (w_streams w), st_net (w_streams w)))
    <$> sim_schedule four_calls sim_world =
    Some ([Live all_taken], 1, [[100; 101; 102; 103]], sim_net 104)) as Hw by by_compute.
  destruct (sim_schedule four_calls sim_world) as [w |] eqn:Hrun; [| discriminate Hw].
  injection Hw as Hdb Hinit Hthr Hnet.
  assert (g_init (w_streams w) ≠ 0) as Hon by by rewrite Hinit.
  assert (∀ n, threads_work n) as Hwork by (intros n; by repeat eexists).
  assert (pthread_join 100 (st_net (w_streams w)) = (0, sim_net 104)) as Hjoin by by rewrite Hnet.
  destruct (retry_overrun (send_accel (sim_upload 0 8)) (send_desc (sim_upload 0 8)) 0 8 (sim_upload 0 8)
    (w_streams w) 100 101 102 103 (sim_net 104) Hdb Hon Hthr eq_refl eq_refl Hwork Hjoin)
    as (s1 & s2 & s3 & th & _ & Hrest).
  exists w, s1, s2, s3, th. exact (conj (sim_schedule_steps _ _ _ Hrun) Hrest).
Defined.

(** The first two uploads after power-on. *)
Lemma alloc_race_witness :
  ∃ word ret s1 s2 s3,
    on_svrDB VMACCEL_STREAM_TYPE_VMCL_UPLOAD AllocId_find (sim_streams ∅) = Done (Some (word, ret)) (sim_streams ∅) ∧
    on_svrDB VMACCEL_STREAM_TYPE_VMCL_UPLOAD (AllocId_mark word ret) (sim_streams ∅) = Done 0 s1 ∧
    on_svrDB VMACCEL_STREAM_TYPE_VMCL_UPLOAD (AllocId_mark word ret) s1 = Done 0 s2 ∧
    release_stream (sim_upload 0 8) s2 = Done tt s3 ∧ release_stream (sim_upload 0 8) s3 = Fault AssertFailed.
Proof.
  assert (∃ s1, send_alloc VMACCEL_STREAM_TYPE_VMCL_UPLOAD (sim_streams ∅) = Done (Some 0) s1) as [s1 Halloc].
  { eexists. vm_compute. reflexivity. }
  assert (IdentifierDB.wf (mkIdentifierDB 4 1 4 [0])) as Hwf.
  { apply (Alloc_wf 4 (mkIdentifierDB 4 1 4 [0])); [lia | reflexivity]. }
  destruct (alloc_race (sim_upload 0 8) (sim_upload 0 8) (sim_streams ∅) (mkIdentifierDB 4 1 4 [0]) 0 s1
              eq_refl Hwf eq_refl eq_refl eq_refl eq_refl ltac:(simpl; lia) Halloc) as (word & ret & s2 & s3 & Hall).
  by exists word, ret, s1, s2, s3.
Defined.

(** The same run as a schedule of stages from power-on: while the fifth caller
    waits the first thread ends, and the sixth caller is about to store its
    thread at index 4. *)
Lemma overrun_reached :
  ∃ s ts t q, rtc client_step sim_world (mkClients s (ts ++ [Caller (CStore 4 t) q])) ∧
    actor_step (Caller (CStore 4 t) q) s = Fault BadAccess.
Proof.
  set (ms := four_calls ++ fifth_call ++ Step 4 :: Call 8 :: replicate 3 (Step 4)).
  assert ((λ w, (drop 5 (w_actors w), g_clntThread (w_streams w))) <$> sim_schedule ms sim_world =
    Some ([Caller (CStore 4 105) (sim_call 8)], [[104; 101; 102; 103]])) as Hw by by_compute.
  destruct (sim_schedule ms sim_world) as [[s ts] |] eqn:Hrun; [| discriminate Hw]. injection Hw as Hts Hthr.
  exists s, (take 5 ts), 105, (sim_call 8). rewrite <- Hts, take_drop. split; [by apply (sim_schedule_steps ms) |].
  cbn [actor_step caller_step]. unfold send_store, arr_write, arr_read. mrun. rewrite Hthr. reflexivity.
Qed.
