(* ===== verification/Objects.v ===== *)
(** * The C++ object layer: surfaces and compute contexts

    common/inc/vmaccel.hpp (accelerator, surface), common/inc/vmaccel_compute.hpp
    (clcontext) and frontends/vmaccel/src/vmaccel.cpp.  Objects live in tables,
    by an address that stands for their pointer; a [shared_ptr] is an address.

    The stubs and the manager are behind the class [VMCL]: a call takes the
    argument structure and the RPC client ([None] is the null pointer) and
    answers with the result as it is on the wire ([None] is a null result) and
    the argument as the call left it. *)

From stdpp Require Import sorting.
From S2P Require Import Prelude IdentifierDB XdrRuntime XdrRFC4506 RpcTypes Backend BackendPower SunRPC Protocol Address.
Open Scope Z_scope.
Open Scope list_scope.

(** [VMACCEL_INVALID_ID] as an unsigned number. *)
Definition NO_ID : Z := UINT_MAX.
Definition VMACCEL_HANDLE_ID : Z := 0.
Definition VMACCEL_SURFACE_WRITE_ASYNCHRONOUS : Z := 2.
Definition VMACCEL_QUEUE_ON_DEVICE_FLAG : Z := 1.
Definition VMACCEL_FORMAT_UINT : Z := 54.
Definition VMACCEL_VMCL_BASE_PORT : Z := 5100.

(** The services an accelerator switches on. *)
Inductive service : Type := UtilsService | StreamService | VMCLService.

Class VMCL := {
  fabric : Type;
  power_on (s : service) (streaming : bool) : M fabric bool;
  power_off (s : service) : M fabric unit;
  mgr_create (host : list byte) : M fabric (option Z);
  vmcl_2 (p : vmcl_proc) (arg : vmcl_arg p) (clnt : option Z) : M fabric (option (vmcl_wire p) * vmcl_arg p);
  mgr_alloc (arg : VMAccelDesc) (clnt : Z) : M fabric (option VMAccelAllocateReturnStatus);
  mgr_free (id : Z) (clnt : Z) : M fabric unit;
  clnt_create (host : list byte) : M fabric (option Z);
  clnt_destroy (clnt : Z) : M fabric unit;
  (** [vmaccel_stream_send_async] of the [len] bytes at the address [ptr],
      which the stream reads after the call. *)
  stream_send (a : VMAccelAddress) (op : VMCLSurfaceMapOp) (ptr len : Z) : M fabric Z;
}.

(** Order of the keys of a [std::map]. *)
Definition key_le (a b : Z * Z) : Prop := a.1 ≤ b.1.

#[export] Instance key_le_dec : RelDecision key_le.
Proof. intros a b. unfold key_le. apply _. Defined.

Section Objects.
Context `{VMCL}.

(** ** The objects *)

(** class surface; [sf_backing] is the address [backing] points to, which
    surfaces can share. *)
Record surface := mkSurface {
  sf_queueId : Z;
  sf_id : Z;
  sf_desc : VMAccelSurfaceDesc;
  sf_generation : Z;
  sf_backing : Z;
  sf_consistencyDB : heap IdentifierDB;
}.

(** class clcontext with its base class context; [cx_m] tells whether the
    mutex is held. *)
Record clcontext := mkClcontext {
  cx_residencyDB : heap IdentifierDB;
  cx_clnt : option Z;
  cx_accelId : Z;
  cx_contextId : Z;
  cx_numSubDevices : Z;
  cx_numQueues : Z;
  cx_m : bool;
}.

(** A call and its answer; a service switched on, or that failed to be, or
    switched off. *)
Inductive event : Type :=
| Event (p : vmcl_proc) (arg : vmcl_arg p) (ret : option (vmcl_wire p))
| PowerOn (s : service) (ok : bool)
| PowerOff (s : service).

(** The process: class accelerator (of which there is one), the objects, the
    memory behind the [shared_ptr<char>] of the surfaces, the calls made so far (for the statements only), and what is behind the
    calls. *)
Record process := mkProcess {
  ob_localBackend : bool;
  ob_dataStreaming : bool;
  ob_mgrAddr : VMAccelAddress;
  ob_mgrClnt : option Z;
  ob_refObjectDB : heap IdentifierDB;
  ob_contexts : gmap Z Z;
  ob_surfaces : gmap Z Z;
  ob_surface : gmap Z surface;
  ob_clcontext : gmap Z clcontext;
  ob_memory : gmap Z (list byte);
  ob_calls : list event;
  ob_fabric : fabric;
}.

Definition set_refObjectDB x o := mkProcess (ob_localBackend o) (ob_dataStreaming o) (ob_mgrAddr o) (ob_mgrClnt o) x
  (ob_contexts o) (ob_surfaces o) (ob_surface o) (ob_clcontext o) (ob_memory o) (ob_calls o) (ob_fabric o).
Definition track_contexts x o := mkProcess (ob_localBackend o) (ob_dataStreaming o) (ob_mgrAddr o) (ob_mgrClnt o)
  (ob_refObjectDB o) x (ob_surfaces o) (ob_surface o) (ob_clcontext o) (ob_memory o) (ob_calls o) (ob_fabric o).
Definition track_surfaces x o := mkProcess (ob_localBackend o) (ob_dataStreaming o) (ob_mgrAddr o) (ob_mgrClnt o)
  (ob_refObjectDB o) (ob_contexts o) x (ob_surface o) (ob_clcontext o) (ob_memory o) (ob_calls o) (ob_fabric o).
Definition set_surface x o := mkProcess (ob_localBackend o) (ob_dataStreaming o) (ob_mgrAddr o) (ob_mgrClnt o)
  (ob_refObjectDB o) (ob_contexts o) (ob_surfaces o) x (ob_clcontext o) (ob_memory o) (ob_calls o) (ob_fabric o).
Definition set_clcontext x o := mkProcess (ob_localBackend o) (ob_dataStreaming o) (ob_mgrAddr o) (ob_mgrClnt o)
  (ob_refObjectDB o) (ob_contexts o) (ob_surfaces o) (ob_surface o) x (ob_memory o) (ob_calls o) (ob_fabric o).
Definition set_calls x o := mkProcess (ob_localBackend o) (ob_dataStreaming o) (ob_mgrAddr o) (ob_mgrClnt o)
  (ob_refObjectDB o) (ob_contexts o) (ob_surfaces o) (ob_surface o) (ob_clcontext o) (ob_memory o) x (ob_fabric o).
Definition set_fabric x o := mkProcess (ob_localBackend o) (ob_dataStreaming o) (ob_mgrAddr o) (ob_mgrClnt o)
  (ob_refObjectDB o) (ob_contexts o) (ob_surfaces o) (ob_surface o) (ob_clcontext o) (ob_memory o) (ob_calls o) x.

Definition set_memory x o := mkProcess (ob_localBackend o) (ob_dataStreaming o) (ob_mgrAddr o) (ob_mgrClnt o)
  (ob_refObjectDB o) (ob_contexts o) (ob_surfaces o) (ob_surface o) (ob_clcontext o) x (ob_calls o) (ob_fabric o).

Definition OM (A : Type) : Type := M process A.

Definition on_fabric {A} (m : M fabric A) : OM A := zoom ob_fabric set_fabric m.

(** ** Access to objects *)

Definition the_surface (s : Z) : OM surface := o ← get; access (ob_surface o !! s).
Definition the_context (c : Z) : OM clcontext := o ← get; access (ob_clcontext o !! c).
Definition the_backing (x : surface) : OM (list byte) := o ← get; access (ob_memory o !! sf_backing x).
Definition put_backing (x : surface) (b : list byte) : OM unit :=
  modify (λ o, set_memory (<[sf_backing x := b]> (ob_memory o)) o).
Definition put_surface (s : Z) (x : surface) : OM unit := modify (λ o, set_surface (<[s := x]> (ob_surface o)) o).
Definition put_context (c : Z) (x : clcontext) : OM unit := modify (λ o, set_clcontext (<[c := x]> (ob_clcontext o)) o).

Definition set_generation g (x : surface) := mkSurface (sf_queueId x) (sf_id x) (sf_desc x) g (sf_backing x) (sf_consistencyDB x).
Definition set_consistencyDB d (x : surface) := mkSurface (sf_queueId x) (sf_id x) (sf_desc x) (sf_generation x) (sf_backing x) d.
Definition set_residencyDB d (x : clcontext) := mkClcontext d (cx_clnt x) (cx_accelId x) (cx_contextId x)
  (cx_numSubDevices x) (cx_numQueues x) (cx_m x).
Definition set_clnt v (x : clcontext) := mkClcontext (cx_residencyDB x) v (cx_accelId x) (cx_contextId x)
  (cx_numSubDevices x) (cx_numQueues x) (cx_m x).
Definition set_accelId v (x : clcontext) := mkClcontext (cx_residencyDB x) (cx_clnt x) v (cx_contextId x)
  (cx_numSubDevices x) (cx_numQueues x) (cx_m x).
Definition set_contextId v (x : clcontext) := mkClcontext (cx_residencyDB x) (cx_clnt x) (cx_accelId x) v
  (cx_numSubDevices x) (cx_numQueues x) (cx_m x).
Definition set_numSubDevices v (x : clcontext) := mkClcontext (cx_residencyDB x) (cx_clnt x) (cx_accelId x)
  (cx_contextId x) v (cx_numQueues x) (cx_m x).
Definition set_numQueues v (x : clcontext) := mkClcontext (cx_residencyDB x) (cx_clnt x) (cx_accelId x)
  (cx_contextId x) (cx_numSubDevices x) v (cx_m x).
Definition set_m v (x : clcontext) := mkClcontext (cx_residencyDB x) (cx_clnt x) (cx_accelId x)
  (cx_contextId x) (cx_numSubDevices x) (cx_numQueues x) v.

Definition mod_context (c : Z) (f : clcontext → clcontext) : OM unit := x ← the_context c; put_context c (f x).
Definition mod_surface (s : Z) (f : surface → surface) : OM unit := x ← the_surface s; put_surface s (f x).

(** An operation on a database behind a pointer: its answer and the pointer. *)
Definition at_db {A} (p : heap IdentifierDB) (m : M IdentifierDB A) : OM (A * heap IdentifierDB) :=
  db ← access (deref p);
  match m db with
  | Done a db' => mret (a, Live db')
  | Fault f => throw f
  end.

Definition on_consistency {A} (s : Z) (m : M IdentifierDB A) : OM A :=
  x ← the_surface s;
  '(a, p) ← at_db (sf_consistencyDB x) m;
  _ ← put_surface s (set_consistencyDB p x);
  mret a.

Definition on_residency {A} (c : Z) (m : M IdentifierDB A) : OM A :=
  x ← the_context c;
  '(a, p) ← at_db (cx_residencyDB x) m;
  _ ← put_context c (set_residencyDB p x);
  mret a.

Definition on_ids {A} (m : M IdentifierDB A) : OM A :=
  o ← get;
  '(a, p) ← at_db (ob_refObjectDB o) m;
  _ ← modify (set_refObjectDB p);
  mret a.

(** A call with the context's client; it is recorded. *)
Definition stub (c : Z) (p : vmcl_proc) (arg : vmcl_arg p) : OM (option (vmcl_wire p) * vmcl_arg p) :=
  x ← the_context c;
  '(r, arg') ← on_fabric (vmcl_2 p arg (cx_clnt x));
  _ ← modify (λ o, set_calls (ob_calls o ++ [Event p arg r]) o);
  mret (r, arg').

(** ** class accelerator *)

Definition alloc_id : OM Z := r ← on_ids IdentifierDB_AllocId; mret (default NO_ID r).
Definition release_id (id : Z) : OM unit := on_ids (IdentifierDB_ReleaseId id).
Definition get_max_ref_objects : OM Z := on_ids IdentifierDB_Size.

Definition add_context (id c : Z) : OM unit := modify (λ o, track_contexts (<[id := c]> (ob_contexts o)) o).
Definition remove_context (id : Z) : OM unit := modify (λ o, track_contexts (delete id (ob_contexts o)) o).
Definition add_surface (id s : Z) : OM unit := modify (λ o, track_surfaces (<[id := s]> (ob_surfaces o)) o).
Definition remove_surface (id : Z) : OM unit := modify (λ o, track_surfaces (delete id (ob_surfaces o)) o).

(** A [std::map] from its first element to its last. *)
Definition in_order (m : gmap Z Z) : list (Z * Z) := merge_sort key_le (map_to_list m).

(** ** class context: the mutex and the residency of surfaces *)

Definition lock (c : Z) : OM unit :=
  x ← the_context c; if cx_m x then throw WouldBlock else put_context c (set_m true x).
Definition unlock (c : Z) : OM unit := mod_context c (set_m false).

Definition is_resident (c id : Z) : OM bool := on_residency c (IdentifierDB_ActiveId id).
Definition set_residency (c id : Z) (state : bool) : OM unit :=
  if state then _ ← on_residency c (IdentifierDB_AcquireId id); mret tt
  else on_residency c (IdentifierDB_ReleaseId id).

(** ** class surface *)

Definition is_consistent (s id : Z) : OM bool := on_consistency s (IdentifierDB_ActiveId id).
Definition set_consistency (s id : Z) (state : bool) : OM unit :=
  if state then _ ← on_consistency s (IdentifierDB_AcquireId id); mret tt
  else on_consistency s (IdentifierDB_ReleaseId id).
Definition set_consistency_range (s start end_ : Z) (state : bool) : OM unit :=
  if state then _ ← on_consistency s (IdentifierDB_AcquireIdRange (u32 start) (u32 end_)); mret tt
  else _ ← on_consistency s (IdentifierDB_ReleaseIdRange (u32 start) (u32 end_)); mret tt.

(** The constructor with a backing allocation, [backingPtr], which may be that
    of another surface.  [ok_db] and [ok_bits]: whether the database and its
    words can be allocated. *)
Definition new_surface (ok_db ok_bits : bool) (s q : Z) (d : VMAccelSurfaceDesc) (backing : Z) : OM unit :=
  id ← alloc_id;
  n ← get_max_ref_objects;
  let db := match IdentifierDB_Alloc ok_db ok_bits n with Some db => Live db | None => Null end in
  put_surface s (mkSurface q id d 0 backing db).

(** The constructor without one: [new char[d.width]] is at the address
    [backing] and holds [junk]. *)
Definition new_surface_backed (ok_db ok_bits : bool) (s q : Z) (d : VMAccelSurfaceDesc) (backing : Z) (junk : list byte) :
    OM unit :=
  _ ← new_surface ok_db ok_bits s q d backing;
  modify (λ o, set_memory (<[backing := take (Z.to_nat (VMAccelSurfaceDesc_width d)) junk]> (ob_memory o)) o).

(** The copy constructor: a surface of its own id and marks over the same
    backing. *)
Definition copy_constructor (ok_db ok_bits : bool) (s obj : Z) : OM unit :=
  x ← the_surface obj;
  new_surface ok_db ok_bits s (sf_queueId x) (sf_desc x) (sf_backing x).

(** Whether a region is the whole surface, in elements of [elem] bytes. *)
Definition whole_region (d : VMAccelSurfaceDesc) (r : VMAccelSurfaceRegion) (elem : Z) : bool :=
  (VMAccelSurfaceDesc_format d =? VMACCEL_FORMAT_R8_TYPELESS) &&
  (VMAccelCoordinate3DUINT_x (VMAccelSurfaceRegion_coord r) =? 0) &&
  (VMAccelCoordinate3DUINT_y (VMAccelSurfaceRegion_coord r) =? 0) &&
  (VMAccelCoordinate3DUINT_z (VMAccelSurfaceRegion_coord r) =? 0) &&
  (u64 (VMAccelCoordinate3DUINT_x (VMAccelSurfaceRegion_size r) * elem) =? VMAccelSurfaceDesc_width d) &&
  (VMAccelCoordinate3DUINT_y (VMAccelSurfaceRegion_size r) =? VMAccelSurfaceDesc_height d) &&
  (VMAccelCoordinate3DUINT_z (VMAccelSurfaceRegion_size r) =? VMAccelSurfaceDesc_depth d).

(** [memcpy(dst, src, n)]: an access out of bounds when either is shorter. *)
Definition memcpy (dst src : list byte) (n : Z) : option (list byte) :=
  if (Z.of_nat (length dst) <? n) || (Z.of_nat (length src) <? n) then None
  else Some (take (Z.to_nat n) src ++ drop (Z.to_nat n) dst).

(** The object [in] holds the bytes [data]. *)
Definition upload (s : Z) (r : VMAccelSurfaceRegion) (elem : Z) (data : list byte) : OM Z :=
  x ← the_surface s;
  if whole_region (sf_desc x) r elem then
    dst ← the_backing x;
    b ← access (memcpy dst data (Z.min (VMAccelSurfaceDesc_width (sf_desc x)) (Z.of_nat (length data))));
    _ ← put_backing x b;
    n ← get_max_ref_objects;
    _ ← set_consistency_range s 0 (n - 1) false;
    _ ← mod_surface s (λ x, set_generation (u32 (sf_generation x + 1)) x);
    mret VMACCEL_SUCCESS
  else mret VMACCEL_FAIL.

(** The answer, and the bytes of the object [out] afterwards. *)
Definition download (s : Z) (r : VMAccelSurfaceRegion) (elem : Z) (out : list byte) : OM (Z * list byte) :=
  x ← the_surface s;
  if whole_region (sf_desc x) r elem then
    src ← the_backing x;
    b ← access (memcpy out src (Z.min (VMAccelSurfaceDesc_width (sf_desc x)) (Z.of_nat (length out))));
    mret (VMACCEL_SUCCESS, b)
  else mret (VMACCEL_FAIL, out).

(** ** class clcontext: transfers *)

(** The part of a surface's id that is set after [memset] or on the stack. *)
Definition surface_id (base : VMAccelSurfaceId) (id generation : Z) : VMAccelSurfaceId :=
  mkVMAccelSurfaceId (VMAccelSurfaceId_type base) (VMAccelSurfaceId_handleType base) id
    (VMAccelSurfaceId_instance base) (VMAccelSurfaceId_offset base) generation.

Definition flush_queue (c qid : Z) : OM bool :=
  x ← the_context c;
  '(r, _) ← stub c VMCL_QUEUEFLUSH (mkVMCLQueueId (cx_contextId x) qid);
  mret (match r with Some _ => true | None => false end).

(** [junk] is what the stack holds in the argument, which is not cleared. *)
Definition alloc_surface (junk : VMAccelSurfaceId) (c s : Z) : OM bool :=
  _ ← lock c;
  x ← the_surface s;
  resident ← is_resident c (sf_id x);
  if (resident : bool) then _ ← unlock c; mret true else
  cx ← the_context c;
  _ ← assert (VMAccelSurfaceDesc_format (sf_desc x) =? VMACCEL_FORMAT_R8_TYPELESS);
  '(r, _) ← stub c VMCL_SURFACEALLOC
              (mkVMCLSurfaceAllocateDesc
                 (mkVMCLSurfaceId (cx_contextId cx) (surface_id junk (sf_id x) (VMAccelSurfaceId_generation junk)))
                 (sf_desc x));
  match r with
  | None => _ ← unlock c; mret false
  | Some _ =>
      _ ← set_residency c (sf_id x) true;
      _ ← unlock c;
      mret true
  end.

(** The map request of a whole surface. *)
Definition map_op (cid qid : Z) (x : surface) (flags : Z) : VMCLSurfaceMapOp :=
  mkVMCLSurfaceMapOp (mkVMCLQueueId cid qid)
    (mkVMAccelSurfaceMapOp (surface_id zero_VMAccelSurfaceId (sf_id x) (sf_generation x))
       zero_VMAccelCoordinate3DUINT
       (mkVMAccelCoordinate2DUINT (VMAccelSurfaceDesc_width (sf_desc x)) (VMAccelSurfaceDesc_height (sf_desc x)))
       flags).

Definition unmap_op (cid qid : Z) (x : surface) (data : list byte) : VMCLSurfaceUnmapOp :=
  mkVMCLSurfaceUnmapOp (mkVMCLQueueId cid qid)
    (mkVMAccelSurfaceUnmapOp (surface_id zero_VMAccelSurfaceId (sf_id x) (sf_generation x)) 0 data).

(** The region of a whole surface. *)
Definition whole (d : VMAccelSurfaceDesc) : VMAccelSurfaceRegion :=
  mkVMAccelSurfaceRegion 0 (mkVMAccelCoordinate3DUINT 0 0 0)
    (mkVMAccelCoordinate3DUINT (VMAccelSurfaceDesc_width d) (VMAccelSurfaceDesc_height d) (VMAccelSurfaceDesc_depth d)).

Definition image_id (cid : Z) (x : surface) : VMCLSurfaceId :=
  mkVMCLSurfaceId cid
    (mkVMAccelSurfaceId (VMAccelSurfaceDesc_type (sf_desc x)) VMACCEL_HANDLE_ID (sf_id x) 0 0 (sf_generation x)).

(** The first [width] bytes behind [backing]. *)
Definition backing_bytes (x : surface) : OM (list byte) :=
  let n := VMAccelSurfaceDesc_width (sf_desc x) in
  b ← the_backing x;
  access (if Z.of_nat (length b) <? n then None else Some (take (Z.to_nat n) b)).

(** A map request that was answered with success: its bytes. *)
Definition map_result (r : option VMAccelSurfaceMapReturnStatus) : OM (option (list byte)) :=
  match r with
  | None => mret None
  | Some r =>
      st ← access (VMAccelSurfaceMapReturnStatus_ret r);
      mret (if VMAccelSurfaceMapStatus_status st =? VMACCEL_SUCCESS then Some (VMAccelSurfaceMapStatus_ptr st) else None)
  end.

(** The three ways an upload goes: map, copy and unmap in the same process;
    the data stream; an image upload.  [None]: return [false] at once. *)
Definition upload_by_map (c s qid : Z) (x : surface) (cid : Z) : OM (option unit) :=
  '(r, _) ← stub c VMCL_SURFACEMAP
              (map_op cid qid x (Z.lor (Z.lor VMACCEL_MAP_READ_FLAG VMACCEL_MAP_WRITE_FLAG) VMACCEL_MAP_ASYNC_FLAG));
  m ← map_result r;
  match m with
  | None => mret (Some tt)
  | Some ptr =>
      _ ← assert (Z.of_nat (length ptr) =? VMAccelSurfaceDesc_width (sf_desc x));
      data ← backing_bytes x;
      '(r, _) ← stub c VMCL_SURFACEUNMAP (unmap_op cid qid x data);
      match r with
      | None => mret None
      | Some _ => _ ← set_consistency s cid true; mret (Some tt)
      end
  end.

Definition upload_by_stream (s qid : Z) (x : surface) (cid : Z) : OM (option unit) :=
  o ← get;
  let a := ob_mgrAddr o in
  _ ← on_fabric (stream_send
        (mkVMAccelAddress (VMAccelAddress_addr a) VMACCEL_VMCL_BASE_PORT (VMAccelAddress_resourceType a) (VMAccelAddress_subDevice a))
        (map_op cid qid x (Z.lor (Z.lor VMACCEL_MAP_READ_FLAG VMACCEL_MAP_WRITE_FLAG) VMACCEL_MAP_ASYNC_FLAG))
        (sf_backing x) (VMAccelSurfaceDesc_width (sf_desc x)));
  _ ← set_consistency s cid true;
  mret (Some tt).

Definition upload_by_image (c s qid : Z) (x : surface) (cid : Z) (flush : bool) : OM (option unit) :=
  data ← backing_bytes x;
  '(r, _) ← stub c VMCL_IMAGEUPLOAD
              (mkVMCLImageUploadOp (mkVMCLQueueId cid qid) (image_id cid x)
                 (mkVMAccelImageTransferOp (whole (sf_desc x)) data []) VMACCEL_SURFACE_WRITE_ASYNCHRONOUS);
  _ ← match r with Some _ => set_consistency s cid true | None => mret tt end;
  _ ← (if flush then _ ← flush_queue c qid; mret tt else mret tt);
  mret (Some tt).

Definition upload_surface (c s : Z) (force flush : bool) (qid : Z) : OM bool :=
  _ ← lock c;
  x ← the_surface s;
  cx ← the_context c;
  let cid := cx_contextId cx in
  consistent ← is_consistent s cid;
  if (consistent : bool) && negb force then _ ← unlock c; mret true else
  o ← get;
  let imgUpload := match cx_clnt cx with
                   | None => false
                   | Some _ => negb (ob_dataStreaming o) &&
                       negb (VMAccelSurfaceDesc_pool (sf_desc x) =? VMACCEL_SURFACE_POOL_SYSTEM_MEMORY)
                   end in
  let qid := if qid =? NO_ID then sf_queueId x else qid in
  r ← (if imgUpload then upload_by_image c s qid x cid flush
       else match cx_clnt cx with
            | None => upload_by_map c s qid x cid
            | Some _ => if ob_dataStreaming o then upload_by_stream s qid x cid else throw AssertFailed
            end);
  _ ← unlock c;
  mret (match r with Some _ => true | None => false end).

(** The bytes a map answered with go to the backing, and back with the unmap. *)
Definition download_by_map (c s qid : Z) (x : surface) (cid : Z) : OM (option unit) :=
  _ ← assert (VMAccelSurfaceDesc_format (sf_desc x) =? VMACCEL_FORMAT_R8_TYPELESS);
  '(r, _) ← stub c VMCL_SURFACEMAP (map_op cid qid x VMACCEL_MAP_READ_FLAG);
  m ← map_result r;
  match m with
  | None => mret (Some tt)
  | Some ptr =>
      _ ← assert (Z.of_nat (length ptr) =? VMAccelSurfaceDesc_width (sf_desc x));
      dst ← the_backing x;
      b ← access (memcpy dst ptr (VMAccelSurfaceDesc_width (sf_desc x)));
      _ ← put_backing x b;
      '(r, _) ← stub c VMCL_SURFACEUNMAP (unmap_op cid (sf_queueId x) x ptr);
      mret (match r with Some _ => Some tt | None => None end)
  end.

(** The argument's buffer is the backing: what the call leaves there. *)
Definition download_by_image (c s qid : Z) (x : surface) (cid : Z) : OM (option unit) :=
  data ← backing_bytes x;
  '(_, arg) ← stub c VMCL_IMAGEDOWNLOAD
                (mkVMCLImageDownloadOp (mkVMCLQueueId cid qid) (image_id cid x)
                   (mkVMAccelImageTransferOp (whole (sf_desc x)) data []) VMACCEL_SURFACE_READ_SYNCHRONOUS);
  old ← the_backing x;
  _ ← put_backing x (VMAccelImageTransferOp_ptr (VMCLImageDownloadOp_op arg) ++ drop (length data) old);
  _ ← flush_queue c qid;
  mret (Some tt).

Definition download_surface (c s : Z) (force imgDownload : bool) (qid : Z) : OM bool :=
  _ ← lock c;
  x ← the_surface s;
  cx ← the_context c;
  let qid := if qid =? NO_ID then sf_queueId x else qid in
  r ← (if negb imgDownload &&
           (negb (VMAccelSurfaceDesc_usage (sf_desc x) =? VMACCEL_SURFACE_USAGE_READONLY) || force)
       then download_by_map c s qid x (cx_contextId cx)
       else if imgDownload then download_by_image c s qid x (cx_contextId cx)
       else mret (Some tt));
  _ ← unlock c;
  mret (match r with Some _ => true | None => false end).

(** The status of an answer, which is read through a pointer. *)
Definition read_status (r : option VMAccelReturnStatus) : OM (option Z) :=
  match r with
  | None => mret None
  | Some r => st ← access (VMAccelReturnStatus_ret r); mret (Some (VMAccelStatus_status st))
  end.

(** The context no longer holds what the surface's backing has. *)
Definition drop_consistency (s cid : Z) : OM unit :=
  consistent ← is_consistent s cid;
  if (consistent : bool) then set_consistency s cid false else mret tt.

(** [junk]: the argument is not cleared. *)
Definition fill_surface (junk : VMCLImageFillOp) (c qid s : Z) (region : VMAccelSurfaceRegion)
    (element elementFormat : Z) : OM unit :=
  x ← the_surface s;
  _ ← lock c;
  cx ← the_context c;
  let cid := cx_contextId cx in
  resident ← is_resident c (sf_id x);
  if negb resident then unlock c else
  if negb (elementFormat =? VMACCEL_FORMAT_UINT) then unlock c else
  '(r, _) ← stub c VMCL_IMAGEFILL
              (mkVMCLImageFillOp (mkVMCLQueueId cid qid)
                 (mkVMCLSurfaceId cid (surface_id (VMCLSurfaceId_accel (VMCLImageFillOp_img junk)) (sf_id x) (sf_generation x)))
                 (mkVMAccelImageFillOp region (VMAccelImageFillOp_d (VMCLImageFillOp_op junk))
                    (VMAccelImageFillOp_f (VMCLImageFillOp_op junk))
                    (mkVMAccelElementUINT4D element element element element)));
  _ ← read_status r;
  _ ← flush_queue c qid;
  _ ← drop_consistency s cid;
  unlock c.

Definition copy_surface (junk : VMCLSurfaceCopyOp) (c qid src : Z) (srcRegion : VMAccelSurfaceRegion)
    (dst : Z) (dstRegion : VMAccelSurfaceRegion) : OM unit :=
  sx ← the_surface src;
  dx ← the_surface dst;
  _ ← lock c;
  cx ← the_context c;
  let cid := cx_contextId cx in
  src_resident ← is_resident c (sf_id sx);
  dst_resident ← (if (src_resident : bool) then is_resident c (sf_id dx) else mret false);
  if negb dst_resident then unlock c else
  '(r, _) ← stub c VMCL_SURFACECOPY
              (mkVMCLSurfaceCopyOp (mkVMCLQueueId cid qid)
                 (mkVMCLSurfaceId cid (surface_id (VMCLSurfaceId_accel (VMCLSurfaceCopyOp_dst junk)) (sf_id dx) (sf_generation dx)))
                 (mkVMCLSurfaceId cid (surface_id (VMCLSurfaceId_accel (VMCLSurfaceCopyOp_src junk)) (sf_id sx) (sf_generation sx)))
                 (mkVMAccelSurfaceCopyOp dstRegion srcRegion));
  _ ← read_status r;
  _ ← flush_queue c qid;
  _ ← drop_consistency dst cid;
  unlock c.

Definition destroy_surface (c id : Z) : OM unit :=
  _ ← lock c;
  cx ← the_context c;
  resident ← is_resident c id;
  if negb resident then unlock c else
  _ ← stub c VMCL_SURFACEDESTROY (mkVMCLSurfaceId (cx_contextId cx) (surface_id zero_VMAccelSurfaceId id 0));
  _ ← set_residency c id false;
  unlock c.

(** ** Destruction of a surface *)

(** surface::destroy, over the contexts the accelerator tracks. *)
Fixpoint destroy_in (id : Z) (cs : list (Z * Z)) : OM unit :=
  match cs with
  | [] => mret tt
  | (_, c) :: cs' => _ ← destroy_surface c id; destroy_in id cs'
  end.

Definition delete_surface (s : Z) : OM unit :=
  x ← the_surface s;
  o ← get;
  _ ← destroy_in (sf_id x) (in_order (ob_contexts o));
  _ ← release_id (sf_id x);
  _ ← access (deref (sf_consistencyDB x));
  modify (λ o, set_surface (delete s (ob_surface o)) o).

(** ** Construction and destruction of a context *)

Fixpoint destroy_resident (c : Z) (ss : list (Z * Z)) : OM unit :=
  match ss with
  | [] => mret tt
  | (_, s) :: ss' =>
      x ← the_surface s;
      resident ← is_resident c (sf_id x);
      _ ← (if (resident : bool) then destroy_surface c (sf_id x) else mret tt);
      destroy_resident c ss'
  end.

Definition destroy_queue (c i : Z) : OM unit :=
  cx ← the_context c;
  _ ← stub c VMCL_QUEUEDESTROY (mkVMCLQueueId (cx_contextId cx) i);
  mret tt.

Definition destroy_context (c : Z) : OM unit :=
  o ← get;
  cx ← the_context c;
  if negb (ob_localBackend o) && (match cx_clnt cx with None => true | _ => false end) then mret tt else
  _ ← destroy_resident c (in_order (ob_surfaces o));
  cx ← the_context c;
  _ ← (if negb (cx_contextId cx =? NO_ID) then
         _ ← for_from (Z.to_nat (cx_numSubDevices cx)) 0 (destroy_queue c);
         _ ← mod_context c (set_numSubDevices 0);
         _ ← stub c VMCL_CONTEXTDESTROY (cx_contextId cx);
         mod_context c (set_contextId NO_ID)
       else mret tt);
  _ ← (if negb (ob_localBackend o) then
         match cx_clnt cx with
         | Some h => _ ← on_fabric (clnt_destroy h); mod_context c (set_clnt None)
         | None => mret tt
         end
       else mret tt);
  cx ← the_context c;
  if negb (cx_accelId cx =? NO_ID) then
    m ← access (ob_mgrClnt o);
    _ ← on_fabric (mgr_free (cx_accelId cx) m);
    mod_context c (set_accelId NO_ID)
  else mret tt.

(** The queues of sub-device [i]; [false] when one was not answered: its index
    goes back to the accelerator's ids, and the context is destroyed. *)
Fixpoint alloc_queues (c numQueues i : Z) (n : nat) (j : Z) : OM bool :=
  match n with
  | O => mret true
  | S n' =>
      cx ← the_context c;
      let id := u32 (i * numQueues + j) in
      '(r, _) ← stub c VMCL_QUEUEALLOC
                  (mkVMCLQueueAllocateDesc (mkVMCLQueueId (cx_contextId cx) id) i
                     (mkVMAccelQueueDesc VMACCEL_QUEUE_ON_DEVICE_FLAG UINT_MAX));
      match r with
      | None => _ ← release_id id; _ ← destroy_context c; mret false
      | Some _ => alloc_queues c numQueues i n' (j + 1)
      end
  end.

Fixpoint alloc_subdevices (c numQueues : Z) (n : nat) (i : Z) : OM bool :=
  match n with
  | O => mret true
  | S n' =>
      ok ← alloc_queues c numQueues i (Z.to_nat numQueues) 0;
      if (ok : bool) then alloc_subdevices c numQueues n' (i + 1) else mret false
  end.

(** A reservation from the manager: its answer's host, or [None] to give up. *)
Definition reserve_host (c megaFlops : Z) (host : list byte) : OM (option (list byte)) :=
  o ← get;
  match ob_mgrClnt o with
  | None => mret (Some host)
  | Some m =>
      r ← on_fabric (mgr_alloc
            (mkVMAccelDesc 0 zero_VMAccelAddress VMACCEL_COMPUTE_ACCELERATOR_MASK 0 0 []
               (mkVMAccelWorkloadDesc megaFlops 0 0 0 0 0 0 0 0) 0 0 0 0 0 0) m);
      match r with
      | None => mret (Some host)
      | Some r =>
          st ← access (VMAccelAllocateReturnStatus_ret r);
          '(ok, text) ← access (VMAccel_AddressOpaqueAddrToString
                          (VMAccelDesc_parentAddr (VMAccelAllocateStatus_desc st)) host 16);
          if (ok : bool) then
            _ ← mod_context c (set_accelId (VMAccelAllocateStatus_id st));
            mret (Some text)
          else
            _ ← on_fabric (mgr_free (VMAccelAllocateStatus_id st) m);
            mret None
      end
  end.

Definition localhost : list byte := inet_ntoa [x7f; x00; x00; x01] ++ replicate 7 x00.

(** clcontext::alloc *)
Definition alloc_context (c megaFlops selectionMask numSubDevices numQueues requiredCaps : Z) : OM Z :=
  let numSubDevices := Z.max 1 numSubDevices in
  let numQueues := Z.max 1 numQueues in
  _ ← mod_context c (set_accelId NO_ID);
  _ ← mod_context c (set_clnt None);
  host ← reserve_host c megaFlops localhost;
  match host with
  | None => mret VMACCEL_FAIL
  | Some host =>
      o ← get;
      clnt ← (if ob_localBackend o then mret (Some None)
              else h ← on_fabric (clnt_create (c_string host));
                   mret (match h with Some h => Some (Some h) | None => None end));
      match clnt with
      | None => mret VMACCEL_FAIL
      | Some clnt =>
          _ ← mod_context c (set_clnt clnt);
          clientId ← alloc_id;
          '(r, _) ← stub c VMCL_CONTEXTALLOC
                      (mkVMCLContextAllocateDesc 0 clientId selectionMask numSubDevices requiredCaps);
          match r with
          | None => _ ← release_id clientId; _ ← destroy_context c; mret VMACCEL_FAIL
          | Some _ =>
              _ ← mod_context c (set_contextId clientId);
              ok ← alloc_subdevices c numQueues (Z.to_nat numSubDevices) 0;
              if (ok : bool) then
                _ ← mod_context c (set_numSubDevices numSubDevices);
                _ ← mod_context c (set_numQueues numQueues);
                mret VMACCEL_SUCCESS
              else mret VMACCEL_FAIL
          end
      end
  end.

(** The constructor: [false] is the exception, after which the object is gone.
    [junk] is what the members that
    are not initialised hold. *)
Definition new_clcontext (ok_db ok_bits : bool) (junk : Z * Z) (c megaFlops selectionMask numSubDevices numQueues requiredCaps : Z) :
    OM bool :=
  n ← get_max_ref_objects;
  let db := match IdentifierDB_Alloc ok_db ok_bits n with Some db => Live db | None => Null end in
  _ ← put_context c (mkClcontext db None NO_ID NO_ID junk.1 junk.2 false);
  r ← alloc_context c megaFlops selectionMask numSubDevices numQueues requiredCaps;
  if r =? VMACCEL_SUCCESS then mret true else
  _ ← modify (λ o, set_clcontext (delete c (ob_clcontext o)) o);
  mret false.

(** compute::context: the context is tracked by its id. *)
Definition new_context (ok_db ok_bits : bool) (junk : Z * Z) (c megaFlops selectionMask numSubDevices numQueues requiredCaps : Z) :
    OM bool :=
  ok ← new_clcontext ok_db ok_bits junk c megaFlops selectionMask numSubDevices numQueues requiredCaps;
  if (ok : bool) then
    cx ← the_context c;
    _ ← add_context (cx_contextId cx) c;
    mret true
  else mret false.

Definition delete_context (c : Z) : OM unit :=
  cx ← the_context c;
  _ ← remove_context (cx_contextId cx);
  _ ← destroy_context c;
  cx ← the_context c;
  _ ← access (deref (cx_residencyDB cx));
  modify (λ o, set_clcontext (delete c (ob_clcontext o)) o).

(** accelerator_surface, with and without a backing allocation *)
Definition new_accelerator_surface (ok_db ok_bits : bool) (s q : Z) (d : VMAccelSurfaceDesc) (backing : Z) : OM unit :=
  _ ← new_surface ok_db ok_bits s q d backing;
  x ← the_surface s;
  add_surface (sf_id x) s.

Definition new_accelerator_surface_backed (ok_db ok_bits : bool) (s q : Z) (d : VMAccelSurfaceDesc) (backing : Z)
    (junk : list byte) : OM unit :=
  _ ← new_surface_backed ok_db ok_bits s q d backing junk;
  x ← the_surface s;
  add_surface (sf_id x) s.

Definition delete_accelerator_surface (s : Z) : OM unit :=
  x ← the_surface s;
  _ ← remove_surface (sf_id x);
  delete_surface s.

(** ** What an operation leaves behind *)

Lemma the_surface_inv s o x o' : the_surface s o = Done x o' → ob_surface o !! s = Some x ∧ o' = o.
Proof. unfold the_surface. mrun. destruct (ob_surface o !! s); [| done]. by intros [= <- <-]. Qed.

Lemma the_context_inv c o cx o' : the_context c o = Done cx o' → ob_clcontext o !! c = Some cx ∧ o' = o.
Proof. unfold the_context. mrun. destruct (ob_clcontext o !! c); [| done]. by intros [= <- <-]. Qed.

Lemma at_db_inv {A} p (m : M IdentifierDB A) o a q o' :
  at_db p m o = Done (a, q) o' → o' = o ∧ ∃ db db', p = Live db ∧ m db = Done a db' ∧ q = Live db'.
Proof.
  unfold at_db. mrun. destruct p as [| | db]; [done | done |]. cbn. destruct (m db) as [a' db' |] eqn:Hm; [| done].
  intros [= <- <- <-]. eauto 10.
Qed.

Section Frames.
Context (R : relation process) `{!PreOrder R}.

(** An operation that returns takes the state to one that [R] relates to it. *)
Definition within {A} (m : OM A) : Prop := ∀ o a o', m o = Done a o' → R o o'.

Lemma within_ret {A} (a : A) : within (mret a).
Proof. by intros o a' o' [= <- <-]. Qed.

Lemma within_bind {A B} (m : OM A) (f : A → OM B) : within m → (∀ a, within (f a)) → within (m ≫= f).
Proof.
  intros Hm Hf o b o' Hrun. apply bind_inv in Hrun as (a & o1 & H1 & H2). transitivity o1; [by eapply Hm | by eapply Hf].
Qed.

Lemma within_get : within (get : OM process).
Proof. by intros o a o' [= <- <-]. Qed.

Lemma within_access {A} (v : option A) : within (access v).
Proof. by destruct v; intros o a' o' [= <- <-]. Qed.

Lemma within_assert b : within (assert b).
Proof. by destruct b; intros o a' o' [= <- <-]. Qed.

Lemma within_throw {A} f : within (throw f : OM A).
Proof. by intros o a o' ?. Qed.

Lemma within_modify (f : process → process) : (∀ o, R o (f o)) → within (modify f).
Proof. intros Hf o a o' [= <- <-]. apply Hf. Qed.

Lemma within_fabric {A} (m : M fabric A) : (∀ o f, R o (set_fabric f o)) → within (on_fabric m).
Proof.
  intros Hf o a o' Hrun. unfold on_fabric, zoom in Hrun. destruct (m (ob_fabric o)); [| done].
  injection Hrun as <- <-. apply Hf.
Qed.

Lemma within_at_db {A} q (m : M IdentifierDB A) : within (at_db q m).
Proof. intros o [a p] o' Hrun. by destruct (at_db_inv _ _ _ _ _ _ Hrun) as [-> _]. Qed.

Lemma within_the_surface s : within (the_surface s).
Proof. intros o x o' Hrun. by destruct (the_surface_inv _ _ _ _ Hrun) as [_ ->]. Qed.

Lemma within_the_context c : within (the_context c).
Proof. intros o x o' Hrun. by destruct (the_context_inv _ _ _ _ Hrun) as [_ ->]. Qed.
End Frames.
End Objects.

(** A rule of the frames at the relation of the goal. *)
Tactic Notation "frame" constr(rule) := lazymatch goal with |- @within _ ?R _ _ => first [apply (rule R _) | apply (rule R)] end.

(** The steps every operation is made of. *)
Ltac within_steps :=
  first
    [ frame within_ret | frame within_get | frame within_access | frame within_assert | frame within_throw
    | frame within_at_db | frame within_the_surface | frame within_the_context
    | (frame within_bind; [| intros ?]) | case_match ].
