(* ===== verification/Accelerator.v ===== *)
(** * The C++ object layer: the accelerator's construction and destruction

    common/inc/vmaccel.hpp: the services that class accelerator switches on, and
    its connection to the accelerator manager. *)

From S2P Require Import Prelude IdentifierDB XdrRuntime RpcTypes Backend Address AllocTypes Objects.
Open Scope Z_scope.
Open Scope list_scope.

Section Accelerator.
Context `{VMCL}.
Implicit Types (o : process).

(** The members that the constructor sets. *)
Definition set_localBackend v o := mkProcess v (ob_dataStreaming o) (ob_mgrAddr o) (ob_mgrClnt o) (ob_refObjectDB o)
  (ob_contexts o) (ob_surfaces o) (ob_surface o) (ob_clcontext o) (ob_memory o) (ob_calls o) (ob_fabric o).
Definition set_dataStreaming v o := mkProcess (ob_localBackend o) v (ob_mgrAddr o) (ob_mgrClnt o) (ob_refObjectDB o)
  (ob_contexts o) (ob_surfaces o) (ob_surface o) (ob_clcontext o) (ob_memory o) (ob_calls o) (ob_fabric o).
Definition set_mgrAddr v o := mkProcess (ob_localBackend o) (ob_dataStreaming o) v (ob_mgrClnt o) (ob_refObjectDB o)
  (ob_contexts o) (ob_surfaces o) (ob_surface o) (ob_clcontext o) (ob_memory o) (ob_calls o) (ob_fabric o).
Definition set_mgrClnt v o := mkProcess (ob_localBackend o) (ob_dataStreaming o) (ob_mgrAddr o) v (ob_refObjectDB o)
  (ob_contexts o) (ob_surfaces o) (ob_surface o) (ob_clcontext o) (ob_memory o) (ob_calls o) (ob_fabric o).

Definition switch_on (s : service) (streaming : bool) : OM bool :=
  ok ← on_fabric (power_on s streaming);
  _ ← modify (λ o, set_calls (ob_calls o ++ [PowerOn s ok]) o);
  mret ok.

Definition switch_off (s : service) : OM unit :=
  _ ← on_fabric (power_off s);
  modify (λ o, set_calls (ob_calls o ++ [PowerOff s]) o).

(** [DeepCopy(mgrAddr, mgr)] into a member that was not initialised: a length
    other than zero makes it free what the pointer happens to be. *)
Definition copy_mgrAddr (mgr : VMAccelAddress) : OM unit :=
  o ← get;
  match VMAccelAddress_addr (ob_mgrAddr o) with
  | [] => modify (set_mgrAddr (Desc.address_DeepCopy (ob_mgrAddr o) mgr))
  | _ :: _ => throw BadAccess
  end.

Definition connect_manager (mgr : VMAccelAddress) (host : list byte) : OM unit :=
  '(ok, text) ← access (VMAccel_AddressOpaqueAddrToString mgr host 256);
  if negb ok then mret tt else
  _ ← copy_mgrAddr mgr;
  h ← on_fabric (mgr_create (c_string text));
  modify (set_mgrClnt h).

(** The constructor: [false] is the exception.  [junkAddr], [junkClnt] and
    [host] are what the memory holds of the members and the buffer that are not
    initialised; [enableLocal] is ENABLE_VMACCEL_LOCAL. *)
Definition new_accelerator (enableLocal ok_db ok_bits : bool) (junkAddr : VMAccelAddress) (junkClnt : option Z)
    (host : list byte) (mgr : VMAccelAddress) (maxRefObjects : Z) (useLocalBackend useDataStreaming : bool) : OM bool :=
  _ ← modify (λ o, track_contexts ∅ (track_surfaces ∅ (set_mgrClnt junkClnt (set_mgrAddr junkAddr
                     (set_dataStreaming false (set_localBackend false o))))));
  ok ← switch_on UtilsService false;
  if negb ok then mret false else
  ok ← (if useDataStreaming then switch_on StreamService false else mret true);
  if negb ok then mret false else
  _ ← modify (set_dataStreaming useDataStreaming);
  ok ← (if enableLocal && useLocalBackend then switch_on VMCLService useDataStreaming else mret true);
  if negb ok then mret false else
  _ ← modify (set_localBackend (enableLocal && useLocalBackend));
  _ ← (if useLocalBackend then mret tt else connect_manager mgr host);
  match IdentifierDB_Alloc ok_db ok_bits maxRefObjects with
  | Some db => _ ← modify (set_refObjectDB (Live db)); mret true
  | None =>
      o ← get;
      h ← access (ob_mgrClnt o);
      _ ← on_fabric (clnt_destroy h);
      mret false
  end.

Definition delete_accelerator (enableLocal : bool) : OM unit :=
  _ ← modify (set_refObjectDB Null);
  o ← get;
  _ ← match ob_mgrClnt o with
      | Some h =>
          _ ← on_fabric (clnt_destroy h);
          _ ← modify (set_mgrClnt None);
          modify (set_mgrAddr (mkVMAccelAddress [] (VMAccelAddress_port (ob_mgrAddr o))
                                 (VMAccelAddress_resourceType (ob_mgrAddr o)) (VMAccelAddress_subDevice (ob_mgrAddr o))))
      | None => mret tt
      end;
  _ ← (if enableLocal && ob_localBackend o then switch_off VMCLService else mret tt);
  _ ← (if ob_dataStreaming o then switch_off StreamService else mret tt);
  switch_off UtilsService.

(** ** Services on and off *)

(** The features of the accelerator stay, and [es] is called. *)
Definition calling (es : list event) o o' : Prop :=
  ob_calls o' = ob_calls o ++ es ∧ ob_localBackend o' = ob_localBackend o ∧ ob_dataStreaming o' = ob_dataStreaming o.

#[export] Instance calling_nothing_preorder : PreOrder (calling []).
Proof.
  split; [intros o; unfold calling; by rewrite app_nil_r |]. intros o1 o2 o3 (Hc1 & Hl1 & Hs1) (Hc2 & Hl2 & Hs2).
  unfold calling. rewrite app_nil_r in *. repeat split; congruence.
Qed.

Lemma calling_app es1 es2 o1 o2 o3 : calling es1 o1 o2 → calling es2 o2 o3 → calling (es1 ++ es2) o1 o3.
Proof. intros (Hc1 & Hl1 & Hs1) (Hc2 & Hl2 & Hs2). unfold calling. rewrite Hc2, Hc1, app_assoc. repeat split; congruence. Qed.

Lemma calling_modify f : (∀ o, ob_calls (f o) = ob_calls o ∧ ob_localBackend (f o) = ob_localBackend o ∧
  ob_dataStreaming (f o) = ob_dataStreaming o) → within (calling []) (modify f).
Proof. intros Hf. apply within_modify. intros o. unfold calling. rewrite app_nil_r. apply Hf. Qed.

Lemma calling_fabric {A} (m : M fabric A) : within (calling []) (on_fabric m).
Proof. apply within_fabric. intros o f. unfold calling. by rewrite app_nil_r. Qed.

Lemma switch_on_calls s b o ok o' : switch_on s b o = Done ok o' → calling [PowerOn s ok] o o'.
Proof.
  intros Hrun. apply bind_inv in Hrun as (ok1 & o1 & H1 & Hrun). apply calling_fabric in H1.
  injection Hrun as <- <-. apply (calling_app [] _ _ _ _ H1). done.
Qed.

Lemma switch_off_calls s o u o' : switch_off s o = Done u o' → calling [PowerOff s] o o'.
Proof.
  intros Hrun. apply bind_inv in Hrun as (u1 & o1 & H1 & Hrun). apply calling_fabric in H1.
  injection Hrun as <- <-. apply (calling_app [] _ _ _ _ H1). done.
Qed.

Lemma connect_manager_calls mgr host : within (calling []) (connect_manager mgr host).
Proof.
  unfold connect_manager, copy_mgrAddr. repeat first [apply calling_fabric | (by apply calling_modify) | within_steps].
Qed.

(** The services an accelerator with these features uses, in order. *)
Definition services (localBackend dataStreaming : bool) : list service :=
  [UtilsService] ++ (if dataStreaming then [StreamService] else []) ++ (if localBackend then [VMCLService] else []).

Lemma new_accelerator_calls e ok_db ok_bits ja jc host mgr n loc str o o' :
  new_accelerator e ok_db ok_bits ja jc host mgr n loc str o = Done true o' →
  ob_localBackend o' = e && loc ∧ ob_dataStreaming o' = str ∧
  ob_calls o' = ob_calls o ++ ((λ s, PowerOn s true) <$> services (e && loc) str).
Proof.
  unfold new_accelerator. intros Hrun. apply bind_inv in Hrun as (u0 & o0 & [= _ <-] & Hrun).
  set (o0 := track_contexts _ _) in Hrun. assert (ob_calls o0 = ob_calls o) as H0 by done. clearbody o0.
  apply bind_inv in Hrun as ([] & o1 & H1 & Hrun); [| done]. apply switch_on_calls in H1 as (H1 & _ & _). cbn [negb] in Hrun.
  apply bind_inv in Hrun as ([] & o2 & H2 & Hrun); [| done]. cbn [negb] in Hrun.
  assert (ob_calls o2 = ob_calls o1 ++ if str then [PowerOn StreamService true] else []) as H2'.
  { destruct str; [by apply switch_on_calls in H2 as (H2 & _) | injection H2 as <-; by rewrite app_nil_r]. }
  apply bind_inv in Hrun as (u3 & o3 & [= _ <-] & Hrun).
  apply bind_inv in Hrun as ([] & o4 & H4 & Hrun); [| done]. cbn [negb] in Hrun.
  assert (calling (if e && loc then [PowerOn VMCLService true] else []) (set_dataStreaming str o2) o4) as (H4' & _ & Hs4).
  { destruct (e && loc); [by apply switch_on_calls in H4 | by injection H4 as <-]. }
  apply bind_inv in Hrun as (u5 & o5 & [= _ <-] & Hrun). apply bind_inv in Hrun as (u6 & o6 & H6 & Hrun).
  assert (calling [] (set_localBackend (e && loc) o4) o6) as (H6' & Hl6 & Hs6).
  { destruct loc; [by injection H6 as <- <- | by apply connect_manager_calls in H6]. }
  destruct (IdentifierDB_Alloc ok_db ok_bits n).
  2: { apply bind_inv in Hrun as (? & ? & _ & Hrun). apply bind_inv in Hrun as (? & ? & _ & Hrun).
       by apply bind_inv in Hrun as (? & ? & _ & [=]). }
  injection Hrun as <-. cbn [ob_calls ob_localBackend ob_dataStreaming set_refObjectDB set_localBackend set_dataStreaming] in *.
  split; [done |]. split; [congruence |]. rewrite H6', H4', H2', H1, H0, app_nil_r, <- !app_assoc. unfold services.
  by destruct str, (e && loc).
Qed.

Lemma delete_accelerator_calls e o u o' : delete_accelerator e o = Done u o' →
  ob_calls o' = ob_calls o ++ (PowerOff <$> reverse (services (e && ob_localBackend o) (ob_dataStreaming o))).
Proof.
  unfold delete_accelerator. intros Hrun. apply bind_inv in Hrun as (u0 & o0 & [= _ <-] & Hrun).
  apply bind_inv in Hrun as (? & ? & [= <- <-] & Hrun).
  cbn [ob_localBackend ob_dataStreaming set_refObjectDB] in Hrun.
  apply bind_inv in Hrun as (u1 & o1 & H1 & Hrun).
  assert (ob_calls o1 = ob_calls o) as H1'.
  { revert H1. lazymatch goal with |- ?m ?o0 = _ → _ => assert (within (calling []) m) as Hw end.
    { repeat first [apply calling_fabric | (by apply calling_modify) | within_steps]. }
    intros H1. destruct (Hw _ _ _ H1) as (Hc & _). by rewrite Hc, app_nil_r. }
  apply bind_inv in Hrun as (u2 & o2 & H2 & Hrun). apply bind_inv in Hrun as (u3 & o3 & H3 & Hrun).
  apply switch_off_calls in Hrun as (Hrun & _).
  assert (ob_calls o2 = ob_calls o1 ++ if e && ob_localBackend o then [PowerOff VMCLService] else []) as H2'.
  { destruct (e && ob_localBackend o); [by apply switch_off_calls in H2 as (H2 & _) | injection H2 as <- <-; by rewrite app_nil_r]. }
  assert (ob_calls o3 = ob_calls o2 ++ if ob_dataStreaming o then [PowerOff StreamService] else []) as H3'.
  { destruct (ob_dataStreaming o); [by apply switch_off_calls in H3 as (H3 & _) | injection H3 as <- <-; by rewrite app_nil_r]. }
  rewrite Hrun, H3', H2', H1', <- !app_assoc. unfold services.
  by destruct (e && ob_localBackend o), (ob_dataStreaming o).
Qed.

(** (C26) An accelerator that was constructed has switched on the services of its
    features, each once and in this order: the utilities, the streams if data
    streaming was asked for, and the local backend if it was asked for and is
    compiled in.  Its destructor, whatever happened in between, switches off
    exactly these, the last one first. *)
Theorem accelerator_power_nested e ok_db ok_bits ja jc host mgr n loc str o o1 o2 u o3 :
  new_accelerator e ok_db ok_bits ja jc host mgr n loc str o = Done true o1 →
  ob_localBackend o2 = ob_localBackend o1 → ob_dataStreaming o2 = ob_dataStreaming o1 →
  delete_accelerator e o2 = Done u o3 →
  NoDup (services (e && loc) str) ∧
  ob_calls o1 = ob_calls o ++ ((λ s, PowerOn s true) <$> services (e && loc) str) ∧
  ob_calls o3 = ob_calls o2 ++ (PowerOff <$> reverse (services (e && loc) str)).
Proof.
  intros Hnew Hl Hs Hdel. apply new_accelerator_calls in Hnew as (Hl1 & Hs1 & Hc1). apply delete_accelerator_calls in Hdel.
  split; [destruct (e && loc), str; repeat constructor; set_solver |]. split; [done |].
  rewrite Hdel, Hl, Hs, Hl1, Hs1. by destruct e.
Qed.
End Accelerator.
