(* ===== verification/Operations.v ===== *)
(** * The C++ object layer: kernels and operations

    common/inc/vmaccel_compute.hpp: clkernel, the preparation and retrieval of
    surface arguments, and class operation with its life cycle (prepared,
    dispatched, quiesced). *)

From S2P Require Import Prelude IdentifierDB XdrRuntime XdrRFC4506 RpcTypes Backend SunRPC Protocol Address Objects.
Open Scope Z_scope.
Open Scope list_scope.

Definition RETRY_MAX_COUNT : nat := 100.
Definition ENABLE_IMAGE_DOWNLOAD : bool := false.

Section Operations.
Context `{VMCL}.

(** ** class clkernel *)

(** The keys of [variants], a language and a function name, and their order. *)
Definition variant : Type := Z * list byte.

Fixpoint bytes_lt (a b : list byte) : bool :=
  match a, b with
  | [], _ :: _ => true
  | x :: a', y :: b' =>
      if byte_val x <? byte_val y then true else if byte_val y <? byte_val x then false else bytes_lt a' b'
  | _, [] => false
  end.

Definition variant_lt (a b : variant) : bool :=
  if a.1 <? b.1 then true else if b.1 <? a.1 then false else bytes_lt a.2 b.2.

Record clkernel := mkClkernel {
  ck_clctx : Z;
  ck_kernels : list (Z * list byte);
  ck_variants : list (variant * Z);
}.

(** The element of a map with a key, if there is one. *)
Definition find_variant (k : variant) (vs : list (variant * Z)) : option Z :=
  snd <$> list.head (base.filter (λ v, variant_lt v.1 k = false ∧ variant_lt k v.1 = false) vs).

(** The assignment to the element with a key. *)
Fixpoint insert_variant (k : variant) (id : Z) (vs : list (variant * Z)) : list (variant * Z) :=
  match vs with
  | [] => [(k, id)]
  | v :: vs' =>
      if variant_lt k v.1 then (k, id) :: vs
      else if variant_lt v.1 k then v :: insert_variant k id vs'
      else (k, id) :: vs'
  end.

(** prepare: the kernel as the call leaves it.  [kernels.find(type)] must find
    its source. *)
Definition kernel_prepare (k : clkernel) (type : Z) (func : list byte) : OM clkernel :=
  kernelId ← alloc_id;
  cx ← the_context (ck_clctx k);
  source ← access (snd <$> list.head (base.filter (λ x, x.1 = type) (ck_kernels k)));
  '(r, _) ← stub (ck_clctx k) VMCL_KERNELALLOC
              (mkVMCLKernelAllocateDesc (mkVMCLKernelId (cx_contextId cx) kernelId) 0 type source (func ++ [x00]));
  mret (match r with
        | Some _ => mkClkernel (ck_clctx k) (ck_kernels k) (insert_variant (type, func) kernelId (ck_variants k))
        | None => k
        end).

Definition kernel_get_id (k : clkernel) (type : Z) (func : list byte) : OM (Z * clkernel) :=
  match find_variant (type, func) (ck_variants k) with
  | Some id => mret (id, k)
  | None =>
      k ← kernel_prepare k type func;
      mret (default NO_ID (find_variant (type, func) (ck_variants k)), k)
  end.

Fixpoint destroy_variants (c : Z) (vs : list (variant * Z)) : OM unit :=
  match vs with
  | [] => mret tt
  | (_, id) :: vs' =>
      cx ← the_context c;
      _ ← stub c VMCL_KERNELDESTROY (mkVMCLKernelId (cx_contextId cx) id);
      destroy_variants c vs'
  end.

Definition delete_clkernel (k : clkernel) : OM unit := destroy_variants (ck_clctx k) (ck_variants k).

(** ** Surface arguments *)

(** An element of [kernelArgs] after [memset], with no surface. *)
Definition no_arg : VMCLKernelArgDesc :=
  let z := zero_VMCLKernelArgDesc in
  mkVMCLKernelArgDesc (VMCLKernelArgDesc_queue z) UINT_MAX (VMCLKernelArgDesc_type z) (VMCLKernelArgDesc_usage z)
    (surface_id (VMCLKernelArgDesc_surf z) NO_ID 0) (VMCLKernelArgDesc_sampler z).

(** prepareComputeSurfaceArgs: the answer and the argument's descriptor. *)
Definition prepareComputeSurfaceArgs (junk : VMAccelSurfaceId) (c qid argIndex s : Z) : OM (bool * VMCLKernelArgDesc) :=
  ok ← alloc_surface junk c s;
  if negb ok then mret (false, no_arg) else
  ok ← upload_surface c s false false qid;
  if negb ok then mret (false, no_arg) else
  x ← the_surface s;
  mret (true, mkVMCLKernelArgDesc (VMCLKernelArgDesc_queue no_arg) argIndex VMCL_ARG_SURFACE
                (VMCLKernelArgDesc_usage no_arg)
                (surface_id (VMCLKernelArgDesc_surf no_arg) (sf_id x) (sf_generation x))
                (VMCLKernelArgDesc_sampler no_arg)).

(** quiesceComputeSurfaceArgs *)
Definition quiesceComputeSurfaceArgs (c qid : Z) (arg : VMCLKernelArgDesc) (s : Z) : OM bool :=
  if VMAccelSurfaceId_id (VMCLKernelArgDesc_surf arg) =? NO_ID then mret true else
  _ ← download_surface c s false ENABLE_IMAGE_DOWNLOAD qid;
  mret true.

(** ** class operation *)

(** The bindings are the addresses of their surfaces, the topology its global
    offsets, global sizes and local sizes. *)
Record operation := mkOperation {
  op_prepared : bool;
  op_dispatched : bool;
  op_quiesced : bool;
  op_clctx : Z;
  op_subDevice : Z;
  op_kernel : heap clkernel;
  op_kernelType : Z;
  op_kernelFunc : list byte;
  op_topology : list Z * list Z * list Z;
  op_bindings : list Z;
  op_kernelArgs : list VMCLKernelArgDesc;
}.

Definition new_operation : operation := mkOperation false false false 0 0 Null 0 [] ([], [], []) [] [].

Definition set_dispatched x := mkOperation (op_prepared x) true (op_quiesced x) (op_clctx x) (op_subDevice x)
  (op_kernel x) (op_kernelType x) (op_kernelFunc x) (op_topology x) (op_bindings x) (op_kernelArgs x).
Definition set_quiesced x := mkOperation (op_prepared x) (op_dispatched x) true (op_clctx x) (op_subDevice x)
  (op_kernel x) (op_kernelType x) (op_kernelFunc x) (op_topology x) (op_bindings x) (op_kernelArgs x).
Definition set_kernel k x := mkOperation (op_prepared x) (op_dispatched x) (op_quiesced x) (op_clctx x) (op_subDevice x)
  (Live k) (op_kernelType x) (op_kernelFunc x) (op_topology x) (op_bindings x) (op_kernelArgs x).
Definition set_kernelArgs a x := mkOperation (op_prepared x) (op_dispatched x) (op_quiesced x) (op_clctx x)
  (op_subDevice x) (op_kernel x) (op_kernelType x) (op_kernelFunc x) (op_topology x) (op_bindings x) a.

Definition op_prepare (x : operation) (c subDev : Z) (k : clkernel) (type : Z) (func : list byte)
    (topology : list Z * list Z * list Z) (bindings : list Z) : OM operation :=
  if op_prepared x then mret x else
  k ← kernel_prepare k type func;
  mret (mkOperation true (op_dispatched x) (op_quiesced x) c subDev (Live k) type func topology
          (op_bindings x ++ bindings) (op_kernelArgs x)).

(** The arguments from index [i] on: one that cannot be prepared is left
    without a surface. *)
Fixpoint prepare_args (junk : VMAccelSurfaceId) (c qid i : Z) (bindings : list Z) : OM (list VMCLKernelArgDesc) :=
  match bindings with
  | [] => mret []
  | s :: rest =>
      '(_, a) ← prepareComputeSurfaceArgs junk c qid i s;
      as_ ← prepare_args junk c qid (i + 1) rest;
      mret (a :: as_)
  end.

(** The retry loop, from the last status [res]: the status it ends with.
    [n] of the hundred attempts are left. *)
Fixpoint dispatch_loop (n : nat) (c queueId : Z) (arg : VMCLDispatchOp) (res : Z) : OM Z :=
  match n with
  | O => mret res
  | S n' =>
      if negb (res =? VMACCEL_RESOURCE_UNAVAILABLE) then mret res else
      '(r, _) ← stub c VMCL_DISPATCH arg;
      st ← read_status r;
      res ← (match st with
             | Some st => _ ← flush_queue c queueId; mret st
             | None => mret res
             end);
      dispatch_loop n' c queueId arg res
  end.

Definition dispatch_arg (cid queueId kid : Z) (t : list Z * list Z * list Z) (args : list VMCLKernelArgDesc) : VMCLDispatchOp :=
  mkVMCLDispatchOp (mkVMCLQueueId cid queueId) (mkVMCLKernelId 0 kid) 1 t.1.1 t.1.2 t.2 args [].

(** dispatch: the status and the operation afterwards.  [ok]: whether
    [kernelArgs] can be allocated. *)
Definition op_dispatch (ok : bool) (junk : VMAccelSurfaceId) (x : operation) (force : bool) : OM (Z * operation) :=
  k ← access (deref (op_kernel x));
  cx ← the_context (op_clctx x);
  let cid := cx_contextId cx in
  let queueId := u32 (op_subDevice x * cx_numQueues cx) in
  '(kid, k) ← kernel_get_id k (op_kernelType x) (op_kernelFunc x);
  let x := set_kernel k x in
  if negb (op_prepared x) then mret (VMACCEL_FAIL, x) else
  if op_dispatched x && negb force then mret (VMACCEL_FAIL, x) else
  if negb ok then mret (VMACCEL_FAIL, set_kernelArgs [] x) else
  args ← prepare_args junk (op_clctx x) queueId 0 (op_bindings x);
  let x := set_kernelArgs args x in
  res ← dispatch_loop RETRY_MAX_COUNT (op_clctx x) queueId (dispatch_arg cid queueId kid (op_topology x) args)
          VMACCEL_RESOURCE_UNAVAILABLE;
  mret (res, if res =? VMACCEL_SUCCESS then set_dispatched x else x).

Fixpoint quiesce_args (c qid : Z) (args : list VMCLKernelArgDesc) (bindings : list Z) : OM bool :=
  match bindings with
  | [] => mret true
  | s :: rest =>
      a ← access (list.head args);
      ok ← quiesceComputeSurfaceArgs c qid a s;
      if negb ok then mret false else quiesce_args c qid (drop 1 args) rest
  end.

Definition op_quiesce (x : operation) : OM (Z * operation) :=
  if op_quiesced x then mret (VMACCEL_SUCCESS, x) else
  if negb (op_prepared x) || negb (op_dispatched x) then mret (VMACCEL_FAIL, x) else
  o ← get;
  cx ← the_context (op_clctx x);
  if negb (ob_localBackend o) && (match cx_clnt cx with None => true | _ => false end)
  then mret (VMACCEL_RESOURCE_UNAVAILABLE, x) else
  ok ← quiesce_args (op_clctx x) (u32 (op_subDevice x * cx_numQueues cx)) (op_kernelArgs x) (op_bindings x);
  if (ok : bool) then mret (VMACCEL_SUCCESS, set_quiesced x) else mret (VMACCEL_FAIL, x).

Definition op_finish (ok : bool) (junk : VMAccelSurfaceId) (x : operation) : OM (Z * operation) :=
  if op_prepared x then
    x ← (if negb (op_dispatched x) then '(_, x) ← op_dispatch ok junk x false; mret x else mret x);
    x ← (if op_dispatched x && negb (op_quiesced x) then '(_, x) ← op_quiesce x; mret x else mret x);
    mret (VMACCEL_SUCCESS, x)
  else mret (VMACCEL_SUCCESS, x).

(** The destructor, and that of its kernel, which nothing else refers to. *)
Definition delete_operation (ok : bool) (junk : VMAccelSurfaceId) (x : operation) : OM unit :=
  '(_, x) ← op_finish ok junk x;
  match op_kernel x with Live k => delete_clkernel k | _ => mret tt end.

(** compute::dispatch: a new operation takes the place of [old], which is
    dispatched and quiesced. *)
Definition compute_dispatch (ok : bool) (junk : VMAccelSurfaceId) (c subDevice : Z) (old : option operation)
    (kernels : list (Z * list byte)) (type : Z) (func : list byte) (topology : list Z * list Z * list Z)
    (args : list Z) : OM (Z * operation) :=
  x ← op_prepare new_operation c subDevice (mkClkernel c kernels []) type func topology args;
  _ ← match old with
      | Some old =>
          '(_, old) ← op_dispatch ok junk old false;
          '(_, old) ← op_quiesce old;
          delete_operation ok junk old
      | None => mret tt
      end;
  mret (VMACCEL_SUCCESS, x).
End Operations.
