(* ===== verification/Execute.v ===== *)
(** * The C++ object layer: compute::execute

    common/inc/vmaccel_compute.hpp: the synchronous operation on plain objects
    (execute with prepareComputeArgs and quiesceComputeArgs).  An argument is an
    object at an address of the client's memory [mem]; the operation returns the
    memory with what it read back. *)

From S2P Require Import Prelude IdentifierDB XdrRuntime XdrRFC4506 RpcTypes Backend BackendPower SunRPC Protocol Address Objects Operations.
Open Scope Z_scope.
Open Scope list_scope.

Definition VMACCEL_BIND_UNORDERED_ACCESS_FLAG : Z := 512.
Definition VMACCEL_CPU_OR_GPU_MASK : Z := Z.lor 8 1.

(** class object: the address of its memory, its size, usage and queue. *)
Record object := mkObject {
  obj_ptr : Z;
  obj_size : Z;
  obj_usage : Z;
  obj_queueId : Z;
}.

Definition memory : Type := gmap Z (list byte).

Section Execute.
Context `{VMCL}.

(** The bytes of an object that are copied; the length of the copy is a 32-bit
    number. *)
Definition object_bytes (mem : memory) (x : object) : OM (list byte) :=
  b ← access (mem !! obj_ptr x);
  let n := u32 (obj_size x) in
  access (if Z.of_nat (length b) <? n then None else Some (take (Z.to_nat n) b)).

Definition object_desc (x : object) : VMAccelSurfaceDesc :=
  mkVMAccelSurfaceDesc 0 VMACCEL_SURFACE_BUFFER (u32 (obj_size x)) 0 0 0 0 0 VMACCEL_FORMAT_R8_TYPELESS 0 0 (obj_usage x)
    VMACCEL_BIND_UNORDERED_ACCESS_FLAG 0 0.

Definition object_map (cid qid sid gen : Z) (x : object) (flags : Z) : VMCLSurfaceMapOp :=
  mkVMCLSurfaceMapOp (mkVMCLQueueId cid qid)
    (mkVMAccelSurfaceMapOp (surface_id zero_VMAccelSurfaceId sid gen) zero_VMAccelCoordinate3DUINT
       (mkVMAccelCoordinate2DUINT (u32 (obj_size x)) 0) flags).

Definition object_unmap (cid qid sid gen : Z) (data : list byte) : VMCLSurfaceUnmapOp :=
  mkVMCLSurfaceUnmapOp (mkVMCLQueueId cid qid)
    (mkVMAccelSurfaceUnmapOp (surface_id zero_VMAccelSurfaceId sid gen) 0 data).

(** One argument: its surface has the argument's index as its id.  The warning
    of the last path prints the size with "%s". *)
Definition prepareComputeArg (mem : memory) (c argIndex : Z) (x : object) : OM (option VMCLKernelArgDesc) :=
  cx ← the_context c;
  let cid := cx_contextId cx in
  '(r, arg) ← stub c VMCL_SURFACEALLOC
                (mkVMCLSurfaceAllocateDesc (mkVMCLSurfaceId cid (surface_id zero_VMAccelSurfaceId argIndex 0)) (object_desc x));
  match r with
  | None => mret None
  | Some _ =>
      let surf := VMCLSurfaceId_accel (VMCLSurfaceAllocateDesc_client arg) in
      let gen := VMAccelSurfaceId_generation surf in
      '(r, _) ← stub c VMCL_SURFACEMAP
                  (object_map cid (obj_queueId x) argIndex gen x (Z.lor VMACCEL_MAP_READ_FLAG VMACCEL_MAP_WRITE_FLAG));
      m ← map_result r;
      match m with
      | None => throw Undefined
      | Some ptr =>
          _ ← assert (Z.of_nat (length ptr) =? u32 (obj_size x));
          data ← object_bytes mem x;
          '(r, _) ← stub c VMCL_SURFACEUNMAP (object_unmap cid (obj_queueId x) argIndex gen data);
          mret (match r with
                | None => None
                | Some _ =>
                    Some (mkVMCLKernelArgDesc (VMCLKernelArgDesc_queue zero_VMCLKernelArgDesc) argIndex VMCL_ARG_SURFACE
                            (VMCLKernelArgDesc_usage zero_VMCLKernelArgDesc)
                            (surface_id zero_VMAccelSurfaceId (VMAccelSurfaceId_id surf) gen)
                            (VMCLKernelArgDesc_sampler zero_VMCLKernelArgDesc))
                end)
      end
  end.

(** The arguments from index [i] on; [None] when one cannot be prepared. *)
Fixpoint prepareComputeArgs (mem : memory) (c i : Z) (xs : list object) : OM (option (list VMCLKernelArgDesc)) :=
  match xs with
  | [] => mret (Some [])
  | x :: rest =>
      a ← prepareComputeArg mem c i x;
      match a with
      | None => mret None
      | Some a =>
          r ← prepareComputeArgs mem c (i + 1) rest;
          mret (match r with Some as_ => Some (a :: as_) | None => None end)
      end
  end.

(** One argument is read back and its surface destroyed: the answer and the
    memory. *)
Definition quiesceComputeArg (mem : memory) (c : Z) (a : VMCLKernelArgDesc) (x : object) : OM (bool * memory) :=
  cx ← the_context c;
  let cid := cx_contextId cx in
  let sid := VMAccelSurfaceId_id (VMCLKernelArgDesc_surf a) in
  let gen := VMAccelSurfaceId_generation (VMCLKernelArgDesc_surf a) in
  let qid := VMCLQueueId_id (VMCLKernelArgDesc_queue a) in
  if sid =? NO_ID then mret (true, mem) else
  '(ok, mem) ←
    (if negb (obj_usage x =? VMACCEL_SURFACE_USAGE_READONLY) then
       '(r, _) ← stub c VMCL_SURFACEMAP (object_map cid qid sid gen x VMACCEL_MAP_READ_FLAG);
       m ← map_result r;
       match m with
       | None => mret (true, mem)
       | Some ptr =>
           _ ← assert (Z.of_nat (length ptr) =? u32 (obj_size x));
           old ← access (mem !! obj_ptr x);
           new ← access (memcpy old ptr (u32 (obj_size x)));
           '(r, _) ← stub c VMCL_SURFACEUNMAP (object_unmap cid qid sid gen ptr);
           mret (match r with Some _ => true | None => false end, <[obj_ptr x := new]> mem)
       end
     else mret (true, mem));
  if negb ok then mret (false, mem) else
  '(r, _) ← stub c VMCL_SURFACEDESTROY (mkVMCLSurfaceId cid (surface_id zero_VMAccelSurfaceId sid 0));
  mret (match r with Some _ => true | None => false end, mem).

Fixpoint quiesceComputeArgs (mem : memory) (c : Z) (as_ : list VMCLKernelArgDesc) (xs : list object) : OM (bool * memory) :=
  match as_, xs with
  | a :: as_', x :: xs' =>
      '(ok, mem) ← quiesceComputeArg mem c a x;
      if negb ok then mret (false, mem) else quiesceComputeArgs mem c as_' xs'
  | _, _ => mret (true, mem)
  end.

(** The kernel is made, dispatched once and flushed, and the arguments are read
    back when the flush was answered. *)
Definition execute_kernel (mem : memory) (c subDevice : Z) (kernels : list (Z * list byte)) (type : Z) (func : list byte)
    (topology : list Z * list Z * list Z) (args : list VMCLKernelArgDesc) (xs : list object) : OM memory :=
  clk ← kernel_prepare (mkClkernel c kernels []) type func;
  cx ← the_context c;
  let cid := cx_contextId cx in
  '(kid, clk) ← kernel_get_id clk type func;
  '(r, _) ← stub c VMCL_DISPATCH (dispatch_arg cid subDevice kid topology args);
  mem ← (match r with
         | None => mret mem
         | Some _ =>
             '(r, _) ← stub c VMCL_QUEUEFLUSH (mkVMCLQueueId cid subDevice);
             match r with
             | None => mret mem
             | Some _ => '(_, mem) ← quiesceComputeArgs mem c args xs; mret mem
             end
         end);
  _ ← delete_clkernel clk;
  mret mem.

(** execute, with its context at the address [c].  The context is assigned from
    a temporary, whose destructor takes it out of the accelerator's map; a
    context that was not made is a null pointer, which the destructor of [ctx]
    reads.  [ok_args]: whether [kernelArgs] can be allocated. *)
Definition execute (ok_db ok_bits ok_args : bool) (junk : Z * Z) (mem : memory) (c subDevice : Z)
    (kernels : list (Z * list byte)) (type : Z) (func : list byte) (topology : list Z * list Z * list Z)
    (xs : list object) : OM (Z * memory) :=
  ok ← new_context ok_db ok_bits junk c 1 VMACCEL_CPU_OR_GPU_MASK (u32 (subDevice + 1)) 1 0;
  if negb ok then throw BadAccess else
  cx ← the_context c;
  _ ← remove_context (cx_contextId cx);
  if negb ok_args then _ ← delete_context c; mret (VMACCEL_FAIL, mem) else
  args ← prepareComputeArgs mem c 0 xs;
  mem ← (match args with
         | None => mret mem
         | Some args => execute_kernel mem c subDevice kernels type func topology args xs
         end);
  _ ← delete_context c;
  mret (VMACCEL_SUCCESS, mem).

(** ** What an execution leaves behind *)

Section Steps.
Context (K : relation clcontext) `{!PreOrder K} (c : Z).
Context (K_residency : ∀ x d, K x (set_residencyDB d x)) (K_mutex : ∀ x b, K x (set_m b x)).

(** The calls grow, the accelerator and the surfaces stay, and the context at
    [c] changes within [K]. *)
Definition keeping (o o' : process) : Prop :=
  ob_localBackend o' = ob_localBackend o ∧ ob_contexts o' = ob_contexts o ∧ ob_surface o' = ob_surface o ∧
  (∃ es, ob_calls o' = ob_calls o ++ es) ∧
  (∀ cx, ob_clcontext o !! c = Some cx → ∃ cx', ob_clcontext o' !! c = Some cx' ∧ K cx cx').

#[export] Instance keeping_preorder : PreOrder keeping.
Proof.
  split.
  - intros o. repeat split; [exists []; by rewrite app_nil_r |]. intros cx Hcx. by exists cx.
  - intros o1 o2 o3 (Hl1 & Hc1 & Hs1 & [es1 He1] & Hx1) (Hl2 & Hc2 & Hs2 & [es2 He2] & Hx2).
    split; [congruence |]. split; [congruence |]. split; [congruence |]. split.
    + exists (es1 ++ es2). by rewrite He2, He1, app_assoc.
    + intros cx Hcx. destruct (Hx1 cx Hcx) as (cx1 & Hcx1 & HK1). destruct (Hx2 cx1 Hcx1) as (cx2 & Hcx2 & HK2).
      exists cx2. split; [done |]. by transitivity cx1.
Qed.

Lemma keeping_same o o' :
  ob_localBackend o' = ob_localBackend o → ob_contexts o' = ob_contexts o → ob_surface o' = ob_surface o →
  (∃ es, ob_calls o' = ob_calls o ++ es) → ob_clcontext o' = ob_clcontext o → keeping o o'.
Proof. intros Hl Hc Hs He Hx. do 4 (split; [done |]). rewrite Hx. intros cx Hcx. by exists cx. Qed.

Lemma keeping_fabric {A} (m : M fabric A) : within keeping (on_fabric m).
Proof. apply within_fabric. intros o f. apply keeping_same; try done. exists []. by rewrite app_nil_r. Qed.

Lemma keeping_on_ids {A} (m : M IdentifierDB A) : within keeping (on_ids m).
Proof.
  unfold on_ids. repeat within_steps. apply within_modify. intros o. apply keeping_same; try done. exists []. by rewrite app_nil_r.
Qed.

Lemma keeping_put c' o x y :
  ob_clcontext o !! c' = Some x → K x y → keeping o (set_clcontext (<[c' := y]> (ob_clcontext o)) o).
Proof.
  intros Hx HK. do 3 (split; [done |]). split; [exists []; by rewrite app_nil_r |].
  intros cx Hcx. cbn [ob_clcontext set_clcontext]. destruct (decide (c' = c)) as [-> | Hne].
  - rewrite Hx in Hcx. injection Hcx as <-. exists y. by rewrite lookup_insert_eq.
  - exists cx. by rewrite lookup_insert_ne.
Qed.

Lemma keeping_mod c' f : (∀ x, K x (f x)) → within keeping (mod_context c' f).
Proof.
  intros Hf o u o' Hrun. apply bind_inv in Hrun as (x & o1 & Hx & Hrun). apply the_context_inv in Hx as [Hx ->].
  injection Hrun as <- <-. by apply (keeping_put c' o x).
Qed.

Lemma keeping_stub c' p arg : within keeping (stub c' p arg).
Proof.
  unfold stub. repeat first [apply keeping_fabric | within_steps]. apply within_modify. intros ?. apply keeping_same; try done. by eexists.
Qed.

Lemma keeping_residency {A} c' (m : M IdentifierDB A) : within keeping (on_residency c' m).
Proof.
  intros o a o' Hrun. apply bind_inv in Hrun as (x & o1 & Hx & Hrun). apply the_context_inv in Hx as [Hx ->].
  apply bind_inv in Hrun as ([a1 p] & o1 & Hdb & Hrun). apply at_db_inv in Hdb as [-> _].
  injection Hrun as <- <-. by apply (keeping_put c' o x).
Qed.

Lemma keeping_lock c' : within keeping (lock c').
Proof.
  intros o u o' Hrun. apply bind_inv in Hrun as (x & o1 & Hx & Hrun). apply the_context_inv in Hx as [Hx ->].
  destruct (cx_m x); [done |]. injection Hrun as <- <-. by apply (keeping_put c' o x).
Qed.
End Steps.
End Execute.

(** Goes through an operation's steps. *)
Ltac keep :=
  repeat first
    [ lazymatch goal with |- @within _ (keeping ?K ?c) _ (stub ?c' ?p ?arg) => exact (keeping_stub K c c' p arg) end
    | (first [apply keeping_fabric | apply keeping_on_ids | apply keeping_residency
             | apply keeping_lock | apply keeping_mod]; first [apply _ | by intros])
    | within_steps ].

Section Executions.
Context `{VMCL}.
Implicit Types (o : process).

Definition any_context : relation clcontext := λ _ _, True.
Definition same_identity : relation clcontext := λ x y, cx_contextId y = cx_contextId x ∧ cx_clnt y = cx_clnt x.

#[export] Instance any_context_preorder : PreOrder any_context.
Proof. by split. Qed.

#[export] Instance same_identity_preorder : PreOrder same_identity.
Proof. split; [done |]. intros x y z [] []. split; congruence. Qed.

(** The steps that may replace the context's client and id, and those that do not. *)
#[local] Abbreviation grows := (keeping any_context).
#[local] Abbreviation steady := (keeping same_identity).

Lemma steady_grows c o o' : steady c o o' → grows c o o'.
Proof.
  intros (Hl & Hc & Hs & He & Hx). do 4 (split; [done |]). intros cx Hcx. destruct (Hx cx Hcx) as (cx' & ? & _). by exists cx'.
Qed.

Lemma steady_destroy_surface c c' id : within (steady c) (destroy_surface c' id).
Proof. unfold destroy_surface, is_resident, set_residency, unlock. keep. Qed.

Lemma steady_destroy_resident c c' ss : within (steady c) (destroy_resident c' ss).
Proof.
  induction ss as [| [id s] ss IH]; cbn [destroy_resident]; [keep |]. unfold is_resident.
  repeat first [apply IH | apply steady_destroy_surface | progress keep].
Qed.

Lemma steady_destroy_queues c c' n i : within (steady c) (for_from n i (destroy_queue c')).
Proof.
  revert i. induction n as [| n IH]; intros i; cbn [for_from]; [keep |].
  frame within_bind; [unfold destroy_queue; keep | intros _; apply IH].
Qed.

Lemma steady_destroy_variants c c' vs : within (steady c) (destroy_variants c' vs).
Proof.
  induction vs as [| [k id] vs IH]; cbn [destroy_variants]; [keep |]. repeat first [apply IH | progress keep].
Qed.

Lemma steady_kernel_prepare c k type func : within (steady c) (kernel_prepare k type func).
Proof. unfold kernel_prepare, alloc_id. keep. Qed.

Lemma steady_kernel_get_id c k type func : within (steady c) (kernel_get_id k type func).
Proof. unfold kernel_get_id. repeat first [apply steady_kernel_prepare | within_steps]. Qed.

Lemma steady_prepareComputeArgs mem c c' i xs : within (steady c) (prepareComputeArgs mem c' i xs).
Proof.
  revert i. induction xs as [| x xs IH]; intros i; cbn [prepareComputeArgs]; [keep |].
  unfold prepareComputeArg, map_result, object_bytes. repeat first [apply IH | progress keep].
Qed.

Lemma steady_quiesceComputeArgs mem c c' as_ xs : within (steady c) (quiesceComputeArgs mem c' as_ xs).
Proof.
  revert mem xs. induction as_ as [| a as_ IH]; intros mem [| x xs]; cbn [quiesceComputeArgs]; [keep.. |].
  unfold quiesceComputeArg, map_result. repeat first [apply IH | progress keep].
Qed.

Lemma steady_execute_kernel mem c c' sub ks type func t args xs :
  within (steady c) (execute_kernel mem c' sub ks type func t args xs).
Proof.
  unfold execute_kernel, delete_clkernel.
  repeat first [apply steady_kernel_prepare | apply steady_kernel_get_id | apply steady_quiesceComputeArgs
               | apply steady_destroy_variants | progress keep].
Qed.

(** ** The context's construction *)

Lemma alloc_queues_steady c nq i n j o o' : alloc_queues c nq i n j o = Done true o' → steady c o o'.
Proof.
  revert j o. induction n as [| n IH]; intros j o; cbn [alloc_queues]; [by intros [= <-] |]. intros Hrun.
  apply bind_inv in Hrun as (cx & o1 & Hcx & Hrun). apply the_context_inv in Hcx as [_ ->].
  apply bind_inv in Hrun as ([r a] & o1 & Hs & Hrun). apply (keeping_stub same_identity c) in Hs.
  destruct r as [r |].
  - transitivity o1; [done | by eapply IH].
  - apply bind_inv in Hrun as (u & o2 & _ & Hrun). by apply bind_inv in Hrun as (u' & o3 & _ & [=]).
Qed.

Lemma alloc_subdevices_steady c nq n i o o' : alloc_subdevices c nq n i o = Done true o' → steady c o o'.
Proof.
  revert i o. induction n as [| n IH]; intros i o; cbn [alloc_subdevices]; [by intros [= <-] |]. intros Hrun.
  apply bind_inv in Hrun as ([] & o1 & Hq & Hrun); [| done]. apply alloc_queues_steady in Hq.
  transitivity o1; [done | by eapply IH].
Qed.

Lemma grows_reserve_host c c' mf host : within (grows c) (reserve_host c' mf host).
Proof. unfold reserve_host. keep. Qed.

Lemma mod_context_inv c f o u o' : mod_context c f o = Done u o' →
  ∃ x, ob_clcontext o !! c = Some x ∧ o' = set_clcontext (<[c := f x]> (ob_clcontext o)) o.
Proof.
  intros Hrun. apply bind_inv in Hrun as (x & o1 & Hx & Hrun). apply the_context_inv in Hx as [Hx ->].
  injection Hrun as <- <-. by exists x.
Qed.

Lemma stub_calls c p arg o r arg' o' : stub c p arg o = Done (r, arg') o' →
  ob_calls o' = ob_calls o ++ [Event p arg r] ∧ steady c o o'.
Proof.
  intros Hrun. split; [| by eapply (keeping_stub same_identity c)]. apply bind_inv in Hrun as (cx & o1 & Hcx & Hrun).
  apply the_context_inv in Hcx as [_ ->]. apply bind_inv in Hrun as ([r1 a1] & o1 & Hf & Hrun).
  unfold on_fabric, zoom in Hf. destruct (vmcl_2 _ _ _ _) as [[r2 a2] f |]; [| done]. injection Hf as <- <- <-.
  by injection Hrun as <- <- <-.
Qed.

Lemma within_alloc_id c : within (steady c) alloc_id.
Proof. unfold alloc_id. keep. Qed.

(** A context that was made: its allocation at the server, and its id. *)
Definition made (c : Z) o o' : Prop := ∃ cx arg w es1 es2,
  ob_calls o' = ob_calls o ++ es1 ++ Event VMCL_CONTEXTALLOC arg (Some w) :: es2 ∧
  ob_clcontext o' !! c = Some cx ∧ cx_contextId cx = VMCLContextAllocateDesc_clientId arg ∧
  (ob_localBackend o' = true ∨ is_Some (cx_clnt cx)) ∧
  ob_localBackend o' = ob_localBackend o ∧ ob_contexts o' = ob_contexts o ∧ ob_surface o' = ob_surface o.

Lemma alloc_queues_made c n nd nq o o' :
  (ok ← alloc_subdevices c nq n 0;
   if (ok : bool) then
     _ ← mod_context c (set_numSubDevices nd); _ ← mod_context c (set_numQueues nq); mret VMACCEL_SUCCESS
   else mret VMACCEL_FAIL) o = Done VMACCEL_SUCCESS o' → steady c o o'.
Proof.
  intros Hrun. apply bind_inv in Hrun as ([] & o1 & H1 & Hrun); [| done]. apply alloc_subdevices_steady in H1.
  apply bind_inv in Hrun as (u2 & o2 & H2 & Hrun). apply (keeping_mod same_identity c) in H2; [| done].
  apply bind_inv in Hrun as (u3 & o3 & H3 & [= <-]). apply (keeping_mod same_identity c) in H3; [| done].
  transitivity o1; [done |]. by transitivity o2.
Qed.

Lemma alloc_context_made c mf mask nd nq caps o o' :
  alloc_context c mf mask nd nq caps o = Done VMACCEL_SUCCESS o' → made c o o'.
Proof.
  unfold alloc_context. intros Hrun.
  apply bind_inv in Hrun as (u1 & o1 & H1 & Hrun). apply (keeping_mod any_context c) in H1; [| done].
  apply bind_inv in Hrun as (u2 & o2 & H2 & Hrun). apply (keeping_mod any_context c) in H2; [| done].
  apply bind_inv in Hrun as (host & o3 & H3 & Hrun). apply (grows_reserve_host c) in H3.
  assert (grows c o o3) as Hpre by (by transitivity o1; [| transitivity o2]). clear H1 H2 H3.
  destruct host as [host |]; [| done]. apply bind_inv in Hrun as (? & o4 & [= <- <-] & Hrun).
  apply bind_inv in Hrun as (clnt & o4 & Hc & Hrun). destruct clnt as [clnt |]; [| done].
  assert (grows c o3 o4 ∧ (ob_localBackend o3 = true ∨ is_Some clnt)) as [H4 Hclnt].
  { destruct (ob_localBackend o3) eqn:Hl; [injection Hc as <- <-; by split; [| left] |].
    apply bind_inv in Hc as (h & o5 & Hh & Hc). apply (keeping_fabric any_context c) in Hh.
    destruct h as [h |]; [| done]. injection Hc as <- <-. by split; [| right]. }
  apply bind_inv in Hrun as (u5 & o5 & H5 & Hrun). apply mod_context_inv in H5 as (x5 & Hx5 & ->).
  set (o5 := set_clcontext _ o4) in Hrun.
  assert (grows c o o5) as (Hl5 & Hc5 & Hs5 & [es1 He1] & _).
  { transitivity o3; [done |]. transitivity o4; [done |]. by apply (keeping_put any_context c c o4 x5). }
  assert (ob_clcontext o5 !! c = Some (set_clnt clnt x5)) as Hx by apply lookup_insert_eq.
  assert (ob_localBackend o5 = true ∨ is_Some clnt) as Hclnt'.
  { destruct H4 as (Hl4 & _), Hpre as (Hl3 & _). destruct Hclnt as [Hl | ?]; [left | by right].
    cbn [o5 ob_localBackend set_clcontext]. congruence. }
  clearbody o5. clear Hpre H4 Hclnt Hx5 Hc.
  apply bind_inv in Hrun as (id & o6 & H6 & Hrun). apply bind_inv in Hrun as ([r a] & o7 & H7 & Hrun).
  apply (within_alloc_id c) in H6. apply stub_calls in H7 as [He7 H7].
  destruct r as [w |]; [| by apply bind_inv in Hrun as (? & ? & _ & Hrun); apply bind_inv in Hrun as (? & ? & _ & [=])].
  assert (steady c o5 o7) as (Hl7 & Hc7 & Hs7 & _ & Hx7) by by transitivity o6.
  destruct (Hx7 _ Hx) as (x7 & Hat7 & _ & Hclnt7).
  apply bind_inv in Hrun as (u8 & o8 & H8 & Hrun). apply mod_context_inv in H8 as (x8 & Hat8 & ->).
  rewrite Hat7 in Hat8. injection Hat8 as <-.
  apply alloc_queues_made in Hrun as (Hl & Hc & Hs & [es2 He2] & Hx').
  destruct (Hx' (set_contextId id x7)) as (cx & Hat & Hid & Hcl); [apply lookup_insert_eq |].
  destruct H6 as (_ & _ & _ & [es3 He3] & _).
  eexists cx, _, w, (es1 ++ es3), es2. cbn [ob_calls ob_localBackend ob_contexts ob_surface set_clcontext] in *.
  split; [by rewrite He2, He7, He3, He1, <- !app_assoc |]. split; [done |]. split; [exact Hid |].
  split; [| split; [congruence |]; split; congruence].
  destruct Hclnt' as [Hloc | Hcl']; [left; congruence | right; rewrite Hcl; cbn; by rewrite Hclnt7].
Qed.

Lemma on_ids_inv {A} (m : M IdentifierDB A) o a o' : on_ids m o = Done a o' → ∃ p, o' = set_refObjectDB p o.
Proof.
  intros Hrun. apply bind_inv in Hrun as (? & ? & [= <- <-] & Hrun). apply bind_inv in Hrun as ([a1 p] & o1 & Hdb & Hrun).
  apply at_db_inv in Hdb as [-> _]. injection Hrun as <- <-. by exists p.
Qed.

Lemma new_context_made ok_db ok_bits junk c mf mask nd nq caps o o' :
  new_context ok_db ok_bits junk c mf mask nd nq caps o = Done true o' →
  ∃ o1 cx, made c o o1 ∧ ob_clcontext o1 !! c = Some cx ∧ o' = track_contexts (<[cx_contextId cx := c]> (ob_contexts o1)) o1.
Proof.
  unfold new_context. intros Hrun. apply bind_inv in Hrun as ([] & o2 & Hnew & Hrun); [| done].
  apply bind_inv in Hrun as (cx & o3 & Hcx & Hrun). apply the_context_inv in Hcx as [Hcx ->].
  injection Hrun as <-. exists o2, cx. split; [| done]. unfold new_clcontext in Hnew.
  apply bind_inv in Hnew as (n & o0 & H0 & Hnew). apply on_ids_inv in H0 as [p ->].
  apply bind_inv in Hnew as (u & o1 & [= _ <-] & Hnew). apply bind_inv in Hnew as (r & o3 & Halloc & Hnew).
  destruct (Z.eqb_spec r VMACCEL_SUCCESS) as [-> |].
  - injection Hnew as <-. by apply alloc_context_made in Halloc.
  - by apply bind_inv in Hnew as (? & ? & _ & [=]).
Qed.

(** ** Its destruction *)

(** Nothing is called. *)
Definition silent o o' : Prop := ob_contexts o' = ob_contexts o ∧ ob_surface o' = ob_surface o ∧ ob_calls o' = ob_calls o.

#[export] Instance silent_preorder : PreOrder silent.
Proof. split; [done |]. intros o1 o2 o3 (? & ? & ?) (? & ? & ?). repeat split; congruence. Qed.

Ltac silently := unfold mod_context, put_context; repeat first [by apply within_fabric | by apply within_modify | within_steps].

(** The queues and the context are destroyed at the server. *)
Lemma destroy_at_server c n cid o u o' :
  (_ ← for_from n 0 (destroy_queue c); _ ← mod_context c (set_numSubDevices 0);
   _ ← stub c VMCL_CONTEXTDESTROY cid; mod_context c (set_contextId NO_ID)) o = Done u o' →
  ob_contexts o' = ob_contexts o ∧ ob_surface o' = ob_surface o ∧
  ∃ es r, ob_calls o' = ob_calls o ++ es ++ [Event VMCL_CONTEXTDESTROY cid r].
Proof.
  intros Hrun. apply bind_inv in Hrun as (u1 & o1 & H1 & Hrun). apply (steady_destroy_queues c) in H1 as (_ & Hc1 & Hs1 & [es He1] & _).
  apply bind_inv in Hrun as (u2 & o2 & H2 & Hrun). apply mod_context_inv in H2 as (x2 & _ & ->).
  apply bind_inv in Hrun as ([r a] & o3 & H3 & Hrun). apply stub_calls in H3 as [He3 (_ & Hc3 & Hs3 & _)].
  apply mod_context_inv in Hrun as (x4 & _ & ->). cbn [ob_contexts ob_surface ob_calls set_clcontext] in *.
  split; [congruence |]. split; [congruence |]. exists es, r. by rewrite He3, He1, <- app_assoc.
Qed.

Lemma destroy_context_calls c cx o u o' :
  ob_clcontext o !! c = Some cx → ob_localBackend o = true ∨ is_Some (cx_clnt cx) → destroy_context c o = Done u o' →
  ob_contexts o' = ob_contexts o ∧ ob_surface o' = ob_surface o ∧
  ∃ es, ob_calls o' = ob_calls o ++ es ∧
    (cx_contextId cx ≠ NO_ID → ∃ es' r, es = es' ++ [Event VMCL_CONTEXTDESTROY (cx_contextId cx) r]).
Proof.
  intros Hcx Hlive Hrun. unfold destroy_context in Hrun.
  apply bind_inv in Hrun as (? & ? & [= <- <-] & Hrun).
  apply bind_inv in Hrun as (cx1 & o1 & Hcx1 & Hrun). apply the_context_inv in Hcx1 as [Hcx1 ->].
  rewrite Hcx in Hcx1. injection Hcx1 as <-.
  assert (negb (ob_localBackend o) && match cx_clnt cx with None => true | _ => false end = false) as Hgo.
  { destruct Hlive as [-> | [h ->]]; [done | apply andb_false_r]. }
  rewrite Hgo in Hrun. apply bind_inv in Hrun as (u1 & o1 & H1 & Hrun).
  apply (steady_destroy_resident c) in H1. apply bind_inv in Hrun as (cx1 & o2 & Hcx1 & Hrun).
  apply the_context_inv in Hcx1 as [Hcx1 ->]. apply bind_inv in Hrun as (u2 & o2 & H2 & Hrun).
  assert (silent o2 o') as (Hc3 & Hs3 & He3).
  { revert Hrun. lazymatch goal with |- ?m o2 = _ → _ => assert (within silent m) as Hw by silently end. apply Hw. }
  destruct H1 as (_ & Hc1 & Hs1 & [es1 He1] & Hx1). destruct (Hx1 cx Hcx) as (cx1' & Hcx1' & Hid & _).
  rewrite Hcx1 in Hcx1'. injection Hcx1' as <-. rewrite Hid in H2.
  destruct (Z.eqb_spec (cx_contextId cx) NO_ID) as [Hno | Hno]; cbn [negb] in H2.
  - injection H2 as <- <-. split; [congruence |]. split; [congruence |]. exists es1. by rewrite He3, He1.
  - apply destroy_at_server in H2 as (Hc2 & Hs2 & es2 & r & He2). split; [congruence |]. split; [congruence |].
    exists (es1 ++ es2 ++ [Event VMCL_CONTEXTDESTROY (cx_contextId cx) r]). split; [by rewrite He3, He2, He1, !app_assoc |].
    intros _. exists (es1 ++ es2), r. by rewrite app_assoc.
Qed.

Lemma delete_context_calls c cx o u o' :
  ob_clcontext o !! c = Some cx → ob_localBackend o = true ∨ is_Some (cx_clnt cx) → delete_context c o = Done u o' →
  ob_clcontext o' !! c = None ∧ ob_contexts o' = delete (cx_contextId cx) (ob_contexts o) ∧ ob_surface o' = ob_surface o ∧
  ∃ es, ob_calls o' = ob_calls o ++ es ∧
    (cx_contextId cx ≠ NO_ID → ∃ es' r, es = es' ++ [Event VMCL_CONTEXTDESTROY (cx_contextId cx) r]).
Proof.
  intros Hcx Hlive Hrun. unfold delete_context in Hrun.
  apply bind_inv in Hrun as (cx1 & o1 & Hcx1 & Hrun). apply the_context_inv in Hcx1 as [Hcx1 ->].
  rewrite Hcx in Hcx1. injection Hcx1 as <-. apply bind_inv in Hrun as (u1 & o1 & [= _ <-] & Hrun).
  apply bind_inv in Hrun as (u2 & o2 & Hd & Hrun). apply (destroy_context_calls c cx) in Hd as (Hc & Hs & es & He & Hend); [| done..].
  apply bind_inv in Hrun as (cx3 & o3 & Hcx3 & Hrun). apply the_context_inv in Hcx3 as [_ ->].
  apply bind_inv in Hrun as (db & o3 & Hdb & Hrun). destruct (deref _); [| done]. injection Hdb as <- <-.
  injection Hrun as _ <-. cbn [ob_clcontext ob_contexts ob_surface ob_calls set_clcontext track_contexts] in *.
  split; [apply lookup_delete_eq |]. split; [done |]. split; [done |]. by exists es.
Qed.

(** execute without a context does not return its status. *)
Lemma execute_without_context ok_db ok_bits ok_args junk mem c sub ks type func t xs o o1 :
  new_context ok_db ok_bits junk c 1 VMACCEL_CPU_OR_GPU_MASK (u32 (sub + 1)) 1 0 o = Done false o1 →
  execute ok_db ok_bits ok_args junk mem c sub ks type func t xs o = Fault BadAccess.
Proof. intros Hnew. unfold execute. by rewrite (bind_run _ _ _ _ _ Hnew). Qed.

(** (C22) However the calls are answered, an execution that returns has destroyed
    the context it allocated at the server as its last call, unless that context
    was given the id [NO_ID], and has taken it out
    of the accelerator's map; the surfaces of the process are as they were.  It
    answers success even when the arguments or the dispatch failed. *)
Theorem execute_releases ok_db ok_bits ok_args junk mem c sub ks type func t xs o r mem' o' :
  execute ok_db ok_bits ok_args junk mem c sub ks type func t xs o = Done (r, mem') o' →
  r = (if ok_args then VMACCEL_SUCCESS else VMACCEL_FAIL) ∧ ob_clcontext o' !! c = None ∧ ob_surface o' = ob_surface o ∧
  ∃ arg w es1 es2, ob_calls o' = ob_calls o ++ es1 ++ Event VMCL_CONTEXTALLOC arg (Some w) :: es2 ∧
    ob_contexts o' = delete (VMCLContextAllocateDesc_clientId arg) (ob_contexts o) ∧
    (VMCLContextAllocateDesc_clientId arg ≠ NO_ID →
     ∃ es3 ret, es2 = es3 ++ [Event VMCL_CONTEXTDESTROY (VMCLContextAllocateDesc_clientId arg) ret]).
Proof.
  intros Hrun. unfold execute in Hrun. apply bind_inv in Hrun as ([] & o1 & Hnew & Hrun); [| done]. cbn [negb] in Hrun.
  apply new_context_made in Hnew as (o2 & cx & Hmade & Hcx & ->).
  destruct Hmade as (cx' & arg & w & es1 & es2 & He & Hcx' & Hid & Hlive & Hl & Hc & Hs).
  rewrite Hcx in Hcx'. injection Hcx' as <-.
  apply bind_inv in Hrun as (cx1 & o3 & Hcx1 & Hrun). apply the_context_inv in Hcx1 as [Hcx1 ->].
  cbn [ob_clcontext track_contexts] in Hcx1. rewrite Hcx in Hcx1. injection Hcx1 as <-.
  apply bind_inv in Hrun as (u & o3 & Hrem & Hrun). injection Hrem as _ <-.
  set (o3 := track_contexts _ _) in Hrun.
  assert (∃ o4, steady c o3 o4 ∧ delete_context c o4 = Done tt o' ∧ r = (if ok_args then VMACCEL_SUCCESS else VMACCEL_FAIL))
    as (o4 & (Hl4 & Hc4 & Hs4 & [es4 He4] & Hx4) & Hdel & ->).
  { destruct ok_args; cbn [negb] in Hrun.
    - apply bind_inv in Hrun as (args & o4 & Hp & Hrun). apply (steady_prepareComputeArgs mem c) in Hp.
      apply bind_inv in Hrun as (mem1 & o5 & Hk & Hrun). apply bind_inv in Hrun as ([] & o6 & Hdel & [= <- <- <-]).
      exists o5. split; [| done]. transitivity o4; [done |].
      destruct args; [by apply (steady_execute_kernel mem c) in Hk | by injection Hk as <- <-].
    - apply bind_inv in Hrun as ([] & o6 & Hdel & [= <- <- <-]). by exists o3. }
  destruct (Hx4 cx Hcx) as (cx4 & Hcx4 & Hid4 & Hcl4).
  assert (ob_localBackend o4 = true ∨ is_Some (cx_clnt cx4)) as Hlive4.
  { destruct Hlive as [Hloc | Hcl]; [left; by rewrite Hl4 | right; by rewrite Hcl4]. }
  destruct (delete_context_calls c cx4 o4 tt o' Hcx4 Hlive4 Hdel) as (Hgone & Hcs & Hsf & es5 & He5 & Hend).
  rewrite Hid4, Hid in Hcs, Hend. split; [done |]. split; [done |]. split; [by rewrite Hsf, Hs4 |].
  exists arg, w, es1, (es2 ++ es4 ++ es5). split; [| split].
  - rewrite He5, He4. cbn [o3 ob_calls track_contexts]. by rewrite He, <- !app_assoc.
  - rewrite Hcs, Hc4. cbn [o3 ob_contexts track_contexts]. rewrite Hid, !delete_delete_eq, delete_insert_eq. by rewrite Hc.
  - intros Hno. destruct (Hend Hno) as (es6 & ret & ->). exists (es2 ++ es4 ++ es6), ret. by rewrite !app_assoc.
Qed.
End Executions.
