(* ===== verification/Coherence.v ===== *)
(** * What a context marked consistent holds

    A surface lives in the client and in every context it was transferred to.
    [upload_surface] skips a transfer when the context is marked consistent.
    This file shows what a mark says about the calls that were made: which of
    them wrote to the surface last, and what it carried.  Surfaces have backings
    of their own here; Lifecycle.v shows what becomes of a shared one, and of a
    surface that is allocated again. *)

From S2P Require Import Prelude IdentifierDB XdrRuntime XdrRFC4506 RpcTypes Backend SunRPC Protocol Address Objects Operations.
Open Scope Z_scope.
Open Scope list_scope.

Section Coherence.
Context `{VMCL}.
Implicit Types (o : process) (x : surface).

(** ** Writes among the calls *)

(** What a call writes to a surface of a context: an answered transfer its
    generation and bytes; a fill, or a copy into the surface, answered or not,
    something else. *)
Inductive write : Type := Sent (generation : Z) (bytes : list byte) | Changed.

Definition names (img : VMCLSurfaceId) (cid sid : Z) : bool :=
  (VMCLSurfaceId_cid img =? cid) && (VMAccelSurfaceId_id (VMCLSurfaceId_accel img) =? sid).

Definition write_of (cid sid : Z) (e : event) : option write :=
  match e with
  | Event VMCL_IMAGEUPLOAD a (Some _) =>
      let img := VMCLImageUploadOp_img a in
      if names img cid sid
      then Some (Sent (VMAccelSurfaceId_generation (VMCLSurfaceId_accel img)) (VMAccelImageTransferOp_ptr (VMCLImageUploadOp_op a)))
      else None
  | Event VMCL_SURFACEUNMAP a (Some _) =>
      let op := VMCLSurfaceUnmapOp_op a in
      if (VMCLQueueId_cid (VMCLSurfaceUnmapOp_queue a) =? cid) &&
         (VMAccelSurfaceId_id (VMAccelSurfaceUnmapOp_surf op) =? sid)
      then Some (Sent (VMAccelSurfaceId_generation (VMAccelSurfaceUnmapOp_surf op)) (VMAccelSurfaceUnmapOp_ptr op))
      else None
  | Event VMCL_IMAGEFILL a _ => if names (VMCLImageFillOp_img a) cid sid then Some Changed else None
  | Event VMCL_SURFACECOPY a _ => if names (VMCLSurfaceCopyOp_dst a) cid sid then Some Changed else None
  | _ => None
  end.

(** The last write to [sid] in [cid]. *)
Definition last_write (calls : list event) (cid sid : Z) : option write :=
  foldl (λ acc e, match write_of cid sid e with Some t => Some t | None => acc end) None calls.

Lemma last_write_app calls e cid sid :
  last_write (calls ++ [e]) cid sid =
    match write_of cid sid e with Some t => Some t | None => last_write calls cid sid end.
Proof. unfold last_write. by rewrite foldl_app. Qed.

(** The bytes of a surface that a transfer carries. *)
Definition contents o (x : surface) : list byte :=
  take (Z.to_nat (VMAccelSurfaceDesc_width (sf_desc x))) (default [] (ob_memory o !! sf_backing x)).

(** In every context marked consistent the last write to the surface sent what
    the surface holds. *)
Definition coherent o : Prop := ∀ s x db cid,
  ob_surface o !! s = Some x → sf_consistencyDB x = Live db → cid ∈ used db →
  last_write (ob_calls o) cid (sf_id x) = Some (Sent (sf_generation x) (contents o x)).

(** The databases: the accelerator's, in which the ids of all surfaces are
    taken, and one of the same size for every surface. *)
Definition ids_tracked o : Prop :=
  ∃ ids, ob_refObjectDB o = Live ids ∧ IdentifierDB.wf ids ∧ 0 < size ids ∧
    (∀ s x, ob_surface o !! s = Some x → 0 ≤ sf_id x ∧ bit_at ids (sf_id x) = true ∧
       ∃ db, sf_consistencyDB x = Live db ∧ IdentifierDB.wf db ∧ size db = size ids).

(** No two surfaces share an id or a backing. *)
Record tracked o : Prop := {
  tr_ids : ids_tracked o;
  tr_distinct s1 s2 x1 x2 : ob_surface o !! s1 = Some x1 → ob_surface o !! s2 = Some x2 →
    sf_id x1 = sf_id x2 → s1 = s2;
  tr_private s1 s2 x1 x2 : ob_surface o !! s1 = Some x1 → ob_surface o !! s2 = Some x2 →
    sf_backing x1 = sf_backing x2 → s1 = s2;
}.

(** ** Operations that touch no surface and write to none *)

Definition no_write (p : vmcl_proc) : bool :=
  match p with VMCL_IMAGEUPLOAD | VMCL_SURFACEUNMAP | VMCL_IMAGEFILL | VMCL_SURFACECOPY => false | _ => true end.

Definition same_writes o o' : Prop := ∀ cid sid,
  last_write (ob_calls o') cid sid = last_write (ob_calls o) cid sid.

Definition quiet_step o o' : Prop :=
  ob_surface o' = ob_surface o ∧ ob_refObjectDB o' = ob_refObjectDB o ∧ ob_memory o' = ob_memory o ∧ same_writes o o'.

#[export] Instance quiet_step_preorder : PreOrder quiet_step.
Proof.
  split; [done |]. intros o1 o2 o3 (Hs1 & Hi1 & Hm1 & Ht1) (Hs2 & Hi2 & Hm2 & Ht2).
  split_and!; [congruence .. |]. intros cid sid. by rewrite Ht2, Ht1.
Qed.

#[local] Abbreviation quiet := (within quiet_step).

Lemma quiet_modify (f : process → process) :
  (∀ o, ob_surface (f o) = ob_surface o ∧ ob_refObjectDB (f o) = ob_refObjectDB o ∧ ob_memory (f o) = ob_memory o ∧
        ob_calls (f o) = ob_calls o) →
  quiet (modify f).
Proof.
  intros Hf o a o' [= <- <-]. destruct (Hf o) as (Hs & Hi & Hm & Hc).
  split_and!; [done .. |]. intros cid sid. by rewrite Hc.
Qed.

Lemma quiet_fabric {A} (m : M fabric A) : quiet (on_fabric m).
Proof. by apply within_fabric. Qed.

Lemma quiet_stub c p arg : no_write p = true → quiet (stub c p arg).
Proof.
  intros Hp. frame within_bind; [frame within_the_context |].
  intros cx. frame within_bind; [apply quiet_fabric |]. intros [r arg'].
  frame within_bind; [| intros; frame within_ret].
  intros o a o' [= <- <-]. split_and!; [done .. |]. intros cid sid.
  cbn [ob_calls set_calls]. rewrite last_write_app. by destruct p.
Qed.

Lemma quiet_put_context c v : quiet (put_context c v).
Proof. by apply quiet_modify. Qed.

(** Goes through an operation's steps. *)
Ltac quietly :=
  repeat first
    [ apply quiet_fabric | apply quiet_put_context | (apply quiet_stub; reflexivity)
    | (apply quiet_modify; intros; split_and!; reflexivity) | within_steps ].

Lemma quiet_on_residency {A} c (m : M IdentifierDB A) : quiet (on_residency c m).
Proof. unfold on_residency. quietly. Qed.

Lemma quiet_is_resident c id : quiet (is_resident c id).
Proof. apply quiet_on_residency. Qed.

Lemma quiet_set_residency c id b : quiet (set_residency c id b).
Proof. unfold set_residency. destruct b; [frame within_bind; [apply quiet_on_residency | intros; frame within_ret] | apply quiet_on_residency]. Qed.

Lemma quiet_lock c : quiet (lock c).
Proof. unfold lock. quietly. Qed.

Lemma quiet_unlock c : quiet (unlock c).
Proof. unfold unlock, mod_context. quietly. Qed.

Lemma quiet_flush_queue c qid : quiet (flush_queue c qid).
Proof. unfold flush_queue. quietly. Qed.

Lemma quiet_map_result r : quiet (map_result r).
Proof. unfold map_result. quietly. Qed.

Lemma quiet_read_status r : quiet (read_status r).
Proof. unfold read_status. quietly. Qed.

(** A query leaves its database as it is. *)
Lemma ActiveId_same id db b db' : IdentifierDB_ActiveId id db = Done b db' → db' = db.
Proof.
  unfold IdentifierDB_ActiveId, ActiveId, bits_get. mrun. case_match; [by intros [= _ <-] |].
  destruct (bits db !! _); [by intros [= _ <-] | done].
Qed.

Lemma deref_Live (q : heap IdentifierDB) db : deref q = Some db → q = Live db.
Proof. destruct q; try done. by intros [= ->]. Qed.

Lemma on_consistency_inv {A} s (m : M IdentifierDB A) o a o' :
  on_consistency s m o = Done a o' →
  ∃ x db db', ob_surface o !! s = Some x ∧ sf_consistencyDB x = Live db ∧ m db = Done a db' ∧
    o' = set_surface (<[s := set_consistencyDB (Live db') x]> (ob_surface o)) o.
Proof.
  unfold on_consistency, the_surface, at_db, put_surface. mrun. destruct (ob_surface o !! s) as [x |] eqn:Hx; [| done].
  destruct (deref (sf_consistencyDB x)) as [db |] eqn:Hdb; [| done]. destruct (m db) as [a1 db' |] eqn:Hm; [| done].
  intros [= <- <-]. exists x, db, db'. by rewrite (deref_Live _ _ Hdb).
Qed.

Lemma quiet_is_consistent s id : quiet (is_consistent s id).
Proof.
  intros o a o' Hrun. apply on_consistency_inv in Hrun as (x & db & db' & Hx & Hdb & Hm & ->).
  apply ActiveId_same in Hm as ->. split; [| done]. cbn [ob_surface set_surface].
  apply insert_id. rewrite Hx. f_equal. destruct x; simpl in *. by subst.
Qed.

Lemma quiet_max_ref_objects : quiet get_max_ref_objects.
Proof.
  intros o a o' Hrun. unfold get_max_ref_objects, on_ids, at_db in Hrun. revert Hrun. mrun.
  destruct (deref (ob_refObjectDB o)) as [db |] eqn:Hdb; [| done]. cbn. intros [= <- <-].
  unfold quiet_step. by rewrite (deref_Live _ _ Hdb).
Qed.

(** ** The invariant *)

Definition holds_current o : Prop := tracked o ∧ coherent o.

Lemma quiet_keeps {A} (m : OM A) o a o' : quiet m → m o = Done a o' → holds_current o → holds_current o'.
Proof.
  intros Hq Hrun [[Hids Hdist Hpriv] Hco]. apply Hq in Hrun as (Hs & Hi & Hm & Ht). split; [split |].
  - unfold ids_tracked. by rewrite Hs, Hi.
  - by rewrite Hs.
  - by rewrite Hs.
  - intros s x db cid. unfold contents. rewrite Hs, Ht, Hm. apply Hco.
Qed.

(** A surface with another database of the same size. *)
Lemma tracked_db o s x db db' :
  tracked o → ob_surface o !! s = Some x → sf_consistencyDB x = Live db → IdentifierDB.wf db' → size db' = size db →
  tracked (set_surface (<[s := set_consistencyDB (Live db') x]> (ob_surface o)) o).
Proof.
  intros [(ids & Hids & Hwf & Hpos & Hall) Hdist Hpriv] Hx Hdb Hwf' Hsz.
  assert (∀ s' x', <[s:=set_consistencyDB (Live db') x]> (ob_surface o) !! s' = Some x' →
    ∃ x'', ob_surface o !! s' = Some x'' ∧ sf_id x'' = sf_id x' ∧ sf_backing x'' = sf_backing x') as Hback.
  { intros s' x'. destruct (decide (s' = s)) as [-> | Hne].
    - rewrite lookup_insert_eq. intros [= <-]. by exists x.
    - rewrite lookup_insert_ne by done. by exists x'. }
  split.
  - exists ids. split; [done |]. split; [done |]. split; [done |]. intros s' x'. cbn [ob_surface set_surface].
    destruct (decide (s' = s)) as [-> | Hne].
    + rewrite lookup_insert_eq. intros [= <-]. destruct (Hall s x Hx) as (Hid & Hbit & db0 & Hdb0 & _ & Hsz0).
      split; [done |]. split; [done |]. exists db'. split; [done |]. split; [done |]. congruence.
    + rewrite lookup_insert_ne by done. apply Hall.
  - intros s1 s2 x1 x2 (y1 & Hy1 & <- & _)%Hback (y2 & Hy2 & <- & _)%Hback. by apply Hdist.
  - intros s1 s2 x1 x2 (y1 & Hy1 & _ & <-)%Hback (y2 & Hy2 & _ & <-)%Hback. by apply Hpriv.
Qed.

(** Fewer marks: the invariant stays. *)
Lemma unmark_keeps o s x db db' :
  holds_current o → ob_surface o !! s = Some x → sf_consistencyDB x = Live db → IdentifierDB.wf db' →
  size db' = size db → used db' ⊆ used db →
  holds_current (set_surface (<[s := set_consistencyDB (Live db') x]> (ob_surface o)) o).
Proof.
  intros [Htr Hco] Hx Hdb Hwf' Hsz Hsub. split; [by eapply tracked_db |].
  intros s' x' db0 cid. cbn [ob_surface ob_calls set_surface]. destruct (decide (s' = s)) as [-> | Hne].
  - rewrite lookup_insert_eq. intros [= <-] [= <-] Hcid. cbn. by apply (Hco s x db cid Hx Hdb), Hsub.
  - rewrite lookup_insert_ne by done. apply Hco.
Qed.

(** One more mark, for a context that was just sent the surface. *)
Lemma mark_keeps o s x db db' cid :
  holds_current o → ob_surface o !! s = Some x → sf_consistencyDB x = Live db → IdentifierDB.wf db' →
  size db' = size db → used db' ⊆ {[cid]} ∪ used db →
  last_write (ob_calls o) cid (sf_id x) = Some (Sent (sf_generation x) (contents o x)) →
  holds_current (set_surface (<[s := set_consistencyDB (Live db') x]> (ob_surface o)) o).
Proof.
  intros [Htr Hco] Hx Hdb Hwf' Hsz Hsub Hlast. split; [by eapply tracked_db |].
  intros s' x' db0 cid'. cbn [ob_surface ob_calls set_surface]. destruct (decide (s' = s)) as [-> | Hne].
  - rewrite lookup_insert_eq. intros [= <-] [= <-] Hcid. cbn. apply Hsub in Hcid.
    apply elem_of_union in Hcid as [->%elem_of_singleton | Hcid]; [done | by apply (Hco s x db cid')].
  - rewrite lookup_insert_ne by done. apply Hco.
Qed.

(** What acquiring and releasing one id do to the ids in use. *)
Lemma AcquireId_used db id b db' :
  IdentifierDB.wf db → 0 ≤ id → IdentifierDB_AcquireId id db = Done b db' →
  IdentifierDB.wf db' ∧ size db' = size db ∧ used db' ⊆ {[id]} ∪ used db.
Proof.
  intros Hwf Hid. destruct (decide (id < size db ∧ id ∉ used db)) as [[Hlt Hout] | Hno].
  - destruct (AcquireId_fresh db id) as (db1 & -> & Hwf1 & [Hsz _] & _ & Hu & _); [done | lia | done |].
    intros [= <- <-]. split; [done |]. split; [done |]. by rewrite Hu.
  - rewrite AcquireId_refused; [intros [= <- <-]; split; [done |]; split; [done | set_solver] | done | done |].
    destruct (decide (id ∈ used db)); [by right | left; destruct (decide (id < size db)); [tauto | lia]].
Qed.

Lemma ReleaseId_used db id u db' :
  IdentifierDB.wf db → 0 ≤ id → IdentifierDB_ReleaseId id db = Done u db' →
  IdentifierDB.wf db' ∧ size db' = size db ∧ used db' ⊆ used db.
Proof.
  intros Hwf Hid. destruct (decide (id ∈ used db)) as [Hin | Hout].
  - destruct (ReleaseId_active db id) as (db1 & -> & Hwf1 & [Hsz _] & _ & Hu & _); [done | done |].
    intros [= _ <-]. split; [done |]. split; [done |]. rewrite Hu. set_solver.
  - rewrite ReleaseId_refused by done. case_match; [by intros [= _ <-] | done].
Qed.

Lemma surface_db o s x : tracked o → ob_surface o !! s = Some x → ∃ db, sf_consistencyDB x = Live db ∧ IdentifierDB.wf db.
Proof. intros [(ids & _ & _ & _ & Hall) _ _] Hx. destruct (Hall s x Hx) as (_ & _ & db & Hdb & Hwf & _). by exists db. Qed.

(** The invariant, with an exception: what surface [s] holds in [cid]. *)
Definition holds_but (s cid : Z) o : Prop := tracked o ∧ ∀ s' x db cid',
  ob_surface o !! s' = Some x → sf_consistencyDB x = Live db → cid' ∈ used db → (s' = s → cid' ≠ cid) →
  last_write (ob_calls o) cid' (sf_id x) = Some (Sent (sf_generation x) (contents o x)).

Lemma quiet_keeps_but {A} (m : OM A) o a o' s cid : quiet m → m o = Done a o' → holds_but s cid o → holds_but s cid o'.
Proof.
  intros Hq Hrun [[Hids Hdist Hpriv] Hco]. apply Hq in Hrun as (Hs & Hi & Hm & Ht). split; [split |].
  - unfold ids_tracked. by rewrite Hs, Hi.
  - by rewrite Hs.
  - by rewrite Hs.
  - intros s' x db cid'. unfold contents. rewrite Hs, Ht, Hm. apply Hco.
Qed.

(** Taking the mark away ends the exception. *)
Lemma drop_consistency_keeps o s cid u o' :
  holds_but s cid o → 0 ≤ cid → drop_consistency s cid o = Done u o' → holds_current o'.
Proof.
  intros [Htr Hco] Hcid Hrun. apply bind_inv in Hrun as (b & o1 & Hq & Hrun).
  apply on_consistency_inv in Hq as Hq'. destruct Hq' as (x & db & db1 & Hx & Hdb & Hact & _).
  destruct (surface_db o s x Htr Hx) as (db0 & Hdb0 & Hwf). rewrite Hdb in Hdb0. injection Hdb0 as <-.
  unfold IdentifierDB_ActiveId in Hact. rewrite ActiveId_eq in Hact by done. injection Hact as <- <-.
  destruct (quiet_keeps_but _ _ _ _ s cid (quiet_is_consistent s cid) Hq (conj Htr Hco)) as [Htr1 Hco1].
  destruct (quiet_is_consistent _ _ _ _ _ Hq) as (Hs1 & _). rewrite <- Hs1 in Hx.
  case_bool_decide as Hin.
  - apply on_consistency_inv in Hrun as (x' & db1 & db' & Hx' & Hdb1 & Hm & ->).
    rewrite Hx in Hx'. injection Hx' as <-. rewrite Hdb in Hdb1. injection Hdb1 as <-.
    destruct (ReleaseId_active db cid Hwf Hin) as (db2 & Hrel & Hwf' & [Hsz _] & _ & Hu & _).
    rewrite Hrel in Hm. injection Hm as _ <-. split; [by eapply tracked_db |].
    intros s' y dy cid'. cbn [ob_surface ob_calls set_surface]. destruct (decide (s' = s)) as [-> | Hne].
    + rewrite lookup_insert_eq. intros [= <-] [= <-] Hc. rewrite Hu in Hc.
      apply (Hco1 s x db cid' Hx Hdb); [set_solver | intros _; set_solver].
    + rewrite lookup_insert_ne by done. intros Hy Hdy Hc. by eapply Hco1.
  - injection Hrun as <- <-. split; [done |]. intros s' y dy cid' Hy Hdy Hc. eapply Hco1; [done .. |].
    intros -> ->. rewrite Hx in Hy. injection Hy as <-. rewrite Hdb in Hdy. by injection Hdy as <-.
Qed.

Lemma mark_consistent_keeps o s x cid u o' :
  holds_current o → 0 ≤ cid → ob_surface o !! s = Some x →
  last_write (ob_calls o) cid (sf_id x) = Some (Sent (sf_generation x) (contents o x)) →
  set_consistency s cid true o = Done u o' → holds_current o'.
Proof.
  intros Hinv Hcid Hx Hlast Hrun. apply bind_inv in Hrun as (b & o1 & Hrun & [= <- <-]).
  apply on_consistency_inv in Hrun as (x' & db & db' & Hx' & Hdb & Hm & ->).
  rewrite Hx in Hx'. injection Hx' as <-.
  destruct (surface_db o s x (proj1 Hinv) Hx) as (db0 & Hdb0 & Hwf). rewrite Hdb in Hdb0. injection Hdb0 as <-.
  destruct (AcquireId_used db cid b db' Hwf Hcid Hm) as (Hwf' & Hsz & Hsub). by eapply mark_keeps.
Qed.

(** ** A transfer *)

(** [e] is an answered transfer of [x] to [cid] and of nothing else. *)
Definition transfers o (e : event) (cid : Z) (x : surface) : Prop := ∀ cid' sid',
  write_of cid' sid' e = if (cid =? cid') && (sf_id x =? sid') then Some (Sent (sf_generation x) (contents o x)) else None.

Lemma transfer_keeps o s x cid e :
  holds_current o → ob_surface o !! s = Some x → transfers o e cid x →
  holds_current (set_calls (ob_calls o ++ [e]) o) ∧
  last_write (ob_calls o ++ [e]) cid (sf_id x) = Some (Sent (sf_generation x) (contents o x)).
Proof.
  intros [[Hids Hdist Hpriv] Hco] Hx He. split.
  - split; [done |]. intros s' x' db cid' Hx' Hdb Hcid'. cbn [ob_calls set_calls ob_surface] in *.
    rewrite last_write_app, (He cid' (sf_id x')). specialize (Hco s' x' db cid' Hx' Hdb Hcid').
    destruct (Z.eqb_spec cid cid'); [| done]. destruct (Z.eqb_spec (sf_id x) (sf_id x')) as [Heq |]; [| done].
    cbn [andb]. assert (s = s') as <- by (by eapply Hdist). rewrite Hx in Hx'. by injection Hx' as <-.
  - rewrite last_write_app, He, !Z.eqb_refl. done.
Qed.

(** A stub call is its event. *)
Lemma stub_inv c p arg o r arg' o' :
  stub c p arg o = Done (r, arg') o' →
  ob_surface o' = ob_surface o ∧ ob_refObjectDB o' = ob_refObjectDB o ∧ ob_memory o' = ob_memory o ∧
  ob_calls o' = ob_calls o ++ [Event p arg r].
Proof.
  unfold stub. intros Hrun. apply bind_inv in Hrun as (cx & o1 & Hcx & Hrun).
  assert (o1 = o) as ->.
  { revert Hcx. unfold the_context. mrun. by destruct (ob_clcontext o !! c); [intros [= _ <-] |]. }
  apply bind_inv in Hrun as ([r1 a1] & o2 & Hf & Hrun). unfold on_fabric, zoom in Hf.
  destruct (vmcl_2 p arg (cx_clnt cx) (ob_fabric o)); [| done]. injection Hf as -> <-.
  apply bind_inv in Hrun as (u & o3 & [= <- <-] & [= <- <- <-]). done.
Qed.

(** An answered transfer, and the mark it earns. *)
Lemma sent_keeps c p arg o r arg' o1 s x cid u o' :
  holds_current o → 0 ≤ cid → ob_surface o !! s = Some x → transfers o (Event p arg (Some r)) cid x →
  stub c p arg o = Done (Some r, arg') o1 → set_consistency s cid true o1 = Done u o' → holds_current o'.
Proof.
  intros Hinv Hcid Hx He Hstub Hset. apply stub_inv in Hstub as (Hs & Hi & Hm & Hc).
  assert (∀ y, contents o1 y = contents o y) as Hcont by (intros y; unfold contents; by rewrite Hm).
  destruct (transfer_keeps o s x cid _ Hinv Hx He) as [Hinv1 Hlast].
  eapply (mark_consistent_keeps o1 s x cid); [| done | by rewrite Hs | by rewrite Hc, Hcont | done].
  destruct Hinv1 as [[Hids Hdist Hpriv] Hco]. cbn [ob_surface ob_refObjectDB set_calls ob_calls] in *. split; [split |].
  - unfold ids_tracked. by rewrite Hs, Hi.
  - by rewrite Hs.
  - by rewrite Hs.
  - intros s' y db cid'. rewrite Hs, Hc, Hcont. apply Hco.
Qed.

(** A fill of a surface, or a copy into it, in one context. *)
Lemma changed_keeps c p arg o r arg' o1 s x cid :
  holds_current o → ob_surface o !! s = Some x →
  (∀ cid' sid', write_of cid' sid' (Event p arg r) = if (cid =? cid') && (sf_id x =? sid') then Some Changed else None) →
  stub c p arg o = Done (r, arg') o1 → holds_but s cid o1.
Proof.
  intros [[Hids Hdist Hpriv] Hco] Hx He Hstub. apply stub_inv in Hstub as (Hs & Hi & Hm & Hc). split; [split |].
  - unfold ids_tracked. by rewrite Hs, Hi.
  - by rewrite Hs.
  - by rewrite Hs.
  - intros s' y db cid'. unfold contents. rewrite Hs, Hc, Hm, last_write_app, He. intros Hy Hdb Hcid Hne.
    destruct (Z.eqb_spec cid cid') as [-> |]; [| by eapply Hco].
    destruct (Z.eqb_spec (sf_id x) (sf_id y)) as [Heq |]; [| by eapply Hco].
    by destruct (Hne (Hdist _ _ _ _ Hy Hx (eq_sym Heq))).
Qed.

(** A call that was not answered transfers nothing. *)
Lemma unanswered_keeps c p arg o arg' o1 :
  (p = VMCL_IMAGEUPLOAD ∨ p = VMCL_SURFACEUNMAP) → holds_current o → stub c p arg o = Done (None, arg') o1 → holds_current o1.
Proof.
  intros Hp [[Hids Hdist Hpriv] Hco] Hstub. apply stub_inv in Hstub as (Hs & Hi & Hm & Hc). split; [split |].
  - unfold ids_tracked. by rewrite Hs, Hi.
  - by rewrite Hs.
  - by rewrite Hs.
  - intros s x db cid. unfold contents. rewrite Hs, Hc, Hm, last_write_app. destruct Hp; subst p; apply Hco.
Qed.

Lemma image_transfers o cid qid x data r :
  data = contents o x →
  transfers o (Event VMCL_IMAGEUPLOAD
    (mkVMCLImageUploadOp (mkVMCLQueueId cid qid) (image_id cid x)
       (mkVMAccelImageTransferOp (whole (sf_desc x)) data []) VMACCEL_SURFACE_WRITE_ASYNCHRONOUS) (Some r)) cid x.
Proof. by intros -> cid' sid'. Qed.

Lemma unmap_transfers o cid qid x data r :
  data = contents o x → transfers o (Event VMCL_SURFACEUNMAP (unmap_op cid qid x data) (Some r)) cid x.
Proof. by intros -> cid' sid'. Qed.

Lemma the_backing_inv x o b o' : the_backing x o = Done b o' → ob_memory o !! sf_backing x = Some b ∧ o' = o.
Proof. unfold the_backing. mrun. destruct (ob_memory o !! sf_backing x); [| done]. by intros [= <- <-]. Qed.

Lemma backing_bytes_inv x o data o' : backing_bytes x o = Done data o' → data = contents o x ∧ o' = o.
Proof.
  unfold backing_bytes, the_backing, contents. mrun. destruct (ob_memory o !! sf_backing x); [| done]. cbn [default].
  destruct (_ <? _); [done |]. by intros [= <- <-].
Qed.

(** ** Uploads *)

Lemma upload_by_image_keeps c s qid x cid flush o a o' :
  holds_current o → 0 ≤ cid → ob_surface o !! s = Some x → upload_by_image c s qid x cid flush o = Done a o' →
  holds_current o'.
Proof.
  intros Hinv Hcid Hx Hrun. apply bind_inv in Hrun as (data & o1 & Hb & Hrun).
  apply backing_bytes_inv in Hb as [-> ->].
  apply bind_inv in Hrun as ([r arg] & o1 & Hstub & Hrun).
  apply bind_inv in Hrun as (u & o2 & Hset & Hrun).
  assert (holds_current o2) as Hinv2.
  { destruct r as [r |]; [by eapply sent_keeps; [.. | exact Hstub | exact Hset]; try done; apply image_transfers |].
    injection Hset as <- <-. eapply unanswered_keeps; [by left | done | exact Hstub]. }
  apply bind_inv in Hrun as (u' & o3 & Hflush & [= <- <-]). destruct flush; [| by injection Hflush as <- <-].
  apply bind_inv in Hflush as (b & o4 & Hf & [= <- <-]). eapply quiet_keeps; [apply quiet_flush_queue | done | done].
Qed.

Lemma upload_by_map_keeps c s qid x cid o a o' :
  holds_current o → 0 ≤ cid → ob_surface o !! s = Some x → upload_by_map c s qid x cid o = Done a o' →
  holds_current o'.
Proof.
  intros Hinv Hcid Hx Hrun. apply bind_inv in Hrun as ([r arg] & o1 & Hstub & Hrun).
  pose proof (proj1 (stub_inv _ VMCL_SURFACEMAP _ _ _ _ _ Hstub)) as Hs1.
  assert (holds_current o1) as Hinv1 by (eapply quiet_keeps; [by apply (quiet_stub c VMCL_SURFACEMAP) | exact Hstub | done]).
  apply bind_inv in Hrun as (m & o2 & Hm & Hrun).
  assert (holds_current o2 ∧ ob_surface o2 !! s = Some x) as [Hinv2 Hx2].
  { split; [by eapply quiet_keeps; [apply quiet_map_result | ..] |].
    apply quiet_map_result in Hm as [-> _]. by rewrite Hs1. }
  destruct m as [ptr |]; [| by injection Hrun as <- <-].
  apply bind_inv in Hrun as (u & o3 & Hass & Hrun).
  assert (o3 = o2) as -> by (revert Hass; unfold assert; case_match; [by intros [= _ <-] | done]).
  apply bind_inv in Hrun as (data & o3 & Hb & Hrun). apply backing_bytes_inv in Hb as [-> ->].
  apply bind_inv in Hrun as ([r' arg'] & o3 & Hunmap & Hrun). destruct r' as [r' |].
  - apply bind_inv in Hrun as (u' & o4 & Hset & [= <- <-]).
    eapply (sent_keeps c VMCL_SURFACEUNMAP); [exact Hinv2 | exact Hcid | exact Hx2 | | exact Hunmap | exact Hset].
    by apply unmap_transfers.
  - injection Hrun as <- <-. eapply (unanswered_keeps c VMCL_SURFACEUNMAP); [by right | done | exact Hunmap].
Qed.

(** Context ids are unsigned numbers. *)
Definition unsigned_ids o : Prop := ∀ c cx, ob_clcontext o !! c = Some cx → 0 ≤ cx_contextId cx.

(** Locking a context changes none of the context ids. *)
Lemma lock_unsigned c o u o' : unsigned_ids o → lock c o = Done u o' → unsigned_ids o'.
Proof.
  intros Hun Hrun. apply bind_inv in Hrun as (cx & o1 & Hcx & Hrun). apply the_context_inv in Hcx as [Hcx ->].
  destruct (cx_m cx); [done |]. injection Hrun as <- <-. intros c' cx'. cbn [ob_clcontext set_clcontext].
  destruct (decide (c' = c)) as [-> | Hne].
  - rewrite lookup_insert_eq. intros [= <-]. by apply (Hun c cx).
  - rewrite lookup_insert_ne by done. apply Hun.
Qed.

Lemma upload_surface_keeps c s force flush qid o b o' :
  holds_current o → unsigned_ids o → ob_dataStreaming o = false →
  upload_surface c s force flush qid o = Done b o' → holds_current o'.
Proof.
  intros Hinv Hun Hst Hrun. unfold upload_surface in Hrun.
  apply bind_inv in Hrun as (u & o1 & Hlock & Hrun).
  assert (holds_current o1) as Hinv1 by (eapply quiet_keeps; [apply quiet_lock | done | done]).
  assert (unsigned_ids o1) as Hun1 by by eapply lock_unsigned.
  apply bind_inv in Hrun as (x & o2 & Hx & Hrun). apply the_surface_inv in Hx as [Hx ->].
  apply bind_inv in Hrun as (cx & o2 & Hcx & Hrun). apply the_context_inv in Hcx as [Hcx ->].
  assert (0 ≤ cx_contextId cx) as Hcid by by eapply Hun1.
  apply bind_inv in Hrun as (cons & o2 & Hcons & Hrun).
  assert (holds_current o2) as Hinv2 by (eapply quiet_keeps; [apply quiet_is_consistent | done | done]).
  assert (ob_surface o2 !! s = Some x) as Hx2 by (apply quiet_is_consistent in Hcons as [-> _]; done).
  assert (∀ (r : option unit) oa ob, holds_current oa →
    (_ ← unlock c; mret (match r with Some _ => true | None => false end) : OM bool) oa = Done b ob → holds_current ob) as Hend.
  { intros r oa ob Ha Hu. apply bind_inv in Hu as (u' & oc & Hu & [= _ <-]).
    eapply quiet_keeps; [apply quiet_unlock | done | done]. }
  destruct (cons && negb force); [by apply (Hend (Some tt) o2) |].
  apply bind_inv in Hrun as (o3 & o4 & [= <- <-] & Hrun).
  apply bind_inv in Hrun as (r & o3 & Hup & Hrun). eapply Hend; [| exact Hrun].
  destruct (cx_clnt cx) as [h |]; [| by eapply upload_by_map_keeps].
  destruct (negb (ob_dataStreaming o2) && _); [by eapply upload_by_image_keeps |].
  destruct (ob_dataStreaming o2) eqn:Hst2; [| done].
  exfalso. assert (ob_dataStreaming o2 = ob_dataStreaming o) as Hd; [| congruence].
  apply on_consistency_inv in Hcons as (? & ? & ? & _ & _ & _ & ->). cbn.
  apply bind_inv in Hlock as (? & ? & Hc' & Hl). apply the_context_inv in Hc' as [_ ->].
  destruct (cx_m _); [done |]. by injection Hl as <- <-.
Qed.

Lemma quiet_alloc_surface junk c s : quiet (alloc_surface junk c s).
Proof.
  unfold alloc_surface.
  repeat first [apply quiet_lock | apply quiet_is_resident | apply quiet_unlock | apply quiet_set_residency | progress quietly].
Qed.

Lemma quiet_destroy_surface c id : quiet (destroy_surface c id).
Proof.
  unfold destroy_surface.
  repeat first [apply quiet_lock | apply quiet_is_resident | apply quiet_unlock | apply quiet_set_residency | progress quietly].
Qed.

Lemma fill_surface_keeps junk c qid s r e f o u o' :
  holds_current o → unsigned_ids o → fill_surface junk c qid s r e f o = Done u o' → holds_current o'.
Proof.
  intros Hinv Hun Hrun. unfold fill_surface in Hrun.
  apply bind_inv in Hrun as (x & o1 & Hx & Hrun). apply the_surface_inv in Hx as [Hx ->].
  apply bind_inv in Hrun as (u1 & o1 & Hlock & Hrun). assert (unsigned_ids o1) as Hun1 by by eapply lock_unsigned.
  apply (quiet_keeps _ _ _ _ (quiet_lock c)) in Hlock as Hinv1; [| done].
  apply bind_inv in Hrun as (cx & o2 & Hcx & Hrun). apply the_context_inv in Hcx as [Hcx ->].
  assert (0 ≤ cx_contextId cx) as Hcid by by eapply Hun1.
  apply bind_inv in Hrun as (res & o2 & Hres & Hrun).
  apply (quiet_keeps _ _ _ _ (quiet_is_resident c _)) in Hres as Hinv2; [| done].
  destruct (negb res); [by eapply quiet_keeps; [apply quiet_unlock | ..] |].
  destruct (negb _); [by eapply quiet_keeps; [apply quiet_unlock | ..] |].
  assert (ob_surface o2 !! s = Some x) as Hx2.
  { apply quiet_lock in Hlock as [Hs1 _]. apply quiet_is_resident in Hres as [Hs2 _]. congruence. }
  apply bind_inv in Hrun as ([ret arg] & o3 & Hstub & Hrun).
  apply (changed_keeps c VMCL_IMAGEFILL _ _ _ _ _ s x (cx_contextId cx)) in Hstub as Hinv3; [| done | done | done].
  apply bind_inv in Hrun as (st & o4 & Hstatus & Hrun).
  apply (quiet_keeps_but _ _ _ _ s (cx_contextId cx) (quiet_read_status _)) in Hstatus as Hinv4; [| exact Hinv3].
  apply bind_inv in Hrun as (fl & o5 & Hflush & Hrun).
  apply (quiet_keeps_but _ _ _ _ s (cx_contextId cx) (quiet_flush_queue c qid)) in Hflush as Hinv5; [| exact Hinv4].
  apply bind_inv in Hrun as (u2 & o6 & Hdrop & Hrun).
  eapply quiet_keeps; [apply quiet_unlock | done |]. by eapply drop_consistency_keeps.
Qed.

Lemma copy_surface_keeps junk c qid src sr dst dr o u o' :
  holds_current o → unsigned_ids o → copy_surface junk c qid src sr dst dr o = Done u o' → holds_current o'.
Proof.
  intros Hinv Hun Hrun. unfold copy_surface in Hrun.
  apply bind_inv in Hrun as (sx & o1 & Hx & Hrun). apply the_surface_inv in Hx as [_ ->].
  apply bind_inv in Hrun as (dx & o1 & Hx & Hrun). apply the_surface_inv in Hx as [Hx ->].
  apply bind_inv in Hrun as (u1 & o1 & Hlock & Hrun). assert (unsigned_ids o1) as Hun1 by by eapply lock_unsigned.
  apply (quiet_keeps _ _ _ _ (quiet_lock c)) in Hlock as Hinv1; [| done].
  apply bind_inv in Hrun as (cx & o2 & Hcx & Hrun). apply the_context_inv in Hcx as [Hcx ->].
  assert (0 ≤ cx_contextId cx) as Hcid by by eapply Hun1.
  apply bind_inv in Hrun as (res & o2 & Hres & Hrun).
  apply (quiet_keeps _ _ _ _ (quiet_is_resident c _)) in Hres as Hinv2; [| done].
  apply bind_inv in Hrun as (res' & o3 & Hres' & Hrun).
  assert (holds_current o3) as Hinv3.
  { destruct res; [by eapply quiet_keeps; [apply quiet_is_resident | ..] | by injection Hres' as <- <-]. }
  destruct (negb res'); [by eapply quiet_keeps; [apply quiet_unlock | ..] |].
  apply bind_inv in Hrun as ([ret arg] & o4 & Hstub & Hrun).
  assert (ob_surface o3 !! dst = Some dx) as Hx3.
  { apply quiet_lock in Hlock as [Hs1 _]. apply quiet_is_resident in Hres as [Hs2 _].
    destruct res; [apply quiet_is_resident in Hres' as [Hs3 _]; congruence | injection Hres' as <- <-; congruence]. }
  apply (changed_keeps c VMCL_SURFACECOPY _ _ _ _ _ dst dx (cx_contextId cx)) in Hstub as Hinv4; [| done | done | done].
  apply bind_inv in Hrun as (st & o5 & Hstatus & Hrun).
  apply (quiet_keeps_but _ _ _ _ dst (cx_contextId cx) (quiet_read_status _)) in Hstatus as Hinv5; [| exact Hinv4].
  apply bind_inv in Hrun as (fl & o6 & Hflush & Hrun).
  apply (quiet_keeps_but _ _ _ _ dst (cx_contextId cx) (quiet_flush_queue c qid)) in Hflush as Hinv6; [| exact Hinv5].
  apply bind_inv in Hrun as (u2 & o7 & Hdrop & Hrun).
  eapply quiet_keeps; [apply quiet_unlock | done |]. by eapply drop_consistency_keeps.
Qed.

(** ** Writes of the application *)

(** Releasing every id leaves none in use. *)
Lemma ReleaseIdRange_all db : IdentifierDB.wf db → 0 < size db →
  ∃ db', IdentifierDB_ReleaseIdRange 0 (size db - 1) db = Done true db' ∧ IdentifierDB.wf db' ∧ size db' = size db ∧
    used db' = ∅.
Proof.
  intros Hwf Hpos. pose proof (wf_size db Hwf). unfold IdentifierDB_ReleaseIdRange. mrun.
  destruct (Z.leb_spec (size db) 0); [lia |]. destruct (Z.leb_spec (size db) (size db - 1)); [lia |]. cbn [orb].
  destruct (ReleaseIdRange_loop_spec (Z.to_nat ((size db - 1) / 32 - 0 / 32 + 1)) db (0 / 32) 0 (size db - 1))
    as (db' & -> & Hwf' & [Hsz _] & _ & Hbits); [done | |].
  { split; try (cbn; lia). by left. }
  exists db'. split; [done |]. split; [done |]. split; [done |]. apply set_eq. intros k.
  rewrite elem_of_used, Hsz. split; [| set_solver]. intros [Hk Hb]. rewrite Hbits in Hb by lia.
  unfold in_range in Hb. destruct (Z.leb_spec 0 k), (Z.leb_spec k (size db - 1)); cbn in Hb; done || lia.
Qed.

(** A write that succeeds replaces the bytes, takes a new generation and leaves
    no mark. *)
Lemma upload_run s r elem data o ret o' :
  ids_tracked o → upload s r elem data o = Done ret o' →
  o' = o ∨ ∃ x b db', ob_surface o !! s = Some x ∧ IdentifierDB.wf db' ∧ used db' = ∅ ∧
    (∀ db, sf_consistencyDB x = Live db → size db' = size db) ∧
    ob_surface o' = <[s := set_generation (u32 (sf_generation x + 1)) (set_consistencyDB (Live db') x)]> (ob_surface o) ∧
    ob_memory o' = <[sf_backing x := b]> (ob_memory o) ∧
    ob_refObjectDB o' = ob_refObjectDB o ∧ ob_calls o' = ob_calls o.
Proof.
  intros (ids & Hids & Hwfi & Hpos & Hall) Hrun. unfold upload in Hrun.
  apply bind_inv in Hrun as (x & o1 & Hx & Hrun). apply the_surface_inv in Hx as [Hx ->].
  destruct (Hall s x Hx) as (_ & _ & db & Hdb & Hwf & Hsz).
  destruct (whole_region _ _ _); [| by injection Hrun as <- <-; left]. right.
  apply bind_inv in Hrun as (dst & o1 & Hdst & Hrun). apply the_backing_inv in Hdst as [_ ->].
  apply bind_inv in Hrun as (b & o1 & Hb & Hrun).
  assert (o1 = o) as -> by (revert Hb; unfold access; case_match; [by intros [= _ <-] | done]).
  apply bind_inv in Hrun as (u & o1 & [= _ <-] & Hrun).
  apply bind_inv in Hrun as (n & o2 & Hn & Hrun). unfold get_max_ref_objects, on_ids, at_db in Hn. revert Hn. mrun.
  cbn [ob_refObjectDB set_memory]. rewrite Hids. cbn [deref]. intros [= <- <-].
  apply bind_inv in Hrun as (u1 & o2 & Hrange & Hrun). apply bind_inv in Hrange as (ok & o3 & Hrel & [= _ <-]).
  apply on_consistency_inv in Hrel as (x1 & db1 & db' & Hx1 & Hdb1 & Hm & ->).
  cbn [ob_surface set_refObjectDB set_memory] in Hx1. rewrite Hx in Hx1. injection Hx1 as <-.
  cbn in Hdb1. rewrite Hdb in Hdb1. injection Hdb1 as <-. pose proof (wf_size ids Hwfi).
  rewrite (u32_small 0), (u32_small (size ids - 1)) in Hm by (u32_unfold; lia).
  rewrite <- Hsz in Hm. destruct (ReleaseIdRange_all db Hwf) as (db'' & Hrel & Hwf' & Hsz' & Hempty); [lia |].
  rewrite Hrel in Hm. injection Hm as <- <-.
  apply bind_inv in Hrun as (u2 & o3 & Hgen & [= _ <-]). unfold mod_surface, the_surface, put_surface in Hgen. revert Hgen. mrun.
  cbn [ob_surface set_surface set_refObjectDB set_memory]. rewrite lookup_insert_eq. intros [= <- <-].
  exists x, b, db''. split; [done |]. split; [done |]. split; [done |].
  split; [intros db0 Hdb0; rewrite Hdb in Hdb0; by injection Hdb0 as <- |].
  cbn [ob_surface ob_memory ob_refObjectDB ob_calls set_surface set_refObjectDB set_memory].
  by rewrite !insert_insert_eq.
Qed.

Lemma upload_keeps s r elem data o ret o' :
  holds_current o → upload s r elem data o = Done ret o' → holds_current o'.
Proof.
  intros [Htr Hco] Hrun. destruct (upload_run _ _ _ _ _ _ _ (tr_ids _ Htr) Hrun)
    as [-> | (x & b & db' & Hx & Hwf' & Hempty & Hsz & Hs & Hm & Hi & Hc)]; [done |].
  destruct Htr as [(ids & Hids & Hwfi & Hpos & Hall) Hdist Hpriv].
  assert (∀ s' x', ob_surface o' !! s' = Some x' →
    ∃ x'', ob_surface o !! s' = Some x'' ∧ sf_id x'' = sf_id x' ∧ sf_backing x'' = sf_backing x') as Hback.
  { intros s' x'. rewrite Hs. destruct (decide (s' = s)) as [-> | Hne].
    - rewrite lookup_insert_eq. intros [= <-]. by exists x.
    - rewrite lookup_insert_ne by done. by exists x'. }
  split; [split |].
  - exists ids. rewrite Hi. split; [done |]. split; [done |]. split; [done |]. intros s' x'. rewrite Hs.
    destruct (decide (s' = s)) as [-> | Hne]; [| rewrite lookup_insert_ne by done; apply Hall].
    rewrite lookup_insert_eq. intros [= <-]. destruct (Hall s x Hx) as (Hid & Hbit & db & Hdb & _ & Hszd).
    split; [done |]. split; [done |]. exists db'. split; [done |]. split; [done |]. rewrite <- Hszd. by apply Hsz.
  - intros s1 s2 x1 x2 (y1 & Hy1 & <- & _)%Hback (y2 & Hy2 & <- & _)%Hback. by apply Hdist.
  - intros s1 s2 x1 x2 (y1 & Hy1 & _ & <-)%Hback (y2 & Hy2 & _ & <-)%Hback. by apply Hpriv.
  - intros s' x' db cid. rewrite Hs, Hc. destruct (decide (s' = s)) as [-> | Hne].
    + rewrite lookup_insert_eq. intros [= <-] [= <-]. rewrite Hempty. set_solver.
    + rewrite lookup_insert_ne by done. intros Hx'. unfold contents. rewrite Hm, lookup_insert_ne by
        (intros Heq; apply Hne, eq_sym; by eapply Hpriv). exact (Hco s' x' db cid Hx').
Qed.

(** ** New surfaces *)

(** No surface has the backing. *)
Definition private_backing (backing : Z) o : Prop := ∀ s x, ob_surface o !! s = Some x → sf_backing x ≠ backing.

Lemma new_surface_keeps s q d backing o u o' :
  holds_current o → ob_surface o !! s = None → private_backing backing o → new_surface true true s q d backing o = Done u o' →
  (∀ x, ob_surface o' !! s = Some x → sf_id x ≠ NO_ID) →
  holds_current o' ∧
  ∃ x db, ob_surface o' !! s = Some x ∧ sf_backing x = backing ∧ sf_consistencyDB x = Live db ∧ used db = ∅.
Proof.
  intros [[(ids & Hids & Hwfi & Hpos & Hall) Hdist Hpriv] Hco] Hnew Hback Hrun Hid. unfold new_surface, alloc_id, on_ids, at_db in Hrun.
  revert Hrun. mrun. rewrite Hids. cbn [deref].
  destruct (IdentifierDB_AllocId ids) as [a ids' |] eqn:Halloc; [| done].
  destruct (AllocId_bits ids a ids' Hwfi Halloc) as [Hwf' Hcase]. pose proof (AllocId_size _ _ _ Hwfi Halloc) as Hsz.
  unfold get_max_ref_objects, on_ids, at_db. mrun. cbn [ob_refObjectDB set_refObjectDB deref].
  unfold IdentifierDB_Size. mrun. cbn [default]. intros Hrun. unfold put_surface in Hrun. revert Hrun. mrun. intros [= <- <-].
  cbn [ob_surface set_surface set_refObjectDB] in Hid.
  pose proof (wf_size ids' Hwf').
  destruct (IdentifierDB_Alloc true true (size ids')) as [db |] eqn:Hdb; [| done].
  destruct (Alloc_wf (size ids') db) as (Hwfd & Hszd & Hempty & _); [lia | done |].
  cbv [IdentifierDB_Alloc] in Hdb. injection Hdb as <-. specialize (Hid _ (lookup_insert_eq _ _ _)). cbn in Hid. destruct a as [id |]; [| done].
  destruct Hcase as (Hid0 & Hclear & Hset). cbn [default] in *.
  split; [| eexists _, _; split_and!; [apply lookup_insert_eq | done | done | done]]. split; [split |].
  - exists ids'. split; [done |]. split; [done |]. split; [lia |]. intros s' x'. cbn [ob_surface set_surface set_refObjectDB].
    destruct (decide (s' = s)) as [-> | Hne].
    + rewrite lookup_insert_eq. intros [= <-]. split; [done |]. split; [cbn; by rewrite Hset, Z.eqb_refl by done |].
      by eexists.
    + rewrite lookup_insert_ne by done. intros Hx'. destruct (Hall s' x' Hx') as (Hp & Hb & db1 & Hdb1 & Hw1 & Hs1).
      split; [done |]. split; [rewrite Hset, Hb by done; apply orb_true_r |]. exists db1. by rewrite Hsz.
  - assert (∀ s' x', ob_surface o !! s' = Some x' → sf_id x' ≠ id) as Hfresh.
    { intros s' x' Hx' Heq. destruct (Hall s' x' Hx') as (_ & Hb & _). rewrite Heq in Hb. congruence. }
    intros s1 s2 x1 x2. cbn [ob_surface set_surface set_refObjectDB].
    destruct (decide (s1 = s)) as [-> | Hn1], (decide (s2 = s)) as [-> | Hn2]; [done | | |].
    + rewrite lookup_insert_eq, lookup_insert_ne by done. intros [= <-] H2 Heq. by destruct (Hfresh s2 x2 H2).
    + rewrite lookup_insert_eq, lookup_insert_ne by done. intros H1 [= <-] Heq. by destruct (Hfresh s1 x1 H1).
    + rewrite !lookup_insert_ne by done. apply Hdist.
  - intros s1 s2 x1 x2. cbn [ob_surface set_surface set_refObjectDB].
    destruct (decide (s1 = s)) as [-> | Hn1], (decide (s2 = s)) as [-> | Hn2]; [done | | |].
    + rewrite lookup_insert_eq, lookup_insert_ne by done. intros [= <-] H2 Heq. by destruct (Hback s2 x2 H2).
    + rewrite lookup_insert_eq, lookup_insert_ne by done. intros H1 [= <-] Heq. by destruct (Hback s1 x1 H1).
    + rewrite !lookup_insert_ne by done. apply Hpriv.
  - intros s' x' db' cid. cbn [ob_surface ob_calls set_surface set_refObjectDB].
    destruct (decide (s' = s)) as [-> | Hne].
    + rewrite lookup_insert_eq. intros [= <-] [= <-]. rewrite Hempty. set_solver.
    + rewrite lookup_insert_ne by done. apply Hco.
Qed.

(** Memory behind a surface that is marked consistent nowhere. *)
Lemma unmarked_memory_keeps o s x db b :
  holds_current o → ob_surface o !! s = Some x → sf_consistencyDB x = Live db → used db = ∅ →
  holds_current (set_memory (<[sf_backing x := b]> (ob_memory o)) o).
Proof.
  intros [[Hids Hdist Hpriv] Hco] Hx Hdb Hempty. split; [done |]. intros s' x' db' cid Hx' Hdb' Hcid.
  cbn [ob_surface ob_calls set_memory] in *. unfold contents. cbn [ob_memory set_memory].
  destruct (decide (s' = s)) as [-> | Hne].
  - rewrite Hx in Hx'. injection Hx' as <-. rewrite Hdb in Hdb'. injection Hdb' as <-. by rewrite Hempty in Hcid.
  - rewrite lookup_insert_ne by (intros Heq; apply Hne, eq_sym; by eapply Hpriv). by eapply Hco.
Qed.

Lemma new_surface_backed_keeps s q d backing junk o u o' :
  holds_current o → ob_surface o !! s = None → private_backing backing o →
  new_surface_backed true true s q d backing junk o = Done u o' →
  (∀ x, ob_surface o' !! s = Some x → sf_id x ≠ NO_ID) → holds_current o'.
Proof.
  intros Hinv Hnew Hback Hrun Hid. apply bind_inv in Hrun as (u1 & o1 & Hrun & [= <- <-]).
  destruct (new_surface_keeps _ _ _ _ _ _ _ Hinv Hnew Hback Hrun Hid) as [Hinv1 (x & db & Hx & <- & Hdb & Hempty)].
  by eapply unmarked_memory_keeps.
Qed.

(** ** What the application can do *)

(** The operations that move contents towards the contexts.  A surface is made
    with a backing of its own. *)
Inductive app_step : process → process → Prop :=
| app_new o s q d backing u o' :
    ob_surface o !! s = None → private_backing backing o → new_surface true true s q d backing o = Done u o' →
    (∀ x, ob_surface o' !! s = Some x → sf_id x ≠ NO_ID) → app_step o o'
| app_new_backed o s q d backing junk u o' :
    ob_surface o !! s = None → private_backing backing o →
    new_surface_backed true true s q d backing junk o = Done u o' →
    (∀ x, ob_surface o' !! s = Some x → sf_id x ≠ NO_ID) → app_step o o'
| app_write o s r elem data ret o' : upload s r elem data o = Done ret o' → app_step o o'
| app_alloc o junk c s b o' : alloc_surface junk c s o = Done b o' → app_step o o'
| app_send o c s force flush qid b o' :
    unsigned_ids o → ob_dataStreaming o = false → upload_surface c s force flush qid o = Done b o' → app_step o o'
| app_fill o junk c qid s r e f u o' :
    unsigned_ids o → fill_surface junk c qid s r e f o = Done u o' → app_step o o'
| app_copy o junk c qid src sr dst dr u o' :
    unsigned_ids o → copy_surface junk c qid src sr dst dr o = Done u o' → app_step o o'
| app_destroy o c id u o' : destroy_surface c id o = Done u o' → app_step o o'.

Lemma app_step_keeps o o' : holds_current o → app_step o o' → holds_current o'.
Proof.
  intros Hinv Hstep. destruct Hstep.
  - by eapply new_surface_keeps.
  - by eapply new_surface_backed_keeps.
  - by eapply upload_keeps.
  - by eapply quiet_keeps; [apply quiet_alloc_surface | ..].
  - by eapply upload_surface_keeps.
  - by eapply fill_surface_keeps.
  - by eapply copy_surface_keeps.
  - by eapply quiet_keeps; [apply quiet_destroy_surface | ..].
Qed.

Lemma app_reach_keeps o o' : holds_current o → rtc app_step o o' → holds_current o'.
Proof. intros Hinv Hr. induction Hr as [| o1 o2 o3 Hstep _ IH]; [done |]. by apply IH, (app_step_keeps o1). Qed.

(** A process without surfaces that has made no call. *)
Definition started (n : Z) o : Prop :=
  0 < n ≤ 4294967264 ∧ IdentifierDB_Alloc true true n = deref (ob_refObjectDB o) ∧ ob_surface o = ∅ ∧ ob_calls o = [].

Lemma started_current n o : started n o → holds_current o.
Proof.
  intros (Hn & Hids & Hs & Hc). destruct (IdentifierDB_Alloc true true n) as [ids |] eqn:Halloc; [| done].
  symmetry in Hids. apply deref_Live in Hids. destruct (Alloc_wf n ids) as (Hwf & Hsz & _); [lia | done |].
  split; [split |].
  - exists ids. split; [done |]. split; [done |]. split; [lia |]. rewrite Hs. intros s x Hx. by rewrite lookup_empty in Hx.
  - rewrite Hs. intros s1 s2 x1 x2 Hx. by rewrite lookup_empty in Hx.
  - rewrite Hs. intros s1 s2 x1 x2 Hx. by rewrite lookup_empty in Hx.
  - intros s x db cid Hx. by rewrite Hs, lookup_empty in Hx.
Qed.

(** (C21) Without data streaming, with a backing of its own for each surface, and
    however the application makes and writes surfaces and allocates, sends,
    fills, copies and destroys them in its contexts: in a context that is marked
    consistent with a surface, the last call that wrote to the surface there was
    an answered transfer, and it carried the surface's current generation and
    bytes.  Whether the server accepted the transfer, or has since destroyed and
    reallocated the surface, the mark does not say. *)
Theorem marked_last_written n o o' s x db cid :
  started n o → rtc app_step o o' →
  ob_surface o' !! s = Some x → sf_consistencyDB x = Live db → cid ∈ used db →
  last_write (ob_calls o') cid (sf_id x) = Some (Sent (sf_generation x) (contents o' x)).
Proof.
  intros Hst Hr. destruct (app_reach_keeps o o' (started_current n o Hst) Hr) as [_ Hco]. apply Hco.
Qed.
End Coherence.
