(* ===== verification/Lifecycle.v ===== *)
(** * Contexts and operations of the object layer

    Every transfer gives the context's mutex back; a download leaves the marks
    of other contexts standing; the dispatch of an operation retries a bounded
    number of times. *)

From S2P Require Import Prelude IdentifierDB XdrRuntime XdrRFC4506 RpcTypes Backend SunRPC Protocol Address Objects Operations Coherence.
Open Scope Z_scope.
Open Scope list_scope.

Section Lifecycle.
Context `{VMCL}.
Implicit Types (o : process).

(** What a check or a checked access leaves behind. *)
Lemma assert_inv (b : bool) o (u : unit) o' : assert b o = Done u o' → o' = o.
Proof. destruct b; [| done]. by intros [= _ <-]. Qed.

Lemma access_inv {A} (v : option A) o a o' : access v o = Done a o' → o' = o.
Proof. destruct v; [| done]. by intros [= _ <-]. Qed.

(** ** The mutexes of the contexts *)

Definition mutexes_of o : gmap Z bool := cx_m <$> ob_clcontext o.

Definition same_mutexes o o' : Prop := mutexes_of o' = mutexes_of o.

#[export] Instance same_mutexes_preorder : PreOrder same_mutexes.
Proof. split; [done |]. intros o1 o2 o3 H1 H2. exact (eq_trans H2 H1). Qed.

#[local] Abbreviation same_m := (within same_mutexes).

(** Returns with the mutex of [c] free and the others as they were. *)
Definition frees_m {A} (c : Z) (m : OM A) : Prop := ∀ o a o',
  m o = Done a o' → mutexes_of o' = <[c := false]> (mutexes_of o).

Lemma same_modify (f : process → process) : (∀ o, ob_clcontext (f o) = ob_clcontext o) → same_m (modify f).
Proof. intros Hf o a o' [= <- <-]. unfold same_mutexes, mutexes_of. by rewrite Hf. Qed.

Lemma same_fabric {A} (m : M fabric A) : same_m (on_fabric m).
Proof. by apply within_fabric. Qed.

Lemma put_context_mutexes o c cx : mutexes_of (set_clcontext (<[c := cx]> (ob_clcontext o)) o) = <[c := cx_m cx]> (mutexes_of o).
Proof. unfold mutexes_of. cbn [ob_clcontext set_clcontext]. by rewrite fmap_insert. Qed.

Lemma mutexes_lookup o c cx : ob_clcontext o !! c = Some cx → mutexes_of o !! c = Some (cx_m cx).
Proof. intros Hcx. unfold mutexes_of. by rewrite lookup_fmap, Hcx. Qed.

Lemma same_on_residency {A} c (m : M IdentifierDB A) : same_m (on_residency c m).
Proof.
  intros o a o' Hrun. unfold on_residency in Hrun. apply bind_inv in Hrun as (cx & o1 & Hcx & Hrun).
  apply the_context_inv in Hcx as [Hcx ->]. apply bind_inv in Hrun as ([a1 p] & o1 & Hdb & Hrun).
  destruct (at_db_inv _ _ _ _ _ _ Hdb) as [-> _].
  apply bind_inv in Hrun as (u & o2 & [= _ <-] & [= _ <-]). red. rewrite put_context_mutexes. cbn.
  apply insert_id. by rewrite (mutexes_lookup o c cx).
Qed.

Lemma frees_unlock c : frees_m c (unlock c).
Proof.
  intros o u o' Hrun. apply bind_inv in Hrun as (cx & o1 & Hcx & Hrun). apply the_context_inv in Hcx as [Hcx ->].
  injection Hrun as <- <-. by rewrite put_context_mutexes.
Qed.

Lemma frees_after {A B} c (m : OM A) (f : A → OM B) : same_m m → (∀ a, frees_m c (f a)) → frees_m c (m ≫= f).
Proof.
  intros Hm Hf o b o' Hrun. apply bind_inv in Hrun as (a & o1 & H1 & H2). by rewrite (Hf _ _ _ _ H2), (Hm _ _ _ H1).
Qed.

Lemma frees_then {A B} c (m : OM A) (f : A → OM B) : frees_m c m → (∀ a, same_m (f a)) → frees_m c (m ≫= f).
Proof.
  intros Hm Hf o b o' Hrun. apply bind_inv in Hrun as (a & o1 & H1 & H2). by rewrite (Hf _ _ _ _ H2), (Hm _ _ _ H1).
Qed.

Lemma frees_throw {A} c f : frees_m c (throw f : OM A).
Proof. by intros o a o' ?. Qed.

(** A critical section. *)
Lemma same_locked {A} c (k : OM A) : frees_m c k → same_m (_ ← lock c; k).
Proof.
  intros Hk o a o' Hrun. apply bind_inv in Hrun as (u & o1 & Hlock & Hrun).
  apply bind_inv in Hlock as (cx & o2 & Hcx & Hlock). apply the_context_inv in Hcx as [Hcx ->].
  destruct (cx_m cx) eqn:Hm; [done |]. injection Hlock as <- <-. red. rewrite (Hk _ _ _ Hrun), put_context_mutexes. cbn.
  rewrite insert_insert_eq. apply insert_id. by rewrite (mutexes_lookup o c cx), Hm.
Qed.

Ltac same :=
  repeat first
    [ apply same_fabric | apply same_on_residency | (apply same_modify; intros; reflexivity) | within_steps ].

Lemma same_stub c p arg : same_m (stub c p arg).
Proof. unfold stub, the_context. same. Qed.
Lemma same_on_consistency {A} s (m : M IdentifierDB A) : same_m (on_consistency s m).
Proof. unfold on_consistency, the_surface, put_surface. same. Qed.
Lemma same_set_residency c id b : same_m (set_residency c id b).
Proof. unfold set_residency. same. Qed.
Lemma same_set_consistency s id b : same_m (set_consistency s id b).
Proof. unfold set_consistency. destruct b; [frame within_bind; [apply same_on_consistency | intros; frame within_ret] | apply same_on_consistency]. Qed.
Lemma same_flush_queue c qid : same_m (flush_queue c qid).
Proof. unfold flush_queue. frame within_bind; [frame within_the_context | intros]. frame within_bind; [apply same_stub | intros; same]. Qed.

(** The same, for the building blocks of the transfers. *)
Ltac same_blocks :=
  repeat first
    [ apply same_stub | apply same_on_consistency
    | apply same_set_residency | apply same_set_consistency | apply same_flush_queue
    | progress unfold is_resident, is_consistent, map_result, read_status, backing_bytes, the_backing, put_backing, drop_consistency, mod_surface, put_surface
    | progress same | intros ? ].

Lemma same_upload_by_map c s qid x cid : same_m (upload_by_map c s qid x cid).
Proof. unfold upload_by_map. same_blocks. Qed.
Lemma same_upload_by_stream s qid x cid : same_m (upload_by_stream s qid x cid).
Proof. unfold upload_by_stream. same_blocks. Qed.
Lemma same_upload_by_image c s qid x cid fl : same_m (upload_by_image c s qid x cid fl).
Proof. unfold upload_by_image. same_blocks. Qed.
Lemma same_download_by_map c s qid x cid : same_m (download_by_map c s qid x cid).
Proof. unfold download_by_map. same_blocks. Qed.
Lemma same_download_by_image c s qid x cid : same_m (download_by_image c s qid x cid).
Proof. unfold download_by_image. same_blocks. Qed.

Ltac freeing :=
  repeat first
    [ apply frees_unlock | apply frees_throw
    | (apply frees_then; [apply frees_unlock | intros; frame within_ret])
    | (apply frees_after; [solve [same_blocks] | intros ?])
    | case_match ].

Lemma same_alloc_surface junk c s : same_m (alloc_surface junk c s).
Proof. unfold alloc_surface. apply same_locked. freeing. Qed.

Lemma same_upload_surface c s force flush qid : same_m (upload_surface c s force flush qid).
Proof.
  unfold upload_surface. apply same_locked. do 3 (apply frees_after; [same_blocks | intros ?]). case_match; [freeing |].
  apply frees_after; [same | intros ?]. apply frees_after; [| intros ?; freeing].
  repeat case_match; first [apply same_upload_by_image | apply same_upload_by_map | apply same_upload_by_stream | frame within_throw].
Qed.

Lemma same_download_surface c s force img qid : same_m (download_surface c s force img qid).
Proof.
  unfold download_surface. apply same_locked. do 2 (apply frees_after; [same_blocks | intros ?]).
  apply frees_after; [| intros ?; freeing].
  repeat case_match; first [apply same_download_by_map | apply same_download_by_image | frame within_ret].
Qed.

Lemma same_fill_surface junk c qid s r e f : same_m (fill_surface junk c qid s r e f).
Proof. unfold fill_surface. frame within_bind; [same_blocks | intros x]. apply same_locked. freeing. Qed.

Lemma same_copy_surface junk c qid src sr dst dr : same_m (copy_surface junk c qid src sr dst dr).
Proof.
  unfold copy_surface. do 2 (frame within_bind; [same_blocks | intros ?]). apply same_locked. freeing.
Qed.

Lemma same_destroy_surface c id : same_m (destroy_surface c id).
Proof. unfold destroy_surface. apply same_locked. freeing. Qed.

(** The requests of a context. *)
Inductive context_request : Type :=
| AllocSurface (junk : VMAccelSurfaceId) (s : Z)
| UploadSurface (s : Z) (force flush : bool) (qid : Z)
| DownloadSurface (s : Z) (force img : bool) (qid : Z)
| FillSurface (junk : VMCLImageFillOp) (qid s : Z) (r : VMAccelSurfaceRegion) (element format : Z)
| CopySurface (junk : VMCLSurfaceCopyOp) (qid src : Z) (sr : VMAccelSurfaceRegion) (dst : Z) (dr : VMAccelSurfaceRegion)
| DestroySurface (id : Z).

(** A request and what it answers, if it has an answer. *)
Definition run_request (c : Z) (q : context_request) : OM bool :=
  match q with
  | AllocSurface junk s => alloc_surface junk c s
  | UploadSurface s force flush qid => upload_surface c s force flush qid
  | DownloadSurface s force img qid => download_surface c s force img qid
  | FillSurface junk qid s r e f => _ ← fill_surface junk c qid s r e f; mret true
  | CopySurface junk qid src sr dst dr => _ ← copy_surface junk c qid src sr dst dr; mret true
  | DestroySurface id => _ ← destroy_surface c id; mret true
  end.

(** (C24) A request of a context that returns, on any of its paths, leaves the
    mutexes of all contexts as they were. *)
Theorem context_mutex_balanced c q o a o' :
  run_request c q o = Done a o' → mutexes_of o' = mutexes_of o.
Proof.
  enough (same_m (run_request c q)) as Hsame by apply Hsame. destruct q; cbn [run_request].
  - apply same_alloc_surface.
  - apply same_upload_surface.
  - apply same_download_surface.
  - frame within_bind; [apply same_fill_surface | intros; frame within_ret].
  - frame within_bind; [apply same_copy_surface | intros; frame within_ret].
  - frame within_bind; [apply same_destroy_surface | intros; frame within_ret].
Qed.

(** ** Downloads *)

Lemma download_by_map_inv c s qid x cid o a o' :
  download_by_map c s qid x cid o = Done a o' →
  ob_surface o' = ob_surface o ∧
  (∀ cid' sid, cid' ≠ cid → last_write (ob_calls o') cid' sid = last_write (ob_calls o) cid' sid).
Proof.
  intros Hrun. apply bind_inv in Hrun as (u & o1 & Hass & Hrun).
  apply assert_inv in Hass as ->.
  apply bind_inv in Hrun as ([r arg] & o1 & Hmap & Hrun).
  destruct (quiet_stub c VMCL_SURFACEMAP _ eq_refl _ _ _ Hmap) as (Hs1 & _ & _ & Ht1).
  apply bind_inv in Hrun as (m & o2 & Hm & Hrun). destruct (quiet_map_result _ _ _ _ Hm) as (Hs2 & _ & _ & Ht2).
  assert (ob_surface o2 = ob_surface o) as Hs by congruence.
  assert (∀ cid' sid, last_write (ob_calls o2) cid' sid = last_write (ob_calls o) cid' sid) as Ht.
  { intros cid' sid. by rewrite Ht2, Ht1. }
  destruct m as [ptr |]; [| by injection Hrun as <- <-].
  apply bind_inv in Hrun as (u1 & o3 & Hass' & Hrun).
  apply assert_inv in Hass' as ->.
  apply bind_inv in Hrun as (dst & o3 & Hdst & Hrun). apply the_backing_inv in Hdst as [_ ->].
  apply bind_inv in Hrun as (b & o3 & Hb & Hrun).
  apply access_inv in Hb as ->.
  apply bind_inv in Hrun as (u2 & o3 & [= _ <-] & Hrun).
  apply bind_inv in Hrun as ([r' arg'] & o4 & Hun & [= <- <-]).
  destruct (stub_inv c VMCL_SURFACEUNMAP _ _ _ _ _ Hun) as (Hs4 & _ & _ & Hc4). split; [by rewrite Hs4 |].
  intros cid' sid Hne. rewrite Hc4, last_write_app. cbn [ob_calls set_memory write_of].
  destruct r' as [r' |]; [| apply Ht]. cbn [unmap_op VMCLSurfaceUnmapOp_queue VMCLQueueId_cid].
  destruct (Z.eqb_spec cid cid'); [done |]. cbn [andb]. apply Ht.
Qed.

(** (C25) A download changes the surface's bytes and leaves the marks of the other
    contexts standing: a context that was marked consistent still is, although
    it was last sent the old bytes. *)
Theorem download_leaves_stale c s force qid o a o' x x' db cx cid :
  coherent o → ob_surface o !! s = Some x → sf_consistencyDB x = Live db →
  ob_clcontext o !! c = Some cx → cid ∈ used db → cid ≠ cx_contextId cx →
  download_surface c s force false qid o = Done a o' →
  ob_surface o' !! s = Some x' → contents o' x' ≠ contents o x →
  sf_consistencyDB x' = Live db ∧ sf_generation x' = sf_generation x ∧
  last_write (ob_calls o') cid (sf_id x') = Some (Sent (sf_generation x) (contents o x)).
Proof.
  intros Hco Hx Hdb Hcx Hcid Hne Hrun Hx' Hdiff. unfold download_surface in Hrun.
  apply bind_inv in Hrun as (u & o1 & Hlock & Hrun). destruct (quiet_lock _ _ _ _ Hlock) as (Hs1 & _ & _ & Ht1).
  apply bind_inv in Hrun as (x1 & o2 & Hx1 & Hrun). apply the_surface_inv in Hx1 as [Hx1 ->].
  rewrite Hs1, Hx in Hx1. injection Hx1 as <-.
  apply bind_inv in Hrun as (cx1 & o2 & Hcx1 & Hrun). apply the_context_inv in Hcx1 as [Hcx1 ->].
  assert (cx_contextId cx1 = cx_contextId cx) as Hid.
  { apply bind_inv in Hlock as (cx2 & o2 & Hcx2 & Hput). apply the_context_inv in Hcx2 as [Hcx2 ->].
    rewrite Hcx in Hcx2. injection Hcx2 as <-. destruct (cx_m cx); [done |]. injection Hput as <- <-.
    cbn [ob_clcontext set_clcontext] in Hcx1. rewrite lookup_insert_eq in Hcx1. by injection Hcx1 as <-. }
  apply bind_inv in Hrun as (r & o2 & Hdown & Hrun). apply bind_inv in Hrun as (u1 & o3 & Hunlock & [= _ <-]).
  destruct (quiet_unlock _ _ _ _ Hunlock) as (Hs3 & _ & _ & Ht3). rewrite Hs3 in Hx'.
  assert (last_write (ob_calls o) cid (sf_id x) = Some (Sent (sf_generation x) (contents o x))) as Hlast by by eapply Hco.
  cbn [negb andb] in Hdown.
  assert (ob_surface o2 = ob_surface o ∧ last_write (ob_calls o2) cid (sf_id x) = last_write (ob_calls o) cid (sf_id x))
    as [Hs2 Ht2].
  { destruct (negb (_ =? _) || force).
    - apply download_by_map_inv in Hdown as [Hs2 Ht2]. split; [congruence |]. rewrite Ht2, Ht1; [done | congruence].
    - injection Hdown as <- <-. by rewrite Hs1, Ht1. }
  rewrite Hs2, Hx in Hx'. injection Hx' as <-. by rewrite Ht3, Ht2.
Qed.

(** ** Marks that outlive what they stand for *)

Definition context_ids o : gmap Z Z := cx_contextId <$> ob_clcontext o.

Definition same_context_ids o o' : Prop := context_ids o' = context_ids o.

#[export] Instance same_context_ids_preorder : PreOrder same_context_ids.
Proof. split; [done |]. intros o1 o2 o3 H1 H2. exact (eq_trans H2 H1). Qed.

#[local] Abbreviation same_ids := (within same_context_ids).

Lemma same_ids_put o c cx v :
  ob_clcontext o !! c = Some cx → cx_contextId v = cx_contextId cx →
  same_context_ids o (set_clcontext (<[c := v]> (ob_clcontext o)) o).
Proof.
  intros Hcx Hid. red. unfold context_ids. cbn [ob_clcontext set_clcontext]. rewrite fmap_insert, Hid.
  apply insert_id. by rewrite lookup_fmap, Hcx.
Qed.

Lemma same_ids_lock c : same_ids (lock c).
Proof.
  intros o u o' Hrun. apply bind_inv in Hrun as (cx & o1 & Hcx & Hrun). apply the_context_inv in Hcx as [Hcx ->].
  destruct (cx_m cx); [done |]. injection Hrun as <- <-. by eapply same_ids_put.
Qed.

Lemma same_ids_unlock c : same_ids (unlock c).
Proof.
  intros o u o' Hrun. apply bind_inv in Hrun as (cx & o1 & Hcx & Hrun). apply the_context_inv in Hcx as [Hcx ->].
  injection Hrun as <- <-. by eapply same_ids_put.
Qed.

Lemma same_ids_residency {A} c (m : M IdentifierDB A) : same_ids (on_residency c m).
Proof.
  intros o a o' Hrun. unfold on_residency in Hrun. apply bind_inv in Hrun as (cx & o1 & Hcx & Hrun).
  apply the_context_inv in Hcx as [Hcx ->]. apply bind_inv in Hrun as ([a1 p] & o1 & Hdb & Hrun).
  destruct (at_db_inv _ _ _ _ _ _ Hdb) as [-> _].
  apply bind_inv in Hrun as (u & o2 & [= _ <-] & [= _ <-]). by eapply same_ids_put.
Qed.

Lemma same_ids_stub c p arg : same_ids (stub c p arg).
Proof.
  unfold stub, the_context.
  repeat first [by apply within_fabric | (intros ? ? ? [= _ <-]; reflexivity) | within_steps].
Qed.

(** Goes through an operation's steps. *)
Ltac same_ids_steps :=
  repeat first [ apply same_ids_lock | apply same_ids_unlock | apply same_ids_residency | apply same_ids_stub
               | progress unfold is_resident, set_residency | within_steps ].

Lemma same_ids_alloc_surface junk c s : same_ids (alloc_surface junk c s).
Proof. unfold alloc_surface. same_ids_steps. Qed.

Lemma same_ids_destroy_surface c id : same_ids (destroy_surface c id).
Proof. unfold destroy_surface. same_ids_steps. Qed.

Lemma is_consistent_run s cid o x db :
  ob_surface o !! s = Some x → sf_consistencyDB x = Live db → IdentifierDB.wf db → cid ∈ used db →
  is_consistent s cid o = Done true o.
Proof.
  intros Hx Hdb Hwf Hcid. unfold is_consistent, on_consistency, the_surface, at_db, put_surface, IdentifierDB_ActiveId. mrun.
  rewrite Hx, Hdb. cbn [deref]. rewrite ActiveId_eq by (done || apply elem_of_used in Hcid; lia). rewrite bool_decide_eq_true_2 by done.
  f_equal. rewrite (insert_id (ob_surface o) s); [by destruct o |]. rewrite Hx. f_equal. destruct x; cbn in *. by subst.
Qed.

(** An upload to a context that is marked consistent makes no call. *)
Lemma marked_upload_skipped c s flush qid o b o' x db cx :
  ob_surface o !! s = Some x → sf_consistencyDB x = Live db → IdentifierDB.wf db →
  ob_clcontext o !! c = Some cx → cx_contextId cx ∈ used db →
  upload_surface c s false flush qid o = Done b o' → b = true ∧ ob_calls o' = ob_calls o.
Proof.
  intros Hx Hdb Hwf Hcx Hcid Hrun. unfold upload_surface in Hrun.
  apply bind_inv in Hrun as (u & o1 & Hlock & Hrun). destruct (quiet_lock _ _ _ _ Hlock) as (Hs1 & _ & _ & _).
  assert (ob_calls o1 = ob_calls o ∧ ob_clcontext o1 !! c = Some (set_m true cx)) as [Hc1 Hcx1].
  { apply bind_inv in Hlock as (cx1 & o2 & Hcx1 & Hput). apply the_context_inv in Hcx1 as [Hcx1 ->].
    rewrite Hcx in Hcx1. injection Hcx1 as <-. destruct (cx_m cx); [done |]. injection Hput as <- <-.
    split; [done |]. apply lookup_insert_eq. }
  apply bind_inv in Hrun as (x1 & o2 & Hx1 & Hrun). apply the_surface_inv in Hx1 as [_ ->].
  apply bind_inv in Hrun as (cx2 & o2 & Hcx2 & Hrun). apply the_context_inv in Hcx2 as [Hcx2 ->].
  rewrite Hcx1 in Hcx2. injection Hcx2 as <-. change (cx_contextId (set_m true cx)) with (cx_contextId cx) in Hrun.
  rewrite <- Hs1 in Hx. rewrite (bind_run _ _ _ _ _ (is_consistent_run s (cx_contextId cx) o1 x db Hx Hdb Hwf Hcid)) in Hrun.
  apply bind_inv in Hrun as (u1 & o3 & Hun & [= <- <-]). split; [done |]. rewrite <- Hc1.
  apply bind_inv in Hun as (cx2 & o4 & Hcx2 & Hput). apply the_context_inv in Hcx2 as [_ ->]. by injection Hput as <- <-.
Qed.

(** Destroying a surface in a context and allocating it again leaves the
    context's mark: the upload after it is skipped, and the new surface of the
    server is never sent the bytes. *)
Theorem reallocated_not_sent junk c s flush qid o o1 o2 o3 b r u x db cx :
  tracked o → ob_surface o !! s = Some x → sf_consistencyDB x = Live db → ob_clcontext o !! c = Some cx →
  cx_contextId cx ∈ used db →
  destroy_surface c (sf_id x) o = Done u o1 → alloc_surface junk c s o1 = Done b o2 →
  upload_surface c s false flush qid o2 = Done r o3 → r = true ∧ ob_calls o3 = ob_calls o2.
Proof.
  intros Htr Hx Hdb Hcx Hcid Hdestroy Halloc Hup.
  destruct (quiet_destroy_surface _ _ _ _ _ Hdestroy) as [Hs1 _].
  destruct (quiet_alloc_surface _ _ _ _ _ _ Halloc) as [Hs2 _].
  destruct (surface_db o s x Htr Hx) as (db' & Hdb' & Hwf). rewrite Hdb in Hdb'. injection Hdb' as <-.
  assert (∃ cx2, ob_clcontext o2 !! c = Some cx2 ∧ cx_contextId cx2 = cx_contextId cx) as (cx2 & Hcx2 & Heq).
  { pose proof (same_ids_destroy_surface _ _ _ _ _ Hdestroy) as H1. pose proof (same_ids_alloc_surface _ _ _ _ _ _ Halloc) as H2.
    assert (context_ids o2 !! c = Some (cx_contextId cx)) as H3.
    { rewrite H2, H1. unfold context_ids. by rewrite lookup_fmap, Hcx. }
    unfold context_ids in H3. rewrite lookup_fmap in H3. by apply fmap_Some in H3 as (cx2 & ? & ?); exists cx2. }
  eapply (marked_upload_skipped c s flush qid o2 r o3 x db cx2); [congruence | done | done | done | congruence | done].
Qed.

(** A write through one of two surfaces over the same backing takes away that
    surface's marks only: a context marked consistent with the other one was
    last sent the old bytes. *)
Theorem shared_write_leaves_stale s1 s2 r elem data o a o' x1 x2 db cid :
  ids_tracked o → coherent o → s1 ≠ s2 → ob_surface o !! s1 = Some x1 → ob_surface o !! s2 = Some x2 →
  sf_backing x1 = sf_backing x2 → sf_consistencyDB x2 = Live db → cid ∈ used db →
  upload s1 r elem data o = Done a o' → contents o' x2 ≠ contents o x2 →
  ob_surface o' !! s2 = Some x2 ∧
  last_write (ob_calls o') cid (sf_id x2) = Some (Sent (sf_generation x2) (contents o x2)).
Proof.
  intros Htr Hco Hne Hx1 Hx2 Hshared Hdb Hcid Hrun Hdiff.
  destruct (upload_run _ _ _ _ _ _ _ Htr Hrun) as [-> | (x & b & db' & Hx & _ & _ & _ & Hs & _ & _ & Hc)]; [done |].
  rewrite Hs, lookup_insert_ne, Hc by done. split; [done |]. by eapply Hco.
Qed.

(** ** The retries of a dispatch *)

(** The statuses of the dispatch calls among [es]; [None] was not answered. *)
Definition attempt (e : event) : option (option Z) :=
  match e with
  | Event VMCL_DISPATCH _ ret => Some (ret ≫= λ r, VMAccelStatus_status <$> VMAccelReturnStatus_ret r)
  | _ => None
  end.

Definition attempts (es : list event) : list (option Z) := omap attempt es.

(** Not answered, or answered that the resource is unavailable. *)
Definition busy (a : option Z) : Prop := a = None ∨ a = Some VMACCEL_RESOURCE_UNAVAILABLE.

(** Every call returns, and an answered dispatch has a status. *)
Definition calls_return : Prop :=
  (∀ p a clnt f, ∃ r a' f', vmcl_2 p a clnt f = Done (r, a') f') ∧
  (∀ a clnt f w a' f', vmcl_2 VMCL_DISPATCH a clnt f = Done (Some w, a') f' → is_Some (VMAccelReturnStatus_ret w)).

Lemma stub_returns c p arg o : calls_return → is_Some (ob_clcontext o !! c) →
  ∃ r arg' o', stub c p arg o = Done (r, arg') o' ∧ ob_clcontext o' = ob_clcontext o ∧
    ob_calls o' = ob_calls o ++ [Event p arg r] ∧ ∃ clnt f', vmcl_2 p arg clnt (ob_fabric o) = Done (r, arg') f'.
Proof.
  intros [Hret _] [cx Hcx]. destruct (Hret p arg (cx_clnt cx) (ob_fabric o)) as (r & arg' & f' & Hrun).
  unfold stub, the_context, on_fabric, zoom. mrun. rewrite Hcx, Hrun. eexists r, arg', _. split; [done |].
  split; [done |]. split; [done |]. by exists (cx_clnt cx), f'.
Qed.

Lemma flush_returns c qid o : calls_return → is_Some (ob_clcontext o !! c) →
  ∃ b o' e, flush_queue c qid o = Done b o' ∧ ob_clcontext o' = ob_clcontext o ∧ ob_calls o' = ob_calls o ++ [e] ∧ attempt e = None.
Proof.
  intros Hret [cx Hcx]. unfold flush_queue.
  destruct (stub_returns c VMCL_QUEUEFLUSH (mkVMCLQueueId (cx_contextId cx) qid) o Hret) as (r & arg' & o' & Hs & Hc & He & _); [by exists cx |].
  eexists _, o', _. split; [| by split].
  unfold the_context. rewrite (bind_run _ _ o cx o); [| unfold mbind, M_bind, get, access; by rewrite Hcx].
  by rewrite (bind_run _ _ _ _ _ Hs).
Qed.

(** What the loop ends with, from the status [res] and with [n] attempts. *)
Definition retried (n : nat) (res : Z) (as_ : list (option Z)) (r : Z) : Prop :=
  if res =? VMACCEL_RESOURCE_UNAVAILABLE then
    (∃ pre, as_ = pre ++ [Some r] ∧ r ≠ VMACCEL_RESOURCE_UNAVAILABLE ∧ Forall busy pre ∧ (length as_ ≤ n)%nat) ∨
    (r = VMACCEL_RESOURCE_UNAVAILABLE ∧ length as_ = n ∧ Forall busy as_)
  else as_ = [] ∧ r = res.

Lemma retried_next n res a as_ r :
  retried n res as_ r → a = Some res ∨ a = None ∧ res = VMACCEL_RESOURCE_UNAVAILABLE →
  retried (S n) VMACCEL_RESOURCE_UNAVAILABLE (a :: as_) r.
Proof.
  unfold retried. rewrite (Z.eqb_refl VMACCEL_RESOURCE_UNAVAILABLE).
  destruct (Z.eqb_spec res VMACCEL_RESOURCE_UNAVAILABLE) as [-> | Hne].
  - intros Hr Ha. assert (busy a) as Hb by (destruct Ha as [-> | [-> _]]; [by right | by left]).
    destruct Hr as [(pre & -> & Hr & Hall & Hlen) | (-> & Hlen & Hall)].
    + left. exists (a :: pre). repeat split; [done | by constructor | simpl in *; lia].
    + right. repeat split; [simpl; lia | by constructor].
  - intros [-> ->] [-> | [_ ?]]; [| done]. left. exists []. repeat split; [done | constructor | simpl; lia].
Qed.

Lemma dispatch_loop_returns c q arg n : calls_return → ∀ res o, is_Some (ob_clcontext o !! c) →
  ∃ r o' es, dispatch_loop n c q arg res o = Done r o' ∧ ob_calls o' = ob_calls o ++ es ∧
    retried n res (attempts es) r.
Proof.
  intros Hret. induction n as [| n IH]; intros res o Hc; cbn [dispatch_loop].
  - exists res, o, []. split; [done |]. rewrite app_nil_r. split; [done |]. unfold retried.
    destruct (Z.eqb_spec res VMACCEL_RESOURCE_UNAVAILABLE) as [-> |]; [| done]. right. repeat constructor.
  - destruct (Z.eqb_spec res VMACCEL_RESOURCE_UNAVAILABLE) as [-> | Hne]; cbn [negb].
    2: { exists res, o, []. split; [done |]. rewrite app_nil_r. split; [done |]. unfold retried.
         by destruct (Z.eqb_spec res VMACCEL_RESOURCE_UNAVAILABLE). }
    destruct (stub_returns c VMCL_DISPATCH arg o Hret Hc) as (ret & arg' & o1 & Hs & Hc1 & He1 & clnt & f' & Hf).
    rewrite (bind_run _ _ _ _ _ Hs). destruct ret as [w |].
    + destruct (proj2 Hret _ _ _ _ _ _ Hf) as [st Hst].
      destruct (flush_returns c q o1 Hret) as (b & o2 & e & Hfl & Hc2 & He2 & Hae); [by rewrite Hc1 |].
      destruct (IH (VMAccelStatus_status st) o2) as (r & o' & es & Hrun & He & Hr); [by rewrite Hc2, Hc1 |].
      exists r, o', ([Event VMCL_DISPATCH arg (Some w); e] ++ es). split; [| split].
      * unfold read_status. mrun. rewrite Hst, Hfl. exact Hrun.
      * by rewrite He, He2, He1, <- !app_assoc.
      * unfold attempts. cbn [app omap list_omap attempt]. rewrite Hae. cbn [mbind option_bind]. rewrite Hst. cbn.
        apply (retried_next n (VMAccelStatus_status st)); [done | by left].
    + destruct (IH VMACCEL_RESOURCE_UNAVAILABLE o1) as (r & o' & es & Hrun & He & Hr); [by rewrite Hc1 |].
      exists r, o', ([Event VMCL_DISPATCH arg None] ++ es). split; [| split].
      * unfold read_status. mrun. exact Hrun.
      * by rewrite He, He1, <- app_assoc.
      * by apply (retried_next n VMACCEL_RESOURCE_UNAVAILABLE); [| right].
Qed.

(** (C23) When the calls return, the dispatch of an operation ends: it asks at most
    a hundred times, stops at the first answer other than "unavailable" and
    returns it, and gives up with "unavailable" after a hundred attempts. *)
Theorem dispatch_retries c q arg o :
  calls_return → is_Some (ob_clcontext o !! c) →
  ∃ r o' es, dispatch_loop RETRY_MAX_COUNT c q arg VMACCEL_RESOURCE_UNAVAILABLE o = Done r o' ∧
    ob_calls o' = ob_calls o ++ es ∧
    ((∃ pre, attempts es = pre ++ [Some r] ∧ r ≠ VMACCEL_RESOURCE_UNAVAILABLE ∧ Forall busy pre ∧
        (length (attempts es) ≤ 100)%nat) ∨
     (r = VMACCEL_RESOURCE_UNAVAILABLE ∧ length (attempts es) = 100%nat ∧ Forall busy (attempts es))).
Proof. intros Hret Hc. exact (dispatch_loop_returns c q arg RETRY_MAX_COUNT Hret VMACCEL_RESOURCE_UNAVAILABLE o Hc). Qed.
End Lifecycle.
