(* ===== verification/Stack.v ===== *)
(** * The object layer over the verified stubs

    The class [VMCL] instantiated by the client stubs of Protocol.v: calls of
    the object layer go through the stubs, the messages, the dispatcher and the
    service to the backend, here with the simulated OpenCL runtime.  The
    witnesses of the object layer run on it. *)

From S2P Require Import Prelude IdentifierDB XdrRuntime XdrRFC4506 RpcTypes Backend BackendOps BackendPower SimCL Server SunRPC Protocol Calls Address Objects Accelerator Operations Execute Coherence Lifecycle.
Open Scope Z_scope.
Open Scope list_scope.

Section Stack.
Context `{OpenCL} `{XdrRuntime} `{SunRPC}.

(** A call through the stub of its procedure; the answer of a local routine as
    its filter sees it. *)
Definition stack_call (b : build) (stid tid : Z) (conn : Z → CLIENT) (p : vmcl_proc) (arg : vmcl_arg p) (clnt : option Z) :
    M world (option (vmcl_wire p) * vmcl_arg p) :=
  '(r, arg') ← vmcl_call b stid tid p arg (conn <$> clnt);
  match r with
  | None => mret (None, arg')
  | Some (RemoteAnswer w) => mret (Some w, arg')
  | Some (LocalAnswer a) => w ← at_local (marshal p a); mret (Some w, arg')
  end.

(** Without a manager and without data streams. *)
Definition stack_VMCL (b : build) (stid tid : Z) (conn : Z → CLIENT) : VMCL := {|
  fabric := world;
  power_on _ _ := mret true;
  power_off _ := mret tt;
  mgr_create _ := mret None;
  vmcl_2 := stack_call b stid tid conn;
  mgr_alloc _ _ := mret None;
  mgr_free _ _ := mret tt;
  clnt_create _ := mret (Some 1);
  clnt_destroy _ := mret tt;
  stream_send _ _ _ _ := mret VMACCEL_FAIL;
|}.
End Stack.

(** ** A run *)

#[export] Instance sim_stack : VMCL := stack_VMCL hybrid 1 1 (λ _, good_client).

(** A process with the contexts 0 and 5, at the addresses 1 and 2, and an
    allocation of sixteen bytes at address 100. *)
Definition stack_ids : heap IdentifierDB := Live (mkIdentifierDB 48 2 48 [0; 0]).

Definition stack0 : process :=
  mkProcess false false zero_VMAccelAddress None stack_ids ∅ ∅ ∅
    {[ 1 := mkClcontext stack_ids (Some 1) NO_ID 0 1 1 false; 2 := mkClcontext stack_ids (Some 1) NO_ID 5 1 1 false ]}
    {[ 100 := replicate 16 x00 ]} [] (free_world sim_server0 sim_server : fabric).

Definition stack_desc : VMAccelSurfaceDesc :=
  mkVMAccelSurfaceDesc 0 VMACCEL_SURFACE_BUFFER 16 1 1 1 1 1 VMACCEL_FORMAT_R8_TYPELESS 0 0 VMACCEL_SURFACE_USAGE_READWRITE 0 0 0.

Definition stack_region : VMAccelSurfaceRegion := whole stack_desc.

Definition stack_fill : VMCLImageFillOp :=
  mkVMCLImageFillOp (mkVMCLQueueId 0 0) (mkVMCLSurfaceId 0 zero_VMAccelSurfaceId)
    (mkVMAccelImageFillOp stack_region zero_VMAccelElementDouble4D zero_VMAccelElementFloat4D zero_VMAccelElementUINT4D).

(** The state after an operation. *)
Definition after {A} (m : OM A) (o : process) : process := run_state o (m o).

(** The surface at address 10 is made, written, allocated at the server, sent to
    both contexts, filled at the server, and read back. *)
Definition stack1 : process := after (new_surface true true 10 0 stack_desc 100) stack0.
Definition stack2 : process := after (upload 10 stack_region 1 (replicate 16 x2a)) stack1.
Definition stack3 : process := after (alloc_surface zero_VMAccelSurfaceId 1 10) stack2.
Definition stack4 : process := after (upload_surface 1 10 false false NO_ID) stack3.
Definition stack5 : process := after (upload_surface 2 10 false false NO_ID) stack4.
Definition stack6 : process := after (fill_surface stack_fill 1 0 10 stack_region 7 VMACCEL_FORMAT_UINT) stack5.
Definition stack7 : process := after (download_surface 1 10 false false NO_ID) stack6.

(** Named runs are unfolded before the code they run. *)
#[local] Strategy expand [stack1 stack2 stack3 stack4 stack5 stack6 stack7 after].

Lemma after_run {A} (d : A) (m : OM A) o : returned (m o) = true → m o = Done (run_result d (m o)) (after m o).
Proof. unfold after. by destruct (m o). Qed.

Lemma after_result {A} (d a : A) (m : OM A) o :
  returned (m o) = true → run_result d (m o) = a → m o = Done a (after m o).
Proof. intros Hret <-. by apply after_run. Qed.

Definition unsigned_check (o : process) : bool := forallb (λ p, 0 <=? cx_contextId p.2) (map_to_list (ob_clcontext o)).

Lemma unsigned_check_ok o : unsigned_check o = true → unsigned_ids o.
Proof.
  unfold unsigned_check. rewrite forallb_forall. intros Hall c cx Hcx.
  specialize (Hall (c, cx) (proj1 (list_elem_of_In _ _) (proj2 (elem_of_map_to_list _ _ _) Hcx))).
  by apply Z.leb_le in Hall.
Qed.

Lemma stack_started : started 48 stack0.
Proof. split; [lia |]. split; [by_compute |]. split; reflexivity. Qed.

Lemma stack_reached : rtc app_step stack0 stack5.
Proof.
  eapply rtc_l. { eapply (app_new stack0 10 0 stack_desc _ _ stack1); [by_compute | | apply (after_run tt); by_compute |].
    { intros s x. by vm_compute. }
    intros x. vm_compute. by intros [= <-]. }
  eapply rtc_l. { eapply (app_write stack1 10 stack_region 1 _ _ stack2), (after_run 0). by_compute. }
  eapply rtc_l. { eapply (app_alloc stack2 zero_VMAccelSurfaceId 1 10 _ stack3), (after_run true). by_compute. }
  eapply rtc_l.
  { eapply (app_send stack3 1 10 false false NO_ID _ stack4); [apply unsigned_check_ok; by_compute | by_compute |].
    apply (after_run true). by_compute. }
  eapply rtc_l; [| apply rtc_refl].
  eapply (app_send stack4 2 10 false false NO_ID _ stack5); [apply unsigned_check_ok; by_compute | by_compute |].
  apply (after_run true). by_compute.
Qed.

(** The surface after both transfers. *)
Definition stack_surface : surface :=
  mkSurface 0 0 stack_desc 1 100 (Live (mkIdentifierDB 48 2 48 [33; 0])).

Lemma stack_surface_at : ob_surface stack5 !! 10 = Some stack_surface.
Proof. by_compute. Qed.

Lemma marked_last_written_witness :
  rtc app_step stack0 stack5 ∧ last_write (ob_calls stack5) 5 0 = Some (Sent 1 (replicate 16 x2a)).
Proof.
  split; [exact stack_reached |].
  exact (marked_last_written 48 stack0 stack5 10 stack_surface (mkIdentifierDB 48 2 48 [33; 0]) 5 stack_started stack_reached
           stack_surface_at eq_refl ltac:(vm_compute; by repeat constructor)).
Defined.

(** The upload to context 0, on its way to the server and back. *)
Lemma context_mutex_balanced_witness :
  run_request 1 (UploadSurface 10 false false NO_ID) stack3 = Done true stack4 ∧ mutexes_of stack4 = mutexes_of stack3.
Proof.
  assert (run_request 1 (UploadSurface 10 false false NO_ID) stack3 = Done true stack4) as Hrun.
  { apply (after_result false true); by_compute. }
  split; [exact Hrun |]. exact (context_mutex_balanced 1 (UploadSurface 10 false false NO_ID) stack3 true stack4 Hrun).
Defined.

(** After the fill at the server only context 5 is marked. *)
Definition marks5 : IdentifierDB := mkIdentifierDB 48 2 49 [32; 0].

Definition filled_surface : surface := mkSurface 0 0 stack_desc 1 100 (Live marks5).

Lemma stack6_coherent : coherent stack6.
Proof.
  enough (holds_current stack6) as Hcur by apply Hcur.
  apply (app_step_keeps stack5).
  - exact (app_reach_keeps stack0 stack5 (started_current 48 stack0 stack_started) stack_reached).
  - eapply (app_fill stack5 stack_fill 1 0 10 stack_region 7 VMACCEL_FORMAT_UINT tt stack6).
    + apply unsigned_check_ok. by_compute.
    + apply (after_result tt tt); by_compute.
Qed.

Lemma stack7_run : download_surface 1 10 false false NO_ID stack6 = Done true stack7.
Proof. apply (after_result false true); by_compute. Qed.

(** The surface filled at the server by context 0 is read back: context 5 is
    marked consistent with the new bytes and was sent the old ones. *)
Lemma download_leaves_stale_witness :
  ob_surface stack7 !! 10 = Some filled_surface ∧
  contents stack7 filled_surface = replicate 16 x01 ∧
  last_write (ob_calls stack7) 5 0 = Some (Sent 1 (replicate 16 x2a)).
Proof.
  assert (ob_surface stack7 !! 10 = Some filled_surface) as Hread by by_compute.
  split; [exact Hread |]. split; [by_compute |].
  refine (proj2 (proj2 (download_leaves_stale 1 10 false NO_ID stack6 true stack7 filled_surface filled_surface marks5
            (mkClcontext (Live (mkIdentifierDB 48 2 48 [1; 0])) (Some 1) NO_ID 0 1 1 false) 5 stack6_coherent _ eq_refl _ _ _ stack7_run Hread _))).
  1, 2: by_compute.
  - vm_compute. by repeat constructor.
  - vm_compute. discriminate.
  - vm_compute. discriminate.
Defined.

(** ** A server that is busy at first *)

(** It answers two dispatches with "unavailable", the next with success, and
    nothing else. *)
Definition flaky_call (p : vmcl_proc) : vmcl_arg p → option Z → M nat (option (vmcl_wire p) * vmcl_arg p) :=
  match p with
  | VMCL_DISPATCH => λ arg _ n,
      let status := if (n <? 2)%nat then VMACCEL_RESOURCE_UNAVAILABLE else VMACCEL_SUCCESS in
      Done (Some (mkVMAccelReturnStatus 0 (Some (mkStatus status))), arg) (S n)
  | _ => λ arg _ n, Done (None, arg) n
  end.

Definition flaky_VMCL : VMCL := {|
  fabric := nat;
  power_on _ _ := mret true;
  power_off _ := mret tt;
  mgr_create _ := mret (Some 2);
  vmcl_2 := flaky_call;
  mgr_alloc _ _ := mret None;
  mgr_free _ _ := mret tt;
  clnt_create _ := mret (Some 1);
  clnt_destroy _ := mret tt;
  stream_send _ _ _ _ := mret VMACCEL_FAIL;
|}.

Definition flaky0 : process (H := flaky_VMCL) :=
  mkProcess (H := flaky_VMCL) false false zero_VMAccelAddress None stack_ids ∅ ∅ ∅
    {[ 1 := mkClcontext stack_ids (Some 1) NO_ID 0 1 1 false ]} ∅ [] 0%nat.

Lemma flaky_returns : calls_return (H := flaky_VMCL).
Proof.
  split.
  - intros p a clnt f. destruct p; by repeat eexists.
  - intros a clnt f w a' f'. cbn. intros [= <- _ _]. by eexists.
Qed.

Lemma dispatch_retries_witness :
  ∃ r o' es, dispatch_loop (H := flaky_VMCL) RETRY_MAX_COUNT 1 0 (dispatch_arg 0 0 3 ([0], [4], [1]) [])
               VMACCEL_RESOURCE_UNAVAILABLE flaky0 = Done r o' ∧
    ob_calls o' = ob_calls flaky0 ++ es ∧ r = VMACCEL_SUCCESS ∧
    attempts es = [Some VMACCEL_RESOURCE_UNAVAILABLE; Some VMACCEL_RESOURCE_UNAVAILABLE; Some VMACCEL_SUCCESS].
Proof.
  destruct (dispatch_retries (H := flaky_VMCL) 1 0 (dispatch_arg 0 0 3 ([0], [4], [1]) []) flaky0 flaky_returns
              ltac:(by eexists)) as (r & o' & es & Hrun & Hes & _).
  exists r, o', es. split; [exact Hrun |]. split; [exact Hes |].
  vm_compute in Hrun. injection Hrun as <- <-. vm_compute in Hes. subst es. split; reflexivity.
Defined.

(** ** An execution *)

(** A process without objects, and the server after power-on. *)
Definition exec0 : process :=
  mkProcess false false zero_VMAccelAddress None stack_ids ∅ ∅ ∅ ∅ ∅ [] (free_world sim_server0 on_server : fabric).

(** One argument of sixteen bytes at address 100. *)
Definition exec_memory : memory := {[ 100 := replicate 16 x2a ]}.

Definition run_op : OM (Z * memory) :=
  execute true true true (0, 0) exec_memory 1 0 [(VMCL_OPENCL_C_1_2, [x6b; x00])] VMCL_OPENCL_C_1_2 [x66] ([0], [4], [1])
    [mkObject 100 16 VMACCEL_SURFACE_USAGE_READWRITE 0].

Definition exec1 : process := after run_op exec0.

#[local] Strategy expand [exec1 run_op].

Lemma exec_returns : run_op exec0 = Done (VMACCEL_SUCCESS, exec_memory) exec1.
Proof. apply (after_result (0, ∅) (VMACCEL_SUCCESS, exec_memory) run_op exec0); by_compute. Qed.

(** The calls of the execution; all are answered. *)
Lemma exec_calls :
  omap (λ e, match e with Event p _ ret => Some (p, bool_decide (is_Some ret)) | _ => None end) (ob_calls exec1) =
  [(VMCL_CONTEXTALLOC, true); (VMCL_QUEUEALLOC, true); (VMCL_SURFACEALLOC, true); (VMCL_SURFACEMAP, true);
   (VMCL_SURFACEUNMAP, true); (VMCL_KERNELALLOC, true); (VMCL_DISPATCH, true); (VMCL_QUEUEFLUSH, true);
   (VMCL_SURFACEMAP, true); (VMCL_SURFACEUNMAP, true); (VMCL_SURFACEDESTROY, true); (VMCL_KERNELDESTROY, true);
   (VMCL_QUEUEDESTROY, true); (VMCL_CONTEXTDESTROY, true)].
Proof. by_compute. Qed.

Lemma execute_releases_witness :
  run_op exec0 = Done (VMACCEL_SUCCESS, exec_memory) exec1 ∧ ob_clcontext exec1 !! 1 = None ∧
  ∃ arg w es1 es2, ob_calls exec1 = ob_calls exec0 ++ es1 ++ Event VMCL_CONTEXTALLOC arg (Some w) :: es2 ∧
    (VMCLContextAllocateDesc_clientId arg ≠ NO_ID →
     ∃ es3 ret, es2 = es3 ++ [Event VMCL_CONTEXTDESTROY (VMCLContextAllocateDesc_clientId arg) ret]).
Proof.
  split; [exact exec_returns |].
  destruct (execute_releases true true true (0, 0) exec_memory 1 0 [(VMCL_OPENCL_C_1_2, [x6b; x00])] VMCL_OPENCL_C_1_2 [x66]
              ([0], [4], [1]) [mkObject 100 16 VMACCEL_SURFACE_USAGE_READWRITE 0] exec0 VMACCEL_SUCCESS exec_memory exec1
              exec_returns) as (_ & Hgone & _ & arg & w & es1 & es2 & He & _ & Hend).
  split; [exact Hgone |]. exists arg, w, es1, es2. split; [exact He | exact Hend].
Defined.

(** ** An accelerator with a local backend and streams *)

Definition accel_op : OM bool :=
  new_accelerator true true true zero_VMAccelAddress None (replicate 256 x00) zero_VMAccelAddress 48 true true.

Definition accel1 : process := after accel_op exec0.
Definition accel2 : process := after (delete_accelerator true) accel1.

#[local] Strategy expand [accel1 accel2 accel_op].

Lemma accelerator_power_nested_witness :
  accel_op exec0 = Done true accel1 ∧
  NoDup (services true true) ∧
  ob_calls accel1 = [PowerOn UtilsService true; PowerOn StreamService true; PowerOn VMCLService true] ∧
  ob_calls accel2 = ob_calls accel1 ++ [PowerOff VMCLService; PowerOff StreamService; PowerOff UtilsService].
Proof.
  assert (accel_op exec0 = Done true accel1) as Hnew by (apply (after_result false true accel_op exec0); by_compute).
  split; [exact Hnew |].
  exact (accelerator_power_nested true true true zero_VMAccelAddress None (replicate 256 x00) zero_VMAccelAddress 48 true true
           exec0 accel1 accel1 tt accel2 Hnew eq_refl eq_refl
           (after_result tt tt (delete_accelerator true) accel1 ltac:(by_compute) ltac:(by_compute))).
Defined.
