(* ===== verification/Spirv.v ===== *)
(** * SPIR-V modules (frontends/vmxc/src/vmxc_spirv_base.hpp)

    The helpers that build SPIR-V, and the interface to SPIRV-Tools, which is
    not part of the repository: its functions are the class [SPIRVTools], and
    what the code relies on (libspirv.h) are the laws of [SPIRVToolsLaws]: the
    parser calls the header callback once and the instruction callback once
    for each instruction, stops at the first status that is not
    [SPV_SUCCESS], and hands out the words of an instruction with the offset
    and length of each of its operands. *)

From Stdlib Require Import ZifyNat.
From S2P Require Import Prelude XdrRuntime XdrRFC4506 Words.
Open Scope Z_scope.
Open Scope list_scope.

Definition SPV_SUCCESS : Z := 0.
Definition SPV_ERROR_INVALID_BINARY : Z := -11.
Definition SPV_ENV_UNIVERSAL_1_2 : Z := 5.
Definition SpvMagicNumber : Z := 119734787.

Definition uint16 (z : Z) : Z := z mod 65536.

(** [spv_parsed_operand_t] and [spv_parsed_instruction_t] *)
Record spv_parsed_operand := mkOperand {
  op_offset : nat;
  op_num_words : nat;
  op_type : Z;
  op_number_kind : Z;
  op_number_bit_width : Z;
}.

Record spv_parsed_instruction := mkInstruction {
  in_words : list Z;
  in_num_words : nat;
  in_opcode : Z;
  in_ext_inst_type : Z;
  in_type_id : Z;
  in_result_id : Z;
  in_operands : list spv_parsed_operand;
  in_num_operands : nat;
}.

Record spv_header := mkHeader {
  hd_magic : Z;
  hd_version : Z;
  hd_generator : Z;
  hd_id_bound : Z;
  hd_schema : Z;
}.
Definition header_words (h : spv_header) : list Z :=
  [hd_magic h; hd_version h; hd_generator h; hd_id_bound h; hd_schema h].

(** The passes of src/transcoders. *)
Inductive transcoder : Type := CoutPass | CoutBBPass | CoutCFGPass | CoutLiveReg.

Class SPIRVTools := {
  spv_context : Type;
  spvContextCreate (env : Z) : option spv_context;
  spv_validator_options : Type;
  spvValidatorOptionsCreate : option spv_validator_options;
  spvValidateWithOptions : spv_context → spv_validator_options → list Z → Z;
  spvBinaryParse {S} : spv_context → list Z → (spv_header → M S Z) → (spv_parsed_instruction → M S Z) → M S Z;
  spvOpcodeMake (wordCount opcode : Z) : Z;
  (** [Optimizer::Run] with the registered passes *)
  optimizer_run : list transcoder → list Z → bool;
}.

(** ** Building words *)

Section Build.
Context `{SPIRVTools}.

Definition SPIRVConcatenate (instructions : list (list Z)) : list Z :=
  fold_left (λ result instruction, result ++ instruction) instructions [].

(** The second one appends to a stream. *)
Definition SPIRVConcatenate_to (stream : list Z) (instructions : list (list Z)) : list Z :=
  fold_left (λ stream instruction, stream ++ instruction) instructions stream.

Definition SPIRVMakeInstruction (opcode : Z) (args : list Z) : list Z :=
  spvOpcodeMake (uint16 (Z.of_nat (length args) + 1)) opcode :: args.

(** The loop over [byte_index]; [word] and [result] are its variables. *)
Fixpoint make_vector_loop (fuel : nat) (input : list byte) (byte_index : nat) (word : Z) (result : list Z) :
    Z * list Z :=
  match fuel with
  | O => (word, result)
  | S fuel' =>
      let new_byte := match input !! byte_index with Some b => byte_val b | None => 0 end in
      let word := Z.lor word (shl32 new_byte (8 * Z.of_nat (byte_index mod 4))) in
      if (byte_index mod 4 =? 3)%nat
      then make_vector_loop fuel' input (S byte_index) 0 (result ++ [word])
      else make_vector_loop fuel' input (S byte_index) word result
  end.

Definition SPIRVMakeVector (input : list byte) : list Z :=
  let num_bytes := length input in
  let '(word, result) := make_vector_loop (num_bytes + 1) input 0 0 [] in
  if ((num_bytes + 1) mod 4 =? 0)%nat then result else result ++ [word].

Lemma SPIRVConcatenate_to_concat s l : SPIRVConcatenate_to s l = s ++ concat l.
Proof.
  unfold SPIRVConcatenate_to. revert s. induction l as [| x l IH]; intros s; simpl; [by rewrite app_nil_r |].
  by rewrite IH, <- app_assoc.
Qed.

Lemma SPIRVConcatenate_concat l : SPIRVConcatenate l = concat l.
Proof. apply (SPIRVConcatenate_to_concat [] l). Qed.
End Build.

(** ** String literals

    The words of a string are its bytes and one to four terminating zeros. *)

Definition pad (input : list byte) : list byte := replicate (4 - length input mod 4) x00.

Definition byte_at (input : list byte) (i : nat) : Z := match input !! i with Some b => byte_val b | None => 0 end.

(** The value of the first [k] bytes of word [j]. *)
Fixpoint low (input : list byte) (j k : nat) : Z :=
  match k with
  | O => 0
  | S k' => low input j k' + 2 ^ (8 * Z.of_nat k') * byte_at input (4 * j + k')
  end.

Lemma byte_at_range input i : 0 ≤ byte_at input i < 256.
Proof. unfold byte_at. destruct (input !! i); [apply byte_val_range | lia]. Qed.

Lemma byte_at_end input i : (length input ≤ i)%nat → byte_at input i = 0.
Proof. intros Hi. unfold byte_at. by rewrite lookup_ge_None_2. Qed.

Lemma byte_at_pad input i : byte_at (input ++ pad input) i = byte_at input i.
Proof.
  unfold byte_at. destruct (decide (i < length input)%nat) as [Hi | Hi]; [by rewrite lookup_app_l |].
  rewrite lookup_app_r, (lookup_ge_None_2 input) by lia. unfold pad.
  destruct (_ !! _) as [b |] eqn:Hb; [| done]. by apply lookup_replicate in Hb as [-> _].
Qed.

(** Or-ing a byte into the part of a word above it adds it. *)
Lemma lor_byte w k b : 0 ≤ k ≤ 3 → 0 ≤ w < 2 ^ (8 * k) → 0 ≤ b < 256 → Z.lor w (shl32 b (8 * k)) = w + 2 ^ (8 * k) * b.
Proof.
  intros Hk Hw Hb. unfold shl32. rewrite Z.shiftl_mul_pow2 by lia.
  assert (2 ^ (8 * k) = 1 ∨ 2 ^ (8 * k) = 256 ∨ 2 ^ (8 * k) = 65536 ∨ 2 ^ (8 * k) = 16777216) as Hp.
  { assert (k = 0 ∨ k = 1 ∨ k = 2 ∨ k = 3) as Hc by lia. destruct Hc as [-> | [-> | [-> | ->]]]; vm_compute; tauto. }
  assert (Z.land w (b * 2 ^ (8 * k)) = 0) as Hl.
  { apply Z.bits_inj'. intros n Hn. rewrite Z.land_spec, Z.bits_0.
    destruct (Z.lt_ge_cases n (8 * k)) as [Hlt | Hge]; [by rewrite Z.mul_pow2_bits_low, andb_false_r by lia |].
    destruct (Z.eq_dec w 0) as [-> | Hw0]; [by rewrite Z.bits_0 |]. rewrite (Z.bits_above_log2 w); [done | lia |].
    apply Z.log2_lt_pow2; [lia |]. eapply Z.lt_le_trans; [apply Hw | apply Z.pow_le_mono_r; lia]. }
  rewrite u32_small by (u32_unfold; nia).
  pose proof (Z.add_lor_land w (b * 2 ^ (8 * k))) as Hs. rewrite Hl in Hs. lia.
Qed.

Lemma low_range input j k : 0 ≤ low input j k < 2 ^ (8 * Z.of_nat k).
Proof.
  induction k as [| k IH]; [done |]. cbn [low]. pose proof (byte_at_range input (4 * j + k)).
  replace (8 * Z.of_nat (S k)) with (8 + 8 * Z.of_nat k) by lia. rewrite Z.pow_add_r by lia.
  change (2 ^ 8) with 256. nia.
Qed.

Lemma low_end input j r k : (r ≤ k)%nat → (length input ≤ 4 * j + r)%nat → low input j k = low input j r.
Proof.
  intros Hr Hend. induction Hr as [| k Hr IH]; [done |]. cbn [low]. rewrite IH, byte_at_end by lia. lia.
Qed.

Lemma make_vector_step f input j k w res :
  (k < 4)%nat → 0 ≤ w < 2 ^ (8 * Z.of_nat k) →
  let w' := w + 2 ^ (8 * Z.of_nat k) * byte_at input (4 * j + k) in
  make_vector_loop (S f) input (4 * j + k) w res =
    if (k =? 3)%nat then make_vector_loop f input (S (4 * j + k)) 0 (res ++ [w'])
    else make_vector_loop f input (S (4 * j + k)) w' res.
Proof.
  intros Hk Hw. cbn zeta. cbn [make_vector_loop]. fold (byte_at input (4 * j + k)).
  replace ((4 * j + k) mod 4)%nat with k
    by (rewrite Nat.add_comm, Nat.mul_comm, Nat.Div0.mod_add, Nat.mod_small; lia).
  by rewrite lor_byte by (apply byte_at_range || lia).
Qed.

(** Up to three iterations fill the low bytes of a word, four make it. *)
Lemma make_vector_partial k f input j res :
  (k < 4)%nat →
  make_vector_loop (k + f) input (4 * j) 0 res = make_vector_loop f input (4 * j + k) (low input j k) res.
Proof.
  revert f. induction k as [| k IH]; intros f Hk; [by rewrite Nat.add_0_r |].
  replace (S k + f)%nat with (k + S f)%nat by lia. rewrite IH by lia.
  rewrite make_vector_step by (apply low_range || lia).
  destruct (Nat.eqb_spec k 3) as [-> | _]; [lia |]. by rewrite Nat.add_succ_r.
Qed.

Lemma make_vector_chunks k : ∀ f input j res,
  make_vector_loop (4 * k + f) input (4 * j) 0 res =
  make_vector_loop f input (4 * (j + k)) 0 (res ++ ((λ i, low input i 4) <$> seq j k)).
Proof.
  induction k as [| k IH]; intros f input j res; [by rewrite app_nil_r, Nat.add_0_r |].
  replace (4 * S k + f)%nat with (3 + S (4 * k + f))%nat by lia.
  rewrite make_vector_partial, make_vector_step by (apply low_range || lia). cbn [Nat.eqb].
  replace (S (4 * j + 3)) with (4 * S j)%nat by lia. rewrite IH. cbn [seq fmap list_fmap]. rewrite <- app_assoc.
  by replace (S j + k)%nat with (j + S k)%nat by lia.
Qed.

Lemma word_of_low b j : (4 * j + 4 ≤ length b)%nat → word_of b j = low b j 4.
Proof.
  intros Hlen. unfold word_of. assert (∀ k, byte_at b (4 * j + k) = byte_at (drop (4 * j) b) k) as Hk.
  { intros k. unfold byte_at. by rewrite lookup_drop. }
  cbn [low]. rewrite !Hk. assert (4 ≤ length (drop (4 * j) b))%nat as Hd by (rewrite length_drop; lia).
  destruct (drop (4 * j) b) as [| b0 [| b1 [| b2 [| b3 l]]]]; simpl in Hd; try lia.
  unfold byte_at. simpl. lia.
Qed.

(** The words [SPIRVMakeVector] makes of a string hold its bytes in
    order followed by one to four zero bytes, the literal encoding of SPIR-V:
    the string can be read back from them up to its terminator. *)
Theorem make_vector_literal input :
  SPIRVMakeVector input ≫= word_bytes = input ++ pad input.
Proof.
  assert (length (input ++ pad input) = 4 * ((length input + 4) / 4))%nat as Hlen.
  { rewrite length_app. unfold pad. rewrite length_replicate. lia. }
  assert (SPIRVMakeVector input = words_of (input ++ pad input)) as ->.
  2: { rewrite (bytes_of_words ((length input + 4) / 4)) by (rewrite Hlen; lia). by rewrite take_ge by lia. }
  unfold words_of. rewrite Hlen. replace (4 * ((length input + 4) / 4) / 4)%nat with ((length input + 4) / 4)%nat by lia.
  transitivity ((λ i, low input i 4) <$> seq 0 ((length input + 4) / 4)).
  2: { apply list_fmap_ext. intros ? i [-> Hi]%lookup_seq. rewrite word_of_low by lia.
       cbn [low]. by rewrite !byte_at_pad. }
  unfold SPIRVMakeVector. pose proof (Nat.div_mod_eq (length input + 1) 4) as Hdm.
  pose proof (Nat.mod_upper_bound (length input + 1) 4 ltac:(done)) as Hmod.
  set (k := ((length input + 1) / 4)%nat) in *. set (r := ((length input + 1) mod 4)%nat) in *. clearbody k r.
  pose proof (make_vector_chunks k (r + 0) input 0 []) as Hloop.
  rewrite (make_vector_partial r) in Hloop by lia. rewrite Nat.mul_0_r in Hloop.
  replace (4 * k + (r + 0))%nat with (length input + 1)%nat in Hloop by lia. rewrite Hloop.
  cbn [make_vector_loop app]. destruct (Nat.eqb_spec r 0) as [Hr | Hr].
  - replace ((length input + 4) / 4)%nat with k by lia. done.
  - replace ((length input + 4) / 4)%nat with (k + 1)%nat by lia.
    rewrite seq_app, fmap_app. cbn [Nat.add seq fmap list_fmap].
    by rewrite (low_end input k r 4) by lia.
Qed.
