(* ===== verification/SpirvClone.v ===== *)
(** * The SPIR-V cloner (frontends/vmxc/src/vmxc_spirv_clone.cpp)

    [VMXCSPIRVCloner] with its base class, the callbacks it hands to the
    parser, [Run] and [vmxc_spirv_clone]; vmxc_spirv_validate.cpp and
    vmxc_spirv_transcode.cpp. *)

From S2P Require Import Prelude XdrRuntime XdrRFC4506 Words Spirv.
Open Scope Z_scope.
Open Scope list_scope.

Section Cloner.
Context `{SPIRVTools}.

(** The fields of [inst_] the cloner sets.  Its pointers [operands] and
    [words] lead to [parsed_operands_] and [inst_words_]. *)
Record cloned_inst := mkClonedInst {
  ci_opcode : Z;
  ci_ext_inst_type : Z;
  ci_type_id : Z;
  ci_result_id : Z;
  ci_num_words : nat;
  ci_num_operands : nat;
}.

Record cloner := mkCloner {
  validator_options_ : option spv_validator_options;
  context_ : option spv_context;
  inst_ : cloned_inst;
  instructions_ : list spv_parsed_instruction;
  spirv_ : list Z;
  parsed_operands_ : list spv_parsed_operand;
  inst_words_ : list Z;
}.

Definition C (A : Type) : Type := M cloner A.

Definition set_inst (i : cloned_inst) (c : cloner) : cloner :=
  mkCloner (validator_options_ c) (context_ c) i (instructions_ c) (spirv_ c) (parsed_operands_ c) (inst_words_ c).
Definition add_instruction (i : spv_parsed_instruction) (c : cloner) : cloner :=
  mkCloner (validator_options_ c) (context_ c) (inst_ c) (instructions_ c ++ [i]) (spirv_ c) (parsed_operands_ c)
    (inst_words_ c).
Definition set_spirv (s : list Z) (c : cloner) : cloner :=
  mkCloner (validator_options_ c) (context_ c) (inst_ c) (instructions_ c) s (parsed_operands_ c) (inst_words_ c).
Definition set_parsed_operands (l : list spv_parsed_operand) (c : cloner) : cloner :=
  mkCloner (validator_options_ c) (context_ c) (inst_ c) (instructions_ c) (spirv_ c) l (inst_words_ c).
Definition set_inst_words (l : list Z) (c : cloner) : cloner :=
  mkCloner (validator_options_ c) (context_ c) (inst_ c) (instructions_ c) (spirv_ c) (parsed_operands_ c) l.

(** The constructors: the members of [inst_] are not initialised. *)
Definition new_cloner (targetEnv : Z) (storage : cloned_inst) : cloner :=
  mkCloner spvValidatorOptionsCreate (spvContextCreate targetEnv) storage [] [] [] [].

Definition ProcessHeader (h : spv_header) : C Z :=
  _ ← modify (λ c, set_spirv (SPIRVConcatenate_to (spirv_ c) [header_words h]) c);
  mret SPV_SUCCESS.

(** [v.resize(n)] *)
Definition resize {A} (x : A) (n : nat) (l : list A) : list A := take n l ++ replicate (n - length l) x.

(** [memcpy] of [n] words between two vectors, at the same offset. *)
Definition memcpy_words (off n : nat) (src : list Z) : C unit :=
  dst ← gets inst_words_;
  if (off + n <=? length src)%nat && (off + n <=? length dst)%nat
  then modify (set_inst_words (take off dst ++ take n (drop off src) ++ drop (off + n) dst))
  else throw BadAccess.

Definition zero_operand : spv_parsed_operand := mkOperand 0 0 0 0 0.

(** [for (i = 0; i < inst_.num_operands; i++)], from [i]. *)
Fixpoint clone_operands (fuel : nat) (inst : spv_parsed_instruction) (i : nat) : C unit :=
  match fuel with
  | O => mret tt
  | S fuel' =>
      op ← access (in_operands inst !! i);
      parsed ← gets parsed_operands_;
      _ ← access (parsed !! i);
      _ ← modify (set_parsed_operands (<[i := op]> parsed));
      parsed ← gets parsed_operands_;
      mine ← access (parsed !! i);
      _ ← assert (op_offset op =? op_offset mine)%nat;
      _ ← assert (op_num_words op =? op_num_words mine)%nat;
      _ ← memcpy_words (op_offset mine) (op_num_words mine) (in_words inst);
      clone_operands fuel' inst (S i)
  end.

Definition ProcessInstruction (inst : spv_parsed_instruction) : C Z :=
  _ ← modify (set_inst_words []);
  _ ← modify (set_parsed_operands []);
  _ ← modify (add_instruction inst);
  _ ← modify (set_inst (mkClonedInst (in_opcode inst) (in_ext_inst_type inst) (in_type_id inst) (in_result_id inst)
                          (in_num_words inst) (in_num_operands inst)));
  mine ← gets inst_;
  if (ci_num_words mine =? 0)%nat then
    _ ← modify (λ c, set_spirv (SPIRVConcatenate_to (spirv_ c) [[in_opcode inst]]) c);
    mret SPV_SUCCESS
  else
  _ ← modify (λ c, set_inst_words (resize 0 (ci_num_words mine) (inst_words_ c)) c);
  _ ← modify (λ c, set_parsed_operands (resize zero_operand (ci_num_operands mine) (parsed_operands_ c)) c);
  _ ← clone_operands (ci_num_operands mine) inst 0;
  words ← gets inst_words_;
  _ ← access (words !! 0%nat);
  _ ← modify (set_inst_words (<[0%nat := spvOpcodeMake (uint16 (Z.of_nat (length words))) (ci_opcode mine)]> words));
  words ← gets inst_words_;
  _ ← assert (ci_num_words mine =? length words)%nat;
  _ ← modify (λ c, set_spirv (SPIRVConcatenate_to (spirv_ c) [words]) c);
  mret SPV_SUCCESS.

Definition ProcessEnd : C Z := mret SPV_SUCCESS.

(** [memcpy] into the caller's buffer. *)
Definition GetSPIRV (spirv_out : list byte) (spirv_size : nat) : C (list byte) :=
  s ← gets spirv_;
  let n := Nat.min (length s) spirv_size in
  if (4 * n <=? length spirv_out)%nat
  then mret ((take n s ≫= word_bytes) ++ drop (4 * n) spirv_out)
  else throw BadAccess.

Definition is_some {A} (o : option A) : bool := match o with Some _ => true | None => false end.

(** The status, and the caller's buffer as the call leaves it.  [spirv_data]
    and [spirv_out] may be [NULL]; [spirv_size] words are read from both. *)
Definition Run (spirv_data : option (list Z)) (spirv_size : nat) (spirv_out : option (list byte)) :
    C (Z * list byte) :=
  c ← get;
  _ ← assert (is_some (context_ c));
  _ ← assert (is_some spirv_data);
  _ ← assert (is_some spirv_out);
  ctx ← access (context_ c);
  data ← access spirv_data;
  out ← access spirv_out;
  let result := match validator_options_ c with
                | Some options => spvValidateWithOptions ctx options (take spirv_size data)
                | None => SPV_SUCCESS
                end in
  if negb (result =? SPV_SUCCESS) then mret (result, out) else
  result ← spvBinaryParse ctx (take spirv_size data) ProcessHeader ProcessInstruction;
  if negb (result =? SPV_SUCCESS) then mret (SPV_ERROR_INVALID_BINARY, out) else
  _ ← ProcessEnd;
  out ← GetSPIRV out spirv_size;
  let result := match validator_options_ c with
                | Some options => spvValidateWithOptions ctx options (take spirv_size (words_of out))
                | None => SPV_SUCCESS
                end in
  if negb (result =? SPV_SUCCESS) then mret (result, out) else mret (SPV_SUCCESS, out).

(** The cloner is a local variable; the status of [Run] is not used. *)
Definition vmxc_spirv_clone {S} (storage : cloned_inst) (spirv_data : option (list Z)) (spirv_size : nat)
    (spirv_out : option (list byte)) : M S (Z * list byte) := λ s,
  match Run spirv_data spirv_size spirv_out (new_cloner SPV_ENV_UNIVERSAL_1_2 storage) with
  | Done (_, out) _ => Done (SPV_SUCCESS, out) s
  | Fault f => Fault f
  end.

(** ** vmxc_spirv_validate.cpp and vmxc_spirv_transcode.cpp *)

Definition vmxc_spirv_validate {S} (spirv_data : option (list Z)) (spirv_size : nat) : M S Z :=
  let ctx := spvContextCreate SPV_ENV_UNIVERSAL_1_2 in
  let validator_options := spvValidatorOptionsCreate in
  _ ← assert (is_some ctx);
  _ ← assert (is_some spirv_data);
  ctx ← access ctx;
  data ← access spirv_data;
  match validator_options with
  | Some options =>
      let result := spvValidateWithOptions ctx options (take spirv_size data) in
      mret (if result =? SPV_SUCCESS then SPV_SUCCESS else result)
  | None => mret SPV_SUCCESS
  end.

(** [_DEBUG] is a build option.  The output parameters are only compared with
    [NULL]; the optimizer works on a vector of its own. *)
Definition vmxc_spirv_xcode {S} (_DEBUG : bool) (spirv_data : list Z) (spirv_size : nat) (transcoder_flags : Z)
    (spirv_out_data_null spirv_out_size_null : bool) : M S Z :=
  let passes := if _DEBUG && (transcoder_flags =? UINT_MAX) && spirv_out_data_null && spirv_out_size_null
                then [CoutPass] else [] in
  context ← access (spvContextCreate SPV_ENV_UNIVERSAL_1_2);
  options ← access spvValidatorOptionsCreate;
  let error := spvValidateWithOptions context options (take spirv_size spirv_data) in
  if negb (error =? 0) then mret error else
  if negb (optimizer_run passes (take spirv_size spirv_data)) then mret SPV_ERROR_INVALID_BINARY else
  mret SPV_SUCCESS.
End Cloner.

(** ** What the cloner relies on *)

(** The operands cover the words from [p] to [e], in order. *)
Fixpoint tiles (p : nat) (ops : list spv_parsed_operand) (e : nat) : Prop :=
  match ops with
  | [] => p = e
  | o :: ops => op_offset o = p ∧ tiles (p + op_num_words o) ops e
  end.

Record parsed_ok `{SPIRVTools} (i : spv_parsed_instruction) : Prop := {
  po_num_words : in_num_words i = length (in_words i);
  po_num_operands : in_num_operands i = length (in_operands i);
  po_width : Z.of_nat (length (in_words i)) < 65536;
  po_first : in_words i !! 0%nat = Some (spvOpcodeMake (Z.of_nat (length (in_words i))) (in_opcode i));
  po_operands : tiles 1 (in_operands i) (length (in_words i));
}.

(** The instruction callback on each instruction, until one refuses; [st] is
    the parser's own status. *)
Fixpoint each_instruction {S} (ins : spv_parsed_instruction → M S Z) (l : list spv_parsed_instruction) (st : Z) : M S Z :=
  match l with
  | [] => mret st
  | i :: l' => r ← ins i; if negb (r =? SPV_SUCCESS) then mret r else each_instruction ins l' st
  end.

(** What the parser finds in a binary: no header, or a header, instructions
    and a status. *)
Inductive parse : Type :=
| NoHeader (st : Z)
| Parsed (h : spv_header) (l : list spv_parsed_instruction) (st : Z).

Class SPIRVToolsLaws `{SPIRVTools} := {
  spv_parse : spv_context → list Z → parse;
  spvBinaryParse_spec {S} ctx ws (hdr : spv_header → M S Z) ins :
    spvBinaryParse ctx ws hdr ins =
      match spv_parse ctx ws with
      | NoHeader st => mret st
      | Parsed h l st => r ← hdr h; if negb (r =? SPV_SUCCESS) then mret r else each_instruction ins l st
      end;
  no_header ctx ws st : spv_parse ctx ws = NoHeader st → st ≠ SPV_SUCCESS;
  parsed_instructions ctx ws h l st : spv_parse ctx ws = Parsed h l st → Forall parsed_ok l;
  parsed_whole ctx ws h l :
    spv_parse ctx ws = Parsed h l SPV_SUCCESS → head ws = Some SpvMagicNumber →
    ws = header_words h ++ (l ≫= in_words);
}.

Section Laws.
Context `{SPIRVToolsLaws}.

(** ** One instruction *)

(** [dst] holds the words of [src] from 1 to [p]. *)
Definition agree (src dst : list Z) (p : nat) : Prop :=
  length dst = length src ∧ ∀ k, (1 ≤ k < p)%nat → dst !! k = src !! k.

Lemma memcpy_words_agree src off n c :
  agree src (inst_words_ c) off → (off + n ≤ length src)%nat →
  ∃ dst, memcpy_words off n src c = Done tt (set_inst_words dst c) ∧ agree src dst (off + n).
Proof.
  intros [Hlen Hag] Hn. unfold memcpy_words. mrun.
  rewrite !(proj2 (Nat.leb_le _ _)) by lia. simpl. eexists. split; [done |]. split.
  - rewrite !length_app, length_take, length_take, !length_drop. lia.
  - intros k Hk. destruct (decide (k < off)%nat) as [Hlt | Hge].
    + rewrite lookup_app_l, lookup_take_lt by (rewrite ?length_take; lia). apply Hag. lia.
    + rewrite lookup_app_r by (rewrite length_take; lia). rewrite length_take.
      rewrite lookup_app_l by (rewrite length_take, length_drop; lia).
      rewrite lookup_take_lt, lookup_drop by lia. f_equal. lia.
Qed.

(** What the operand loop keeps: everything but the scratch vectors. *)
Definition same_but_scratch (c c' : cloner) : Prop :=
  validator_options_ c' = validator_options_ c ∧ context_ c' = context_ c ∧ spirv_ c' = spirv_ c ∧
  instructions_ c' = instructions_ c.

Lemma tiles_le ops : ∀ p e, tiles p ops e → (p ≤ e)%nat.
Proof.
  induction ops as [| o ops IH]; intros p e Ht; simpl in Ht; [lia |].
  destruct Ht as [_ Ht]. apply IH in Ht. lia.
Qed.

Lemma clone_operands_run inst : ∀ ops p i c,
  drop i (in_operands inst) = ops → tiles p ops (length (in_words inst)) →
  length (parsed_operands_ c) = length (in_operands inst) → agree (in_words inst) (inst_words_ c) p →
  ∃ c', clone_operands (length ops) inst i c = Done tt c' ∧ same_but_scratch c c' ∧
    agree (in_words inst) (inst_words_ c') (length (in_words inst)).
Proof.
  induction ops as [| o ops IH]; intros p i c Hi Ht Hlen Hag; cbn [tiles] in Ht.
  - subst p. exists c. by repeat split; try apply Hag.
  - destruct Ht as [Ho Ht]. assert (in_operands inst !! i = Some o) as Hlook.
    { rewrite <- (Nat.add_0_r i), <- lookup_drop, Hi. done. }
    assert (drop (S i) (in_operands inst) = ops) as Hi' by (rewrite (drop_S _ _ _ Hlook) in Hi; by injection Hi).
    pose proof (lookup_lt_Some _ _ _ Hlook) as Hlt. pose proof (tiles_le _ _ _ Ht) as Hle.
    destruct (lookup_lt_is_Some_2 (parsed_operands_ c) i) as [x Hx]; [lia |].
    cbn [length clone_operands]. rewrite Hlook. mrun. rewrite Hx. cbn [parsed_operands_ set_parsed_operands].
    rewrite list_lookup_insert_eq by lia. rewrite !Nat.eqb_refl.
    destruct (memcpy_words_agree (in_words inst) p (op_num_words o) (set_parsed_operands (<[i := o]> (parsed_operands_ c)) c))
      as (dst & Hrun & Hag'); [done | lia |].
    rewrite Ho. rewrite Hrun.
    destruct (IH (p + op_num_words o)%nat (S i) (set_inst_words dst (set_parsed_operands (<[i := o]> (parsed_operands_ c)) c)))
      as (c' & Hc & Hsame & Hfin); [done | done | by simpl; rewrite length_insert | done |].
    exists c'. by rewrite Hc.
Qed.

(** What [ProcessInstruction] adds. *)
Definition cloned (c c' : cloner) (l : list spv_parsed_instruction) (ws : list Z) : Prop :=
  validator_options_ c' = validator_options_ c ∧ context_ c' = context_ c ∧
  spirv_ c' = spirv_ c ++ ws ∧ instructions_ c' = instructions_ c ++ l.

Lemma agree_all src dst w :
  agree src dst (length src) → src !! 0%nat = Some w → <[0%nat := w]> dst = src.
Proof.
  intros [Hlen Hag] Hw. pose proof (lookup_lt_Some _ _ _ Hw) as Hlt. apply list_eq. intros [| k].
  - by rewrite list_lookup_insert_eq by lia.
  - rewrite list_lookup_insert_ne by done. destruct (decide (S k < length src)%nat) as [Hk | Hk]; [apply Hag; lia |].
    by rewrite !lookup_ge_None_2 by lia.
Qed.

Lemma ProcessInstruction_run inst c :
  parsed_ok inst →
  ∃ c', ProcessInstruction inst c = Done SPV_SUCCESS c' ∧ cloned c c' [inst] (in_words inst).
Proof.
  intros Hok. pose proof (lookup_lt_Some _ _ _ (po_first _ Hok)) as Hpos. unfold ProcessInstruction.
  set (c1 := set_inst (mkClonedInst (in_opcode inst) (in_ext_inst_type inst) (in_type_id inst) (in_result_id inst)
    (in_num_words inst) (in_num_operands inst)) (add_instruction inst (set_parsed_operands [] (set_inst_words [] c)))).
  set (c2 := set_parsed_operands (replicate (in_num_operands inst) zero_operand)
    (set_inst_words (replicate (in_num_words inst) 0) c1)).
  destruct (clone_operands_run inst (in_operands inst) 1 0 c2) as (c3 & Hrun & (Hv & Hx & Hs & Hi) & Hag).
  - done.
  - apply (po_operands _ Hok).
  - simpl. by rewrite length_replicate, (po_num_operands _ Hok).
  - split; [simpl; by rewrite length_replicate, (po_num_words _ Hok) | lia].
  - mrun. cbn [inst_ set_inst ci_num_words ci_num_operands ci_opcode].
    rewrite (proj2 (Nat.eqb_neq _ _)) by (rewrite (po_num_words _ Hok); lia).
    cbn [inst_words_ parsed_operands_ set_inst_words set_parsed_operands set_inst add_instruction]. unfold resize at 1 2.
    rewrite !firstn_nil, !Nat.sub_0_r. cbn [app]. fold c1 c2. rewrite (po_num_operands _ Hok), Hrun.
    destruct Hag as [Hlen Hag]. destruct (lookup_lt_is_Some_2 (inst_words_ c3) 0) as [x ->]; [lia |].
    cbn [inst_words_ set_inst_words]. rewrite Hlen. unfold uint16. rewrite Z.mod_small by (pose proof (po_width _ Hok); lia).
    rewrite (agree_all (in_words inst) (inst_words_ c3) _ (conj Hlen Hag) (po_first _ Hok)).
    rewrite (po_num_words _ Hok), Nat.eqb_refl. eexists. split; [done |].
    split_and!; simpl; [by rewrite Hv | by rewrite Hx | by rewrite Hs | by rewrite Hi].
Qed.

Lemma each_instruction_run l st : ∀ c,
  Forall parsed_ok l →
  ∃ c', each_instruction ProcessInstruction l st c = Done st c' ∧ cloned c c' l (l ≫= in_words).
Proof.
  induction l as [| i l IH]; intros c Hl; [exists c; by repeat split; rewrite app_nil_r |].
  apply Forall_cons_1 in Hl as [Hi Hl]. destruct (ProcessInstruction_run i c Hi) as (c1 & Hr & Hv & Hx & Hs & Hn).
  destruct (IH c1 Hl) as (c2 & Hr' & Hv' & Hx' & Hs' & Hn'). exists c2. cbn [each_instruction].
  rewrite (bind_run _ _ _ _ _ Hr). cbv beta. change (SPV_SUCCESS =? SPV_SUCCESS) with true. cbn [negb]. rewrite Hr'. split; [done |].
  split_and!; [congruence | congruence | by rewrite Hs', Hs, <- app_assoc | by rewrite Hn', Hn, <- app_assoc].
Qed.

(** ** A whole module *)

(** A module the validator and the parser accept. *)
Definition validates (ctx : spv_context) (options : option spv_validator_options) (ws : list Z) : bool :=
  match options with Some o => spvValidateWithOptions ctx o ws =? SPV_SUCCESS | None => true end.

Definition accepts (ctx : spv_context) (options : option spv_validator_options) (ws : list Z) : bool :=
  validates ctx options ws && match spv_parse ctx ws with Parsed _ _ st => st =? SPV_SUCCESS | NoHeader _ => false end.

Lemma parse_run ctx ws c :
  ∃ st c', spvBinaryParse ctx ws ProcessHeader ProcessInstruction c = Done st c' ∧
    validator_options_ c' = validator_options_ c ∧ context_ c' = context_ c ∧
    (st =? SPV_SUCCESS) = match spv_parse ctx ws with Parsed _ _ st => st =? SPV_SUCCESS | NoHeader _ => false end ∧
    (st = SPV_SUCCESS → head ws = Some SpvMagicNumber → spirv_ c' = spirv_ c ++ ws).
Proof.
  rewrite spvBinaryParse_spec. destruct (spv_parse ctx ws) as [st | h l st] eqn:Hp.
  - pose proof (no_header _ _ _ Hp) as Hst. exists st, c. split_and!; [done | done | done | by apply Z.eqb_neq | done].
  - set (c1 := set_spirv (SPIRVConcatenate_to (spirv_ c) [header_words h]) c).
    destruct (each_instruction_run l st c1 (parsed_instructions _ _ _ _ _ Hp)) as (c2 & Hr & Hv & Hx & Hs & _).
    exists st, c2. split_and!; [exact Hr | done | done | done |]. intros -> Hm.
    rewrite Hs. unfold c1. cbn [spirv_ set_spirv]. rewrite SPIRVConcatenate_to_concat. cbn [concat].
    rewrite app_nil_r, <- app_assoc, <- (parsed_whole _ _ _ _ Hp Hm). done.
Qed.

Lemma Run_clones ctx ws out c :
  context_ c = Some ctx → spirv_ c = [] → Forall is_u32 ws → (4 * length ws ≤ length out)%nat →
  (accepts ctx (validator_options_ c) ws = true → head ws = Some SpvMagicNumber) →
  ∃ st c', Run (Some ws) (length ws) (Some out) c =
      Done (st, if accepts ctx (validator_options_ c) ws
                then (ws ≫= word_bytes) ++ drop (4 * length ws) out else out) c' ∧
    (st =? SPV_SUCCESS) = accepts ctx (validator_options_ c) ws.
Proof.
  intros Hctx Hs Hws Hlen Hmagic. unfold Run. mrun. rewrite Hctx. cbn [is_some]. rewrite firstn_all.
  destruct (parse_run ctx ws c) as (st & c' & Hp & Hv & _ & Hst & Hsp).
  change (match validator_options_ c with Some o => spvValidateWithOptions ctx o ws | None => SPV_SUCCESS end)
    with (from_option (λ o, spvValidateWithOptions ctx o ws) SPV_SUCCESS (validator_options_ c)).
  assert (∀ ws', (from_option (λ o, spvValidateWithOptions ctx o ws') SPV_SUCCESS (validator_options_ c) =? SPV_SUCCESS)
                 = validates ctx (validator_options_ c) ws') as Hval by (intros; by destruct (validator_options_ c)).
  rewrite Hval. unfold accepts in *. destruct (validates ctx (validator_options_ c) ws) eqn:Hv1; simpl.
  2: { eexists _, c. split; [done |]. by rewrite Hval. }
  rewrite Hp. rewrite <- Hst in *. destruct (st =? SPV_SUCCESS) eqn:Est; simpl; [| by eexists _, c'].
  apply Z.eqb_eq in Est. specialize (Hsp Est (Hmagic eq_refl)). rewrite Hs in Hsp. simpl in Hsp.
  unfold GetSPIRV. mrun. rewrite Hsp, Nat.min_id, (proj2 (Nat.leb_le _ _) Hlen), firstn_all.
  rewrite words_of_prefix by done.
  change (match validator_options_ c with Some o => spvValidateWithOptions ctx o ws | None => SPV_SUCCESS end)
    with (from_option (λ o, spvValidateWithOptions ctx o ws) SPV_SUCCESS (validator_options_ c)).
  rewrite Hval, Hv1. by eexists _, c'.
Qed.
(** Whatever the module, the cloner returns and keeps the size of the
    buffer. *)
Lemma Run_returns ctx ws size out c :
  context_ c = Some ctx → (4 * size ≤ length out)%nat →
  ∃ st out' c', Run (Some ws) size (Some out) c = Done (st, out') c' ∧ length out' = length out.
Proof.
  intros Hctx Hlen. unfold Run. mrun. rewrite Hctx. cbn [is_some].
  destruct (negb _); [by eexists _, _, c |].
  destruct (parse_run ctx (take size ws) c) as (st & c' & -> & _). destruct (negb _); [by eexists _, _, c' |].
  unfold GetSPIRV, ProcessEnd. mrun. rewrite (proj2 (Nat.leb_le _ _)) by lia.
  destruct (negb _); eexists _, _, c'; (split; [done |]);
    rewrite length_app, length_words_bytes, length_take, length_drop; lia.
Qed.
End Laws.
