(* ===== verification/Vmxc.v ===== *)
(** * The transcoder service (frontends/vmxc)

    The routines of vmxc_server.c, the program VMXC of common/inc/vmxc.h with
    its dispatcher (vmxc_svc.c) and stubs (vmxc_clnt.c), and what a client
    gets from them. *)

From S2P Require Import Prelude XdrRuntime XdrRFC4506 Words RpcTypes XdrVMXC SunRPC Program Spirv SpirvClone.
Open Scope Z_scope.
Open Scope list_scope.

(** [malloc]: the bytes of the new block, which nothing has written, or
    [NULL]. *)
Class Malloc := {
  memory : Type;
  malloc (n : nat) : memory → option (list byte) * memory;
}.

Class MallocLaws `{Malloc} := {
  malloc_length n h b h' : malloc n h = (Some b, h') → length b = n;
}.

(** ** The routines *)

Section Service.
Context `{SPIRVTools} `{Malloc}.

(** The statics of the two routines: whether [result.VMXCReturnStatus_u.ret]
    leads to [ret], and [ret]. *)
Record vmxc_server := mkVmxcServer {
  xcode_result : bool;
  xcode_ret : VMXCStatus;
  validate_result : bool;
  validate_ret : VMXCStatus;
  vx_memory : memory;
}.

Definition VX (A : Type) : Type := M vmxc_server A.

Definition set_xcode (result : bool) (ret : VMXCStatus) (s : vmxc_server) : vmxc_server :=
  mkVmxcServer result ret (validate_result s) (validate_ret s) (vx_memory s).
Definition set_validate (result : bool) (ret : VMXCStatus) (s : vmxc_server) : vmxc_server :=
  mkVmxcServer (xcode_result s) (xcode_ret s) result ret (vx_memory s).

Definition vx_malloc (n : nat) : VX (option (list byte)) := λ s,
  let '(p, h) := malloc n (vx_memory s) in
  Done p (mkVmxcServer (xcode_result s) (xcode_ret s) (validate_result s) (validate_ret s) h).

(** A decoded array of no bytes is the [NULL] pointer. *)
Definition words_ptr (source : list byte) : option (list Z) :=
  match source with [] => None | _ => Some (words_of source) end.

Definition with_source (source : list byte) : VMXCKernelDesc := mkVMXCKernelDesc 0 source [] [] [].

(** What the static [result] holds when the routine returns its address. *)
Definition static_result (result : bool) (ret : VMXCStatus) : option VMXCReturnStatus :=
  Some (mkVMXCReturnStatus 0 (if result then Some ret else None)).

(** [storage] is what the stack holds where the cloner's [inst_] is. *)
Definition vmxc_xcode_1_svc (_DEBUG : bool) (storage : cloned_inst) (argp : VMXCodeOp) : VX (option VMXCReturnStatus) :=
  let source := VMXCKernelDesc_source (VMXCodeOp_kernel argp) in
  _ ← modify (λ s, set_xcode (xcode_result s) zero_VMXCStatus s);
  _ ← (if _DEBUG && (VMXCodeOp_targetLanguage argp =? UINT_MAX) then
         st ← vmxc_spirv_xcode _DEBUG (words_of source) (length source / 4) UINT_MAX true true;
         let status := if negb (st =? SPV_SUCCESS) then VMXC_FAIL else VMXC_SUCCESS in
         modify (set_xcode true (mkVMXCStatus status zero_VMXCKernelDesc))
       else if VMXCodeOp_targetLanguage argp =? VMXCKernelDesc_language (VMXCodeOp_kernel argp) then
         buffer ← vx_malloc (length source);
         '(st, out) ← vmxc_spirv_clone storage (words_ptr source) (length source / 4) buffer;
         let status := if negb (st =? SPV_SUCCESS) then VMXC_FAIL else VMXC_SUCCESS in
         modify (set_xcode true (mkVMXCStatus status (with_source out)))
       else mret tt);
  s ← get;
  mret (static_result (xcode_result s) (xcode_ret s)).

Definition vmxc_validate_1_svc (argp : VMXCKernelDesc) : VX (option VMXCReturnStatus) :=
  let source := VMXCKernelDesc_source argp in
  _ ← modify (λ s, set_validate (validate_result s) (mkVMXCStatus 0 argp) s);
  st ← vmxc_spirv_validate (words_ptr source) (length source / 4);
  let status := if negb (st =? SPV_SUCCESS) then VMXC_FAIL else VMXC_SUCCESS in
  _ ← modify (set_validate true (mkVMXCStatus status argp));
  s ← get;
  mret (static_result (validate_result s) (validate_ret s)).

(** ** The program *)

Inductive vmxc_proc : Type := VMXC_XCODE | VMXC_VALIDATE.

Definition vmxc_number (p : vmxc_proc) : Z := match p with VMXC_XCODE => 1 | VMXC_VALIDATE => 2 end.
Definition vmxc_proc_of (n : Z) : option vmxc_proc :=
  if n =? 1 then Some VMXC_XCODE else if n =? 2 then Some VMXC_VALIDATE else None.
Definition vmxc_arg (p : vmxc_proc) : Type :=
  match p with VMXC_XCODE => VMXCodeOp | VMXC_VALIDATE => VMXCKernelDesc end.

Section Table.
Context `{XdrRuntime} (_DEBUG : bool) (storage : cloned_inst).

Definition VMXC : rpc_program vmxc_server := {|
  pg_proc := vmxc_proc; pg_number := vmxc_number; pg_proc_of := vmxc_proc_of;
  pg_arg := vmxc_arg; pg_res := λ _, VMXCReturnStatus;
  pg_zero_arg := λ p, match p return vmxc_arg p with
                      | VMXC_XCODE => zero_VMXCodeOp | VMXC_VALIDATE => zero_VMXCKernelDesc end;
  pg_zero_res := λ _, zero_VMXCReturnStatus;
  pg_xdr_arg := λ p, match p return filter (vmxc_arg p) with
                     | VMXC_XCODE => xdr_VMXCodeOp | VMXC_VALIDATE => xdr_VMXCKernelDesc end;
  pg_xdr_res := λ _, xdr_VMXCReturnStatus;
  pg_routine := λ p, match p return vmxc_arg p → VX (option VMXCReturnStatus) with
                     | VMXC_XCODE => vmxc_xcode_1_svc _DEBUG storage
                     | VMXC_VALIDATE => vmxc_validate_1_svc end |}.

Context `{SunRPC}.

Definition vmxc_1 : Z → SVCXPRT → VX reply := svc_dispatch VMXC.
Definition vmxc_xcode_1 (argp : VMXCodeOp) (clnt : CLIENT) : VX (option VMXCReturnStatus) :=
  clnt_stub VMXC VMXC_XCODE argp clnt.
Definition vmxc_validate_1 (argp : VMXCKernelDesc) (clnt : CLIENT) : VX (option VMXCReturnStatus) :=
  clnt_stub VMXC VMXC_VALIDATE argp clnt.
End Table.
End Service.

(** ** What the routines answer *)

Section Answers.
Context `{SPIRVToolsLaws} `{MallocLaws} (storage : cloned_inst).
Context (ctx : spv_context) (Hctx : spvContextCreate SPV_ENV_UNIVERSAL_1_2 = Some ctx).
Implicit Types s : vmxc_server.

(** The module in a source: its whole words, which the tools accept. *)
Definition accepted (source : list byte) : bool := accepts ctx spvValidatorOptionsCreate (words_of source).

(** An accepted module of the machine's byte order. *)
Definition native (source : list byte) : Prop :=
  accepted source = true → head (words_of source) = Some SpvMagicNumber.

Lemma words_ptr_some source : source ≠ [] → words_ptr source = Some (words_of source).
Proof. by destruct source. Qed.

Lemma clone_run {S} source buffer (s : S) :
  source ≠ [] → length buffer = length source → native source →
  vmxc_spirv_clone storage (words_ptr source) (length source / 4) (Some buffer) s =
    Done (SPV_SUCCESS, if accepted source
                       then take (4 * (length source / 4)) source ++ drop (4 * (length source / 4)) buffer
                       else buffer) s.
Proof.
  intros Hne Hlen Hnat. unfold vmxc_spirv_clone. rewrite words_ptr_some, <- (length_words_of source) by done.
  destruct (Run_clones ctx (words_of source) buffer (new_cloner SPV_ENV_UNIVERSAL_1_2 storage)) as (st & c' & -> & _).
  - done.
  - done.
  - apply words_of_range.
  - rewrite length_words_of, Hlen. lia.
  - exact Hnat.
  - unfold accepted. cbn [validator_options_ new_cloner].
    by rewrite (bytes_of_words (length source / 4)), length_words_of.
Qed.

(** The release build, or a target that is a language. *)
Lemma xcode_same_language _DEBUG op s buffer h :
  let source := VMXCKernelDesc_source (VMXCodeOp_kernel op) in
  (_DEBUG = true → VMXCodeOp_targetLanguage op ≠ UINT_MAX) →
  VMXCodeOp_targetLanguage op = VMXCKernelDesc_language (VMXCodeOp_kernel op) →
  source ≠ [] → native source → malloc (length source) (vx_memory s) = (Some buffer, h) →
  let out := if accepted source
             then take (4 * (length source / 4)) source ++ drop (4 * (length source / 4)) buffer
             else buffer in
  let ret := mkVMXCStatus VMXC_SUCCESS (with_source out) in
  vmxc_xcode_1_svc _DEBUG storage op s =
    Done (Some (mkVMXCReturnStatus 0 (Some ret)))
      (mkVmxcServer true ret (validate_result s) (validate_ret s) h).
Proof.
  intros source Hdbg Hlang Hne Hnat Hm out ret. unfold vmxc_xcode_1_svc, vx_malloc. fold source. mrun.
  assert (_DEBUG && (VMXCodeOp_targetLanguage op =? UINT_MAX) = false) as ->.
  { destruct _DEBUG; [| done]. by apply Z.eqb_neq, Hdbg. }
  rewrite (proj2 (Z.eqb_eq _ _) Hlang). cbn [vx_memory set_xcode]. rewrite Hm.
  rewrite (clone_run source buffer) by (done || by eapply malloc_length). done.
Qed.

Lemma xcode_other_language _DEBUG op s :
  (_DEBUG = true → VMXCodeOp_targetLanguage op ≠ UINT_MAX) →
  VMXCodeOp_targetLanguage op ≠ VMXCKernelDesc_language (VMXCodeOp_kernel op) →
  vmxc_xcode_1_svc _DEBUG storage op s =
    Done (Some (mkVMXCReturnStatus 0 (if xcode_result s then Some zero_VMXCStatus else None)))
      (set_xcode (xcode_result s) zero_VMXCStatus s).
Proof.
  intros Hdbg Hlang. unfold vmxc_xcode_1_svc. mrun.
  assert (_DEBUG && (VMXCodeOp_targetLanguage op =? UINT_MAX) = false) as ->.
  { destruct _DEBUG; [| done]. by apply Z.eqb_neq, Hdbg. }
  by rewrite (proj2 (Z.eqb_neq _ _) Hlang).
Qed.

Lemma empty_source_stops _DEBUG op s :
  VMXCKernelDesc_source (VMXCodeOp_kernel op) = [] →
  (_DEBUG = true → VMXCodeOp_targetLanguage op ≠ UINT_MAX) →
  VMXCodeOp_targetLanguage op = VMXCKernelDesc_language (VMXCodeOp_kernel op) →
  vmxc_xcode_1_svc _DEBUG storage op s = Fault AssertFailed ∧
  vmxc_validate_1_svc (VMXCodeOp_kernel op) s = Fault AssertFailed.
Proof.
  intros Hsrc Hdbg Hlang. split.
  - unfold vmxc_xcode_1_svc, vx_malloc. rewrite Hsrc. mrun.
    assert (_DEBUG && (VMXCodeOp_targetLanguage op =? UINT_MAX) = false) as ->.
    { destruct _DEBUG; [| done]. by apply Z.eqb_neq, Hdbg. }
    rewrite (proj2 (Z.eqb_eq _ _) Hlang). destruct (malloc _ _) as [p h].
    unfold vmxc_spirv_clone, Run. mrun. cbn [context_ new_cloner]. by rewrite Hctx.
  - unfold vmxc_validate_1_svc, vmxc_spirv_validate. rewrite Hsrc. mrun. by rewrite Hctx.
Qed.

Lemma validate_answer kernel s :
  VMXCKernelDesc_source kernel ≠ [] →
  let ret := mkVMXCStatus (if validates ctx spvValidatorOptionsCreate (words_of (VMXCKernelDesc_source kernel))
                           then VMXC_SUCCESS else VMXC_FAIL) kernel in
  vmxc_validate_1_svc kernel s = Done (Some (mkVMXCReturnStatus 0 (Some ret))) (set_validate true ret s).
Proof.
  intros Hne ret. unfold vmxc_validate_1_svc, vmxc_spirv_validate. rewrite words_ptr_some by done. mrun.
  rewrite Hctx. cbn [is_some]. rewrite <- length_words_of, firstn_all. unfold ret, validates.
  destruct spvValidatorOptionsCreate as [o |]; [| done]. by destruct (spvValidateWithOptions ctx o _ =? SPV_SUCCESS) eqn:E;
    rewrite ?E.
Qed.
End Answers.
