(* ===== verification/SimSpirv.v ===== *)
(** * A SPIR-V reader

    An instance of [SPIRVTools]: modules of the machine's byte order, whose
    instructions are delimited by their word counts and whose operands are of
    one word each, and an allocator that never fails.  Witnesses run on it. *)

From S2P Require Import Prelude XdrRuntime XdrRFC4506 Words RpcTypes XdrVMXC SunRPC Program Spirv SpirvClone Vmxc.
Open Scope Z_scope.
Open Scope list_scope.

Definition sim_opcode_make (wordCount opcode : Z) : Z := wordCount * 65536 + opcode mod 65536.

Definition sim_inst (ws : list Z) (opcode : Z) : spv_parsed_instruction :=
  let n := length ws in
  mkInstruction ws n opcode 0 0 0 ((λ i, mkOperand i 1 0 0 0) <$> seq 1 (n - 1)) (n - 1).

Definition word_count (w : Z) : nat := Z.to_nat (w / 65536).

Fixpoint sim_insts (fuel : nat) (ws : list Z) : list spv_parsed_instruction * Z :=
  match fuel, ws with
  | _, [] => ([], SPV_SUCCESS)
  | O, _ => ([], SPV_ERROR_INVALID_BINARY)
  | S fuel', w :: _ =>
      if bool_decide (is_u32 w) && (1 <=? word_count w)%nat && (word_count w <=? length ws)%nat then
        let '(l, st) := sim_insts fuel' (drop (word_count w) ws) in
        (sim_inst (take (word_count w) ws) (w mod 65536) :: l, st)
      else ([], SPV_ERROR_INVALID_BINARY)
  end.

Definition sim_parse (ws : list Z) : parse :=
  match ws with
  | magic :: version :: generator :: id_bound :: schema :: body =>
      if magic =? SpvMagicNumber then
        let '(l, st) := sim_insts (length body) body in
        Parsed (mkHeader magic version generator id_bound schema) l st
      else NoHeader SPV_ERROR_INVALID_BINARY
  | _ => NoHeader SPV_ERROR_INVALID_BINARY
  end.

Definition sim_binary_parse {S} (ws : list Z) (hdr : spv_header → M S Z) (ins : spv_parsed_instruction → M S Z) : M S Z :=
  match sim_parse ws with
  | NoHeader st => mret st
  | Parsed h l st => r ← hdr h; if negb (r =? SPV_SUCCESS) then mret r else each_instruction ins l st
  end.

#[export] Instance simspirv : SPIRVTools := {|
  spv_context := unit;
  spvContextCreate := λ _, Some tt;
  spv_validator_options := unit;
  spvValidatorOptionsCreate := Some tt;
  spvValidateWithOptions := λ _ _ ws, match sim_parse ws with NoHeader st => st | Parsed _ _ st => st end;
  spvBinaryParse := λ S _, sim_binary_parse;
  spvOpcodeMake := sim_opcode_make;
  optimizer_run := λ _ _, true |}.

Lemma tiles_seq n : ∀ p, tiles p ((λ i, mkOperand i 1 0 0 0) <$> seq p n) (p + n).
Proof.
  induction n as [| n IH]; intros p; cbn [seq fmap list_fmap tiles]; [lia |]. split; [done |].
  replace (p + S n)%nat with (S p + n)%nat by lia. simpl. rewrite Nat.add_1_r. apply IH.
Qed.

Lemma sim_inst_ok w ws :
  is_u32 w → (1 ≤ word_count w)%nat → (word_count w ≤ S (length ws))%nat →
  parsed_ok (sim_inst (take (word_count w) (w :: ws)) (w mod 65536)).
Proof.
  unfold is_u32, UINT_MOD, word_count. intros Hw H1 Hn.
  assert (length (take (Z.to_nat (w / 65536)) (w :: ws)) = Z.to_nat (w / 65536)) as Hlen.
  { rewrite length_take. simpl. lia. }
  split; cbn [sim_inst in_words in_num_words in_num_operands in_operands in_opcode].
  - done.
  - by rewrite length_fmap, length_seq.
  - rewrite Hlen. lia.
  - rewrite Hlen, lookup_take_lt by lia. simpl. f_equal. unfold sim_opcode_make. lia.
  - rewrite Hlen. replace (Z.to_nat (w / 65536)) with (1 + (Z.to_nat (w / 65536) - 1))%nat at 2 by lia. apply tiles_seq.
Qed.

Lemma sim_insts_ok fuel : ∀ ws,
  Forall parsed_ok (sim_insts fuel ws).1 ∧
  ((sim_insts fuel ws).2 = SPV_SUCCESS → (sim_insts fuel ws).1 ≫= in_words = ws).
Proof.
  induction fuel as [| fuel IH]; intros [| w ws]; [by split | by split | by split |].
  cbn [sim_insts]. case_match eqn:E; [| by split].
  apply andb_prop in E as [[E1%bool_decide_eq_true E2%Nat.leb_le]%andb_prop E3%Nat.leb_le].
  specialize (IH (drop (word_count w) (w :: ws))). destruct (sim_insts _ _) as [l st]. cbn [fst snd] in *. destruct IH as [Hl Hst].
  split; [constructor; [by apply sim_inst_ok | done] |]. intros Hs. cbn [fst snd] in *.
  cbn [mbind list_bind]. change (list_bind _ _ in_words l) with (l ≫= in_words). rewrite (Hst Hs). apply take_drop.
Qed.

#[export] Instance simspirv_laws : SPIRVToolsLaws.
Proof.
  refine {| spv_parse := λ (_ : @spv_context simspirv), sim_parse |}.
  - done.
  - intros _ ws st. unfold sim_parse. repeat case_match; by intros [= <-].
  - intros _ ws h l st. unfold sim_parse. repeat case_match; intros Heq; try discriminate. injection Heq as <- <- <-.
    match goal with E : sim_insts ?n ?b = _ |- _ => pose proof (sim_insts_ok n b) as [Hl _]; by rewrite E in Hl end.
  - intros _ ws h l. unfold sim_parse. repeat case_match; intros Heq _; try discriminate. injection Heq as <- <- ->.
    match goal with E : sim_insts ?n ?b = _ |- _ =>
      pose proof (sim_insts_ok n b) as [_ Hl]; rewrite E in Hl; by rewrite <- (Hl eq_refl) at 1 end.
Defined.

#[export] Instance simmalloc : Malloc := {| memory := nat; malloc := λ n h, (Some (replicate n xaa), S h) |}.
#[export] Instance simmalloc_laws : MallocLaws.
Proof. split. intros n h b h' [= <- _]. apply length_replicate. Qed.
