(* ===== verification/VmxcCalls.v ===== *)
(** * Calls to the transcoder

    A client's stub, the dispatcher and the routines of the program VMXC
    together: what a client gets back for the module it sends, and which
    messages stop the service. *)

From S2P Require Import Prelude XdrRuntime XdrRFC4506 Words RpcTypes XdrVMCL XdrVMXC SunRPC Program Spirv SpirvClone.
From S2P Require Import Vmxc SimSpirv.
Open Scope Z_scope.
Open Scope list_scope.

Section Calls.
Context `{XdrLaws} `{SunRPCLaws} `{SPIRVToolsLaws} `{MallocLaws} (storage : cloned_inst).
Context (ctx : spv_context) (Hctx : spvContextCreate SPV_ENV_UNIVERSAL_1_2 = Some ctx).
Implicit Types s : vmxc_server.

Definition vmxc_format_argument _DEBUG p : Format (pg_xdr_arg (VMXC _DEBUG storage) p) :=
  match p return Format (pg_xdr_arg (VMXC _DEBUG storage) p) with
  | VMXC_XCODE => format_VMXCodeOp
  | VMXC_VALIDATE => format_VMXCKernelDesc
  end.

#[global] Instance vmxc_laws _DEBUG : RpcProgramLaws (VMXC _DEBUG storage).
Proof.
  apply (Build_RpcProgramLaws _ (VMXC _DEBUG storage)) with
    (program_format_argument := vmxc_format_argument _DEBUG) (program_format_result := λ _, format_VMXCReturnStatus);
    try (by intros []); try (intros []; apply _).
  intros n p. simpl. unfold vmxc_proc_of. by repeat case_match; intros [= <-]; apply Z.eqb_eq.
Defined.

(** The messages fit the buffers of the connection. *)
Definition room (clnt : CLIENT) {S} (P : rpc_program S) `{!RpcProgramLaws P} (p : pg_proc P) (a : pg_arg P p)
    (r : pg_res P p) : Prop :=
  (length (enc (pg_xdr_arg P p) a) ≤ send_room clnt)%nat ∧
  ∀ b, (length (enc (pg_xdr_res P p) r) ≤ reply_room (accept clnt b))%nat.

Lemma wf_answer status kernel :
  is_s32 status → wf xdr_VMXCKernelDesc kernel → wf xdr_VMXCReturnStatus (mkVMXCReturnStatus 0 (Some (mkVMXCStatus status kernel))).
Proof. intros Hs Hk. exact (conj eq_refl (conj Hs Hk)). Qed.

Lemma wf_source source : Z.of_nat (length source) ≤ UINT_MAX → wf xdr_VMXCKernelDesc (with_source source).
Proof. intros Hlen. split_and!; try done; by split. Qed.

(** The answer to a transcode whose target is its own language. *)
Definition clone_answer (source : list byte) : VMXCReturnStatus :=
  mkVMXCReturnStatus 0 (Some (mkVMXCStatus VMXC_SUCCESS (with_source source))).

Lemma clone_call op out clnt s s' :
  wf xdr_VMXCodeOp op → length out = length (VMXCKernelDesc_source (VMXCodeOp_kernel op)) →
  room clnt (VMXC false storage) VMXC_XCODE op (clone_answer out) → fate clnt = Delivered →
  vmxc_xcode_1_svc false storage op s = Done (Some (clone_answer out)) s' →
  vmxc_xcode_1 false storage op clnt s = Done (Some (clone_answer out)) s'.
Proof.
  intros Hwf Hlen [Hsend Hreply] Hf Hrun. unfold vmxc_xcode_1.
  pose proof (clnt_stub_outcome (VMXC false storage) VMXC_XCODE op clnt s) as Hcall. rewrite (Hcall Hwf Hsend).
  - cbn [pg_routine VMXC]. by rewrite Hrun, Hf.
  - cbn [pg_routine VMXC]. rewrite Hrun. intros ? ? [= <- <-]. split; [| done].
    apply wf_answer; [split; by vm_compute |]. apply wf_source. rewrite Hlen. apply Hwf.
Qed.

(** (C28) The identity transcode over the wire: a client that sends a module
    of whole words, in the machine's byte order, that the SPIR-V tools accept,
    with its own language as the target, gets back the same module byte for
    byte with the status [VMXC_SUCCESS]. *)
Theorem vmxc_identity op clnt s buffer h :
  let source := VMXCKernelDesc_source (VMXCodeOp_kernel op) in
  wf xdr_VMXCodeOp op → VMXCodeOp_targetLanguage op = VMXCKernelDesc_language (VMXCodeOp_kernel op) →
  source ≠ [] → (length source mod 4 = 0)%nat → accepted ctx source = true → head (words_of source) = Some SpvMagicNumber →
  malloc (length source) (vx_memory s) = (Some buffer, h) →
  room clnt (VMXC false storage) VMXC_XCODE op (clone_answer source) → fate clnt = Delivered →
  ∃ s', vmxc_xcode_1 false storage op clnt s = Done (Some (clone_answer source)) s'.
Proof.
  intros source Hwf Hlang Hne Hmod Hacc Hmagic Hm Hroom Hf.
  pose proof (xcode_same_language storage ctx Hctx false op s buffer h ltac:(done) Hlang Hne (λ _, Hmagic) Hm) as Hrun.
  cbn zeta in Hrun. fold source in Hrun. rewrite Hacc in Hrun.
  replace (4 * (length source / 4))%nat with (length source) in Hrun by (pose proof (Nat.div_mod_eq (length source) 4); lia).
  rewrite take_ge, drop_ge, app_nil_r in Hrun by (rewrite ?(malloc_length _ _ _ _ Hm); lia).
  eexists. by apply (clone_call op source clnt s _ Hwf eq_refl Hroom Hf Hrun).
Qed.

(** (C30) A module the SPIR-V tools refuse is answered with [VMXC_SUCCESS]
    all the same, and what the client gets as the transcoded module is the
    memory [malloc] handed to the service, which nothing has written. *)
Theorem vmxc_discloses op clnt s buffer h :
  let source := VMXCKernelDesc_source (VMXCodeOp_kernel op) in
  wf xdr_VMXCodeOp op → VMXCodeOp_targetLanguage op = VMXCKernelDesc_language (VMXCodeOp_kernel op) →
  source ≠ [] → accepted ctx source = false →
  malloc (length source) (vx_memory s) = (Some buffer, h) →
  room clnt (VMXC false storage) VMXC_XCODE op (clone_answer buffer) → fate clnt = Delivered →
  ∃ s', vmxc_xcode_1 false storage op clnt s = Done (Some (clone_answer buffer)) s'.
Proof.
  intros source Hwf Hlang Hne Hacc Hm Hroom Hf.
  pose proof (xcode_same_language storage ctx Hctx false op s buffer h ltac:(done) Hlang Hne) as Hrun.
  fold source in Hrun. unfold native in Hrun. rewrite Hacc in Hrun. specialize (Hrun ltac:(done) Hm).
  eexists. apply (clone_call op buffer clnt s _ Hwf (malloc_length _ _ _ _ Hm) Hroom Hf Hrun).
Qed.
(** What another target language is answered with depends on the calls
    before: [ret] is missing until some transcode has succeeded, and after
    that it says [VMXC_SUCCESS] with an empty kernel.  Two equal requests can
    so get different answers, neither of which reports the failure. *)
Theorem other_language_answer op1 op2 s buffer h :
  let source := VMXCKernelDesc_source (VMXCodeOp_kernel op1) in
  VMXCodeOp_targetLanguage op1 = VMXCKernelDesc_language (VMXCodeOp_kernel op1) → source ≠ [] → native ctx source →
  malloc (length source) (vx_memory s) = (Some buffer, h) →
  VMXCodeOp_targetLanguage op2 ≠ VMXCKernelDesc_language (VMXCodeOp_kernel op2) → xcode_result s = false →
  ∃ s1 s2 s3 a1,
    vmxc_xcode_1_svc false storage op2 s = Done (Some zero_VMXCReturnStatus) s1 ∧
    vmxc_xcode_1_svc false storage op1 s1 = Done a1 s2 ∧
    vmxc_xcode_1_svc false storage op2 s2 = Done (Some (mkVMXCReturnStatus 0 (Some zero_VMXCStatus))) s3.
Proof.
  intros source Hlang Hne Hnat Hm Hother Hs.
  pose proof (xcode_other_language storage false op2 s ltac:(done) Hother) as Hfirst. rewrite Hs in Hfirst.
  eexists _, _, _, _. split_and!; [exact Hfirst | |].
  - apply (xcode_same_language storage ctx Hctx false op1 _ buffer h); done.
  - apply (xcode_other_language storage false op2); done.
Qed.

(** The arguments that stop a routine: an empty module, which it is asked to
    clone or to validate. *)
Definition stops (p : vmxc_proc) : vmxc_arg p → Prop :=
  match p with
  | VMXC_XCODE => λ op, VMXCKernelDesc_source (VMXCodeOp_kernel op) = [] ∧
                        VMXCodeOp_targetLanguage op = VMXCKernelDesc_language (VMXCodeOp_kernel op)
  | VMXC_VALIDATE => λ k, VMXCKernelDesc_source k = []
  end.

Lemma xcode_returns op s :
  (∀ n h, ∃ b h', malloc n h = (Some b, h')) → VMXCKernelDesc_source (VMXCodeOp_kernel op) ≠ [] →
  VMXCodeOp_targetLanguage op = VMXCKernelDesc_language (VMXCodeOp_kernel op) →
  ∃ r s', vmxc_xcode_1_svc false storage op s = Done r s'.
Proof.
  intros Hheap Hsrc Hl. unfold vmxc_xcode_1_svc, vx_malloc. mrun. rewrite (proj2 (Z.eqb_eq _ _) Hl). cbn [andb].
  set (source := VMXCKernelDesc_source (VMXCodeOp_kernel op)) in *.
  destruct (Hheap (length source) (vx_memory (set_xcode (xcode_result s) zero_VMXCStatus s))) as (b & h & Hm).
  rewrite Hm. unfold vmxc_spirv_clone. rewrite words_ptr_some by done.
  destruct (Run_returns ctx (words_of source) (length source / 4) b (new_cloner SPV_ENV_UNIVERSAL_1_2 storage) Hctx)
    as (st & out & c' & -> & _); [| by eexists _, _].
  rewrite (malloc_length _ _ _ _ Hm). pose proof (Nat.div_mod_eq (length source) 4). lia.
Qed.

Lemma routine_faults p a s f :
  (∀ n h, ∃ b h', malloc n h = (Some b, h')) →
  pg_routine (VMXC false storage) p a s = Fault f ↔ f = AssertFailed ∧ stops p a.
Proof.
  intros Hheap. destruct p; cbn [pg_routine VMXC stops].
  - destruct (decide (VMXCodeOp_targetLanguage a = VMXCKernelDesc_language (VMXCodeOp_kernel a))) as [Hl | Hl].
    2: { rewrite (xcode_other_language storage false a s ltac:(done) Hl). split; [done | by intros (_ & _ & ?)]. }
    destruct (decide (VMXCKernelDesc_source (VMXCodeOp_kernel a) = [])) as [Hsrc | Hsrc].
    + destruct (empty_source_stops storage ctx Hctx false a s Hsrc ltac:(done) Hl) as [-> _].
      split; [by intros [= <-] | by intros [-> _]].
    + destruct (xcode_returns a s Hheap Hsrc Hl) as (r & s' & ->). split; [done | by intros (_ & ? & _)].
  - destruct (decide (VMXCKernelDesc_source a = [])) as [Hsrc | Hsrc].
    + destruct (empty_source_stops storage ctx Hctx false (mkVMXCodeOp (VMXCKernelDesc_language a) a) s Hsrc ltac:(done) eq_refl)
        as [_ E]. cbn [VMXCodeOp_kernel] in E. rewrite E. split; [by intros [= <-] | by intros [-> _]].
    + rewrite (validate_answer ctx Hctx a s Hsrc). split; [done | by intros [_ ?]].
Qed.

(** (C29) Availability of the transcoder, while [malloc] does not fail: a message
    stops the process exactly when its bytes decode to a request to transcode
    an empty module to its own language, or to validate an empty module, and
    then by an assertion.  Every other message, whatever its number and bytes,
    leaves the service running. *)
Theorem vmxc_available n transp s f :
  (∀ n h, ∃ b h', malloc n h = (Some b, h')) →
  vmxc_1 false storage n transp s = Fault f ↔
  f = AssertFailed ∧
  ((n = vmxc_number VMXC_XCODE ∧ ∃ op, svc_getargs transp xdr_VMXCodeOp zero_VMXCodeOp = Some op ∧
      VMXCKernelDesc_source (VMXCodeOp_kernel op) = [] ∧
      VMXCodeOp_targetLanguage op = VMXCKernelDesc_language (VMXCodeOp_kernel op)) ∨
   (n = vmxc_number VMXC_VALIDATE ∧ ∃ k, svc_getargs transp xdr_VMXCKernelDesc zero_VMXCKernelDesc = Some k ∧
      VMXCKernelDesc_source k = [])).
Proof.
  intros Hheap. unfold vmxc_1. split.
  - intros Hf. destruct (svc_dispatch_any (VMXC false storage) n transp s) as [[rep E] | (p & a & Hn & _ & Ha & Hr)]; [congruence |].
    destruct (pg_routine (VMXC false storage) p a s) as [r s' | f'] eqn:E; [destruct Hr; congruence |].
    apply (routine_faults p a s f' Hheap) in E as [-> Hstop]. rewrite Hr in Hf. injection Hf as <-. split; [done |].
    destruct p; [left | right]; (split; [done |]); exists a; by split.
  - intros [-> [(-> & a & Ha & Hstop) | (-> & a & Ha & Hstop)]].
    + pose proof (svc_dispatch_args (VMXC false storage) VMXC_XCODE a transp s Ha) as Hr.
      by rewrite (proj2 (routine_faults VMXC_XCODE a s AssertFailed Hheap) (conj eq_refl Hstop)) in Hr.
    + pose proof (svc_dispatch_args (VMXC false storage) VMXC_VALIDATE a transp s Ha) as Hr.
      by rewrite (proj2 (routine_faults VMXC_VALIDATE a s AssertFailed Hheap) (conj eq_refl Hstop)) in Hr.
Qed.
End Calls.

(** ** A concrete module *)

(** A header and [OpCapability Shader]. *)
Definition demo_module : list Z := [SpvMagicNumber; 66048; 0; 1; 0; 131089; 1].
Definition demo_source : list byte := demo_module ≫= word_bytes.
Definition bad_source : list byte := replicate 8 x01.

Definition demo_op (source : list byte) : VMXCodeOp := mkVMXCodeOp 1 (mkVMXCKernelDesc 1 source [] [] []).
Definition other_op : VMXCodeOp := mkVMXCodeOp 2 (mkVMXCKernelDesc 1 demo_source [] [] []).

Definition demo_ctx : @spv_context simspirv := tt.
Definition demo_storage : cloned_inst := mkClonedInst 0 0 0 0 0 0.
Definition demo_vmxc : vmxc_server := mkVmxcServer false zero_VMXCStatus false zero_VMXCStatus (0%nat : @memory simmalloc).
Definition vmxc_client : @CLIENT simrpc := mkSimClient Delivered 4096.

Definition fresh_block (n : nat) : list byte := replicate n xaa.

Lemma demo_op_wf : wf xdr_VMXCodeOp (demo_op demo_source) ∧ wf xdr_VMXCodeOp (demo_op bad_source).
Proof. repeat (split || constructor); vm_compute; congruence. Qed.

Lemma demo_room :
  room vmxc_client (VMXC false demo_storage) VMXC_XCODE (demo_op demo_source) (clone_answer demo_source) ∧
  room vmxc_client (VMXC false demo_storage) VMXC_XCODE (demo_op bad_source) (clone_answer (fresh_block 8)).
Proof. repeat split; intros; apply Nat.leb_le; by_compute. Qed.

Lemma vmxc_identity_witness :
  ∃ s', vmxc_xcode_1 false demo_storage (demo_op demo_source) vmxc_client demo_vmxc = Done (Some (clone_answer demo_source)) s'.
Proof.
  apply (vmxc_identity demo_storage demo_ctx eq_refl (demo_op demo_source) vmxc_client demo_vmxc (fresh_block 28) 1%nat).
  - apply demo_op_wf.
  - reflexivity.
  - discriminate.
  - reflexivity.
  - by_compute.
  - by_compute.
  - by_compute.
  - apply demo_room.
  - reflexivity.
Defined.

Lemma vmxc_discloses_witness :
  ∃ s', vmxc_xcode_1 false demo_storage (demo_op bad_source) vmxc_client demo_vmxc = Done (Some (clone_answer (fresh_block 8))) s'.
Proof.
  apply (vmxc_discloses demo_storage demo_ctx eq_refl (demo_op bad_source) vmxc_client demo_vmxc (fresh_block 8) 1%nat).
  - apply demo_op_wf.
  - reflexivity.
  - discriminate.
  - by_compute.
  - by_compute.
  - apply demo_room.
  - reflexivity.
Defined.

Lemma other_language_answer_witness :
  ∃ s1 s2 s3 a1,
    vmxc_xcode_1_svc false demo_storage other_op demo_vmxc = Done (Some zero_VMXCReturnStatus) s1 ∧
    vmxc_xcode_1_svc false demo_storage (demo_op demo_source) s1 = Done a1 s2 ∧
    vmxc_xcode_1_svc false demo_storage other_op s2 = Done (Some (mkVMXCReturnStatus 0 (Some zero_VMXCStatus))) s3.
Proof.
  apply (other_language_answer demo_storage demo_ctx eq_refl (demo_op demo_source) other_op demo_vmxc (fresh_block 28) 1%nat).
  - reflexivity.
  - discriminate.
  - intros _. by_compute.
  - by_compute.
  - discriminate.
  - reflexivity.
Defined.

Definition module_call (source : list byte) : @SVCXPRT simrpc := (enc xdr_VMXCodeOp (demo_op source), 4096%nat).

(** An empty module stops the service; the demonstration module does not. *)
Lemma vmxc_available_witness :
  vmxc_1 false demo_storage 1 (module_call []) demo_vmxc = Fault AssertFailed ∧
  ∀ f, vmxc_1 false demo_storage 1 (module_call demo_source) demo_vmxc ≠ Fault f.
Proof.
  assert (∀ n h, ∃ b h', malloc n h = (Some b, h')) as Hheap by (intros k h; by eexists _, _).
  split.
  - apply (vmxc_available demo_storage demo_ctx eq_refl 1 (module_call []) demo_vmxc AssertFailed Hheap).
    split; [reflexivity |]. left. split; [reflexivity |]. exists (demo_op []). split_and!; by_compute.
  - intros f Hf. apply (vmxc_available demo_storage demo_ctx eq_refl 1 (module_call demo_source) demo_vmxc f Hheap) in Hf
      as [_ [(_ & op & Ha & Hsrc & _) | (Hn & _)]]; [| discriminate Hn].
    vm_compute in Ha. injection Ha as <-. discriminate Hsrc.
Defined.
