(* ===== verification/RegAnalysis.v ===== *)
(** * Register usage (frontends/vmxc/src/transcoders/reg_analysis_pass.cpp)

    [RegAnalysisPass] counts how often each id occurs in a module.  The
    instructions, the liveness of a function's blocks and the call tree come
    from SPIRV-Tools-opt: they are the data of this file, and
    [spvOperandIsVariable] a parameter. *)

From S2P Require Import Prelude Spirv.
From stdpp Require Import gmap.
Open Scope Z_scope.
Open Scope list_scope.

Definition SPV_OPERAND_TYPE_ID : Z := 1.
Definition SPV_OPERAND_TYPE_RESULT_ID : Z := 3.

(** What the pass reads of [opt::Operand] and [opt::Instruction]. *)
Record Operand := mkOptOperand {
  operand_type : Z;
  operand_words : list Z;
}.

Record Instruction := mkOptInstruction {
  result_id : Z;
  unique_id : Z;
  operands : list Operand;
}.

(** A basic block, with what [RegisterLiveness] found for it. *)
Record BasicBlock := mkBasicBlock {
  block_insts : list Instruction;
  live_in_ : list Instruction;
  live_out_ : list Instruction;
}.

Notation id_map := (gmap Z Z).

(** The three maps that are passed by reference. *)
Record usage := mkUsage {
  resultMap : id_map;
  uniqueMap : id_map;
  variableMap : id_map;
}.
Definition no_usage : usage := mkUsage ∅ ∅ ∅.

(** [if (m.find(k) == m.end()) m[k] = 1; else m[k]++;] *)
Definition count_id (k : Z) (m : id_map) : id_map :=
  match m !! k with
  | None => <[k := 1]> m
  | Some n => <[k := u32 (n + 1)]> m
  end.

Definition on_result (f : id_map → id_map) (u : usage) : usage := mkUsage (f (resultMap u)) (uniqueMap u) (variableMap u).
Definition on_unique (f : id_map → id_map) (u : usage) : usage := mkUsage (resultMap u) (f (uniqueMap u)) (variableMap u).
Definition on_variable (f : id_map → id_map) (u : usage) : usage := mkUsage (resultMap u) (uniqueMap u) (f (variableMap u)).

(** ** Counting *)

(** [m] counts the occurrences of each id in [ids], in 32 bits; an id that
    does not occur is not in it. *)
Definition occurrences (k : Z) (ids : list Z) : nat := length (base.filter (k =.) ids).

Definition counts (m : id_map) (ids : list Z) : Prop :=
  ∀ k, m !! k = match occurrences k ids with O => None | S n => Some (u32 (Z.of_nat (S n))) end.

Lemma occurrences_app k l1 l2 : occurrences k (l1 ++ l2) = (occurrences k l1 + occurrences k l2)%nat.
Proof. unfold occurrences. by rewrite filter_app, length_app. Qed.

Lemma occurrences_one k i : occurrences k [i] = if decide (k = i) then 1%nat else 0%nat.
Proof. unfold occurrences. rewrite filter_cons, filter_nil. by case_decide. Qed.

Lemma counts_nil : counts ∅ [].
Proof. intros k. by rewrite lookup_empty. Qed.

Lemma count_id_counts k m ids : counts m ids → counts (count_id k m) (ids ++ [k]).
Proof.
  intros Hm j. rewrite occurrences_app, occurrences_one. unfold count_id. specialize (Hm k) as Hk.
  destruct (decide (j = k)) as [-> | Hne].
  - rewrite Nat.add_1_r. destruct (m !! k) as [n |]; rewrite lookup_insert_eq.
    + destruct (occurrences k ids) as [| c]; [done |]. injection Hk as ->.
      rewrite u32_add_idemp. f_equal. f_equal. lia.
    + by destruct (occurrences k ids).
  - rewrite Nat.add_0_r, <- Hm. destruct (m !! k); by rewrite lookup_insert_ne.
Qed.

(** ** The pass *)

Section Pass.
Context (spvOperandIsVariable : Z → bool).

(** [op.words[0]] is read only under the conditions. *)
Definition handle_operand (op : Operand) : M usage unit :=
  _ ← (if operand_type op =? SPV_OPERAND_TYPE_RESULT_ID then
         w ← access (operand_words op !! 0%nat); modify (on_result (count_id w))
       else mret tt);
  _ ← (if operand_type op =? SPV_OPERAND_TYPE_ID then
         w ← access (operand_words op !! 0%nat); modify (on_unique (count_id w))
       else mret tt);
  if spvOperandIsVariable (operand_type op) then
    w ← access (operand_words op !! 0%nat); modify (on_variable (count_id w))
  else mret tt.

Fixpoint each {A} (f : A → M usage unit) (l : list A) : M usage unit :=
  match l with [] => mret tt | a :: l' => _ ← f a; each f l' end.

Definition HandleInstruction (inst : Instruction) : M usage unit :=
  _ ← modify (on_result (count_id (result_id inst)));
  _ ← modify (on_unique (count_id (unique_id inst)));
  each handle_operand (operands inst).

Definition GetIDUsage (insts : list Instruction) : M usage unit := each HandleInstruction insts.

(** The order in which a [std::map] is visited does not matter here: the keys
    of a map are distinct. *)
Definition MergeIDUsage (mapA mapB : id_map) : id_map :=
  let mapOut := map_fold (λ k v out, <[k := v]> out) ∅ mapA in
  map_fold (λ k v out, match out !! k with
                       | Some n => <[k := u32 (n + v)]> out
                       | None => <[k := v]> out
                       end) mapOut mapB.

Definition process_block (b : BasicBlock) : M usage unit :=
  _ ← GetIDUsage (block_insts b);
  _ ← each (λ i, modify (on_result (count_id (result_id i)))) (live_in_ b);
  each (λ i, modify (on_result (count_id (result_id i)))) (live_out_ b).

(** The maps are local to the call. *)
Definition ProcessFn {S} (func : list BasicBlock) : M S bool := λ s,
  match each process_block func no_usage with
  | Done _ _ => Done true s
  | Fault f => Fault f
  end.

Inductive Status : Type := SuccessWithChange | SuccessWithoutChange.

(** [ProcessReachableCallTree] calls its argument on each function of the call
    tree and tells whether some call answered true. *)
Fixpoint call_tree {S} (pfn : list BasicBlock → M S bool) (funcs : list (list BasicBlock)) : M S bool :=
  match funcs with
  | [] => mret false
  | f :: fs => b ← pfn f; b' ← call_tree pfn fs; mret (b || b')
  end.

(** The members are the three global maps.  [module_insts] are the
    instructions [ForEachInst] visits, [funcs] the call tree. *)
Definition Process (module_insts : list Instruction) (funcs : list (list BasicBlock)) : M usage Status := λ _,
  match each HandleInstruction module_insts no_usage with
  | Fault f => Fault f
  | Done _ globals =>
      (modified ← call_tree ProcessFn funcs;
       mret (if (modified : bool) then SuccessWithChange else SuccessWithoutChange)) globals
  end.

(** ** What the maps hold *)

(** The ids an instruction adds to each map. *)
Definition operand_ids (sel : Z → bool) (op : Operand) : list Z :=
  if sel (operand_type op) then take 1 (operand_words op) else [].
Definition result_ids (i : Instruction) : list Z :=
  result_id i :: (operands i ≫= operand_ids (λ t, t =? SPV_OPERAND_TYPE_RESULT_ID)).
Definition unique_ids (i : Instruction) : list Z :=
  unique_id i :: (operands i ≫= operand_ids (λ t, t =? SPV_OPERAND_TYPE_ID)).
Definition variable_ids (i : Instruction) : list Z := operands i ≫= operand_ids spvOperandIsVariable.

Definition counted (u : usage) (r q v : list Z) : Prop :=
  counts (resultMap u) r ∧ counts (uniqueMap u) q ∧ counts (variableMap u) v.

(** Every operand has a word. *)
Definition has_words (i : Instruction) : Prop := Forall (λ op, operand_words op ≠ []) (operands i).

Lemma handle_operand_counted op u r q v :
  operand_words op ≠ [] → counted u r q v →
  ∃ u', handle_operand op u = Done tt u' ∧
    counted u' (r ++ operand_ids (λ t, t =? SPV_OPERAND_TYPE_RESULT_ID) op)
      (q ++ operand_ids (λ t, t =? SPV_OPERAND_TYPE_ID) op) (v ++ operand_ids spvOperandIsVariable op).
Proof.
  intros Hw (Hr & Hq & Hv). unfold handle_operand, operand_ids. destruct (operand_words op) as [| w ws]; [done |]. mrun.
  cbn [take]. rewrite take_0.
  destruct (operand_type op =? SPV_OPERAND_TYPE_RESULT_ID), (operand_type op =? SPV_OPERAND_TYPE_ID),
    (spvOperandIsVariable (operand_type op)); eexists; (split; [reflexivity |]); rewrite ?app_nil_r;
    repeat split; simpl; try done; by apply count_id_counts.
Qed.

(** Induction over the elements of a list the loops visit. *)
Lemma each_counted {A} (f : A → M usage unit) (fr fq fv : A → list Z) (P : A → Prop) l :
  (∀ a u r q v, P a → counted u r q v →
     ∃ u', f a u = Done tt u' ∧ counted u' (r ++ fr a) (q ++ fq a) (v ++ fv a)) →
  ∀ u r q v, Forall P l → counted u r q v →
  ∃ u', each f l u = Done tt u' ∧ counted u' (r ++ (l ≫= fr)) (q ++ (l ≫= fq)) (v ++ (l ≫= fv)).
Proof.
  intros Hf. induction l as [| a l IH]; intros u r q v Hl Hu; cbn [each mbind list_bind].
  { exists u. by rewrite !app_nil_r. }
  apply Forall_cons_1 in Hl as [Ha Hl]. destruct (Hf a u r q v Ha Hu) as (u1 & Hr1 & Hu1).
  destruct (IH u1 _ _ _ Hl Hu1) as (u2 & Hr2 & Hu2). exists u2. rewrite !app_assoc. split; [| done].
  by rewrite (bind_run _ _ _ _ _ Hr1).
Qed.

Lemma HandleInstruction_counted i u r q v :
  has_words i → counted u r q v →
  ∃ u', HandleInstruction i u = Done tt u' ∧
    counted u' (r ++ result_ids i) (q ++ unique_ids i) (v ++ variable_ids i).
Proof.
  intros Hw (Hr & Hq & Hv). unfold HandleInstruction, result_ids, unique_ids, variable_ids. mrun.
  destruct (each_counted handle_operand _ _ _ _ (operands i) handle_operand_counted
              (on_unique (count_id (unique_id i)) (on_result (count_id (result_id i)) u))
              (r ++ [result_id i]) (q ++ [unique_id i]) v Hw) as (u' & Hrun & Hu').
  - repeat split; simpl; [by apply count_id_counts | by apply count_id_counts | done].
  - exists u'. rewrite <- !app_assoc in Hu'. by split.
Qed.

(** ** Definitions and uses *)

(** An instruction as SPIR-V has it: every operand has a word, and [result_id]
    is the word of its one operand of type RESULT_ID, or 0 when it has none. *)
Definition well_formed (i : Instruction) : Prop :=
  has_words i ∧
  omap (λ op, if operand_type op =? SPV_OPERAND_TYPE_RESULT_ID then head (operand_words op) else None) (operands i) =
    if result_id i =? 0 then [] else [result_id i].

(** How many instructions have the result [id] (the result 0: none), the unique
    id [id], and how many operands of a type name [id]. *)
Definition definitions_of (id : Z) (insts : list Instruction) : nat :=
  length (base.filter (λ i, result_id i = id) insts).
Definition instances_of (id : Z) (insts : list Instruction) : nat :=
  length (base.filter (λ i, unique_id i = id) insts).
Definition uses_of (sel : Z → bool) (id : Z) (insts : list Instruction) : nat :=
  length (base.filter (λ op, sel (operand_type op) = true ∧ head (operand_words op) = Some id) (insts ≫= operands)).

(** What a map holds of an id that was counted [n] times. *)
Definition tally (n : nat) : option Z := if decide (n = O) then None else Some (u32 (Z.of_nat n)).

Lemma counts_tally m ids k : counts m ids → m !! k = tally (occurrences k ids).
Proof. intros Hm. rewrite Hm. by destruct (occurrences k ids). Qed.

Lemma occurrences_cons k i l : occurrences k (i :: l) = ((if decide (k = i) then 1 else 0) + occurrences k l)%nat.
Proof. unfold occurrences. rewrite filter_cons. by case_decide. Qed.

Lemma operand_occurrences sel k ops :
  occurrences k (ops ≫= operand_ids sel) =
    length (base.filter (λ op, sel (operand_type op) = true ∧ head (operand_words op) = Some k) ops).
Proof.
  induction ops as [| op ops IH]; [done |]. cbn [mbind list_bind]. rewrite occurrences_app, IH, filter_cons. unfold operand_ids.
  destruct (sel (operand_type op)), (operand_words op) as [| w ws]; cbn [take head];
    rewrite ?take_0, ?occurrences_one; repeat case_decide; simpl in *; naive_solver.
Qed.

Lemma use_occurrences sel k insts :
  occurrences k (insts ≫= λ i, operands i ≫= operand_ids sel) = uses_of sel k insts.
Proof. unfold uses_of. rewrite <- operand_occurrences. f_equal. induction insts as [| i insts IH]; [done |]. cbn. by rewrite IH, bind_app. Qed.

Lemma unique_occurrences k insts :
  occurrences k (insts ≫= unique_ids) = (instances_of k insts + uses_of (λ t, (t =? SPV_OPERAND_TYPE_ID)%Z) k insts)%nat.
Proof.
  rewrite <- use_occurrences. unfold instances_of. induction insts as [| i insts IH]; [done |].
  cbn [mbind list_bind]. rewrite filter_cons, !occurrences_app, IH. unfold unique_ids at 1. rewrite occurrences_cons.
  repeat case_decide; simpl; lia || congruence.
Qed.

Lemma result_operands (ops : list Operand) :
  ops ≫= operand_ids (λ t, t =? SPV_OPERAND_TYPE_RESULT_ID) =
    omap (λ op, if operand_type op =? SPV_OPERAND_TYPE_RESULT_ID then head (operand_words op) else None) ops.
Proof.
  induction ops as [| op ops IH]; [done |]. cbn [mbind list_bind omap list_omap]. rewrite IH. unfold operand_ids.
  destruct (_ =? _); [| done]. by destruct (operand_words op) as [| w ws]; [| cbn; rewrite take_0].
Qed.

Lemma result_occurrences k insts : Forall well_formed insts →
  occurrences k (insts ≫= result_ids) = ((if decide (k = 0%Z) then 1 else 2) * definitions_of k insts)%nat.
Proof.
  unfold definitions_of. induction 1 as [| i insts [_ Hi] _ IH]; [by rewrite filter_nil, Nat.mul_0_r |].
  cbn [mbind list_bind]. rewrite filter_cons, occurrences_app, IH. unfold result_ids at 1. rewrite result_operands, Hi, occurrences_cons.
  destruct (Z.eqb_spec (result_id i) 0) as [Hz | Hz]; rewrite ?occurrences_one; repeat case_decide; simpl; lia || congruence.
Qed.

(** (C34) [GetIDUsage] over well-formed instructions, modulo 2^32: the result map
    holds each result id twice for every instruction that defines it, since the
    instruction and its operand are both counted, and under 0 the number of
    instructions without a result; the unique map holds for each id the
    instructions with that unique id and the uses of that id as an operand; the
    variable map holds the uses of each id in variable operands.  An id that
    was not counted is in none of them. *)
Theorem usage_counted insts :
  Forall well_formed insts →
  ∃ u, GetIDUsage insts no_usage = Done tt u ∧
    (∀ id, resultMap u !! id = tally ((if decide (id = 0%Z) then 1 else 2) * definitions_of id insts)) ∧
    (∀ id, uniqueMap u !! id = tally (instances_of id insts + uses_of (λ t, (t =? SPV_OPERAND_TYPE_ID)%Z) id insts)) ∧
    (∀ id, variableMap u !! id = tally (uses_of spvOperandIsVariable id insts)).
Proof.
  intros Hwf. destruct (each_counted HandleInstruction result_ids unique_ids variable_ids has_words insts
    HandleInstruction_counted no_usage [] [] []) as (u & Hrun & Hr & Hq & Hv).
  { eapply Forall_impl; [done |]. by intros i [Hw _]. }
  { by repeat split; apply counts_nil. }
  exists u. split; [done |]. split_and!; intros id.
  - by rewrite (counts_tally _ _ id Hr), app_nil_l, result_occurrences.
  - by rewrite (counts_tally _ _ id Hq), app_nil_l, unique_occurrences.
  - rewrite (counts_tally _ _ id Hv), app_nil_l. unfold variable_ids. by rewrite use_occurrences.
Qed.

Lemma each_returns {A} (f : A → M usage unit) (P : A → Prop) l :
  (∀ a u, P a → ∃ u', f a u = Done tt u') → Forall P l → ∀ u, ∃ u', each f l u = Done tt u'.
Proof.
  intros Hf. induction l as [| a l IH]; intros Hl u; cbn [each]; [by exists u |].
  apply Forall_cons_1 in Hl as [Ha Hl]. destruct (Hf a u Ha) as [u1 H1]. destruct (IH Hl u1) as [u2 H2].
  exists u2. by rewrite (bind_run _ _ _ _ _ H1).
Qed.

Definition block_ok (b : BasicBlock) : Prop := Forall has_words (block_insts b).

Lemma operand_returns op u : operand_words op ≠ [] → ∃ u', handle_operand op u = Done tt u'.
Proof.
  intros Hw. unfold handle_operand. destruct (operand_words op) as [| w ws]; [done |]. mrun.
  by destruct (_ =? _), (_ =? _), (spvOperandIsVariable _); eexists.
Qed.

Lemma process_block_returns b u : block_ok b → ∃ u', process_block b u = Done tt u'.
Proof.
  intros Hb. unfold process_block, GetIDUsage.
  destruct (each_returns HandleInstruction has_words (block_insts b)) with (u := u) as [u1 H1]; [| done |].
  { intros i u0 Hi. unfold HandleInstruction. mrun. apply (each_returns _ (λ op, operand_words op ≠ [])); [| exact Hi].
    intros op u' Hop. by apply operand_returns. }
  rewrite (bind_run _ _ _ _ _ H1).
  assert (∀ l u0, ∃ u', each (λ i, modify (on_result (count_id (result_id i)))) l u0 = Done tt u') as Hlive.
  { intros l u0. apply (each_returns _ (λ _, True)); [| by apply list.Forall_forall]. intros i u' _. by eexists. }
  destruct (Hlive (live_in_ b) u1) as [u2 H2]. rewrite (bind_run _ _ _ _ _ H2). apply Hlive.
Qed.

Lemma call_tree_run {S} funcs (s : S) :
  Forall (Forall block_ok) funcs →
  call_tree ProcessFn funcs s = Done (match funcs with [] => false | _ => true end) s.
Proof.
  induction funcs as [| f fs IH]; intros Hf; [done |]. apply Forall_cons_1 in Hf as [Hf Hfs]. cbn [call_tree].
  assert (ProcessFn f s = Done true s) as Hp.
  { unfold ProcessFn. destruct (each_returns process_block block_ok f) with (u := no_usage) as [u ->]; [| done | done].
    intros b u Hb. by apply process_block_returns. }
  rewrite (bind_run _ _ _ _ _ Hp), (bind_run _ _ _ _ _ (IH Hfs)). done.
Qed.

(** The pass as a whole: the global maps hold the usage of the module, the
    maps of each function are dropped, and the pass reports a change of the
    module whenever there is a function to visit, though it makes none. *)
Theorem process_outcome module_insts funcs u0 :
  Forall has_words module_insts → Forall (Forall block_ok) funcs →
  ∃ u, Process module_insts funcs u0 =
      Done (match funcs with [] => SuccessWithoutChange | _ => SuccessWithChange end) u ∧
    counted u (module_insts ≫= result_ids) (module_insts ≫= unique_ids) (module_insts ≫= variable_ids).
Proof.
  intros Hw Hf. destruct (each_counted HandleInstruction result_ids unique_ids variable_ids has_words module_insts
    HandleInstruction_counted no_usage [] [] [] Hw) as (u & Hrun & Hu); [by repeat split; apply counts_nil |].
  exists u. split; [| done]. unfold Process. rewrite Hrun, (bind_run _ _ _ _ _ (call_tree_run funcs u Hf)).
  by destruct funcs.
Qed.
End Pass.

(** ** Merging *)

Lemma map_copy (m : id_map) : map_fold (λ k v out, <[k := v]> out) ∅ m = m.
Proof.
  apply (map_fold_weak_ind (λ r m, r = m)); [done |]. intros k v m' r Hk ->. done.
Qed.

Lemma MergeIDUsage_lookup a b k :
  MergeIDUsage a b !! k =
    match a !! k, b !! k with
    | Some n, Some v => Some (u32 (n + v))
    | None, o => o
    | o, None => o
    end.
Proof.
  unfold MergeIDUsage. rewrite map_copy. revert k.
  apply (map_fold_weak_ind (λ r b, ∀ k, r !! k = match a !! k, b !! k with
    | Some n, Some v => Some (u32 (n + v)) | None, o => o | o, None => o end)).
  - intros k. rewrite lookup_empty. by destruct (a !! k).
  - intros i v m r Hi IH k. destruct (decide (k = i)) as [-> | Hne].
    + rewrite (IH i), Hi. destruct (a !! i); by rewrite !lookup_insert_eq.
    + destruct (r !! i); by rewrite !lookup_insert_ne.
Qed.

(** [MergeIDUsage] of the usages of two parts of a module is the usage
    of the two parts together. *)
Theorem merge_counted a b ids ids' :
  counts a ids → counts b ids' → counts (MergeIDUsage a b) (ids ++ ids').
Proof.
  intros Ha Hb k. rewrite MergeIDUsage_lookup, Ha, Hb, occurrences_app.
  destruct (occurrences k ids) as [| n], (occurrences k ids') as [| n']; simpl Nat.add; rewrite ?Nat.add_0_r; try done.
  f_equal. rewrite u32_add_idemp, Z.add_comm, u32_add_idemp. f_equal. lia.
Qed.

(** ** A concrete module *)

Definition demo_insts : list Instruction :=
  [mkOptInstruction 5 1 [mkOptOperand SPV_OPERAND_TYPE_RESULT_ID [5]; mkOptOperand SPV_OPERAND_TYPE_ID [7]];
   mkOptInstruction 0 2 [mkOptOperand SPV_OPERAND_TYPE_ID [5]]].

Lemma demo_insts_ok : Forall well_formed demo_insts.
Proof. repeat constructor; discriminate. Qed.

(** One definition of 5, counted twice; one instruction without a result. *)
Lemma usage_counted_witness :
  ∃ u, GetIDUsage (λ _, false) demo_insts no_usage = Done tt u ∧
    resultMap u !! 5 = Some 2 ∧ resultMap u !! 0 = Some 1 ∧ uniqueMap u !! 7 = Some 1 ∧ variableMap u !! 5 = None.
Proof.
  destruct (usage_counted (λ _, false) demo_insts demo_insts_ok) as (u & Hrun & Hr & Hq & Hv).
  exists u. split; [exact Hrun |]. by rewrite (Hr 5), (Hr 0), (Hq 7), (Hv 5).
Defined.

Lemma merge_counted_witness : MergeIDUsage (count_id 3 ∅) (count_id 3 (count_id 4 ∅)) !! 3 = Some 2.
Proof.
  pose proof (merge_counted (count_id 3 ∅) (count_id 3 (count_id 4 ∅)) [3] [4; 3]) as Hm.
  rewrite Hm; [reflexivity | |].
  - apply (count_id_counts 3 ∅ []), counts_nil.
  - apply (count_id_counts 3 _ [4]), (count_id_counts 4 ∅ []), counts_nil.
Defined.
