(* ===== verification/Daemon.v ===== *)
(** * The daemons

    The [main] of each server (vmaccel_mgr_svc.c, vmcl_rpc_svc.c,
    vmaccel_rpc_svc.c, the two callback programs, vmxc_svc.c): how it makes
    itself known to the port mapper, and how the vmcl daemon registers with
    the accelerator manager (common/inc/vmaccel_mgr_utils.h).

    The port mapper and [svc_register] are not part of the repository: they
    are the class [Portmap], and rpc(3) says what [PortmapLaws] says:
    [pmap_unset] removes the mappings of a program and version, and
    [svc_register] makes one, if there is none. *)

From S2P Require Import Prelude IdentifierDB XdrRuntime XdrRFC4506 RpcTypes XdrVMAccel Backend Server SunRPC Program.
From S2P Require Import Allocator AllocTypes AllocPool Ledger Accounting Manager Placement ManagerService Address Stream.
From stdpp Require Import gmap.
Import Desc.
Open Scope Z_scope.
Open Scope list_scope.

(** ** The port mapper *)

Inductive protocol : Type := IPPROTO_UDP | IPPROTO_TCP.
#[export] Instance protocol_eq_dec : EqDecision protocol.
Proof. solve_decision. Defined.

(** [pid] names the process whose dispatcher a mapping leads to. *)
Class Portmap := {
  portmap : Type;
  lookup_port (prog vers : Z) (proto : protocol) : portmap → option Z;
  pmap_unset (prog vers : Z) : portmap → portmap;
  (** [svcudp_create] or [svctcp_create]: whether the transport exists *)
  svc_create (proto : protocol) : portmap → bool;
  svc_register (pid prog vers : Z) (proto : protocol) : portmap → bool * portmap;
}.

Class PortmapLaws `{Portmap} := {
  pmap_unset_spec prog vers m prog' vers' proto :
    lookup_port prog' vers' proto (pmap_unset prog vers m) =
      if decide (prog' = prog ∧ vers' = vers) then None else lookup_port prog' vers' proto m;
  svc_register_free pid prog vers proto m :
    lookup_port prog vers proto m = None →
    ∃ m', svc_register pid prog vers proto m = (true, m') ∧
      ∀ prog' vers' proto', lookup_port prog' vers' proto' m' =
        if decide (prog' = prog ∧ vers' = vers ∧ proto' = proto) then Some pid else lookup_port prog' vers' proto' m;
}.

(** ** The programs and their numbers *)

Inductive program : Type :=
| ManagerProgram | AcceleratorProgram | AcceleratorCallback | VMCLProgram | VMCLCallback | TranscoderProgram.

#[export] Instance program_eq_dec : EqDecision program.
Proof. solve_decision. Defined.

Definition program_number (p : program) : Z :=
  match p with
  | ManagerProgram => 536871032 (* 0x20000078 *)
  | AcceleratorProgram => 536871033 (* 0x20000079 *)
  | AcceleratorCallback => 536871040 (* 0x20000080 *)
  | VMCLProgram => 536871041 (* 0x20000081 *)
  | VMCLCallback | TranscoderProgram => 536871042 (* 0x20000082 *)
  end.

Definition program_version (p : program) : Z := match p with VMCLProgram => 2 | _ => 1 end.

Section Serve.
Context `{Portmap}.

(** The part all the [main] functions share. *)
Definition serve_on (pid : Z) (p : program) (proto : protocol) : M portmap unit :=
  m ← get;
  if negb (svc_create proto m) then throw Exited else
  ok ← (λ m, let '(ok, m') := svc_register pid (program_number p) (program_version p) proto m in Done ok m');
  if negb (ok : bool) then throw Exited else mret tt.

Definition serve (pid : Z) (p : program) : M portmap unit :=
  _ ← modify (pmap_unset (program_number p) (program_version p));
  _ ← serve_on pid p IPPROTO_UDP;
  serve_on pid p IPPROTO_TCP.

(** Where a client of [p] gets. *)
Definition reaches (p : program) (proto : protocol) (m : portmap) : option Z :=
  lookup_port (program_number p) (program_version p) proto m.
End Serve.

Section ServeLaws.
Context `{PortmapLaws} (Hcreate : ∀ proto m, svc_create proto m = true).

Definition same_number (p q : program) : Prop :=
  program_number p = program_number q ∧ program_version p = program_version q.
#[global] Instance same_number_dec p q : Decision (same_number p q).
Proof. unfold same_number. apply _. Defined.

Lemma serve_on_run pid p proto m :
  reaches p proto m = None →
  ∃ m', serve_on pid p proto m = Done tt m' ∧
    ∀ q proto', reaches q proto' m' = if decide (same_number q p ∧ proto' = proto) then Some pid else reaches q proto' m.
Proof.
  intros Hnone. destruct (svc_register_free pid (program_number p) (program_version p) proto m Hnone) as (m' & Hr & Hm').
  exists m'. split; [unfold serve_on; mrun; rewrite Hcreate; cbn [negb]; by rewrite Hr |].
  intros q proto'. unfold reaches. rewrite Hm'. unfold same_number. by repeat case_decide; tauto || (exfalso; tauto).
Qed.

(** Starting a server takes its number over, on both protocols, and leaves
    the others alone. *)
Lemma serve_run pid p m :
  ∃ m', serve pid p m = Done tt m' ∧
    ∀ q proto, reaches q proto m' = if decide (same_number q p) then Some pid else reaches q proto m.
Proof.
  unfold serve. set (m0 := pmap_unset (program_number p) (program_version p) m).
  assert (∀ q proto, reaches q proto m0 = if decide (same_number q p) then None else reaches q proto m) as H0'.
  { intros q proto. unfold reaches, m0. rewrite pmap_unset_spec. done. }
  destruct (serve_on_run pid p IPPROTO_UDP m0) as (m1 & H1 & Hm1).
  { rewrite H0'. by rewrite decide_True. }
  destruct (serve_on_run pid p IPPROTO_TCP m1) as (m2 & H2 & Hm2).
  { rewrite Hm1, decide_False by (by intros [_ ?]). rewrite H0'. by rewrite decide_True. }
  exists m2. split.
  { rewrite (bind_run _ _ m tt m0) by done. by rewrite (bind_run _ _ _ _ _ H1). }
  intros q proto. rewrite Hm2, Hm1, H0'. destruct (decide (same_number q p)); destruct proto; repeat case_decide; tauto || done.
Qed.

(** Servers started one after the other. *)
Fixpoint start_all (l : list (Z * program)) : M portmap unit :=
  match l with
  | [] => mret tt
  | (pid, p) :: l' => _ ← serve pid p; start_all l'
  end.

(** The server that has the number of [q], after [l] on top of [o]. *)
Fixpoint last_started (q : program) (o : option Z) (l : list (Z * program)) : option Z :=
  match l with
  | [] => o
  | (pid, p) :: l' => last_started q (if decide (same_number q p) then Some pid else o) l'
  end.

Lemma start_all_run l : ∀ m,
  ∃ m', start_all l m = Done tt m' ∧ ∀ q proto, reaches q proto m' = last_started q (reaches q proto m) l.
Proof.
  induction l as [| [pid p] l IH]; intros m; [by exists m |]. cbn [start_all last_started].
  destruct (serve_run pid p m) as (m1 & H1 & Hm1). destruct (IH m1) as (m2 & H2 & Hm2). exists m2.
  split; [by rewrite (bind_run _ _ _ _ _ H1) |]. intros q proto. by rewrite Hm2, Hm1.
Qed.

Lemma same_number_cases p q :
  same_number p q ↔ p = q ∨ (p = VMCLCallback ∧ q = TranscoderProgram) ∨ (p = TranscoderProgram ∧ q = VMCLCallback).
Proof. unfold same_number. split; [| by intros [-> | [[-> ->] | [-> ->]]]]. destruct p, q; simpl; intros [? ?]; try done; tauto. Qed.

Lemma last_started_mono q o l : (∀ x, x ∈ l → ¬ same_number q x.2) → last_started q o l = o.
Proof.
  revert o. induction l as [| [pid p] l IH]; intros o Hl; [done |]. cbn [last_started].
  rewrite decide_False by (apply (Hl (pid, p)); left). apply IH. intros x Hx. apply Hl. by right.
Qed.

(** (C31) Who answers the clients of a program: whatever servers have been
    started on a host and in whatever order, the clients of a program reach
    the server of that program that was started last, as long as neither the
    callback server of vmcl nor the transcoder is concerned: these two have
    the same number, and the one started last gets the clients of both. *)
Theorem started_servers_reached l l' pid p m :
  (∀ x, x ∈ l' → ¬ same_number p x.2) →
  ∃ m', start_all (l ++ (pid, p) :: l') m = Done tt m' ∧
    (∀ proto, reaches p proto m' = Some pid) ∧
    (p = TranscoderProgram → ∀ proto, reaches VMCLCallback proto m' = Some pid) ∧
    (p = VMCLCallback → ∀ proto, reaches TranscoderProgram proto m' = Some pid).
Proof.
  intros Hl'. destruct (start_all_run (l ++ (pid, p) :: l') m) as (m' & Hrun & Hm'). exists m'. split; [done |].
  assert (∀ q proto, same_number q p → reaches q proto m' = Some pid) as Hq.
  { intros q proto Hsame. rewrite Hm'.
    assert (∀ o l1, last_started q o (l1 ++ (pid, p) :: l') = Some pid) as Happ; [| apply Happ].
    intros o l1. revert o. induction l1 as [| [pid1 p1] l1 IH]; intros o; cbn [app last_started]; [| apply IH].
    rewrite decide_True by done. apply last_started_mono. intros x Hx Hsx. apply (Hl' x Hx).
    unfold same_number in *. destruct Hsame, Hsx. split; congruence. }
  split_and!; intros; subst; by apply Hq.
Qed.
End ServeLaws.

(** ** Registration with the manager *)

(** What [getifaddrs] lists: an interface, and the family and the numeric
    text ([getnameinfo]) of its address. *)
Record sockaddr := mkSockaddr {
  sa_family : Z;
  sa_name : option (list byte);
}.

Record ifaddrs := mkIfaddrs {
  ifa_name : list byte;
  ifa_addr : option sockaddr;
}.

Definition AF_INET : Z := 2.

#[local] Instance byte_eqdec : EqDecision byte := Byte.byte_eq_dec.

(** The loop over the interfaces: [localHost] of the one that was found. *)
Fixpoint find_netif (iface : option (list byte)) (netifs : list ifaddrs) : option (list byte) :=
  match netifs with
  | [] => None
  | netif :: rest =>
      match ifa_addr netif with
      | None => find_netif iface rest
      | Some sa =>
          match sa_name sa with
          | None => find_netif iface rest
          | Some localHost =>
              if (sa_family sa =? AF_INET) &&
                 (match iface with Some i => bool_decide (ifa_name netif = i) | None => false end)
              then Some localHost else find_netif iface rest
          end
      end
  end.

Definition set_parent_addr (addr : list byte) (d : VMAccelDesc) : VMAccelDesc :=
  let a := VMAccelDesc_parentAddr d in
  mkVMAccelDesc (VMAccelDesc_parentId d)
    (mkVMAccelAddress addr (VMAccelAddress_port a) (VMAccelAddress_resourceType a) (VMAccelAddress_subDevice a))
    (VMAccelDesc_typeMask d) (VMAccelDesc_architecture d) (VMAccelDesc_caps d) (VMAccelDesc_formatCaps d)
    (VMAccelDesc_capacity d) (VMAccelDesc_maxContexts d) (VMAccelDesc_maxQueues d) (VMAccelDesc_maxEvents d)
    (VMAccelDesc_maxFences d) (VMAccelDesc_maxSurfaces d) (VMAccelDesc_maxMappings d).

Section Register.
Context `{XdrRuntime} `{SunRPC}.

(** [host] is never set. *)
Record VMAccelMgrClient := mkMgrClient {
  mc_clnt : option CLIENT;
  mc_accelId : Z;
}.

Definition no_mgr_client : VMAccelMgrClient := mkMgrClient None UINT_MAX.

(** [netifs]: what [getifaddrs] answers; [clnt]: what [clnt_create] answers;
    [localAddr]: the four bytes on the stack. *)
Definition vmaccelmgr_register (netifs : option (list ifaddrs)) (clnt : option CLIENT) (localAddr : list byte)
    (iface : option (list byte)) (accelDesc : VMAccelDesc) : MGR VMAccelMgrClient :=
  match netifs with
  | None => mret no_mgr_client
  | Some l =>
      match find_netif iface l with
      | None => mret no_mgr_client
      | Some localHost =>
          match clnt with
          | None => throw Exited
          | Some c =>
              '(_, localAddr) ← access (VMAccel_AddressStringToOpaqueAddr localHost localAddr VMACCEL_MAX_LOCATION_SIZE);
              result ← vmaccelmgr_register_1 (mkVMAccelRegisterDesc (set_parent_addr localAddr accelDesc) 0) c;
              match result with
              | None => mret no_mgr_client
              | Some r =>
                  match VMAccelAllocateReturnStatus_ret r with
                  | None => mret no_mgr_client
                  | Some ret => mret (mkMgrClient (Some c) (VMAccelAllocateStatus_id ret))
                  end
              end
          end
      end
  end.

Definition vmaccelmgr_unregister (mgrClient : VMAccelMgrClient) : MGR VMAccelMgrClient :=
  clnt ← access (mc_clnt mgrClient);
  _ ← vmaccelmgr_unregister_1 (mc_accelId mgrClient) clnt;
  mret (mkMgrClient None (mc_accelId mgrClient)).
End Register.

(** ** From a daemon to a client

    The manager hands the address of a registered daemon to the clients that
    ask it for an accelerator. *)

Section Handover.
Context `{XdrLaws} `{SunRPCLaws}.

Definition registered_answer (id : Z) : VMAccelAllocateReturnStatus :=
  mkVMAccelAllocateReturnStatus 0 (Some (mkVMAccelAllocateStatus VMACCEL_SUCCESS id zero_VMAccelDesc)).

Definition manager_with (a : accelAllocator) (m : manager) : manager := mkManager (Some a) (memMgr m) (alloc_static m).

Lemma parse_local_host addr storage :
  length addr = 4%nat → length storage = 4%nat →
  VMAccel_AddressStringToOpaqueAddr (inet_ntoa addr) storage VMACCEL_MAX_LOCATION_SIZE = Some (true, addr).
Proof.
  intros Ha Hs. unfold VMAccel_AddressStringToOpaqueAddr. rewrite inet_addr_ntoa, Hs by done. cbn.
  by rewrite drop_ge, app_nil_r by lia.
Qed.

Lemma is_u32_zero : is_u32 0.
Proof. by split. Qed.

Lemma zero_address_wf : wf xdr_VMAccelAddress zero_VMAccelAddress.
Proof. unfold wf. simpl. repeat (split || constructor); apply is_u32_zero || done. Qed.

Lemma zero_accel_desc_wf : wf xdr_VMAccelDesc zero_VMAccelDesc.
Proof.
  assert (∀ l, Forall (λ z, z = 0) l → Forall is_u32 l) as Hz.
  { intros l Hl. eapply Forall_impl; [exact Hl |]. intros z ->. apply is_u32_zero. }
  refine (conj is_u32_zero (conj zero_address_wf (conj is_u32_zero (conj is_u32_zero (conj is_u32_zero
    (conj (conj _ _) (conj (Hz _ _) (Hz _ _)))))))); try done; by repeat constructor.
Qed.

Lemma registered_answer_wf id :
  0 ≤ id < VMACCEL_MAX_ACCELERATORS → wf (pg_xdr_res VMACCELMGR VMACCELMGR_REGISTER) (registered_answer id).
Proof.
  intros Hid. assert (is_u32 id) as Hu by (unfold VMACCEL_MAX_ACCELERATORS in Hid; u32_unfold; lia).
  exact (conj eq_refl (conj is_u32_zero (conj Hu zero_accel_desc_wf))).
Qed.

Lemma is_u32_fail : is_u32 VMACCEL_FAIL.
Proof. by split. Qed.

(** A delivered registration is answered what the routine answers. *)
Lemma register_call arg r clnt m m' :
  wf (pg_xdr_arg VMACCELMGR VMACCELMGR_REGISTER) arg →
  (length (enc (pg_xdr_arg VMACCELMGR VMACCELMGR_REGISTER) arg) ≤ send_room clnt)%nat →
  wf (pg_xdr_res VMACCELMGR VMACCELMGR_REGISTER) r →
  (∀ b, length (enc (pg_xdr_res VMACCELMGR VMACCELMGR_REGISTER) r) ≤ reply_room (accept clnt b))%nat →
  fate clnt = Delivered → mgr_local VMACCELMGR_REGISTER arg m = Done r m' →
  vmaccelmgr_register_1 arg clnt m = Done (Some r) m'.
Proof.
  intros Hwf Hsend Hr Hreply Hf Hlocal. unfold vmaccelmgr_register_1, vmaccelmgr_stub.
  pose proof (clnt_stub_outcome VMACCELMGR VMACCELMGR_REGISTER arg clnt m Hwf Hsend) as Hc.
  cbn [pg_routine VMACCELMGR] in Hc. rewrite (bind_run _ _ _ _ _ Hlocal) in Hc. rewrite Hc, Hf; [done |].
  by intros r' s' [= <- <-].
Qed.

(** Registration through the wire, once the interface has been found. *)
Lemma register_run a m addr storage iface l clnt d :
  accelMgr m = Some a → managed VMACCEL_MAX_ACCELERATORS (ids (al_registeredIds a)) (ids (al_externalIds a)) a →
  Z.of_nat (base.size (ids (al_registeredIds a))) < VMACCEL_MAX_ACCELERATORS → sound (VMAccelDesc_capacity d) →
  length addr = 4%nat → length storage = 4%nat → find_netif iface l = Some (inet_ntoa addr) →
  let arg := mkVMAccelRegisterDesc (set_parent_addr addr d) 0 in
  wf (pg_xdr_arg VMACCELMGR VMACCELMGR_REGISTER) arg →
  (length (enc (pg_xdr_arg VMACCELMGR VMACCELMGR_REGISTER) arg) ≤ send_room clnt)%nat →
  (∀ id b, length (enc (pg_xdr_res VMACCELMGR VMACCELMGR_REGISTER) (registered_answer id)) ≤ reply_room (accept clnt b))%nat →
  fate clnt = Delivered →
  ∃ id a', vmaccelmgr_register (Some l) (Some clnt) storage iface d m = Done (mkMgrClient (Some clnt) id) (manager_with a' m) ∧
    managed VMACCEL_MAX_ACCELERATORS ({[id]} ∪ ids (al_registeredIds a)) (ids (al_externalIds a)) a' ∧
    al_free a' = new_object id (set_parent_addr addr d) :: al_free a.
Proof.
  intros Hm HM Hroom Hsound Ha Hs Hnet arg Hwf Hsend Hreply Hf.
  destruct (Register_run VMACCEL_MAX_ACCELERATORS N_range _ _ a (set_parent_addr addr d) HM Hroom Hsound)
    as (id & a' & Hreg & _ & HM' & _ & _ & Hfree).
  exists id, a'. split_and!; [| done | done]. unfold vmaccelmgr_register. rewrite Hnet, (parse_local_host addr storage) by done.
  rewrite (bind_run _ _ m (true, addr) m) by done. cbv beta iota.
  assert (mgr_local VMACCELMGR_REGISTER arg m = Done (registered_answer id) (manager_with a' m)) as Hlocal.
  { cbn [mgr_local]. unfold vmaccelmgr_register_1_svc, vmaccel_manager_register, on_accelMgr. mrun. rewrite Hm.
    change (VMAccelRegisterDesc_desc arg) with (set_parent_addr addr d). by rewrite Hreg. }
  assert (0 ≤ id < VMACCEL_MAX_ACCELERATORS) as Hid.
  { apply (holds_range _ _ _ _ (mg_regs _ _ _ _ HM')). set_solver. }
  by rewrite (bind_run _ _ _ _ _ (register_call arg (registered_answer id) clnt m _ Hwf Hsend
    (registered_answer_wf id Hid) (Hreply id) Hf Hlocal)).
Qed.

(** The daemon does not look at the status: a manager whose ids are all taken
    answers [VMACCEL_FAIL] and the id 0, and the daemon goes on as the
    accelerator 0, which is another daemon's, and which it will unregister when
    it stops. *)
Theorem refused_registration a m addr storage iface l clnt d :
  accelMgr m = Some a → accel_reachable a →
  Z.of_nat (base.size (ids (al_registeredIds a))) = VMACCEL_MAX_ACCELERATORS →
  length addr = 4%nat → length storage = 4%nat → find_netif iface l = Some (inet_ntoa addr) →
  let arg := mkVMAccelRegisterDesc (set_parent_addr addr d) 0 in
  let refused := mkVMAccelAllocateReturnStatus 0 (Some (mkVMAccelAllocateStatus VMACCEL_FAIL 0 zero_VMAccelDesc)) in
  wf (pg_xdr_arg VMACCELMGR VMACCELMGR_REGISTER) arg →
  (length (enc (pg_xdr_arg VMACCELMGR VMACCELMGR_REGISTER) arg) ≤ send_room clnt)%nat →
  (∀ b, length (enc (pg_xdr_res VMACCELMGR VMACCELMGR_REGISTER) refused) ≤ reply_room (accept clnt b))%nat →
  fate clnt = Delivered →
  vmaccelmgr_register (Some l) (Some clnt) storage iface d m = Done (mkMgrClient (Some clnt) 0) (manager_with a m).
Proof.
  intros Hm Hreach Hfull Ha Hs Hnet arg refused Hwf Hsend Hreply Hf. pose proof (reachable_managed a Hreach) as HM.
  pose proof (Register_full VMACCEL_MAX_ACCELERATORS _ _ a (set_parent_addr addr d) HM Hfull) as Hreg.
  unfold vmaccelmgr_register. rewrite Hnet, (parse_local_host addr storage) by done.
  rewrite (bind_run _ _ m (true, addr) m) by done. cbv beta iota.
  assert (mgr_local VMACCELMGR_REGISTER arg m = Done refused (manager_with a m)) as Hlocal.
  { cbn [mgr_local]. unfold vmaccelmgr_register_1_svc, vmaccel_manager_register, on_accelMgr. mrun. rewrite Hm.
    change (VMAccelRegisterDesc_desc arg) with (set_parent_addr addr d). by rewrite Hreg. }
  rewrite (bind_run _ _ _ _ _ (register_call arg refused clnt m _ Hwf Hsend
    (conj eq_refl (conj is_u32_fail (conj is_u32_zero zero_accel_desc_wf))) Hreply Hf Hlocal)). done.
Qed.

Lemma covers_not_lt w v : covers w v → workload_lt w v = false.
Proof. intros Hcov. unfold workload_lt. rewrite !(proj2 (Z.ltb_ge _ _)) by (apply Hcov; set_solver). done. Qed.

(** A request for the accelerator that is the only one in the pool. *)
Lemma alloc_single a R E m id d req :
  managed VMACCEL_MAX_ACCELERATORS R E a → accelMgr m = Some a → Z.of_nat (base.size E) < VMACCEL_MAX_ACCELERATORS →
  al_free a = [new_object id d] → sound (VMAccelDesc_capacity d) →
  VMAccelDesc_parentId req = id → nonneg (VMAccelDesc_capacity req) → asks (VMAccelDesc_capacity req) →
  covers (VMAccelDesc_capacity d) (VMAccelDesc_capacity req) →
  ∃ ext o m', vmaccelmgr_alloc_1_svc req m =
      Done (mkVMAccelAllocateReturnStatus 0 (Some (mkVMAccelAllocateStatus VMACCEL_SUCCESS ext o))) m' ∧
    VMAccelAddress_addr (VMAccelDesc_parentAddr o) = VMAccelAddress_addr (VMAccelDesc_parentAddr d).
Proof.
  intros HM Hm Hlt Hpool [Hnn Hsum] Hp Hw Hask Hcov. set (e := new_object id d) in *.
  assert (workload_lt (cap e) (VMAccelDesc_capacity req) = false) as Hle by by apply covers_not_lt.
  assert (fits (al_free a) id (VMAccelDesc_capacity req) e) as Hfit by (rewrite Hpool; split; [left | done]).
  assert (admissible a id (VMAccelDesc_capacity req)) as Hadm.
  { split; [done |]. intros e' (Hin & _ & _). rewrite Hpool in Hin. apply list_elem_of_singleton in Hin as ->. done. }
  assert (∀ f, f ∈ dims → is_u32 (f (VMAccelDesc_capacity (GetObj e)))) as Hu.
  { intros f Hf. change (VMAccelDesc_capacity (GetObj e)) with (VMAccelDesc_capacity d).
    pose proof (Hnn f Hf). pose proof (dim_le_sum _ _ Hnn Hf). u32_unfold. lia. }
  destruct (proj2 (desc_Reserve_some (GetObj e) req Hu Hw Hle) Hask) as [[dv r] Hres].
  destruct (Alloc_run VMACCEL_MAX_ACCELERATORS N_range R E a id req zero_VMAccelDesc [] e dv r HM Hlt Hpool Hfit Hadm Hres)
    as (ext & o & a' & Halloc & _ & _ & _ & _ & _ & _ & _ & _ & Haddr).
  exists ext, (GetObj o), (manager_with a' m). split; [| exact Haddr].
  unfold vmaccelmgr_alloc_1_svc, vmaccel_manager_alloc, on_accelMgr. mrun. by rewrite Hm, Hp, Halloc.
Qed.

(** A request for an accelerator in front of others: the search of the pool is
    not specified. *)
Lemma alloc_several a R E m id d req pool :
  managed VMACCEL_MAX_ACCELERATORS R E a → accelMgr m = Some a → Z.of_nat (base.size E) < VMACCEL_MAX_ACCELERATORS →
  al_free a = new_object id d :: pool → pool ≠ [] → VMAccelDesc_parentId req = id →
  covers (VMAccelDesc_capacity d) (VMAccelDesc_capacity req) →
  vmaccelmgr_alloc_1_svc req m = Fault Undefined.
Proof.
  intros HM Hm Hlt Hpool Hne Hp Hcov. destruct pool as [| b post]; [done |].
  unfold vmaccelmgr_alloc_1_svc, vmaccel_manager_alloc, on_accelMgr. mrun. rewrite Hm, Hp.
  rewrite (Alloc_undefined VMACCEL_MAX_ACCELERATORS R E a id req zero_VMAccelDesc [] (new_object id d) b post); try done.
  rewrite Hpool. split; [left | split; [done | by apply covers_not_lt]].
Qed.

End Handover.

(** ** A port mapper, and concrete runs *)

Definition proto_key (p : protocol) : bool := match p with IPPROTO_UDP => false | IPPROTO_TCP => true end.

#[export] Instance simportmap : Portmap := {|
  portmap := gmap (Z * Z * bool) Z;
  lookup_port := λ prog vers proto m, m !! (prog, vers, proto_key proto);
  pmap_unset := λ prog vers m, delete (prog, vers, false) (delete (prog, vers, true) m);
  svc_create := λ _ _, true;
  svc_register := λ pid prog vers proto m,
    match m !! (prog, vers, proto_key proto) with
    | Some _ => (false, m)
    | None => (true, <[(prog, vers, proto_key proto) := pid]> m)
    end |}.

#[export] Instance simportmap_laws : PortmapLaws.
Proof.
  split.
  - intros prog vers m prog' vers' proto. simpl. case_decide as Hd.
    + destruct Hd as [-> ->]. destruct proto; simpl; by rewrite ?lookup_delete_eq, ?lookup_delete_ne, ?lookup_delete_eq by done.
    + by rewrite !lookup_delete_ne by (intros [= -> -> _]; by apply Hd).
  - intros pid prog vers proto m Hm. simpl in *. rewrite Hm. eexists. split; [done |].
    intros prog' vers' proto'. case_decide as Hd.
    + destruct Hd as (-> & -> & ->). by rewrite lookup_insert_eq.
    + rewrite lookup_insert_ne; [done |]. intros [= -> -> Hk]. apply Hd. by destruct proto, proto'.
Qed.

Lemma sim_create proto (m : @portmap simportmap) : svc_create proto m = true.
Proof. reflexivity. Qed.

(** The transcoder, started after the callback server of vmcl, gets the
    clients of both; the vmcl daemon started last changes nothing for them. *)
Lemma started_servers_reached_witness :
  ∃ m', start_all [(1, VMCLCallback); (2, TranscoderProgram); (3, VMCLProgram)] (∅ : @portmap simportmap) = Done tt m' ∧
    reaches TranscoderProgram IPPROTO_TCP m' = Some 2 ∧ reaches VMCLCallback IPPROTO_TCP m' = Some 2.
Proof.
  destruct (started_servers_reached sim_create [(1, VMCLCallback)] [(3, VMCLProgram)] 2 TranscoderProgram
              (∅ : @portmap simportmap)) as (m' & Hrun & Hown & Hcb & _).
  - intros x Hx. apply list_elem_of_singleton in Hx as ->. intros [E _]. discriminate E.
  - exists m'. split; [exact Hrun | split; [apply Hown | apply Hcb; reflexivity]].
Defined.

Definition demo_addr : list byte := [xc0; xa8; x00; x09].
Definition eth0 : list byte := [x65; x74; x68; x30].
Definition demo_netifs : list ifaddrs :=
  [mkIfaddrs [x6c; x6f] (Some (mkSockaddr AF_INET (Some (inet_ntoa [x7f; x00; x00; x01]))));
   mkIfaddrs eth0 None;
   mkIfaddrs eth0 (Some (mkSockaddr AF_INET (Some (inet_ntoa demo_addr))))].

Lemma demo_new_reachable : accel_reachable demo_new.
Proof. exists zero_VMAccelDesc, 0. apply rtc_refl. Qed.

Lemma demo_register_wf :
  wf (pg_xdr_arg VMACCELMGR VMACCELMGR_REGISTER) (mkVMAccelRegisterDesc (set_parent_addr demo_addr (demo_accel 100 64)) 0).
Proof. repeat (split || constructor); vm_compute; congruence. Qed.

Lemma demo_register_room id b :
  (length (enc (pg_xdr_res VMACCELMGR VMACCELMGR_REGISTER) (registered_answer id)) ≤ reply_room (accept mgr_client b))%nat.
Proof. apply Nat.leb_le. reflexivity. Qed.

Lemma demo_request : nonneg (demo_workload 30 16) ∧ covers (demo_workload 100 64) (demo_workload 30 16).
Proof.
  split; intros f Hf; unfold dims in Hf; set_unfold in Hf;
    repeat (destruct Hf as [-> | Hf]; [apply Z.leb_le; reflexivity |]); destruct Hf as [-> | []] || done; apply Z.leb_le; reflexivity.
Qed.

