(* ===== verification/Mains.v ===== *)
(** * The main functions of the manager and of the vmcl daemon

    vmaccel_mgr_svc.c and vmcl_rpc_svc.c, up to [svc_run] and after it: the
    announcement, the power-on of the components, and the registration of the
    daemon with the manager. *)

From S2P Require Import Prelude IdentifierDB XdrRuntime XdrRFC4506 RpcTypes XdrVMAccel Backend BackendOps BackendPower.
From S2P Require Import SimCL Server SunRPC Program Protocol ServicePower Allocator AllocTypes Manager Placement ManagerService Address.
From S2P Require Import Stream StreamServer StreamSim Daemon.
From stdpp Require Import gmap.
Open Scope Z_scope.
Open Scope list_scope.

Section Mains.
Context `{OpenCL} `{POSIX} `{StreamHost} `{XdrRuntime} `{SunRPC} `{Portmap}.

(** ** The manager *)

Record manager_process := mkManagerProcess {
  mp_portmap : portmap;
  mp_manager : manager;
}.

Definition at_mp_portmap {A} : M portmap A → M manager_process A :=
  zoom mp_portmap (λ x s, mkManagerProcess x (mp_manager s)).
Definition at_mp_manager {A} : MGR A → M manager_process A :=
  zoom mp_manager (λ x s, mkManagerProcess (mp_portmap s) x).

Definition manager_main_start (pid : Z) (ok : bool) (storage : VMAccelDesc) : M manager_process unit :=
  _ ← at_mp_portmap (serve pid ManagerProgram);
  _ ← at_mp_manager (vmaccel_manager_poweron ok storage);
  mret tt.

(** After [svc_run]. *)
Definition manager_main_stop : M manager_process unit :=
  _ ← at_mp_manager vmaccel_manager_poweroff; mret tt.

(** ** The vmcl daemon, with the manager it registers with *)

Record vmcl_process := mkVmclProcess {
  vp_portmap : portmap;
  vp_streams : streams;
  vp_server : server;
  vp_manager : manager;
}.

Definition at_portmap {A} : M portmap A → M vmcl_process A :=
  zoom vp_portmap (λ x s, mkVmclProcess x (vp_streams s) (vp_server s) (vp_manager s)).
Definition at_streams {A} : ST A → M vmcl_process A :=
  zoom vp_streams (λ x s, mkVmclProcess (vp_portmap s) x (vp_server s) (vp_manager s)).
Definition at_server {A} : SV A → M vmcl_process A :=
  zoom vp_server (λ x s, mkVmclProcess (vp_portmap s) (vp_streams s) x (vp_manager s)).
Definition at_manager {A} : MGR A → M vmcl_process A :=
  zoom vp_manager (λ x s, mkVmclProcess (vp_portmap s) (vp_streams s) (vp_server s) x).

(** What the system answers while the daemon starts: which allocations
    succeed, the interfaces, the connection to the manager and the bytes of
    [localAddr] on the stack. *)
Record surroundings := mkSurroundings {
  ok_stream_db : bool;
  ok_stream_bits : bool;
  ok_backend : nat → nat → bool;
  su_netifs : option (list ifaddrs);
  su_clnt : option CLIENT;
  su_stack : list byte;
}.

(** [iface]: the interface on the command line, when a manager is named. *)
Definition vmcl_main_start (pid : Z) (u : surroundings) (iface : option (list byte)) : M vmcl_process VMAccelMgrClient :=
  _ ← at_portmap (serve pid VMCLProgram);
  _ ← at_streams (vmaccel_stream_poweron (ok_stream_db u) (ok_stream_bits u));
  allocStatus ← at_server (vmcl_poweron_svc (ok_backend u));
  match allocStatus with
  | None => throw Exited
  | Some st =>
      if negb (VMAccelAllocateStatus_status st =? VMACCEL_SUCCESS) then throw Exited else
      match iface with
      | None => mret no_mgr_client
      | Some i =>
          mgrClient ← at_manager (vmaccelmgr_register (su_netifs u) (su_clnt u) (su_stack u) (Some i)
                                    (VMAccelAllocateStatus_desc st));
          match mc_clnt mgrClient with
          | None => _ ← at_server vmcl_poweroff_svc; throw Exited
          | Some _ => mret mgrClient
          end
      end
  end.

(** After [svc_run]. *)
Definition vmcl_main_stop (mgrClient : VMAccelMgrClient) : M vmcl_process unit :=
  _ ← match mc_clnt mgrClient with
      | Some _ => _ ← at_manager (vmaccelmgr_unregister mgrClient); mret tt
      | None => mret tt
      end;
  _ ← at_streams vmaccel_stream_poweroff;
  _ ← at_server vmcl_poweroff_svc;
  mret tt.
End Mains.

(** ** What holds when a daemon begins to serve *)

Lemma zoom_inv {S T A} (get : S → T) set (m : M T A) s a s' :
  zoom get set m s = Done a s' → ∃ t, m (get s) = Done a t ∧ s' = set t s.
Proof. unfold zoom. destruct (m (get s)) as [b t | f]; [| done]. intros [= <- <-]. eauto. Qed.

Section Started.
Context `{OpenCL} `{POSIX} `{StreamHost} `{XdrRuntime} `{SunRPC} `{PortmapLaws}.
Context (Hcreate : ∀ proto m, svc_create proto m = true).

Lemma serve_done pid p m u m' q proto :
  serve pid p m = Done u m' → reaches q proto m' = if decide (same_number q p) then Some pid else reaches q proto m.
Proof. intros Hs. destruct (serve_run Hcreate pid p m) as (m1 & Hr & Hm1). rewrite Hs in Hr. by injection Hr as _ ->. Qed.

Lemma register_client netifs clnt storage iface d m c m' :
  vmaccelmgr_register netifs clnt storage iface d m = Done c m' → mc_clnt c ≠ None →
  mc_clnt c = clnt ∧ ∃ l host, netifs = Some l ∧ find_netif iface l = Some host.
Proof.
  unfold vmaccelmgr_register. destruct netifs as [l |]; [| intros [= <- <-]; done].
  destruct (find_netif iface l) as [h |] eqn:Hn; [| intros [= <- <-]; done]. destruct clnt as [cl |]; [| done].
  intros Hrun. apply bind_inv in Hrun as ([ok addr] & m1 & _ & Hrun).
  apply bind_inv in Hrun as (r & m2 & _ & Hrun). destruct r as [r |]; [| injection Hrun as <- <-; done].
  destruct (VMAccelAllocateReturnStatus_ret r); injection Hrun as <- <-; [| done]. eauto 6.
Qed.

(** (C32) A vmcl daemon that gets to serve has announced itself: its clients
    reach it on both protocols and those of the other programs are where they
    were; its streams are initialised; and, when a manager is named on the
    command line, the daemon found the named interface and holds a connection
    to the manager, otherwise the manager has not been asked. *)
Theorem vmcl_daemon_serves pid u iface s c s' :
  vmcl_main_start pid u iface s = Done c s' →
  (∀ q proto, reaches q proto (vp_portmap s') =
     if decide (q = VMCLProgram) then Some pid else reaches q proto (vp_portmap s)) ∧
  g_init (vp_streams s') = 1 ∧
  match iface with
  | None => c = no_mgr_client ∧ vp_manager s' = vp_manager s
  | Some i => (mc_clnt c = su_clnt u ∧ mc_clnt c ≠ None) ∧ ∃ l h, su_netifs u = Some l ∧ find_netif (Some i) l = Some h
  end.
Proof.
  unfold vmcl_main_start. intros Hrun.
  apply bind_inv in Hrun as (u1 & s1 & Hs1 & Hrun). apply zoom_inv in Hs1 as (m1 & Hserve & ->).
  apply bind_inv in Hrun as (z & s2 & Hs2 & Hrun). apply zoom_inv in Hs2 as (t & Hst & ->). injection Hst as _ <-.
  apply bind_inv in Hrun as (st & s3 & Hs3 & Hrun). apply zoom_inv in Hs3 as (sv & _ & ->).
  destruct st as [st |]; [| done]. destruct (negb _); [done |].
  assert (∀ q proto, reaches q proto m1 = if decide (q = VMCLProgram) then Some pid else reaches q proto (vp_portmap s)) as Hre.
  { intros q proto. rewrite (serve_done pid VMCLProgram _ _ _ q proto Hserve).
    pose proof (same_number_cases q VMCLProgram) as Hc. repeat case_decide; try done; exfalso; naive_solver. }
  destruct iface as [i |].
  - apply bind_inv in Hrun as (mc & s4 & Hs4 & Hrun). apply zoom_inv in Hs4 as (m2 & Hreg & ->).
    destruct (mc_clnt mc) as [k |] eqn:Hk.
    + injection Hrun as <- <-. split_and!; [done | done | by apply (register_client _ _ _ _ _ _ _ _ Hreg); rewrite Hk
      | by rewrite Hk | apply (register_client _ _ _ _ _ _ _ _ Hreg); by rewrite Hk].
    + by apply bind_inv in Hrun as (? & ? & _ & Hrun).
  - injection Hrun as <- <-. done.
Qed.
End Started.

(** ** A concrete start *)

Definition demo_surroundings : surroundings :=
  mkSurroundings true true (λ _ _, true) (Some demo_netifs) (Some mgr_client) (replicate 4 x00).

Definition demo_process : vmcl_process :=
  mkVmclProcess (∅ : @portmap simportmap) (sim_boot ∅) off_server (demo_manager demo_new).

Definition start_run : outcome vmcl_process VMAccelMgrClient := vmcl_main_start 7 demo_surroundings (Some eth0) demo_process.

#[local] Strategy expand [start_run].

Lemma start_run_done :
  vmcl_main_start 7 demo_surroundings (Some eth0) demo_process =
    Done (mkMgrClient (Some mgr_client) 0) (run_state demo_process start_run).
Proof. apply (run_done no_mgr_client); by_compute. Qed.

Lemma vmcl_daemon_serves_witness :
  reaches VMCLProgram IPPROTO_TCP (vp_portmap (run_state demo_process start_run)) = Some 7 ∧
  g_init (vp_streams (run_state demo_process start_run)) = 1.
Proof.
  destruct (vmcl_daemon_serves sim_create 7 demo_surroundings (Some eth0) demo_process (mkMgrClient (Some mgr_client) 0)
              (run_state demo_process start_run) start_run_done) as (Hre & Hinit & _).
  split; [exact (Hre VMCLProgram IPPROTO_TCP) | exact Hinit].
Defined.
