(* ===== verification/Skeletons.v ===== *)
(** * The accelerator program and the callback programs

    vmaccel_rpc_server.c, vmaccel_callback_rpc_server.c and
    vmcl_callback_rpc_server.c are the skeletons rpcgen writes: each routine
    answers its static result, which nothing changes.  Here are these routines,
    the programs VMACCEL, VMACCEL_CALLBACK and VMCL_CALLBACK (vmaccel_rpc_svc.c
    and the two callback dispatchers), and the stubs of vmaccel_clnt.c, which
    take the service mutexes, and of the callback clients, which take none. *)

From S2P Require Import Prelude IdentifierDB XdrRuntime XdrRFC4506 RpcTypes XdrVMAccel XdrVMCL XdrVMXC Backend SimCL Server.
From S2P Require Import SunRPC Program Protocol ServicePower Spirv SpirvClone Vmxc SimSpirv VmxcCalls.
Open Scope Z_scope.
Open Scope list_scope.

(** ** The routines *)

Section Routines.
Context {S : Type}.

Definition vmaccel_resourcealloc_1_svc (argp : VMAccelResourceDesc) : M S (option VMAccelResourceAllocateReturnStatus) :=
  mret (Some zero_VMAccelResourceAllocateReturnStatus).
Definition vmaccel_resourcerelease_1_svc (argp : Z) : M S (option VMAccelReturnStatus) :=
  mret (Some zero_VMAccelReturnStatus).
Definition vmaccel_compute_1_svc (argp : VMAccelComputeOp) : M S (option VMAccelComputeReturnStatus) :=
  mret (Some zero_VMAccelComputeReturnStatus).
Definition vmaccel_callbackop_1_svc (argp : VMAccelCallbackOp) : M S (option VMAccelReturnStatus) :=
  mret (Some zero_VMAccelReturnStatus).
Definition vmcl_callbackop_1_svc (argp : VMCLCallbackOp) : M S (option VMAccelReturnStatus) :=
  mret (Some zero_VMAccelReturnStatus).
End Routines.

(** ** The programs *)

Inductive accel_proc : Type := VMACCEL_RESOURCEALLOC | VMACCEL_RESOURCERELEASE | VMACCEL_COMPUTE.

Definition accel_number (p : accel_proc) : Z :=
  match p with VMACCEL_RESOURCEALLOC => 1 | VMACCEL_RESOURCERELEASE => 2 | VMACCEL_COMPUTE => 3 end.
Definition accel_proc_of (n : Z) : option accel_proc :=
  if n =? 1 then Some VMACCEL_RESOURCEALLOC else if n =? 2 then Some VMACCEL_RESOURCERELEASE else
  if n =? 3 then Some VMACCEL_COMPUTE else None.
Definition accel_arg (p : accel_proc) : Type :=
  match p with VMACCEL_RESOURCEALLOC => VMAccelResourceDesc | VMACCEL_RESOURCERELEASE => Z | VMACCEL_COMPUTE => VMAccelComputeOp end.
Definition accel_res (p : accel_proc) : Type :=
  match p with
  | VMACCEL_RESOURCEALLOC => VMAccelResourceAllocateReturnStatus
  | VMACCEL_RESOURCERELEASE => VMAccelReturnStatus
  | VMACCEL_COMPUTE => VMAccelComputeReturnStatus
  end.
Definition accel_zero_res (p : accel_proc) : accel_res p :=
  match p with
  | VMACCEL_RESOURCEALLOC => zero_VMAccelResourceAllocateReturnStatus
  | VMACCEL_RESOURCERELEASE => zero_VMAccelReturnStatus
  | VMACCEL_COMPUTE => zero_VMAccelComputeReturnStatus
  end.

Section Tables.
Context `{XdrRuntime} {S : Type}.

Definition accel_routine (p : accel_proc) : accel_arg p → M S (option (accel_res p)) :=
  match p with
  | VMACCEL_RESOURCEALLOC => vmaccel_resourcealloc_1_svc
  | VMACCEL_RESOURCERELEASE => vmaccel_resourcerelease_1_svc
  | VMACCEL_COMPUTE => vmaccel_compute_1_svc
  end.

Definition VMACCEL : rpc_program S := {|
  pg_proc := accel_proc; pg_number := accel_number; pg_proc_of := accel_proc_of; pg_arg := accel_arg; pg_res := accel_res;
  pg_zero_arg := λ p, match p return accel_arg p with
    | VMACCEL_RESOURCEALLOC => zero_VMAccelResourceDesc | VMACCEL_RESOURCERELEASE => 0
    | VMACCEL_COMPUTE => zero_VMAccelComputeOp end;
  pg_zero_res := accel_zero_res;
  pg_xdr_arg := λ p, match p return filter (accel_arg p) with
    | VMACCEL_RESOURCEALLOC => xdr_VMAccelResourceDesc | VMACCEL_RESOURCERELEASE => xdr_VMAccelId
    | VMACCEL_COMPUTE => xdr_VMAccelComputeOp end;
  pg_xdr_res := λ p, match p return filter (accel_res p) with
    | VMACCEL_RESOURCEALLOC => xdr_VMAccelResourceAllocateReturnStatus
    | VMACCEL_RESOURCERELEASE => xdr_VMAccelReturnStatus
    | VMACCEL_COMPUTE => xdr_VMAccelComputeReturnStatus end;
  pg_routine := accel_routine |}.

(** A program of one procedure, number 1, that answers a [VMAccelReturnStatus]. *)
Definition callback_program {A} (zero : A) (f : filter A) (routine : A → M S (option VMAccelReturnStatus)) : rpc_program S := {|
  pg_proc := unit; pg_number := λ _, 1; pg_proc_of := λ n, if n =? 1 then Some tt else None;
  pg_arg := λ _, A; pg_res := λ _, VMAccelReturnStatus; pg_zero_arg := λ _, zero; pg_zero_res := λ _, zero_VMAccelReturnStatus;
  pg_xdr_arg := λ _, f; pg_xdr_res := λ _, xdr_VMAccelReturnStatus; pg_routine := λ _, routine |}.

Definition VMACCEL_CALLBACK : rpc_program S :=
  callback_program zero_VMAccelCallbackOp xdr_VMAccelCallbackOp vmaccel_callbackop_1_svc.
Definition VMCL_CALLBACK : rpc_program S :=
  callback_program zero_VMCLCallbackOp xdr_VMCLCallbackOp vmcl_callbackop_1_svc.

Context `{SunRPC}.
Definition vmaccel_1 : Z → SVCXPRT → M S reply := svc_dispatch VMACCEL.
Definition vmaccel_callback_1 : Z → SVCXPRT → M S reply := svc_dispatch VMACCEL_CALLBACK.
Definition vmcl_callback_1 : Z → SVCXPRT → M S reply := svc_dispatch VMCL_CALLBACK.
End Tables.

(** ** The stubs *)

Definition accel_mutex (p : accel_proc) : svc_mutex :=
  match p with VMACCEL_COMPUTE => svc_compute_mutex | _ => svc_state_mutex end.

Section Stubs.
Context `{OpenCL} `{XdrRuntime} `{SunRPC}.

(** The body of [vmaccel_*_1(argp, clnt)] of vmaccel_clnt.c. *)
Definition vmaccel_call (b : build) (tid : Z) (p : accel_proc) (argp : accel_arg p) (clnt : option CLIENT) :
    W (option (accel_res p)) :=
  if ENABLE_VMACCEL_LOCAL b && (match clnt with None => true | Some _ => false end) then
    _ ← svc_lock tid (accel_mutex p);
    ret ← accel_routine p argp;
    _ ← svc_unlock tid (accel_mutex p);
    mret ret
  else if ENABLE_VMACCEL_RPC b then
    _ ← svc_lock tid (accel_mutex p);
    match clnt with
    | None => throw BadAccess
    | Some c =>
        ret ← clnt_stub VMACCEL p argp c;
        _ ← svc_unlock tid (accel_mutex p);
        mret ret
    end
  else mret None.

Definition vmaccel_resourcealloc_1 (b : build) (tid : Z) := vmaccel_call b tid VMACCEL_RESOURCEALLOC.
Definition vmaccel_resourcerelease_1 (b : build) (tid : Z) := vmaccel_call b tid VMACCEL_RESOURCERELEASE.
Definition vmaccel_compute_1 (b : build) (tid : Z) := vmaccel_call b tid VMACCEL_COMPUTE.

(** The body of the callback stubs, which take no mutex. *)
Definition callback_call {S} (b : build) (P : rpc_program S) (p : pg_proc P) (argp : pg_arg P p) (clnt : option CLIENT) :
    M S (option (pg_res P p)) :=
  if ENABLE_VMACCEL_LOCAL b && (match clnt with None => true | Some _ => false end) then pg_routine P p argp
  else if ENABLE_VMACCEL_RPC b then
    match clnt with
    | None => throw BadAccess
    | Some c => clnt_stub P p argp c
    end
  else mret None.

Definition vmaccel_callbackop_1 {S} (b : build) (argp : VMAccelCallbackOp) (clnt : option CLIENT) : M S (option VMAccelReturnStatus) :=
  callback_call b VMACCEL_CALLBACK tt argp clnt.
Definition vmcl_callbackop_1 {S} (b : build) (argp : VMCLCallbackOp) (clnt : option CLIENT) : M S (option VMAccelReturnStatus) :=
  callback_call b VMCL_CALLBACK tt argp clnt.
End Stubs.

(** ** What the callers get *)

Section Outcomes.
Context `{OpenCL} `{XdrLaws} `{SunRPCLaws}.

Definition accel_format_argument S p : Format (pg_xdr_arg (VMACCEL (S := S)) p) :=
  match p return Format (pg_xdr_arg (VMACCEL (S := S)) p) with
  | VMACCEL_RESOURCEALLOC => format_VMAccelResourceDesc
  | VMACCEL_RESOURCERELEASE => format_VMAccelId
  | VMACCEL_COMPUTE => format_VMAccelComputeOp
  end.

Definition accel_format_result S p : Format (pg_xdr_res (VMACCEL (S := S)) p) :=
  match p return Format (pg_xdr_res (VMACCEL (S := S)) p) with
  | VMACCEL_RESOURCEALLOC => format_VMAccelResourceAllocateReturnStatus
  | VMACCEL_RESOURCERELEASE => format_VMAccelReturnStatus
  | VMACCEL_COMPUTE => format_VMAccelComputeReturnStatus
  end.

#[global] Instance accel_laws S : RpcProgramLaws (VMACCEL (S := S)).
Proof.
  apply (Build_RpcProgramLaws _ VMACCEL) with
    (program_format_argument := accel_format_argument S) (program_format_result := accel_format_result S);
    try (by intros []); try (intros []; apply _).
  intros n p. simpl. unfold accel_proc_of. by repeat case_match; intros [= <-]; apply Z.eqb_eq.
Defined.

#[global] Instance callback_laws {S A} (zero : A) f r `{!Format f} `{!Lawful f} :
  RpcProgramLaws (callback_program (S := S) zero f r).
Proof.
  unshelve econstructor; simpl; try (by intros []); try (intros; apply _).
  intros n []. simpl. case_match eqn:E; [by intros; apply Z.eqb_eq | done].
Defined.

(** A mutex that is free can be taken and given back. *)
Lemma svc_locked {A} tid k (m : W A) a w :
  get_svc_mutex k w = Normal None →
  m (set_svc_mutex k (Normal (Some tid)) w) = Done a (set_svc_mutex k (Normal (Some tid)) w) →
  (_ ← svc_lock tid k; r ← m; _ ← svc_unlock tid k; mret r) w = Done a w.
Proof.
  intros Hfree Hm. unfold svc_lock. mrun. rewrite Hfree. simpl. rewrite Hm.
  unfold svc_unlock. mrun. by destruct k, w; simpl in *; rewrite Hfree.
Qed.

Lemma accel_zero_wf S p : wf (pg_xdr_res (VMACCEL (S := S)) p) (accel_zero_res p).
Proof. destruct p; by split. Qed.

(** A call to the accelerator program, on either path and whatever it asks
    for, finds its mutex free as it left it, changes nothing, and is answered
    with [errno] 0 and no [ret], which is how the callers see that nothing was
    done; a lost message is answered with [NULL]. *)
Theorem vmaccel_call_outcome b tid p argp clnt w :
  get_svc_mutex (accel_mutex p) w = Normal None →
  match clnt with
  | None => ENABLE_VMACCEL_LOCAL b = true
  | Some c => ENABLE_VMACCEL_RPC b = true ∧ wf (pg_xdr_arg (VMACCEL (S := world)) p) argp ∧
      (length (enc (pg_xdr_arg (VMACCEL (S := world)) p) argp) ≤ send_room c)%nat ∧
      ∀ x, (length (enc (pg_xdr_res (VMACCEL (S := world)) p) (accel_zero_res p)) ≤ reply_room (accept c x))%nat
  end →
  vmaccel_call b tid p argp clnt w =
    Done (match clnt with
          | None => Some (accel_zero_res p)
          | Some c => match fate c with Delivered => Some (accel_zero_res p) | _ => None end
          end) w.
Proof.
  intros Hfree Hpath. unfold vmaccel_call. destruct clnt as [c |].
  - destruct Hpath as (Hrpc & Hwf & Hsend & Hreply). rewrite andb_false_r, Hrpc. apply svc_locked; [done |].
    pose proof (clnt_stub_outcome (S := world) VMACCEL p argp c (set_svc_mutex (accel_mutex p) (Normal (Some tid)) w)) as Hc.
    rewrite (Hc Hwf Hsend).
    + destruct p; by destruct (fate c).
    + intros r s' Hr. assert (r = accel_zero_res p) as -> by (destruct p; by injection Hr as <- <-).
      split; [apply accel_zero_wf | apply Hreply].
  - rewrite Hpath. apply svc_locked; [done |]. by destruct p.
Qed.
End Outcomes.

(** ** A callback that reaches the transcoder

    VMCL_CALLBACK and VMXC have the same number ([Daemon]), and so have their
    first procedures.  The bytes of this callback are those of a transcode
    whose module is empty and whose target is its own language. *)

Definition stray_callback : VMCLCallbackOp := mkVMCLCallbackOp 1 1 0 4 (replicate 8 x00).

Lemma stray_callback_stops :
  clnt_call vmxc_client (vmxc_1 false demo_storage) (pg_number (VMCL_CALLBACK (S := vmxc_server)) tt)
    xdr_VMCLCallbackOp stray_callback xdr_VMAccelReturnStatus zero_VMAccelReturnStatus demo_vmxc = Fault AssertFailed.
Proof. by_compute. Qed.
