(* ===== verification/Values.v ===== *)
(** * The C++ object layer: plain values

    common/inc/vmaccel.hpp and vmaccel_compute.hpp: the classes that hold
    values for the operations of [Operations], [address], [work_topology],
    [binding] and [compute::kernel], and the argument lists of an
    operation. *)

From S2P Require Import Prelude IdentifierDB XdrRuntime XdrRFC4506 RpcTypes Backend BackendOps BackendPower SimCL BackendInvariants Address Protocol Objects Operations.
Open Scope Z_scope.
Open Scope list_scope.

Section Values.
Context {S : Type}.

(** ** class address

    The answer [None] is the exception.  [buffer] is the memory [malloc]
    answers, [storage] what the members hold that the constructor does not
    set. *)
Definition new_address (buffer : option (list byte)) (storage : VMAccelAddress) (host : list byte) : M S (option VMAccelAddress) :=
  let with_addr a := mkVMAccelAddress a (VMAccelAddress_port storage) (VMAccelAddress_resourceType storage)
                       (VMAccelAddress_subDevice storage) in
  match host with
  | [] => mret (Some (with_addr []))
  | _ =>
      b ← access buffer;
      '(ok, addr) ← access (VMAccel_AddressStringToOpaqueAddr (c_string host) b VMACCEL_MAX_LOCATION_SIZE);
      mret (if (ok : bool) then Some (with_addr addr) else None)
  end.

(** The destructor: whether it frees the buffer of the address. *)
Definition delete_address_frees (a : VMAccelAddress) : bool :=
  match VMAccelAddress_addr a with [] => true | _ => false end.

(** ** class work_topology

    Global offsets, global sizes and local sizes, as in [op_topology]; [None]
    is the exception. *)
Definition new_work_topology (gOffsets gSizes lSizes : list Z) : option (list Z * list Z * list Z) :=
  if negb (length gOffsets =? length gSizes)%nat || negb (length gOffsets =? length lSizes)%nat ||
     negb (length gSizes =? length lSizes)%nat
  then None else Some (gOffsets, gSizes, lSizes).

Definition get_num_dimensions (t : list Z * list Z * list Z) : Z := u32 (Z.of_nat (length t.1.1)).
Definition get_attribute_size (t : list Z * list Z * list Z) : Z := u32 (get_num_dimensions t * 4).

(** ** class compute::kernel: the source, with its terminating NUL *)
Definition new_kernel (type : Z) (kernelSource : list byte) : list (Z * list byte) := [(type, c_string kernelSource ++ [x00])].

(** ** class operation: the bindings of [prepare], in the order of the
    arguments *)
Fixpoint prepareArgs {B} (b : list B) (args : list B) : list B :=
  match args with
  | [] => b
  | [arg] => b ++ [arg]
  | arg :: args => prepareArgs (b ++ [arg]) args
  end.

Lemma prepareArgs_app {B} (args : list B) : ∀ b, prepareArgs b args = b ++ args.
Proof.
  induction args as [| x [| y args] IH]; intros b; [by rewrite app_nil_r | done |].
  cbn [prepareArgs] in *. by rewrite IH, <- app_assoc.
Qed.

Lemma c_string_no_nul l : Forall (λ c, c ≠ x00) l → c_string l = l.
Proof. induction 1 as [| c l Hc _ IH]; [done |]. simpl. rewrite IH. by destruct c. Qed.

Lemma inet_aton_length rounds : ∀ parts s a, (length parts ≤ 3)%nat → inet_aton rounds parts s = Some a → length a = 4%nat.
Proof.
  induction rounds as [| rounds IH]; intros parts s a Hp; [done |]. cbn [inet_aton].
  destruct s as [| c s]; [done |]. destruct (digit_in 10 c); [| done].
  assert (∀ v, inet_pack parts v = Some a → length a = 4%nat) as Hpack.
  { intros v. unfold inet_pack. case_match; [done |]. intros [= <-].
    rewrite length_app, !length_fmap, length_reverse, length_seq. lia. }
  destruct (strtoul (c :: s)) as [val [| c' rest]]; [apply Hpack |].
  destruct (byte_val c' =? 46).
  - destruct (Z.leb_spec 3 (Z.of_nat (length parts))); [done |]. simpl. destruct (255 <? val); [done |].
    apply IH. rewrite length_app. simpl. lia.
  - destruct (is_space c'); [apply Hpack | done].
Qed.

Lemma inet_addr_length s : length (inet_addr s) = 4%nat.
Proof.
  unfold inet_addr. destruct (inet_aton 4 [] s) as [a |] eqn:E; [| done]. simpl.
  apply (inet_aton_length 4 [] s a); [simpl; lia | done].
Qed.

(** An address made from a text: the text of an IPv4 address gives that
    address back, and a text that is none gives 255.255.255.255: the exception
    is never thrown, and the destructor does not free the buffer. *)
Theorem new_address_outcome buffer storage host (s : S) :
  host ≠ [] → length buffer = 4%nat →
  ∃ a, new_address (Some buffer) storage host s = Done (Some a) s ∧
    VMAccelAddress_addr a = inet_addr (c_string host) ∧ delete_address_frees a = false ∧
    (∀ ip, length ip = 4%nat → host = inet_ntoa ip → VMAccelAddress_addr a = ip) ∧
    (inet_aton 4 [] (c_string host) = None → VMAccelAddress_addr a = [xff; xff; xff; xff]).
Proof.
  intros Hne Hb. exists (mkVMAccelAddress (inet_addr (c_string host)) (VMAccelAddress_port storage)
                           (VMAccelAddress_resourceType storage) (VMAccelAddress_subDevice storage)).
  assert (VMAccel_AddressStringToOpaqueAddr (c_string host) buffer VMACCEL_MAX_LOCATION_SIZE =
          Some (true, inet_addr (c_string host))) as Hconv.
  { unfold VMAccel_AddressStringToOpaqueAddr. rewrite Hb. change (VMACCEL_MAX_LOCATION_SIZE =? 4) with true.
    change (Z.of_nat 4 <? 4) with false. cbv iota. by rewrite (drop_ge buffer), app_nil_r by lia. }
  split; [unfold new_address; destruct host as [| c host]; [done |]; mrun; by rewrite Hconv |].
  cbn [VMAccelAddress_addr]. split; [done |]. split; [| split].
  - unfold delete_address_frees. cbn [VMAccelAddress_addr]. pose proof (inet_addr_length (c_string host)) as Hl.
    by destruct (inet_addr (c_string host)).
  - intros ip Hip Hh. rewrite Hh, c_string_no_nul by apply inet_ntoa_no_nul. by apply inet_addr_ntoa.
  - intros Hn. unfold inet_addr. by rewrite Hn.
Qed.
End Values.

(** ** Topologies on their way to the device *)

Lemma new_work_topology_some o g l t :
  new_work_topology o g l = Some t ↔ t = (o, g, l) ∧ length o = length g ∧ length o = length l.
Proof.
  unfold new_work_topology. destruct (Nat.eqb_spec (length o) (length g)), (Nat.eqb_spec (length o) (length l)),
    (Nat.eqb_spec (length g) (length l)); simpl; split; try naive_solver lia.
Qed.

Section Dispatch.
Context `{OpenCL}.

Lemma read_first {A} (x : A) xs : read_n 1 (x :: xs) = mret [x].
Proof. unfold read_n. by rewrite (proj2 (Z.leb_le _ _)) by (simpl length; lia). Qed.

Lemma enqueue_first queue kernel cid q kid args o g l os gs ls :
  dispatch_enqueue queue kernel (dispatch_arg cid q kid (o :: os, g :: gs, l :: ls) args) =
  dispatch_enqueue queue kernel (dispatch_arg cid q kid ([o], [g], [l]) args).
Proof.
  unfold dispatch_enqueue, dispatch_arg. cbn [VMCLDispatchOp_dimension VMCLDispatchOp_globalWorkOffset
    VMCLDispatchOp_globalWorkSize VMCLDispatchOp_localWorkSize fst snd]. by rewrite !read_first.
Qed.

(** (C33) A dispatch has one dimension: a topology is accepted exactly when
    its three arrays have equal lengths, and the request made from it always
    says one dimension, so that whatever the topology has in its other
    dimensions, the backend does with it what it does with its first
    dimension alone. *)
Theorem first_dimension_only tid cid q kid args o g l os gs ls b :
  length os = length gs → length os = length ls →
  ∃ t, new_work_topology (o :: os) (g :: gs) (l :: ls) = Some t ∧ get_num_dimensions t = u32 (1 + Z.of_nat (length os)) ∧
    vmwopencl_dispatch_1 tid (dispatch_arg cid q kid t args) b =
    vmwopencl_dispatch_1 tid (dispatch_arg cid q kid ([o], [g], [l]) args) b.
Proof.
  intros Hg Hl. exists (o :: os, g :: gs, l :: ls). split_and!.
  - apply new_work_topology_some. simpl. auto with lia.
  - unfold get_num_dimensions. simpl length. f_equal. lia.
  - unfold vmwopencl_dispatch_1. cbv zeta. unfold mbind, M_bind.
    cbn [dispatch_arg VMCLDispatchOp_queue VMCLDispatchOp_kernel VMCLDispatchOp_args].
    destruct (tab_read Queues _ b) as [qu b1 |]; [| done]. destruct (tab_read Kernels _ b1) as [k b2 |]; [| done].
    destruct (dispatch_args _ _ _ _ b2) as [[i [st |]] b3 |]; [done | | done]. by rewrite enqueue_first.
Qed.
End Dispatch.

(** A matrix of four by four elements, of which one row is computed. *)
Lemma first_dimension_only_witness :
  ∃ t, new_work_topology [0; 0] [4; 4] [1; 1] = Some t ∧ get_num_dimensions t = 2 ∧
    vmwopencl_dispatch_1 1 (dispatch_arg 0 0 0 t []) sim_ready =
    vmwopencl_dispatch_1 1 (dispatch_arg 0 0 0 ([0], [4], [1]) []) sim_ready.
Proof. exact (first_dimension_only 1 0 0 0 [] 0 4 1 [0] [4] [1] sim_ready eq_refl eq_refl). Defined.
